(* ===== verification/_CoqProject ===== *)
-Q . S2P
Prelude.v
Slip.v
Crc.v
WlanIe.v
Chain.v
MmBuf.v
DnsForwarder.v
CStr.v
Settings.v
RegDb.v
RegDbDef.v
LoadConfig.v
WebText.v
WebForm.v
WebConfig.v
MmPkt.v
PktList.v
PktMemHeap.v
PktMemStatic.v
AppCommon.v
NatRouter.v
IperfCommon.v
IperfUdp.v
IperfUdpClient.v
MmNetif.v
MmIpal.v
IperfTcp.v
IperfMain.v
S1gAp.v
OsMmosal.v
SdioSpi.v
SdioProto.v
SdioCard.v
S1gTables.v
S1gChan.v
S1gCsa.v
S1gOpClasses.v
