(* ===== verification/Prelude.v ===== *)
(** HaLow to Wi-Fi bridge.

    The program is the firmware of an ESP32 that joins a Wi-Fi HaLow (802.11ah)
    network as a station, opens a 2.4 GHz access point of its own and routes
    between the two.  [src/examples/iperf] is the application,
    [src/framework] Morse Micro's SDK with its driver's open parts and a copy of
    hostap.  This development translates the application and the SDK's open
    C code, function by function, and proves what each part promises.

    *** The parts and how they meet

    At start-up [app_main] (IperfMain; order of start-up in NatRouter) loads the
    settings from flash (Settings), gives them to the station (LoadConfig,
    AppCommon), waits for the link and starts the access point, the NAT, the
    DNS forwarder and the web page (NatRouter, DnsForwarder, WebConfig), and
    the iperf service (IperfUdp, IperfUdpClient, IperfTcp).  The web page writes
    the settings that the next start loads.  Packets move between lwIP and the
    closed driver through MmIpal and MmNetif, in the buffers of MmPkt, whose
    memory is PktMemHeap or PktMemStatic.  A country selects a channel list
    (RegDb, RegDbDef), which the access point code of hostap must agree with
    (S1gAp); information elements are read by WlanIe.  The driver reaches its
    chip over SPI; the SDK's own host for it that is open is the porting
    assistant's (SdioSpi).  The supplicant keeps S1G channels as the HT channels
    that stand for them (S1gChan, S1gCsa).

    *** Files

    Shared:
    - Prelude: C integers at their width ([u8], [u16], [u32], [s32], ...),
      results with faults ([outcome]), checked reads and writes of arrays,
      windows of buffers.
    - CStr: terminated strings in arrays; [strlen], [strncpy], [snprintf], ...
    - Chain: linked lists in a store of nodes (class [Linked]).
    - PktList: the interface of [mmpkt_list.h], whose code is closed.

    The application, [src/examples/iperf/main/src]:
    - DnsForwarder: dns_forwarder.c.  [dns_forwarder_step] is one turn of the
      task's loop, on the pending table, the cache and the buffer.
    - Settings: settings.c, over class [Nvs] (ESP-IDF's storage) with [KvNvs] an
      implementation of it.
    - LoadConfig: mm_app_loadconfig.c and [mmosal_safer_strcpy].
    - WebText, WebForm, WebConfig: web_config.c; texts, escaping and decoding,
      handlers.
    - AppCommon: mm_app_common.c.  [state] is its static data; each callback
      returns the new state and the actions asked of the environment.  In [step]
      a timer command that does not get into the timer task's queue is lost.
    - NatRouter: nat_router.c and the start-up order of iperf.c.
    - IperfMain: iperf.c.

    The SDK, [src/framework]:
    - Slip: src/slip.  Crc: src/mmutils/mmcrc.c.  WlanIe: mmutils_wlan.c and
      mmutils.h.  MmBuf: mmbuf.h and mmbuf.c.
    - MmPkt: morselib/include/mmpkt.h.  PktMemHeap, PktMemStatic:
      src/mmpktmem.
    - RegDb, RegDbDef: the types and lookup of mmwlan.h and the two databases,
      src/mmregdb/mmregdb.c and morselib/include/mmwlan_regdb.def.
    - IperfCommon: src/mmiperf/common, mmiperf.h, the clock comparisons of
      mmosal.h.  IperfUdp, IperfUdpClient: lwip/mmiperf_udp.c.  IperfTcp:
      lwip/mmiperf_tcp.c.
    - MmNetif: src/mmipal/lwip/mmnetif.c.  MmIpal: mmipal_lwip.c, over class
      [Lwip] with the laws [LwipLaws] and an instance that has them.
    - S1gAp: src/hostap/src/ap/ieee802_11_s1g.c.  OsMmosal:
      src/hostap/os_mmosal.c.  S1gTables, S1gChan, S1gCsa, S1gOpClasses: the
      tables, conversions, channel switches and operating classes of
      src/hostap/src/utils/morse.c, with what Morse Micro added to
      wpa_supplicant/op_classes.c and rrm.c.

    The porting assistant, [src/examples/porting_assistant]:
    - SdioSpi: sdio_spi.c over class [SpiBus].  SdioProto: what a card promises
      (class [SdioCard], laws of the SD specification) and what the host does
      with such a card.  SdioCard: transfers of any length, and a concrete card.

    *** How the code is translated

    A C integer is a [Z] brought to its width by the conversions of Prelude
    wherever the code stores or computes it.  An array is the list of its
    octets; every access is checked, [Fail OutOfBounds] is an access outside.
    An assertion is [Fail AssertFailed].  A pointer into an array is an offset;
    a pointer to a node a location of a store, [None] for NULL; access to a
    location not in the store is a fault, so that use after free is one.
    Memory the code does not initialise is an argument ([junk]).  A call of code
    that is not here (ESP-IDF, FreeRTOS, lwIP, the closed morselib) is an
    argument that gives its answer, and an action recorded in the result.
    A callback or one turn of a task's loop is a function on the state; runs are
    lists of events, and invariants are proved over all of them.  Where tasks
    overtake each other within a function (transmit pool of PktMemHeap,
    reconnection of AppCommon) the steps are the atomic operations.

    *** What is proved

    - Safety: from every reachable state, in the 49.7 days before the clock's
      count wraps, each datagram is handled within its buffers and goes only where
      it belongs, and a query is answered with other traffic in between
      (DnsForwarder); the transmit pool
      under every interleaving (PktMemHeap); the static pools and received
      packets are conserved (PktMemStatic, MmNetif); strings stay terminated in
      their arrays (Settings, LoadConfig, WebForm, OsMmosal); the TCP client's
      stream has no gap (IperfTcp).
    - Refinement of an abstract specification: buffers and packets as head
      room, data and tail room (MmBuf, MmPkt), linked lists as sequences
      (MmBuf.MmBufList), SDIO writes as writes to the chip's memory (SdioCard).
    - Equivalence with a reference: CRC-16/XMODEM (Crc), S1G operating classes
      and the regulatory databases (S1gAp, S1gChan); which channel switches are
      refused (S1gCsa), with the exception of Japan.
    - Round trips: settings through flash, the form from the browser through the
      page to the next start, HTML escaping, SLIP, the iperf report, RSN and S1G
      elements, SDIO write then read.
    - Whole tests: iperf client and server together, UDP and TCP.
    - Life cycle: invariant of the station for all events, and its one
      reconnection after a lost link if the timer's start is accepted (AppCommon);
      link notifications, each true of the interface at its moment (MmIpal).
    - Findings: each deviation found has a theorem that exhibits it on concrete
      values.

    *** Fuel

    A loop that is not over a list has fuel; running out is [Fail OutOfFuel], and
    the theorems that conclude with [Ok] show that the fuel is enough.  Loops over
    linked lists get the size of the store, or one more; a list in it is no longer
    ([chain_size] of Chain).  The
    name loop of DnsForwarder gets the length of the datagram.  Decimal numbers get
    10 digits (a 32-bit number has no more), [format_bytes] 5 turns (four units).
    [os_strlcpy] gets the size plus one and the source's length plus one,
    [os_get_random] the length plus one.  The UDP client's loop, endless in the
    code if the clock stands still, ends within 60 turns per datagram
    ([client_loop_ends]); the TCP client's send loop within the free space of the
    send buffer plus two; its wait for a block's end takes the clock as it comes
    and needs a reading late enough.  In SdioSpi the polls of the bus have the
    source's own limits, and the loops over blocks and windows one turn more than
    their count, or than the length.

    *** Not modelled

    The closed parts of the SDK (morselib's binaries: MAC, driver, mmpkt lists)
    and what lies under it (ESP-IDF, FreeRTOS, lwIP, mbedTLS) are the environment.
    hostap is a third party's program and is left aside, but for the code
    Morse Micro wrote that is listed above.  The shims that
    only pass calls on (crypto_mbedtls_mm.c, mmosal_shim_freertos_esp32.c,
    mmhal_*.c), the variants for FreeRTOS+TCP, the other example applications and
    the texts printed on the console have no definitions.  The manifest lists
    each with its reason. *)

From Stdlib Require Export ZArith Lia.
From stdpp Require Export base list gmap strings numbers.

Global Open Scope Z_scope.

(** * C integers

    Values of C integer types are mathematical integers; every operation
    that can leave the range of its type is followed by the conversion to
    that type. *)

Definition u8 (z : Z) : Z := z mod 2 ^ 8.
Definition u16 (z : Z) : Z := z mod 2 ^ 16.
Definition u32 (z : Z) : Z := z mod 2 ^ 32.
Definition u64 (z : Z) : Z := z mod 2 ^ 64.
Definition s32 (z : Z) : Z := (z + 2 ^ 31) mod 2 ^ 32 - 2 ^ 31.
Definition s64 (z : Z) : Z := (z + 2 ^ 63) mod 2 ^ 64 - 2 ^ 63.

Definition is_u8 (z : Z) : Prop := 0 <= z < 2 ^ 8.
Definition is_u16 (z : Z) : Prop := 0 <= z < 2 ^ 16.
Definition is_u32 (z : Z) : Prop := 0 <= z < 2 ^ 32.

(** A sequence of octets. *)
Abbreviation bytes := (list Z).
Definition is_bytes (l : bytes) : Prop := Forall is_u8 l.

#[global] Instance is_u8_dec z : Decision (is_u8 z).
Proof. unfold is_u8. apply _. Defined.
#[global] Instance is_u16_dec z : Decision (is_u16 z).
Proof. unfold is_u16. apply _. Defined.
#[global] Instance is_u32_dec z : Decision (is_u32 z).
Proof. unfold is_u32. apply _. Defined.
#[global] Instance is_bytes_dec l : Decision (is_bytes l).
Proof. unfold is_bytes. apply _. Defined.

Create HintDb bridge.

(** [zlia]: linear arithmetic that knows the conversions above. *)
Ltac zlia :=
  unfold u8, u16, u32, u64, s32, s64, is_u8, is_u16, is_u32 in *;
  Z.div_mod_to_equations; lia.

(** [by_decide]: a closed decidable goal, by evaluation. *)
Ltac by_decide := apply (bool_decide_unpack _); vm_compute; exact I.

Lemma u8_range z : is_u8 (u8 z).
Proof. zlia. Qed.
Lemma u16_range z : is_u16 (u16 z).
Proof. zlia. Qed.
Lemma u32_range z : is_u32 (u32 z).
Proof. zlia. Qed.
Lemma u8_id z : is_u8 z -> u8 z = z.
Proof. zlia. Qed.
Lemma u16_id z : is_u16 z -> u16 z = z.
Proof. zlia. Qed.
Lemma u32_id z : is_u32 z -> u32 z = z.
Proof. zlia. Qed.
Lemma s32_id z : - 2 ^ 31 <= z < 2 ^ 31 -> s32 z = z.
Proof. zlia. Qed.

#[export] Hint Resolve u8_range u16_range u32_range : bridge.

Lemma land_1 z : Z.land z 1 = z mod 2.
Proof. exact (Z.land_ones z 1 ltac:(lia)). Qed.

(** Assembling an integer from its octets. *)
Lemma lor_shiftl a b n : 0 <= n -> 0 <= a < 2 ^ n -> Z.lor a (Z.shiftl b n) = a + b * 2 ^ n.
Proof.
  intros Hn Ha. rewrite <- Z.shiftl_mul_pow2 by done.
  assert (Hl : Z.land a (Z.shiftl b n) = 0).
  { apply Z.bits_inj'. intros i Hi. rewrite Z.land_spec, Z.bits_0.
    destruct (decide (i < n)).
    - by rewrite Z.shiftl_spec_low, andb_false_r by done.
    - rewrite <- (Z.mod_small a (2 ^ n)) by done.
      by rewrite Z.mod_pow2_bits_high by lia. }
  by rewrite <- Z.lxor_lor, <- Z.add_nocarry_lxor by done.
Qed.

Lemma lor_range n a b : 0 <= n -> 0 <= a < 2 ^ n -> 0 <= b < 2 ^ n -> 0 <= Z.lor a b < 2 ^ n.
Proof.
  intros Hn Ha Hb. rewrite <- (Z.mod_small a (2 ^ n)), <- (Z.mod_small b (2 ^ n)) by done.
  rewrite <- !Z.land_ones, <- Z.land_lor_distr_l, Z.land_ones by done. by apply Z.mod_pos_bound, Z.pow_pos_nonneg.
Qed.

(** A mask over the upper [k] of [n + k] bits. *)
Lemma land_high n k x : 0 <= n -> 0 <= k -> 0 <= x < 2 ^ (n + k) -> Z.land x (Z.shiftl (Z.ones k) n) = x / 2 ^ n * 2 ^ n.
Proof.
  intros Hn Hk Hx. rewrite <- Z.shiftr_div_pow2, <- Z.shiftl_mul_pow2 by done. apply Z.bits_inj'. intros i Hi.
  rewrite Z.land_spec, !Z.shiftl_spec by done. destruct (decide (i < n)).
  { rewrite !(Z.testbit_neg_r _ (i - n)) by lia. apply andb_false_r. }
  rewrite Z.shiftr_spec by lia. replace (i - n + n) with i by lia. destruct (decide (i < n + k)).
  - by rewrite Z.ones_spec_low, andb_true_r by lia.
  - rewrite <- (Z.mod_small x (2 ^ (n + k))) at 2 by done. rewrite Z.mod_pow2_bits_high, Z.ones_spec_high by lia. apply andb_false_r.
Qed.

Definition le16 (a b : Z) : Z := a + 256 * b.
Definition be32 (a b c d : Z) : Z := ((a * 256 + b) * 256 + c) * 256 + d.

Lemma le16_lor a b : is_u8 a -> Z.lor a (Z.shiftl b 8) = le16 a b.
Proof. intros. rewrite lor_shiftl by zlia. unfold le16. lia. Qed.

Lemma be32_lor a b c d :
  is_u8 a -> is_u8 b -> is_u8 c -> is_u8 d ->
  Z.lor (Z.lor (Z.lor (Z.shiftl a 24) (Z.shiftl b 16)) (Z.shiftl c 8)) d = be32 a b c d.
Proof.
  intros. unfold be32.
  assert (E : Z.lor (Z.lor (Z.shiftl a 24) (Z.shiftl b 16)) (Z.shiftl c 8) =
    Z.shiftl (Z.lor c (Z.shiftl (Z.lor b (Z.shiftl a 8)) 8)) 8).
  { rewrite !Z.shiftl_lor, !Z.shiftl_shiftl by lia.
    cbn [Z.add]. rewrite Z.lor_comm. f_equal. by rewrite Z.lor_comm. }
  rewrite E, Z.lor_comm, !lor_shiftl by zlia. lia.
Qed.

Lemma le16_range a b : is_u8 a -> is_u8 b -> is_u16 (le16 a b).
Proof. unfold le16. zlia. Qed.
Lemma be32_range a b c d : is_u8 a -> is_u8 b -> is_u8 c -> is_u8 d -> is_u32 (be32 a b c d).
Proof. unfold be32. zlia. Qed.

(** The octets of an integer. *)
Definition enc_le16 (v : Z) : bytes := [v mod 256; v / 256].
Definition enc_be32 (v : Z) : bytes :=
  [v / 2 ^ 24; v / 2 ^ 16 mod 256; v / 2 ^ 8 mod 256; v mod 256].

Lemma le16_enc v : le16 (v mod 256) (v / 256) = v.
Proof. unfold le16. zlia. Qed.
Lemma be32_enc v :
  be32 (v / 2 ^ 24) (v / 2 ^ 16 mod 256) (v / 2 ^ 8 mod 256) (v mod 256) = v.
Proof. unfold be32. zlia. Qed.
Lemma enc_le16_bytes v : is_u16 v -> is_bytes (enc_le16 v).
Proof. intros. repeat constructor; zlia. Qed.
Lemma enc_be32_bytes v : is_u32 v -> is_bytes (enc_be32 v).
Proof. intros. repeat constructor; zlia. Qed.

Lemma zlen_enc_le16 v : Z.of_nat (length (enc_le16 v)) = 2.
Proof. done. Qed.
Lemma zlen_enc_be32 v : Z.of_nat (length (enc_be32 v)) = 4.
Proof. done. Qed.

(** * Outcomes

    A C function either returns a value or fails: a failed
    [MMOSAL_ASSERT], an access outside an object, or (for the loops, which
    are given fuel) running out of fuel.  The theorems show which of these
    cannot happen. *)

Inductive fault := AssertFailed | OutOfBounds | OutOfFuel.

Inductive outcome (A : Type) :=
| Ok (a : A)
| Fail (f : fault).
Arguments Ok {A} a.
Arguments Fail {A} f.

#[global] Instance fault_eq_dec : EqDecision fault.
Proof. solve_decision. Defined.
#[global] Instance outcome_eq_dec `{EqDecision A} : EqDecision (outcome A).
Proof. solve_decision. Defined.

#[global] Instance outcome_ret : MRet outcome := fun A a => Ok a.
#[global] Instance outcome_bind : MBind outcome := fun A B f m =>
  match m with Ok a => f a | Fail e => Fail e end.
#[global] Instance outcome_fmap : FMap outcome := fun A B f m =>
  match m with Ok a => Ok (f a) | Fail e => Fail e end.

Definition assert (b : bool) : outcome unit :=
  if b then Ok tt else Fail AssertFailed.

Lemma bind_Ok {A B} (m : outcome A) (f : A -> outcome B) b :
  m ≫= f = Ok b <-> exists a, m = Ok a /\ f a = Ok b.
Proof. destruct m; cbn; naive_solver. Qed.

Lemma bind_Fail {A B} (m : outcome A) (f : A -> outcome B) e :
  m ≫= f = Fail e <-> m = Fail e \/ exists a, m = Ok a /\ f a = Fail e.
Proof. destruct m; cbn; naive_solver. Qed.

Lemma assert_Ok b u : assert b = Ok u <-> b = true.
Proof. destruct b, u; cbn; naive_solver. Qed.

(** * Arrays of octets: checked reads and writes *)

Definition rd (b : bytes) (i : Z) : outcome Z :=
  if decide (0 <= i) then
    match b !! Z.to_nat i with Some v => Ok v | None => Fail OutOfBounds end
  else Fail OutOfBounds.

Definition wr (b : bytes) (i v : Z) : outcome bytes :=
  if decide (0 <= i < Z.of_nat (length b)) then Ok (<[Z.to_nat i := v]> b)
  else Fail OutOfBounds.

(** Length of a list as a C integer. *)
Abbreviation zlen l := (Z.of_nat (length l)).

Lemma rd_Ok b i : 0 <= i < zlen b -> exists v, rd b i = Ok v /\ b !! Z.to_nat i = Some v.
Proof.
  intros Hi. unfold rd. rewrite decide_True by lia.
  destruct (lookup_lt_is_Some_2 b (Z.to_nat i)) as [v Hv]; [lia|].
  rewrite Hv. eauto.
Qed.

Lemma rd_lookup b i v : rd b i = Ok v <-> 0 <= i /\ b !! Z.to_nat i = Some v.
Proof.
  unfold rd. case_decide; [|naive_solver lia].
  destruct (b !! Z.to_nat i); naive_solver.
Qed.

Lemma rd_byte b i v : is_bytes b -> rd b i = Ok v -> is_u8 v.
Proof. intros Hb [_ Hv]%rd_lookup. by eapply Forall_lookup_1 in Hv. Qed.

Lemma rd_app_r b1 b2 i : 0 <= i -> rd (b1 ++ b2) (zlen b1 + i) = rd b2 i.
Proof.
  intros. unfold rd. rewrite !decide_True by lia. rewrite lookup_app_r by lia.
  by replace (Z.to_nat (zlen b1 + i) - length b1)%nat with (Z.to_nat i) by lia.
Qed.

Lemma wr_Ok b i v : 0 <= i < zlen b -> wr b i v = Ok (<[Z.to_nat i := v]> b).
Proof. intros Hi. unfold wr. by rewrite decide_True. Qed.

Create Rewrite HintDb bridge.
#[export] Hint Rewrite @length_insert @length_app @length_take @length_drop
  @length_replicate : bridge.

(** * Windows of a buffer

    [window off n l] is the [n] octets of [l] from [off]; [splice off d l] is
    [l] after [memcpy (l + off, d, length d)]. *)

Definition window {A} (off n : nat) (l : list A) : list A := take n (drop off l).
Definition splice {A} (off : nat) (d l : list A) : list A :=
  take off l ++ d ++ drop (off + length d) l.

Lemma length_window {A} off n (l : list A) :
  (off + n <= length l)%nat -> length (window off n l) = n.
Proof. intros. unfold window. autorewrite with bridge. lia. Qed.

Lemma length_splice {A} off (d l : list A) :
  (off + length d <= length l)%nat -> length (splice off d l) = length l.
Proof. intros. unfold splice. autorewrite with bridge. lia. Qed.

Lemma drop_splice {A} off (d l : list A) :
  (off + length d <= length l)%nat ->
  drop off (splice off d l) = d ++ drop (off + length d) l.
Proof.
  intros. unfold splice. rewrite drop_app_ge by (rewrite length_take; lia).
  rewrite length_take. replace (off - off `min` length l)%nat with 0%nat by lia.
  by rewrite drop_0.
Qed.

Lemma window_app {A} off n m (l : list A) :
  window off (n + m) l = window off n l ++ window (off + n) m l.
Proof.
  unfold window. rewrite <- (drop_drop l n off). by rewrite take_take_drop.
Qed.

Lemma window_splice_same {A} off (d l : list A) :
  (off + length d <= length l)%nat -> window off (length d) (splice off d l) = d.
Proof.
  intros. unfold window. rewrite drop_splice by done. by rewrite take_app_length.
Qed.

Lemma window_splice_before {A} off n at_ (d l : list A) :
  (off + n <= at_)%nat -> (at_ + length d <= length l)%nat ->
  window off n (splice at_ d l) = window off n l.
Proof.
  intros. apply list_eq. intros i. unfold window, splice.
  destruct (decide (i < n)%nat).
  - rewrite !lookup_take_lt, !lookup_drop by lia.
    rewrite lookup_app_l by (rewrite length_take; lia). by rewrite lookup_take_lt by lia.
  - by rewrite !lookup_take_ge by lia.
Qed.

Lemma window_splice_after {A} off n at_ (d l : list A) :
  (at_ + length d <= off)%nat -> (at_ + length d <= length l)%nat ->
  window off n (splice at_ d l) = window off n l.
Proof.
  intros. unfold window. f_equal. unfold splice.
  rewrite !drop_app_ge by (rewrite ?length_take; lia).
  rewrite length_take, drop_drop. f_equal. lia.
Qed.

Lemma splice_nil {A} off (l : list A) : splice off [] l = l.
Proof. unfold splice. cbn. by rewrite Nat.add_0_r, take_drop. Qed.

(** Two writes one after the other. *)
Lemma splice_app_adj {A} off (d1 d2 l : list A) :
  (off + length d1 + length d2 <= length l)%nat -> splice (off + length d1) d2 (splice off d1 l) = splice off (d1 ++ d2) l.
Proof.
  intros H. unfold splice. rewrite length_app.
  assert (Hl : length (take off l ++ d1) = (off + length d1)%nat) by (rewrite length_app, length_take; lia).
  rewrite (app_assoc (take off l) d1), take_app_length', drop_app_ge, drop_drop by lia.
  rewrite <- !app_assoc. do 4 f_equal. lia.
Qed.

(** * Counting *)

Definition count {A} (P : A -> bool) (l : list A) : nat := length (List.filter P l).

Lemma count_app {A} (P : A -> bool) l1 l2 : count P (l1 ++ l2) = (count P l1 + count P l2)%nat.
Proof. unfold count. rewrite List.filter_app. by rewrite length_app. Qed.

Lemma count_cons {A} (P : A -> bool) x l : count P (x :: l) = (Nat.b2n (P x) + count P l)%nat.
Proof. unfold count. cbn. by destruct (P x). Qed.

Lemma count_insert {A} (P : A -> bool) l i x y :
  l !! i = Some x ->
  (count P (<[i := y]> l) + Nat.b2n (P x) = count P l + Nat.b2n (P y))%nat.
Proof.
  intros Hx. rewrite <- (take_drop_middle l i x Hx) at 2.
  rewrite insert_take_drop by (by eapply lookup_lt_Some).
  rewrite !count_app, !count_cons. lia.
Qed.

Lemma count_pos {A} (P : A -> bool) l i x : l !! i = Some x -> P x = true -> (0 < count P l)%nat.
Proof.
  intros Hx HP. rewrite <- (take_drop_middle l i x Hx).
  rewrite count_app, count_cons, HP. cbn. lia.
Qed.

(** * Reading a buffer from a position

    [tail_at b off post]: from offset [off], the octets of [b] are [post]. *)

Definition tail_at (b : bytes) (off : Z) (post : bytes) : Prop :=
  0 <= off /\ drop (Z.to_nat off) b = post /\ off <= zlen b.

Lemma tail_at_0 b : tail_at b 0 b.
Proof. split_and!; [lia|done|lia]. Qed.

Lemma tail_at_len b off post : tail_at b off post -> off + zlen post = zlen b.
Proof. intros (? & <- & ?). autorewrite with bridge. lia. Qed.

Lemma tail_at_cons b off x post : tail_at b off (x :: post) -> rd b off = Ok x.
Proof.
  intros (? & Hd & ?). apply rd_lookup. split; [done|].
  rewrite <- (Nat.add_0_r (Z.to_nat off)), <- lookup_drop. by rewrite Hd.
Qed.

Lemma tail_at_app b off x y n :
  tail_at b off (x ++ y) -> n = off + zlen x -> tail_at b n y.
Proof.
  intros Ht ->. pose proof (tail_at_len _ _ _ Ht) as Hl. destruct Ht as (? & Hd & ?).
  rewrite length_app in Hl. split_and!; [lia| |lia].
  rewrite Z2Nat.inj_add, Nat2Z.id, <- drop_drop, Hd by lia. apply drop_app_length.
Qed.

Lemma tail_at_step b off x post : tail_at b off (x :: post) -> tail_at b (off + 1) post.
Proof. intros H. by apply (tail_at_app b off [x] post). Qed.

(** [rdn b off n]: read [n] octets from [off]. *)
Definition rdn (b : bytes) (off n : Z) : outcome bytes :=
  if decide (0 <= off /\ 0 <= n /\ off + n <= zlen b)
  then Ok (window (Z.to_nat off) (Z.to_nat n) b) else Fail OutOfBounds.

Lemma rdn_tail_at b off x y n :
  tail_at b off (x ++ y) -> n = zlen x -> rdn b off n = Ok x.
Proof.
  intros Ht ->. pose proof (tail_at_len _ _ _ Ht) as Hl. destruct Ht as (? & Hd & ?).
  rewrite length_app in Hl. unfold rdn. rewrite decide_True by lia.
  unfold window. by rewrite Hd, Nat2Z.id, take_app_length.
Qed.

(** [memcpy (b + off, d, length d)], checked. *)
Definition wrn (b : bytes) (off : Z) (d : bytes) : outcome bytes :=
  if decide (0 <= off /\ off + zlen d <= zlen b) then Ok (splice (Z.to_nat off) d b)
  else Fail OutOfBounds.

Lemma wrn_Ok b off d : 0 <= off -> off + zlen d <= zlen b ->
  wrn b off d = Ok (splice (Z.to_nat off) d b).
Proof. intros. unfold wrn. by rewrite decide_True. Qed.

Lemma rdn_Ok b off n : 0 <= off -> 0 <= n -> off + n <= zlen b ->
  rdn b off n = Ok (window (Z.to_nat off) (Z.to_nat n) b).
Proof. intros. unfold rdn. by rewrite decide_True. Qed.

Lemma window_nil {A} off (l : list A) : window off 0 l = [].
Proof. done. Qed.

Lemma take_window {A} k off n (l : list A) :
  (k <= n)%nat -> take k (window off n l) = window off k l.
Proof. intros. unfold window. rewrite take_take. f_equal. lia. Qed.

Lemma drop_window {A} k off n (l : list A) :
  (k <= n)%nat -> drop k (window off n l) = window (off + k) (n - k) l.
Proof. intros. unfold window. by rewrite skipn_firstn_comm, drop_drop. Qed.
