(* ===== verification/Slip.v ===== *)
(** SLIP framing: [framework/src/slip/slip.c] and [slip.h].

    The receiver is a byte-at-a-time state machine over a caller-supplied
    buffer; the transmitter calls a transport function per octet.  The
    transport is an argument, as in the code, and threads its own state. *)

From S2P Require Import Prelude.

Module Slip.

(** ** Data *)

Definition SLIP_FRAME_END : Z := 0xc0.
Definition SLIP_FRAME_ESC : Z := 0xdb.
Definition SLIP_FRAME_ESC_END : Z := 0xdc.
Definition SLIP_FRAME_ESC_ESC : Z := 0xdd.

Inductive slip_rx_status :=
| SLIP_RX_COMPLETE
| SLIP_RX_IN_PROGRESS
| SLIP_RX_BUFFER_LIMIT
| SLIP_RX_ERROR.

#[global] Instance slip_rx_status_eq_dec : EqDecision slip_rx_status.
Proof. solve_decision. Defined.

Record slip_rx_state := {
  buffer : bytes;          (* contents of the caller's buffer *)
  buffer_length : Z;
  rx_length : Z;
  escape : bool;
  frame_started : bool;
}.

(** [SLIP_RX_STATE_INIT (buffer, buffer_length)] *)
Definition SLIP_RX_STATE_INIT (buf : bytes) (buf_length : Z) : slip_rx_state :=
  {| buffer := buf; buffer_length := buf_length; rx_length := 0;
     escape := false; frame_started := false |}.

(** ** Receiver *)

Definition slip_rx_state_reinit (st : slip_rx_state) (buf : bytes) (buf_length : Z)
  : slip_rx_state :=
  {| buffer := buf; buffer_length := buf_length; rx_length := 0;
     escape := false; frame_started := false |}.

Definition set_escape (e : bool) (st : slip_rx_state) : slip_rx_state :=
  {| buffer := buffer st; buffer_length := buffer_length st; rx_length := rx_length st;
     escape := e; frame_started := frame_started st |}.

Definition set_frame_started (f : bool) (st : slip_rx_state) : slip_rx_state :=
  {| buffer := buffer st; buffer_length := buffer_length st; rx_length := rx_length st;
     escape := escape st; frame_started := f |}.

Definition slip_rx_append (st : slip_rx_state) (c : Z)
  : outcome (slip_rx_status * slip_rx_state) :=
  if decide (rx_length st = buffer_length st) then
    Ok (SLIP_RX_BUFFER_LIMIT, set_frame_started false st)
  else
    b ← wr (buffer st) (rx_length st) c;
    Ok (SLIP_RX_IN_PROGRESS,
        {| buffer := b; buffer_length := buffer_length st; rx_length := rx_length st + 1;
           escape := escape st; frame_started := frame_started st |}).

Definition slip_rx (st : slip_rx_state) (c : Z)
  : outcome (slip_rx_status * slip_rx_state) :=
  if decide (c = SLIP_FRAME_END) then
    if escape st then
      Ok (SLIP_RX_ERROR, slip_rx_state_reinit st (buffer st) (buffer_length st))
    else if decide (rx_length st > 0) then Ok (SLIP_RX_COMPLETE, st)
    else Ok (SLIP_RX_IN_PROGRESS, set_frame_started true st)
  else if escape st then
    let st := set_escape false st in
    if decide (c = SLIP_FRAME_ESC_END) then slip_rx_append st SLIP_FRAME_END
    else if decide (c = SLIP_FRAME_ESC_ESC) then slip_rx_append st SLIP_FRAME_ESC
    else Ok (SLIP_RX_ERROR, slip_rx_state_reinit st (buffer st) (buffer_length st))
  else if decide (c = SLIP_FRAME_ESC) then Ok (SLIP_RX_IN_PROGRESS, set_escape true st)
  else if frame_started st then slip_rx_append st c
  else Ok (SLIP_RX_IN_PROGRESS, st).

(** A stream of octets, one call of [slip_rx] each: the statuses returned and
    the final state. *)
Fixpoint slip_rx_run (st : slip_rx_state) (cs : bytes)
  : outcome (list slip_rx_status * slip_rx_state) :=
  match cs with
  | [] => Ok ([], st)
  | c :: cs =>
      '(s, st) ← slip_rx st c;
      '(ss, st) ← slip_rx_run st cs;
      Ok (s :: ss, st)
  end.

(** ** Transmitter *)

Section Tx.
  Context {S : Type} (transport_tx_fn : Z -> S -> Z * S).

  (** The [switch] on one octet of the packet; [ret] is the value left in the
      variable of that name ([break] leaves the switch, not the loop). *)
Definition slip_tx_byte (c : Z) (s : S) : Z * S :=
    if decide (c = SLIP_FRAME_ESC) then
      let (ret, s) := transport_tx_fn SLIP_FRAME_ESC s in
      if decide (ret <> 0) then (ret, s) else transport_tx_fn SLIP_FRAME_ESC_ESC s
    else if decide (c = SLIP_FRAME_END) then
      let (ret, s) := transport_tx_fn SLIP_FRAME_ESC s in
      if decide (ret <> 0) then (ret, s) else transport_tx_fn SLIP_FRAME_ESC_END s
    else transport_tx_fn c s.

Fixpoint slip_tx_loop (packet : bytes) (ret : Z) (s : S) : Z * S :=
    match packet with
    | [] => (ret, s)
    | c :: packet => let (ret, s) := slip_tx_byte c s in slip_tx_loop packet ret s
    end.

Definition slip_tx (packet : bytes) (s : S) : Z * S :=
    let (_, s) := transport_tx_fn SLIP_FRAME_END s in
    let (ret, s) := slip_tx_loop packet 0 s in
    let (_, s) := transport_tx_fn SLIP_FRAME_END s in
    (ret, s).
End Tx.

(** ** Specification of the frame format (RFC 1055, with a leading END) *)

Definition enc_byte (c : Z) : bytes :=
  if decide (c = SLIP_FRAME_END) then [SLIP_FRAME_ESC; SLIP_FRAME_ESC_END]
  else if decide (c = SLIP_FRAME_ESC) then [SLIP_FRAME_ESC; SLIP_FRAME_ESC_ESC]
  else [c].

Definition enc (packet : bytes) : bytes := packet ≫= enc_byte.
Definition frame (packet : bytes) : bytes :=
  SLIP_FRAME_END :: enc packet ++ [SLIP_FRAME_END].

(** A transport that never fails and records what it is given. *)
Definition wire_tx (c : Z) (w : bytes) : Z * bytes := (0, w ++ [c]).

(** The receiver's object invariant. *)
Record rx_wf (st : slip_rx_state) : Prop := {
  rx_wf_buf : zlen (buffer st) = buffer_length st;
  rx_wf_len : 0 <= rx_length st <= buffer_length st;
}.

(** The octets received so far in the current frame. *)
Definition received (st : slip_rx_state) : bytes :=
  take (Z.to_nat (rx_length st)) (buffer st).

(** ** Lemmas *)

Lemma init_wf buf n : zlen buf = n -> rx_wf (SLIP_RX_STATE_INIT buf n).
Proof. intros. constructor; cbn; lia. Qed.

Lemma append_full st c :
  rx_length st = buffer_length st ->
  slip_rx_append st c = Ok (SLIP_RX_BUFFER_LIMIT, set_frame_started false st).
Proof. intros. unfold slip_rx_append. by rewrite decide_True. Qed.

Lemma append_room st c :
  rx_wf st -> rx_length st < buffer_length st ->
  exists st', slip_rx_append st c = Ok (SLIP_RX_IN_PROGRESS, st') /\ rx_wf st' /\
    received st' = received st ++ [c] /\ rx_length st' = rx_length st + 1 /\
    buffer_length st' = buffer_length st /\
    escape st' = escape st /\ frame_started st' = frame_started st.
Proof.
  intros [Hb Hl] Hroom. unfold slip_rx_append. rewrite decide_False by lia.
  rewrite wr_Ok by lia. eexists. split; [done|]. cbn. split_and!; try done.
  - constructor; cbn; autorewrite with bridge; lia.
  - unfold received. cbn. replace (Z.to_nat (rx_length st + 1)) with (S (Z.to_nat (rx_length st))) by lia.
    erewrite take_S_r; [|apply list_lookup_insert_eq; lia].
    by rewrite take_insert_ge by lia.
Qed.

Lemma append_wf st c :
  rx_wf st -> exists s st', slip_rx_append st c = Ok (s, st') /\ rx_wf st' /\
    buffer_length st' = buffer_length st.
Proof.
  intros Hwf. destruct (decide (rx_length st = buffer_length st)) as [Hf|Hf].
  - rewrite append_full by done. do 2 eexists. split; [done|]. destruct Hwf. by split.
  - destruct (append_room st c) as (st' & ? & ? & _ & _ & ? & _); [done| |naive_solver].
    destruct Hwf. lia.
Qed.

Lemma run_app st l1 l2 :
  slip_rx_run st (l1 ++ l2) =
    ('(s1, st1) ← slip_rx_run st l1; '(s2, st2) ← slip_rx_run st1 l2; Ok (s1 ++ s2, st2)).
Proof.
  revert st. induction l1 as [|c l1 IH]; intros st; cbn.
  - destruct (slip_rx_run st l2) as [[]|]; done.
  - destruct (slip_rx st c) as [[s st1]|]; cbn; [|done]. rewrite IH.
    destruct (slip_rx_run st1 l1) as [[]|]; cbn; [|done].
    by destruct (slip_rx_run _ l2) as [[]|].
Qed.

(** One step of the receiver on each kind of octet. *)
Lemma rx_esc st : escape st = false ->
  slip_rx st SLIP_FRAME_ESC = Ok (SLIP_RX_IN_PROGRESS, set_escape true st).
Proof. intros He. unfold slip_rx. by rewrite He. Qed.

Lemma rx_esc_end st :
  slip_rx (set_escape true st) SLIP_FRAME_ESC_END =
    slip_rx_append (set_escape false st) SLIP_FRAME_END.
Proof. done. Qed.

Lemma rx_esc_esc st :
  slip_rx (set_escape true st) SLIP_FRAME_ESC_ESC =
    slip_rx_append (set_escape false st) SLIP_FRAME_ESC.
Proof. done. Qed.

Lemma rx_plain st c :
  escape st = false -> c <> SLIP_FRAME_END -> c <> SLIP_FRAME_ESC ->
  slip_rx st c = if frame_started st then slip_rx_append st c else Ok (SLIP_RX_IN_PROGRESS, st).
Proof. intros He ??. unfold slip_rx. by rewrite He, !decide_False. Qed.

Lemma set_escape_id st : escape st = false -> set_escape false st = st.
Proof. destruct st; cbn. by intros ->. Qed.

(** The octets encoding [c] amount to one [slip_rx_append] of [c]. *)
Lemma run_enc_byte st c :
  escape st = false ->
  exists ss, Forall (eq SLIP_RX_IN_PROGRESS) ss /\
    slip_rx_run st (enc_byte c) =
      if (frame_started st || bool_decide (c = SLIP_FRAME_END \/ c = SLIP_FRAME_ESC))%bool
      then '(s, st') ← slip_rx_append st c; Ok (ss ++ [s], st')
      else Ok (ss ++ [SLIP_RX_IN_PROGRESS], st).
Proof.
  intros He. unfold enc_byte.
  destruct (decide (c = SLIP_FRAME_END)) as [->|]; [|destruct (decide (c = SLIP_FRAME_ESC)) as [->|]].
  - exists [SLIP_RX_IN_PROGRESS]. split; [by repeat constructor|].
    cbn [slip_rx_run]. rewrite rx_esc by done. cbn [mbind outcome_bind].
    rewrite rx_esc_end, set_escape_id, bool_decide_true, orb_true_r by auto.
    by destruct (slip_rx_append _ _) as [[]|].
  - exists [SLIP_RX_IN_PROGRESS]. split; [by repeat constructor|].
    cbn [slip_rx_run]. rewrite rx_esc by done. cbn [mbind outcome_bind].
    rewrite rx_esc_esc, set_escape_id, bool_decide_true, orb_true_r by auto.
    by destruct (slip_rx_append _ _) as [[]|].
  - exists []. split; [done|]. cbn [slip_rx_run]. rewrite rx_plain by done.
    rewrite bool_decide_false, orb_false_r by naive_solver.
    destruct (frame_started st); [|done]. by destruct (slip_rx_append _ _) as [[]|].
Qed.

Lemma rx_enc_byte st c :
  rx_wf st -> escape st = false -> frame_started st = true ->
  rx_length st < buffer_length st ->
  exists ss st', slip_rx_run st (enc_byte c) = Ok (ss, st') /\
    Forall (eq SLIP_RX_IN_PROGRESS) ss /\ rx_wf st' /\
    received st' = received st ++ [c] /\ rx_length st' = rx_length st + 1 /\
    buffer_length st' = buffer_length st /\
    escape st' = false /\ frame_started st' = true.
Proof.
  intros Hwf He Hf Hroom.
  destruct (append_room st c) as (st' & Ha & Hwf' & Hr & Hl & Hb & He' & Hf'); [done..|].
  destruct (run_enc_byte st c He) as (ss & Hss & ->). rewrite Hf. cbn. rewrite Ha. cbn.
  do 2 eexists. split; [done|]. split_and!; try done; [|by rewrite He'|by rewrite Hf'].
  apply Forall_app. by repeat constructor.
Qed.

Lemma rx_enc p st :
  rx_wf st -> escape st = false -> frame_started st = true ->
  rx_length st + zlen p <= buffer_length st ->
  exists ss st', slip_rx_run st (enc p) = Ok (ss, st') /\
    Forall (eq SLIP_RX_IN_PROGRESS) ss /\ rx_wf st' /\
    received st' = received st ++ p /\ rx_length st' = rx_length st + zlen p /\
    buffer_length st' = buffer_length st /\
    escape st' = false /\ frame_started st' = true.
Proof.
  revert st. induction p as [|c p IH]; intros st Hwf He Hf Hroom; cbn in *.
  - exists [], st. rewrite app_nil_r, Z.add_0_r. split_and!; auto.
  - destruct (rx_enc_byte st c) as (ss & st1 & Hrun & Hss & Hwf1 & Hr1 & Hl1 & Hb1 & He1 & Hf1);
      [done..|lia|].
    destruct (IH st1) as (ss' & st2 & Hrun2 & Hss2 & Hwf2 & Hr2 & Hl2 & Hb2 & He2 & Hf2);
      [done..|lia|].
    exists (ss ++ ss'), st2. unfold enc in *. cbn. rewrite run_app, Hrun. cbn. rewrite Hrun2. cbn.
    split_and!; try done.
    + by apply Forall_app.
    + by rewrite Hr2, Hr1, <- app_assoc.
    + lia.
    + lia.
Qed.

(** Once the buffer is full, only an END is seen: octets outside a frame are
    dropped and octets inside one are refused. *)
Record rx_full (st : slip_rx_state) : Prop := {
  rx_full_wf : rx_wf st;
  rx_full_len : rx_length st = buffer_length st;
  rx_full_esc : escape st = false;
}.

Lemma rx_full_byte st c :
  rx_full st ->
  exists ss st', slip_rx_run st (enc_byte c) = Ok (ss, st') /\ rx_full st' /\
    buffer st' = buffer st /\ buffer_length st' = buffer_length st /\
    rx_length st' = rx_length st /\
    (frame_started st = true -> SLIP_RX_BUFFER_LIMIT ∈ ss).
Proof.
  intros Hfull. assert (rx_full (set_frame_started false st)).
  { destruct Hfull as [[??] ??]. constructor; [by constructor|done..]. }
  destruct Hfull as [Hwf Hl He]. destruct (run_enc_byte st c He) as (ss & _ & ->).
  destruct (_ || _)%bool eqn:Hor; [rewrite append_full by done|]; cbn;
    do 2 eexists; (split; [done|]); split_and!; try done; try set_solver.
  by destruct (frame_started st).
Qed.

Lemma rx_full_enc p st :
  rx_full st ->
  exists ss st', slip_rx_run st (enc p) = Ok (ss, st') /\ rx_full st' /\
    buffer st' = buffer st /\ buffer_length st' = buffer_length st /\
    rx_length st' = rx_length st /\
    (frame_started st = true -> p <> [] -> SLIP_RX_BUFFER_LIMIT ∈ ss).
Proof.
  revert st. induction p as [|c p IH]; intros st Hf.
  - exists [], st. by split_and!.
  - destruct (rx_full_byte st c Hf) as (s1 & st1 & H1 & Hf1 & Hb1 & Hbl1 & Hl1 & Hs1).
    destruct (IH st1 Hf1) as (s2 & st2 & H2 & Hf2 & Hb2 & Hbl2 & Hl2 & _).
    exists (s1 ++ s2), st2. unfold enc in *. cbn. rewrite run_app, H1. cbn. rewrite H2. cbn.
    split_and!; try done; try congruence. intros. apply elem_of_app. left. by apply Hs1.
Qed.

(** Every transmission over a transport that records and never fails. *)
Lemma tx_byte_wire c w : slip_tx_byte wire_tx c w = (0, w ++ enc_byte c).
Proof.
  unfold slip_tx_byte, enc_byte, wire_tx. repeat case_decide; subst; try done;
    by rewrite <- app_assoc.
Qed.

Lemma tx_loop_wire p ret w :
  slip_tx_loop wire_tx p ret w = (if decide (p = []) then ret else 0, w ++ enc p).
Proof.
  revert ret w. induction p as [|c p IH]; intros ret w; cbn [slip_tx_loop].
  - by rewrite app_nil_r.
  - rewrite tx_byte_wire, IH. rewrite <- app_assoc. cbn. by case_decide.
Qed.

Lemma tx_loop_app {S} (tx : Z -> S -> Z * S) p1 p2 ret s :
  slip_tx_loop tx (p1 ++ p2) ret s =
    let (ret, s) := slip_tx_loop tx p1 ret s in slip_tx_loop tx p2 ret s.
Proof.
  revert ret s. induction p1 as [|c p1 IH]; intros ret s; cbn; [done|].
  destruct (slip_tx_byte tx c s). apply IH.
Qed.

(** From the initial state, the leading END opens a frame. *)
Lemma run_open buf l :
  exists st, slip_rx (SLIP_RX_STATE_INIT buf (zlen buf)) SLIP_FRAME_END = Ok (SLIP_RX_IN_PROGRESS, st) /\
    slip_rx_run (SLIP_RX_STATE_INIT buf (zlen buf)) (SLIP_FRAME_END :: l) =
      ('(ss, st) ← slip_rx_run st l; Ok (SLIP_RX_IN_PROGRESS :: ss, st)) /\
    rx_wf st /\ buffer st = buf /\ rx_length st = 0 /\ buffer_length st = zlen buf /\
    escape st = false /\ frame_started st = true.
Proof.
  eexists. split; [reflexivity|]. split; [reflexivity|].
  split; [constructor; cbn; lia|]. by cbn.
Qed.

Lemma run_close st :
  escape st = false -> rx_length st > 0 ->
  slip_rx_run st [SLIP_FRAME_END] = Ok ([SLIP_RX_COMPLETE], st).
Proof. intros He Hl. cbn. unfold slip_rx. rewrite He. by rewrite !decide_True by done. Qed.

(** ** Properties *)

(** The receiver never writes outside its buffer, on any octet in any
    state: [slip_rx] always returns, preserving the object invariant and the
    buffer's size. *)
Theorem slip_rx_safe st c :
  rx_wf st -> exists s st', slip_rx st c = Ok (s, st') /\ rx_wf st' /\
    buffer_length st' = buffer_length st.
Proof.
  intros Hwf.
  assert (Happ : forall st' d, rx_wf st' -> buffer_length st' = buffer_length st ->
    exists s st2, slip_rx_append st' d = Ok (s, st2) /\ rx_wf st2 /\
      buffer_length st2 = buffer_length st).
  { intros st' d Hw Hb. destruct (append_wf st' d Hw) as (?&?&?&?&?). naive_solver congruence. }
  assert (Hset : forall st' (s : slip_rx_status), rx_wf st' -> buffer_length st' = buffer_length st ->
    exists s0 st2, Ok (s, st') = Ok (s0, st2) /\ rx_wf st2 /\ buffer_length st2 = buffer_length st)
    by naive_solver.
  unfold slip_rx; repeat case_decide; repeat case_match; (apply Happ || apply Hset);
    try done; destruct Hwf; constructor; cbn; lia.
Qed.

Lemma slip_rx_safe_witness :
  exists s st', slip_rx (SLIP_RX_STATE_INIT [0; 0] 2) 0xc0 = Ok (s, st') /\ rx_wf st' /\
    buffer_length st' = 2.
Proof.
  apply (slip_rx_safe (SLIP_RX_STATE_INIT [0; 0] 2) 0xc0). by apply init_wf.
Defined.

(** C37: what [slip_tx] puts on a transport that does not fail is exactly one
    frame, and [slip_rx] decodes it: for every non-empty packet that fits the
    receive buffer, each octet but the last reports IN_PROGRESS, the last
    reports COMPLETE and the buffer holds the packet. *)
Theorem slip_roundtrip p buf :
  p <> [] -> (length p <= length buf)%nat ->
  exists w st ss, slip_tx wire_tx p [] = (0, w) /\ w = frame p /\
    slip_rx_run (SLIP_RX_STATE_INIT buf (zlen buf)) w = Ok (ss ++ [SLIP_RX_COMPLETE], st) /\
    Forall (eq SLIP_RX_IN_PROGRESS) ss /\
    rx_length st = zlen p /\ received st = p.
Proof.
  intros Hne Hlen. unfold slip_tx. cbn. rewrite tx_loop_wire, decide_False by done. cbn.
  destruct (run_open buf (enc p ++ [SLIP_FRAME_END])) as
    (st & _ & Hrun & Hwf & Hb & Hl & Hbl & He & Hf).
  destruct (rx_enc p st) as (ss & st' & Hrun' & Hss & Hwf' & Hr & Hl' & Hbl' & He' & Hf');
    [done..|lia|].
  exists (frame p), st', (SLIP_RX_IN_PROGRESS :: ss). split_and!; try done.
  - unfold frame. rewrite Hrun, run_app, Hrun'. cbn -[slip_rx_run].
    rewrite run_close; [done|done|]. destruct p; [done|]. rewrite Hl', Hl, length_cons. lia.
  - by constructor.
  - lia.
  - rewrite Hr. unfold received. by rewrite Hl.
Qed.

Lemma slip_roundtrip_witness :
  exists w st ss, slip_tx wire_tx [0xc0; 1; 0xdb] [] = (0, w) /\ w = frame [0xc0; 1; 0xdb] /\
    slip_rx_run (SLIP_RX_STATE_INIT [0; 0; 0; 0] 4) w = Ok (ss ++ [SLIP_RX_COMPLETE], st) /\
    Forall (eq SLIP_RX_IN_PROGRESS) ss /\ rx_length st = 3 /\ received st = [0xc0; 1; 0xdb].
Proof. apply (slip_roundtrip [0xc0; 1; 0xdb] [0; 0; 0; 0]); [done|cbn; lia]. Defined.

(** A packet longer than the receive buffer is reported BUFFER_LIMIT while
    it arrives, and its closing END is then reported COMPLETE with the packet
    cut to the buffer's size: a limit report does not abandon the frame. *)
Theorem slip_rx_overflow_truncates p buf :
  buf <> [] -> (length buf < length p)%nat ->
  exists ss st, slip_rx_run (SLIP_RX_STATE_INIT buf (zlen buf)) (frame p) =
      Ok (ss ++ [SLIP_RX_COMPLETE], st) /\
    SLIP_RX_BUFFER_LIMIT ∈ ss /\ received st = take (length buf) p.
Proof.
  intros Hne Hlen. unfold frame.
  destruct (run_open buf (enc p ++ [SLIP_FRAME_END])) as
    (st & _ & Hrun & Hwf & Hb & Hl & Hbl & He & Hf).
  set (p1 := take (length buf) p). set (p2 := drop (length buf) p).
  assert (Hp : p = p1 ++ p2) by (subst p1 p2; by rewrite take_drop).
  assert (Hp1 : length p1 = length buf) by (subst p1; rewrite length_take; lia).
  assert (Hp2 : p2 <> []).
  { intros E. apply (f_equal length) in Hp. rewrite E, length_app, Hp1 in Hp. cbn in Hp. lia. }
  destruct (rx_enc p1 st) as (s1 & st1 & H1 & _ & Hwf1 & Hr1 & Hl1 & Hbl1 & He1 & Hf1);
    [done..|lia|].
  destruct (rx_full_enc p2 st1) as (s2 & st2 & H2 & Hf2 & Hb2 & Hbl2 & Hl2 & Hs2).
  { constructor; [done|lia|done]. }
  exists (SLIP_RX_IN_PROGRESS :: s1 ++ s2), st2. split_and!.
  - rewrite Hrun. rewrite Hp at 1. unfold enc in *. rewrite bind_app, <- app_assoc.
    rewrite run_app, H1. cbn -[slip_rx_run]. rewrite run_app, H2. cbn -[slip_rx_run].
    rewrite run_close; [|by destruct Hf2|].
    + cbn. by rewrite <- app_assoc.
    + destruct buf; [done|]. rewrite Hl2, Hl1, Hl, Hp1, length_cons. lia.
  - apply elem_of_cons. right. apply elem_of_app. right. by apply Hs2.
  - unfold received in *. rewrite Hl2, Hb2, Hr1. rewrite Hl. done.
Qed.

Lemma slip_rx_overflow_truncates_witness :
  exists ss st, slip_rx_run (SLIP_RX_STATE_INIT [0; 0] 2) (frame [7; 8; 9]) =
      Ok (ss ++ [SLIP_RX_COMPLETE], st) /\
    SLIP_RX_BUFFER_LIMIT ∈ ss /\ received st = [7; 8].
Proof. apply (slip_rx_overflow_truncates [7; 8; 9] [0; 0]); [done|cbn; lia]. Defined.

(** The result of [slip_tx] is the result of transmitting the last octet
    of the packet alone: failures of the transport on earlier octets, and on
    the two frame markers, are not reported. *)
Theorem slip_tx_result {S} (tx : Z -> S -> Z * S) p c s :
  fst (slip_tx tx (p ++ [c]) s) =
    fst (slip_tx_byte tx c (snd (slip_tx_loop tx p 0 (snd (tx SLIP_FRAME_END s))))).
Proof.
  unfold slip_tx. destruct (tx SLIP_FRAME_END s) as [r1 s1]. cbn. rewrite tx_loop_app.
  destruct (slip_tx_loop tx p 0 s1) as [r2 s2]. cbn.
  destruct (slip_tx_byte tx c s2) as [r3 s3]. by destruct (tx SLIP_FRAME_END s3).
Qed.

End Slip.
