(* ===== verification/Crc.v ===== *)
(** CRC-16/XMODEM: [framework/src/mmutils/mmcrc.c].

    The table-driven routine of the source against the bitwise definition of
    the code: polynomial x^16 + x^12 + x^5 + 1, most significant bit first. *)

From S2P Require Import Prelude.

Module Crc.

Definition crc16_xmodem_lookup_table : list Z := [
    0x0000; 0x1021; 0x2042; 0x3063; 0x4084; 0x50a5; 0x60c6; 0x70e7; 0x8108; 0x9129; 0xa14a; 0xb16b;
    0xc18c; 0xd1ad; 0xe1ce; 0xf1ef; 0x1231; 0x0210; 0x3273; 0x2252; 0x52b5; 0x4294; 0x72f7; 0x62d6;
    0x9339; 0x8318; 0xb37b; 0xa35a; 0xd3bd; 0xc39c; 0xf3ff; 0xe3de; 0x2462; 0x3443; 0x0420; 0x1401;
    0x64e6; 0x74c7; 0x44a4; 0x5485; 0xa56a; 0xb54b; 0x8528; 0x9509; 0xe5ee; 0xf5cf; 0xc5ac; 0xd58d;
    0x3653; 0x2672; 0x1611; 0x0630; 0x76d7; 0x66f6; 0x5695; 0x46b4; 0xb75b; 0xa77a; 0x9719; 0x8738;
    0xf7df; 0xe7fe; 0xd79d; 0xc7bc; 0x48c4; 0x58e5; 0x6886; 0x78a7; 0x0840; 0x1861; 0x2802; 0x3823;
    0xc9cc; 0xd9ed; 0xe98e; 0xf9af; 0x8948; 0x9969; 0xa90a; 0xb92b; 0x5af5; 0x4ad4; 0x7ab7; 0x6a96;
    0x1a71; 0x0a50; 0x3a33; 0x2a12; 0xdbfd; 0xcbdc; 0xfbbf; 0xeb9e; 0x9b79; 0x8b58; 0xbb3b; 0xab1a;
    0x6ca6; 0x7c87; 0x4ce4; 0x5cc5; 0x2c22; 0x3c03; 0x0c60; 0x1c41; 0xedae; 0xfd8f; 0xcdec; 0xddcd;
    0xad2a; 0xbd0b; 0x8d68; 0x9d49; 0x7e97; 0x6eb6; 0x5ed5; 0x4ef4; 0x3e13; 0x2e32; 0x1e51; 0x0e70;
    0xff9f; 0xefbe; 0xdfdd; 0xcffc; 0xbf1b; 0xaf3a; 0x9f59; 0x8f78; 0x9188; 0x81a9; 0xb1ca; 0xa1eb;
    0xd10c; 0xc12d; 0xf14e; 0xe16f; 0x1080; 0x00a1; 0x30c2; 0x20e3; 0x5004; 0x4025; 0x7046; 0x6067;
    0x83b9; 0x9398; 0xa3fb; 0xb3da; 0xc33d; 0xd31c; 0xe37f; 0xf35e; 0x02b1; 0x1290; 0x22f3; 0x32d2;
    0x4235; 0x5214; 0x6277; 0x7256; 0xb5ea; 0xa5cb; 0x95a8; 0x8589; 0xf56e; 0xe54f; 0xd52c; 0xc50d;
    0x34e2; 0x24c3; 0x14a0; 0x0481; 0x7466; 0x6447; 0x5424; 0x4405; 0xa7db; 0xb7fa; 0x8799; 0x97b8;
    0xe75f; 0xf77e; 0xc71d; 0xd73c; 0x26d3; 0x36f2; 0x0691; 0x16b0; 0x6657; 0x7676; 0x4615; 0x5634;
    0xd94c; 0xc96d; 0xf90e; 0xe92f; 0x99c8; 0x89e9; 0xb98a; 0xa9ab; 0x5844; 0x4865; 0x7806; 0x6827;
    0x18c0; 0x08e1; 0x3882; 0x28a3; 0xcb7d; 0xdb5c; 0xeb3f; 0xfb1e; 0x8bf9; 0x9bd8; 0xabbb; 0xbb9a;
    0x4a75; 0x5a54; 0x6a37; 0x7a16; 0x0af1; 0x1ad0; 0x2ab3; 0x3a92; 0xfd2e; 0xed0f; 0xdd6c; 0xcd4d;
    0xbdaa; 0xad8b; 0x9de8; 0x8dc9; 0x7c26; 0x6c07; 0x5c64; 0x4c45; 0x3ca2; 0x2c83; 0x1ce0; 0x0cc1;
    0xef1f; 0xff3e; 0xcf5d; 0xdf7c; 0xaf9b; 0xbfba; 0x8fd9; 0x9ff8; 0x6e17; 0x7e36; 0x4e55; 0x5e74;
    0x2e93; 0x3eb2; 0x0ed1; 0x1ef0
  ].

(** One turn of the [while] loop; the index is [(crc >> 8) ^ *d]. *)
Definition mmcrc_16_xmodem_step (crc : Z) (d : Z) : outcome Z :=
  t ← rd crc16_xmodem_lookup_table (Z.lxor (Z.shiftr crc 8) d);
  Ok (u16 (Z.lxor t (Z.shiftl crc 8))).

Fixpoint mmcrc_16_xmodem (crc : Z) (data : bytes) : outcome Z :=
  match data with
  | [] => Ok crc
  | d :: data => crc ← mmcrc_16_xmodem_step crc d; mmcrc_16_xmodem crc data
  end.

(** ** The bitwise definition *)

Definition crc_bit (r : Z) : Z :=
  if Z.testbit r 15 then Z.lxor (u16 (Z.shiftl r 1)) 0x1021 else u16 (Z.shiftl r 1).

Definition crc_8bits (r : Z) : Z := Nat.iter 8 crc_bit r.

Definition crc_ref_step (crc d : Z) : Z := crc_8bits (Z.lxor crc (Z.shiftl d 8)).

Definition crc_ref (crc : Z) (data : bytes) : Z := fold_left crc_ref_step data crc.

(** ** Exhaustive facts, checked by evaluation *)

Fixpoint all_below (n : nat) (P : Z -> bool) : bool :=
  match n with O => true | S n => P (Z.of_nat n) && all_below n P end.

Lemma all_below_spec n P z : all_below n P = true -> 0 <= z < Z.of_nat n -> P z = true.
Proof.
  induction n as [|n IH]; cbn -[Z.of_nat]; [lia|]. intros [H1 H2]%andb_prop Hz.
  destruct (decide (z = Z.of_nat n)) as [->|]; [done|]. apply IH; [done|lia].
Qed.

Lemma all_below_dec n (P : Z -> Prop) `{forall z, Decision (P z)} z :
  all_below n (fun z => bool_decide (P z)) = true -> 0 <= z < Z.of_nat n -> P z.
Proof. intros H1 Hz. apply (all_below_spec n _ z H1) in Hz. by apply bool_decide_eq_true_1 in Hz. Qed.

(** ** Bits of a 16-bit register *)

Lemma lxor_range n a b : 0 <= n -> 0 <= a < 2 ^ n -> 0 <= b < 2 ^ n -> 0 <= Z.lxor a b < 2 ^ n.
Proof.
  intros Hn Ha Hb. rewrite <- (Z.mod_small a (2 ^ n)), <- (Z.mod_small b (2 ^ n)) by done.
  rewrite <- !Z.land_ones by done.
  replace (Z.lxor (Z.land a (Z.ones n)) (Z.land b (Z.ones n)))
    with (Z.land (Z.lxor a b) (Z.ones n)).
  - rewrite Z.land_ones by done. apply Z.mod_pos_bound. by apply Z.pow_pos_nonneg.
  - apply Z.bits_inj'. intros i Hi. rewrite Z.lxor_spec, !Z.land_spec, Z.lxor_spec.
    by destruct (Z.testbit a i), (Z.testbit b i), (Z.testbit (Z.ones n) i).
Qed.

Lemma shl8_range d : is_u8 d -> is_u16 (Z.shiftl d 8).
Proof. intros. rewrite Z.shiftl_mul_pow2 by lia. zlia. Qed.

Lemma fold_in_range crc d : is_u16 crc -> is_u8 d -> is_u16 (Z.lxor crc (Z.shiftl d 8)).
Proof. intros. apply (lxor_range 16); [lia|done|by apply shl8_range]. Qed.

Lemma index_split crc d :
  Z.shiftr (Z.lxor crc (Z.shiftl d 8)) 8 = Z.lxor (Z.shiftr crc 8) d.
Proof. rewrite Z.shiftr_lxor, Z.shiftr_shiftl_l, Z.shiftl_0_r; lia. Qed.

Lemma low_shift crc d :
  is_u8 d -> u16 (Z.shiftl (Z.lxor crc (Z.shiftl d 8)) 8) = u16 (Z.shiftl crc 8).
Proof.
  intros Hd. unfold u16. rewrite <- !Z.land_ones by lia. apply Z.bits_inj'. intros i Hi.
  rewrite !Z.land_spec. destruct (decide (i < 16)).
  - rewrite Z.shiftl_lxor, Z.shiftl_shiftl, Z.lxor_spec, (Z.shiftl_spec d) by lia.
    rewrite (Z.testbit_neg_r d) by lia. by rewrite xorb_false_r.
  - rewrite (Z.ones_spec_high 16 i) by lia. by rewrite !andb_false_r.
Qed.

Lemma u16_lxor a b : u16 (Z.lxor a b) = Z.lxor (u16 a) (u16 b).
Proof.
  unfold u16. rewrite <- !Z.land_ones by lia. apply Z.bits_inj'. intros i Hi.
  rewrite Z.lxor_spec, !Z.land_spec, Z.lxor_spec.
  by destruct (Z.testbit a i), (Z.testbit b i), (Z.testbit (Z.ones 16) i).
Qed.

(** [crc_bit] is linear over GF(2), and injective because 0x1021 is odd. *)
Lemma crc_bit_alt r :
  crc_bit r = Z.lxor (u16 (Z.shiftl r 1)) (if Z.testbit r 15 then 0x1021 else 0).
Proof. unfold crc_bit. destruct (Z.testbit r 15); [done|by rewrite Z.lxor_0_r]. Qed.

Lemma crc_bit_lxor a b : crc_bit (Z.lxor a b) = Z.lxor (crc_bit a) (crc_bit b).
Proof.
  rewrite !crc_bit_alt, Z.shiftl_lxor, u16_lxor, Z.lxor_spec.
  apply Z.bits_inj'. intros i Hi. rewrite !Z.lxor_spec.
  destruct (Z.testbit (u16 (Z.shiftl a 1)) i), (Z.testbit (u16 (Z.shiftl b 1)) i),
    (Z.testbit a 15), (Z.testbit b 15); cbn [xorb];
    rewrite ?Z.bits_0; by destruct (Z.testbit 0x1021 i).
Qed.

Lemma crc_bit_range r : is_u16 (crc_bit r).
Proof.
  rewrite crc_bit_alt. apply (lxor_range 16); [lia|apply u16_range|].
  destruct (Z.testbit r 15); zlia.
Qed.

Lemma crc_bit_zero r : is_u16 r -> crc_bit r = 0 -> r = 0.
Proof.
  intros Hr H. unfold crc_bit in H. rewrite Z.shiftl_mul_pow2 in H by lia.
  destruct (Z.testbit r 15) eqn:E.
  - apply Z.lxor_eq in H. zlia.
  - assert (r < 2 ^ 15); [|zlia]. destruct (decide (r < 2 ^ 15)); [done|].
    rewrite Z.testbit_false in E by lia. zlia.
Qed.

Lemma crc_8bits_lxor a b : crc_8bits (Z.lxor a b) = Z.lxor (crc_8bits a) (crc_8bits b).
Proof. unfold crc_8bits. cbn. by rewrite !crc_bit_lxor. Qed.

Lemma crc_8bits_range r : is_u16 (crc_8bits r).
Proof. apply crc_bit_range. Qed.

Lemma crc_8bits_inj x y : is_u16 x -> is_u16 y -> crc_8bits x = crc_8bits y -> x = y.
Proof.
  intros Hx Hy E. apply Z.lxor_eq.
  assert (H0 : crc_8bits (Z.lxor x y) = 0) by (by rewrite crc_8bits_lxor, E, Z.lxor_nilpotent).
  unfold crc_8bits in H0. cbn in H0.
  repeat (apply crc_bit_zero in H0; [|apply crc_bit_range || by apply (lxor_range 16)]). done.
Qed.

(** The table holds the eight-bit steps of its indices, and the low octet of
    the register is only shifted; both are checked entry by entry. *)
Lemma table_entry h : is_u8 h -> rd crc16_xmodem_lookup_table h = Ok (crc_8bits (Z.shiftl h 8)).
Proof.
  apply (all_below_dec 256 (fun h =>
    rd crc16_xmodem_lookup_table h = Ok (crc_8bits (Z.shiftl h 8)))).
  vm_compute. reflexivity.
Qed.

Lemma low_octet l : is_u8 l -> crc_8bits l = Z.shiftl l 8.
Proof.
  apply (all_below_dec 256 (fun l => crc_8bits l = Z.shiftl l 8)).
  vm_compute. reflexivity.
Qed.

Lemma octets_split x : is_u16 x -> x = Z.lxor (Z.shiftl (Z.shiftr x 8) 8) (Z.land x 255).
Proof.
  intros Hx. apply Z.bits_inj'. intros i Hi. rewrite Z.lxor_spec, Z.land_spec.
  change 255 with (Z.ones 8). rewrite Z.shiftl_spec by done. destruct (decide (i < 8)).
  - by rewrite (Z.testbit_neg_r _ (i - 8)), Z.ones_spec_low, andb_true_r by lia.
  - rewrite Z.ones_spec_high, andb_false_r, xorb_false_r, Z.shiftr_spec by lia. f_equal. lia.
Qed.

Lemma crc_8bits_table x :
  is_u16 x -> exists t, rd crc16_xmodem_lookup_table (Z.shiftr x 8) = Ok t /\
    crc_8bits x = u16 (Z.lxor t (Z.shiftl x 8)).
Proof.
  intros Hx. assert (Hh : is_u8 (Z.shiftr x 8)) by (rewrite Z.shiftr_div_pow2 by lia; zlia).
  assert (Hl : is_u8 (Z.land x 255)) by (change 255 with (Z.ones 8); rewrite Z.land_ones by lia; zlia).
  eexists. split; [by apply table_entry|]. rewrite (octets_split x Hx) at 1.
  rewrite crc_8bits_lxor, u16_lxor, (low_octet (Z.land x 255)) by done. f_equal.
  - symmetry. apply u16_id, crc_8bits_range.
  - unfold u16. change 255 with (Z.ones 8). rewrite <- Z.land_ones by lia.
    apply Z.bits_inj'. intros i Hi. rewrite Z.shiftl_spec, !Z.land_spec, Z.shiftl_spec by lia.
    destruct (decide (i < 8)); [by rewrite !(Z.testbit_neg_r _ (i - 8)) by lia|].
    destruct (decide (i < 16)).
    + by rewrite !Z.ones_spec_low by lia.
    + by rewrite !Z.ones_spec_high, !andb_false_r by lia.
Qed.

Lemma crc_ref_step_range crc d : is_u16 (crc_ref_step crc d).
Proof. apply crc_8bits_range. Qed.

Lemma crc_ref_range data crc : is_u16 crc -> is_u16 (crc_ref crc data).
Proof.
  revert crc. induction data as [|d data IH]; intros crc Hc; [done|].
  apply IH, crc_ref_step_range.
Qed.

Lemma step_is_ref crc d :
  is_u16 crc -> is_u8 d -> mmcrc_16_xmodem_step crc d = Ok (crc_ref_step crc d).
Proof.
  intros Hc Hd. destruct (crc_8bits_table _ (fold_in_range crc d Hc Hd)) as (t & Ht & E).
  rewrite index_split in Ht. unfold mmcrc_16_xmodem_step. rewrite Ht.
  cbn [mbind outcome_bind]. f_equal. unfold crc_ref_step. by rewrite E, !u16_lxor, low_shift.
Qed.

Lemma lxor_inj_l a b c : Z.lxor a b = Z.lxor a c -> b = c.
Proof.
  intros E. apply (f_equal (Z.lxor a)) in E.
  by rewrite <- !Z.lxor_assoc, Z.lxor_nilpotent, !Z.lxor_0_l in E.
Qed.

Lemma crc_ref_step_inj_d crc d d' :
  is_u16 crc -> is_u8 d -> is_u8 d' -> crc_ref_step crc d = crc_ref_step crc d' -> d = d'.
Proof.
  intros Hc Hd Hd' E%crc_8bits_inj; [|by apply fold_in_range..].
  apply lxor_inj_l in E. rewrite !Z.shiftl_mul_pow2 in E by lia. lia.
Qed.

Lemma crc_ref_step_inj_c crc crc' d :
  is_u16 crc -> is_u16 crc' -> is_u8 d ->
  crc_ref_step crc d = crc_ref_step crc' d -> crc = crc'.
Proof.
  intros Hc Hd Hd' E%crc_8bits_inj; [|by apply fold_in_range..].
  rewrite !(Z.lxor_comm _ (Z.shiftl d 8)) in E. by apply lxor_inj_l in E.
Qed.

Lemma crc_ref_inj_c data crc crc' :
  is_u16 crc -> is_u16 crc' -> is_bytes data ->
  crc_ref crc data = crc_ref crc' data -> crc = crc'.
Proof.
  revert crc crc'. induction data as [|d data IH]; intros crc crc' Hc Hc' Hd E; [done|].
  apply Forall_cons_1 in Hd as [??]. apply (crc_ref_step_inj_c _ _ d); [done..|].
  apply IH; [apply crc_ref_step_range..|done|exact E].
Qed.

Lemma xmodem_is_ref data crc :
  is_u16 crc -> is_bytes data -> mmcrc_16_xmodem crc data = Ok (crc_ref crc data).
Proof.
  revert crc. induction data as [|d data IH]; intros crc Hc Hd; cbn; [done|].
  apply Forall_cons_1 in Hd as [Hd Hds]. rewrite step_is_ref by done. cbn.
  apply IH; [apply crc_ref_step_range|done].
Qed.

(** ** Properties *)

(** C40: the table-driven CRC equals the bitwise CRC-16/XMODEM for every initial
    register and every data; in particular the table index is always in
    range and the register stays 16 bits wide. *)
Theorem mmcrc_16_xmodem_correct crc data :
  is_u16 crc -> is_bytes data ->
  mmcrc_16_xmodem crc data = Ok (crc_ref crc data) /\ is_u16 (crc_ref crc data).
Proof. intros. split; [by apply xmodem_is_ref|by apply crc_ref_range]. Qed.

Lemma mmcrc_16_xmodem_correct_witness :
  mmcrc_16_xmodem 0 [0x31; 0x32; 0x33] = Ok (crc_ref 0 [0x31; 0x32; 0x33]) /\
  is_u16 (crc_ref 0 [0x31; 0x32; 0x33]).
Proof.
  apply (mmcrc_16_xmodem_correct 0 [0x31; 0x32; 0x33]); [done|].
  by_decide.
Defined.

(** The standard check value of CRC-16/XMODEM, over the ASCII digits 1 to 9. *)
Example xmodem_check_value :
  mmcrc_16_xmodem 0 [0x31; 0x32; 0x33; 0x34; 0x35; 0x36; 0x37; 0x38; 0x39] = Ok 0x31c3.
Proof. reflexivity. Qed.

(** Every corruption confined to one octet changes the CRC: two messages
    that differ in exactly one octet never have the same CRC. *)
Theorem mmcrc_16_xmodem_detects_octet crc a x y b r :
  is_u16 crc -> is_bytes (a ++ x :: b) -> is_u8 y -> x <> y ->
  mmcrc_16_xmodem crc (a ++ x :: b) = Ok r ->
  mmcrc_16_xmodem crc (a ++ y :: b) <> Ok r.
Proof.
  intros Hc Hb Hy Hne. unfold is_bytes in Hb.
  rewrite Forall_app, Forall_cons_iff in Hb. destruct Hb as (Ha & Hx & Hb).
  rewrite !xmodem_is_ref; try done; try (apply Forall_app; split; [done|by constructor]).
  intros [= <-] [= E]. unfold crc_ref in E. rewrite !fold_left_app in E. cbn in E.
  assert (Hr : is_u16 (crc_ref crc a)) by by apply crc_ref_range.
  apply crc_ref_inj_c in E; [|apply crc_ref_step_range..|done].
  apply crc_ref_step_inj_d in E; by try congruence.
Qed.

Lemma mmcrc_16_xmodem_detects_octet_witness :
  mmcrc_16_xmodem 0 ([1; 2] ++ 0x40 :: [3]) <> Ok 0x164a.
Proof.
  apply (mmcrc_16_xmodem_detects_octet 0 [1; 2] 0x41 0x40 [3] 0x164a);
    [done|by_decide|done|done|vm_compute; reflexivity].
Defined.

End Crc.
