(* ===== verification/WlanIe.v ===== *)
(** Information elements of 802.11 frames: [framework/src/mmutils/mmutils_wlan.c]
    and the WLAN helpers of [framework/src/mmutils/mmutils.h].

    A block of information elements is an array of octets of a given length;
    every read of it is checked.  [size_t] and [uint32_t] are 32 bits wide. *)

From S2P Require Import Prelude.

Module WlanIe.

Definition MM_RSN_INFORMATION_IE_TYPE : Z := 48.
Definition MM_VENDOR_SPECIFIC_IE_TYPE : Z := 221.
Definition MM_S1G_OPERATION_IE_TYPE : Z := 232.
Definition MM_RSN_INFORMATION_MAX_PAIRWISE_CIPHER_SUITES : Z := 2.
Definition MM_RSN_INFORMATION_MAX_AKM_SUITES : Z := 2.

Definition MM_AKM_SUITE_NONE : Z := 0.
Definition MM_AKM_SUITE_PSK : Z := 0x506f9a02.
Definition MM_AKM_SUITE_SAE : Z := 0x000fac08.
Definition MM_AKM_SUITE_OWE : Z := 0x000fac12.

Definition mm_akm_suite_to_string (akm_suite_oui : Z) : string :=
  if decide (akm_suite_oui = MM_AKM_SUITE_NONE) then "None"
  else if decide (akm_suite_oui = MM_AKM_SUITE_PSK) then "PSK"
  else if decide (akm_suite_oui = MM_AKM_SUITE_SAE) then "SAE"
  else if decide (akm_suite_oui = MM_AKM_SUITE_OWE) then "OWE"
  else "Other".

(** ** Searching *)

(** The [while] loop; each turn advances by at least two octets. *)
Fixpoint find_ie_loop (fuel : nat) (ies : bytes) (ies_len search_offset ie_type : Z)
  : outcome Z :=
  match fuel with
  | O => Fail OutOfFuel
  | S fuel =>
      if decide (u32 (search_offset + 2) <= ies_len) then
        type ← rd ies search_offset;
        length ← rd ies (u32 (search_offset + 1));
        if decide (type = ie_type) then
          if decide (u32 (search_offset + 2 + length) > ies_len) then Ok (-2)
          else Ok (s32 search_offset)
        else find_ie_loop fuel ies ies_len (u32 (search_offset + (2 + length))) ie_type
      else Ok (-1)
  end.

Definition mm_find_ie_from_offset (ies : bytes) (ies_len search_offset ie_type : Z)
  : outcome Z :=
  find_ie_loop (S (Z.to_nat ies_len)) ies ies_len search_offset ie_type.

Definition mm_find_ie (ies : bytes) (ies_len ie_type : Z) : outcome Z :=
  mm_find_ie_from_offset ies ies_len 0 ie_type.

Fixpoint find_vendor_loop (fuel : nat) (ies : bytes) (ies_len search_offset : Z)
    (id : bytes) : outcome Z :=
  let id_len := zlen id in
  match fuel with
  | O => Fail OutOfFuel
  | S fuel =>
      if decide (u32 (search_offset + id_len) <= ies_len) then
        offset ← mm_find_ie_from_offset ies ies_len search_offset MM_VENDOR_SPECIFIC_IE_TYPE;
        if decide (offset < 0) then Ok offset
        else
          ie_type ← rd ies offset;
          ie_length ← rd ies (offset + 1);
          (* memcmp (id, ie_data, id_len) == 0, evaluated only when the first
             two conditions hold *)
          same ← (if decide (ie_type = MM_VENDOR_SPECIFIC_IE_TYPE /\ id_len <= ie_length)
                  then d ← rdn ies (offset + 2) id_len; Ok (bool_decide (d = id))
                  else Ok false);
          if (same : bool) then
            if decide (u32 (offset + 2 + ie_length) > ies_len) then Ok (-2) else Ok offset
          else find_vendor_loop fuel ies ies_len (u32 (2 + ie_length + offset)) id
      else Ok (-1)
  end.

Definition mm_find_vendor_specific_ie_from_offset (ies : bytes) (ies_len search_offset : Z)
    (id : bytes) : outcome Z :=
  find_vendor_loop (S (Z.to_nat ies_len)) ies ies_len search_offset id.

Definition mm_find_vendor_specific_ie (ies : bytes) (ies_len : Z) (id : bytes) : outcome Z :=
  mm_find_vendor_specific_ie_from_offset ies ies_len 0 id.

(** ** RSN information *)

Record mm_rsn_information := {
  group_cipher_suite : Z;
  pairwise_cipher_suites : list Z;   (* uint32_t [2] *)
  akm_suites : list Z;               (* uint32_t [2] *)
  num_pairwise_cipher_suites : Z;
  num_akm_suites : Z;
  version : Z;
  rsn_capabilities : Z;
}.

Definition rsn_zero : mm_rsn_information :=
  {| group_cipher_suite := 0; pairwise_cipher_suites := [0; 0]; akm_suites := [0; 0];
     num_pairwise_cipher_suites := 0; num_akm_suites := 0; version := 0;
     rsn_capabilities := 0 |}.

(** [ies[o] | ies[o + 1] << 8] and [ies[o] << 24 | ... | ies[o + 3]] *)
Definition rd_le16 (ies : bytes) (o : Z) : outcome Z :=
  b0 ← rd ies o; b1 ← rd ies (o + 1);
  Ok (Z.lor b0 (Z.shiftl b1 8)).

Definition rd_be32 (ies : bytes) (o : Z) : outcome Z :=
  b0 ← rd ies o; b1 ← rd ies (o + 1); b2 ← rd ies (o + 2); b3 ← rd ies (o + 3);
  Ok (Z.lor (Z.lor (Z.lor (Z.shiftl b0 24) (Z.shiftl b1 16)) (Z.shiftl b2 8)) b3).

(** The loops over the suites: [n] turns left, [kept] the number recorded in
    [output]; returns the final [offset], [length] and array. *)
Fixpoint rsn_suites_loop (n : nat) (ii kept : Z) (ies : bytes) (offset length : Z)
    (suites : list Z) : outcome (Z * Z * list Z) :=
  match n with
  | O => Ok (offset, length, suites)
  | S n =>
      suites ← (if decide (ii < kept) then v ← rd_be32 ies offset; wr suites ii v
                else Ok suites);
      rsn_suites_loop n (ii + 1) kept ies (offset + 4) (u8 (length - 4)) suites
  end.

Definition mm_parse_rsn_information (ies : bytes) (ies_len : Z)
  : outcome (Z * mm_rsn_information) :=
  offset ← mm_find_ie ies ies_len MM_RSN_INFORMATION_IE_TYPE;
  let out := rsn_zero in
  if decide (offset < 0) then Ok (offset, out) else
  length ← rd ies (offset + 1);
  let offset := offset + 2 in
  if decide (length < 8) then Ok (-2, out) else
  ver ← rd_le16 ies offset;
  let offset := offset + 2 in let length := u8 (length - 2) in
  group ← rd_be32 ies offset;
  let offset := offset + 4 in let length := u8 (length - 4) in
  npair ← rd_le16 ies offset;
  let offset := offset + 2 in let length := u8 (length - 2) in
  let kept_pair := if decide (npair > MM_RSN_INFORMATION_MAX_PAIRWISE_CIPHER_SUITES)
                   then MM_RSN_INFORMATION_MAX_PAIRWISE_CIPHER_SUITES else npair in
  let out := {| group_cipher_suite := group; pairwise_cipher_suites := [0; 0];
                akm_suites := [0; 0]; num_pairwise_cipher_suites := kept_pair;
                num_akm_suites := 0; version := ver; rsn_capabilities := 0 |} in
  if decide (length < 4 * npair + 2) then Ok (-2, out) else
  '(offset, length, pairs) ←
    rsn_suites_loop (Z.to_nat npair) 0 kept_pair ies offset length [0; 0];
  nakm ← rd_le16 ies offset;
  let offset := offset + 2 in let length := u8 (length - 2) in
  let kept_akm := if decide (nakm > MM_RSN_INFORMATION_MAX_AKM_SUITES)
                  then MM_RSN_INFORMATION_MAX_AKM_SUITES else nakm in
  let out := {| group_cipher_suite := group; pairwise_cipher_suites := pairs;
                akm_suites := [0; 0]; num_pairwise_cipher_suites := kept_pair;
                num_akm_suites := kept_akm; version := ver; rsn_capabilities := 0 |} in
  if decide (length < 4 * nakm + 2) then Ok (-2, out) else
  '(offset, length, akms) ←
    rsn_suites_loop (Z.to_nat nakm) 0 kept_akm ies offset length [0; 0];
  caps ← rd_le16 ies offset;
  Ok (0, {| group_cipher_suite := group; pairwise_cipher_suites := pairs;
            akm_suites := akms; num_pairwise_cipher_suites := kept_pair;
            num_akm_suites := kept_akm; version := ver; rsn_capabilities := caps |}).

(** ** S1G operation *)

Record mm_s1g_operation := {
  operating_class : Z;
  operating_channel_width_mhz : Z;
  primary_channel_width_mhz : Z;
  operating_channel_number : Z;
  primary_channel_number : Z;
}.

(** [sizeof (struct dot11_ie_s1g_operation)], packed *)
Definition dot11_ie_s1g_operation_size : Z := 8.

Definition mm_parse_s1g_operation (ies : bytes) (ies_len : Z) (output : mm_s1g_operation)
  : outcome (Z * mm_s1g_operation) :=
  offset ← mm_find_ie ies ies_len MM_S1G_OPERATION_IE_TYPE;
  if decide (offset < 0) then Ok (offset, output) else
  length ← rd ies (offset + 1);
  if decide (dot11_ie_s1g_operation_size > length + 2) then Ok (-2, output) else
  channel_width ← rd ies (offset + 2);
  op_class ← rd ies (offset + 3);
  primary_channel_number ← rd ies (offset + 4);
  channel_center_freq ← rd ies (offset + 5);
  Ok (0, {| operating_class := op_class;
            operating_channel_number := channel_center_freq;
            operating_channel_width_mhz :=
              u8 (Z.land (Z.shiftr channel_width 1) 0x0f + 1);
            primary_channel_number := primary_channel_number;
            primary_channel_width_mhz := u8 (2 - Z.land channel_width 0x01) |}).

(** ** Small helpers *)

Definition mm_nibble_to_hex_char (nibble : Z) : Z :=
  let nibble := Z.land nibble 0x0f in
  if decide (nibble < 0x0a) then 48 + nibble else 65 + nibble - 0x0a.

Definition mm_mac_addr_is_zero (mac_addr : bytes) : outcome bool :=
  a0 ← rd mac_addr 0; a1 ← rd mac_addr 1; a2 ← rd mac_addr 2;
  a3 ← rd mac_addr 3; a4 ← rd mac_addr 4; a5 ← rd mac_addr 5;
  Ok (bool_decide
    (Z.lor (Z.lor (Z.lor (Z.lor (Z.lor a0 a1) a2) a3) a4) a5 = 0x00)).

Definition mm_mac_addr_is_multicast (mac_addr : bytes) : outcome bool :=
  a0 ← rd mac_addr 0; Ok (bool_decide (Z.land a0 0x01 <> 0)).

Definition mm_mac_addr_is_broadcast (mac_addr : bytes) : outcome bool :=
  a0 ← rd mac_addr 0; a1 ← rd mac_addr 1; a2 ← rd mac_addr 2;
  a3 ← rd mac_addr 3; a4 ← rd mac_addr 4; a5 ← rd mac_addr 5;
  Ok (bool_decide
    (Z.land (Z.land (Z.land (Z.land (Z.land a0 a1) a2) a3) a4) a5 = 0xff)).

Definition mm_mac_addr_is_equal (mac_addr1 mac_addr2 : bytes) : outcome bool :=
  d1 ← rdn mac_addr1 0 6; d2 ← rdn mac_addr2 0 6; Ok (bool_decide (d1 = d2)).

(** ** Specification: a block of elements as a list *)

Abbreviation ie := (Z * bytes)%type.

Definition enc_ie (e : ie) : bytes := fst e :: zlen (snd e) :: snd e.
Definition enc_ies (l : list ie) : bytes := l ≫= enc_ie.

Definition ie_wf (e : ie) : Prop :=
  is_u8 (fst e) /\ is_bytes (snd e) /\ zlen (snd e) < 256.

(** What may follow the last whole element: not enough octets for a header, or
    a header that announces more octets than there are. *)
Definition cut_short (rest : bytes) : Prop :=
  match rest with
  | _ :: n :: d => zlen d < n < 256
  | _ => True
  end.

(** Offset of the first element of type [t], [off] being that of [l]. *)
Fixpoint first_ie (l : list ie) (off t : Z) : option Z :=
  match l with
  | [] => None
  | e :: l => if decide (fst e = t) then Some off
              else first_ie l (off + zlen (enc_ie e)) t
  end.

Definition find_result (l : list ie) (rest : bytes) (off t : Z) : Z :=
  match first_ie l off t with
  | Some o => o
  | None => match rest with
            | t' :: _ :: _ => if decide (t' = t) then -2 else -1
            | _ => -1
            end
  end.

(** Offset of the first vendor specific element whose data start with [id]. *)
Fixpoint first_vendor (l : list ie) (off : Z) (id : bytes) : option Z :=
  match l with
  | [] => None
  | e :: l =>
      if decide (fst e = MM_VENDOR_SPECIFIC_IE_TYPE /\ take (length id) (snd e) = id)
      then Some off else first_vendor l (off + zlen (enc_ie e)) id
  end.

(** ** Lemmas *)

Lemma zlen_enc_ie e : zlen (enc_ie e) = 2 + zlen (snd e).
Proof. unfold enc_ie. cbn [length]. lia. Qed.

#[local] Arguments enc_ie : simpl never.
#[local] Arguments enc_ies : simpl never.

Lemma zlen_enc_nil : zlen (enc_ies []) = 0.
Proof. done. Qed.

Lemma enc_ies_cons e l : enc_ies (e :: l) = enc_ie e ++ enc_ies l.
Proof. done. Qed.

Lemma enc_ies_app l1 l2 : enc_ies (l1 ++ l2) = enc_ies l1 ++ enc_ies l2.
Proof. apply bind_app. Qed.

Lemma decompose b :
  is_bytes b -> exists l rest, b = enc_ies l ++ rest /\ Forall ie_wf l /\ cut_short rest.
Proof.
  remember (length b) as n eqn:Hn. revert b Hn.
  induction (lt_wf n) as [n _ IH]. intros b -> Hb.
  destruct b as [|t [|k d]]; [by exists [], []|by exists [], [t]|].
  apply Forall_cons_iff in Hb as [Ht [Hk Hd]%Forall_cons_iff].
  destruct (decide (zlen d < k)) as [Hlt|Hge].
  { exists [], (t :: k :: d). split_and!; [done..|]. cbn. zlia. }
  destruct (IH (length (drop (Z.to_nat k) d))) with (b := drop (Z.to_nat k) d)
    as (l & rest & Hl & Hwf & Hc); [rewrite length_drop; cbn; lia|done|by apply Forall_drop|].
  exists ((t, take (Z.to_nat k) d) :: l), rest. split_and!; [|constructor; [|done]|done].
  - rewrite enc_ies_cons. unfold enc_ie. cbn [fst snd app].
    rewrite <- !app_assoc, <- Hl, length_take.
    replace (Z.of_nat (Z.to_nat k `min` length d)) with k by zlia.
    by rewrite take_drop.
  - split_and!; cbn; [done|by apply Forall_take|rewrite length_take; zlia].
Qed.

Lemma first_ie_lower l off t o : first_ie l off t = Some o -> off <= o.
Proof.
  revert off. induction l as [|e l IH]; intros off; cbn; [done|].
  case_decide; [intros [= ->]; lia|]. intros Hf%IH. rewrite zlen_enc_ie in Hf. lia.
Qed.

Lemma first_ie_split l off t o :
  first_ie l off t = Some o ->
  exists l1 d l2, l = l1 ++ (t, d) :: l2 /\ o = off + zlen (enc_ies l1) /\
    first_ie l1 off t = None.
Proof.
  revert off. induction l as [|e l IH]; intros off; cbn; [done|]. case_decide as Ht.
  - intros [= ->]. exists [], (snd e), l. destruct e; cbn in *; subst. split_and!; [done|rewrite zlen_enc_nil; lia|done].
  - intros (l1 & d & l2 & -> & -> & Hn)%IH. exists (e :: l1), d, l2.
    split_and!; [done| |cbn; by rewrite decide_False].
    rewrite enc_ies_cons, length_app. lia.
Qed.

Lemma first_ie_None_vendor l off id :
  first_ie l off MM_VENDOR_SPECIFIC_IE_TYPE = None -> first_vendor l off id = None.
Proof.
  revert off. induction l as [|e l IH]; intros off; cbn; [done|].
  case_decide; [done|]. rewrite decide_False by naive_solver. apply IH.
Qed.

Lemma first_vendor_app l1 l2 off id :
  first_vendor l1 off id = None ->
  first_vendor (l1 ++ l2) off id = first_vendor l2 (off + zlen (enc_ies l1)) id.
Proof.
  revert off. induction l1 as [|e l1 IH]; intros off; cbn.
  - intros _. f_equal. rewrite zlen_enc_nil. lia.
  - case_decide; [done|]. intros ->%IH. f_equal. rewrite enc_ies_cons, length_app. lia.
Qed.

(** A vendor element that matches reaches at least [2 + length id] octets. *)
Lemma first_vendor_room l off id o :
  first_vendor l off id = Some o -> o + 2 + zlen id <= off + zlen (enc_ies l) /\ off <= o.
Proof.
  revert off. induction l as [|e l IH]; intros off; [done|].
  cbn [first_vendor]. rewrite enc_ies_cons, length_app. case_decide as Hd.
  - intros [= ->]. destruct Hd as [_ Hd]. apply (f_equal length) in Hd.
    rewrite length_take in Hd. pose proof (zlen_enc_ie e). lia.
  - intros Hf%IH. pose proof (zlen_enc_ie e). lia.
Qed.

Lemma find_ie_loop_spec l fuel ies off t rest :
  Forall ie_wf l -> cut_short rest -> zlen ies < 2 ^ 31 ->
  tail_at ies off (enc_ies l ++ rest) ->
  (length (enc_ies l ++ rest) < fuel)%nat ->
  find_ie_loop fuel ies (zlen ies) off t = Ok (find_result l rest off t).
Proof.
  revert fuel off. induction l as [|[t' d] l IH]; intros fuel off Hwf Hcut Hsz Ht Hfuel;
    pose proof (tail_at_len _ _ _ Ht) as Hlen; pose proof Ht as [Hoff _];
    (destruct fuel as [|fuel]; [lia|]); cbn [find_ie_loop].
  - unfold find_result. cbn [first_ie]. change (enc_ies [] ++ rest) with rest in *.
    destruct rest as [|t' [|k d]]; cbn [length] in *.
    1,2: rewrite decide_False; [done|]; zlia.
    cbn in Hcut. rewrite decide_True by zlia. rewrite u32_id by zlia.
    rewrite (tail_at_cons _ _ _ _ Ht), (tail_at_cons _ _ _ _ (tail_at_step _ _ _ _ Ht)).
    cbn [mbind outcome_bind]. case_decide; [by rewrite decide_True by zlia|].
    destruct fuel as [|fuel]; [lia|]. cbn [find_ie_loop]. by rewrite decide_False by zlia.
  - apply Forall_cons_iff in Hwf as [(Ht' & Hd & Hl) Hwf]. cbn [fst snd] in *.
    rewrite enc_ies_cons, <- app_assoc in *. unfold enc_ie in *. cbn [fst snd app length] in *.
    rewrite length_app in *. rewrite decide_True by zlia. rewrite u32_id by zlia.
    rewrite (tail_at_cons _ _ _ _ Ht), (tail_at_cons _ _ _ _ (tail_at_step _ _ _ _ Ht)).
    cbn [mbind outcome_bind]. unfold find_result. cbn [first_ie fst].
    case_decide as Heq.
    + subst. rewrite decide_False by zlia. by rewrite s32_id by zlia.
    + rewrite u32_id by zlia. rewrite (IH fuel); try done.
      * unfold find_result. by rewrite zlen_enc_ie.
      * eapply (tail_at_app _ off (t' :: zlen d :: d)); [exact Ht|]. cbn [length]. lia.
      * rewrite length_app in *. lia.
Qed.

Lemma find_from_spec l ies off t rest :
  Forall ie_wf l -> cut_short rest -> zlen ies < 2 ^ 31 ->
  tail_at ies off (enc_ies l ++ rest) ->
  mm_find_ie_from_offset ies (zlen ies) off t = Ok (find_result l rest off t).
Proof.
  intros ??? Ht. apply find_ie_loop_spec; try done.
  pose proof (tail_at_len _ _ _ Ht). destruct Ht. lia.
Qed.

(** What a search from any position inside any block of octets returns. *)
Lemma find_from_any ies off t :
  is_bytes ies -> zlen ies < 2 ^ 31 -> 0 <= off <= zlen ies ->
  exists r, mm_find_ie_from_offset ies (zlen ies) off t = Ok r /\
    (r = -1 \/ r = -2 \/ off <= r /\ exists d post,
       tail_at ies r (t :: zlen d :: d ++ post) /\ is_bytes d /\ zlen d < 256).
Proof.
  intros Hb Hsz Hoff. destruct (decompose (drop (Z.to_nat off) ies)) as
    (l & rest & Hl & Hwf & Hcut); [by apply Forall_drop|].
  assert (Ht : tail_at ies off (enc_ies l ++ rest)) by (split_and!; [lia|done|lia]).
  rewrite (find_from_spec l) with (rest := rest) by done.
  eexists. split; [done|]. unfold find_result.
  destruct (first_ie l off t) as [o|] eqn:Hf.
  - right; right. split; [by eapply first_ie_lower|].
    destruct (first_ie_split _ _ _ _ Hf) as (l1 & d & l2 & -> & -> & _).
    apply Forall_app in Hwf as [_ Hwf]. apply Forall_cons_iff in Hwf as [(_ & Hd & Hz) _].
    exists d, (enc_ies l2 ++ rest). split_and!; [|done..].
    rewrite enc_ies_app, enc_ies_cons, <- app_assoc, <- app_assoc in Ht.
    eapply tail_at_app in Ht; [exact Ht|done].
  - destruct rest as [|? [|? ?]]; [tauto..|]. case_decide; tauto.
Qed.

(** The element that [first_ie] finds, in place. *)
Lemma first_ie_at l rest ies off t o :
  Forall ie_wf l -> tail_at ies off (enc_ies l ++ rest) -> first_ie l off t = Some o ->
  exists l1 d l2, l = l1 ++ (t, d) :: l2 /\ off <= o /\ o = off + zlen (enc_ies l1) /\
    first_ie l1 off t = None /\ is_bytes d /\ zlen d < 256 /\
    tail_at ies o (t :: zlen d :: d ++ enc_ies l2 ++ rest).
Proof.
  intros Hwf Ht Hf. pose proof (first_ie_lower _ _ _ _ Hf).
  destruct (first_ie_split _ _ _ _ Hf) as (l1 & d & l2 & -> & -> & Hn).
  apply Forall_app in Hwf as [_ Hwf]. apply Forall_cons_iff in Hwf as [(_ & Hd & Hz) _].
  exists l1, d, l2. split_and!; try done.
  rewrite enc_ies_app, enc_ies_cons, <- app_assoc, <- app_assoc in Ht.
  by eapply tail_at_app in Ht.
Qed.

Lemma find_vendor_loop_spec fuel l ies off id rest :
  Forall ie_wf l -> cut_short rest -> zlen ies + zlen id < 2 ^ 31 ->
  tail_at ies off (enc_ies l ++ rest) ->
  (length (enc_ies l ++ rest) < fuel)%nat ->
  exists r, find_vendor_loop fuel ies (zlen ies) off id = Ok r /\
    match first_vendor l off id with Some o => r = o | None => r = -1 \/ r = -2 end.
Proof.
  revert l off. induction fuel as [|fuel IH]; intros l off Hwf Hcut Hsz Ht Hfuel; [lia|].
  pose proof (tail_at_len _ _ _ Ht) as Hlen. pose proof Ht as [Hoff _].
  cbn [find_vendor_loop]. rewrite u32_id by zlia. case_decide as Hg.
  2: { exists (-1). split; [done|]. destruct (first_vendor l off id) eqn:E; [|tauto].
       apply first_vendor_room in E. rewrite length_app in Hlen. lia. }
  rewrite (find_from_spec l) with (rest := rest) by (done || lia).
  cbn [mbind outcome_bind]. unfold find_result.
  destruct (first_ie l off MM_VENDOR_SPECIFIC_IE_TYPE) as [o|] eqn:Hf.
  2: { rewrite first_ie_None_vendor by done.
       assert (Hr : exists r, r = match rest with
         | t' :: _ :: _ => if decide (t' = MM_VENDOR_SPECIFIC_IE_TYPE) then -2 else -1
         | _ => -1 end /\ (r = -1 \/ r = -2)).
       { destruct rest as [|? [|? ?]]; [..|case_decide]; eauto. }
       destruct Hr as (r & <- & Hr). exists r. rewrite decide_True by lia. done. }
  destruct (first_ie_at _ _ _ _ _ _ Hwf Ht Hf) as (l1 & d & l2 & -> & Hlo & -> & Hn & Hd & Hz & Hat).
  pose proof (tail_at_len _ _ _ Hat) as Hlen2. cbn [length] in Hlen2. rewrite length_app in Hlen2.
  rewrite first_vendor_app by by apply first_ie_None_vendor.
  rewrite decide_False by lia. rewrite (tail_at_cons _ _ _ _ Hat).
  apply tail_at_step in Hat. rewrite (tail_at_cons _ _ _ _ Hat). apply tail_at_step in Hat.
  replace (off + zlen (enc_ies l1) + 1 + 1) with (off + zlen (enc_ies l1) + 2) in Hat by lia.
  set (o := off + zlen (enc_ies l1)) in *. cbn [mbind outcome_bind first_vendor fst snd].
  assert (Hcmp : (if decide (MM_VENDOR_SPECIFIC_IE_TYPE = MM_VENDOR_SPECIFIC_IE_TYPE /\
      zlen id <= zlen d) then d0 ← rdn ies (o + 2) (zlen id); Ok (bool_decide (d0 = id))
      else Ok false) = Ok (bool_decide (take (length id) d = id))).
  { case_decide as Hi.
    - rewrite (rdn_tail_at _ _ (take (length id) d) (drop (length id) d ++ enc_ies l2 ++ rest));
        [done| |rewrite length_take; lia]. by rewrite app_assoc, take_drop.
    - rewrite bool_decide_false; [done|]. intros E. apply Hi. split; [done|].
      apply (f_equal length) in E. rewrite length_take in E. lia. }
  cbn [mbind outcome_bind] in Hcmp. rewrite Hcmp.
  case_bool_decide as Hid.
  - rewrite u32_id by zlia. rewrite decide_False by lia. rewrite decide_True by done. eauto.
  - rewrite (decide_False (P := _ /\ _)) by (by intros [_ ?]). rewrite !u32_id by zlia.
    rewrite zlen_enc_ie. cbn [snd].
    replace (2 + zlen d + o) with (o + (2 + zlen d)) by lia. apply IH; try done.
    + apply Forall_app in Hwf as [_ Hwf]. by apply Forall_cons_iff in Hwf as [_ ?].
    + eapply tail_at_app; [exact Hat|lia].
    + rewrite enc_ies_app, enc_ies_cons, !length_app in Hfuel. rewrite length_app.
      pose proof (zlen_enc_ie (MM_VENDOR_SPECIFIC_IE_TYPE, d)). cbn [snd] in *. lia.
Qed.

(** *** Reads of integers *)

Lemma rd_le16_Ok ies o : is_bytes ies -> 0 <= o -> o + 2 <= zlen ies ->
  exists v, rd_le16 ies o = Ok v /\ is_u16 v.
Proof.
  intros Hb ??. unfold rd_le16.
  destruct (rd_Ok ies o) as (a & Ha & _); [lia|].
  destruct (rd_Ok ies (o + 1)) as (b & Hb' & _); [lia|].
  rewrite Ha, Hb'. cbn [mbind outcome_bind]. eexists. split; [done|].
  apply rd_byte in Ha, Hb'; try done. rewrite le16_lor by done. by apply le16_range.
Qed.

Lemma rd_be32_Ok ies o : 0 <= o -> o + 4 <= zlen ies -> exists v, rd_be32 ies o = Ok v.
Proof.
  intros ??. unfold rd_be32.
  destruct (rd_Ok ies o) as (a & -> & _); [lia|]. destruct (rd_Ok ies (o + 1)) as (b & -> & _); [lia|].
  destruct (rd_Ok ies (o + 2)) as (c & -> & _); [lia|]. destruct (rd_Ok ies (o + 3)) as (d & -> & _); [lia|].
  by eexists.
Qed.

Lemma rd_le16_tail ies o v post :
  is_u16 v -> tail_at ies o (enc_le16 v ++ post) -> rd_le16 ies o = Ok v.
Proof.
  intros Hv Ht. cbn in Ht. unfold rd_le16. rewrite (tail_at_cons _ _ _ _ Ht).
  apply tail_at_step in Ht. rewrite (tail_at_cons _ _ _ _ Ht). cbn [mbind outcome_bind].
  rewrite le16_lor by zlia. by rewrite le16_enc.
Qed.

Lemma rd_be32_tail ies o v post :
  is_u32 v -> tail_at ies o (enc_be32 v ++ post) -> rd_be32 ies o = Ok v.
Proof.
  intros Hv Ht. cbn [enc_be32 app] in Ht. unfold rd_be32. rewrite (tail_at_cons _ _ _ _ Ht).
  apply tail_at_step in Ht. rewrite (tail_at_cons _ _ _ _ Ht).
  apply tail_at_step in Ht. replace (o + 1 + 1) with (o + 2) in Ht by lia. rewrite (tail_at_cons _ _ _ _ Ht).
  apply tail_at_step in Ht. replace (o + 2 + 1) with (o + 3) in Ht by lia. rewrite (tail_at_cons _ _ _ _ Ht).
  cbn [mbind outcome_bind]. rewrite be32_lor by zlia. by rewrite be32_enc.
Qed.

(** *** The suite loops *)

Lemma u8_sub_sub a b c : u8 (u8 (a - b) - c) = u8 (a - (b + c)).
Proof. zlia. Qed.

Lemma suites_loop_Ok n ii kept ies off len suites :
  0 <= ii -> kept <= zlen suites -> 0 <= off -> off + 4 * Z.of_nat n <= zlen ies -> is_u8 len ->
  exists suites', rsn_suites_loop n ii kept ies off len suites =
    Ok (off + 4 * Z.of_nat n, u8 (len - 4 * Z.of_nat n), suites').
Proof.
  revert ii off len suites. induction n as [|n IH]; intros ii off len suites Hii Hk Hoff Hle Hlen.
  { exists suites. cbn [rsn_suites_loop]. rewrite u8_id by zlia. by rewrite !Z.mul_0_r, Z.add_0_r, Z.sub_0_r. }
  cbn [rsn_suites_loop].
  assert (exists s', (if decide (ii < kept) then v ← rd_be32 ies off; wr suites ii v
      else Ok suites) = Ok s' /\ zlen s' = zlen suites) as (s' & Hs & Hl).
  { case_decide; [|by eexists]. destruct (rd_be32_Ok ies off) as [v ->]; [lia..|].
    cbn. rewrite wr_Ok by lia. eexists. split; [done|]. by rewrite length_insert. }
  rewrite Hs. cbn [mbind outcome_bind].
  destruct (IH (ii + 1) (off + 4) (u8 (len - 4)) s') as [s'' ->]; [lia..|apply u8_range|].
  exists s''. rewrite u8_sub_sub.
  replace (4 + 4 * Z.of_nat n) with (4 * Z.of_nat (S n)) by lia.
  by replace (off + 4 + 4 * Z.of_nat n) with (off + 4 * Z.of_nat (S n)) by lia.
Qed.

Lemma suites_loop_skip n ii kept ies off len suites :
  kept <= ii -> is_u8 len ->
  rsn_suites_loop n ii kept ies off len suites =
    Ok (off + 4 * Z.of_nat n, u8 (len - 4 * Z.of_nat n), suites).
Proof.
  revert ii off len. induction n as [|n IH]; intros ii off len Hii Hlen; cbn [rsn_suites_loop].
  { rewrite u8_id by zlia. by rewrite !Z.mul_0_r, Z.add_0_r, Z.sub_0_r. }
  rewrite decide_False by lia. cbn [mbind outcome_bind].
  rewrite IH by (apply u8_range || lia). rewrite u8_sub_sub.
  replace (4 + 4 * Z.of_nat n) with (4 * Z.of_nat (S n)) by lia.
  by replace (off + 4 + 4 * Z.of_nat n) with (off + 4 * Z.of_nat (S n)) by lia.
Qed.

Lemma suites_loop_tail sl ies off len post :
  Forall is_u32 sl -> is_u8 len -> tail_at ies off ((sl ≫= enc_be32) ++ post) ->
  rsn_suites_loop (length sl) 0 (zlen sl `min` 2) ies off len [0; 0] =
    Ok (off + 4 * zlen sl, u8 (len - 4 * zlen sl), take 2 (sl ++ [0; 0])).
Proof.
  intros Hsl Hlen Ht. destruct sl as [|a sl].
  { cbn. by rewrite Z.add_0_r, Z.sub_0_r, u8_id. }
  apply Forall_cons_1 in Hsl as [Ha Hsl]. cbn [length rsn_suites_loop]. rewrite decide_True by lia.
  cbn [mbind list_bind] in Ht. rewrite <- app_assoc in Ht. rewrite (rd_be32_tail _ _ a _ Ha Ht).
  eapply tail_at_app in Ht; [|done]. cbn [mbind outcome_bind].
  rewrite wr_Ok by done. cbn [mbind outcome_bind]. destruct sl as [|b sl]; [done|].
  apply Forall_cons_1 in Hsl as [Hb Hsl]. cbn [length rsn_suites_loop]. rewrite decide_True by lia.
  cbn [mbind list_bind] in Ht. rewrite <- app_assoc in Ht. rewrite (rd_be32_tail _ (off + 4) b _ Hb Ht).
  cbn [mbind outcome_bind]. rewrite wr_Ok by done. cbn [mbind outcome_bind].
  rewrite suites_loop_skip by (apply u8_range || lia). rewrite !u8_sub_sub.
  cbn [app take]. f_equal. f_equal. f_equal; [lia|f_equal; lia].
Qed.

(** The data of an RSN element, with [extra] for the optional fields. *)
Definition enc_rsn (ver group : Z) (pairs akms : list Z) (caps : Z) (extra : bytes) : bytes :=
  enc_le16 ver ++ enc_be32 group ++ enc_le16 (zlen pairs) ++ (pairs ≫= enc_be32) ++
  enc_le16 (zlen akms) ++ (akms ≫= enc_be32) ++ enc_le16 caps ++ extra.

Lemma length_enc_be32s l : length (l ≫= enc_be32) = (4 * length l)%nat.
Proof. induction l as [|v l IH]; [done|]. cbn. cbn in IH. lia. Qed.

Lemma enc_be32s_bytes l : Forall is_u32 l -> is_bytes (l ≫= enc_be32).
Proof.
  induction 1 as [|v l Hv Hl IH]; [by apply Forall_nil_2|]. rewrite bind_cons.
  apply Forall_app. split; [by apply enc_be32_bytes|exact IH].
Qed.

Lemma enc_rsn_bytes ver group pairs akms caps extra :
  is_u16 ver -> is_u32 group -> Forall is_u32 pairs -> Forall is_u32 akms -> is_u16 caps ->
  is_bytes extra -> zlen pairs < 64 -> zlen akms < 64 ->
  is_bytes (enc_rsn ver group pairs akms caps extra).
Proof.
  intros. unfold enc_rsn, is_bytes. rewrite !Forall_app. split_and!; try done.
  all: first [apply enc_le16_bytes; zlia | by apply enc_be32_bytes | by apply enc_be32s_bytes].
Qed.

(** Looking for the first element of a type in a well-formed prefix. *)
Lemma find_after l t d post :
  Forall ie_wf l -> Forall (fun e => fst e <> t) l -> ie_wf (t, d) -> is_bytes post ->
  let ies := enc_ies l ++ enc_ie (t, d) ++ post in
  zlen ies < 2 ^ 31 ->
  mm_find_ie ies (zlen ies) t = Ok (zlen (enc_ies l)) /\
  tail_at ies (zlen (enc_ies l)) (t :: zlen d :: d ++ post).
Proof.
  intros Hl Hne Hd Hpost ies Hsz.
  assert (Ht : tail_at ies (zlen (enc_ies l)) (t :: zlen d :: d ++ post))
    by (by eapply (tail_at_app _ 0 (enc_ies l)); [apply tail_at_0|]).
  split; [|done]. destruct (decompose post Hpost) as (l2 & rest & Hp & Hl2 & Hcut).
  unfold mm_find_ie. rewrite (find_from_spec (l ++ (t, d) :: l2)) with (rest := rest); try done.
  - unfold find_result. replace (first_ie _ 0 t) with (Some (zlen (enc_ies l))); [done|].
    assert (Hgen : forall off, first_ie (l ++ (t, d) :: l2) off t = Some (off + zlen (enc_ies l))).
    { clear -Hne. induction Hne as [|e l He Hne IH]; intros off.
      - cbn [app first_ie fst]. rewrite decide_True, zlen_enc_nil by done. f_equal; lia.
      - cbn [app first_ie]. rewrite decide_False, IH, enc_ies_cons, length_app by done. f_equal; lia. }
    by rewrite Hgen.
  - apply Forall_app. split; [done|]. by constructor.
  - subst ies. rewrite enc_ies_app, enc_ies_cons, <- !app_assoc, <- Hp. apply tail_at_0.
Qed.

Definition rsn_result (ver group : Z) (pairs akms : list Z) (caps : Z) : mm_rsn_information :=
  {| group_cipher_suite := group; pairwise_cipher_suites := take 2 (pairs ++ [0; 0]);
     akm_suites := take 2 (akms ++ [0; 0]);
     num_pairwise_cipher_suites := zlen pairs `min` 2; num_akm_suites := zlen akms `min` 2;
     version := ver; rsn_capabilities := caps |}.

Lemma min_decide n : (if decide (n > 2) then 2 else n) = n `min` 2.
Proof. case_decide; lia. Qed.

Lemma parse_rsn_enc ies o ver group pairs akms caps extra post :
  let d := enc_rsn ver group pairs akms caps extra in
  is_u16 ver -> is_u32 group -> Forall is_u32 pairs -> Forall is_u32 akms -> is_u16 caps ->
  zlen d < 256 -> mm_find_ie ies (zlen ies) MM_RSN_INFORMATION_IE_TYPE = Ok o ->
  tail_at ies o (MM_RSN_INFORMATION_IE_TYPE :: zlen d :: d ++ post) ->
  mm_parse_rsn_information ies (zlen ies) = Ok (0, rsn_result ver group pairs akms caps).
Proof.
  intros d Hv Hg Hp Ha Hc Hlen Hfind Ht. unfold mm_parse_rsn_information. rewrite Hfind.
  cbn [mbind outcome_bind]. pose proof Ht as [Ho _]. rewrite decide_False by lia.
  assert (Hl : zlen d = 12 + 4 * zlen pairs + 4 * zlen akms + zlen extra).
  { unfold d, enc_rsn. rewrite !length_app, !length_enc_be32s. cbn. lia. }
  apply tail_at_step in Ht. rewrite (tail_at_cons _ _ _ _ Ht). apply tail_at_step in Ht.
  cbn [mbind outcome_bind]. rewrite decide_False by lia.
  replace (o + 1 + 1) with (o + 2) in Ht by lia.
  unfold d at 1, enc_rsn in Ht. rewrite <- !app_assoc in Ht.
  rewrite (rd_le16_tail _ _ _ _ Hv Ht). eapply tail_at_app in Ht; [|done]. cbn [mbind outcome_bind].
  rewrite zlen_enc_le16 in Ht.
  rewrite (rd_be32_tail _ (o + 2 + 2) _ _ Hg Ht). eapply tail_at_app in Ht; [|done]. cbn [mbind outcome_bind].
  rewrite zlen_enc_be32 in Ht.
  rewrite (rd_le16_tail _ (o + 2 + 2 + 4) (zlen pairs)) with (2 := Ht) by zlia.
  eapply tail_at_app in Ht; [|done]. cbn [mbind outcome_bind]. rewrite zlen_enc_le16 in Ht.
  unfold MM_RSN_INFORMATION_MAX_PAIRWISE_CIPHER_SUITES, MM_RSN_INFORMATION_MAX_AKM_SUITES.
  rewrite !min_decide, !u8_sub_sub. rewrite decide_False by zlia.
  rewrite Nat2Z.id. erewrite suites_loop_tail; [|done|apply u8_range|exact Ht].
  eapply tail_at_app in Ht; [|done]. cbn [mbind outcome_bind]. rewrite length_enc_be32s in Ht.
  set (o2 := o + 2 + 2 + 4 + 2) in *. set (o3 := o2 + 4 * zlen pairs).
  replace (o2 + Z.of_nat (4 * length pairs)) with o3 in Ht by (unfold o3; lia).
  rewrite (rd_le16_tail _ o3 (zlen akms)) with (2 := Ht) by zlia.
  eapply tail_at_app in Ht; [|done]. cbn [mbind outcome_bind]. rewrite zlen_enc_le16 in Ht.
  rewrite !min_decide, !u8_sub_sub. rewrite decide_False by zlia.
  rewrite Nat2Z.id. erewrite suites_loop_tail; [|done|apply u8_range|exact Ht].
  eapply tail_at_app in Ht; [|done]. cbn [mbind outcome_bind]. rewrite length_enc_be32s in Ht.
  replace (Z.of_nat (4 * length akms)) with (4 * zlen akms) in Ht by lia.
  rewrite (rd_le16_tail _ _ caps) with (2 := Ht) by done. done.
Qed.

(** ** Properties *)

(** C38: [mm_find_ie] on every block of octets below 2^31: the block is a
    sequence of whole elements and a cut-short rest, and the search returns
    the offset of the first element of the type, -2 when there is none but
    the rest starts with a header of the type, and -1 otherwise.  It never
    reads outside the block and always terminates. *)
Theorem mm_find_ie_correct ies t :
  is_bytes ies -> zlen ies < 2 ^ 31 ->
  exists l rest, ies = enc_ies l ++ rest /\ Forall ie_wf l /\ cut_short rest /\
    mm_find_ie ies (zlen ies) t = Ok (find_result l rest 0 t).
Proof.
  intros Hb Hsz. destruct (decompose ies Hb) as (l & rest & E & Hl & Hc).
  exists l, rest. split_and!; try done. apply find_from_spec; try done.
  rewrite <- E. apply tail_at_0.
Qed.

Lemma mm_find_ie_correct_witness :
  exists l rest, [1; 1; 9; 48; 2; 7; 8; 5] = enc_ies l ++ rest /\ Forall ie_wf l /\
    cut_short rest /\
    mm_find_ie [1; 1; 9; 48; 2; 7; 8; 5] (zlen [1; 1; 9; 48; 2; 7; 8; 5]) 48 =
      Ok (find_result l rest 0 48).
Proof. apply (mm_find_ie_correct [1; 1; 9; 48; 2; 7; 8; 5] 48); by_decide. Defined.

(** [mm_find_vendor_specific_ie] on every block: it never reads outside the
    block, terminates, and returns the first vendor specific element whose
    data start with [id], or a negative code when no whole element does. *)
Theorem mm_find_vendor_specific_ie_correct ies id :
  is_bytes ies -> zlen ies + zlen id < 2 ^ 31 ->
  exists l rest r, ies = enc_ies l ++ rest /\ Forall ie_wf l /\ cut_short rest /\
    mm_find_vendor_specific_ie ies (zlen ies) id = Ok r /\
    match first_vendor l 0 id with Some o => r = o | None => r = -1 \/ r = -2 end.
Proof.
  intros Hb Hsz. destruct (decompose ies Hb) as (l & rest & E & Hl & Hc).
  destruct (find_vendor_loop_spec (S (Z.to_nat (zlen ies))) l ies 0 id rest)
    as (r & Hr & Hv); try done.
  - rewrite <- E. apply tail_at_0.
  - rewrite <- E. lia.
  - exists l, rest, r. done.
Qed.

Lemma mm_find_vendor_specific_ie_correct_witness :
  exists l rest r, [221; 1; 9; 221; 3; 7; 8; 5] = enc_ies l ++ rest /\ Forall ie_wf l /\
    cut_short rest /\
    mm_find_vendor_specific_ie [221; 1; 9; 221; 3; 7; 8; 5]
      (zlen [221; 1; 9; 221; 3; 7; 8; 5]) [7; 8] = Ok r /\
    match first_vendor l 0 [7; 8] with Some o => r = o | None => r = -1 \/ r = -2 end.
Proof.
  apply (mm_find_vendor_specific_ie_correct [221; 1; 9; 221; 3; 7; 8; 5] [7; 8]); by_decide.
Defined.

(** C39: [mm_parse_rsn_information] decodes every RSN element that follows
    elements of other types, whatever comes after it: version, group suite,
    counts clipped to two with the first two suites of each list, and the
    capabilities behind both (arbitrarily long) lists. *)
Theorem mm_parse_rsn_information_roundtrip l ver group pairs akms caps extra post :
  let d := enc_rsn ver group pairs akms caps extra in
  let ies := enc_ies l ++ enc_ie (MM_RSN_INFORMATION_IE_TYPE, d) ++ post in
  Forall ie_wf l -> Forall (fun e => fst e <> MM_RSN_INFORMATION_IE_TYPE) l ->
  is_u16 ver -> is_u32 group -> Forall is_u32 pairs -> Forall is_u32 akms -> is_u16 caps ->
  is_bytes extra -> is_bytes post -> zlen d < 256 -> zlen ies < 2 ^ 31 ->
  mm_parse_rsn_information ies (zlen ies) = Ok (0, rsn_result ver group pairs akms caps).
Proof.
  intros d ies Hl Hne Hv Hg Hp Ha Hc He Hpost Hd Hsz.
  assert (Hlen : zlen d = 12 + 4 * zlen pairs + 4 * zlen akms + zlen extra).
  { unfold d, enc_rsn. rewrite !length_app, !length_enc_be32s. cbn. lia. }
  destruct (find_after l MM_RSN_INFORMATION_IE_TYPE d post) as [Hf Ht]; try done.
  - split_and!; [done|apply enc_rsn_bytes; done || lia|done].
  - by apply (parse_rsn_enc _ (zlen (enc_ies l)) _ _ _ _ _ extra post).
Qed.

Lemma mm_parse_rsn_information_roundtrip_witness :
  let ies := enc_ies [(0, [65; 66])] ++
    enc_ie (48, enc_rsn 1 0x000fac04 [0x000fac04] [0x000fac08; 0x000fac12; 0x506f9a02] 0xc0 [0; 0])
    ++ [1; 2] in
  mm_parse_rsn_information ies (zlen ies) =
    Ok (0, rsn_result 1 0x000fac04 [0x000fac04] [0x000fac08; 0x000fac12; 0x506f9a02] 0xc0).
Proof.
  apply (mm_parse_rsn_information_roundtrip [(0, [65; 66])] 1 0x000fac04 [0x000fac04]
    [0x000fac08; 0x000fac12; 0x506f9a02] 0xc0 [0; 0] [1; 2]);
  unfold ie_wf; by_decide.
Defined.

(** [mm_parse_rsn_information] on every block of octets: no read outside the
    block however the counts lie, the result is 0, -1 or -2, and the recorded
    counts never exceed the two entries of the arrays. *)
Theorem mm_parse_rsn_information_safe ies :
  is_bytes ies -> zlen ies < 2 ^ 31 ->
  exists r out, mm_parse_rsn_information ies (zlen ies) = Ok (r, out) /\
    (r = 0 \/ r = -1 \/ r = -2) /\
    0 <= num_pairwise_cipher_suites out <= 2 /\ 0 <= num_akm_suites out <= 2.
Proof.
  intros Hb Hsz. unfold mm_parse_rsn_information, mm_find_ie.
  destruct (find_from_any ies 0 MM_RSN_INFORMATION_IE_TYPE Hb Hsz) as (o & -> & Ho); [lia|].
  cbn [mbind outcome_bind].
  destruct Ho as [->|[->|(Ho & d & post & Ht & Hd & Hz)]]; [do 2 eexists; (split; [done|]); cbn; lia..|].
  rewrite decide_False by lia. pose proof (tail_at_len _ _ _ Ht) as Hlen.
  apply tail_at_step in Ht. rewrite (tail_at_cons _ _ _ _ Ht). clear Ht.
  cbn [length] in Hlen. rewrite length_app in Hlen. cbn [mbind outcome_bind].
  case_decide; [do 2 eexists; split; [done|]; cbn; lia|].
  destruct (rd_le16_Ok ies (o + 2)) as (ver & -> & _); [done|lia..|]. cbn [mbind outcome_bind].
  destruct (rd_be32_Ok ies (o + 2 + 2)) as (group & ->); [lia..|]. cbn [mbind outcome_bind].
  destruct (rd_le16_Ok ies (o + 2 + 2 + 4)) as (np & -> & Hnp); [done|lia..|]. cbn [mbind outcome_bind].
  unfold MM_RSN_INFORMATION_MAX_PAIRWISE_CIPHER_SUITES, MM_RSN_INFORMATION_MAX_AKM_SUITES.
  rewrite !min_decide, !u8_sub_sub. case_decide; [do 2 eexists; split; [done|]; cbn; zlia|].
  destruct (suites_loop_Ok (Z.to_nat np) 0 (np `min` 2) ies (o + 2 + 2 + 4 + 2)
    (u8 (zlen d - (2 + (4 + 2)))) [0; 0]) as (pairs & ->); [cbn; zlia..|]. cbn [mbind outcome_bind].
  rewrite Z2Nat.id by zlia.
  destruct (rd_le16_Ok ies (o + 2 + 2 + 4 + 2 + 4 * np)) as (na & -> & Hna); [done|zlia..|].
  cbn [mbind outcome_bind]. rewrite !min_decide, !u8_sub_sub.
  case_decide; [do 2 eexists; split; [done|]; cbn; zlia|].
  destruct (suites_loop_Ok (Z.to_nat na) 0 (na `min` 2) ies (o + 2 + 2 + 4 + 2 + 4 * np + 2)
    (u8 (zlen d - (2 + (4 + 2) + 4 * np + 2))) [0; 0]) as (akms & Hakm); [cbn; zlia..|].
  rewrite <- !u8_sub_sub in Hakm. rewrite <- !u8_sub_sub. rewrite Hakm.
  cbn [mbind outcome_bind]. rewrite Z2Nat.id by zlia.
  destruct (rd_le16_Ok ies (o + 2 + 2 + 4 + 2 + 4 * np + 2 + 4 * na)) as (caps & -> & _); [done|zlia..|].
  do 2 eexists. split; [done|]. cbn. zlia.
Qed.

Lemma mm_parse_rsn_information_safe_witness :
  exists r out, mm_parse_rsn_information [48; 8; 1; 0; 0; 15; 172; 4; 255; 255]
      (zlen [48; 8; 1; 0; 0; 15; 172; 4; 255; 255]) = Ok (r, out) /\
    (r = 0 \/ r = -1 \/ r = -2) /\
    0 <= num_pairwise_cipher_suites out <= 2 /\ 0 <= num_akm_suites out <= 2.
Proof.
  apply (mm_parse_rsn_information_safe [48; 8; 1; 0; 0; 15; 172; 4; 255; 255]); by_decide.
Defined.

(** [mm_parse_s1g_operation] on an S1G operation element that follows elements
    of other types, whatever follows it: channel width octet and three numbers. *)
Lemma mm_parse_s1g_octets l cw cls pch och mcs extra post out :
  let d := [cw; cls; pch; och] ++ mcs ++ extra in
  let ies := enc_ies l ++ enc_ie (MM_S1G_OPERATION_IE_TYPE, d) ++ post in
  Forall ie_wf l -> Forall (fun e => fst e <> MM_S1G_OPERATION_IE_TYPE) l ->
  is_bytes [cw; cls; pch; och] -> length mcs = 2%nat -> is_bytes (mcs ++ extra) -> is_bytes post ->
  zlen d < 256 -> zlen ies < 2 ^ 31 ->
  mm_parse_s1g_operation ies (zlen ies) out =
    Ok (0, {| operating_class := cls; operating_channel_width_mhz := u8 (Z.land (Z.shiftr cw 1) 0x0f + 1);
              primary_channel_width_mhz := u8 (2 - Z.land cw 0x01); operating_channel_number := och;
              primary_channel_number := pch |}).
Proof.
  intros d ies Hl Hne Hcls Hmcs Hb Hpost Hd Hsz.
  destruct (find_after l MM_S1G_OPERATION_IE_TYPE d post) as [Hf Ht]; try done.
  { split_and!; [done| |done]. apply Forall_app. by split. }
  unfold mm_parse_s1g_operation. fold ies in Hf, Ht. rewrite Hf. cbn [mbind outcome_bind].
  rewrite decide_False by lia. set (o := zlen (enc_ies l)) in *. cbn [app d] in Ht.
  apply tail_at_step in Ht. rewrite (tail_at_cons _ _ _ _ Ht). apply tail_at_step in Ht.
  cbn [mbind outcome_bind]. rewrite decide_False.
  2: { unfold dot11_ie_s1g_operation_size. unfold d. cbn [app length]. rewrite length_app. lia. }
  replace (o + 1 + 1) with (o + 2) in Ht by lia.
  rewrite (tail_at_cons _ _ _ _ Ht). apply tail_at_step in Ht. replace (o + 2 + 1) with (o + 3) in Ht by lia.
  rewrite (tail_at_cons _ _ _ _ Ht). apply tail_at_step in Ht. replace (o + 3 + 1) with (o + 4) in Ht by lia.
  rewrite (tail_at_cons _ _ _ _ Ht). apply tail_at_step in Ht. replace (o + 4 + 1) with (o + 5) in Ht by lia.
  by rewrite (tail_at_cons _ _ _ _ Ht).
Qed.

End WlanIe.
