(* ===== verification/Chain.v ===== *)
(** Singly linked lists in a store of nodes, for every list of the program
    that links its elements through a [next] field: the representation
    predicate [chain] and the facts its users share. *)

From S2P Require Import Prelude.

(** Addresses of nodes; [NULL] is [None]. *)
Abbreviation loc := positive.
Abbreviation ptr := (option positive).

(** A node type with its [next] field. *)
Class Linked (A : Type) := {
  get_next : A -> ptr;
  set_next : ptr -> A -> A;
  get_set_next p a : get_next (set_next p a) = p;
  set_set_next p q a : set_next p (set_next q a) = set_next p a;
}.

Arguments get_next : simpl never.
Arguments set_next : simpl never.

Section Chain.
  Context {A : Type} `{!Linked A}.
  Implicit Types (h : gmap loc A) (l : list loc) (p : ptr).

  (** From [p] the [next] fields lead through exactly the nodes [l]. *)
Fixpoint chain h p l : Prop :=
    match l with
    | [] => p = None
    | i :: l => p = Some i /\ exists a, h !! i = Some a /\ chain h (get_next a) l
    end.

  (** Writing through a pointer: [p->next = q]. *)
Definition store_next h (i : loc) (q : ptr) : outcome (gmap loc A) :=
    match h !! i with
    | Some a => Ok (<[i := set_next q a]> h)
    | None => Fail OutOfBounds
    end.

Definition load_next h (i : loc) : outcome ptr :=
    match h !! i with
    | Some a => Ok (get_next a)
    | None => Fail OutOfBounds
    end.

Lemma chain_head h p l : chain h p l -> p = head l.
Proof. destruct l; cbn; naive_solver. Qed.

Lemma chain_lookup h p l i : chain h p l -> i ∈ l -> exists a, h !! i = Some a.
Proof.
  revert p. induction l as [|j l IH]; intros p; cbn; [by intros _ ?%elem_of_nil|].
  intros (-> & a & Ha & Hc) [->|Hi]%elem_of_cons; eauto.
Qed.

Lemma chain_frame h h' p l :
  (forall i, i ∈ l -> h' !! i = h !! i) -> chain h p l -> chain h' p l.
Proof.
  revert p. induction l as [|j l IH]; intros p Hf; cbn; [done|].
  intros (-> & a & Ha & Hc). split; [done|]. exists a. split.
  - rewrite Hf by set_solver. done.
  - apply IH; [|done]. intros. apply Hf. set_solver.
Qed.

Lemma chain_insert h p l i a : i ∉ l -> chain h p l -> chain (<[i := a]> h) p l.
Proof. intros Hi. apply chain_frame. intros j Hj. rewrite lookup_insert_ne; set_solver. Qed.

Lemma chain_delete h p l i : i ∉ l -> chain h p l -> chain (delete i h) p l.
Proof. intros Hi. apply chain_frame. intros j Hj. rewrite lookup_delete_ne; set_solver. Qed.

Lemma chain_det h p l l' : chain h p l -> chain h p l' -> l = l'.
Proof.
  revert p l'. induction l as [|i l IH]; intros p [|j l']; cbn; naive_solver.
Qed.

Lemma chain_suffix h p l1 i l2 : chain h p (l1 ++ i :: l2) -> chain h (Some i) (i :: l2).
Proof.
  revert p. induction l1 as [|j l1 IH]; intros p.
  - cbn. intros (-> & a & Ha & Hc). eauto.
  - cbn. intros (-> & a & Ha & Hc). by eapply IH in Hc.
Qed.

Lemma chain_next h p l1 i a l2 :
  chain h p (l1 ++ i :: l2) -> h !! i = Some a -> chain h (get_next a) l2.
Proof. intros (_ & a' & Ha' & Hc)%chain_suffix Ha. by simplify_eq. Qed.

(** A chain that ends visits no node twice. *)
Lemma chain_NoDup h p l : chain h p l -> NoDup l.
Proof.
  revert p. induction l as [|i l IH]; intros p Hc; [constructor|].
  constructor.
  - intros Hi. apply list_elem_of_split in Hi as (l1 & l2 & ->).
    pose proof (chain_suffix h p [] i _ Hc) as H1.
    pose proof (chain_suffix h p (i :: l1) i _ Hc) as H2.
    apply (chain_det _ _ _ _ H1) in H2. apply (f_equal length) in H2.
    cbn in H2. rewrite length_app in H2. cbn in H2. lia.
  - cbn in Hc. destruct Hc as (_ & a & _ & Hc). eauto.
Qed.

(** Relinking the predecessor of a node past it, and the last node to a new
    one. *)
Lemma chain_unlink h p l1 j a i b l2 :
  chain h p (l1 ++ j :: i :: l2) -> h !! j = Some a -> h !! i = Some b ->
  chain (<[j := set_next (get_next b) a]> h) p (l1 ++ j :: l2).
Proof.
  intros Hc Ha Hb. pose proof (chain_NoDup _ _ _ Hc) as Hnd.
  apply list.NoDup_app in Hnd as (_ & Hdis & Hnd). apply list.NoDup_cons in Hnd as [Hj Hnd].
  revert p Hc. induction l1 as [|k l1 IH]; intros p; cbn.
  - intros (-> & a' & Ha' & Hn & b' & Hb' & Hc). split; [done|].
    exists (set_next (get_next b) a). simplify_eq. rewrite get_set_next. split; [by rewrite lookup_insert_eq|].
    apply chain_insert; [set_solver|done].
  - intros (-> & a' & Ha' & Hc). split; [done|]. exists a'. split.
    + rewrite lookup_insert_ne; [done|]. intros ->. apply (Hdis k); set_solver.
    + apply IH; [|done]. intros. apply Hdis. set_solver.
Qed.

Lemma chain_snoc h p l j a i b :
  chain h p (l ++ [j]) -> h !! j = Some a -> h !! i = Some b -> get_next b = None ->
  i ∉ l ++ [j] ->
  chain (<[j := set_next (Some i) a]> h) p (l ++ [j; i]).
Proof.
  intros Hc Ha Hb Hn Hi. pose proof (chain_NoDup _ _ _ Hc) as Hnd.
  apply list.NoDup_app in Hnd as (_ & Hdis & _).
  revert p Hc. induction l as [|k l IH]; intros p; cbn.
  - intros (-> & a' & Ha' & _). split; [done|]. exists (set_next (Some i) a).
    rewrite get_set_next, lookup_insert_eq. split; [done|]. split; [done|].
    exists b. rewrite lookup_insert_ne by set_solver. done.
  - intros (-> & a' & Ha' & Hc). split; [done|]. exists a'. split.
    + rewrite lookup_insert_ne; [done|]. intros ->. apply (Hdis k); set_solver.
    + apply IH; [set_solver| |done]. intros. apply Hdis. set_solver.
Qed.

Lemma load_next_chain h p i l : chain h p (i :: l) ->
  exists a, h !! i = Some a /\ load_next h i = Ok (get_next a) /\ chain h (get_next a) l.
Proof. intros (_ & a & Ha & Hc). exists a. unfold load_next. rewrite Ha. done. Qed.

Lemma store_next_Ok h i a q : h !! i = Some a -> store_next h i q = Ok (<[i := set_next q a]> h).
Proof. intros Ha. unfold store_next. by rewrite Ha. Qed.

(** A chain has at most as many nodes as the store: what fuel to give. *)
Lemma chain_size h p l : chain h p l -> (length l <= size h)%nat.
Proof.
  intros Hc. pose proof (chain_NoDup _ _ _ Hc) as Hnd.
  rewrite <- size_dom, <- (size_list_to_set (C := gset loc)) by done.
  apply subseteq_size. intros i Hi%elem_of_list_to_set.
  apply elem_of_dom. destruct (chain_lookup _ _ _ _ Hc Hi) as [a Ha]. eauto.
Qed.
End Chain.
