(* ===== verification/MmBuf.v ===== *)
(** Packet buffers: [framework/src/mmutils/mmbuf.h] and [mmbuf.c].

    Module [MmBuf] is one buffer: the octets, the data window in them, and the
    operations that move its ends.  Module [MmBufList] is the linked list with
    head, tail and length over a store of buffers.  [mmosal_malloc] is a
    parameter: it returns the contents of a fresh block, or [None]. *)

From S2P Require Import Prelude Chain.

Module MmBuf.

(** ** Data *)

(** [const struct mmbuf_ops *]; only whether [ops] and [ops->free_mmbuf] are
    null is observed. *)
Record mmbuf_ops := { has_free_mmbuf : bool }.
Definition mmbuf_heap_ops : mmbuf_ops := {| has_free_mmbuf := true |}.

Record mmbuf := {
  buf : bytes;
  buf_len : Z;
  start_offset : Z;
  data_len : Z;
  ops : option mmbuf_ops;
  next : ptr;
}.

Definition mmbuf_init (b : bytes) (blen data_start_offset : Z) (o : option mmbuf_ops) : mmbuf :=
  {| buf := b; buf_len := blen; start_offset := data_start_offset; data_len := 0;
     ops := o; next := None |}.

Definition set_window (m : mmbuf) (start len : Z) : mmbuf :=
  {| buf := buf m; buf_len := buf_len m; start_offset := start; data_len := len;
     ops := ops m; next := next m |}.

Definition set_buf (m : mmbuf) (b : bytes) : mmbuf :=
  {| buf := b; buf_len := buf_len m; start_offset := start_offset m; data_len := data_len m;
     ops := ops m; next := next m |}.

(** ** Operations; pointers into the buffer are offsets in it *)

Definition mmbuf_get_data_start (m : mmbuf) : Z := start_offset m.
Definition mmbuf_get_data_end (m : mmbuf) : Z := u32 (start_offset m + data_len m).
Definition mmbuf_get_data_length (m : mmbuf) : Z := data_len m.
Definition mmbuf_available_space_at_start (m : mmbuf) : Z := start_offset m.
Definition mmbuf_available_space_at_end (m : mmbuf) : Z :=
  u32 (buf_len m - u32 (start_offset m + data_len m)).

Definition mmbuf_prepend (m : mmbuf) (len : Z) : outcome (Z * mmbuf) :=
  assert (bool_decide (len <= mmbuf_available_space_at_start m)) ;;
  let m := set_window m (u32 (start_offset m - len)) (u32 (data_len m + len)) in
  Ok (start_offset m, m).

Definition mmbuf_prepend_data (m : mmbuf) (data : bytes) : outcome mmbuf :=
  '(dest, m) ← mmbuf_prepend m (zlen data);
  b ← wrn (buf m) dest data; Ok (set_buf m b).

Definition mmbuf_append (m : mmbuf) (len : Z) : outcome (Z * mmbuf) :=
  let ret := mmbuf_get_data_end m in
  assert (bool_decide (len <= mmbuf_available_space_at_end m)) ;;
  Ok (ret, set_window m (start_offset m) (u32 (data_len m + len))).

Definition mmbuf_append_data (m : mmbuf) (data : bytes) : outcome mmbuf :=
  '(dest, m) ← mmbuf_append m (zlen data);
  b ← wrn (buf m) dest data; Ok (set_buf m b).

Definition mmbuf_remove_from_start (m : mmbuf) (len : Z) : option Z * mmbuf :=
  if decide (mmbuf_get_data_length m < len) then (None, m)
  else (Some (mmbuf_get_data_start m),
        set_window m (u32 (start_offset m + len)) (u32 (data_len m - len))).

Definition mmbuf_remove_from_end (m : mmbuf) (len : Z) : option Z * mmbuf :=
  if decide (mmbuf_get_data_length m < len) then (None, m)
  else (Some (u32 (mmbuf_get_data_end m - len)),
        set_window m (start_offset m) (u32 (data_len m - len))).

Definition mmbuf_truncate (m : mmbuf) (len : Z) : outcome mmbuf :=
  assert (bool_decide (len <= data_len m)) ;; Ok (set_window m (start_offset m) len).

(** [MM_FAST_ROUND_UP (x, m)], on 32 bits *)
Definition MM_FAST_ROUND_UP (x m : Z) : Z := u32 (Z.lor (u32 (x - 1)) (m - 1) + 1).

(** [sizeof (struct mmbuf)] on the 32-bit target *)
Definition sizeof_mmbuf : Z := 24.

Definition mmbuf_alloc_on_heap (mmosal_malloc : Z -> option bytes)
    (space_at_start space_at_end : Z) : outcome (option mmbuf) :=
  let alloc_len := u32 (MM_FAST_ROUND_UP sizeof_mmbuf 4 +
                        MM_FAST_ROUND_UP (u32 (space_at_start + space_at_end)) 4) in
  match mmosal_malloc alloc_len with
  | None => Ok None
  | Some block =>
      block ← wrn block 0 (replicate (Z.to_nat alloc_len) 0);
      Ok (Some (mmbuf_init (drop (Z.to_nat (MM_FAST_ROUND_UP sizeof_mmbuf 4)) block)
                  (MM_FAST_ROUND_UP (u32 (space_at_start + space_at_end)) 4)
                  space_at_start (Some mmbuf_heap_ops)))
  end.

Definition mmbuf_make_copy_on_heap (mmosal_malloc : Z -> option bytes) (original : mmbuf)
  : outcome (option mmbuf) :=
  let alloc_len := u32 (MM_FAST_ROUND_UP sizeof_mmbuf 4 + buf_len original) in
  match mmosal_malloc alloc_len with
  | None => Ok None
  | Some block =>
      let m := mmbuf_init (drop (Z.to_nat (MM_FAST_ROUND_UP sizeof_mmbuf 4)) block)
                 (buf_len original) (start_offset original) (Some mmbuf_heap_ops) in
      let m := set_window m (start_offset m) (data_len original) in
      if decide (data_len original <> 0) then
        d ← rdn (buf original) (mmbuf_get_data_start original) (mmbuf_get_data_length original);
        b ← wrn (buf m) (mmbuf_get_data_start m) d;
        Ok (Some (set_buf m b))
      else Ok (Some m)
  end.

(** ** Specification: room, data, room *)

Record view := { room_start : Z; data : bytes; room_end : Z }.

Definition abs (m : mmbuf) : view :=
  {| room_start := start_offset m;
     data := window (Z.to_nat (start_offset m)) (Z.to_nat (data_len m)) (buf m);
     room_end := buf_len m - start_offset m - data_len m |}.

(** The object invariant. *)
Record wf (m : mmbuf) : Prop := {
  wf_buf : zlen (buf m) = buf_len m;
  wf_u32 : buf_len m < 2 ^ 32;
  wf_start : 0 <= start_offset m;
  wf_data : 0 <= data_len m;
  wf_fits : start_offset m + data_len m <= buf_len m;
}.

Inductive op :=
| OPrepend (d : bytes)
| OAppend (d : bytes)
| ORemoveStart (n : Z)
| ORemoveEnd (n : Z)
| OTruncate (n : Z).

(** The octets a removal hands to its caller through the returned pointer. *)
Definition read_back (m : mmbuf) (p : option Z) (n : Z) : outcome (option bytes) :=
  match p with
  | Some off => d ← rdn (buf m) off n; Ok (Some d)
  | None => Ok None
  end.

Definition run (m : mmbuf) (o : op) : outcome (option bytes * mmbuf) :=
  match o with
  | OPrepend d => m ← mmbuf_prepend_data m d; Ok (None, m)
  | OAppend d => m ← mmbuf_append_data m d; Ok (None, m)
  | ORemoveStart n =>
      let (p, m) := mmbuf_remove_from_start m n in r ← read_back m p n; Ok (r, m)
  | ORemoveEnd n =>
      let (p, m) := mmbuf_remove_from_end m n in r ← read_back m p n; Ok (r, m)
  | OTruncate n => m ← mmbuf_truncate m n; Ok (None, m)
  end.

Definition spec (v : view) (o : op) : outcome (option bytes * view) :=
  match o with
  | OPrepend d =>
      if decide (zlen d <= room_start v)
      then Ok (None, {| room_start := room_start v - zlen d; data := d ++ data v;
                        room_end := room_end v |})
      else Fail AssertFailed
  | OAppend d =>
      if decide (zlen d <= room_end v)
      then Ok (None, {| room_start := room_start v; data := data v ++ d;
                        room_end := room_end v - zlen d |})
      else Fail AssertFailed
  | ORemoveStart n =>
      if decide (n <= zlen (data v))
      then Ok (Some (take (Z.to_nat n) (data v)),
               {| room_start := room_start v + n; data := drop (Z.to_nat n) (data v);
                  room_end := room_end v |})
      else Ok (None, v)
  | ORemoveEnd n =>
      if decide (n <= zlen (data v))
      then Ok (Some (drop (length (data v) - Z.to_nat n) (data v)),
               {| room_start := room_start v;
                  data := take (length (data v) - Z.to_nat n) (data v);
                  room_end := room_end v + n |})
      else Ok (None, v)
  | OTruncate n =>
      if decide (n <= zlen (data v))
      then Ok (None, {| room_start := room_start v; data := take (Z.to_nat n) (data v);
                        room_end := room_end v + (zlen (data v) - n) |})
      else Fail AssertFailed
  end.

(** Arguments of type [uint32_t]. *)
Definition op_wf (o : op) : Prop :=
  match o with
  | OPrepend d | OAppend d => zlen d < 2 ^ 32
  | ORemoveStart n | ORemoveEnd n | OTruncate n => is_u32 n
  end.

(** A run of operations, failing with the first that fails. *)
Fixpoint run_all (m : mmbuf) (os : list op) : outcome (list (option bytes) * mmbuf) :=
  match os with
  | [] => Ok ([], m)
  | o :: os => '(r, m) ← run m o; '(rs, m) ← run_all m os; Ok (r :: rs, m)
  end.

Fixpoint spec_all (v : view) (os : list op) : outcome (list (option bytes) * view) :=
  match os with
  | [] => Ok ([], v)
  | o :: os => '(r, v) ← spec v o; '(rs, v) ← spec_all v os; Ok (r :: rs, v)
  end.

(** ** Lemmas *)

Lemma abs_len m : wf m -> zlen (data (abs m)) = data_len m.
Proof. intros [????]. cbn. rewrite length_window; lia. Qed.

Lemma set_window_wf m s n :
  wf m -> 0 <= s -> 0 <= n -> s + n <= buf_len m -> wf (set_window m s n).
Proof. intros [????] ???. by constructor. Qed.

Lemma set_buf_wf m b : wf m -> length b = length (buf m) -> wf (set_buf m b).
Proof. intros [????] Hl. constructor; cbn; lia. Qed.

Lemma splice_window_wf m s n off d :
  wf m -> 0 <= s -> 0 <= n -> s + n <= buf_len m -> 0 <= off -> off + zlen d <= buf_len m ->
  wf (set_buf (set_window m s n) (splice (Z.to_nat off) d (buf m))).
Proof.
  intros Hwf ?????. apply set_buf_wf; [by apply set_window_wf|]. destruct Hwf.
  cbn. rewrite length_splice; lia.
Qed.

(** How one step of the code and one of the specification correspond. *)
Definition matches (c : outcome (option bytes * mmbuf)) (s : outcome (option bytes * view)) : Prop :=
  match c, s with
  | Ok (r, m), Ok (r', v) => r = r' /\ abs m = v /\ wf m
  | Fail e, Fail e' => e = e'
  | _, _ => False
  end.

Lemma view_eq a1 d1 e1 a2 d2 e2 : a1 = a2 -> d1 = d2 -> e1 = e2 ->
  {| room_start := a1; data := d1; room_end := e1 |} =
  {| room_start := a2; data := d2; room_end := e2 |}.
Proof. congruence. Qed.

Lemma prepend_refines m d :
  wf m -> zlen d < 2 ^ 32 -> matches (run m (OPrepend d)) (spec (abs m) (OPrepend d)).
Proof.
  intros Hwf Hd. pose proof Hwf as [????]. cbn [run spec]. unfold mmbuf_prepend_data, mmbuf_prepend.
  unfold mmbuf_available_space_at_start. cbn [abs room_start].
  case_decide as Hc; [rewrite bool_decide_true by done|by rewrite bool_decide_false].
  cbn [assert mbind outcome_bind set_window start_offset buf]. rewrite !u32_id by zlia.
  rewrite wrn_Ok by lia. cbn [mbind outcome_bind matches]. split_and!; [done| |apply splice_window_wf; try done; lia].
  apply view_eq; cbn; [done| |lia].
  replace (Z.to_nat (data_len m + zlen d)) with (length d + Z.to_nat (data_len m))%nat by lia.
  rewrite window_app, window_splice_same by lia. f_equal.
  replace (Z.to_nat (start_offset m - zlen d) + length d)%nat with (Z.to_nat (start_offset m)) by lia.
  apply window_splice_after; lia.
Qed.

Lemma space_at_end m : wf m ->
  mmbuf_available_space_at_end m = buf_len m - start_offset m - data_len m.
Proof.
  intros [????]. unfold mmbuf_available_space_at_end.
  rewrite (u32_id (start_offset m + data_len m)), u32_id by zlia. lia.
Qed.

Lemma data_end m : wf m -> mmbuf_get_data_end m = start_offset m + data_len m.
Proof. intros [????]. apply u32_id. zlia. Qed.

Lemma append_refines m d :
  wf m -> zlen d < 2 ^ 32 -> matches (run m (OAppend d)) (spec (abs m) (OAppend d)).
Proof.
  intros Hwf Hd. pose proof Hwf as [????]. cbn [run spec]. unfold mmbuf_append_data, mmbuf_append.
  rewrite space_at_end, data_end by done. cbn [abs room_end].
  case_decide as Hc; [rewrite bool_decide_true by lia|by rewrite bool_decide_false by lia].
  cbn [assert mbind outcome_bind set_window start_offset buf]. rewrite !u32_id by zlia.
  rewrite wrn_Ok by lia. cbn [mbind outcome_bind matches]. split_and!; [done| |apply splice_window_wf; try done; lia].
  apply view_eq; cbn; [done| |lia].
  replace (Z.to_nat (data_len m + zlen d)) with (Z.to_nat (data_len m) + length d)%nat by lia.
  rewrite window_app. f_equal.
  - apply window_splice_before; lia.
  - replace (Z.to_nat (start_offset m) + Z.to_nat (data_len m))%nat
      with (Z.to_nat (start_offset m + data_len m)) by lia. apply window_splice_same. lia.
Qed.

Lemma remove_start_refines m n :
  wf m -> is_u32 n -> matches (run m (ORemoveStart n)) (spec (abs m) (ORemoveStart n)).
Proof.
  intros Hwf Hn. pose proof Hwf as [????]. cbn [run spec]. rewrite abs_len by done.
  unfold mmbuf_remove_from_start, mmbuf_get_data_length, mmbuf_get_data_start.
  destruct (decide (n <= data_len m)).
  - rewrite decide_False by lia. cbn [read_back set_window buf]. rewrite !u32_id, rdn_Ok by zlia.
    cbn [mbind outcome_bind matches]. split_and!; [|apply view_eq; cbn|apply set_window_wf; try done; zlia].
    + cbn. rewrite take_window by lia. done.
    + done.
    + rewrite drop_window by lia. f_equal; zlia.
    + lia.
  - rewrite decide_True by lia. done.
Qed.

Lemma remove_end_refines m n :
  wf m -> is_u32 n -> matches (run m (ORemoveEnd n)) (spec (abs m) (ORemoveEnd n)).
Proof.
  intros Hwf Hn. pose proof Hwf as [????]. pose proof (abs_len m Hwf) as Hlen.
  cbn [run spec]. rewrite Hlen.
  unfold mmbuf_remove_from_end, mmbuf_get_data_length, mmbuf_get_data_end.
  destruct (decide (n <= data_len m)).
  - rewrite decide_False by lia. cbn [read_back set_window buf]. rewrite !u32_id, rdn_Ok by zlia.
    cbn [mbind outcome_bind matches]. split_and!; [|apply view_eq; cbn|apply set_window_wf; try done; zlia].
    + f_equal. cbn in Hlen |- *. rewrite drop_window by zlia. f_equal; zlia.
    + done.
    + cbn in Hlen. rewrite take_window by zlia. f_equal; zlia.
    + lia.
  - rewrite decide_True by lia. done.
Qed.

Lemma truncate_refines m n :
  wf m -> is_u32 n -> matches (run m (OTruncate n)) (spec (abs m) (OTruncate n)).
Proof.
  intros Hwf Hn. pose proof Hwf as [????]. cbn [run spec]. rewrite abs_len by done.
  unfold mmbuf_truncate. destruct (decide (n <= data_len m)).
  - rewrite bool_decide_true by done. cbn [assert mbind outcome_bind matches].
    split_and!; [done|apply view_eq; cbn|apply set_window_wf; try done; zlia]; [done| |lia].
    by rewrite take_window by lia.
  - by rewrite bool_decide_false.
Qed.

Lemma op_refines m o : wf m -> op_wf o -> matches (run m o) (spec (abs m) o).
Proof.
  destruct o; cbn [op_wf]; intros.
  - by apply prepend_refines.
  - by apply append_refines.
  - by apply remove_start_refines.
  - by apply remove_end_refines.
  - by apply truncate_refines.
Qed.

Definition matches_all (c : outcome (list (option bytes) * mmbuf))
    (s : outcome (list (option bytes) * view)) : Prop :=
  match c, s with
  | Ok (r, m), Ok (r', v) => r = r' /\ abs m = v /\ wf m
  | Fail e, Fail e' => e = e'
  | _, _ => False
  end.

Lemma round_up_4 x : 0 <= x < 2 ^ 32 - 3 ->
  x <= MM_FAST_ROUND_UP x 4 < x + 4 /\ MM_FAST_ROUND_UP x 4 mod 4 = 0.
Proof.
  intros Hx. unfold MM_FAST_ROUND_UP. change (4 - 1) with (Z.ones 2).
  assert (Hor : forall y, 0 <= y -> Z.lor y (Z.ones 2) = y / 4 * 4 + 3).
  { intros y Hy. rewrite Z.lor_comm.
    replace (Z.lor (Z.ones 2) y) with (Z.lor 3 (Z.shiftl (Z.shiftr y 2) 2)).
    - rewrite lor_shiftl, Z.shiftr_div_pow2 by lia. change (2 ^ 2) with 4. lia.
    - apply Z.bits_inj'. intros i Hi. rewrite !Z.lor_spec. change 3 with (Z.ones 2).
      destruct (decide (i < 2)); [by rewrite Z.ones_spec_low by lia|].
      rewrite Z.shiftl_spec, Z.shiftr_spec by lia. do 2 f_equal. lia. }
  destruct (decide (x = 0)) as [->|]; [by vm_compute|].
  rewrite Hor by zlia. zlia.
Qed.

(** ** Properties *)

(** C14: a buffer that satisfies the object invariant behaves, under every
    sequence of the code's operations, as the abstract triple of head room,
    data and tail room: the same octets are handed out, the same asserts
    fail, the invariant is kept, and no access leaves the buffer. *)
Theorem mmbuf_ops_refine m os :
  wf m -> Forall op_wf os -> matches_all (run_all m os) (spec_all (abs m) os).
Proof.
  intros Hwf Hos. revert m Hwf. induction Hos as [|o os Ho Hos IH]; intros m Hwf; [done|].
  cbn [run_all spec_all]. pose proof (op_refines m o Hwf Ho) as Hm. unfold matches in Hm.
  destruct (run m o) as [[r m']|e], (spec (abs m) o) as [[r' v']|e']; try done.
  destruct Hm as (-> & <- & Hwf'). cbn [mbind outcome_bind]. specialize (IH m' Hwf').
  destruct (run_all m' os) as [[rs m'']|e], (spec_all (abs m') os) as [[rs' v'']|e']; try done.
  destruct IH as (-> & <- & Hwf''). done.
Qed.

Lemma mmbuf_ops_refine_witness :
  let m := mmbuf_init (replicate 12 0) 12 4 None in
  let os := [OAppend [1; 2; 3]; OPrepend [9; 8]; ORemoveStart 1; ORemoveEnd 7; OPrepend [1; 1; 1; 1; 1]] in
  matches_all (run_all m os) (spec_all (abs m) os).
Proof.
  apply (mmbuf_ops_refine (mmbuf_init (replicate 12 0) 12 4 None)
    [OAppend [1; 2; 3]; OPrepend [9; 8]; ORemoveStart 1; ORemoveEnd 7; OPrepend [1; 1; 1; 1; 1]]).
  - by constructor.
  - repeat constructor; by_decide.
Defined.

(** a buffer fresh from [mmbuf_alloc_on_heap] satisfies the invariant, is
    empty and zeroed, has the head room asked for and at least the tail room
    asked for (at most three octets more). *)
Theorem mmbuf_alloc_on_heap_wf malloc s e :
  (forall n b, 0 <= n -> malloc n = Some b -> zlen b = n) -> 0 <= s -> 0 <= e -> s + e < 2 ^ 32 - 32 ->
  mmbuf_alloc_on_heap malloc s e = Ok None \/
  exists m, mmbuf_alloc_on_heap malloc s e = Ok (Some m) /\ wf m /\
    room_start (abs m) = s /\ data (abs m) = [] /\ e <= room_end (abs m) < e + 4 /\
    buf m = replicate (Z.to_nat (buf_len m)) 0 /\ ops m = Some mmbuf_heap_ops.
Proof.
  intros Hlaw Hs He Hse. unfold mmbuf_alloc_on_heap.
  destruct (round_up_4 (s + e)) as [Hr _]; [lia|].
  change (MM_FAST_ROUND_UP sizeof_mmbuf 4) with 24. rewrite (u32_id (s + e)) by zlia.
  set (n := MM_FAST_ROUND_UP (s + e) 4) in *. rewrite u32_id by zlia.
  destruct (malloc (24 + n)) as [block|] eqn:Hm; [right|by left].
  apply Hlaw in Hm; [|lia]. assert (Hrep : zlen (replicate (Z.to_nat (24 + n)) 0) = 24 + n)
    by (rewrite length_replicate; lia).
  rewrite wrn_Ok by lia. cbn [mbind outcome_bind]. eexists. split; [done|].
  assert (Hbuf : drop (Z.to_nat 24) (splice (Z.to_nat 0) (replicate (Z.to_nat (24 + n)) 0) block) =
    replicate (Z.to_nat n) 0).
  { unfold splice. rewrite take_0, (drop_ge block), app_nil_r by lia. cbn [app].
    rewrite drop_replicate. f_equal. lia. }
  cbn [mmbuf_init]. rewrite Hbuf. cbn. split_and!; try done; try lia.
  constructor; cbn; rewrite ?length_replicate; lia.
Qed.

Lemma mmbuf_alloc_on_heap_wf_witness :
  let malloc := fun n => Some (replicate (Z.to_nat n) 0xa5) in
  mmbuf_alloc_on_heap malloc 8 5 = Ok None \/
  exists m, mmbuf_alloc_on_heap malloc 8 5 = Ok (Some m) /\ wf m /\
    room_start (abs m) = 8 /\ data (abs m) = [] /\ 5 <= room_end (abs m) < 5 + 4 /\
    buf m = replicate (Z.to_nat (buf_len m)) 0 /\ ops m = Some mmbuf_heap_ops.
Proof.
  apply (mmbuf_alloc_on_heap_wf (fun n => Some (replicate (Z.to_nat n) 0xa5)) 8 5); try lia.
  intros n b Hn [= <-]. rewrite length_replicate. lia.
Defined.

(** Copies have the same data and room. *)
Lemma mmbuf_make_copy_same malloc m :
  (forall n b, 0 <= n -> malloc n = Some b -> zlen b = n) -> wf m -> buf_len m < 2 ^ 32 - 32 ->
  mmbuf_make_copy_on_heap malloc m = Ok None \/
  exists m', mmbuf_make_copy_on_heap malloc m = Ok (Some m') /\ wf m' /\ abs m' = abs m.
Proof.
  intros Hlaw Hwf Hlen. pose proof Hwf as [????]. unfold mmbuf_make_copy_on_heap.
  change (MM_FAST_ROUND_UP sizeof_mmbuf 4) with 24. rewrite u32_id by zlia.
  destruct (malloc (24 + buf_len m)) as [block|] eqn:Hm; [right|by left]. apply Hlaw in Hm; [|lia].
  assert (Hb : zlen (drop (Z.to_nat 24) block) = buf_len m) by (rewrite length_drop; lia).
  unfold mmbuf_get_data_start, mmbuf_get_data_length. case_decide as Hd.
  - rewrite rdn_Ok by lia. cbn [mbind outcome_bind mmbuf_init set_window buf start_offset].
    assert (Hw : length (window (Z.to_nat (start_offset m)) (Z.to_nat (data_len m)) (buf m)) =
      Z.to_nat (data_len m)) by (apply length_window; lia).
    rewrite wrn_Ok by lia. cbn [mbind outcome_bind]. eexists. split; [done|]. split.
    + constructor; cbn; rewrite ?length_splice; lia.
    + apply view_eq; [done| |done]. cbn. rewrite <- Hw at 1. apply window_splice_same. lia.
  - eexists. split; [done|]. split; [by constructor|].
    apply view_eq; [done| |done]. cbn. replace (data_len m) with 0 by lia. done.
Qed.

End MmBuf.

Module MmBufList.
Import MmBuf.

Definition set_next (p : ptr) (m : mmbuf) : mmbuf :=
  {| buf := buf m; buf_len := buf_len m; start_offset := start_offset m;
     data_len := data_len m; ops := ops m; next := p |}.

#[global] Instance mmbuf_linked : Linked mmbuf.
Proof. by refine {| Chain.get_next := next; Chain.set_next := set_next |}. Defined.

(** The buffers that exist. *)
Abbreviation store := (gmap loc mmbuf).

Record mmbuf_list := { head : ptr; tail : ptr; len : Z }.

Definition set_head (L : mmbuf_list) (p : ptr) : mmbuf_list :=
  {| head := p; tail := tail L; len := len L |}.
Definition set_tail (L : mmbuf_list) (p : ptr) : mmbuf_list :=
  {| head := head L; tail := p; len := len L |}.
Definition set_len (L : mmbuf_list) (n : Z) : mmbuf_list :=
  {| head := head L; tail := tail L; len := n |}.

Definition MMBUF_LIST_INIT : mmbuf_list := {| head := None; tail := None; len := 0 |}.
Definition mmbuf_list_init (L : mmbuf_list) : mmbuf_list :=
  {| head := None; tail := None; len := 0 |}.

(** [mmosal_free] on a block of the heap: using it again is a fault. *)
Definition mmosal_free (h : store) (i : loc) : outcome store :=
  match h !! i with Some _ => Ok (delete i h) | None => Fail OutOfBounds end.

(** The callback [ops->free_mmbuf] of every buffer here is [mmosal_free]. *)
Definition mmbuf_release (h : store) (p : ptr) : outcome store :=
  match p with
  | None => Ok h
  | Some i =>
      match h !! i with
      | None => Fail OutOfBounds
      | Some m =>
          assert (match ops m with Some o => has_free_mmbuf o | None => false end) ;;
          mmosal_free h i
      end
  end.

Definition mmbuf_list_prepend (h : store) (L : mmbuf_list) (i : loc)
  : outcome (store * mmbuf_list) :=
  h ← store_next h i (head L);
  let L := set_head L (Some i) in
  let L := set_len L (u32 (len L + 1)) in
  Ok (h, if decide (tail L = None) then set_tail L (head L) else L).

Definition mmbuf_list_append (h : store) (L : mmbuf_list) (i : loc)
  : outcome (store * mmbuf_list) :=
  h ← store_next h i None;
  match head L, tail L with
  | None, _ => Ok (h, {| head := Some i; tail := Some i; len := u32 (len L + 1) |})
  | Some _, Some t =>
      h ← store_next h t (Some i);
      Ok (h, {| head := head L; tail := Some i; len := u32 (len L + 1) |})
  | Some _, None => Fail OutOfBounds
  end.

(** The [for] loop: [walk] is the node whose [next] is inspected. *)
Fixpoint mmbuf_find_prev_loop (fuel : nat) (h : store) (walk : loc) (i : loc) : outcome ptr :=
  match fuel with
  | O => Fail OutOfFuel
  | S fuel =>
      nxt ← load_next h walk;
      match nxt with
      | None => Ok None
      | Some n => if decide (n = i) then Ok (Some walk) else mmbuf_find_prev_loop fuel h n i
      end
  end.

(** As many turns as there are buffers. *)
Definition mmbuf_find_prev (h : store) (L : mmbuf_list) (i : loc) : outcome ptr :=
  match head L with
  | None => Fail OutOfBounds
  | Some w => mmbuf_find_prev_loop (size h) h w i
  end.

Definition mmbuf_list_remove (h : store) (L : mmbuf_list) (i : loc)
  : outcome (bool * store * mmbuf_list) :=
  match head L with
  | None => Ok (false, h, L)
  | Some w =>
      r ← (if decide (w = i) then
             n ← load_next h i;
             Ok (Some (None, h, set_head L n))
           else
             prev ← mmbuf_find_prev h L i;
             match prev with
             | None => Ok None
             | Some p => n ← load_next h i; h ← store_next h p n; Ok (Some (prev, h, L))
             end);
      match r with
      | None => Ok (false, h, L)
      | Some (prev, h, L) =>
          let L := if decide (tail L = Some i) then set_tail L prev else L in
          let L := set_len L (u32 (len L - 1)) in
          h ← store_next h i None;
          Ok (true, h, L)
      end
  end.

Definition mmbuf_list_dequeue (h : store) (L : mmbuf_list) : outcome (ptr * store * mmbuf_list) :=
  match head L with
  | None => Ok (None, h, L)
  | Some i =>
      n ← load_next h i;
      let L := set_head L n in
      let L := set_len L (u32 (len L - 1)) in
      let L := if decide (tail L = Some i) then set_tail L None else L in
      h ← store_next h i None;
      Ok (Some i, h, L)
  end.

Definition mmbuf_list_dequeue_tail (h : store) (L : mmbuf_list)
  : outcome (ptr * store * mmbuf_list) :=
  match tail L with
  | None => Ok (None, h, L)
  | Some i => '(_, h, L) ← mmbuf_list_remove h L i; Ok (Some i, h, L)
  end.

Definition mmbuf_list_dequeue_all (L : mmbuf_list) : ptr * mmbuf_list :=
  (head L, {| head := None; tail := None; len := 0 |}).

Definition mmbuf_list_is_empty (L : mmbuf_list) : bool := bool_decide (head L = None).
Definition mmbuf_list_peek (L : mmbuf_list) : ptr := head L.
Definition mmbuf_list_peek_tail (L : mmbuf_list) : ptr := tail L.

(** [next] is read before [walk] is released. *)
Fixpoint mmbuf_list_clear_loop (fuel : nat) (h : store) (walk nxt : ptr) : outcome store :=
  match fuel, walk with
  | _, None => Ok h
  | O, Some _ => Fail OutOfFuel
  | S fuel, Some _ =>
      h ← mmbuf_release h walk;
      n ← (match nxt with Some w => load_next h w | None => Ok None end);
      mmbuf_list_clear_loop fuel h nxt n
  end.

Definition mmbuf_list_clear (h : store) (L : mmbuf_list) : outcome (store * mmbuf_list) :=
  match head L with
  | None => Ok (h, L)
  | Some w =>
      n ← load_next h w;
      h ← mmbuf_list_clear_loop (size h) h (Some w) n;
      Ok (h, {| head := None; tail := None; len := 0 |})
  end.

(** ** Specification: the list of the addresses queued *)

Definition rep (h : store) (L : mmbuf_list) (l : list loc) : Prop :=
  chain h (head L) l /\ tail L = list.last l /\ len L = u32 (zlen l).

(** Nothing but [next] fields changed, and none outside [l]. *)
Definition only_next (h h' : store) (l : list loc) : Prop :=
  dom h' = dom h /\
  forall i, (i ∉ l -> h' !! i = h !! i) /\
            (forall m, h !! i = Some m -> exists q, h' !! i = Some (set_next q m)).

Lemma only_next_refl h l : only_next h h l.
Proof. split; [done|]. intros i. split; [done|]. intros m Hm. exists (next m). by destruct m. Qed.

Lemma only_next_insert h i m q l :
  h !! i = Some m -> i ∈ l -> only_next h (<[i := set_next q m]> h) l.
Proof.
  intros Hm Hi. split; [rewrite dom_insert_lookup_L; [done|by eexists]|]. intros j. split.
  - intros Hj. rewrite lookup_insert_ne; [done|]. set_solver.
  - intros m' Hm'. destruct (decide (i = j)) as [->|].
    + rewrite lookup_insert_eq. simplify_eq. eauto.
    + rewrite lookup_insert_ne by done. exists (next m'). by destruct m'.
Qed.

Lemma only_next_trans h1 h2 h3 l :
  only_next h1 h2 l -> only_next h2 h3 l -> only_next h1 h3 l.
Proof.
  intros [Hd1 H1] [Hd2 H2]. split; [congruence|]. intros i. split.
  - intros Hi. etransitivity; [by apply H2|by apply H1].
  - intros m Hm. destruct (H1 i) as [_ H1']. destruct (H1' m Hm) as [q Hq].
    destruct (H2 i) as [_ H2']. destruct (H2' _ Hq) as [q' Hq']. by exists q'.
Qed.

Lemma u32_pred n : 0 <= n -> u32 (u32 (n + 1) - 1) = u32 n.
Proof. zlia. Qed.
Lemma u32_succ n : u32 (u32 n + 1) = u32 (n + 1).
Proof. zlia. Qed.

Lemma head_if P `{!Decision P} L p : head (if decide P then set_tail L p else L) = head L.
Proof. by case_decide. Qed.
Lemma len_if P `{!Decision P} L p : len (if decide P then set_tail L p else L) = len L.
Proof. by case_decide. Qed.
Lemma tail_if P `{!Decision P} L p :
  tail (if decide P then set_tail L p else L) = if decide P then p else tail L.
Proof. by case_decide. Qed.

Lemma prepend_rep h L l i m :
  rep h L l -> i ∉ l -> h !! i = Some m ->
  exists h' L', mmbuf_list_prepend h L i = Ok (h', L') /\ rep h' L' (i :: l) /\
    only_next h h' [i].
Proof.
  intros (Hc & Ht & Hl) Hi Hm. unfold mmbuf_list_prepend.
  rewrite (store_next_Ok _ _ _ _ Hm). cbn [mbind outcome_bind]. do 2 eexists. split; [done|].
  split; [|apply only_next_insert; [done|set_solver]]. split_and!.
  - cbn [chain]. split; [by case_decide|]. eexists. split; [apply lookup_insert_eq|].
    rewrite get_set_next. by apply chain_insert.
  - case_decide as Hd; cbn in *; rewrite Ht in *.
    + destruct l as [|j l]; [done|]. by apply last_None in Hd.
    + destruct l as [|j l]; [done|]. by rewrite last_cons_cons.
  - rewrite len_if. cbn [len set_len set_head]. rewrite Hl, u32_succ. f_equal. cbn [length]. lia.
Qed.

Lemma append_rep h L l i m :
  rep h L l -> i ∉ l -> h !! i = Some m ->
  exists h' L', mmbuf_list_append h L i = Ok (h', L') /\ rep h' L' (l ++ [i]) /\
    only_next h h' (l ++ [i]).
Proof.
  intros (Hc & Ht & Hl) Hi Hm. unfold mmbuf_list_append.
  rewrite (store_next_Ok _ _ _ _ Hm). cbn [mbind outcome_bind].
  pose proof (only_next_insert h i m None (l ++ [i]) Hm ltac:(set_solver)) as Ho1.
  assert (Hc1 : chain (<[i := set_next None m]> h) (head L) l) by by apply chain_insert.
  assert (Hlen : u32 (len L + 1) = u32 (zlen (l ++ [i])))
    by (rewrite Hl, u32_succ; f_equal; rewrite length_app; cbn; lia).
  destruct l as [|t l0 _] using rev_ind.
  - apply chain_head in Hc1 as Hh. cbn in Hh. rewrite Hh. do 2 eexists. split; [done|].
    split; [|done]. split_and!; [|done|done]. cbn. split; [done|].
    eexists. split; [apply lookup_insert_eq|done].
  - rewrite last_snoc in Ht. rewrite Ht.
    destruct (chain_lookup _ _ _ t Hc1) as [a Ha]; [set_solver|].
    assert (head L <> None) by (apply chain_head in Hc; rewrite Hc; by destruct l0).
    destruct (head L) as [w|] eqn:Ew; [|done]. rewrite (store_next_Ok _ _ _ _ Ha).
    cbn [mbind outcome_bind]. do 2 eexists. split; [done|]. rewrite <- app_assoc in *. split.
    + split_and!; [|by rewrite app_assoc, last_snoc|done]. cbn [head].
      eapply chain_snoc; [done|done|apply lookup_insert_eq|done|set_solver].
    + eapply only_next_trans; [done|]. apply only_next_insert; [done|set_solver].
Qed.

Lemma find_prev_in h l1 w p i l2 fuel :
  chain h (Some w) (l1 ++ p :: i :: l2) -> (length l1 < fuel)%nat ->
  mmbuf_find_prev_loop fuel h w i = Ok (Some p).
Proof.
  revert w fuel. induction l1 as [|k l1 IH]; intros w fuel Hc Hf; (destruct fuel; [lia|]);
    cbn [mmbuf_find_prev_loop]; pose proof (chain_NoDup _ _ _ Hc) as Hnd.
  - pose proof Hc as [[= ->] _]. destruct (load_next_chain _ _ _ _ Hc) as (a & Ha & -> & Hn).
    cbn [mbind outcome_bind]. destruct Hn as [-> _]. by rewrite decide_True.
  - pose proof Hc as [[= ->] _]. cbn [app] in Hc, Hnd.
    destruct (load_next_chain _ _ _ _ Hc) as (a & Ha & -> & Hn). cbn [mbind outcome_bind].
    apply list.NoDup_cons in Hnd as [_ Hnd].
    assert (exists n, get_next a = Some n /\ n <> i) as (n & En & Hni).
    { destruct l1 as [|n l1]; cbn in Hn; destruct Hn as [-> _]; eexists; (split; [done|]).
      - intros ->. apply list.NoDup_cons in Hnd as [Hnd _]. set_solver.
      - intros ->. apply list.NoDup_cons in Hnd as [Hnd _]. set_solver. }
    rewrite En in *. rewrite decide_False by done. apply IH; [done|cbn in Hf; lia].
Qed.

Lemma find_prev_notin h l w i fuel :
  chain h (Some w) (w :: l) -> i ∉ l -> (length l < fuel)%nat ->
  mmbuf_find_prev_loop fuel h w i = Ok None.
Proof.
  revert w fuel. induction l as [|n l IH]; intros w fuel Hc Hi Hf; (destruct fuel; [lia|]);
    cbn [mmbuf_find_prev_loop]; destruct (load_next_chain _ _ _ _ Hc) as (a & Ha & -> & Hn);
    cbn [mbind outcome_bind].
  - cbn in Hn. by rewrite Hn.
  - pose proof Hn as [E _]. rewrite E in *. rewrite decide_False by set_solver.
    apply IH; [done|set_solver|cbn in Hf; lia].
Qed.

(** The node [i] of the list is cut out and its [next] cleared. *)
Lemma remove_rep_in h L l1 i l2 :
  rep h L (l1 ++ i :: l2) ->
  exists h' L', mmbuf_list_remove h L i = Ok (true, h', L') /\ rep h' L' (l1 ++ l2) /\
    only_next h h' (l1 ++ i :: l2) /\ load_next h' i = Ok None.
Proof.
  intros (Hc & Ht & Hl). pose proof (chain_NoDup _ _ _ Hc) as Hnd. pose proof (chain_size _ _ _ Hc) as Hsz.
  destruct (chain_lookup _ _ _ i Hc) as [b Hb]; [set_solver|].
  assert (Hi : i ∉ l1 ++ l2).
  { rewrite list.NoDup_app, list.NoDup_cons in Hnd. set_solver. }
  assert (Hlen : u32 (len L - 1) = u32 (zlen (l1 ++ l2))).
  { rewrite Hl, <- (u32_pred (zlen (l1 ++ l2))) by lia. do 3 f_equal. rewrite !length_app. cbn. lia. }
  assert (Htl : list.last (l1 ++ i :: l2) = if decide (l2 = []) then Some i else list.last l2).
  { case_decide; [subst; by rewrite last_snoc|]. rewrite last_app_cons.
    destruct l2; [done|by rewrite last_cons_cons]. }
  unfold mmbuf_list_remove.
  destruct l1 as [|p l1' _] using rev_ind.
  - pose proof Hc as [Hh _]. rewrite Hh. rewrite decide_True by done.
    unfold load_next at 1. rewrite Hb. cbn [mbind outcome_bind].
    rewrite (store_next_Ok _ _ _ _ Hb). cbn [mbind outcome_bind].
    do 2 eexists. split; [done|]. split; [split_and!|split].
    + cbn [head set_len]; rewrite head_if; cbn [head set_head].
      apply chain_insert; [done|]. by eapply (chain_next _ _ []).
    + cbn [tail set_len app] in *. rewrite tail_if. cbn [tail set_head]. rewrite Ht, Htl.
      destruct (decide (l2 = [])) as [->|Hne]; [by rewrite decide_True|].
      rewrite decide_False; [done|]. intros E. apply last_Some_elem_of in E. done.
    + cbn [len set_len]. rewrite len_if. done.
    + apply only_next_insert; [done|set_solver].
    + unfold load_next. by rewrite lookup_insert_eq.
  - rewrite <- app_assoc in *. cbn [app] in *.
    destruct (head L) as [w|] eqn:Ew; [|by destruct l1'; destruct Hc].
    destruct (chain_lookup _ _ _ p Hc) as [a Ha]; [set_solver|].
    assert (w <> i).
    { intros ->. destruct l1' as [|k l1']; cbn in Hc; destruct Hc as [[= E] _]; subst; set_solver. }
    assert (Hpi : p <> i) by (intros ->; set_solver).
    rewrite decide_False by done. unfold mmbuf_find_prev. rewrite Ew.
    rewrite (find_prev_in _ l1' _ p i l2) by (done || (rewrite length_app in Hsz; cbn in Hsz; lia)).
    cbn [mbind outcome_bind]. unfold load_next at 1. rewrite Hb.
    cbn [mbind outcome_bind]. rewrite (store_next_Ok _ _ _ _ Ha). cbn [mbind outcome_bind].
    assert (Hb' : <[p:=Chain.set_next (get_next b) a]> h !! i = Some b) by by rewrite lookup_insert_ne.
    rewrite (store_next_Ok _ _ _ _ Hb'). cbn [mbind outcome_bind].
    do 2 eexists. split; [done|]. split; [split_and!|split].
    + cbn [head set_len]; rewrite head_if, Ew.
      apply chain_insert; [done|]. by eapply chain_unlink.
    + cbn [tail set_len]. rewrite tail_if, Ht, Htl.
      replace (l1' ++ p :: l2) with ((l1' ++ [p]) ++ l2) by by rewrite <- app_assoc.
      destruct (decide (l2 = [])) as [->|Hne].
      * rewrite decide_True by done. by rewrite app_nil_r, last_snoc.
      * destruct l2 as [|k l2]; [done|]. rewrite decide_False.
        -- by rewrite last_app_cons.
        -- intros E. apply last_Some_elem_of in E. set_solver.
    + cbn [len set_len]. by rewrite len_if, Hlen.
    + eapply only_next_trans; apply only_next_insert; first [done|set_solver].
    + unfold load_next. by rewrite lookup_insert_eq.
Qed.

Lemma remove_rep_notin h L l i :
  rep h L l -> i ∉ l -> mmbuf_list_remove h L i = Ok (false, h, L).
Proof.
  intros (Hc & _ & _) Hi. unfold mmbuf_list_remove. pose proof (chain_size _ _ _ Hc) as Hsz.
  destruct l as [|w l]; pose proof (chain_head _ _ _ Hc) as Hh; cbn in Hh.
  - by rewrite Hh.
  - unfold mmbuf_find_prev. rewrite Hh in *. rewrite decide_False by set_solver.
    rewrite (find_prev_notin _ l) by (done || set_solver || (cbn in Hsz; lia)). done.
Qed.

Lemma dequeue_rep h L i l :
  rep h L (i :: l) ->
  exists h' L', mmbuf_list_dequeue h L = Ok (Some i, h', L') /\ rep h' L' l /\
    only_next h h' [i] /\ load_next h' i = Ok None.
Proof.
  intros (Hc & Ht & Hl). pose proof (chain_NoDup _ _ _ Hc) as Hnd. apply list.NoDup_cons in Hnd as [Hi _].
  pose proof Hc as [Hh _]. destruct (load_next_chain _ _ _ _ (eq_rect _ (fun p => chain h p _) Hc _ Hh))
    as (b & Hb & Hld & Hn).
  unfold mmbuf_list_dequeue. rewrite Hh, Hld. cbn [mbind outcome_bind].
  rewrite (store_next_Ok _ _ _ _ Hb). cbn [mbind outcome_bind].
  do 2 eexists. split; [done|]. split; [split_and!|split].
  - cbn [head set_len]; rewrite head_if; cbn [head set_head].
    by apply chain_insert.
  - rewrite tail_if. cbn [tail set_len set_head]. rewrite Ht. destruct l as [|j l].
    + by rewrite decide_True.
    + rewrite last_cons_cons. rewrite decide_False; [done|].
      intros E. apply last_Some_elem_of in E. done.
  - assert (u32 (len L - 1) = u32 (zlen l)).
    { rewrite Hl, <- (u32_pred (zlen l)) by lia. do 3 f_equal. cbn. lia. }
    by rewrite len_if.
  - apply only_next_insert; [done|set_solver].
  - unfold load_next. by rewrite lookup_insert_eq.
Qed.

(** A buffer that [mmbuf_release] accepts. *)
Definition releasable (h : store) (i : loc) : Prop :=
  exists m o, h !! i = Some m /\ ops m = Some o /\ has_free_mmbuf o = true.

Lemma clear_loop_rep fuel h i l :
  chain h (Some i) (i :: l) -> Forall (releasable h) (i :: l) -> (length l < fuel)%nat ->
  exists h', (n ← load_next h i; mmbuf_list_clear_loop fuel h (Some i) n) = Ok h' /\
    forall j, h' !! j = if decide (j ∈ i :: l) then None else h !! j.
Proof.
  revert h i fuel. induction l as [|k l IH]; intros h i fuel Hc Hr Hf; (destruct fuel; [lia|]);
    pose proof (chain_NoDup _ _ _ Hc) as [Hi Hnd]%list.NoDup_cons;
    destruct (load_next_chain _ _ _ _ Hc) as (b & Hb & -> & Hn);
    apply Forall_cons_1 in Hr as [(m & o & Hm & Ho & Hfree) Hr]; simplify_eq;
    cbn [mbind outcome_bind mmbuf_list_clear_loop mmbuf_release]; rewrite Hm, Ho, Hfree;
    cbn [assert]; unfold mmosal_free; rewrite Hm; cbn [mbind outcome_bind].
  - cbn in Hn. rewrite Hn. cbn [mbind outcome_bind]. eexists. split; [by destruct fuel|].
    intros j. case_decide as Hj.
    + assert (j = i) as -> by set_solver. apply lookup_delete_eq.
    + rewrite lookup_delete_ne; [done|]. set_solver.
  - pose proof Hn as [E _]. rewrite E in *.
    destruct (IH (delete i h) k fuel) as (h' & Hrun & Hdom).
    + by apply chain_delete.
    + rewrite list.Forall_forall in Hr |- *. intros j Hj. destruct (Hr j Hj) as (m' & o' & Hm' & Ho').
      exists m', o'.
      split; [|done]. rewrite lookup_delete_ne; [done|]. set_solver.
    + cbn in Hf. lia.
    + exists h'. split; [done|]. intros j. rewrite Hdom.
      destruct (decide (j = i)) as [->|Hji].
      * rewrite decide_False by done. rewrite lookup_delete_eq, decide_True by set_solver. done.
      * rewrite lookup_delete_ne by done.
        destruct (decide (j ∈ k :: l)); [rewrite decide_True by set_solver|rewrite decide_False by set_solver]; done.
Qed.

Lemma clear_rep h L l :
  rep h L l -> Forall (releasable h) l ->
  exists h' L', mmbuf_list_clear h L = Ok (h', L') /\ rep h' L' [] /\
    forall j, h' !! j = if decide (j ∈ l) then None else h !! j.
Proof.
  intros (Hc & Ht & Hl) Hr. pose proof (chain_size _ _ _ Hc) as Hsz. unfold mmbuf_list_clear.
  destruct l as [|i l]; pose proof (chain_head _ _ _ Hc) as Hh; cbn in Hh; rewrite Hh in *.
  - do 2 eexists. split; [done|]. split; [|done]. split_and!; done.
  - destruct (clear_loop_rep (size h) h i l Hc Hr) as (h' & Hrun & Hdom); [cbn in Hsz; lia|].
    destruct (load_next h i) as [n|]; [|done]. cbn [mbind outcome_bind] in *. rewrite Hrun.
    cbn [mbind outcome_bind]. do 2 eexists. done.
Qed.

(** ** Operations as transformations of the list *)

Inductive op :=
| OPrepend (i : loc)
| OAppend (i : loc)
| ORemove (i : loc)
| ODequeue
| ODequeueTail
| ODequeueAll
| OClear.

(** What an operation returns. *)
Inductive ret :=
| RUnit
| RBool (b : bool)
| RPtr (p : ptr).

Definition run (h : store) (L : mmbuf_list) (o : op) : outcome (ret * store * mmbuf_list) :=
  match o with
  | OPrepend i => '(h, L) ← mmbuf_list_prepend h L i; Ok (RUnit, h, L)
  | OAppend i => '(h, L) ← mmbuf_list_append h L i; Ok (RUnit, h, L)
  | ORemove i => '(b, h, L) ← mmbuf_list_remove h L i; Ok (RBool b, h, L)
  | ODequeue => '(p, h, L) ← mmbuf_list_dequeue h L; Ok (RPtr p, h, L)
  | ODequeueTail => '(p, h, L) ← mmbuf_list_dequeue_tail h L; Ok (RPtr p, h, L)
  | ODequeueAll => let (p, L) := mmbuf_list_dequeue_all L in Ok (RPtr p, h, L)
  | OClear => '(h, L) ← mmbuf_list_clear h L; Ok (RUnit, h, L)
  end.

Definition spec (l : list loc) (o : op) : ret * list loc :=
  match o with
  | OPrepend i => (RUnit, i :: l)
  | OAppend i => (RUnit, l ++ [i])
  | ORemove i => (RBool (bool_decide (i ∈ l)), List.filter (fun j => negb (bool_decide (j = i))) l)
  | ODequeue => (RPtr (hd_error l), List.tl l)
  | ODequeueTail => (RPtr (list.last l), removelast l)
  | ODequeueAll => (RPtr (hd_error l), [])
  | OClear => (RUnit, [])
  end.

(** What the caller owes: a node that is added exists and is not queued
    already; buffers are freed through valid operations. *)
Definition allowed (h : store) (l : list loc) (o : op) : Prop :=
  match o with
  | OPrepend i | OAppend i => i ∉ l /\ is_Some (h !! i)
  | OClear => Forall (releasable h) l
  | _ => True
  end.

(** The nodes an operation may touch. *)
Definition footprint (l : list loc) (o : op) : list loc :=
  match o with OPrepend i | OAppend i => l ++ [i] | _ => l end.

Lemma filter_not (l1 : list loc) i l2 :
  NoDup (l1 ++ i :: l2) ->
  List.filter (fun j => negb (bool_decide (j = i))) (l1 ++ i :: l2) = l1 ++ l2.
Proof.
  intros Hnd. rewrite List.filter_app. cbn [List.filter]. rewrite bool_decide_true by done. cbn [negb].
  assert (Hid : forall l, i ∉ l -> List.filter (fun j => negb (bool_decide (j = i))) l = l).
  { induction l as [|j l IH]; intros Hi; [done|]. cbn.
    rewrite bool_decide_false by set_solver. cbn. f_equal. apply IH. set_solver. }
  rewrite list.NoDup_app, list.NoDup_cons in Hnd. rewrite !Hid; set_solver.
Qed.

Lemma only_next_weaken h h' l l' : only_next h h' l -> l ⊆ l' -> only_next h h' l'.
Proof.
  intros [Hd H] Hs. split; [done|]. intros i. split; [|by apply H].
  intros Hi. apply H. set_solver.
Qed.

(** C13: the linked list refines the sequence of the buffers queued in it: from
    any well-formed list every operation terminates without touching a
    buffer that does not exist, returns what the operation on the sequence
    returns, and leaves a well-formed list of the resulting sequence (head,
    tail and the 32-bit count included).  Buffers outside the list and the
    operand are untouched; [mmbuf_list_clear] frees exactly the queued
    buffers, every other operation changes nothing but [next] fields. *)
Theorem mmbuf_list_refines h L l o :
  rep h L l -> allowed h l o ->
  exists h' L', run h L o = Ok (fst (spec l o), h', L') /\ rep h' L' (snd (spec l o)) /\
    match o with
    | OClear => forall j, h' !! j = if decide (j ∈ l) then None else h !! j
    | _ => only_next h h' (footprint l o)
    end.
Proof.
  intros Hrep Hal. destruct o as [i|i|i| | | |]; cbn [allowed run spec fst snd footprint] in *.
  - destruct Hal as [Hi [m Hm]]. destruct (prepend_rep h L l i m) as (h' & L' & -> & ? & ?); try done.
    do 2 eexists. split; [done|]. split; [done|]. eapply only_next_weaken; [done|set_solver].
  - destruct Hal as [Hi [m Hm]]. destruct (append_rep h L l i m) as (h' & L' & -> & ? & ?); try done.
    by do 2 eexists.
  - destruct (decide (i ∈ l)) as [Hi|Hi].
    + apply list_elem_of_split in Hi as (l1 & l2 & ->).
      destruct (remove_rep_in h L l1 i l2 Hrep) as (h' & L' & -> & ? & ? & ?).
      rewrite bool_decide_true, filter_not by (set_solver || by destruct Hrep as [?%chain_NoDup _]).
      by do 2 eexists.
    + rewrite remove_rep_notin with (l := l) by done. rewrite bool_decide_false by done.
      exists h, L. split; [done|]. split; [|apply only_next_refl].
      replace (List.filter _ l) with l; [done|]. clear -Hi. induction l as [|j l IH]; [done|].
      cbn. rewrite bool_decide_false by set_solver. cbn. f_equal. apply IH. set_solver.
  - destruct l as [|i l].
    + unfold mmbuf_list_dequeue. pose proof (chain_head _ _ _ (proj1 Hrep)) as Hh. cbn in Hh. rewrite Hh.
      exists h, L. split; [done|]. split; [done|apply only_next_refl].
    + destruct (dequeue_rep h L i l Hrep) as (h' & L' & -> & ? & ? & ?).
      do 2 eexists. split; [done|]. split; [done|]. eapply only_next_weaken; [done|set_solver].
  - unfold mmbuf_list_dequeue_tail. pose proof Hrep as (_ & Ht & _). rewrite Ht.
    destruct l as [|i l0 _] using rev_ind.
    + exists h, L. split; [done|]. split; [done|apply only_next_refl].
    + rewrite last_snoc. destruct (remove_rep_in h L l0 i [] Hrep) as (h' & L' & -> & ? & ? & ?).
      rewrite removelast_last. rewrite app_nil_r in *. by do 2 eexists.
  - destruct Hrep as (Hc & _ & _). unfold mmbuf_list_dequeue_all.
    exists h. eexists. split; [|split; [|apply only_next_refl]].
    + by rewrite (chain_head _ _ _ Hc).
    + done.
  - destruct (clear_rep h L l Hrep Hal) as (h' & L' & -> & ? & ?). by do 2 eexists.
Qed.

Definition ex_buf (p : ptr) : mmbuf :=
  {| buf := []; buf_len := 0; start_offset := 0; data_len := 0; ops := Some mmbuf_heap_ops; next := p |}.
Definition ex_store : store := <[1%positive := ex_buf (Some 2%positive)]> (<[2%positive := ex_buf None]> ∅).
Definition ex_list : mmbuf_list := {| head := Some 1%positive; tail := Some 2%positive; len := 2 |}.

Lemma mmbuf_list_refines_witness :
  let o := ORemove 2%positive in let l := [1%positive; 2%positive] in
  exists h' L', run ex_store ex_list o = Ok (fst (spec l o), h', L') /\ rep h' L' (snd (spec l o)) /\
    only_next ex_store h' (footprint l o).
Proof.
  apply (mmbuf_list_refines ex_store ex_list [1%positive; 2%positive] (ORemove 2%positive)); [|exact I].
  split_and!; [|reflexivity|reflexivity].
  split; [reflexivity|]. eexists. split; [reflexivity|].
  split; [reflexivity|]. eexists. split; reflexivity.
Defined.

End MmBufList.
