(* ===== verification/DnsForwarder.v ===== *)
(** The DNS forwarder: [examples/iperf/main/src/dns_forwarder.c].

    The task is an endless loop around [lwip_recvfrom]; [dns_forwarder_step] is
    one turn of it: the datagram and the time are its inputs, the datagrams
    given to [lwip_sendto] its outputs.  [buf] is part of the state because its
    octets survive from one turn to the next.  The socket calls and
    [lwip_getaddrinfo] are the environment. *)

From S2P Require Import Prelude.

Module DnsForwarder.

Definition DNS_MAX_PAYLOAD : Z := 512.
Definition PENDING_MAX : nat := 16.
Definition CACHE_ENTRIES : nat := 16.
Definition CACHE_TTL_SEC : Z := 120.

(** ** Data *)

Record sockaddr_in := { sin_port : Z; sin_addr : Z }.
#[global] Instance sockaddr_in_eq_dec : EqDecision sockaddr_in.
Proof. solve_decision. Defined.

Record pending_t := { txid : Z; client : sockaddr_in; used : bool }.
Record cache_entry_t := { key : Z; expire_sec : Z; len : Z; payload : bytes }.

Record state := {
  s_pending : list pending_t;
  s_cache : list cache_entry_t;
  s_upstream : sockaddr_in;
  buf : bytes;               (* the task's local buffer *)
}.

Definition zero_addr : sockaddr_in := {| sin_port := 0; sin_addr := 0 |}.
Definition zero_pending : pending_t := {| txid := 0; client := zero_addr; used := false |}.
Definition zero_cache : cache_entry_t :=
  {| key := 0; expire_sec := 0; len := 0; payload := replicate 512 0 |}.

(** ** Looking into a message *)

Fixpoint dns_question_len_loop (fuel : nat) (b : bytes) (n i : Z) : outcome Z :=
  match fuel with
  | O => Fail OutOfFuel
  | S fuel =>
      if decide (i < n) then
        c ← rd b i;
        if decide (c = 0) then Ok ((i - 12) + 1 + 4)
        else if decide (Z.land c 0xC0 = 0xC0) then Ok (2 + 4)
        else dns_question_len_loop fuel b n (i + (1 + c))
      else Ok 0
  end.

Definition dns_question_len (b : bytes) (n : Z) : outcome Z :=
  if decide (n < 13) then Ok 0 else dns_question_len_loop (Z.to_nat n) b n 12.

Fixpoint dns_question_hash_loop (turns : nat) (b : bytes) (j h : Z) : outcome Z :=
  match turns with
  | O => Ok h
  | S turns =>
      c ← rd b (12 + j);
      dns_question_hash_loop turns b (j + 1) (u32 (u32 (h * 31) + c))
  end.

Definition dns_question_hash (b : bytes) (n : Z) : outcome Z :=
  qlen ← dns_question_len b n;
  if decide (qlen <= 0 \/ 12 + qlen > n) then Ok 0
  else dns_question_hash_loop (Z.to_nat qlen) b 0 0.

Definition get_dns_txid (b : bytes) : outcome Z :=
  p0 ← rd b 0; p1 ← rd b 1; Ok (u16 (Z.lor (Z.shiftl p0 8) p1)).

Definition set_dns_txid (b : bytes) (t : Z) : outcome bytes :=
  b ← wr b 0 (u8 (Z.shiftr t 8)); wr b 1 (u8 (Z.land t 0xFF)).

Definition is_dns_response (b : bytes) (n : Z) : outcome bool :=
  if decide (n < 12) then Ok false
  else c ← rd b 2; Ok (bool_decide (Z.land c 0x80 <> 0)).

(** ** The table of pending queries *)

Definition pending_put (l : list pending_t) (t : Z) (c : sockaddr_in) : list pending_t :=
  let p := {| txid := t; client := c; used := true |} in
  match list_find (fun e => used e = false) l with
  | Some (i, _) => <[i := p]> l
  | None => <[0%nat := p]> l
  end.

Definition pending_get (l : list pending_t) (t : Z) : option (sockaddr_in * list pending_t) :=
  match list_find (fun e => used e = true /\ txid e = t) l with
  | Some (i, e) =>
      Some (client e, <[i := {| txid := txid e; client := client e; used := false |}]> l)
  | None => None
  end.

(** ** The cache *)

Definition cache_lookup (l : list cache_entry_t) (k now_sec : Z) : option cache_entry_t :=
  match list_find (fun e => len e > 0 /\ key e = k /\ expire_sec e > now_sec) l with
  | Some (_, e) => Some e
  | None => None
  end.

(** The loop that chooses the slot; [i] is the index of the head of [l]. *)
Fixpoint cache_slot_loop (l : list cache_entry_t) (i slot : nat) (oldest : Z) : nat :=
  match l with
  | [] => slot
  | e :: l =>
      if decide (len e = 0) then i
      else if decide (expire_sec e < oldest) then cache_slot_loop l (S i) i (expire_sec e)
      else cache_slot_loop l (S i) slot oldest
  end.

Definition cache_slot (l : list cache_entry_t) (now_sec : Z) : nat :=
  cache_slot_loop l 0 0 (u32 (now_sec + 1)).

Definition cache_store (l : list cache_entry_t) (k : Z) (b : bytes) (n now_sec : Z)
  : outcome (list cache_entry_t) :=
  if decide (n > DNS_MAX_PAYLOAD) then Ok l else
  let slot := cache_slot l now_sec in
  match l !! slot with
  | None => Fail OutOfBounds
  | Some e =>
      d ← rdn b 0 n;
      p ← wrn (payload e) 0 d;
      Ok (<[slot := {| key := k; expire_sec := u32 (now_sec + CACHE_TTL_SEC);
                       len := n; payload := p |}]> l)
  end.

(** ** The task *)

(** What [lwip_recvfrom] delivers (a longer datagram is cut to the buffer) and the time
    of the turn: milliseconds since the start, the ticks times the period of a tick,
    which the code has in 32 bits. *)
Record event := { from : sockaddr_in; dgram : bytes; uptime : Z }.

Definition now_sec_of (uptime : Z) : Z := u32 uptime / 1000.
Definition now (e : event) : Z := now_sec_of (uptime e).

Abbreviation send := (sockaddr_in * bytes)%type.

Definition set_pending (st : state) (p : list pending_t) : state :=
  {| s_pending := p; s_cache := s_cache st; s_upstream := s_upstream st; buf := buf st |}.
Definition set_cache (st : state) (c : list cache_entry_t) : state :=
  {| s_pending := s_pending st; s_cache := c; s_upstream := s_upstream st; buf := buf st |}.
Definition set_buf (st : state) (b : bytes) : state :=
  {| s_pending := s_pending st; s_cache := s_cache st; s_upstream := s_upstream st; buf := b |}.

Definition on_response (st : state) (n now_sec : Z) : outcome (list send * state) :=
  t ← get_dns_txid (buf st);
  match pending_get (s_pending st) t with
  | None => Ok ([], st)
  | Some (c, p) =>
      let st := set_pending st p in
      d ← rdn (buf st) 0 n;
      qlen ← dns_question_len (buf st) n;
      if decide (qlen > 0) then
        k ← dns_question_hash (buf st) n;
        ch ← cache_store (s_cache st) k (buf st) (u16 n) now_sec;
        Ok ([(c, d)], set_cache st ch)
      else Ok ([(c, d)], st)
  end.

Definition forward (st : state) (src : sockaddr_in) (t n : Z) : outcome (list send * state) :=
  let st := set_pending st (pending_put (s_pending st) t src) in
  d ← rdn (buf st) 0 n;
  Ok ([(s_upstream st, d)], st).

Definition on_query (st : state) (src : sockaddr_in) (n now_sec : Z)
  : outcome (list send * state) :=
  t ← get_dns_txid (buf st);
  qlen ← dns_question_len (buf st) n;
  if decide (qlen > 0) then
    k ← dns_question_hash (buf st) n;
    match cache_lookup (s_cache st) k now_sec with
    | Some ce =>
        d ← rdn (payload ce) 0 (len ce);
        b ← wrn (buf st) 0 d;
        b ← set_dns_txid b t;
        d ← rdn b 0 (len ce);
        Ok ([(src, d)], set_buf st b)
    | None => forward st src t n
    end
  else forward st src t n.

Definition dns_forwarder_step (st : state) (e : event) : outcome (list send * state) :=
  let n := zlen (dgram e) in
  if decide (n <= 0 \/ n > DNS_MAX_PAYLOAD) then Ok ([], st) else
  b ← wrn (buf st) 0 (dgram e);
  let st := set_buf st b in
  r ← is_dns_response (buf st) n;
  if (r : bool) then on_response st n (now e) else on_query st (from e) n (now e).

(** A run of events: everything sent, in order. *)
Fixpoint run (st : state) (es : list event) : outcome (list send * state) :=
  match es with
  | [] => Ok ([], st)
  | e :: es =>
      '(o, st) ← dns_forwarder_step st e; '(os, st) ← run st es; Ok (o ++ os, st)
  end.

(** [dns_forwarder_start] clears the tables; [b] is what [buf] holds then. *)
Definition dns_forwarder_start (upstream : sockaddr_in) (b : bytes) : state :=
  {| s_pending := replicate PENDING_MAX zero_pending;
     s_cache := replicate CACHE_ENTRIES zero_cache; s_upstream := upstream; buf := b |}.

(** ** The task's invariant *)

Definition cache_wf (e : cache_entry_t) : Prop :=
  zlen (payload e) = DNS_MAX_PAYLOAD /\ (len e = 0 \/ 2 <= len e <= DNS_MAX_PAYLOAD) /\
  is_bytes (payload e).

Record wf (st : state) : Prop := {
  wf_pending : length (s_pending st) = PENDING_MAX;
  wf_cache : length (s_cache st) = CACHE_ENTRIES;
  wf_entries : Forall cache_wf (s_cache st);
  wf_buf : zlen (buf st) = DNS_MAX_PAYLOAD;
  wf_octets : is_bytes (buf st);
}.

(** ** Lemmas on messages: only the first [n] octets matter *)

Lemma rd_app_l a b i : i < zlen a -> rd (a ++ b) i = rd a i.
Proof.
  intros Hi. unfold rd. case_decide; [|done]. by rewrite lookup_app_l by lia.
Qed.

Lemma question_len_loop_app fuel d r i :
  dns_question_len_loop fuel (d ++ r) (zlen d) i = dns_question_len_loop fuel d (zlen d) i.
Proof.
  revert i. induction fuel as [|fuel IH]; intros i; cbn [dns_question_len_loop]; [done|].
  case_decide; [|done]. rewrite rd_app_l by done.
  destruct (rd d i); cbn [mbind outcome_bind]; [|done]. by rewrite IH.
Qed.

Lemma question_len_app d r : dns_question_len (d ++ r) (zlen d) = dns_question_len d (zlen d).
Proof. unfold dns_question_len. case_decide; [done|]. apply question_len_loop_app. Qed.

Lemma question_len_loop_Ok fuel d i :
  is_bytes d -> 13 <= zlen d -> 12 <= i -> (0 < fuel)%nat -> zlen d - i < Z.of_nat fuel ->
  exists v, dns_question_len_loop fuel d (zlen d) i = Ok v /\ 0 <= v <= zlen d.
Proof.
  intros Hd Hn. revert i. induction fuel as [|fuel IH]; intros i Hi H0 Hf; [lia|].
  cbn [dns_question_len_loop].
  case_decide as Hc; [|eexists; split; [done|lia]].
  destruct (rd_Ok d i) as (c & Hr & _); [lia|]. rewrite Hr. cbn [mbind outcome_bind].
  apply rd_byte in Hr; [|done]. case_decide; [eexists; split; [done|zlia]|].
  case_decide; [eexists; split; [done|lia]|]. apply IH; zlia.
Qed.

Lemma question_len_Ok d :
  is_bytes d -> exists v, dns_question_len d (zlen d) = Ok v /\ 0 <= v <= zlen d.
Proof.
  intros Hd. unfold dns_question_len. case_decide; [eexists; split; [done|lia]|].
  apply question_len_loop_Ok; [done|lia..].
Qed.

(** The hash is a polynomial in 31 of the octets of the question. *)
Definition hash_poly (q : bytes) : Z := fold_left (fun h c => h * 31 + c) q 0.

Lemma u32_hash_step h c : u32 (u32 (u32 h * 31) + c) = u32 (h * 31 + c).
Proof. zlia. Qed.

Lemma hash_loop_spec q d j h post :
  tail_at d (12 + j) (q ++ post) ->
  dns_question_hash_loop (length q) d j (u32 h) =
    Ok (u32 (fold_left (fun h c => h * 31 + c) q h)).
Proof.
  revert j h. induction q as [|c q IH]; intros j h Ht; cbn [length dns_question_hash_loop fold_left];
    [done|].
  rewrite (tail_at_cons _ _ _ _ Ht). cbn [mbind outcome_bind]. rewrite u32_hash_step.
  apply IH. apply tail_at_step in Ht. by rewrite Z.add_assoc.
Qed.

Lemma hash_Ok d qlen :
  dns_question_len d (zlen d) = Ok qlen -> 0 <= qlen ->
  dns_question_hash d (zlen d) =
    Ok (if decide (qlen <= 0 \/ 12 + qlen > zlen d) then 0
        else u32 (hash_poly (window 12 (Z.to_nat qlen) d))).
Proof.
  intros Hq H0. unfold dns_question_hash. rewrite Hq. cbn [mbind outcome_bind].
  case_decide as Hc; [done|].
  pose proof (length_window 12 (Z.to_nat qlen) d ltac:(lia)) as Hl. rewrite <- Hl at 1.
  change 0 with (u32 0) at 2. apply (hash_loop_spec _ _ _ _ (drop (12 + Z.to_nat qlen) d)).
  unfold window. split_and!; [lia| |lia]. rewrite <- drop_drop, take_drop. f_equal.
Qed.

Lemma hash_app d r :
  is_bytes d -> dns_question_hash (d ++ r) (zlen d) = dns_question_hash d (zlen d).
Proof.
  intros Hd. destruct (question_len_Ok d Hd) as (v & Hv & Hr). unfold dns_question_hash.
  rewrite question_len_app, Hv. cbn [mbind outcome_bind]. case_decide as Hc; [done|].
  assert (Hg : forall k j h, 0 <= j -> 12 + j + Z.of_nat k <= zlen d ->
    dns_question_hash_loop k (d ++ r) j h = dns_question_hash_loop k d j h).
  { induction k as [|k IH]; intros j h Hj Hk; cbn [dns_question_hash_loop]; [done|].
    rewrite rd_app_l by lia. destruct (rd d (12 + j)); [|done]. cbn [mbind outcome_bind].
    apply IH; lia. }
  apply Hg; lia.
Qed.

Lemma txid_app d r : 2 <= zlen d -> get_dns_txid (d ++ r) = get_dns_txid d.
Proof. intros. unfold get_dns_txid. by rewrite !rd_app_l by lia. Qed.

Lemma is_response_app d r : is_dns_response (d ++ r) (zlen d) = is_dns_response d (zlen d).
Proof. unfold is_dns_response. case_decide; [done|]. by rewrite rd_app_l by lia. Qed.

Lemma txid_Ok d : 2 <= zlen d -> exists t, get_dns_txid d = Ok t.
Proof.
  intros. unfold get_dns_txid. destruct (rd_Ok d 0) as (a & -> & _); [lia|].
  destruct (rd_Ok d 1) as (b & -> & _); [lia|]. by eexists.
Qed.

Lemma response_Ok d : exists r, is_dns_response d (zlen d) = Ok r.
Proof.
  unfold is_dns_response. case_decide; [by eexists|].
  destruct (rd_Ok d 2) as (a & -> & _); [lia|]. by eexists.
Qed.

(** Writing the transaction identifier of a query over another message. *)
Lemma txid_octets d t : is_bytes d -> 2 <= zlen d -> get_dns_txid d = Ok t ->
  exists a b, take 2 d = [a; b] /\ u8 (Z.shiftr t 8) = a /\ u8 (Z.land t 0xFF) = b.
Proof.
  intros Hd Hl Ht. destruct d as [|a [|b d]]; cbn [length] in Hl; try lia.
  apply Forall_cons_1 in Hd as [Ha Hd]. apply Forall_cons_1 in Hd as [Hb Hd].
  cbn in Ht. injection Ht as <-. exists a, b. split; [done|].
  change 255 with (Z.ones 8). rewrite Z.land_ones, Z.shiftr_div_pow2 by lia.
  rewrite Z.lor_comm, lor_shiftl by zlia. zlia.
Qed.

Lemma set_txid_Ok m d t r :
  is_bytes d -> 2 <= zlen d -> 2 <= zlen m -> get_dns_txid d = Ok t ->
  set_dns_txid (m ++ r) t = Ok (take 2 d ++ drop 2 m ++ r).
Proof.
  intros Hd Hl Hm Ht. destruct (txid_octets d t Hd Hl Ht) as (a & b & -> & Ha & Hb).
  destruct m as [|x [|y m]]; cbn [length] in Hm; try lia. unfold set_dns_txid.
  rewrite wr_Ok by (rewrite length_app; cbn [length]; lia). cbn [mbind outcome_bind].
  rewrite wr_Ok by (rewrite length_insert, length_app; cbn [length]; lia).
  cbn. by rewrite Ha, Hb.
Qed.

(** ** Lemmas on the tables *)

Lemma pending_put_in l t c p :
  p ∈ pending_put l t c -> p ∈ l \/ p = {| txid := t; client := c; used := true |}.
Proof.
  unfold pending_put. intros Hp.
  destruct (list_find _ l) as [[i e]|]; apply list_elem_of_lookup in Hp as [j Hj];
    apply list_lookup_insert_Some in Hj as [(_ & <- & _)|[_ Hj]];
    eauto using list_elem_of_lookup_2.
Qed.

Lemma pending_put_length l t c : length (pending_put l t c) = length l.
Proof. unfold pending_put. destruct (list_find _ l) as [[]|]; apply length_insert. Qed.

(** After a put the table has a used slot for the query, if it has slots. *)
Lemma pending_put_has l t c :
  (0 < length l)%nat -> {| txid := t; client := c; used := true |} ∈ pending_put l t c.
Proof.
  intros Hl. unfold pending_put. destruct (list_find _ l) as [[i e]|] eqn:Hf.
  - apply list_find_Some in Hf as (Hi & _). apply lookup_lt_Some in Hi.
    apply (list_elem_of_lookup_2 _ i). by rewrite list_lookup_insert_eq.
  - apply (list_elem_of_lookup_2 _ 0). by rewrite list_lookup_insert_eq.
Qed.

Lemma pending_get_Some l t c l' :
  pending_get l t = Some (c, l') ->
  length l' = length l /\
  (exists e, e ∈ l /\ used e = true /\ txid e = t /\ client e = c) /\
  forall p, p ∈ l' -> used p = true -> p ∈ l.
Proof.
  unfold pending_get. destruct (list_find _ l) as [[i e]|] eqn:Hf; [|done]. intros [= <- <-].
  apply list_find_Some in Hf as (Hi & [Hu Ht] & _). split_and!.
  - apply length_insert.
  - exists e. eauto using list_elem_of_lookup_2.
  - intros p [j Hj]%list_elem_of_lookup Hp.
    apply list_lookup_insert_Some in Hj as [(_ & <- & _)|[_ Hj]]; [done|].
    eauto using list_elem_of_lookup_2.
Qed.

Lemma cache_lookup_Some l k t e :
  cache_lookup l k t = Some e -> e ∈ l /\ len e > 0 /\ key e = k /\ expire_sec e > t.
Proof.
  unfold cache_lookup. destruct (list_find _ l) as [[i e']|] eqn:Hf; [|done]. intros [= ->].
  apply list_find_Some in Hf as (Hi & (? & ? & ?) & _). eauto using list_elem_of_lookup_2.
Qed.

Lemma cache_slot_loop_lt l i slot oldest :
  (slot < i + length l)%nat -> (cache_slot_loop l i slot oldest < i + length l)%nat.
Proof.
  revert i slot oldest. induction l as [|e l IH]; intros i slot oldest Hs; cbn; [done|].
  cbn in Hs. repeat case_decide; [lia|..].
  - specialize (IH (S i) i (expire_sec e)). lia.
  - specialize (IH (S i) slot oldest). lia.
Qed.

Lemma cache_store_Ok l k b n t :
  length l = CACHE_ENTRIES -> Forall cache_wf l -> 2 <= n <= DNS_MAX_PAYLOAD -> n <= zlen b ->
  is_bytes b ->
  exists e, cache_store l k b n t = Ok (<[cache_slot l t := e]> l) /\ cache_wf e /\
    key e = k /\ len e = n /\ expire_sec e = u32 (t + CACHE_TTL_SEC) /\
    window 0 (Z.to_nat n) (payload e) = window 0 (Z.to_nat n) b.
Proof.
  intros Hl Hwf Hn Hb Hby. unfold cache_store. rewrite decide_False by lia.
  destruct (lookup_lt_is_Some_2 l (cache_slot l t)) as [e He].
  { apply (cache_slot_loop_lt l 0 0). rewrite Hl. unfold CACHE_ENTRIES. lia. }
  rewrite He. pose proof (Forall_lookup_1 _ _ _ _ Hwf He) as (Hp & _ & Hpb).
  rewrite rdn_Ok by lia. cbn [mbind outcome_bind].
  pose proof (length_window 0 (Z.to_nat n) b ltac:(lia)) as Hw. change (Z.to_nat 0) with 0%nat.
  rewrite wrn_Ok by (rewrite ?Hw; lia). cbn [mbind outcome_bind]. eexists. split; [done|].
  cbn [key len expire_sec payload]. split_and!; try done.
  - split_and!; cbn [payload len]; [rewrite length_splice by lia; lia|lia..|].
    unfold splice. apply Forall_app. split; [by apply Forall_take|].
    apply Forall_app. split; [by apply Forall_take, Forall_drop|by apply Forall_drop].
  - rewrite <- Hw at 1. apply window_splice_same. cbn. lia.
Qed.

(** ** One turn of the loop *)

(** [ent] holds the response [e]. *)
Definition from_response (e : event) (ent : cache_entry_t) : Prop :=
  cache_wf ent /\ dns_question_hash (dgram e) (zlen (dgram e)) = Ok (key ent) /\
  len ent = zlen (dgram e) /\ expire_sec ent = u32 (now e + CACHE_TTL_SEC) /\
  window 0 (length (dgram e)) (payload ent) = dgram e.

(** The cache after [e]: unchanged, or with [e] in one slot. *)
Definition stored (e : event) (l l' : list cache_entry_t) : Prop :=
  l' = l \/ exists slot ent, l' = <[slot := ent]> l /\ from_response e ent.

Section Step.
  Context (st : state) (e : event).
  Hypothesis Hwf : wf st.
  Hypothesis Hd : is_bytes (dgram e).
  Hypothesis Hn : 1 <= zlen (dgram e) <= DNS_MAX_PAYLOAD.
Let d := dgram e.
Let rest := drop (length d) (buf st).

Lemma step_unfold :
  dns_forwarder_step st e =
    (r ← is_dns_response d (zlen d);
     if (r : bool) then on_response (set_buf st (d ++ rest)) (zlen d) (now e)
     else on_query (set_buf st (d ++ rest)) (from e) (zlen d) (now e)).
Proof.
  unfold dns_forwarder_step. fold d. rewrite decide_False by (subst d; lia).
  destruct Hwf as [_ _ _ Hb _]. rewrite wrn_Ok by (subst d; lia). cbn [mbind outcome_bind].
  change (splice (Z.to_nat 0) d (buf st)) with (d ++ rest). cbn [set_buf buf].
  by rewrite is_response_app.
Qed.

Lemma step_buf_len : zlen (d ++ rest) = DNS_MAX_PAYLOAD.
Proof.
  destruct Hwf as [_ _ _ Hb _]. subst rest. rewrite length_app, length_drop. subst d. lia.
Qed.

Lemma step_buf_bytes : is_bytes (d ++ rest).
Proof. apply Forall_app. split; [done|]. apply Forall_drop, Hwf. Qed.

Lemma step_rdn : rdn (d ++ rest) 0 (zlen d) = Ok d.
Proof. apply (rdn_tail_at _ _ d rest); [apply tail_at_0|done]. Qed.

Lemma response_step t :
  is_dns_response d (zlen d) = Ok true -> get_dns_txid d = Ok t ->
  match pending_get (s_pending st) t with
  | None => dns_forwarder_step st e = Ok ([], set_buf st (d ++ rest))
  | Some (c, p) => exists ch, stored e (s_cache st) ch /\
      dns_forwarder_step st e =
        Ok ([(c, d)], {| s_pending := p; s_cache := ch; s_upstream := s_upstream st;
                         buf := d ++ rest |})
  end.
Proof.
  intros Hr Ht. assert (H12 : 12 <= zlen d).
  { unfold is_dns_response in Hr. destruct (decide (zlen d < 12)); [done|lia]. }
  rewrite step_unfold, Hr. cbn [mbind outcome_bind]. unfold on_response. cbn [set_buf buf s_pending].
  rewrite txid_app, Ht by lia. cbn [mbind outcome_bind].
  destruct (pending_get (s_pending st) t) as [[c p]|]; [|done].
  cbn [set_pending set_buf buf s_cache]. rewrite step_rdn, question_len_app. cbn [mbind outcome_bind].
  destruct (question_len_Ok d Hd) as (q & Hq & Hq0). rewrite Hq. cbn [mbind outcome_bind].
  case_decide; [|exists (s_cache st); split; [by left|done]].
  rewrite hash_app, (hash_Ok d q) by (done || lia). cbn [mbind outcome_bind].
  rewrite u16_id by (unfold DNS_MAX_PAYLOAD in Hn; subst d; zlia).
  edestruct (cache_store_Ok (s_cache st)) as (ent & -> & Hcwf & Hk & Hl & He & Hw);
    [apply Hwf|apply Hwf| | |apply step_buf_bytes|].
  3: { cbn [mbind outcome_bind]. eexists. split; [|done]. right. do 2 eexists. split; [done|].
       split_and!; [done| |done|done|].
       - rewrite Hk. fold d. by rewrite (hash_Ok d q) by (done || lia).
       - rewrite Nat2Z.id in Hw. fold d. rewrite Hw. apply take_app_length. }
  - subst d; lia.
  - rewrite step_buf_len. subst d; lia.
Qed.

Lemma query_step :
  is_dns_response d (zlen d) = Ok false ->
  exists t, (2 <= zlen d -> get_dns_txid d = Ok t) /\
  ((exists ce, ce ∈ s_cache st /\ 2 <= len ce /\ expire_sec ce > now e /\ 2 <= zlen d /\
      dns_question_hash d (zlen d) = Ok (key ce) /\
      exists b, zlen b = DNS_MAX_PAYLOAD /\ is_bytes b /\
      dns_forwarder_step st e =
        Ok ([(from e, take 2 d ++ drop 2 (window 0 (Z.to_nat (len ce)) (payload ce)))], set_buf st b)) \/
   (forall q k, dns_question_len d (zlen d) = Ok q -> dns_question_hash d (zlen d) = Ok k ->
      q = 0 \/ cache_lookup (s_cache st) k (now e) = None) /\
    dns_forwarder_step st e =
      Ok ([(s_upstream st, d)],
          {| s_pending := pending_put (s_pending st) t (from e); s_cache := s_cache st;
             s_upstream := s_upstream st; buf := d ++ rest |})).
Proof.
  intros Hr. pose proof step_buf_len as HB. unfold DNS_MAX_PAYLOAD in HB.
  destruct (txid_Ok (d ++ rest)) as [t Ht]; [lia|].
  exists t. split; [intros; by rewrite <- (txid_app d rest)|].
  rewrite step_unfold, Hr. cbn [mbind outcome_bind]. unfold on_query. cbn [set_buf buf s_cache].
  rewrite Ht. cbn [mbind outcome_bind]. rewrite question_len_app.
  destruct (question_len_Ok d Hd) as (q & Hq & Hq0). rewrite Hq. cbn [mbind outcome_bind].
  assert (Hfw : forward (set_buf st (d ++ rest)) (from e) t (zlen d) =
    Ok ([(s_upstream st, d)],
          {| s_pending := pending_put (s_pending st) t (from e); s_cache := s_cache st;
             s_upstream := s_upstream st; buf := d ++ rest |})).
  { unfold forward. cbn [set_pending set_buf buf]. by rewrite step_rdn. }
  case_decide as Hq1.
  2: { right. split; [|done]. intros q' k [= <-] _. left. lia. }
  assert (Hn13 : 2 <= zlen d) by (unfold dns_question_len in Hq; destruct (decide (zlen d < 13)); simplify_eq; lia).
  rewrite hash_app, (hash_Ok d q) by (done || lia). cbn [mbind outcome_bind].
  destruct (cache_lookup _ _ _) as [ce|] eqn:Hce.
  - left. apply cache_lookup_Some in Hce as (Hin & Hl & Hk & He).
    pose proof (wf_entries _ Hwf) as Hent. rewrite list.Forall_forall in Hent.
    destruct (Hent ce Hin) as (Hpl & Hlen & Hpb). unfold DNS_MAX_PAYLOAD in *.
    assert (Hlw : length (window 0 (Z.to_nat (len ce)) (payload ce)) = Z.to_nat (len ce))
      by (apply length_window; lia).
    rewrite rdn_Ok by lia. cbn [mbind outcome_bind]. change (Z.to_nat 0) with 0%nat.
    set (m := window 0 (Z.to_nat (len ce)) (payload ce)) in *.
    rewrite wrn_Ok by lia. cbn [mbind outcome_bind]. change (Z.to_nat 0) with 0%nat.
    change (splice 0 m (d ++ rest)) with (m ++ drop (length m) (d ++ rest)).
    assert (Ht' : get_dns_txid d = Ok t) by (by rewrite <- (txid_app d rest)).
    rewrite (set_txid_Ok m d) by (done || lia). cbn [mbind outcome_bind].
    rewrite app_assoc. rewrite (rdn_tail_at _ 0 (take 2 d ++ drop 2 m) (drop (length m) (d ++ rest)));
      [|apply tail_at_0|rewrite length_app, length_take, length_drop; lia].
    cbn [mbind outcome_bind]. exists ce. split_and!; [done|lia|done|done| |].
    + by rewrite Hk.
    + eexists. split; [|split; [|done]].
      * rewrite !length_app, length_take, !length_drop. lia.
      * unfold is_bytes. rewrite !Forall_app. split_and!.
        -- by apply Forall_take.
        -- by apply Forall_drop, Forall_take, Forall_drop.
        -- apply Forall_drop, step_buf_bytes.
  - right. split; [|done]. intros q' k [= <-] Hk. right. 
    injection Hk as <-. done.
Qed.
End Step.

(** ** Names and questions *)

Definition enc_labels (ls : list bytes) : bytes := ls ≫= (fun l => zlen l :: l).

(** A question: the labels, the root label, type and class (4 octets). *)
Definition enc_question (ls : list bytes) (type_class : bytes) : bytes :=
  enc_labels ls ++ 0 :: type_class.

Definition label_ok (l : bytes) : Prop := 1 <= zlen l <= 63.

Lemma label_len_plain n : 1 <= n <= 63 -> Z.land n 0xC0 <> 0xC0.
Proof.
  intros Hn E. assert (H6 : Z.testbit (Z.land n 192) 6 = true) by (rewrite E; reflexivity).
  rewrite Z.land_spec in H6. apply andb_prop in H6 as [H6 _].
  rewrite Z.testbit_true in H6 by lia. change (2 ^ 6) with 64 in H6.
  rewrite Z.div_small in H6 by lia. done.
Qed.

Lemma question_len_loop_labels ls fuel d i post :
  Forall label_ok ls -> tail_at d i (enc_labels ls ++ 0 :: post) ->
  (length ls < fuel)%nat ->
  dns_question_len_loop fuel d (zlen d) i = Ok (i + zlen (enc_labels ls) - 12 + 5).
Proof.
  revert fuel i. induction ls as [|l ls IH]; intros fuel i Hls Ht Hf; (destruct fuel as [|fuel]; [lia|]);
    pose proof (tail_at_len _ _ _ Ht) as Hlen; cbn [dns_question_len_loop].
  - cbn in Ht, Hlen. rewrite decide_True by lia. rewrite (tail_at_cons _ _ _ _ Ht).
    cbn [mbind outcome_bind]. rewrite decide_True by done. f_equal. cbn. lia.
  - apply Forall_cons_1 in Hls as [Hl Hls]. unfold enc_labels in *. rewrite bind_cons in *.
    cbn [app] in Ht. rewrite <- app_assoc in Ht.
    rewrite !length_app in Hlen. cbn [length] in Hlen. cbn in Hl.
    rewrite decide_True by lia. rewrite (tail_at_cons _ _ _ _ Ht). cbn [mbind outcome_bind].
    unfold label_ok in Hl. rewrite decide_False by lia.
    rewrite decide_False by by apply label_len_plain.
    rewrite (IH fuel (i + (1 + zlen l))); [|done| |cbn in Hf; lia].
    + f_equal. cbn [mbind list_bind length app]. rewrite length_app. lia.
    + eapply (tail_at_app _ i (zlen l :: l)); [exact Ht|cbn [length]; lia].
Qed.

Lemma enc_labels_length ls : (length ls <= length (enc_labels ls))%nat.
Proof.
  induction ls as [|l ls IH]; [done|]. unfold enc_labels in *. rewrite bind_cons, length_app.
  cbn [length]. lia.
Qed.

(** ** Runs of the task *)

(** What the environment delivers: octets, before the 32-bit count of milliseconds wraps
    (49.7 days after the start). *)
Definition event_ok (e : event) : Prop :=
  is_bytes (dgram e) /\ zlen (dgram e) <= DNS_MAX_PAYLOAD /\ 0 <= uptime e < 2 ^ 32.

(** [e] is not earlier than what happened before. *)
Definition later (h : list (event * list send)) (e : event) : Prop := Forall (fun x => uptime x.1 <= uptime e) h.

(** [reach up h st]: started with upstream [up], the task is in [st] after the
    events of [h] (latest first), each with the datagrams it sent. *)
Inductive reach (up : sockaddr_in) : list (event * list send) -> state -> Prop :=
| reach_start b : zlen b = DNS_MAX_PAYLOAD -> is_bytes b -> reach up [] (dns_forwarder_start up b)
| reach_step h st e out st' :
    reach up h st -> event_ok e -> later h e -> dns_forwarder_step st e = Ok (out, st') ->
    reach up ((e, out) :: h) st'.

Definition is_query (e : event) : Prop := is_dns_response (dgram e) (zlen (dgram e)) = Ok false.
Definition is_response (e : event) : Prop := is_dns_response (dgram e) (zlen (dgram e)) = Ok true.

Definition asks (e : event) : bool := match is_dns_response (dgram e) (zlen (dgram e)) with Ok false => true | _ => false end.
(** Not with the identifier [t], or nothing at all. *)
Definition foreign (t : Z) (e : event) : Prop := zlen (dgram e) <= 0 \/ 2 <= zlen (dgram e) /\ get_dns_txid (dgram e) <> Ok t.
Definition unused (l : list pending_t) : nat := count (fun p => negb (used p)) l.

(** The query behind a used slot, and the response behind a cache entry. *)
Definition slot_origin (up : sockaddr_in) (h : list (event * list send)) (p : pending_t) : Prop :=
  exists e, (e, [(up, dgram e)]) ∈ h /\ is_query e /\ from e = client p /\
    (2 <= zlen (dgram e) -> get_dns_txid (dgram e) = Ok (txid p)).

Definition entry_origin (h : list (event * list send)) (ent : cache_entry_t) : Prop :=
  exists e c, (e, [(c, dgram e)]) ∈ h /\ is_response e /\ event_ok e /\ from_response e ent.

Record inv (up : sockaddr_in) (h : list (event * list send)) (st : state) : Prop := {
  inv_wf : wf st;
  inv_up : s_upstream st = up;
  inv_slots : forall p, p ∈ s_pending st -> used p = true -> slot_origin up h p;
  inv_cache : forall ent, ent ∈ s_cache st -> len ent = 0 \/ entry_origin h ent;
}.

(** Where a datagram that [e] makes the task send comes from. *)
Inductive origin (up : sockaddr_in) (h : list (event * list send)) (e : event) : send -> Prop :=
| origin_query : is_query e -> origin up h e (up, dgram e)
| origin_answer e0 :
    is_response e -> (e0, [(up, dgram e0)]) ∈ h -> is_query e0 ->
    (2 <= zlen (dgram e0) -> get_dns_txid (dgram e0) = get_dns_txid (dgram e)) ->
    origin up h e (from e0, dgram e)
| origin_cached e0 c :
    is_query e -> (e0, [(c, dgram e0)]) ∈ h -> is_response e0 ->
    uptime e0 <= uptime e < uptime e0 + CACHE_TTL_SEC * 1000 ->
    dns_question_hash (dgram e0) (zlen (dgram e0)) = dns_question_hash (dgram e) (zlen (dgram e)) ->
    origin up h e (from e, take 2 (dgram e) ++ drop 2 (dgram e0)).

Lemma slot_origin_mono up h x p : slot_origin up h p -> slot_origin up (x :: h) p.
Proof. intros (e & ? & ?). exists e. split; [set_solver|done]. Qed.

Lemma entry_origin_mono h x ent : entry_origin h ent -> entry_origin (x :: h) ent.
Proof. intros (e & c & ? & ?). exists e, c. split; [set_solver|done]. Qed.

Lemma stored_wf e l l' : Forall cache_wf l -> stored e l l' -> length l' = length l /\ Forall cache_wf l'.
Proof.
  intros Hl [->|(slot & ent & -> & Hent)]; [done|]. split; [apply length_insert|].
  apply Forall_insert; [done|]. apply Hent.
Qed.

Lemma stored_in e l l' ent : stored e l l' -> ent ∈ l' -> ent ∈ l \/ from_response e ent.
Proof.
  intros [->|(slot & ent' & -> & Hent)] Hin; [by left|].
  apply list_elem_of_lookup in Hin as [j Hj].
  apply list_lookup_insert_Some in Hj as [(_ & <- & _)|[_ Hj]]; [by right|].
  left. by eapply list_elem_of_lookup_2.
Qed.

Lemma response_long e : is_response e -> 12 <= zlen (dgram e).
Proof. unfold is_response, is_dns_response. case_decide; [done|lia]. Qed.

Lemma set_buf_inv up h st b x :
  inv up h st -> zlen b = DNS_MAX_PAYLOAD -> is_bytes b -> inv up (x :: h) (set_buf st b).
Proof.
  intros [[????] ? Hs Hc] Hb Hby. split; cbn; [by split|done|..].
  - intros. by apply slot_origin_mono, Hs.
  - intros ent He. destruct (Hc ent He); [by left|right; by apply entry_origin_mono].
Qed.

(** One turn: it succeeds, keeps the invariant, and everything it sends has an
    origin. *)
Lemma step_inv up h st e :
  inv up h st -> event_ok e -> later h e ->
  exists out st', dns_forwarder_step st e = Ok (out, st') /\ inv up ((e, out) :: h) st' /\
    Forall (origin up h e) out.
Proof.
  intros Hinv (Hby & Hmax & Hnow) Hlater. pose proof Hinv as [Hwf Hup Hs Hc].
  destruct (decide (zlen (dgram e) <= 0)) as [H0|H0].
  { exists [], st. unfold dns_forwarder_step. rewrite decide_True by lia. split_and!; [done| |done].
    destruct st as [p c u b]. apply (set_buf_inv up h (Build_state p c u b) b); [done|apply Hwf..]. }
  assert (Hn : 1 <= zlen (dgram e) <= DNS_MAX_PAYLOAD) by lia.
  pose proof (step_buf_len st e Hwf Hn) as Hbl. pose proof (step_buf_bytes st e Hwf Hby) as Hbb.
  destruct (response_Ok (dgram e)) as [[|] Hr].
  - pose proof (response_long e Hr). destruct (txid_Ok (dgram e)) as [t Ht]; [lia|].
    pose proof (response_step st e Hwf Hby Hn t Hr Ht) as Hstep.
    destruct (pending_get (s_pending st) t) as [[c p]|] eqn:Hget.
    + destruct Hstep as (ch & Hst & Hstep). do 2 eexists. split; [exact Hstep|].
      apply pending_get_Some in Hget as (Hlp & (p0 & Hp0 & Hu & Htx & Hcl) & Hsub).
      destruct (stored_wf _ _ _ (wf_entries _ Hwf) Hst) as [Hlc Hwc].
      split; [split; cbn [s_pending s_cache s_upstream buf]|].
      * destruct Hwf. by split; cbn; try congruence.
      * done.
      * intros q Hq Huq. by apply slot_origin_mono, Hs; [apply Hsub|].
      * intros ent Hent. destruct (stored_in _ _ _ _ Hst Hent) as [Hin|Hfr].
        -- destruct (Hc ent Hin); [by left|right; by apply entry_origin_mono].
        -- right. exists e, c. split_and!; [set_solver|done|done|done].
      * constructor; [|constructor]. destruct (Hs p0 Hp0 Hu) as (e0 & Hin & Hq & Hfrom & Ht0).
        rewrite <- Hcl, <- Hfrom. apply origin_answer; [done..|]. intros. rewrite Ht0, Htx by done. done.
    + do 2 eexists. split; [exact Hstep|]. split; [|constructor]. by apply set_buf_inv.
  - destruct (query_step st e Hwf Hby Hn Hr) as (t & Ht & [Hcached|Hfwd]).
    + destruct Hcached as (ce & Hin & Hlen & Hexp & H2 & Hh & b & Hb & Hbb' & Hstep).
      do 2 eexists. split; [exact Hstep|]. split; [by apply set_buf_inv|].
      constructor; [|constructor].
      destruct (Hc ce Hin) as [|(e0 & c & Hin0 & Hr0 & (_ & _ & Hnow0) & (_ & Hk & Hl0 & He0 & Hw0))]; [lia|].
      rewrite Hl0, Nat2Z.id, Hw0. eapply origin_cached; [done|done|done| |].
      * unfold later in Hlater. rewrite list.Forall_forall in Hlater. specialize (Hlater _ Hin0). cbn [fst] in Hlater.
        rewrite He0 in Hexp. unfold now, now_sec_of, CACHE_TTL_SEC in *. rewrite !u32_id in Hexp by zlia. zlia.
      * congruence.
    + destruct Hfwd as [_ Hstep]. do 2 eexists. split; [exact Hstep|].
      split; [split; cbn [s_pending s_cache s_upstream buf]|].
      * destruct Hwf. split; cbn; try done. by rewrite pending_put_length.
      * done.
      * intros p [Hp| ->]%pending_put_in Hu; [by apply slot_origin_mono, Hs|].
        exists e. cbn. split_and!; [rewrite Hup; set_solver|done|done|done].
      * intros ent Hent. destruct (Hc ent Hent); [by left|right; by apply entry_origin_mono].
      * constructor; [|constructor]. rewrite Hup. by apply origin_query.
Qed.

Lemma start_inv up b : zlen b = DNS_MAX_PAYLOAD -> is_bytes b -> inv up [] (dns_forwarder_start up b).
Proof.
  intros Hb Hby. split; cbn; [split; cbn|done|..]; try done.
  - change (Forall cache_wf (replicate CACHE_ENTRIES zero_cache)).
    apply Forall_replicate. unfold cache_wf. by_decide.
  - intros p Hp. change (p ∈ replicate PENDING_MAX zero_pending) in Hp. apply elem_of_replicate in Hp as [-> _]. done.
  - intros ent He. change (ent ∈ replicate CACHE_ENTRIES zero_cache) in He. apply elem_of_replicate in He as [-> _]. by left.
Qed.

Lemma reach_inv up h st : reach up h st -> inv up h st.
Proof.
  induction 1 as [b Hb Hby|h st e out st' Hreach IH He Hl Hstep]; [by apply start_inv|].
  destruct (step_inv up h st e IH He Hl) as (out' & st'' & Hstep' & Hinv & _). congruence.
Qed.

(** ** Properties *)

(** C1: from every reachable state every datagram is processed without a read
    or write outside the buffers, and every datagram the task sends has an
    origin: a query goes verbatim to the upstream server; a response goes
    verbatim to a client whose query with that transaction identifier was
    forwarded; an answer from the cache is a response relayed less than
    [CACHE_TTL_SEC] seconds before to a question with the same hash, with the
    identifier of the new query in front.  Everything happens in the 49.7 days from
    the start in which the count of milliseconds does not wrap;
    [clock_wrap_keeps_entries] is what happens then. *)
Theorem dns_forwarder_origin up h st e :
  reach up h st -> event_ok e -> later h e ->
  exists out st', dns_forwarder_step st e = Ok (out, st') /\ Forall (origin up h e) out.
Proof.
  intros Hr He Hl. destruct (step_inv up h st e (reach_inv _ _ _ Hr) He Hl) as (out & st' & Hs & _ & Ho).
  eauto.
Qed.

Definition ex_up : sockaddr_in := {| sin_port := 53; sin_addr := 8 |}.
Definition ex_client (n : Z) : sockaddr_in := {| sin_port := 5000; sin_addr := n |}.
(** A message with one question of one two-letter label, type A, class IN. *)
Definition ex_msg (id flags : Z) (l1 l2 : Z) (answer : bytes) : bytes :=
  [0; id; flags; 0; 0; 1; 0; 0; 0; 0; 0; 0; 2; l1; l2; 0; 0; 1; 0; 1] ++ answer.
Definition ex_start : state := dns_forwarder_start ex_up (replicate 512 0).

Lemma dns_forwarder_origin_witness :
  let e := {| from := ex_client 2; dgram := ex_msg 7 1 0x41 0x61 []; uptime := 5000 |} in
  exists out st', dns_forwarder_step ex_start e = Ok (out, st') /\ Forall (origin ex_up [] e) out.
Proof.
  apply (dns_forwarder_origin ex_up [] ex_start
    {| from := ex_client 2; dgram := ex_msg 7 1 0x41 0x61 []; uptime := 5000 |});
    [apply reach_start|unfold event_ok; cbn [dgram uptime]|constructor]; by_decide.
Defined.

(** [k] queries can be forwarded without taking the slot of the one with identifier [t],
    which [c] asked and no other. *)
Record awaited (t : Z) (c : sockaddr_in) (k : nat) (st : state) : Prop := {
  aw_wf : wf st;
  aw_slot : exists p, p ∈ s_pending st /\ used p = true /\ txid p = t;
  aw_client : forall p, p ∈ s_pending st -> used p = true -> txid p = t -> client p = c;
  aw_free : (k <= unused (s_pending st))%nat;
}.

Lemma put_unused l t c : unused (pending_put l t c) = pred (unused l).
Proof.
  unfold pending_put. destruct (list_find _ l) as [[i e]|] eqn:Hf.
  - apply list_find_Some in Hf as (Hi & Hu & _). pose proof (count_insert (fun p => negb (used p)) l i e {| txid := t; client := c; used := true |} Hi) as H.
    unfold unused. cbn in H. rewrite Hu in H. cbn in H. lia.
  - apply list_find_None in Hf. assert (H0 : unused l = 0%nat).
    { unfold unused, count. induction l as [|e l IH]; [done|]. apply Forall_cons_1 in Hf as [He Hf]. cbn. destruct (used e); [by apply IH|done]. }
    rewrite H0. cbn. destruct l as [|e l]; [done|]. apply Forall_cons_1 in Hf as [He Hf]. pose proof (count_insert (fun p => negb (used p)) (e :: l) 0 e {| txid := t; client := c; used := true |} eq_refl) as H.
    unfold unused in *. destruct (used e) eqn:Eu; [|done]. cbn in *. rewrite ?Eu in *. cbn in *. lia.
Qed.

(** A slot in use stays when there is an unused one. *)
Lemma put_keeps l t c p : (0 < unused l)%nat -> p ∈ l -> used p = true -> p ∈ pending_put l t c.
Proof.
  intros Hl [j Hj]%list_elem_of_lookup Hu. unfold pending_put. destruct (list_find _ l) as [[i e]|] eqn:Hf.
  - apply list_find_Some in Hf as (Hi & Hue & _). apply (list_elem_of_lookup_2 _ j). rewrite list_lookup_insert_ne; [done|]. intros ->. congruence.
  - apply list_find_None in Hf. exfalso. unfold unused, count in Hl. clear Hj. induction l as [|e l IH]; [cbn in Hl; lia|].
    apply Forall_cons_1 in Hf as [He Hf]. cbn in Hl. destruct (used e); [by apply IH|done].
Qed.

Lemma get_keeps l t t' c l' p : pending_get l t' = Some (c, l') -> t <> t' -> p ∈ l -> txid p = t -> p ∈ l'.
Proof.
  unfold pending_get. destruct (list_find _ l) as [[i e]|] eqn:Hf; [|done]. intros [= <- <-] Hne [j Hj]%list_elem_of_lookup Ht.
  apply list_find_Some in Hf as (Hi & [Hu Hte] & _). apply (list_elem_of_lookup_2 _ j). rewrite list_lookup_insert_ne; [done|]. intros ->. congruence.
Qed.

Lemma get_unused l t c l' : pending_get l t = Some (c, l') -> (unused l <= unused l')%nat.
Proof.
  unfold pending_get. destruct (list_find _ l) as [[i e]|] eqn:Hf; [|done]. intros [= <- <-]. apply list_find_Some in Hf as (Hi & [Hu _] & _).
  pose proof (count_insert (fun p => negb (used p)) l i e {| txid := txid e; client := client e; used := false |} Hi) as H.
  unfold unused. cbn in H. rewrite Hu in H. cbn in H. lia.
Qed.

Lemma awaited_step t c k st e :
  awaited t c k st -> event_ok e -> foreign t e -> (Nat.b2n (asks e) <= k)%nat ->
  exists out st', dns_forwarder_step st e = Ok (out, st') /\ awaited t c (k - Nat.b2n (asks e)) st'.
Proof.
  intros [Hwf (p0 & Hin & Hu & Ht) Hcl Hk] (Hby & Hmax & _) Hfor Hask. destruct Hfor as [H0|[H2 Hid]].
  { exists [], st. unfold dns_forwarder_step. rewrite decide_True by lia. split; [done|]. constructor; eauto. lia. }
  assert (Hn : 1 <= zlen (dgram e) <= DNS_MAX_PAYLOAD) by lia. destruct (txid_Ok (dgram e) H2) as [t' Ht']. assert (Hne : t <> t') by congruence.
  pose proof (step_buf_len st e Hwf Hn) as Hbl. pose proof (step_buf_bytes st e Hwf Hby) as Hbb.
  unfold asks in *. destruct (response_Ok (dgram e)) as [[|] Hr]; rewrite Hr in *; cbn [Nat.b2n] in *.
  - pose proof (response_step st e Hwf Hby Hn t' Hr Ht') as Hstep. destruct (pending_get (s_pending st) t') as [[c' l']|] eqn:Hget.
    + destruct Hstep as (ch & Hst & Hstep). do 2 eexists. split; [exact Hstep|]. pose proof (pending_get_Some _ _ _ _ Hget) as (Hll & _ & Hsub).
      destruct (stored_wf _ _ _ (wf_entries _ Hwf) Hst) as [Hlc Hwc]. pose proof (get_unused _ _ _ _ Hget). constructor; cbn [s_pending].
      * destruct Hwf. split; cbn; try done; congruence.
      * exists p0. split; [by apply (get_keeps _ t t' c' l' p0 Hget)|done].
      * intros p Hp Hpu. by apply Hcl; [apply Hsub|].
      * lia.
    + do 2 eexists. split; [exact Hstep|]. constructor; cbn [set_buf s_pending]; [|by exists p0|done|lia]. destruct Hwf. by split.
  - destruct (query_step st e Hwf Hby Hn Hr) as (t2 & Ht2 & [Hcached|[_ Hstep]]).
    + destruct Hcached as (ce & _ & _ & _ & _ & _ & b & Hb & Hbb' & Hstep). do 2 eexists. split; [exact Hstep|].
      constructor; cbn [set_buf s_pending]; [|by exists p0|done|lia]. destruct Hwf. by split.
    + do 2 eexists. split; [exact Hstep|]. specialize (Ht2 H2). assert (t2 = t') as -> by congruence. constructor; cbn [s_pending].
      * destruct Hwf. split; cbn; try done. by rewrite pending_put_length.
      * exists p0. split; [|done]. apply put_keeps; [lia|done..].
      * intros p [Hp| ->]%pending_put_in Hpu; [by apply Hcl|]. cbn. congruence.
      * rewrite put_unused. lia.
Qed.

Lemma awaited_run t c es : forall k st, awaited t c k st -> Forall event_ok es -> Forall (foreign t) es -> (count asks es <= k)%nat ->
  exists out st', run st es = Ok (out, st') /\ awaited t c (k - count asks es) st'.
Proof.
  induction es as [|e es IH]; intros k st Hst Hok Hfor Hk; cbn [run].
  { exists [], st. split; [done|]. unfold count. cbn. by rewrite Nat.sub_0_r. }
  rewrite count_cons in *. apply Forall_cons_1 in Hok as [He Hok]. apply Forall_cons_1 in Hfor as [Hf Hfor].
  destruct (awaited_step t c k st e Hst He Hf) as (o & st1 & -> & H1); [lia|]. cbn [mbind outcome_bind].
  destruct (IH _ _ H1 Hok Hfor) as (os & st2 & -> & H2); [lia|]. cbn [mbind outcome_bind]. do 2 eexists. split; [done|]. by rewrite Nat.sub_add_distr.
Qed.

Lemma awaited_answer t c k st r :
  awaited t c k st -> event_ok r -> is_response r -> get_dns_txid (dgram r) = Ok t ->
  exists st', dns_forwarder_step st r = Ok ([(c, dgram r)], st').
Proof.
  intros [Hwf (p0 & Hin & Hu & Ht) Hcl _] (Hby & Hmax & _) Hr Htr. pose proof (response_long r Hr).
  pose proof (response_step st r Hwf Hby ltac:(lia) t Hr Htr) as Hstep. destruct (pending_get (s_pending st) t) as [[c' l']|] eqn:Hget.
  - destruct Hstep as (ch & _ & ->). eexists. f_equal. f_equal. f_equal. f_equal.
    apply pending_get_Some in Hget as (_ & (p & Hp & Hpu & Hpt & <-) & _). by apply Hcl.
  - exfalso. unfold pending_get in Hget. destruct (list_find _ _) as [[]|] eqn:Hf; [done|]. apply list_find_None in Hf.
    rewrite list.Forall_forall in Hf. by apply (Hf p0 Hin).
Qed.

(** C2: a query that the cache does not answer goes upstream, and the response with its
    identifier goes to the client that asked, with anything in between: other queries,
    as many as there were unused slots beside the query's, and other responses.  The
    identifier must be one that no other pending query and no datagram in between has
    ([same_txid_misdelivers] is what happens otherwise), and none in between may be of
    one octet, which is too short for an identifier.  With a full table slot 0 is
    given up for the query, which then is answered if no query comes before. *)
Theorem dns_forwarder_delivers st q es r t :
  wf st -> event_ok q -> Forall event_ok es -> event_ok r -> 2 <= zlen (dgram q) ->
  is_query q -> is_response r ->
  get_dns_txid (dgram q) = Ok t -> get_dns_txid (dgram r) = Ok t ->
  Forall (fun p => used p = true -> txid p <> t) (s_pending st) -> Forall (foreign t) es ->
  (count asks es <= pred (unused (s_pending st)))%nat ->
  (forall k, dns_question_hash (dgram q) (zlen (dgram q)) = Ok k ->
     cache_lookup (s_cache st) k (now q) = None) ->
  exists out st1 st2,
    run st (q :: es) = Ok ((s_upstream st, dgram q) :: out, st1) /\
    dns_forwarder_step st1 r = Ok ([(from q, dgram r)], st2).
Proof.
  intros Hwf (Hbq & Hmq & _) Hes Hrok H2 Hq Hr Htq Htr Hfree Hfor Hcount Hmiss.
  destruct (query_step st q Hwf Hbq) as (t' & Ht' & Hcase); [lia|done|].
  rewrite Htq in Ht'. specialize (Ht' H2). injection Ht' as <-.
  destruct Hcase as [(ce & Hin & Hl & He & _ & Hk & _)|[_ Hstep]].
  { exfalso. specialize (Hmiss _ Hk). unfold cache_lookup in Hmiss.
    destruct (list_find _ _) as [[]|] eqn:Hf; [done|]. apply list_find_None in Hf.
    rewrite list.Forall_forall in Hf. apply (Hf ce Hin). split_and!; [lia|done|lia]. }
  set (st1 := {| s_pending := pending_put (s_pending st) t (from q); s_cache := s_cache st;
                 s_upstream := s_upstream st; buf := _ |}) in Hstep.
  assert (H1 : awaited t (from q) (pred (unused (s_pending st))) st1).
  { constructor; cbn [s_pending st1].
    - destruct Hwf. split; cbn; try done; [by rewrite pending_put_length|..].
      + apply (step_buf_len st q); [by split|]. lia.
      + apply (step_buf_bytes st q); [by split|done].
    - eexists. split; [apply pending_put_has; rewrite (wf_pending _ Hwf); unfold PENDING_MAX; lia|done].
    - intros p [Hp| ->]%pending_put_in Hpu Hpt; [|done]. rewrite list.Forall_forall in Hfree. by destruct (Hfree p Hp Hpu).
    - by rewrite put_unused. }
  destruct (awaited_run t (from q) es _ st1 H1 Hes Hfor Hcount) as (out & st2 & Hrun & H3).
  destruct (awaited_answer t (from q) _ st2 r H3 Hrok Hr Htr) as [st3 Hans].
  exists out, st2, st3. split; [|done]. cbn [run]. rewrite Hstep. cbn [mbind outcome_bind]. by rewrite Hrun.
Qed.

Lemma dns_forwarder_delivers_witness :
  let q := {| from := ex_client 2; dgram := ex_msg 7 1 0x41 0x61 []; uptime := 5000 |} in
  let q' := {| from := ex_client 3; dgram := ex_msg 8 1 0x43 0x43 []; uptime := 5001 |} in
  let r' := {| from := ex_up; dgram := ex_msg 8 0x81 0x43 0x43 [5; 6; 7; 8]; uptime := 5900 |} in
  let r := {| from := ex_up; dgram := ex_msg 7 0x81 0x41 0x61 [1; 2; 3; 4]; uptime := 6000 |} in
  exists out st1 st2,
    run ex_start [q; q'; r'] = Ok ((ex_up, dgram q) :: out, st1) /\
    dns_forwarder_step st1 r = Ok ([(from q, dgram r)], st2).
Proof.
  apply (dns_forwarder_delivers ex_start
    {| from := ex_client 2; dgram := ex_msg 7 1 0x41 0x61 []; uptime := 5000 |}
    [{| from := ex_client 3; dgram := ex_msg 8 1 0x43 0x43 []; uptime := 5001 |};
     {| from := ex_up; dgram := ex_msg 8 0x81 0x43 0x43 [5; 6; 7; 8]; uptime := 5900 |}]
    {| from := ex_up; dgram := ex_msg 7 0x81 0x41 0x61 [1; 2; 3; 4]; uptime := 6000 |} 7).
  - apply (start_inv ex_up (replicate 512 0)); by_decide.
  - unfold event_ok. by_decide.
  - constructor; [|constructor; [|constructor]]; unfold event_ok; by_decide.
  - unfold event_ok. by_decide.
  - by_decide.
  - reflexivity.
  - reflexivity.
  - reflexivity.
  - reflexivity.
  - by_decide.
  - constructor; [|constructor; [|constructor]]; right; (split; [by_decide|discriminate]).
  - by_decide.
  - intros k [= <-]. reflexivity.
Defined.

(** On a message whose question is a name of ordinary labels, the question
    length is exact and the hash is the base-31 polynomial of the octets of
    the question modulo 2^32, whatever header it has and whatever follows. *)
Theorem dns_question_exact header ls type_class post :
  let q := enc_question ls type_class in
  let d := header ++ q ++ post in
  length header = 12%nat -> length type_class = 4%nat -> Forall label_ok ls ->
  dns_question_len d (zlen d) = Ok (zlen q) /\
  dns_question_hash d (zlen d) = Ok (u32 (hash_poly q)).
Proof.
  intros q d Hh Htc Hls.
  assert (Hq : zlen q = zlen (enc_labels ls) + 5)
    by (unfold q, enc_question; rewrite length_app; cbn [length]; lia).
  assert (Hd : zlen d = 12 + zlen q + zlen post) by (unfold d; rewrite !length_app; lia).
  assert (Hlen : dns_question_len d (zlen d) = Ok (zlen q)).
  { unfold dns_question_len. rewrite decide_False by lia.
    rewrite (question_len_loop_labels ls _ _ _ (type_class ++ post)); [f_equal; lia|done| |].
    - apply (tail_at_app _ 0 header); [|by rewrite Hh].
      replace (enc_labels ls ++ 0 :: type_class ++ post) with (q ++ post); [apply tail_at_0|].
      unfold q, enc_question. by rewrite <- app_assoc.
    - pose proof (enc_labels_length ls). lia. }
  split; [done|]. rewrite (hash_Ok d (zlen q)) by (done || lia). rewrite decide_False by lia.
  do 3 f_equal. rewrite Nat2Z.id. unfold window, d. rewrite <- Hh.
  by rewrite drop_app_length, take_app_length.
Qed.

Lemma dns_question_exact_witness :
  let d := replicate 12 0 ++ enc_question [[0x61; 0x62]; [0x63]] [0; 1; 0; 1] ++ [9] in
  dns_question_len d (zlen d) = Ok (zlen (enc_question [[0x61; 0x62]; [0x63]] [0; 1; 0; 1])) /\
  dns_question_hash d (zlen d) =
    Ok (u32 (hash_poly (enc_question [[0x61; 0x62]; [0x63]] [0; 1; 0; 1]))).
Proof.
  apply (dns_question_exact (replicate 12 0) [[0x61; 0x62]; [0x63]] [0; 1; 0; 1] [9]);
    [done|done|unfold label_ok; by_decide].
Defined.

(** *** Which slot the cache gives up *)

Lemma cache_slot_loop_fresh l i slot oldest :
  Forall (fun e => len e <> 0 /\ oldest <= expire_sec e) l -> cache_slot_loop l i slot oldest = slot.
Proof.
  revert i. induction l as [|e l IH]; intros i Hl; cbn; [done|].
  apply Forall_cons_1 in Hl as [[He Ho] Hl]. rewrite !decide_False by lia. by apply IH.
Qed.

Lemma cache_slot_loop_empty l1 e l2 i slot oldest :
  Forall (fun e => len e <> 0) l1 -> len e = 0 ->
  cache_slot_loop (l1 ++ e :: l2) i slot oldest = (i + length l1)%nat.
Proof.
  intros Hl1 He. revert i slot oldest. induction Hl1 as [|e1 l1 H1 Hl1 IH]; intros i slot oldest; cbn.
  - rewrite decide_True by done. lia.
  - rewrite decide_False by done. case_decide; rewrite IH; lia.
Qed.

(** The slot a response is stored in: the first empty one; when the table is
    full and every entry is still fresh, always slot 0, whatever the ages. *)
Theorem cache_slot_correct l t :
  is_u32 (t + 1) ->
  (forall l1 e l2, l = l1 ++ e :: l2 -> Forall (fun e => len e <> 0) l1 -> len e = 0 ->
     cache_slot l t = length l1) /\
  (Forall (fun e => len e <> 0 /\ t < expire_sec e) l -> cache_slot l t = 0%nat).
Proof.
  intros Ht. split.
  - intros l1 e l2 -> Hl1 He. unfold cache_slot. by rewrite cache_slot_loop_empty.
  - intros Hl. unfold cache_slot. rewrite u32_id by done. apply cache_slot_loop_fresh.
    eapply Forall_impl; [|exact Hl]. cbn. intros e. lia.
Qed.

Definition ex_entry (k x : Z) : cache_entry_t :=
  {| key := k; expire_sec := x; len := 20; payload := replicate 512 0 |}.

(** Slot 0 holds the youngest entry and is given up all the same. *)
Lemma cache_slot_correct_witness :
  cache_slot [ex_entry 1 219; ex_entry 2 130; ex_entry 3 110] 100 = 0%nat.
Proof.
  apply (proj2 (cache_slot_correct [ex_entry 1 219; ex_entry 2 130; ex_entry 3 110] 100 ltac:(by_decide))).
  by_decide.
Defined.

(** *** Behaviour that the comments of the code do not announce *)

(** The names "Aa" and "BB" have the same hash, so a question for the second is
    answered from the cache with the response for the first. *)
Lemma hash_collision_answers_wrong_name :
  let ask := {| from := ex_client 2; dgram := ex_msg 7 1 0x41 0x61 []; uptime := 5000 |} in
  let resp := {| from := ex_up; dgram := ex_msg 7 0x81 0x41 0x61 [1; 2; 3; 4]; uptime := 6000 |} in
  let ask2 := {| from := ex_client 3; dgram := ex_msg 9 1 0x42 0x42 []; uptime := 7000 |} in
  exists st, run ex_start [ask; resp; ask2] =
    Ok ([(ex_up, dgram ask); (ex_client 2, dgram resp);
         (ex_client 3, ex_msg 9 0x81 0x41 0x61 [1; 2; 3; 4])], st).
Proof. eexists. vm_compute. reflexivity. Qed.

(** Two clients that use the same identifier: the response to the second goes
    to the first. *)
Lemma same_txid_misdelivers :
  let ask1 := {| from := ex_client 2; dgram := ex_msg 7 1 0x41 0x61 []; uptime := 5000 |} in
  let ask2 := {| from := ex_client 3; dgram := ex_msg 7 1 0x43 0x43 []; uptime := 5000 |} in
  let resp2 := {| from := ex_up; dgram := ex_msg 7 0x81 0x43 0x43 [1; 2; 3; 4]; uptime := 6000 |} in
  exists st, run ex_start [ask1; ask2; resp2] =
    Ok ([(ex_up, dgram ask1); (ex_up, dgram ask2); (ex_client 2, dgram resp2)], st).
Proof. eexists. vm_compute. reflexivity. Qed.

(** The 32-bit millisecond clock wraps to 0; an entry stored just before is
    then valid for another 49 days. *)
Lemma clock_wrap_keeps_entries :
  let t0 := 2 ^ 32 - 1 in let t1 := 2 ^ 32 + 4000000000 in
  let ask := {| from := ex_client 2; dgram := ex_msg 7 1 0x41 0x61 []; uptime := t0 |} in
  let resp := {| from := ex_up; dgram := ex_msg 7 0x81 0x41 0x61 [1; 2; 3; 4]; uptime := t0 |} in
  let ask2 := {| from := ex_client 2; dgram := ex_msg 8 1 0x41 0x61 []; uptime := t1 |} in
  exists st, run ex_start [ask; resp; ask2] =
    Ok ([(ex_up, dgram ask); (ex_client 2, dgram resp);
         (ex_client 2, ex_msg 8 0x81 0x41 0x61 [1; 2; 3; 4])], st).
Proof. eexists. vm_compute. reflexivity. Qed.

End DnsForwarder.
