(* ===== verification/CStr.v ===== *)
(** C strings: character arrays as octets, with the functions of the C library
    the program calls on them.  Plain [char] is unsigned on the target. *)

From S2P Require Import Prelude.

(** ** String literals *)

Definition hex_val (c : Z) : Z :=
  if decide (48 <= c <= 57) then c - 48
  else if decide (97 <= c <= 102) then c - 87
  else c - 55.

(** The octets of a C literal: [\xHH] is one octet, and a backquote stands for
    the double quote. *)
Fixpoint lit_of (l : list Z) : bytes :=
  match l with
  | [] => []
  | c :: l' =>
      if decide (c = 96) then 34 :: lit_of l'
      else
        match l with
        | 92 :: 120 :: a :: b :: l'' => hex_val a * 16 + hex_val b :: lit_of l''
        | _ => c :: lit_of l'
        end
  end.

Definition octets_of (s : string) : list Z :=
  (fun a => Z.of_N (Ascii.N_of_ascii a)) <$> String.list_ascii_of_string s.

Definition lit (s : string) : bytes := lit_of (octets_of s).

(** ** Contents of an array as a string *)

Fixpoint cstr (b : bytes) : bytes :=
  match b with
  | [] => []
  | c :: b => if decide (c = 0) then [] else c :: cstr b
  end.

(** The array holds a terminated string. *)
Definition terminated (b : bytes) : Prop := 0 ∈ b.
#[global] Instance terminated_dec b : Decision (terminated b).
Proof. unfold terminated. apply _. Defined.

(** Octets that can be the contents of a C string. *)
Definition no_nul (s : bytes) : Prop := Forall (fun c => c <> 0) s.
#[global] Instance no_nul_dec s : Decision (no_nul s).
Proof. unfold no_nul. apply _. Defined.

(** ** Library functions *)

Definition strlen (b : bytes) : outcome Z :=
  if decide (terminated b) then Ok (zlen (cstr b)) else Fail OutOfBounds.

(** [strncpy (dst, src, n)]: copies up to the terminator, pads with zeros. *)
Definition strncpy (dst src : bytes) (n : Z) : outcome bytes :=
  if decide (terminated src \/ n <= zlen src) then
    wrn dst 0 (take (Z.to_nat n) (cstr src ++ replicate (Z.to_nat n) 0))
  else Fail OutOfBounds.

(** [snprintf (dst, size, ...)] of the output [s]: at most [size - 1] octets
    and a terminator; returns the length of [s]. *)
Definition snprintf (dst : bytes) (off size : Z) (s : bytes) : outcome (Z * bytes) :=
  if decide (size <= 0) then Ok (zlen s, dst)
  else b ← wrn dst off (take (Z.to_nat (size - 1)) s ++ [0]); Ok (zlen s, b).

(** The digits of a non-negative number, most significant first. *)
Fixpoint digits_fuel (fuel : nat) (n : Z) (acc : bytes) : bytes :=
  match fuel with
  | O => acc
  | S fuel =>
      let acc := 48 + n mod 10 :: acc in
      if decide (n / 10 = 0) then acc else digits_fuel fuel (n / 10) acc
  end.

(** ["%d"] of a 32-bit integer *)
Definition fmt_d (n : Z) : bytes :=
  if decide (n < 0) then 45 :: digits_fuel 10 (- n) [] else digits_fuel 10 n [].

(** [strstr (hay, needle) != NULL] *)
Fixpoint is_prefix (p l : bytes) : bool :=
  match p, l with
  | [], _ => true
  | a :: p, b :: l => bool_decide (a = b) && is_prefix p l
  | _ :: _, [] => false
  end.
Fixpoint strstr_found (hay needle : bytes) : bool :=
  is_prefix needle hay || match hay with [] => false | _ :: hay => strstr_found hay needle end.

(** [atoi], saturating as the target's [strtol] does. *)
Definition is_digit (c : Z) : bool := bool_decide (48 <= c <= 57).
Definition is_space (c : Z) : bool := bool_decide (c = 32 \/ 9 <= c <= 13).
Fixpoint skip_spaces (s : bytes) : bytes :=
  match s with c :: s' => if is_space c then skip_spaces s' else s | [] => [] end.
Fixpoint digits_val (s : bytes) (v : Z) : Z :=
  match s with
  | c :: s => if is_digit c then digits_val s (v * 10 + (c - 48)) else v
  | [] => v
  end.
Definition atoi (s : bytes) : Z :=
  let s := skip_spaces s in
  let v := match s with
           | 45 :: s => - digits_val s 0
           | 43 :: s => digits_val s 0
           | _ => digits_val s 0
           end in
  Z.max (- 2 ^ 31) (Z.min (2 ^ 31 - 1) v).

(** ** Lemmas *)

Lemma cstr_app s r : no_nul s -> cstr (s ++ 0 :: r) = s.
Proof.
  induction 1 as [|c s Hc Hs IH]; [done|]. cbn. rewrite decide_False by done. by rewrite IH.
Qed.

Lemma cstr_no_nul b : no_nul (cstr b).
Proof. induction b as [|c b IH]; cbn; [constructor|]. case_decide; constructor; done. Qed.

Lemma terminated_app s r : terminated (s ++ 0 :: r).
Proof. unfold terminated. set_solver. Qed.

Lemma terminated_split b : terminated b -> exists r, b = cstr b ++ 0 :: r.
Proof.
  unfold terminated. induction b as [|c b IH]; [by intros ?%elem_of_nil|]. cbn.
  case_decide as Hc; [subst; intros _; by exists b|].
  intros [?|Hin]%elem_of_cons; [done|]. destruct (IH Hin) as [r Hr]. exists r. cbn. by rewrite <- Hr.
Qed.

Lemma cstr_len b : terminated b -> zlen (cstr b) < zlen b.
Proof.
  intros [r Hr]%terminated_split. rewrite Hr at 2. rewrite length_app. cbn. lia.
Qed.

Lemma strlen_Ok b : terminated b -> strlen b = Ok (zlen (cstr b)).
Proof. intros. unfold strlen. by rewrite decide_True. Qed.

Lemma cstr_replicate0 n : cstr (replicate n 0) = [].
Proof. by destruct n. Qed.

Lemma cstr_id s : no_nul s -> cstr s = s.
Proof. induction 1 as [|c s Hc Hs IH]; [done|]. cbn. rewrite decide_False by done. by rewrite IH. Qed.

Lemma cstr_app_nul s r : cstr (s ++ 0 :: r) = cstr s.
Proof. induction s as [|c s IH]; [done|]. cbn. case_decide; [done|]. by rewrite IH. Qed.

Lemma cstr_take_zeros s n k :
  no_nul s -> (k <= n)%nat -> cstr (take k (s ++ replicate n 0)) = take k s.
Proof.
  intros Hs Hk. revert k Hk. induction Hs as [|c s Hc Hs IH]; intros k Hk.
  - cbn [app]. rewrite take_replicate, take_nil. apply cstr_replicate0.
  - destruct k as [|k]; [done|]. cbn. rewrite decide_False by done. rewrite IH by lia. done.
Qed.

Lemma no_nul_take s k : no_nul s -> no_nul (take k s).
Proof. apply Forall_take. Qed.

(** [strncpy (dst, src, n - 1); dst[n - 1] = '\0'] on an array of [n] octets,
    the idiom used everywhere. *)
Lemma strncpy_terminate dst src n :
  0 < n -> zlen dst = n -> terminated src ->
  exists dst', (b ← strncpy dst src (n - 1); wr b (n - 1) 0) = Ok dst' /\
    zlen dst' = n /\ terminated dst' /\ cstr dst' = take (Z.to_nat (n - 1)) (cstr src).
Proof.
  intros Hn Hd Hs. unfold strncpy. rewrite decide_True by tauto.
  set (w := take _ _). assert (Hw : length w = Z.to_nat (n - 1)).
  { subst w. rewrite length_take, length_app, length_replicate. lia. }
  rewrite wrn_Ok by lia. cbn [mbind outcome_bind]. change (Z.to_nat 0) with 0%nat.
  assert (Hsp : splice 0 w dst = w ++ drop (length w) dst) by done.
  destruct (drop (length w) dst) as [|x [|y r]] eqn:Hdr;
    apply (f_equal length) in Hdr as Hl; rewrite length_drop in Hl; cbn in Hl; try lia.
  rewrite Hsp. rewrite wr_Ok by (rewrite length_app; cbn; lia).
  eexists. split; [done|]. rewrite insert_app_r_alt by lia.
  replace (Z.to_nat (n - 1) - length w)%nat with 0%nat by lia. cbn [insert list_insert]. split_and!.
  - rewrite length_app. cbn. lia.
  - apply terminated_app.
  - rewrite cstr_app_nul. subst w. apply cstr_take_zeros; [apply cstr_no_nul|lia].
Qed.

(** ** Formats: ["%s"], ["%d"], ["%ld"] and ["%%"] *)

Inductive arg := AStr (s : bytes) | AInt (n : Z).

Definition arg_text (a : arg) : bytes := match a with AStr s => s | AInt n => fmt_d n end.

(** The output of a format; a conversion without argument ends it. *)
Fixpoint format (f : bytes) (args : list arg) : bytes :=
  match f with
  | [] => []
  | c :: f1 =>
      if decide (c = 37) then
        match f1 with
        | [] => []
        | d :: f2 =>
            if decide (d = 37) then 37 :: format f2 args
            else
              match args with
              | [] => []
              | a :: args =>
                  if decide (d = 108) then
                    match f2 with [] => arg_text a | _ :: f3 => arg_text a ++ format f3 args end
                  else arg_text a ++ format f2 args
              end
        end
      else c :: format f1 args
  end.

Fixpoint args_len (args : list arg) : Z :=
  match args with [] => 0 | a :: args => zlen (arg_text a) + args_len args end.

Lemma args_len_nonneg args : 0 <= args_len args.
Proof. induction args; cbn [args_len]; lia. Qed.

Lemma format_len f args : zlen (format f args) <= zlen f + args_len args.
Proof.
  assert (H : forall n f args, (length f <= n)%nat -> zlen (format f args) <= zlen f + args_len args).
  { clear. induction n as [|n IH]; intros f args Hn.
    - destruct f; [|cbn in Hn; lia]. cbn [format length]. pose proof (args_len_nonneg args). lia.
    - pose proof (args_len_nonneg args). destruct f as [|c f1]; cbn [format]; [cbn [length]; lia|].
      cbn [length] in Hn. case_decide.
      + destruct f1 as [|d f2]; [cbn [length]; lia|]. cbn [length] in Hn. case_decide.
        { cbn [length]. specialize (IH f2 args). lia. }
        destruct args as [|a args]; [cbn [length]; lia|]. cbn [args_len] in *. pose proof (args_len_nonneg args). case_decide.
        * destruct f2 as [|e f3]; [cbn [length]; lia|]. rewrite length_app. cbn [length] in *.
          specialize (IH f3 args). lia.
        * rewrite length_app. specialize (IH f2 args). cbn [length]. lia.
      + cbn [length]. specialize (IH f1 args). lia. }
  by apply (H (length f)).
Qed.

Lemma digits_fuel_range fuel n acc :
  0 <= n -> Forall (fun c => 48 <= c <= 57) acc -> Forall (fun c => 48 <= c <= 57) (digits_fuel fuel n acc).
Proof.
  revert n acc. induction fuel as [|fuel IH]; intros n acc Hn Ha; cbn; [done|].
  assert (Forall (fun c => 48 <= c <= 57) (48 + n mod 10 :: acc)) by (constructor; [zlia|done]).
  case_decide; [done|]. apply IH; [zlia|done].
Qed.

Lemma digits_fuel_len fuel n acc : (length (digits_fuel fuel n acc) <= fuel + length acc)%nat.
Proof.
  revert n acc. induction fuel as [|fuel IH]; intros n acc; cbn; [done|].
  case_decide; [cbn; lia|]. specialize (IH (n / 10) (48 + n mod 10 :: acc)). cbn in IH. lia.
Qed.

Lemma fmt_d_len n : zlen (fmt_d n) <= 11.
Proof.
  unfold fmt_d. case_decide.
  - pose proof (digits_fuel_len 10 (- n) []). cbn [length] in *. lia.
  - pose proof (digits_fuel_len 10 n []). cbn [length] in *. lia.
Qed.

Lemma fmt_d_no_nul n : no_nul (fmt_d n).
Proof.
  unfold fmt_d, no_nul. case_decide.
  - constructor; [done|]. eapply Forall_impl; [|apply digits_fuel_range; [lia|done]]. cbn. lia.
  - eapply Forall_impl; [|apply digits_fuel_range; [lia|done]]. cbn. lia.
Qed.

Lemma format_no_nul f args :
  no_nul f -> Forall (fun a => no_nul (arg_text a)) args -> no_nul (format f args).
Proof.
  assert (H : forall n f args, (length f <= n)%nat -> no_nul f ->
    Forall (fun a => no_nul (arg_text a)) args -> no_nul (format f args)).
  { clear. induction n as [|n IH]; intros f args Hn Hf Ha.
    - destruct f; [constructor|cbn in Hn; lia].
    - destruct f as [|c f1]; cbn [format]; [constructor|]. cbn [length] in Hn.
      apply Forall_cons_1 in Hf as [Hc Hf]. case_decide; [|constructor; [done|apply IH; [lia|done..]]].
      destruct f1 as [|d f2]; [constructor|]. cbn [length] in Hn.
      apply Forall_cons_1 in Hf as [Hd Hf]. case_decide; [constructor; [done|apply IH; [lia|done..]]|].
      destruct args as [|a args]; [constructor|]. apply Forall_cons_1 in Ha as [Ha Has]. case_decide.
      + destruct f2 as [|e f3]; [done|]. apply Forall_cons_1 in Hf as [_ Hf]. cbn [length] in Hn.
        apply Forall_app. split; [done|]. apply IH; [lia|done..].
      + apply Forall_app. split; [done|]. apply IH; [lia|done..]. }
  by apply (H (length f)).
Qed.

(** [snprintf] into an array that is large enough. *)
Lemma snprintf_fits dst size s :
  zlen s < size -> zlen dst = size -> no_nul s ->
  exists b, snprintf dst 0 size s = Ok (zlen s, b) /\ zlen b = size /\ terminated b /\ cstr b = s.
Proof.
  intros Hs Hd Hn. unfold snprintf. rewrite decide_False by lia. rewrite take_ge by lia.
  rewrite wrn_Ok by (rewrite ?length_app; cbn [length]; lia). cbn [mbind outcome_bind].
  eexists. split; [done|]. change (Z.to_nat 0) with 0%nat.
  assert (E : splice 0 (s ++ [0]) dst = s ++ 0 :: drop (length (s ++ [0])) dst)
    by (unfold splice; rewrite take_0, <- app_assoc; done).
  split_and!.
  - rewrite length_splice; [done|]. rewrite length_app. cbn [length]. lia.
  - rewrite E. apply terminated_app.
  - rewrite E. by apply cstr_app.
Qed.

Arguments lit : simpl never.
