(* ===== verification/Settings.v ===== *)
(** Persistent settings: [examples/iperf/main/src/settings.c] and [settings.h].

    Non-volatile storage (ESP-IDF's NVS) is an interface, class [Nvs], with the
    behaviour its documentation promises as laws; [KvNvs] is an implementation
    that satisfies them. *)

From S2P Require Import Prelude CStr.

(** ** The storage interface *)

Inductive nvs_val := VStr (s : bytes) | VU8 (n : Z).

Definition ESP_OK : Z := 0.
Definition NVS_READONLY : Z := 0.
Definition NVS_READWRITE : Z := 1.

(** [nvs_view] is the content of the one namespace the program opens.  A read
    fails and leaves the caller's variable alone unless the key holds a value
    of the type that fits; a write or commit may fail. *)
Class Nvs (S : Type) := {
  nvs_view : S -> gmap string nvs_val;
  nvs_open : Z -> S -> Z;
  nvs_get_str : S -> string -> bytes -> Z -> Z * bytes;
  nvs_get_u8 : S -> string -> Z * Z;
  nvs_set_str : string -> bytes -> S -> Z * S;
  nvs_set_u8 : string -> Z -> S -> Z * S;
  nvs_commit : S -> Z * S;
  nvs_open_view s : nvs_open NVS_READWRITE s = ESP_OK -> nvs_view s <> ∅ ->
    nvs_open NVS_READONLY s = ESP_OK;
  nvs_get_str_ok s k v dst len :
    nvs_view s !! k = Some (VStr v) -> zlen v + 1 <= len ->
    nvs_get_str s k dst len = (ESP_OK, splice 0 (v ++ [0]) dst);
  nvs_get_str_other s k dst len :
    (forall v, nvs_view s !! k = Some (VStr v) -> len < zlen v + 1) ->
    exists err, nvs_get_str s k dst len = (err, dst) /\ err <> ESP_OK;
  nvs_get_u8_ok s k n : nvs_view s !! k = Some (VU8 n) -> is_u8 n -> nvs_get_u8 s k = (ESP_OK, n);
  nvs_get_u8_range s k : fst (nvs_get_u8 s k) = ESP_OK -> is_u8 (snd (nvs_get_u8 s k));
  nvs_set_str_view s k v : no_nul v ->
    nvs_view (snd (nvs_set_str k v s)) =
      (if decide (fst (nvs_set_str k v s) = ESP_OK) then <[k := VStr v]> (nvs_view s) else nvs_view s);
  nvs_set_u8_view s k n : is_u8 n ->
    nvs_view (snd (nvs_set_u8 k n s)) =
      (if decide (fst (nvs_set_u8 k n s) = ESP_OK) then <[k := VU8 n]> (nvs_view s) else nvs_view s);
  nvs_commit_view s : nvs_view (snd (nvs_commit s)) = nvs_view s;
}.

Module Settings.

Definition SETTINGS_NS : string := "bridge".
Definition SETTINGS_MAX_SSID : Z := 32.
Definition SETTINGS_MAX_PASS : Z := 64.
Definition SETTINGS_MAX_COUNTRY : Z := 4.
Definition BUFFER_PRESET_SMALL : Z := 0.
Definition BUFFER_PRESET_MEDIUM : Z := 1.
Definition BUFFER_PRESET_LARGE : Z := 2.
Definition BUFFER_PRESET_1 : Z := BUFFER_PRESET_SMALL.
Definition BUFFER_PRESET_2 : Z := BUFFER_PRESET_MEDIUM.
Definition BUFFER_PRESET_3 : Z := BUFFER_PRESET_LARGE.
Definition LANG_EN : Z := 0.
Definition LANG_ES : Z := 1.
Definition LANG_ZH : Z := 2.

Definition NVS_KEY_HALOW_SSID : string := "h_ssid".
Definition NVS_KEY_HALOW_PASS : string := "h_pass".
Definition NVS_KEY_AP_SSID : string := "ap_ssid".
Definition NVS_KEY_AP_PASS : string := "ap_pass".
Definition NVS_KEY_COUNTRY : string := "country".
Definition NVS_KEY_BUFFER : string := "buffer".
Definition NVS_KEY_LANG : string := "lang".

Definition DEFAULT_HALOW_SSID : bytes := lit "Halow1".
Definition DEFAULT_HALOW_PASS : bytes := lit "letmein111".
Definition DEFAULT_AP_SSID : bytes := lit "XIAO_S3_HALOW".
Definition DEFAULT_AP_PASS : bytes := lit "letmein111".
Definition DEFAULT_COUNTRY : bytes := lit "US".
Definition DEFAULT_BUFFER_PRESET : Z := BUFFER_PRESET_LARGE.
Definition DEFAULT_LANG : Z := LANG_EN.

Record bridge_settings_t := {
  halow_ssid : bytes;
  halow_pass : bytes;
  ap_ssid : bytes;
  ap_pass : bytes;
  country : bytes;
  buffer_preset : Z;
  lang : Z;
}.

(** The default is a literal: its array has a terminator. *)
Definition strncpy_default (dst default_val : bytes) (n : Z) : outcome bytes :=
  if decide (n = 0) then Ok dst
  else b ← strncpy dst (default_val ++ [0]) (n - 1); wr b (n - 1) 0.

(** What [nvs_flash_init] returns. *)
Inductive flash_status := FLASH_OK | ESP_ERR_NVS_NO_FREE_PAGES | ESP_ERR_NVS_NEW_VERSION_FOUND | FLASH_OTHER.

(** [init] and [erase] are [nvs_flash_init] and [nvs_flash_erase]. *)
Definition settings_init {S : Type} (init : S -> flash_status * S) (erase : S -> S) (s : S) : S :=
  let '(err, s) := init s in
  match err with
  | ESP_ERR_NVS_NO_FREE_PAGES | ESP_ERR_NVS_NEW_VERSION_FOUND => snd (init (erase s))
  | _ => s
  end.

Section Ops.
  Context {S : Type} `{!Nvs S}.

Definition settings_defaults (out : bridge_settings_t) : outcome bridge_settings_t :=
    hs ← strncpy_default (halow_ssid out) DEFAULT_HALOW_SSID SETTINGS_MAX_SSID;
    hp ← strncpy_default (halow_pass out) DEFAULT_HALOW_PASS SETTINGS_MAX_PASS;
    as_ ← strncpy_default (ap_ssid out) DEFAULT_AP_SSID SETTINGS_MAX_SSID;
    ap ← strncpy_default (ap_pass out) DEFAULT_AP_PASS SETTINGS_MAX_PASS;
    co ← strncpy_default (country out) DEFAULT_COUNTRY SETTINGS_MAX_COUNTRY;
    Ok {| halow_ssid := hs; halow_pass := hp; ap_ssid := as_; ap_pass := ap; country := co;
          buffer_preset := DEFAULT_BUFFER_PRESET; lang := DEFAULT_LANG |}.

Definition get_str (s : S) (k : string) (dst : bytes) (len : Z) : bytes :=
    snd (nvs_get_str s k dst len).

  (** [if (nvs_get_u8 (...) == ESP_OK && v <= max) field = v] *)
Definition get_u8_max (s : S) (k : string) (max cur : Z) : Z :=
    let (err, v) := nvs_get_u8 s k in
    if decide (err = ESP_OK /\ v <= max) then v else cur.

Definition settings_load (s : S) (out : bridge_settings_t) : outcome bridge_settings_t :=
    out ← settings_defaults out;
    if decide (nvs_open NVS_READONLY s <> ESP_OK) then Ok out else
    Ok {| halow_ssid := get_str s NVS_KEY_HALOW_SSID (halow_ssid out) SETTINGS_MAX_SSID;
          halow_pass := get_str s NVS_KEY_HALOW_PASS (halow_pass out) SETTINGS_MAX_PASS;
          ap_ssid := get_str s NVS_KEY_AP_SSID (ap_ssid out) SETTINGS_MAX_SSID;
          ap_pass := get_str s NVS_KEY_AP_PASS (ap_pass out) SETTINGS_MAX_PASS;
          country := get_str s NVS_KEY_COUNTRY (country out) SETTINGS_MAX_COUNTRY;
          buffer_preset := get_u8_max s NVS_KEY_BUFFER BUFFER_PRESET_3 (buffer_preset out);
          lang := get_u8_max s NVS_KEY_LANG LANG_ZH (lang out) |}.

  (** The results of the [nvs_set_*] calls are not looked at. *)
Definition put_str (k : string) (v : bytes) (s : S) : S := snd (nvs_set_str k (cstr v) s).
Definition put_u8 (k : string) (n : Z) (s : S) : S := snd (nvs_set_u8 k n s).

Definition settings_write (c : bridge_settings_t) (s : S) : S :=
    let s := put_str NVS_KEY_HALOW_SSID (halow_ssid c) s in
    let s := put_str NVS_KEY_HALOW_PASS (halow_pass c) s in
    let s := put_str NVS_KEY_AP_SSID (ap_ssid c) s in
    let s := put_str NVS_KEY_AP_PASS (ap_pass c) s in
    let s := put_str NVS_KEY_COUNTRY (country c) s in
    let s := put_u8 NVS_KEY_BUFFER
               (if decide (buffer_preset c <= BUFFER_PRESET_3) then buffer_preset c
                else DEFAULT_BUFFER_PRESET) s in
    put_u8 NVS_KEY_LANG (if decide (lang c <= LANG_ZH) then lang c else DEFAULT_LANG) s.

Definition settings_save (c : bridge_settings_t) (s : S) : bool * S :=
    if decide (nvs_open NVS_READWRITE s <> ESP_OK) then (false, s) else
    let s := settings_write c s in
    let (err, s) := nvs_commit s in
    (bool_decide (err = ESP_OK), s).
End Ops.

(** ** Well-formed settings *)

(** The arrays have their declared sizes. *)
Record sized (c : bridge_settings_t) : Prop := {
  sz_hs : zlen (halow_ssid c) = SETTINGS_MAX_SSID;
  sz_hp : zlen (halow_pass c) = SETTINGS_MAX_PASS;
  sz_as : zlen (ap_ssid c) = SETTINGS_MAX_SSID;
  sz_ap : zlen (ap_pass c) = SETTINGS_MAX_PASS;
  sz_co : zlen (country c) = SETTINGS_MAX_COUNTRY;
}.

Record wf (c : bridge_settings_t) : Prop := {
  wf_sized : sized c;
  wf_hs : terminated (halow_ssid c);
  wf_hp : terminated (halow_pass c);
  wf_as : terminated (ap_ssid c);
  wf_ap : terminated (ap_pass c);
  wf_co : terminated (country c);
  wf_bp : 0 <= buffer_preset c <= BUFFER_PRESET_LARGE;
  wf_lang : 0 <= lang c <= LANG_ZH;
}.

(** What the settings mean: the strings the arrays hold. *)
Definition meaning (c : bridge_settings_t) : bytes * bytes * bytes * bytes * bytes * Z * Z :=
  (cstr (halow_ssid c), cstr (halow_pass c), cstr (ap_ssid c), cstr (ap_pass c),
   cstr (country c), buffer_preset c, lang c).

(** ** Lemmas *)

Lemma default_ok dst d n :
  0 < n -> zlen dst = n ->
  exists b, strncpy_default dst d n = Ok b /\ zlen b = n /\ terminated b /\
    cstr b = take (Z.to_nat (n - 1)) (cstr (d ++ [0])).
Proof.
  intros Hn Hd. unfold strncpy_default. rewrite decide_False by lia.
  apply strncpy_terminate; [done|done|apply terminated_app].
Qed.

Section Lemmas.
  Context {S : Type} `{!Nvs S}.

Lemma defaults_ok out :
  sized out -> exists c, settings_defaults out = Ok c /\ wf c.
Proof.
  intros [????]. unfold settings_defaults.
  destruct (default_ok (halow_ssid out) DEFAULT_HALOW_SSID SETTINGS_MAX_SSID) as (a & -> & ? & ? & _); [done..|].
  destruct (default_ok (halow_pass out) DEFAULT_HALOW_PASS SETTINGS_MAX_PASS) as (b & -> & ? & ? & _); [done..|].
  destruct (default_ok (ap_ssid out) DEFAULT_AP_SSID SETTINGS_MAX_SSID) as (c & -> & ? & ? & _); [done..|].
  destruct (default_ok (ap_pass out) DEFAULT_AP_PASS SETTINGS_MAX_PASS) as (d & -> & ? & ? & _); [done..|].
  destruct (default_ok (country out) DEFAULT_COUNTRY SETTINGS_MAX_COUNTRY) as (e & -> & ? & ? & _); [done..|].
  cbn [mbind outcome_bind]. eexists. split; [done|]. split; [by split|done..|]; by_decide.
Qed.

(** A successful read replaces the array's string, any other leaves it; both
    keep it terminated and of its size. *)
Lemma get_str_ok (s : S) k dst len :
  zlen dst = len -> terminated dst ->
  zlen (get_str s k dst len) = len /\ terminated (get_str s k dst len) /\
  (forall v, nvs_view s !! k = Some (VStr v) -> zlen v + 1 <= len -> no_nul v ->
     cstr (get_str s k dst len) = v).
Proof.
  intros Hl Ht. unfold get_str.
  destruct (nvs_view s !! k) as [[v|n]|] eqn:Hk.
  1: destruct (decide (zlen v + 1 <= len)) as [Hv|Hv].
  - rewrite (nvs_get_str_ok s k v) by done. cbn [snd].
    assert (Hsp : splice 0 (v ++ [0]) dst = v ++ 0 :: drop (length (v ++ [0])) dst).
    { unfold splice. rewrite take_0, <- app_assoc. done. }
    split_and!.
    + rewrite length_splice; [done|]. rewrite length_app. cbn. lia.
    + rewrite Hsp. apply terminated_app.
    + intros v' [= <-] _ Hno. rewrite Hsp. by apply cstr_app.
  - destruct (nvs_get_str_other s k dst len) as (err & -> & _).
    { rewrite Hk. intros v' [= <-]. lia. }
    split_and!; [done..|]. intros v' [= <-]. lia.
  - destruct (nvs_get_str_other s k dst len) as (err & -> & _); [by rewrite Hk|].
    split_and!; done.
  - destruct (nvs_get_str_other s k dst len) as (err & -> & _); [by rewrite Hk|].
    split_and!; done.
Qed.

Lemma get_u8_max_ok (s : S) k max cur :
  0 <= cur <= max ->
  0 <= get_u8_max s k max cur <= max /\
  (forall n, nvs_view s !! k = Some (VU8 n) -> 0 <= n < 256 -> n <= max ->
     get_u8_max s k max cur = n).
Proof.
  intros Hc. unfold get_u8_max. split.
  - pose proof (nvs_get_u8_range s k) as Hr. destruct (nvs_get_u8 s k) as [err v]. cbn in Hr.
    case_decide as Hd; [|done]. destruct Hd as [-> Hd]. specialize (Hr eq_refl). zlia.
  - intros n Hk Hn0 Hn. rewrite (nvs_get_u8_ok s k n Hk) by zlia. by rewrite decide_True.
Qed.

Lemma load_ok (s : S) out :
  sized out -> exists c, settings_load s out = Ok c /\ wf c.
Proof.
  intros Hsz. unfold settings_load. destruct (defaults_ok out Hsz) as (c & -> & Hwf).
  cbn [mbind outcome_bind]. case_decide; [by exists c|]. eexists. split; [done|].
  destruct Hwf as [[] ???????].
  pose proof (get_str_ok s NVS_KEY_HALOW_SSID (halow_ssid c) SETTINGS_MAX_SSID) as (? & ? & _); [done..|].
  pose proof (get_str_ok s NVS_KEY_HALOW_PASS (halow_pass c) SETTINGS_MAX_PASS) as (? & ? & _); [done..|].
  pose proof (get_str_ok s NVS_KEY_AP_SSID (ap_ssid c) SETTINGS_MAX_SSID) as (? & ? & _); [done..|].
  pose proof (get_str_ok s NVS_KEY_AP_PASS (ap_pass c) SETTINGS_MAX_PASS) as (? & ? & _); [done..|].
  pose proof (get_str_ok s NVS_KEY_COUNTRY (country c) SETTINGS_MAX_COUNTRY) as (? & ? & _); [done..|].
  split; cbn; [by split|done..| |]; by apply get_u8_max_ok.
Qed.

(** What a store holds after settings were written with no failing write. *)
Definition saved_view (c : bridge_settings_t) (v : gmap string nvs_val) : Prop :=
  v !! NVS_KEY_HALOW_SSID = Some (VStr (cstr (halow_ssid c))) /\
  v !! NVS_KEY_HALOW_PASS = Some (VStr (cstr (halow_pass c))) /\
  v !! NVS_KEY_AP_SSID = Some (VStr (cstr (ap_ssid c))) /\
  v !! NVS_KEY_AP_PASS = Some (VStr (cstr (ap_pass c))) /\
  v !! NVS_KEY_COUNTRY = Some (VStr (cstr (country c))) /\
  v !! NVS_KEY_BUFFER = Some (VU8 (buffer_preset c)) /\
  v !! NVS_KEY_LANG = Some (VU8 (lang c)).

(** A store with room: there every write succeeds and leaves room. *)
Definition roomy (Room : S -> Prop) : Prop :=
  (forall k v s, Room s -> fst (nvs_set_str k v s) = ESP_OK /\ Room (snd (nvs_set_str k v s))) /\
  (forall k n s, Room s -> fst (nvs_set_u8 k n s) = ESP_OK /\ Room (snd (nvs_set_u8 k n s))).

Lemma put_str_view Room (s : S) k v :
  roomy Room -> Room s ->
  nvs_view (put_str k v s) = <[k := VStr (cstr v)]> (nvs_view s) /\ Room (put_str k v s).
Proof.
  intros [Hok _] Hs. destruct (Hok k (cstr v) s Hs) as [Hr Hs']. split; [|done].
  unfold put_str. rewrite nvs_set_str_view by apply cstr_no_nul. by rewrite decide_True.
Qed.

Lemma put_u8_view Room (s : S) k n :
  roomy Room -> Room s -> is_u8 n ->
  nvs_view (put_u8 k n s) = <[k := VU8 n]> (nvs_view s) /\ Room (put_u8 k n s).
Proof.
  intros [_ Hok] Hs Hn. destruct (Hok k n s Hs) as [Hr Hs']. split; [|done].
  unfold put_u8. rewrite nvs_set_u8_view by done. by rewrite decide_True.
Qed.

Lemma write_view Room c (s : S) :
  wf c -> roomy Room -> Room s -> saved_view c (nvs_view (settings_write c s)).
Proof.
  intros [] Hr H0. unfold settings_write, BUFFER_PRESET_3.
  unfold BUFFER_PRESET_LARGE, LANG_ZH in *. rewrite !decide_True by lia.
  destruct (put_str_view Room s NVS_KEY_HALOW_SSID (halow_ssid c) Hr H0) as [V1 H1].
  destruct (put_str_view Room _ NVS_KEY_HALOW_PASS (halow_pass c) Hr H1) as [V2 H2].
  destruct (put_str_view Room _ NVS_KEY_AP_SSID (ap_ssid c) Hr H2) as [V3 H3].
  destruct (put_str_view Room _ NVS_KEY_AP_PASS (ap_pass c) Hr H3) as [V4 H4].
  destruct (put_str_view Room _ NVS_KEY_COUNTRY (country c) Hr H4) as [V5 H5].
  destruct (put_u8_view Room _ NVS_KEY_BUFFER (buffer_preset c) Hr H5) as [V6 H6]; [zlia|].
  destruct (put_u8_view Room _ NVS_KEY_LANG (lang c) Hr H6) as [V7 _]; [zlia|].
  rewrite V7, V6, V5, V4, V3, V2, V1. unfold saved_view. split_and!; by simplify_map_eq.
Qed.

Lemma load_saved c (s : S) out :
  wf c -> sized out -> nvs_open NVS_READONLY s = ESP_OK -> saved_view c (nvs_view s) ->
  exists c', settings_load s out = Ok c' /\ meaning c' = meaning c.
Proof.
  intros Hwf Hsz Hopen (H1 & H2 & H3 & H4 & H5 & H6 & H7). unfold settings_load.
  destruct (defaults_ok out Hsz) as (d & -> & Hd). cbn [mbind outcome_bind].
  rewrite decide_False by (intros []; done). eexists. split; [done|].
  destruct Hwf as [[] ???????]. destruct Hd as [[] ???????]. unfold meaning.
  cbn [halow_ssid halow_pass ap_ssid ap_pass country buffer_preset lang].
  assert (Hstr : forall k dst len v, zlen dst = len -> terminated dst -> zlen v = len -> terminated v ->
    nvs_view s !! k = Some (VStr (cstr v)) -> cstr (get_str s k dst len) = cstr v).
  { intros k dst len v ?? Hv Ht Hk. apply get_str_ok; [done..| |apply cstr_no_nul].
    pose proof (cstr_len v Ht). lia. }
  rewrite (Hstr _ _ _ _ sz_hs1 wf_hs1 sz_hs0 wf_hs0 H1), (Hstr _ _ _ _ sz_hp1 wf_hp1 sz_hp0 wf_hp0 H2),
    (Hstr _ _ _ _ sz_as1 wf_as1 sz_as0 wf_as0 H3), (Hstr _ _ _ _ sz_ap1 wf_ap1 sz_ap0 wf_ap0 H4),
    (Hstr _ _ _ _ sz_co1 wf_co1 sz_co0 wf_co0 H5).
  destruct (get_u8_max_ok s NVS_KEY_BUFFER BUFFER_PRESET_3 (buffer_preset d)) as [_ Hb]; [done|].
  destruct (get_u8_max_ok s NVS_KEY_LANG LANG_ZH (lang d)) as [_ Hl]; [done|].
  unfold BUFFER_PRESET_3, BUFFER_PRESET_LARGE, LANG_ZH in *.
  rewrite (Hb _ H6), (Hl _ H7) by lia. done.
Qed.
End Lemmas.

(** ** Properties *)

(** C20: whatever the storage holds and whatever the caller's structure held,
    [settings_load] succeeds without a write outside the arrays and leaves
    every string terminated inside its array, the preset and the language in
    range. *)
Theorem settings_load_wf {S} `{!Nvs S} (s : S) out :
  sized out -> exists c, settings_load s out = Ok c /\ wf c.
Proof. apply load_ok. Qed.

(** ** An implementation of the interface *)

Record kv := { kv_map : gmap string nvs_val; kv_full : bool }.
Definition ESP_ERR : Z := -1.

Definition kv_put (k : string) (v : nvs_val) (s : kv) : Z * kv :=
  if kv_full s then (ESP_ERR, s)
  else (ESP_OK, {| kv_map := <[k := v]> (kv_map s); kv_full := kv_full s |}).

#[global] Instance KvNvs : Nvs kv.
Proof.
  refine {|
    nvs_view := kv_map;
    nvs_open := fun mode s =>
      if decide (mode = NVS_READONLY /\ kv_map s = ∅) then ESP_ERR else ESP_OK;
    nvs_get_str := fun s k dst len =>
      match kv_map s !! k with
      | Some (VStr v) => if decide (zlen v + 1 <= len) then (ESP_OK, splice 0 (v ++ [0]) dst)
                         else (ESP_ERR, dst)
      | _ => (ESP_ERR, dst)
      end;
    nvs_get_u8 := fun s k =>
      match kv_map s !! k with
      | Some (VU8 n) => if decide (is_u8 n) then (ESP_OK, n) else (ESP_ERR, 0)
      | _ => (ESP_ERR, 0)
      end;
    nvs_set_str := fun k v => kv_put k (VStr v);
    nvs_set_u8 := fun k n => kv_put k (VU8 n);
    nvs_commit := fun s => (ESP_OK, s) |}.
  - intros s _ Hne. cbn. rewrite decide_False; [done|]. by intros [_ ?].
  - intros s k v dst len Hk Hl. cbn. rewrite Hk. by rewrite decide_True.
  - intros s k dst len Ho. cbn in *. destruct (kv_map s !! k) as [[v|n]|]; [|by eexists..].
    rewrite decide_False by (specialize (Ho v eq_refl); lia). by eexists.
  - intros s k n Hk Hn. cbn in *. rewrite Hk. by rewrite decide_True.
  - intros s k. cbn. destruct (kv_map s !! k) as [[v|n]|]; [done| |done]. by case_decide.
  - intros s k v _. unfold kv_put. by destruct (kv_full s).
  - intros s k n _. unfold kv_put. by destruct (kv_full s).
  - done.
Defined.

Definition ex_out : bridge_settings_t :=
  {| halow_ssid := replicate 32 0xa5; halow_pass := replicate 64 0xa5;
     ap_ssid := replicate 32 0xa5; ap_pass := replicate 64 0xa5; country := replicate 4 0xa5;
     buffer_preset := 0xa5; lang := 0xa5 |}.

Lemma ex_out_sized : sized ex_out.
Proof. by constructor. Qed.

Definition ex_settings : bridge_settings_t :=
  {| halow_ssid := lit "mesh" ++ replicate 28 0; halow_pass := lit "p&ss" ++ replicate 60 0;
     ap_ssid := lit "ap" ++ replicate 30 0; ap_pass := replicate 64 0;
     country := lit "EU" ++ [0; 0]; buffer_preset := 1; lang := 2 |}.

Lemma ex_settings_wf : wf ex_settings.
Proof. constructor; [by constructor|by_decide..]. Qed.

Lemma settings_load_wf_witness :
  exists c, settings_load {| kv_map := {[NVS_KEY_LANG := VU8 200]}; kv_full := false |} ex_out = Ok c /\
    wf c.
Proof.
  apply (settings_load_wf {| kv_map := {[NVS_KEY_LANG := VU8 200]}; kv_full := false |} ex_out).
  apply ex_out_sized.
Defined.

(** A storage that never fills up. *)
Definition ex_empty : kv := {| kv_map := ∅; kv_full := false |}.

Lemma save_then_load {S} `{!Nvs S} (Room : S -> Prop) (s s' : S) c out :
  wf c -> sized out -> roomy Room -> Room s -> nvs_open NVS_READWRITE s' = ESP_OK ->
  settings_save c s = (true, s') ->
  exists c', settings_load s' out = Ok c' /\ meaning c' = meaning c.
Proof.
  intros Hwf Hsz Hroomy Hroom Hopen. unfold settings_save. case_decide; [done|].
  pose proof (nvs_commit_view (settings_write c s)) as Hc.
  destruct (nvs_commit (settings_write c s)) as [err s1]. cbn in Hc. intros [= _ <-].
  assert (Hv : saved_view c (nvs_view s1)) by (rewrite Hc; by apply (write_view Room)).
  apply load_saved; try done. apply nvs_open_view; [done|].
  intros He. destruct Hv as [Hv _]. rewrite He in Hv. done.
Qed.

(** C4: in a store with room for the writes, loading what was saved gives back
    the same strings, preset and language. *)
Theorem settings_save_load {S} `{!Nvs S} (Room : S -> Prop) (s s' : S) c out :
  wf c -> sized out -> roomy Room -> Room s -> nvs_open NVS_READWRITE s' = ESP_OK ->
  settings_save c s = (true, s') ->
  exists c', settings_load s' out = Ok c' /\ meaning c' = meaning c.
Proof. apply save_then_load. Qed.

Lemma settings_save_load_witness :
  exists c', settings_load (snd (settings_save ex_settings ex_empty)) ex_out = Ok c' /\
    meaning c' = meaning ex_settings.
Proof.
  apply (settings_save_load (fun s => kv_full s = false) ex_empty).
  - apply ex_settings_wf.
  - apply ex_out_sized.
  - split; intros k v s Hs; cbn; unfold kv_put; by rewrite Hs.
  - reflexivity.
  - reflexivity.
  - reflexivity.
Defined.

(** [settings_save] reports success whenever the namespace opens and the
    final commit succeeds: the results of the seven writes do not matter. *)
Theorem settings_save_result {S} `{!Nvs S} (s : S) c :
  fst (settings_save c s) =
    bool_decide (nvs_open NVS_READWRITE s = ESP_OK /\
                 fst (nvs_commit (settings_write c s)) = ESP_OK).
Proof.
  unfold settings_save. case_decide as Ho.
  - rewrite bool_decide_false; [done|]. by intros [? _].
  - destruct (nvs_commit _) as [err s1]. cbn. apply bool_decide_ext.
    naive_solver.
Qed.

(** On a full partition nothing is stored and the result is still success. *)
Lemma full_storage_reports_success :
  settings_save ex_settings {| kv_map := ∅; kv_full := true |} =
    (true, {| kv_map := ∅; kv_full := true |}).
Proof. reflexivity. Qed.

End Settings.
