(* ===== verification/RegDb.v ===== *)
(** Regulatory data: the types of [framework/morselib/include/mmwlan.h], the
    lookup by country code, and the database of
    [framework/src/mmregdb/mmregdb.c], entry by entry. *)

From S2P Require Import Prelude CStr.

(** ** Types and lookup *)

Module Reg.

Record mmwlan_s1g_channel := ch {
  centre_freq_hz : Z;
  duty_cycle_sta : Z;
  duty_cycle_omit_ctrl_resp : bool;
  global_operating_class : Z;
  s1g_operating_class : Z;
  s1g_chan_num : Z;
  bw_mhz : Z;
  max_tx_eirp_dbm : Z;
  pkt_spacing_us : Z;
  airtime_min_us : Z;
  airtime_max_us : Z;
}.

#[global] Instance mmwlan_s1g_channel_eq_dec : EqDecision mmwlan_s1g_channel.
Proof. solve_decision. Defined.

(** [channels] is what the pointer points at, to the end of its array. *)
Record mmwlan_s1g_channel_list := {
  country_code : bytes;
  num_channels : Z;
  channels : list mmwlan_s1g_channel;
}.

Record mmwlan_regulatory_db := { num_domains : Z; domains : list mmwlan_s1g_channel_list }.

(** The loop over the domains; [n] turns. *)
Fixpoint lookup_loop (n : nat) (ii : Z) (db : mmwlan_regulatory_db) (cc : bytes)
  : outcome (option mmwlan_s1g_channel_list) :=
  match n with
  | O => Ok None
  | S n =>
      match domains db !! Z.to_nat ii with
      | None => Fail OutOfBounds
      | Some l =>
          a0 ← rd (country_code l) 0; c0 ← rd cc 0;
          if decide (a0 = c0) then
            a1 ← rd (country_code l) 1; c1 ← rd cc 1;
            if decide (a1 = c1) then Ok (Some l) else lookup_loop n (ii + 1) db cc
          else lookup_loop n (ii + 1) db cc
      end
  end.

Definition mmwlan_lookup_regulatory_domain (db : option mmwlan_regulatory_db) (cc : bytes)
  : outcome (option mmwlan_s1g_channel_list) :=
  match db with
  | None => Ok None
  | Some db => lookup_loop (Z.to_nat (num_domains db)) 0 db cc
  end.

(** ** What makes a database good *)

(** The starting frequency of a channel: its number counts steps of 0.5 MHz. *)
Definition start_freq (c : mmwlan_s1g_channel) : Z := centre_freq_hz c - 500000 * s1g_chan_num c.

(** Two channels of one list: the operating class fixes bandwidth and starting
    frequency, and class and number identify the channel. *)
Definition compatible (c c' : mmwlan_s1g_channel) : bool :=
  bool_decide (s1g_operating_class c = s1g_operating_class c' ->
    bw_mhz c = bw_mhz c' /\ start_freq c = start_freq c' /\
    global_operating_class c = global_operating_class c' /\
    (s1g_chan_num c = s1g_chan_num c' -> c = c')).

(** Fields in the range of their C types, and sensible. *)
Definition channel_ok (c : mmwlan_s1g_channel) : bool :=
  bool_decide (0 <= centre_freq_hz c < 2 ^ 32 /\ 0 < duty_cycle_sta c <= 10000 /\
    -1 <= global_operating_class c < 2 ^ 15 /\ -1 <= s1g_operating_class c < 2 ^ 15 /\
    0 <= s1g_chan_num c < 256 /\ bw_mhz c ∈ [1; 2; 4; 8] /\
    - 128 <= max_tx_eirp_dbm c < 128 /\ airtime_min_us c <= airtime_max_us c).

Definition listed (l : mmwlan_s1g_channel_list) : list mmwlan_s1g_channel :=
  take (Z.to_nat (num_channels l)) (channels l).

Definition list_ok (l : mmwlan_s1g_channel_list) : bool :=
  bool_decide (length (country_code l) = 3%nat /\ 0 < num_channels l <= zlen (channels l)) &&
  forallb channel_ok (listed l) &&
  forallb (fun c => forallb (compatible c) (listed l)) (listed l).

Definition db_ok (db : mmwlan_regulatory_db) : bool :=
  bool_decide (num_domains db = zlen (domains db) /\
    NoDup (take 2 ∘ country_code <$> domains db)) && forallb list_ok (domains db).

(** ** Lemmas *)

Lemma list_ok_channels l c c' :
  list_ok l = true -> c ∈ listed l -> c' ∈ listed l ->
  s1g_operating_class c = s1g_operating_class c' ->
  bw_mhz c = bw_mhz c' /\ start_freq c = start_freq c' /\
  (s1g_chan_num c = s1g_chan_num c' -> c = c').
Proof.
  intros [_ Hp]%andb_prop Hc Hc' He. rewrite forallb_forall in Hp.
  apply list_elem_of_In in Hc, Hc'. specialize (Hp c Hc). rewrite forallb_forall in Hp.
  specialize (Hp c' Hc'). unfold compatible in Hp. apply bool_decide_eq_true_1 in Hp. naive_solver.
Qed.

Lemma list_ok_code l : list_ok l = true -> exists a b z, country_code l = [a; b; z].
Proof.
  intros [[[Hl _]%bool_decide_eq_true_1 _]%andb_prop _]%andb_prop.
  destruct (country_code l) as [|a [|b [|z []]]]; try done. eauto.
Qed.

Lemma db_ok_list db l : db_ok db = true -> l ∈ domains db -> list_ok l = true.
Proof.
  intros [_ Hf]%andb_prop Hl. rewrite forallb_forall in Hf. apply Hf. by apply list_elem_of_In.
Qed.

Lemma lookup_loop_spec n db a b r ds1 ds2 :
  domains db = ds1 ++ ds2 -> length ds2 = n -> Forall (fun l => list_ok l = true) ds2 ->
  (lookup_loop n (zlen ds1) db (a :: b :: r) = Ok None /\
     Forall (fun l => take 2 (country_code l) <> [a; b]) ds2) \/
  (exists l, lookup_loop n (zlen ds1) db (a :: b :: r) = Ok (Some l) /\ l ∈ ds2 /\
     take 2 (country_code l) = [a; b]).
Proof.
  revert ds1 ds2. induction n as [|n IH]; intros ds1 ds2 Hdb Hn Hok.
  { left. destruct ds2; [|done]. done. }
  destruct ds2 as [|l ds2]; [done|]. apply Forall_cons_1 in Hok as [Hl Hok]. cbn [lookup_loop].
  rewrite Nat2Z.id, Hdb, list_lookup_middle by done.
  destruct (list_ok_code l Hl) as (x & y & z & Hcc). rewrite Hcc.
  change (rd [x; y; z] 0) with (Ok x). change (rd [x; y; z] 1) with (Ok y).
  change (rd (a :: b :: r) 0) with (Ok a). change (rd (a :: b :: r) 1) with (Ok b).
  cbn [mbind outcome_bind].
  assert (Hnext : take 2 (country_code l) <> [a; b] ->
    (lookup_loop n (zlen ds1 + 1) db (a :: b :: r) = Ok None /\
       Forall (fun l => take 2 (country_code l) <> [a; b]) (l :: ds2)) \/
    (exists l', lookup_loop n (zlen ds1 + 1) db (a :: b :: r) = Ok (Some l') /\ l' ∈ l :: ds2 /\
       take 2 (country_code l') = [a; b])).
  { intros Hne. destruct (IH (ds1 ++ [l]) ds2) as [[E Hf]|(l' & E & Hin & Ht)].
    - by rewrite Hdb, <- app_assoc.
    - by injection Hn.
    - done.
    - left. split; [|by constructor]. rewrite <- E. f_equal. rewrite length_app. cbn. lia.
    - right. exists l'. split_and!; [|set_solver|done]. rewrite <- E. f_equal.
      rewrite length_app. cbn. lia. }
  rewrite Hcc in Hnext. cbn [take firstn] in Hnext.
  destruct (decide (x = a)) as [->|]; [destruct (decide (y = b)) as [->|]|].
  - right. exists l. rewrite Hcc. split_and!; [done|set_solver|done].
  - apply Hnext. congruence.
  - apply Hnext. congruence.
Qed.

Lemma lookup_on_good_db db a b r :
  db_ok db = true ->
  exists res, mmwlan_lookup_regulatory_domain (Some db) (a :: b :: r) = Ok res /\
    (forall l, res = Some l <-> l ∈ domains db /\ take 2 (country_code l) = [a; b]).
Proof.
  intros Hok. pose proof Hok as [[Hn Hnd]%bool_decide_eq_true_1 Hf]%andb_prop.
  assert (Hall : Forall (fun l => list_ok l = true) (domains db)).
  { apply list.Forall_forall. intros l Hl. by apply (db_ok_list db). }
  unfold mmwlan_lookup_regulatory_domain. rewrite Hn, Nat2Z.id.
  destruct (lookup_loop_spec (length (domains db)) db a b r [] (domains db) eq_refl eq_refl Hall)
    as [[E Hno]|(l & E & Hin & Ht)]; cbn [length] in E; change (Z.of_nat 0) with 0 in E; rewrite E; eexists; (split; [done|]).
  - intros l'. split; [done|]. intros [Hin Ht]. exfalso.
    rewrite list.Forall_forall in Hno. by apply (Hno l').
  - intros l'. split; [by intros [= <-]|]. intros [Hin' Ht']. f_equal.
    apply list_elem_of_lookup in Hin as [i Hi], Hin' as [j Hj].
    assert (i = j) as ->; [|congruence].
    apply (proj1 (NoDup_alt _) Hnd i j (take 2 (country_code l))).
    + by rewrite list_lookup_fmap, Hi.
    + rewrite list_lookup_fmap, Hj. cbn. unfold compose. by rewrite Ht, Ht'.
Qed.

(** On a good database the lookup of any country code string finishes within
    the database and returns the one domain whose code has the same two
    letters, or NULL when there is none. *)
Theorem mmwlan_lookup_regulatory_domain_correct db a b r :
  db_ok db = true ->
  exists res, mmwlan_lookup_regulatory_domain (Some db) (a :: b :: r) = Ok res /\
    (forall l, res = Some l <-> l ∈ domains db /\ take 2 (country_code l) = [a; b]).
Proof. apply lookup_on_good_db. Qed.

Definition ex_list (s : string) : mmwlan_s1g_channel_list :=
  {| country_code := lit s ++ [0]; num_channels := 1;
     channels := [ch 902500000 10000 false 68 1 1 1 30 0 0 0] |}.
Definition ex_db : mmwlan_regulatory_db :=
  {| num_domains := 2; domains := [ex_list "XA"; ex_list "XB"] |}.

Lemma mmwlan_lookup_regulatory_domain_correct_witness :
  exists res, mmwlan_lookup_regulatory_domain (Some ex_db) [88; 66; 0] = Ok res /\
    (forall l, res = Some l <-> l ∈ domains ex_db /\ take 2 (country_code l) = [88; 66]).
Proof. apply (mmwlan_lookup_regulatory_domain_correct ex_db 88 66 [0]). reflexivity. Defined.

End Reg.

(** ** The database of mmregdb.c *)

Module RegDb.
Import Reg.

Definition s1g_channels_AU : list mmwlan_s1g_channel := [
  ch 915500000 10000 false 68 22 27 1 30 0 0 0;
  ch 916500000 10000 false 68 22 29 1 30 0 0 0;
  ch 917500000 10000 false 68 22 31 1 30 0 0 0;
  ch 918500000 10000 false 68 22 33 1 30 0 0 0;
  ch 919500000 10000 false 68 22 35 1 30 0 0 0;
  ch 920500000 10000 false 68 22 37 1 30 0 0 0;
  ch 921500000 10000 false 68 22 39 1 30 0 0 0;
  ch 922500000 10000 false 68 22 41 1 30 0 0 0;
  ch 923500000 10000 false 68 22 43 1 30 0 0 0;
  ch 924500000 10000 false 68 22 45 1 30 0 0 0;
  ch 925500000 10000 false 68 22 47 1 30 0 0 0;
  ch 926500000 10000 false 68 22 49 1 30 0 0 0;
  ch 927500000 10000 false 68 22 51 1 30 0 0 0;
  ch 917000000 10000 false 69 23 30 2 30 0 0 0;
  ch 919000000 10000 false 69 23 34 2 30 0 0 0;
  ch 921000000 10000 false 69 23 38 2 30 0 0 0;
  ch 923000000 10000 false 69 23 42 2 30 0 0 0;
  ch 925000000 10000 false 69 23 46 2 30 0 0 0;
  ch 927000000 10000 false 69 23 50 2 30 0 0 0;
  ch 918000000 10000 false 70 24 32 4 30 0 0 0;
  ch 922000000 10000 false 70 24 40 4 30 0 0 0;
  ch 926000000 10000 false 70 24 48 4 30 0 0 0;
  ch 924000000 10000 false 71 25 44 8 30 0 0 0;
  ch 916000000 10000 false 50 22 28 1 30 0 0 0;
  ch 917000000 10000 false 50 22 30 1 30 0 0 0;
  ch 918000000 10000 false 50 22 32 1 30 0 0 0;
  ch 919000000 10000 false 50 22 34 1 30 0 0 0;
  ch 920000000 10000 false 50 22 36 1 30 0 0 0;
  ch 921000000 10000 false 50 22 38 1 30 0 0 0;
  ch 922000000 10000 false 50 22 40 1 30 0 0 0;
  ch 923000000 10000 false 50 22 42 1 30 0 0 0;
  ch 924000000 10000 false 50 22 44 1 30 0 0 0;
  ch 925000000 10000 false 50 22 46 1 30 0 0 0;
  ch 926000000 10000 false 50 22 48 1 30 0 0 0;
  ch 927000000 10000 false 50 22 50 1 30 0 0 0;
  ch 916500000 10000 false 51 23 29 2 30 0 0 0;
  ch 918500000 10000 false 51 23 33 2 30 0 0 0;
  ch 920500000 10000 false 51 23 37 2 30 0 0 0;
  ch 922500000 10000 false 51 23 41 2 30 0 0 0;
  ch 924500000 10000 false 51 23 45 2 30 0 0 0;
  ch 926500000 10000 false 51 23 49 2 30 0 0 0;
  ch 917500000 10000 false 52 24 31 4 30 0 0 0;
  ch 921500000 10000 false 52 24 39 4 30 0 0 0;
  ch 925500000 10000 false 52 24 47 4 30 0 0 0;
  ch 919500000 10000 false 53 25 35 8 30 0 0 0;
  ch 923500000 10000 false 53 25 43 8 30 0 0 0;
  ch 919500000 10000 false 48 39 51 4 30 0 0 0;
  ch 923500000 10000 false 48 39 59 4 30 0 0 0;
  ch 921500000 10000 false 49 40 55 8 30 0 0 0
].

Definition s1g_channel_list_au_80211_2020 : mmwlan_s1g_channel_list :=
  {| country_code := lit "AU" ++ [0]; num_channels := 23;
     channels := s1g_channels_AU |}.

Definition s1g_channel_list_au_80211_2024 : mmwlan_s1g_channel_list :=
  {| country_code := lit "AU" ++ [0]; num_channels := 23;
     channels := drop 23 s1g_channels_AU |}.

Definition s1g_channel_list_au_80211_revmf : mmwlan_s1g_channel_list :=
  {| country_code := lit "AU" ++ [0]; num_channels := 26;
     channels := drop 23 s1g_channels_AU |}.

Definition s1g_channels_CA : list mmwlan_s1g_channel := [
  ch 902500000 10000 false 68 1 1 1 36 0 0 0;
  ch 903500000 10000 false 68 1 3 1 36 0 0 0;
  ch 904500000 10000 false 68 1 5 1 36 0 0 0;
  ch 905500000 10000 false 68 1 7 1 36 0 0 0;
  ch 906500000 10000 false 68 1 9 1 36 0 0 0;
  ch 907500000 10000 false 68 1 11 1 36 0 0 0;
  ch 908500000 10000 false 68 1 13 1 36 0 0 0;
  ch 909500000 10000 false 68 1 15 1 36 0 0 0;
  ch 910500000 10000 false 68 1 17 1 36 0 0 0;
  ch 911500000 10000 false 68 1 19 1 36 0 0 0;
  ch 912500000 10000 false 68 1 21 1 36 0 0 0;
  ch 913500000 10000 false 68 1 23 1 36 0 0 0;
  ch 914500000 10000 false 68 1 25 1 36 0 0 0;
  ch 915500000 10000 false 68 1 27 1 36 0 0 0;
  ch 916500000 10000 false 68 1 29 1 36 0 0 0;
  ch 917500000 10000 false 68 1 31 1 36 0 0 0;
  ch 918500000 10000 false 68 1 33 1 36 0 0 0;
  ch 919500000 10000 false 68 1 35 1 36 0 0 0;
  ch 920500000 10000 false 68 1 37 1 36 0 0 0;
  ch 921500000 10000 false 68 1 39 1 36 0 0 0;
  ch 922500000 10000 false 68 1 41 1 36 0 0 0;
  ch 923500000 10000 false 68 1 43 1 36 0 0 0;
  ch 924500000 10000 false 68 1 45 1 36 0 0 0;
  ch 925500000 10000 false 68 1 47 1 36 0 0 0;
  ch 926500000 10000 false 68 1 49 1 36 0 0 0;
  ch 927500000 10000 false 68 1 51 1 36 0 0 0;
  ch 903000000 10000 false 69 2 2 2 36 0 0 0;
  ch 905000000 10000 false 69 2 6 2 36 0 0 0;
  ch 907000000 10000 false 69 2 10 2 36 0 0 0;
  ch 909000000 10000 false 69 2 14 2 36 0 0 0;
  ch 911000000 10000 false 69 2 18 2 36 0 0 0;
  ch 913000000 10000 false 69 2 22 2 36 0 0 0;
  ch 915000000 10000 false 69 2 26 2 36 0 0 0;
  ch 917000000 10000 false 69 2 30 2 36 0 0 0;
  ch 919000000 10000 false 69 2 34 2 36 0 0 0;
  ch 921000000 10000 false 69 2 38 2 36 0 0 0;
  ch 923000000 10000 false 69 2 42 2 36 0 0 0;
  ch 925000000 10000 false 69 2 46 2 36 0 0 0;
  ch 927000000 10000 false 69 2 50 2 36 0 0 0;
  ch 906000000 10000 false 70 3 8 4 36 0 0 0;
  ch 910000000 10000 false 70 3 16 4 36 0 0 0;
  ch 914000000 10000 false 70 3 24 4 36 0 0 0;
  ch 918000000 10000 false 70 3 32 4 36 0 0 0;
  ch 922000000 10000 false 70 3 40 4 36 0 0 0;
  ch 926000000 10000 false 70 3 48 4 36 0 0 0;
  ch 908000000 10000 false 71 4 12 8 36 0 0 0;
  ch 916000000 10000 false 71 4 28 8 36 0 0 0;
  ch 924000000 10000 false 71 4 44 8 36 0 0 0
].

Definition s1g_channel_list_CA : mmwlan_s1g_channel_list :=
  {| country_code := lit "CA" ++ [0]; num_channels := zlen s1g_channels_CA;
     channels := s1g_channels_CA |}.

Definition s1g_channels_EU : list mmwlan_s1g_channel := [
  ch 863500000 280 false 66 6 1 1 16 0 0 0;
  ch 864500000 280 false 66 6 3 1 16 0 0 0;
  ch 865500000 280 false 66 6 5 1 16 0 0 0;
  ch 866500000 280 false 66 6 7 1 16 0 0 0;
  ch 867500000 280 false 66 6 9 1 16 0 0 0;
  ch 864000000 280 false 67 7 2 2 16 0 0 0;
  ch 866000000 280 false 67 7 6 2 16 0 0 0
].

Definition s1g_channel_list_EU : mmwlan_s1g_channel_list :=
  {| country_code := lit "EU" ++ [0]; num_channels := zlen s1g_channels_EU;
     channels := s1g_channels_EU |}.

Definition s1g_channels_GB : list mmwlan_s1g_channel := [
  ch 863500000 280 false 66 6 1 1 16 0 0 0;
  ch 864500000 280 false 66 6 3 1 16 0 0 0;
  ch 865500000 280 false 66 6 5 1 16 0 0 0;
  ch 866500000 280 false 66 6 7 1 16 0 0 0;
  ch 867500000 280 false 66 6 9 1 16 0 0 0;
  ch 864000000 280 false 67 7 2 2 16 0 0 0;
  ch 866000000 280 false 67 7 6 2 16 0 0 0;
  ch 917900000 280 false 77 30 33 1 16 0 0 0;
  ch 918900000 280 false 77 30 35 1 16 0 0 0
].

Definition s1g_channel_list_GB : mmwlan_s1g_channel_list :=
  {| country_code := lit "GB" ++ [0]; num_channels := zlen s1g_channels_GB;
     channels := s1g_channels_GB |}.

Definition s1g_channels_IN : list mmwlan_s1g_channel := [
  ch 865500000 280 false 66 6 5 1 16 0 0 0;
  ch 866500000 280 false 66 6 7 1 16 0 0 0;
  ch 867500000 280 false 66 6 9 1 16 0 0 0
].

Definition s1g_channel_list_IN : mmwlan_s1g_channel_list :=
  {| country_code := lit "IN" ++ [0]; num_channels := zlen s1g_channels_IN;
     channels := s1g_channels_IN |}.

Definition s1g_channels_JP : list mmwlan_s1g_channel := [
  ch 921000000 1000 true 73 8 9 1 16 2000 2000 100000;
  ch 923000000 1000 true 73 8 13 1 16 2000 2000 100000;
  ch 924000000 1000 true 73 8 15 1 16 2000 2000 100000;
  ch 925000000 1000 true 73 8 17 1 16 2000 2000 100000;
  ch 926000000 1000 true 73 8 19 1 16 2000 2000 100000;
  ch 927000000 1000 true 73 8 21 1 16 2000 2000 100000;
  ch 923500000 1000 true 64 9 2 2 16 2000 2000 100000;
  ch 924500000 1000 true 64 10 4 2 16 2000 2000 100000;
  ch 925500000 1000 true 64 9 6 2 16 2000 2000 100000;
  ch 926500000 1000 true 64 10 8 2 16 2000 2000 100000;
  ch 924500000 1000 true 65 11 36 4 16 2000 2000 100000;
  ch 925500000 1000 true 65 12 38 4 16 2000 2000 100000
].

Definition s1g_channel_list_JP : mmwlan_s1g_channel_list :=
  {| country_code := lit "JP" ++ [0]; num_channels := zlen s1g_channels_JP;
     channels := s1g_channels_JP |}.

Definition s1g_channels_KR : list mmwlan_s1g_channel := [
  ch 918000000 10000 false 74 14 1 1 4 50000 0 4000000;
  ch 919000000 10000 false 74 14 3 1 4 50000 0 4000000;
  ch 920000000 10000 false 74 14 5 1 4 50000 0 4000000;
  ch 921000000 10000 false 74 14 7 1 4 50000 0 4000000;
  ch 922000000 10000 false 74 14 9 1 10 50000 0 4000000;
  ch 923000000 10000 false 74 14 11 1 10 50000 0 4000000;
  ch 918500000 10000 false 75 15 2 2 4 50000 0 4000000;
  ch 920500000 10000 false 75 15 6 2 4 50000 0 4000000;
  ch 922500000 10000 false 75 15 10 2 10 50000 0 4000000;
  ch 921500000 10000 false 76 16 8 4 4 50000 0 4000000;
  ch 926500000 10000 false 74 14 18 1 17 264 0 220000;
  ch 927500000 10000 false 74 14 20 1 17 264 0 220000;
  ch 928500000 10000 false 74 14 22 1 17 264 0 220000;
  ch 929500000 10000 false 74 14 24 1 17 264 0 220000;
  ch 927000000 10000 false 75 15 19 2 20 264 0 220000;
  ch 929000000 10000 false 75 15 23 2 20 264 0 220000
].

Definition s1g_channel_list_KR : mmwlan_s1g_channel_list :=
  {| country_code := lit "KR" ++ [0]; num_channels := zlen s1g_channels_KR;
     channels := s1g_channels_KR |}.

Definition s1g_channels_NZ : list mmwlan_s1g_channel := [
  ch 915500000 10000 false 68 26 27 1 30 0 0 0;
  ch 916500000 10000 false 68 26 29 1 30 0 0 0;
  ch 917500000 10000 false 68 26 31 1 30 0 0 0;
  ch 918500000 10000 false 68 26 33 1 30 0 0 0;
  ch 919500000 10000 false 68 26 35 1 30 0 0 0;
  ch 920500000 10000 false 68 26 37 1 36 0 0 0;
  ch 921500000 10000 false 68 26 39 1 36 0 0 0;
  ch 922500000 10000 false 68 26 41 1 36 0 0 0;
  ch 923500000 10000 false 68 26 43 1 36 0 0 0;
  ch 924500000 10000 false 68 26 45 1 36 0 0 0;
  ch 925500000 10000 false 68 26 47 1 36 0 0 0;
  ch 926500000 10000 false 68 26 49 1 36 0 0 0;
  ch 927500000 10000 false 68 26 51 1 36 0 0 0;
  ch 917000000 10000 false 69 27 30 2 30 0 0 0;
  ch 919000000 10000 false 69 27 34 2 30 0 0 0;
  ch 921000000 10000 false 69 27 38 2 36 0 0 0;
  ch 923000000 10000 false 69 27 42 2 36 0 0 0;
  ch 925000000 10000 false 69 27 46 2 36 0 0 0;
  ch 927000000 10000 false 69 27 50 2 36 0 0 0;
  ch 918000000 10000 false 70 28 32 4 30 0 0 0;
  ch 922000000 10000 false 70 28 40 4 36 0 0 0;
  ch 926000000 10000 false 70 28 48 4 36 0 0 0;
  ch 924000000 10000 false 71 29 44 8 36 0 0 0
].

Definition s1g_channel_list_NZ : mmwlan_s1g_channel_list :=
  {| country_code := lit "NZ" ++ [0]; num_channels := zlen s1g_channels_NZ;
     channels := s1g_channels_NZ |}.

Definition s1g_channels_US : list mmwlan_s1g_channel := [
  ch 902500000 10000 false 68 1 1 1 36 0 0 0;
  ch 903500000 10000 false 68 1 3 1 36 0 0 0;
  ch 904500000 10000 false 68 1 5 1 36 0 0 0;
  ch 905500000 10000 false 68 1 7 1 36 0 0 0;
  ch 906500000 10000 false 68 1 9 1 36 0 0 0;
  ch 907500000 10000 false 68 1 11 1 36 0 0 0;
  ch 908500000 10000 false 68 1 13 1 36 0 0 0;
  ch 909500000 10000 false 68 1 15 1 36 0 0 0;
  ch 910500000 10000 false 68 1 17 1 36 0 0 0;
  ch 911500000 10000 false 68 1 19 1 36 0 0 0;
  ch 912500000 10000 false 68 1 21 1 36 0 0 0;
  ch 913500000 10000 false 68 1 23 1 36 0 0 0;
  ch 914500000 10000 false 68 1 25 1 36 0 0 0;
  ch 915500000 10000 false 68 1 27 1 36 0 0 0;
  ch 916500000 10000 false 68 1 29 1 36 0 0 0;
  ch 917500000 10000 false 68 1 31 1 36 0 0 0;
  ch 918500000 10000 false 68 1 33 1 36 0 0 0;
  ch 919500000 10000 false 68 1 35 1 36 0 0 0;
  ch 920500000 10000 false 68 1 37 1 36 0 0 0;
  ch 921500000 10000 false 68 1 39 1 36 0 0 0;
  ch 922500000 10000 false 68 1 41 1 36 0 0 0;
  ch 923500000 10000 false 68 1 43 1 36 0 0 0;
  ch 924500000 10000 false 68 1 45 1 36 0 0 0;
  ch 925500000 10000 false 68 1 47 1 36 0 0 0;
  ch 926500000 10000 false 68 1 49 1 36 0 0 0;
  ch 927500000 10000 false 68 1 51 1 36 0 0 0;
  ch 903000000 10000 false 69 2 2 2 36 0 0 0;
  ch 905000000 10000 false 69 2 6 2 36 0 0 0;
  ch 907000000 10000 false 69 2 10 2 36 0 0 0;
  ch 909000000 10000 false 69 2 14 2 36 0 0 0;
  ch 911000000 10000 false 69 2 18 2 36 0 0 0;
  ch 913000000 10000 false 69 2 22 2 36 0 0 0;
  ch 915000000 10000 false 69 2 26 2 36 0 0 0;
  ch 917000000 10000 false 69 2 30 2 36 0 0 0;
  ch 919000000 10000 false 69 2 34 2 36 0 0 0;
  ch 921000000 10000 false 69 2 38 2 36 0 0 0;
  ch 923000000 10000 false 69 2 42 2 36 0 0 0;
  ch 925000000 10000 false 69 2 46 2 36 0 0 0;
  ch 927000000 10000 false 69 2 50 2 36 0 0 0;
  ch 906000000 10000 false 70 3 8 4 36 0 0 0;
  ch 910000000 10000 false 70 3 16 4 36 0 0 0;
  ch 914000000 10000 false 70 3 24 4 36 0 0 0;
  ch 918000000 10000 false 70 3 32 4 36 0 0 0;
  ch 922000000 10000 false 70 3 40 4 36 0 0 0;
  ch 926000000 10000 false 70 3 48 4 36 0 0 0;
  ch 908000000 10000 false 71 4 12 8 36 0 0 0;
  ch 916000000 10000 false 71 4 28 8 36 0 0 0;
  ch 924000000 10000 false 71 4 44 8 36 0 0 0
].

Definition s1g_channel_list_US : mmwlan_s1g_channel_list :=
  {| country_code := lit "US" ++ [0]; num_channels := zlen s1g_channels_US;
     channels := s1g_channels_US |}.

(** The Australian list that is compiled in by default. *)
Definition MM_REGDB_DEFAULT_S1G_CHANNEL_LIST_AU : mmwlan_s1g_channel_list :=
  s1g_channel_list_au_80211_revmf.

Definition regulatory_db_domains : list mmwlan_s1g_channel_list := [
  MM_REGDB_DEFAULT_S1G_CHANNEL_LIST_AU;
  s1g_channel_list_CA;
  s1g_channel_list_EU;
  s1g_channel_list_GB;
  s1g_channel_list_IN;
  s1g_channel_list_JP;
  s1g_channel_list_KR;
  s1g_channel_list_NZ;
  s1g_channel_list_US
].

Definition regulatory_db : mmwlan_regulatory_db :=
  {| num_domains := zlen regulatory_db_domains; domains := regulatory_db_domains |}.

Definition get_regulatory_db : option mmwlan_regulatory_db := Some regulatory_db.

(** Octets of a country code as used by the lookup. *)
Definition code (s : string) : bytes := lit s ++ [0].

(** the database is consistent: every domain lists at least one channel and
    no more than its array holds (the Australian lists are parts of one
    array), every field fits its C type, an operating class has one bandwidth
    and one starting frequency, with channel numbers counting 0.5 MHz steps
    from it, no channel is listed twice, and no two domains share a code. *)
Theorem regulatory_db_consistent :
  db_ok regulatory_db = true /\
  list_ok s1g_channel_list_au_80211_2020 = true /\
  list_ok s1g_channel_list_au_80211_2024 = true.
Proof. vm_compute. done. Qed.

Lemma mmwlan_lookup_example :
  mmwlan_lookup_regulatory_domain get_regulatory_db (code "US") = Ok (Some s1g_channel_list_US) /\
  mmwlan_lookup_regulatory_domain get_regulatory_db (code "SG") = Ok None.
Proof. vm_compute. done. Qed.

End RegDb.
