(* ===== verification/RegDbDef.v ===== *)
(** The regulatory database the application compiles in:
    [framework/morselib/include/mmwlan_regdb.def], entry by entry. *)

From S2P Require Import Prelude CStr RegDb.
Import Reg.

Module RegDbDef.

Definition s1g_channels_AU : list mmwlan_s1g_channel := [
  ch 915500000 10000 false 68 22 27 1 30 0 0 0;
  ch 916500000 10000 false 68 22 29 1 30 0 0 0;
  ch 917500000 10000 false 68 22 31 1 30 0 0 0;
  ch 918500000 10000 false 68 22 33 1 30 0 0 0;
  ch 919500000 10000 false 68 22 35 1 30 0 0 0;
  ch 920500000 10000 false 68 22 37 1 30 0 0 0;
  ch 921500000 10000 false 68 22 39 1 30 0 0 0;
  ch 922500000 10000 false 68 22 41 1 30 0 0 0;
  ch 923500000 10000 false 68 22 43 1 30 0 0 0;
  ch 924500000 10000 false 68 22 45 1 30 0 0 0;
  ch 925500000 10000 false 68 22 47 1 30 0 0 0;
  ch 926500000 10000 false 68 22 49 1 30 0 0 0;
  ch 927500000 10000 false 68 22 51 1 30 0 0 0;
  ch 917000000 10000 false 69 23 30 2 30 0 0 0;
  ch 919000000 10000 false 69 23 34 2 30 0 0 0;
  ch 921000000 10000 false 69 23 38 2 30 0 0 0;
  ch 923000000 10000 false 69 23 42 2 30 0 0 0;
  ch 925000000 10000 false 69 23 46 2 30 0 0 0;
  ch 927000000 10000 false 69 23 50 2 30 0 0 0;
  ch 918000000 10000 false 70 24 32 4 30 0 0 0;
  ch 922000000 10000 false 70 24 40 4 30 0 0 0;
  ch 926000000 10000 false 70 24 48 4 30 0 0 0;
  ch 924000000 10000 false 71 25 44 8 30 0 0 0
].

Definition s1g_channel_list_AU : mmwlan_s1g_channel_list :=
  {| country_code := lit "AU" ++ [0]; num_channels := zlen s1g_channels_AU;
     channels := s1g_channels_AU |}.

Definition s1g_channels_EU : list mmwlan_s1g_channel := [
  ch 863500000 280 false 66 6 1 1 16 0 0 0;
  ch 864500000 280 false 66 6 3 1 16 0 0 0;
  ch 865500000 280 false 66 6 5 1 16 0 0 0;
  ch 866500000 280 false 66 6 7 1 16 0 0 0;
  ch 867500000 280 false 66 6 9 1 16 0 0 0
].

Definition s1g_channel_list_EU : mmwlan_s1g_channel_list :=
  {| country_code := lit "EU" ++ [0]; num_channels := zlen s1g_channels_EU;
     channels := s1g_channels_EU |}.

Definition s1g_channels_IN : list mmwlan_s1g_channel := [
  ch 865500000 280 false 66 6 5 1 16 0 0 0;
  ch 866500000 280 false 66 6 7 1 16 0 0 0;
  ch 867500000 280 false 66 6 9 1 16 0 0 0
].

Definition s1g_channel_list_IN : mmwlan_s1g_channel_list :=
  {| country_code := lit "IN" ++ [0]; num_channels := zlen s1g_channels_IN;
     channels := s1g_channels_IN |}.

Definition s1g_channels_JP : list mmwlan_s1g_channel := [
  ch 921000000 1000 true 73 8 9 1 16 2000 2000 100000;
  ch 923000000 1000 true 73 8 13 1 16 2000 2000 100000;
  ch 924000000 1000 true 73 8 15 1 16 2000 2000 100000;
  ch 925000000 1000 true 73 8 17 1 16 2000 2000 100000;
  ch 926000000 1000 true 73 8 19 1 16 2000 2000 100000;
  ch 927000000 1000 true 73 8 21 1 16 2000 2000 100000;
  ch 923500000 1000 true 64 9 2 2 16 2000 2000 100000;
  ch 924500000 1000 true 64 10 4 2 16 2000 2000 100000;
  ch 925500000 1000 true 64 9 6 2 16 2000 2000 100000;
  ch 926500000 1000 true 64 10 8 2 16 2000 2000 100000;
  ch 924500000 1000 true 65 11 36 4 16 2000 2000 100000;
  ch 925500000 1000 true 65 12 38 4 16 2000 2000 100000
].

Definition s1g_channel_list_JP : mmwlan_s1g_channel_list :=
  {| country_code := lit "JP" ++ [0]; num_channels := zlen s1g_channels_JP;
     channels := s1g_channels_JP |}.

Definition s1g_channels_KR : list mmwlan_s1g_channel := [
  ch 918000000 10000 false 74 14 1 1 4 50000 0 4000000;
  ch 919000000 10000 false 74 14 3 1 4 50000 0 4000000;
  ch 920000000 10000 false 74 14 5 1 4 50000 0 4000000;
  ch 921000000 10000 false 74 14 7 1 4 50000 0 4000000;
  ch 922000000 10000 false 74 14 9 1 10 50000 0 4000000;
  ch 923000000 10000 false 74 14 11 1 10 50000 0 4000000;
  ch 918500000 10000 false 75 15 2 2 4 50000 0 4000000;
  ch 920500000 10000 false 75 15 6 2 4 50000 0 4000000;
  ch 922500000 10000 false 75 15 10 2 10 50000 0 4000000;
  ch 921500000 10000 false 76 16 8 4 4 50000 0 4000000;
  ch 926500000 10000 false 74 14 18 1 17 264 0 220000;
  ch 927500000 10000 false 74 14 20 1 17 264 0 220000;
  ch 928500000 10000 false 74 14 22 1 17 264 0 220000;
  ch 929500000 10000 false 74 14 24 1 17 264 0 220000;
  ch 927000000 10000 false 75 15 19 2 20 264 0 220000;
  ch 929000000 10000 false 75 15 23 2 20 264 0 220000
].

Definition s1g_channel_list_KR : mmwlan_s1g_channel_list :=
  {| country_code := lit "KR" ++ [0]; num_channels := zlen s1g_channels_KR;
     channels := s1g_channels_KR |}.

Definition s1g_channels_NZ : list mmwlan_s1g_channel := [
  ch 915500000 10000 false 68 26 27 1 30 0 0 0;
  ch 916500000 10000 false 68 26 29 1 30 0 0 0;
  ch 917500000 10000 false 68 26 31 1 30 0 0 0;
  ch 918500000 10000 false 68 26 33 1 30 0 0 0;
  ch 919500000 10000 false 68 26 35 1 30 0 0 0;
  ch 920500000 10000 false 68 26 37 1 36 0 0 0;
  ch 921500000 10000 false 68 26 39 1 36 0 0 0;
  ch 922500000 10000 false 68 26 41 1 36 0 0 0;
  ch 923500000 10000 false 68 26 43 1 36 0 0 0;
  ch 924500000 10000 false 68 26 45 1 36 0 0 0;
  ch 925500000 10000 false 68 26 47 1 36 0 0 0;
  ch 926500000 10000 false 68 26 49 1 36 0 0 0;
  ch 927500000 10000 false 68 26 51 1 36 0 0 0;
  ch 917000000 10000 false 69 27 30 2 30 0 0 0;
  ch 919000000 10000 false 69 27 34 2 30 0 0 0;
  ch 921000000 10000 false 69 27 38 2 36 0 0 0;
  ch 923000000 10000 false 69 27 42 2 36 0 0 0;
  ch 925000000 10000 false 69 27 46 2 36 0 0 0;
  ch 927000000 10000 false 69 27 50 2 36 0 0 0;
  ch 918000000 10000 false 70 28 32 4 30 0 0 0;
  ch 922000000 10000 false 70 28 40 4 36 0 0 0;
  ch 926000000 10000 false 70 28 48 4 36 0 0 0;
  ch 924000000 10000 false 71 29 44 8 36 0 0 0
].

Definition s1g_channel_list_NZ : mmwlan_s1g_channel_list :=
  {| country_code := lit "NZ" ++ [0]; num_channels := zlen s1g_channels_NZ;
     channels := s1g_channels_NZ |}.

Definition s1g_channels_SG : list mmwlan_s1g_channel := [
  ch 866500000 277 false 66 17 7 1 29 100000 0 1000000;
  ch 867500000 277 false 66 17 9 1 29 100000 0 1000000;
  ch 868500000 277 false 66 17 11 1 29 100000 0 1000000;
  ch 868000000 277 false 67 19 10 2 29 100000 0 1000000;
  ch 920500000 10000 false 68 18 37 1 22 0 0 0;
  ch 921500000 10000 false 68 18 39 1 22 0 0 0;
  ch 922500000 10000 false 68 18 41 1 22 0 0 0;
  ch 923500000 10000 false 68 18 43 1 22 0 0 0;
  ch 924500000 10000 false 68 18 45 1 22 0 0 0;
  ch 921000000 10000 false 69 20 38 2 22 0 0 0;
  ch 923000000 10000 false 69 20 42 2 22 0 0 0;
  ch 922000000 10000 false 70 21 40 4 22 0 0 0
].

Definition s1g_channel_list_SG : mmwlan_s1g_channel_list :=
  {| country_code := lit "SG" ++ [0]; num_channels := zlen s1g_channels_SG;
     channels := s1g_channels_SG |}.

Definition s1g_channels_US : list mmwlan_s1g_channel := [
  ch 902500000 10000 false 68 1 1 1 36 0 0 0;
  ch 903500000 10000 false 68 1 3 1 36 0 0 0;
  ch 904500000 10000 false 68 1 5 1 36 0 0 0;
  ch 905500000 10000 false 68 1 7 1 36 0 0 0;
  ch 906500000 10000 false 68 1 9 1 36 0 0 0;
  ch 907500000 10000 false 68 1 11 1 36 0 0 0;
  ch 908500000 10000 false 68 1 13 1 36 0 0 0;
  ch 909500000 10000 false 68 1 15 1 36 0 0 0;
  ch 910500000 10000 false 68 1 17 1 36 0 0 0;
  ch 911500000 10000 false 68 1 19 1 36 0 0 0;
  ch 912500000 10000 false 68 1 21 1 36 0 0 0;
  ch 913500000 10000 false 68 1 23 1 36 0 0 0;
  ch 914500000 10000 false 68 1 25 1 36 0 0 0;
  ch 915500000 10000 false 68 1 27 1 36 0 0 0;
  ch 916500000 10000 false 68 1 29 1 36 0 0 0;
  ch 917500000 10000 false 68 1 31 1 36 0 0 0;
  ch 918500000 10000 false 68 1 33 1 36 0 0 0;
  ch 919500000 10000 false 68 1 35 1 36 0 0 0;
  ch 920500000 10000 false 68 1 37 1 36 0 0 0;
  ch 921500000 10000 false 68 1 39 1 36 0 0 0;
  ch 922500000 10000 false 68 1 41 1 36 0 0 0;
  ch 923500000 10000 false 68 1 43 1 36 0 0 0;
  ch 924500000 10000 false 68 1 45 1 36 0 0 0;
  ch 925500000 10000 false 68 1 47 1 36 0 0 0;
  ch 926500000 10000 false 68 1 49 1 36 0 0 0;
  ch 927500000 10000 false 68 1 51 1 36 0 0 0;
  ch 903000000 10000 false 69 2 2 2 36 0 0 0;
  ch 905000000 10000 false 69 2 6 2 36 0 0 0;
  ch 907000000 10000 false 69 2 10 2 36 0 0 0;
  ch 909000000 10000 false 69 2 14 2 36 0 0 0;
  ch 911000000 10000 false 69 2 18 2 36 0 0 0;
  ch 913000000 10000 false 69 2 22 2 36 0 0 0;
  ch 915000000 10000 false 69 2 26 2 36 0 0 0;
  ch 917000000 10000 false 69 2 30 2 36 0 0 0;
  ch 919000000 10000 false 69 2 34 2 36 0 0 0;
  ch 921000000 10000 false 69 2 38 2 36 0 0 0;
  ch 923000000 10000 false 69 2 42 2 36 0 0 0;
  ch 925000000 10000 false 69 2 46 2 36 0 0 0;
  ch 927000000 10000 false 69 2 50 2 36 0 0 0;
  ch 906000000 10000 false 70 3 8 4 36 0 0 0;
  ch 910000000 10000 false 70 3 16 4 36 0 0 0;
  ch 914000000 10000 false 70 3 24 4 36 0 0 0;
  ch 918000000 10000 false 70 3 32 4 36 0 0 0;
  ch 922000000 10000 false 70 3 40 4 36 0 0 0;
  ch 926000000 10000 false 70 3 48 4 36 0 0 0;
  ch 908000000 10000 false 71 4 12 8 36 0 0 0;
  ch 916000000 10000 false 71 4 28 8 36 0 0 0;
  ch 924000000 10000 false 71 4 44 8 36 0 0 0
].

Definition s1g_channel_list_US : mmwlan_s1g_channel_list :=
  {| country_code := lit "US" ++ [0]; num_channels := zlen s1g_channels_US;
     channels := s1g_channels_US |}.

Definition regulatory_db_domains : list mmwlan_s1g_channel_list := [
  s1g_channel_list_AU;
  s1g_channel_list_EU;
  s1g_channel_list_IN;
  s1g_channel_list_JP;
  s1g_channel_list_KR;
  s1g_channel_list_NZ;
  s1g_channel_list_SG;
  s1g_channel_list_US
].

Definition regulatory_db : mmwlan_regulatory_db :=
  {| num_domains := zlen regulatory_db_domains; domains := regulatory_db_domains |}.

Definition get_regulatory_db : option mmwlan_regulatory_db := Some regulatory_db.

(** The application's database is consistent, in the sense of
    [regulatory_db_consistent]. *)
Theorem app_db_consistent : db_ok regulatory_db = true.
Proof. vm_compute. done. Qed.

(** The codes it knows. *)
Lemma app_db_codes :
  take 2 ∘ country_code <$> domains regulatory_db =
    [lit "AU"; lit "EU"; lit "IN"; lit "JP"; lit "KR"; lit "NZ"; lit "SG"; lit "US"].
Proof. reflexivity. Qed.

End RegDbDef.
