(* ===== verification/LoadConfig.v ===== *)
(** Boot-time configuration: [examples/iperf/main/src/mm_app_loadconfig.c] and
    [mmosal_safer_strcpy] of [framework/morselib/include/mmosal.h].

    The settings structure on the stack is not initialised; its octets are the
    argument [junk]. *)

From S2P Require Import Prelude CStr Settings RegDb RegDbDef.
Import Reg.

Module LoadConfig.
Import Settings.

(** ** [mmosal_safer_strcpy] *)

Definition mmosal_safer_strcpy (dst src : bytes) (size : Z) : outcome (bool * bytes) :=
  if decide (size = 0) then Ok (true, dst) else
  dst ← strncpy dst src size;
  c ← rd dst (size - 1);
  dst ← wr dst (size - 1) 0;
  Ok (bool_decide (c <> 0), dst).

(** ** Data *)

Definition MMWLAN_SSID_MAXLEN : Z := 32.
Definition MMWLAN_PASSPHRASE_MAXLEN : Z := 100.
Definition MMIPAL_IPADDR_STR_MAXLEN : Z := 48.

Inductive mmwlan_security_type := MMWLAN_OPEN | MMWLAN_OWE | MMWLAN_SAE.
Inductive mmipal_addr_mode := MMIPAL_DISABLED | MMIPAL_STATIC | MMIPAL_DHCP | MMIPAL_AUTOIP | MMIPAL_DHCP_OFFLOAD.
Inductive mmipal_ip6_addr_mode := MMIPAL_IP6_DISABLED | MMIPAL_IP6_STATIC | MMIPAL_IP6_AUTOCONFIG | MMIPAL_IP6_DHCP6_STATELESS.

(** The fields of [struct mmwlan_sta_args] that the loader writes. *)
Record mmwlan_sta_args := {
  ssid : bytes;
  ssid_len : Z;
  security_type : mmwlan_security_type;
  passphrase : bytes;
  passphrase_len : Z;
}.

Record mmipal_init_args := {
  mode : mmipal_addr_mode;
  ip_addr : bytes;
  netmask : bytes;
  gateway_addr : bytes;
  ip6_mode : mmipal_ip6_addr_mode;
  ip6_addr : bytes;
}.

Definition COUNTRY_CODE : bytes := lit "US".
Definition SSID : bytes := lit "Halow1".
Definition SAE_PASSPHRASE : bytes := lit "letmein111".
Definition SECURITY_TYPE : mmwlan_security_type := MMWLAN_SAE.
Definition STATIC_LOCAL_IP : bytes := lit "192.168.1.2".
Definition STATIC_GATEWAY : bytes := lit "192.168.1.1".
Definition STATIC_NETMASK : bytes := lit "255.255.255.0".
Definition STATIC_LOCAL_IP6 : bytes := lit "FE80::2".

(** ** Operations *)

Definition load_mmipal_init_args (args : mmipal_init_args) : outcome mmipal_init_args :=
  '(_, ip) ← mmosal_safer_strcpy (ip_addr args) (STATIC_LOCAL_IP ++ [0]) MMIPAL_IPADDR_STR_MAXLEN;
  '(_, nm) ← mmosal_safer_strcpy (netmask args) (STATIC_NETMASK ++ [0]) MMIPAL_IPADDR_STR_MAXLEN;
  '(_, gw) ← mmosal_safer_strcpy (gateway_addr args) (STATIC_GATEWAY ++ [0]) MMIPAL_IPADDR_STR_MAXLEN;
  '(_, ip6) ← mmosal_safer_strcpy (ip6_addr args) (STATIC_LOCAL_IP6 ++ [0]) MMIPAL_IPADDR_STR_MAXLEN;
  Ok {| mode := MMIPAL_DHCP; ip_addr := ip; netmask := nm; gateway_addr := gw;
        ip6_mode := MMIPAL_IP6_AUTOCONFIG; ip6_addr := ip6 |}.

(** [s[0] ? s : default] *)
Definition or_default (s default : bytes) : outcome bytes :=
  c ← rd s 0; Ok (if decide (c <> 0) then s else default ++ [0]).

Section Load.
  Context {S : Type} `{!Nvs S}.

  (** [strval] is the local buffer of 16 octets. *)
Definition load_channel_list (s : S) (junk : bridge_settings_t) (strval : bytes)
    : outcome mmwlan_s1g_channel_list :=
    c ← settings_load s junk;
    src ← or_default (country c) COUNTRY_CODE;
    '(_, strval) ← mmosal_safer_strcpy strval src 16;
    l ← mmwlan_lookup_regulatory_domain RegDbDef.get_regulatory_db strval;
    match l with
    | None => Fail AssertFailed
    | Some l => Ok l
    end.

Definition load_mmwlan_sta_args (s : S) (junk : bridge_settings_t) (args : mmwlan_sta_args)
    : outcome mmwlan_sta_args :=
    c ← settings_load s junk;
    src ← or_default (halow_ssid c) SSID;
    '(_, sd) ← mmosal_safer_strcpy (ssid args) src MMWLAN_SSID_MAXLEN;
    sl ← strlen sd;
    src ← or_default (halow_pass c) SAE_PASSPHRASE;
    '(_, pp) ← mmosal_safer_strcpy (passphrase args) src (MMWLAN_PASSPHRASE_MAXLEN + 1);
    pl ← strlen pp;
    Ok {| ssid := sd; ssid_len := u16 sl; security_type := SECURITY_TYPE;
          passphrase := pp; passphrase_len := u16 pl |}.

  (** The function has an empty body. *)
Definition load_mmwlan_settings (s : S) : S := s.
End Load.

(** ** Lemmas *)

Lemma wr_same b i v : rd b i = Ok v -> wr b i v = Ok b.
Proof.
  intros [Hi Hv]%rd_lookup. pose proof (lookup_lt_Some _ _ _ Hv).
  rewrite wr_Ok by lia. by rewrite list_insert_id.
Qed.

(** A copy into an array of [size] octets: terminated, the source's string cut
    to [size - 1] octets, and the result tells whether it was cut. *)
Lemma safer_strcpy_Ok dst src size :
  0 < size -> zlen dst = size -> terminated src ->
  exists b, mmosal_safer_strcpy dst src size =
      Ok (bool_decide (size <= zlen (cstr src)), b) /\ zlen b = size /\ terminated b /\
    cstr b = take (Z.to_nat (size - 1)) (cstr src).
Proof.
  intros Hn Hd Hs. unfold mmosal_safer_strcpy, strncpy. rewrite decide_False, decide_True by (tauto || lia).
  set (w := take (Z.to_nat size) _). assert (Hw : length w = Z.to_nat size).
  { subst w. rewrite length_take, length_app, length_replicate. lia. }
  rewrite wrn_Ok by lia. cbn [mbind outcome_bind].
  replace (splice (Z.to_nat 0) w dst) with w.
  2: { unfold splice. rewrite take_0, drop_ge by lia. by rewrite app_nil_r. }
  destruct (rd_Ok w (size - 1)) as (c & Hc & Hl); [lia|]. rewrite Hc. cbn [mbind outcome_bind].
  rewrite wr_Ok by lia. cbn [mbind outcome_bind]. eexists. split; [|split; [|split]].
  - do 2 f_equal. apply bool_decide_ext. subst w.
    rewrite lookup_take_lt in Hl by lia. pose proof (cstr_no_nul src) as Hnn.
    destruct (decide (size <= zlen (cstr src))) as [Hle|Hle].
    + rewrite lookup_app_l in Hl by lia. pose proof (Forall_lookup_1 _ _ _ _ Hnn Hl). cbn in *. tauto.
    + rewrite lookup_app_r in Hl by lia. apply lookup_replicate in Hl as [-> _]. lia.
  - rewrite length_insert. lia.
  - apply (list_elem_of_lookup_2 _ (Z.to_nat (size - 1))). apply list_lookup_insert_eq. lia.
  - rewrite insert_take_drop by lia. rewrite cstr_app_nul. subst w. rewrite take_take.
    replace (Z.to_nat (size - 1) `min` Z.to_nat size)%nat with (Z.to_nat (size - 1)) by lia.
    apply cstr_take_zeros; [apply cstr_no_nul|lia].
Qed.

Definition nonempty_or (s default : bytes) : bytes := if decide (s = []) then default else s.

Lemma or_default_Ok a d : terminated a -> no_nul d ->
  exists src, or_default a d = Ok src /\ terminated src /\ cstr src = nonempty_or (cstr a) d.
Proof.
  intros Ha Hd. unfold or_default, nonempty_or. destruct a as [|c a]; [by apply elem_of_nil in Ha|].
  change (rd (c :: a) 0) with (Ok c). cbn [mbind outcome_bind]. eexists. split; [done|].
  cbn [cstr]. destruct (decide (c = 0)) as [->|Hc].
  - split; [apply terminated_app|by apply cstr_app].
  - rewrite (decide_True (P := c <> 0)) by done. split; [done|]. cbn [cstr].
    by rewrite decide_False.
Qed.

Definition app_codes : list bytes :=
  [lit "AU"; lit "EU"; lit "IN"; lit "JP"; lit "KR"; lit "NZ"; lit "SG"; lit "US"].

Lemma app_db_ok : db_ok RegDbDef.regulatory_db = true.
Proof. vm_compute. done. Qed.

(** The octets the lookup looks at are those of the string, when it has two. *)
Lemma first_two b x y : terminated b -> x <> 0 -> y <> 0 ->
  take 2 b = [x; y] <-> take 2 (cstr b) = [x; y].
Proof.
  intros [r Hr]%terminated_split Hx Hy. rewrite Hr at 1.
  destruct (cstr b) as [|c0 [|c1 s]]; cbn; naive_solver.
Qed.

Lemma code_no_nul l : l ∈ domains RegDbDef.regulatory_db ->
  exists x y, take 2 (country_code l) = [x; y] /\ x <> 0 /\ y <> 0 /\ [x; y] ∈ app_codes.
Proof.
  intros Hl. assert (Hall : Forall (fun l => take 2 (country_code l) ∈ app_codes /\
    match take 2 (country_code l) with [x; y] => x <> 0 /\ y <> 0 | _ => False end)
    (domains RegDbDef.regulatory_db)).
  { repeat constructor; by_decide. }
  rewrite list.Forall_forall in Hall. destruct (Hall l Hl) as [Hin Hm].
  destruct (take 2 (country_code l)) as [|x [|y []]]; try done. exists x, y. naive_solver.
Qed.

(** ** Properties *)

Lemma sta_args_load_ok {S} `{!Nvs S} (s : S) junk args :
  sized junk -> zlen (ssid args) = MMWLAN_SSID_MAXLEN ->
  zlen (passphrase args) = MMWLAN_PASSPHRASE_MAXLEN + 1 ->
  exists c a, settings_load s junk = Ok c /\ load_mmwlan_sta_args s junk args = Ok a /\
    terminated (ssid a) /\ zlen (ssid a) = MMWLAN_SSID_MAXLEN /\
    cstr (ssid a) = nonempty_or (cstr (halow_ssid c)) SSID /\ ssid_len a = zlen (cstr (ssid a)) /\
    terminated (passphrase a) /\ zlen (passphrase a) = MMWLAN_PASSPHRASE_MAXLEN + 1 /\
    cstr (passphrase a) = nonempty_or (cstr (halow_pass c)) SAE_PASSPHRASE /\
    passphrase_len a = zlen (cstr (passphrase a)) /\ security_type a = MMWLAN_SAE.
Proof.
  intros Hj Hs Hp. destruct (load_ok s junk Hj) as (c & Hc & Hwf). exists c.
  unfold load_mmwlan_sta_args. rewrite Hc. cbn [mbind outcome_bind]. destruct Hwf as [[] ???????].
  assert (Hcut : forall a d n, zlen a <= n -> terminated a -> zlen d < n ->
    take (Z.to_nat (n - 1)) (nonempty_or (cstr a) d) = nonempty_or (cstr a) d).
  { intros a d n Ha Ht Hd. pose proof (cstr_len a Ht). unfold nonempty_or.
    case_decide; apply take_ge; lia. }
  destruct (or_default_Ok (halow_ssid c) SSID) as (src & -> & Hst & Hsc); [done|by_decide|].
  cbn [mbind outcome_bind].
  destruct (safer_strcpy_Ok (ssid args) src MMWLAN_SSID_MAXLEN) as (sd & -> & Hl & Ht & Hcs); [done..|].
  cbn [mbind outcome_bind]. rewrite strlen_Ok by done. cbn [mbind outcome_bind].
  destruct (or_default_Ok (halow_pass c) SAE_PASSPHRASE) as (src' & -> & Hst' & Hsc'); [done|by_decide|].
  cbn [mbind outcome_bind].
  destruct (safer_strcpy_Ok (passphrase args) src' (MMWLAN_PASSPHRASE_MAXLEN + 1))
    as (pp & -> & Hl' & Ht' & Hcs'); [done..|].
  cbn [mbind outcome_bind]. rewrite strlen_Ok by done. cbn [mbind outcome_bind].
  rewrite Hsc, Hcut in Hcs by (done || (unfold MMWLAN_SSID_MAXLEN, SETTINGS_MAX_SSID in *; lia)).
  rewrite Hsc', Hcut in Hcs' by (done || (unfold MMWLAN_PASSPHRASE_MAXLEN, SETTINGS_MAX_PASS in *; lia)).
  pose proof (cstr_len sd Ht). pose proof (cstr_len pp Ht').
  unfold MMWLAN_SSID_MAXLEN, MMWLAN_PASSPHRASE_MAXLEN in *.
  eexists. split; [done|]. split; [done|]. cbn [ssid ssid_len passphrase passphrase_len security_type].
  rewrite !u16_id by zlia. split_and!; done.
Qed.

(** C21: the station arguments loaded at boot, for every content of the storage:
    both strings are terminated inside their arrays, have the recorded
    lengths, and are the stored string or the default when it is empty. *)
Theorem load_mmwlan_sta_args_correct {S} `{!Nvs S} (s : S) junk args :
  sized junk -> zlen (ssid args) = MMWLAN_SSID_MAXLEN ->
  zlen (passphrase args) = MMWLAN_PASSPHRASE_MAXLEN + 1 ->
  exists c a, settings_load s junk = Ok c /\ load_mmwlan_sta_args s junk args = Ok a /\
    terminated (ssid a) /\ zlen (ssid a) = MMWLAN_SSID_MAXLEN /\
    cstr (ssid a) = nonempty_or (cstr (halow_ssid c)) SSID /\ ssid_len a = zlen (cstr (ssid a)) /\
    terminated (passphrase a) /\ zlen (passphrase a) = MMWLAN_PASSPHRASE_MAXLEN + 1 /\
    cstr (passphrase a) = nonempty_or (cstr (halow_pass c)) SAE_PASSPHRASE /\
    passphrase_len a = zlen (cstr (passphrase a)) /\ security_type a = MMWLAN_SAE.
Proof. apply sta_args_load_ok. Qed.

Definition ex_args : mmwlan_sta_args :=
  {| ssid := replicate 32 7; ssid_len := 0; security_type := MMWLAN_OPEN;
     passphrase := replicate 101 7; passphrase_len := 0 |}.

Lemma load_mmwlan_sta_args_correct_witness :
  exists c a, settings_load ex_empty ex_out = Ok c /\ load_mmwlan_sta_args ex_empty ex_out ex_args = Ok a /\
    terminated (ssid a) /\ zlen (ssid a) = MMWLAN_SSID_MAXLEN /\
    cstr (ssid a) = nonempty_or (cstr (halow_ssid c)) SSID /\ ssid_len a = zlen (cstr (ssid a)) /\
    terminated (passphrase a) /\ zlen (passphrase a) = MMWLAN_PASSPHRASE_MAXLEN + 1 /\
    cstr (passphrase a) = nonempty_or (cstr (halow_pass c)) SAE_PASSPHRASE /\
    passphrase_len a = zlen (cstr (passphrase a)) /\ security_type a = MMWLAN_SAE.
Proof. apply (load_mmwlan_sta_args_correct ex_empty ex_out ex_args); [apply ex_out_sized|done..]. Defined.

(** The channel list loaded at boot, for every content of the storage: the
    list of the domain whose code is the first two letters of the country in
    force ("US" when it is empty); when the database has no such domain the
    assertion fails.  So settings whose country is unknown stop every boot. *)
Theorem load_channel_list_correct {S} `{!Nvs S} (s : S) junk strval :
  sized junk -> zlen strval = 16 ->
  exists c, settings_load s junk = Ok c /\
  let name := nonempty_or (cstr (country c)) COUNTRY_CODE in
  (forall l, load_channel_list s junk strval = Ok l <->
     l ∈ domains RegDbDef.regulatory_db /\ take 2 (country_code l) = take 2 name) /\
  (load_channel_list s junk strval = Fail AssertFailed <-> take 2 name ∉ app_codes).
Proof.
  intros Hj Hs. destruct (load_ok s junk Hj) as (c & Hc & Hwf). exists c. split; [done|].
  intros name. unfold load_channel_list. rewrite Hc. cbn [mbind outcome_bind]. destruct Hwf as [[] ???????].
  destruct (or_default_Ok (country c) COUNTRY_CODE) as (src & -> & Hst & Hsc); [done|by_decide|].
  cbn [mbind outcome_bind].
  destruct (safer_strcpy_Ok strval src 16) as (b & -> & Hl & Ht & Hcs); [done..|].
  cbn [mbind outcome_bind]. fold name in Hsc.
  assert (Hname : cstr b = name).
  { rewrite Hcs, Hsc. apply take_ge. pose proof (cstr_len (country c) wf_co0).
    unfold name, nonempty_or, SETTINGS_MAX_COUNTRY in *. case_decide; [by_decide|lia]. }
  destruct b as [|b0 [|b1 r]]; cbn in Hl; try lia.
  destruct (lookup_on_good_db RegDbDef.regulatory_db b0 b1 r app_db_ok)
    as (res & Hlook & Hres).
  unfold RegDbDef.get_regulatory_db. rewrite Hlook. cbn [mbind outcome_bind].
  assert (Hcode : forall l, l ∈ domains RegDbDef.regulatory_db ->
    take 2 (country_code l) = [b0; b1] <-> take 2 (country_code l) = take 2 name).
  { intros l Hin. destruct (code_no_nul l Hin) as (x & y & -> & Hx & Hy & _).
    pose proof (first_two (b0 :: b1 :: r) x y Ht Hx Hy) as Hft. rewrite Hname in Hft.
    cbn [take firstn] in Hft. clear -Hft. split; intros E.
    - symmetry. apply Hft. by symmetry.
    - symmetry. apply Hft. by symmetry. }
  split.
  - intros l. transitivity (res = Some l); [clear; destruct res; naive_solver|]. rewrite Hres.
    split; intros [Hin E]; (split; [done|]); by apply (Hcode l Hin).
  - transitivity (res = None); [clear; destruct res; naive_solver|]. split.
    + intros -> Hin. unfold app_codes in Hin. rewrite <- RegDbDef.app_db_codes in Hin.
      apply list_elem_of_fmap in Hin as (l & E & Hin). unfold compose in E.
      assert (None = Some l) by (apply Hres; split; [done|]; apply (Hcode l Hin); done). done.
    + intros Hno. destruct res as [l|]; [|done]. exfalso. apply Hno.
      destruct (proj1 (Hres l) eq_refl) as [Hin E]. apply (Hcode l Hin) in E.
      destruct (code_no_nul l Hin) as (x & y & Exy & _ & _ & Hc'). by rewrite <- E, Exy.
Qed.

Lemma load_channel_list_correct_witness :
  let s := snd (settings_save ex_settings ex_empty) in
  exists c, settings_load s ex_out = Ok c /\
  let name := nonempty_or (cstr (country c)) COUNTRY_CODE in
  (forall l, load_channel_list s ex_out (replicate 16 9) = Ok l <->
     l ∈ domains RegDbDef.regulatory_db /\ take 2 (country_code l) = take 2 name) /\
  (load_channel_list s ex_out (replicate 16 9) = Fail AssertFailed <-> take 2 name ∉ app_codes).
Proof.
  apply (load_channel_list_correct (snd (settings_save ex_settings ex_empty)) ex_out (replicate 16 9));
    [apply ex_out_sized|done].
Defined.

(** Settings with the country "GB", which [mmregdb.c] knows and the application's
    database does not, stop the boot. *)
Lemma unknown_country_stops_boot :
  let c := {| halow_ssid := halow_ssid ex_settings; halow_pass := halow_pass ex_settings;
              ap_ssid := ap_ssid ex_settings; ap_pass := ap_pass ex_settings;
              country := lit "GB" ++ [0; 0]; buffer_preset := 1; lang := 0 |} in
  load_channel_list (snd (settings_save c ex_empty)) ex_out (replicate 16 0) = Fail AssertFailed /\
  mmwlan_lookup_regulatory_domain RegDb.RegDb.get_regulatory_db (lit "GB" ++ [0; 0]) =
    Ok (Some RegDb.RegDb.s1g_channel_list_GB).
Proof. vm_compute. done. Qed.

End LoadConfig.
