(* ===== verification/WebText.v ===== *)
(** Texts of the settings page: the strings of the three languages and the
    page's format, from [examples/iperf/main/src/web_config.c]. *)

From S2P Require Import Prelude CStr.

Module WebText.

Record lang_strings := {
  title : bytes; h1 : bytes; label_lang : bytes; saved_msg : bytes; rssi_label : bytes;
  refresh_hint : bytes; label_halow_ssid : bytes; label_halow_pass : bytes;
  label_ap_ssid : bytes; label_ap_pass : bytes; label_country : bytes; label_buffer : bytes;
  buffer_opt1 : bytes; buffer_opt2 : bytes; buffer_opt3 : bytes; hint_reboot : bytes;
  btn_save : bytes; btn_reboot : bytes; rebooting : bytes; credit_prefix : bytes;
}.

Definition lang_en : lang_strings :=
  {| title := lit "HaLow Bridge Settings";
     h1 := lit "HaLow Bridge Settings";
     label_lang := lit "Language";
     saved_msg := lit "Settings saved. Reboot to apply changes.";
     rssi_label := lit "HaLow RSSI:";
     refresh_hint := lit "(refreshes every 15 s)";
     label_halow_ssid := lit "HaLow AP (STA) SSID";
     label_halow_pass := lit "HaLow passphrase";
     label_ap_ssid := lit "2.4 GHz AP SSID";
     label_ap_pass := lit "2.4 GHz AP password";
     label_country := lit "Country code (e.g. US)";
     label_buffer := lit "TCP buffer size";
     buffer_opt1 := lit "Small (16 KB)";
     buffer_opt2 := lit "Medium (32 KB)";
     buffer_opt3 := lit "Large (50 KB)";
     hint_reboot := lit "Buffer size takes effect after reboot.";
     btn_save := lit "Save";
     btn_reboot := lit "Reboot device";
     rebooting := lit "Rebooting...";
     credit_prefix := lit "Built by " |}.

Definition lang_es : lang_strings :=
  {| title := lit "Configuraci\xc3\xb3n Puente HaLow";
     h1 := lit "Configuraci\xc3\xb3n Puente HaLow";
     label_lang := lit "Idioma";
     saved_msg := lit "Configuraci\xc3\xb3n guardada. Reinicie para aplicar cambios.";
     rssi_label := lit "RSSI HaLow:";
     refresh_hint := lit "(se actualiza cada 15 s)";
     label_halow_ssid := lit "SSID AP HaLow (STA)";
     label_halow_pass := lit "Contrase\xc3n\xc3\xb1a HaLow";
     label_ap_ssid := lit "SSID AP 2.4 GHz";
     label_ap_pass := lit "Contrase\xc3n\xc3\xb1a AP 2.4 GHz";
     label_country := lit "C\xc3\xb3digo de pa\xc3\xads (ej. US)";
     label_buffer := lit "Tama\xc3\xb1o de b\xc3\xbafer TCP";
     buffer_opt1 := lit "Peque\xc3\xb1o (16 KB)";
     buffer_opt2 := lit "Mediano (32 KB)";
     buffer_opt3 := lit "Grande (50 KB)";
     hint_reboot := lit "El tama\xc3\xb1o del b\xc3\xbafer tiene efecto tras reiniciar.";
     btn_save := lit "Guardar";
     btn_reboot := lit "Reiniciar dispositivo";
     rebooting := lit "Reiniciando...";
     credit_prefix := lit "Creado por " |}.

Definition lang_zh : lang_strings :=
  {| title := lit "HaLow \xe6\xa2\x81\xe6\x8e\xa5\xe8\xae\xbe\xe7\xbd\xae";
     h1 := lit "HaLow \xe6\xa2\x81\xe6\x8e\xa5\xe8\xae\xbe\xe7\xbd\xae";
     label_lang := lit "\xe8\xaf\xad\xe8\xa8\x80";
     saved_msg := lit "\xe8\xae\xbe\xe7\xbd\xae\xe5\xb7\xb2\xe4\xbf\x9d\xe5\xad\x98\xe3\x80\x82\xe9\x87\x8d\xe5\x90\xaf\xe5\x90\x8e\xe7\x94\x9f\xe6\x95\x88\xe3\x80\x82";
     rssi_label := lit "HaLow RSSI\xef\xbc\x9a";
     refresh_hint := lit "\xef\xbc\x88\xe6\xaf\x8f15\xe7\xa7\x92\xe5\x88\xb7\xe6\x96\xb0\xef\xbc\x89";
     label_halow_ssid := lit "HaLow AP (STA) SSID";
     label_halow_pass := lit "HaLow \xe5\xaf\x86\xe7\xa0\x81";
     label_ap_ssid := lit "2.4 GHz AP SSID";
     label_ap_pass := lit "2.4 GHz AP \xe5\xaf\x86\xe7\xa0\x81";
     label_country := lit "\xe5\x9b\xbd\xe5\xae\xb6\xe4\xbb\xa3\xe7\xa0\x81\xef\xbc\x88\xe5\xa6\x82 US\xef\xbc\x89";
     label_buffer := lit "TCP \xe7\xbc\x93\xe5\x86\xb2\xe5\x8c\xba\xe5\xa4\xa7\xe5\xb0\x8f";
     buffer_opt1 := lit "\xe5\xb0\x8f (16 KB)";
     buffer_opt2 := lit "\xe4\xb8\xad (32 KB)";
     buffer_opt3 := lit "\xe5\xa4\xa7 (50 KB)";
     hint_reboot := lit "\xe7\xbc\x93\xe5\x86\xb2\xe5\x8c\xba\xe5\xa4\xa7\xe5\xb0\x8f\xe9\x87\x8d\xe5\x90\xaf\xe5\x90\x8e\xe7\x94\x9f\xe6\x95\x88\xe3\x80\x82";
     btn_save := lit "\xe4\xbf\x9d\xe5\xad\x98";
     btn_reboot := lit "\xe9\x87\x8d\xe5\x90\xaf\xe8\xae\xbe\xe5\xa4\x87";
     rebooting := lit "\xe6\xad\xa3\xe5\x9c\xa8\xe9\x87\x8d\xe5\x90\xaf...";
     credit_prefix := lit "\xe7\x94\xb1 " |}.

(** [lang_str[LANG_*]] *)
Definition lang_str : list lang_strings := [lang_en; lang_es; lang_zh].

(** The format of the page; [%%] prints one percent sign. *)
Definition page_format : bytes := lit (
  "<!DOCTYPE html><html><head><meta charset=`UTF-8`>" ++
  "<meta name=`viewport` content=`width=device-width,initial-scale=1`>" ++
  "<meta http-equiv=`refresh` content=`15`>" ++
  "<title>%s</title>" ++
  "<style>" ++
  "body{font-family:sans-serif;max-width:420px;margin:1em auto;padding:0 1em;}" ++
  "h1{font-size:1.2em;}" ++
  "label{display:block;margin-top:0.8em;}" ++
  "input,select{width:100%%;box-sizing:border-box;padding:0.4em;}" ++
  ".msg{background:#cfc;padding:0.5em;border-radius:4px;}" ++
  "button{margin-top:1em;margin-right:0.5em;padding:0.5em 1em;}" ++
  ".hint{font-size:0.9em;color:#666;}" ++
  ".credit{font-size:0.85em;color:#888;margin-top:1.5em;}" ++
  "</style></head><body>" ++
  "<h1>%s</h1>" ++
  "<form method=`post` action=`/save` style=`display:inline;margin-right:1em;`>" ++
  "<label style=`display:inline;`>%s <select name=`lang` onchange=`this.form.submit()`>" ++
  "<option value=`0`%s>English</option>" ++
  "<option value=`1`%s>Espa\xc3\xb1ol</option>" ++
  "<option value=`2`%s>\xe4\xb8\xad\xe6\x96\x87</option>" ++
  "</select></label></form>" ++
  "<p><strong>%s</strong> %s <span class=`hint`>%s</span></p>" ++
  "%s" ++
  "<form method=`post` action=`/save`>" ++
  "<input type=`hidden` name=`lang` value=`%d`>" ++
  "<label>%s <input name=`halow_ssid` value=`%s` maxlength=`%d`></label>" ++
  "<label>%s <input type=`password` name=`halow_pass` value=`%s` maxlength=`%d`></label>" ++
  "<label>%s <input name=`ap_ssid` value=`%s` maxlength=`%d`></label>" ++
  "<label>%s <input type=`password` name=`ap_pass` value=`%s` maxlength=`%d`></label>" ++
  "<label>%s <input name=`country` value=`%s` maxlength=`%d` size=`4`></label>" ++
  "<label>%s <select name=`buffer_preset`>" ++
  "<option value=`0`%s>%s</option>" ++
  "<option value=`1`%s>%s</option>" ++
  "<option value=`2`%s>%s</option>" ++
  "</select></label>" ++
  "<p class=`hint`>%s</p>" ++
  "<button type=`submit`>%s</button>" ++
  "</form>" ++
  "<a href=`/reboot`><button type=`button`>%s</button></a>" ++
  "<p class=`credit`>%s<a href=`https://github.com/gtgreenw` target=`_blank` rel=`noopener`>Gavin Greenwood</a></p>" ++
  "</body></html>")%string.

Definition saved_format : bytes := lit "<p class=`msg`>%s</p>".

(** ** Well-formedness of UTF-8 (continuation octets only) *)

Definition is_cont (c : Z) : bool := bool_decide (0x80 <= c < 0xC0).

Fixpoint utf8_ok (s : bytes) : bool :=
  match s with
  | [] => true
  | c :: s1 =>
      if decide (c < 0x80) then utf8_ok s1
      else if decide (0xC2 <= c < 0xE0) then
        match s1 with a :: s2 => is_cont a && utf8_ok s2 | _ => false end
      else if decide (0xE0 <= c < 0xF0) then
        match s1 with a :: b :: s3 => is_cont a && is_cont b && utf8_ok s3 | _ => false end
      else false
  end.

Definition all_strings (L : lang_strings) : list bytes :=
  [title L; h1 L; label_lang L; saved_msg L; rssi_label L; refresh_hint L; label_halow_ssid L;
   label_halow_pass L; label_ap_ssid L; label_ap_pass L; label_country L; label_buffer L;
   buffer_opt1 L; buffer_opt2 L; buffer_opt3 L; hint_reboot L; btn_save L; btn_reboot L;
   rebooting L; credit_prefix L].

(** ** Facts, by evaluation *)

Lemma page_format_len : zlen page_format = 1809.
Proof. vm_compute. done. Qed.

Lemma page_format_no_nul : no_nul page_format.
Proof. by_decide. Qed.

Lemma lang_strings_no_nul : Forall (fun L => Forall no_nul (all_strings L)) lang_str.
Proof. by_decide. Qed.

Lemma lang_strings_short : Forall (fun L => zlen (saved_msg L) < 128) lang_str.
Proof. by_decide. Qed.

(** Two Spanish labels have a stray octet 0xC3: they are not UTF-8, though the
    page declares that it is; every other string is. *)
Lemma spanish_labels_not_utf8 :
  utf8_ok (label_halow_pass lang_es) = false /\ utf8_ok (label_ap_pass lang_es) = false /\
  count (fun s => negb (utf8_ok s)) (all_strings lang_es) = 2%nat /\
  forallb utf8_ok (all_strings lang_en) = true /\ forallb utf8_ok (all_strings lang_zh) = true /\
  utf8_ok page_format = true.
Proof. vm_compute. done. Qed.

End WebText.
