(* ===== verification/WebForm.v ===== *)
(** Escaping for HTML and decoding of submitted forms: [html_escape] and
    [parse_form_field] of [examples/iperf/main/src/web_config.c].  Pointers
    into a string are offsets in its array; every access is checked. *)

From S2P Require Import Prelude CStr.

Module WebForm.

(** ** [html_escape] *)

Definition amp : bytes := lit "&amp;".
Definition quot : bytes := lit "&quot;".
Definition lt_ : bytes := lit "&lt;".
Definition gt_ : bytes := lit "&gt;".

(** The [while] loop: [i] and [n] are the positions in [inp] and [out]. *)
Fixpoint html_escape_loop (fuel : nat) (inp : bytes) (i : Z) (out : bytes) (n out_size : Z)
  : outcome (Z * bytes) :=
  match fuel with
  | O => Fail OutOfFuel
  | S fuel =>
      c ← rd inp i;
      if decide (c <> 0 /\ n + 6 < out_size) then
        '(k, out) ← (if decide (c = 38) then snprintf out n (out_size - n) amp
                     else if decide (c = 34) then snprintf out n (out_size - n) quot
                     else if decide (c = 60) then snprintf out n (out_size - n) lt_
                     else if decide (c = 62) then snprintf out n (out_size - n) gt_
                     else out ← wr out n c; Ok (1, out));
        html_escape_loop fuel inp (i + 1) out (n + k) out_size
      else Ok (n, out)
  end.

Definition html_escape (inp out : bytes) (out_size : Z) : outcome bytes :=
  '(n, out) ← html_escape_loop (S (length inp)) inp 0 out 0 out_size;
  wr out n 0.

(** ** [parse_form_field] *)

(** [strncmp (p, name, strlen (name)) == 0] *)
Fixpoint strncmp_eq (form : bytes) (p : Z) (name : bytes) : outcome bool :=
  match name with
  | [] => Ok true
  | c :: name => x ← rd form p; if decide (x = c) then strncmp_eq form (p + 1) name else Ok false
  end.

Definition hex_digit (x : Z) : Z := if decide (x >= 65) then Z.land x 0x1f + 9 else x - 48.

(** [*p == '%' && p[1] && p[2]]: the two octets of the escape. *)
Definition percent (form : bytes) (p c : Z) : outcome (option (Z * Z)) :=
  if decide (c = 37) then
    hi ← rd form (p + 1);
    if decide (hi = 0) then Ok None
    else lo ← rd form (p + 2); if decide (lo = 0) then Ok None else Ok (Some (hi, lo))
  else Ok None.

Fixpoint parse_value_loop (fuel : nat) (form : bytes) (p : Z) (buf : bytes) (i buf_len : Z)
  : outcome (Z * Z * bytes) :=
  match fuel with
  | O => Fail OutOfFuel
  | S fuel =>
      c ← rd form p;
      if decide (c <> 0 /\ c <> 38 /\ i < buf_len - 1) then
        e ← percent form p c;
        match e with
        | Some (hi, lo) =>
            buf ← wr buf i (u8 (hex_digit hi * 16 + hex_digit lo));
            parse_value_loop fuel form (p + 3) buf (i + 1) buf_len
        | None =>
            buf ← wr buf i (if decide (c = 43) then 32 else c);
            parse_value_loop fuel form (p + 1) buf (i + 1) buf_len
        end
      else Ok (p, i, buf)
  end.

(** [while ( *p && *p != '&') p++; if ( *p == '&') p++;] *)
Fixpoint skip_field_loop (fuel : nat) (form : bytes) (p : Z) : outcome Z :=
  match fuel with
  | O => Fail OutOfFuel
  | S fuel =>
      c ← rd form p;
      if decide (c <> 0 /\ c <> 38) then skip_field_loop fuel form (p + 1)
      else if decide (c = 38) then Ok (p + 1) else Ok p
  end.

Fixpoint parse_field_loop (fuel : nat) (form : bytes) (p : Z) (name buf : bytes) (buf_len : Z)
  : outcome (Z * bytes) :=
  match fuel with
  | O => Fail OutOfFuel
  | S fuel =>
      c ← rd form p;
      if decide (c <> 0) then
        same ← strncmp_eq form p name;
        found ← (if (same : bool) then e ← rd form (p + zlen name); Ok (bool_decide (e = 61))
                 else Ok false);
        if (found : bool) then
          '(p, i, buf) ← parse_value_loop (S (length form)) form (p + zlen name + 1) buf 0 buf_len;
          buf ← wr buf i 0; Ok (p, buf)
        else p ← skip_field_loop (S (length form)) form p; parse_field_loop fuel form p name buf buf_len
      else buf ← wr buf 0 0; Ok (0, buf)
  end.

Definition parse_form_field (form name buf : bytes) (buf_len : Z) : outcome (Z * bytes) :=
  parse_field_loop (S (length form)) form 0 name buf buf_len.

(** ** Specification of escaping *)

Definition esc_byte (c : Z) : bytes :=
  if decide (c = 38) then amp else if decide (c = 34) then quot
  else if decide (c = 60) then lt_ else if decide (c = 62) then gt_ else [c].

Definition esc (s : bytes) : bytes := s ≫= esc_byte.

(** What a browser makes of the escaped text. *)
Fixpoint unesc_fuel (fuel : nat) (s : bytes) : bytes :=
  match fuel, s with
  | S fuel, c :: s' =>
      if decide (c = 38) then
        if is_prefix amp s then 38 :: unesc_fuel fuel (drop 5 s)
        else if is_prefix quot s then 34 :: unesc_fuel fuel (drop 6 s)
        else if is_prefix lt_ s then 60 :: unesc_fuel fuel (drop 4 s)
        else if is_prefix gt_ s then 62 :: unesc_fuel fuel (drop 4 s)
        else c :: unesc_fuel fuel s'
      else c :: unesc_fuel fuel s'
  | _, _ => []
  end.
Definition unesc (s : bytes) : bytes := unesc_fuel (length s) s.

(** ** Specification of forms: values from a position on *)

Fixpoint dec (s : bytes) : bytes :=
  match s with
  | [] => []
  | c :: s1 =>
      if decide (c = 38) then []
      else if decide (c = 37) then
        match s1 with
        | hi :: lo :: s3 => u8 (hex_digit hi * 16 + hex_digit lo) :: dec s3
        | _ => c :: dec s1
        end
      else (if decide (c = 43) then 32 else c) :: dec s1
  end.

Fixpoint skip_field (s : bytes) : bytes :=
  match s with
  | [] => []
  | c :: s => if decide (c = 38) then s else skip_field s
  end.

(** The text behind the first field called [name]. *)
Fixpoint find_field (fuel : nat) (name s : bytes) : option bytes :=
  match fuel with
  | O => None
  | S fuel =>
      match s with
      | [] => None
      | _ => if is_prefix (name ++ [61]) s then Some (drop (length name + 1) s)
             else find_field fuel name (skip_field s)
      end
  end.

Definition form_value (name s : bytes) : bytes :=
  match find_field (S (length s)) name s with Some v => dec v | None => [] end.

(** ** Encoding, as a browser does it *)

Definition is_plain (c : Z) : bool :=
  bool_decide (48 <= c <= 57 \/ 65 <= c <= 90 \/ 97 <= c <= 122 \/ c ∈ [42; 45; 46; 95]).

Definition hex_char (n : Z) : Z := if decide (n < 10) then 48 + n else 55 + n.

Definition enc_byte (c : Z) : bytes :=
  if is_plain c then [c]
  else if decide (c = 32) then [43]
  else [37; hex_char (c / 16); hex_char (c mod 16)].

Definition enc (v : bytes) : bytes := v ≫= enc_byte.

Fixpoint enc_form (l : list (bytes * bytes)) : bytes :=
  match l with
  | [] => []
  | [(n, v)] => n ++ 61 :: enc v
  | (n, v) :: l => n ++ 61 :: enc v ++ 38 :: enc_form l
  end.

(** The value of the first field of that name; none is the empty value. *)
Fixpoint assoc (name : bytes) (l : list (bytes * bytes)) : bytes :=
  match l with
  | [] => []
  | (n, v) :: l => if decide (n = name) then v else assoc name l
  end.

(** ** Lemmas: escaping *)

Lemma esc_byte_len c : (1 <= length (esc_byte c) <= 6)%nat.
Proof. unfold esc_byte. repeat case_decide; vm_compute; lia. Qed.

Lemma esc_byte_no_nul c : c <> 0 -> no_nul (esc_byte c).
Proof. intros. unfold esc_byte. repeat case_decide; [by_decide..|]. by constructor. Qed.

Lemma esc_no_nul s : no_nul s -> no_nul (esc s).
Proof.
  induction 1 as [|c s Hc Hs IH]; [constructor|]. unfold esc. rewrite bind_cons.
  apply Forall_app. split; [by apply esc_byte_no_nul|done].
Qed.

Lemma esc_len s : (length (esc s) <= 6 * length s)%nat.
Proof.
  induction s as [|c s IH]; [done|]. unfold esc in *. rewrite bind_cons, length_app.
  pose proof (esc_byte_len c). cbn [length]. lia.
Qed.

(** Writing the text of one octet at position [n]. *)
Lemma snprintf_at out n size s :
  0 <= n -> zlen s + n < size -> zlen out = size ->
  snprintf out n (size - n) s = Ok (zlen s, splice (Z.to_nat n) (s ++ [0]) out).
Proof.
  intros Hn Hs Ho. unfold snprintf. rewrite decide_False by lia. rewrite take_ge by lia.
  rewrite wrn_Ok by (rewrite ?length_app; cbn [length]; lia). done.
Qed.

Definition take_z (n : Z) (b : bytes) : bytes := take (Z.to_nat n) b.

Lemma take_splice n (s r : bytes) (out : bytes) :
  (n + length (s ++ r) <= length out)%nat ->
  take (n + length s) (splice n (s ++ r) out) = take n out ++ s.
Proof.
  intros Hl. rewrite length_app in Hl. unfold splice.
  rewrite <- (length_take_le out n) at 1 by lia.
  rewrite <- !app_assoc. rewrite take_app_add. f_equal. apply take_app_length.
Qed.

Lemma escape_step out n size c :
  0 <= n -> n + 6 < size -> zlen out = size ->
  exists out', (if decide (c = 38) then snprintf out n (size - n) amp
     else if decide (c = 34) then snprintf out n (size - n) quot
     else if decide (c = 60) then snprintf out n (size - n) lt_
     else if decide (c = 62) then snprintf out n (size - n) gt_
     else out ← wr out n c; Ok (1, out)) = Ok (zlen (esc_byte c), out') /\
    zlen out' = size /\ take_z (n + zlen (esc_byte c)) out' = take_z n out ++ esc_byte c.
Proof.
  intros Hn Hs Ho. unfold take_z.
  assert (Hsn : forall s, zlen s <= 6 -> exists out',
    snprintf out n (size - n) s = Ok (zlen s, out') /\ zlen out' = size /\
    take (Z.to_nat (n + zlen s)) out' = take (Z.to_nat n) out ++ s).
  { intros s Hl. rewrite snprintf_at by lia. eexists. split; [done|]. split.
    - rewrite length_splice; [done|]. rewrite length_app. cbn [length]. lia.
    - replace (Z.to_nat (n + zlen s)) with (Z.to_nat n + length s)%nat by lia.
      apply take_splice. rewrite length_app. cbn [length]. lia. }
  unfold esc_byte. repeat case_decide; try (apply Hsn; vm_compute; done).
  rewrite wr_Ok by lia. eexists. split; [done|]. split; [by rewrite length_insert|].
  replace (Z.to_nat (n + zlen [c])) with (S (Z.to_nat n)) by (cbn; lia).
  erewrite take_S_r; [|apply list_lookup_insert_eq; lia]. by rewrite take_insert_ge by lia.
Qed.

Lemma escape_loop_spec s fuel inp i out n size post :
  no_nul s -> tail_at inp i (s ++ 0 :: post) -> (length s < fuel)%nat ->
  0 <= n -> n + 6 * zlen s < size -> zlen out = size ->
  exists out', html_escape_loop fuel inp i out n size = Ok (n + zlen (esc s), out') /\
    zlen out' = size /\ take_z (n + zlen (esc s)) out' = take_z n out ++ esc s.
Proof.
  intros Hs. revert fuel i out n.
  induction Hs as [|c s Hc Hs IH]; intros fuel i out n Ht Hf Hn Hsz Ho;
    (destruct fuel as [|fuel]; [lia|]); cbn [html_escape_loop]; rewrite (tail_at_cons _ _ _ _ Ht);
    cbn [mbind outcome_bind].
  - rewrite decide_False by naive_solver. exists out. cbn. rewrite Z.add_0_r, app_nil_r. done.
  - cbn [length] in Hsz, Hf. rewrite decide_True by lia.
    destruct (escape_step out n size c) as (out1 & E & Hl1 & Ht1); [lia..|].
    rewrite E. cbn [mbind outcome_bind]. unfold esc. rewrite bind_cons, length_app.
    pose proof (esc_byte_len c).
    destruct (IH fuel (i + 1) out1 (n + zlen (esc_byte c))) as (out2 & E2 & Hl2 & Ht2); try lia.
    { by apply tail_at_step in Ht. }
    exists out2. fold (esc s). rewrite E2. split_and!; [do 2 f_equal; lia|done|].
    replace (n + Z.of_nat (length (esc_byte c) + length (esc s)))
      with (n + zlen (esc_byte c) + zlen (esc s)) by lia.
    by rewrite Ht2, Ht1, app_assoc.
Qed.

Lemma html_escape_Ok inp out size :
  terminated inp -> 6 * zlen (cstr inp) < size -> zlen out = size ->
  exists out', html_escape inp out size = Ok out' /\ zlen out' = size /\ terminated out' /\
    cstr out' = esc (cstr inp).
Proof.
  intros Ht Hs Ho. unfold html_escape. destruct (terminated_split inp Ht) as [r Hr].
  destruct (escape_loop_spec (cstr inp) (S (length inp)) inp 0 out 0 size r)
    as (out1 & -> & Hl & Htk).
  - apply cstr_no_nul.
  - rewrite <- Hr. apply tail_at_0.
  - pose proof (cstr_len inp Ht). lia.
  - lia.
  - lia.
  - done.
  - cbn [mbind outcome_bind]. pose proof (esc_len (cstr inp)). rewrite Z.add_0_l in *.
    rewrite wr_Ok by lia. eexists. split; [done|]. rewrite insert_take_drop by lia.
    unfold take_z in Htk. rewrite Htk. cbn [app]. split_and!.
    + rewrite length_app. cbn [length]. rewrite length_drop.
      apply (f_equal length) in Htk. rewrite length_take in Htk. cbn [app] in Htk. lia.
    + apply terminated_app.
    + apply cstr_app. apply esc_no_nul, cstr_no_nul.
Qed.

Lemma unesc_fuel_esc s fuel :
  (length (esc s) <= fuel)%nat -> unesc_fuel fuel (esc s) = s.
Proof.
  revert fuel. induction s as [|c s IH]; intros fuel Hf; [by destruct fuel|].
  unfold esc in *. rewrite bind_cons, length_app in Hf. rewrite bind_cons.
  pose proof (esc_byte_len c). destruct fuel as [|fuel]; [lia|].
  assert (IH' : unesc_fuel fuel (s ≫= esc_byte) = s) by (apply IH; lia).
  clear IH Hf. revert IH'. generalize (s ≫= esc_byte). intros t IH'.
  unfold esc_byte. destruct (decide (c = 38)) as [->|H1]; [|destruct (decide (c = 34)) as [->|H2];
    [|destruct (decide (c = 60)) as [->|H3]; [|destruct (decide (c = 62)) as [->|H4]]]].
  1-4: match goal with |- unesc_fuel _ (?e ++ _) = _ =>
      let v := eval vm_compute in e in change e with v end;
    cbn [app unesc_fuel]; rewrite decide_True by done;
    repeat match goal with |- context [is_prefix ?p ?l] =>
      let b := eval vm_compute in (is_prefix p l) in change (is_prefix p l) with b end;
    cbn; by rewrite ?drop_0, IH'.
  cbn [app unesc_fuel]. rewrite decide_False by done. by rewrite IH'.
Qed.

(** ** Lemmas: decoding *)

Section Parse.
  Context (form post : bytes).

  (** The text from position [p] to the terminator. *)
Definition text_at (p : Z) (s : bytes) : Prop := tail_at form p (s ++ 0 :: post) /\ no_nul s.

Lemma text_at_cons p c s : text_at p (c :: s) -> rd form p = Ok c /\ c <> 0 /\ text_at (p + 1) s.
Proof.
  intros [Ht [Hc Hs]%Forall_cons_1]. split; [by apply (tail_at_cons _ _ _ _ Ht)|].
  split; [done|]. split; [|done]. by apply tail_at_step in Ht.
Qed.

Lemma text_at_nil p : text_at p [] -> rd form p = Ok 0.
Proof. intros [Ht _]. by apply (tail_at_cons _ _ _ _ Ht). Qed.

Lemma text_at_range p s : text_at p s -> 0 <= p /\ p + zlen s < zlen form.
Proof.
  intros [Ht _]. pose proof (tail_at_len _ _ _ Ht) as Hl. destruct Ht as [Hp _].
  rewrite length_app in Hl. cbn [length] in Hl. lia.
Qed.

Lemma strncmp_spec name p s :
  no_nul name -> text_at p s -> strncmp_eq form p name = Ok (is_prefix name s).
Proof.
  intros Hn. revert p s. induction Hn as [|c name Hc Hn IH]; intros p s Ht; cbn [strncmp_eq]; [by destruct s|].
  destruct s as [|x s].
  - rewrite (text_at_nil _ Ht). cbn [mbind outcome_bind is_prefix]. by rewrite decide_False.
  - destruct (text_at_cons _ _ _ Ht) as (-> & _ & Ht'). cbn [mbind outcome_bind is_prefix].
    case_decide as Hx; [subst|by rewrite bool_decide_false by congruence].
    rewrite bool_decide_true by done. by apply IH.
Qed.

Lemma text_at_drop p s n : (n <= length s)%nat -> text_at p s -> text_at (p + Z.of_nat n) (drop n s).
Proof.
  intros Hn [Ht Hs]. split; [|by apply Forall_drop].
  eapply (tail_at_app _ p (take n s)); [|rewrite length_take; lia].
  by rewrite app_assoc, take_drop.
Qed.

Lemma is_prefix_length p l : is_prefix p l = true -> (length p <= length l)%nat.
Proof.
  revert l. induction p as [|a p IH]; intros [|b l]; cbn; try done; [lia|].
  intros [_ H]%andb_prop. apply IH in H. lia.
Qed.

Lemma is_prefix_snoc p l c :
  is_prefix (p ++ [c]) l = is_prefix p l && bool_decide (l !! length p = Some c).
Proof.
  revert l. induction p as [|a p IH]; intros [|b l]; cbn; try done.
  - rewrite andb_true_r. apply bool_decide_ext. naive_solver.
  - by rewrite IH, andb_assoc.
Qed.

Lemma found_spec name p s :
  no_nul name -> text_at p s ->
  (same ← strncmp_eq form p name;
   if (same : bool) then e ← rd form (p + zlen name); Ok (bool_decide (e = 61)) else Ok false) =
  Ok (is_prefix (name ++ [61]) s).
Proof.
  intros Hn Ht. rewrite (strncmp_spec name p s) by done. cbn [mbind outcome_bind].
  rewrite is_prefix_snoc. destruct (is_prefix name s) eqn:Hp; [|done]. cbn [andb].
  apply is_prefix_length in Hp. pose proof (text_at_drop p s _ Hp Ht) as Hd.
  destruct (drop (length name) s) as [|c r] eqn:Hdr.
  - rewrite (text_at_nil _ Hd). cbn [mbind outcome_bind]. f_equal.
    rewrite !bool_decide_false; [done|..|done]. rewrite <- (Nat.add_0_r (length name)), <- lookup_drop, Hdr. done.
  - destruct (text_at_cons _ _ _ Hd) as (-> & _ & _). cbn [mbind outcome_bind]. f_equal.
    apply bool_decide_ext. rewrite <- (Nat.add_0_r (length name)), <- lookup_drop, Hdr. cbn. naive_solver.
Qed.

Lemma skip_spec fuel p s :
  text_at p s -> (length s < fuel)%nat ->
  exists p', skip_field_loop fuel form p = Ok p' /\ text_at p' (skip_field s).
Proof.
  revert p s. induction fuel as [|fuel IH]; intros p s Ht Hf; [lia|]. cbn [skip_field_loop].
  destruct s as [|c s].
  - rewrite (text_at_nil _ Ht). cbn [mbind outcome_bind skip_field]. rewrite !decide_False by lia. eauto.
  - destruct (text_at_cons _ _ _ Ht) as (-> & Hc & Ht'). cbn [mbind outcome_bind skip_field].
    destruct (decide (c = 38)) as [->|H].
    + rewrite decide_False by lia. eauto.
    + rewrite decide_True by done. apply IH; [done|cbn in Hf; lia].
Qed.

Lemma skip_field_len s : (length (skip_field s) <= length s)%nat.
Proof. induction s as [|c s IH]; cbn; [done|]. case_decide; cbn; lia. Qed.

Lemma skip_field_shorter c s : (length (skip_field (c :: s)) <= length s)%nat.
Proof. cbn. pose proof (skip_field_len s). case_decide; lia. Qed.

Lemma take_wr (buf : bytes) i v :
  0 <= i < zlen buf ->
  exists b, wr buf i v = Ok b /\ zlen b = zlen buf /\
    take (Z.to_nat (i + 1)) b = take (Z.to_nat i) buf ++ [v].
Proof.
  intros Hi. rewrite wr_Ok by lia. eexists. split; [done|]. split; [by rewrite length_insert|].
  replace (Z.to_nat (i + 1)) with (S (Z.to_nat i)) by lia.
  erewrite take_S_r; [|apply list_lookup_insert_eq; lia]. by rewrite take_insert_ge by lia.
Qed.

(** The rest of a value is decoded behind position [i] of the buffer. *)
Definition decoded (s buf : bytes) (i n : Z) (r : outcome (Z * Z * bytes)) : Prop :=
  exists p' buf' s', let w := take (Z.to_nat (n - 1 - i)) (dec s) in
    r = Ok (p', i + zlen w, buf') /\ text_at p' s' /\ zlen buf' = n /\
    take (Z.to_nat (i + zlen w)) buf' = take (Z.to_nat i) buf ++ w.

Lemma decoded_cons s buf buf1 i n v s' r :
  0 <= i -> i < n - 1 -> dec s = v :: dec s' ->
  take (Z.to_nat (i + 1)) buf1 = take (Z.to_nat i) buf ++ [v] ->
  decoded s' buf1 (i + 1) n r -> decoded s buf i n r.
Proof.
  intros Hi Hn Hd Hb (p' & buf' & s'' & -> & Ht & Hl & Hw). exists p', buf', s''. rewrite Hd.
  replace (Z.to_nat (n - 1 - i)) with (S (Z.to_nat (n - 1 - (i + 1)))) by lia. cbn [take firstn length] in *.
  split_and!; [|done|done|].
  - do 3 f_equal. lia.
  - match goal with |- take ?a _ = _ => match type of Hw with take ?b _ = _ =>
      replace a with b by lia end end. by rewrite Hw, Hb, <- app_assoc.
Qed.

Lemma value_spec fuel p s buf i n :
  text_at p s -> (length s < fuel)%nat -> 0 <= i <= n - 1 -> zlen buf = n ->
  decoded s buf i n (parse_value_loop fuel form p buf i n).
Proof.
  revert p s buf i. induction fuel as [|fuel IH]; intros p s buf i Ht Hf Hi Hb; [lia|].
  cbn [parse_value_loop].
  assert (Hstop : take (Z.to_nat (n - 1 - i)) (dec s) = [] -> decoded s buf i n (Ok (p, i, buf))).
  { intros E. exists p, buf, s. rewrite E. cbn [length]. rewrite Z.add_0_r, app_nil_r. done. }
  destruct s as [|c s].
  { rewrite (text_at_nil _ Ht). cbn [mbind outcome_bind]. rewrite decide_False by naive_solver.
    apply Hstop. cbn. apply take_nil. }
  destruct (text_at_cons _ _ _ Ht) as (-> & Hc & Ht1). cbn [mbind outcome_bind]. cbn [length] in Hf.
  case_decide as Hgo.
  2: { apply Hstop. destruct (decide (i < n - 1)).
       - assert (c = 38) as -> by (destruct (decide (c = 38)); [done|exfalso; apply Hgo; done]).
         cbn [dec]. rewrite decide_True by done. apply take_nil.
       - replace (n - 1 - i) with 0 by lia. done. }
  destruct Hgo as (_ & H38 & Hlt).
  assert (Hplain : forall v, dec (c :: s) = v :: dec s ->
    decoded (c :: s) buf i n (buf ← wr buf i v; parse_value_loop fuel form (p + 1) buf (i + 1) n)).
  { intros v Hd. destruct (take_wr buf i v) as (b1 & -> & Hl1 & Hb1); [lia|]. cbn [mbind outcome_bind].
    eapply decoded_cons; [lia|lia|exact Hd|exact Hb1|]. apply IH; [done|lia..]. }
  unfold percent. destruct (decide (c = 37)) as [->|H37].
  2: { cbn [mbind outcome_bind]. apply Hplain. cbn [dec]. by rewrite !decide_False by done. }
  destruct s as [|hi [|lo s]].
  - rewrite (text_at_nil _ Ht1). cbn [mbind outcome_bind]. rewrite (decide_True (P := 0 = 0)) by done.
    cbn [mbind outcome_bind]. apply Hplain. reflexivity.
  - destruct (text_at_cons _ _ _ Ht1) as (-> & Hhi & Ht2). cbn [mbind outcome_bind].
    rewrite (decide_False (P := hi = 0)) by done. replace (p + 1 + 1) with (p + 2) in Ht2 by lia.
    rewrite (text_at_nil _ Ht2). cbn [mbind outcome_bind]. rewrite (decide_True (P := 0 = 0)) by done.
    cbn [mbind outcome_bind]. apply Hplain. reflexivity.
  - destruct (text_at_cons _ _ _ Ht1) as (-> & Hhi & Ht2). cbn [mbind outcome_bind].
    rewrite (decide_False (P := hi = 0)) by done. replace (p + 1 + 1) with (p + 2) in Ht2 by lia.
    destruct (text_at_cons _ _ _ Ht2) as (-> & Hlo & Ht3). cbn [mbind outcome_bind].
    rewrite (decide_False (P := lo = 0)) by done. cbn [mbind outcome_bind].
    destruct (take_wr buf i (u8 (hex_digit hi * 16 + hex_digit lo))) as (b1 & -> & Hl1 & Hb1); [lia|].
    cbn [mbind outcome_bind]. eapply decoded_cons; [lia|lia| |exact Hb1|].
    + reflexivity.
    + replace (p + 2 + 1) with (p + 3) in Ht3 by lia. apply IH; [done|cbn in Hf; lia|lia..].
Qed.

Lemma find_field_fuel f1 f2 name s :
  (length s < f1)%nat -> (length s < f2)%nat -> find_field f1 name s = find_field f2 name s.
Proof.
  revert f2 s. induction f1 as [|f1 IH]; intros f2 s H1 H2; [lia|]. destruct f2 as [|f2]; [lia|].
  cbn [find_field]. destruct s as [|c s]; [done|]. destruct (is_prefix _ _); [done|].
  pose proof (skip_field_shorter c s). cbn [length] in *. apply IH; lia.
Qed.

(** A buffer of [n] octets holding the string [v], cut to [n - 1] octets. *)
Definition holds (v buf : bytes) (n : Z) : Prop :=
  zlen buf = n /\ exists r, buf = take (Z.to_nat (n - 1)) v ++ 0 :: r.

Lemma holds_wr v buf n i :
  zlen buf = n -> 0 <= i < n -> i = zlen (take (Z.to_nat (n - 1)) v) ->
  take (Z.to_nat i) buf = take (Z.to_nat (n - 1)) v ->
  exists b, wr buf i 0 = Ok b /\ holds v b n.
Proof.
  intros Hl Hi _ Hb. rewrite wr_Ok by lia. eexists. split; [done|]. split; [by rewrite length_insert|].
  rewrite insert_take_drop by lia. rewrite Hb. by eexists.
Qed.

Lemma field_spec fuel p s name buf n :
  text_at p s -> (length s < fuel)%nat -> no_nul name -> 0 < n -> zlen buf = n ->
  exists p' buf', parse_field_loop fuel form p name buf n = Ok (p', buf') /\
    0 <= p' < zlen form /\
    holds (match find_field fuel name s with Some v => dec v | None => [] end) buf' n.
Proof.
  revert p s. induction fuel as [|fuel IH]; intros p s Ht Hf Hname Hn Hb; [lia|].
  cbn [parse_field_loop find_field]. destruct s as [|c s].
  { rewrite (text_at_nil _ Ht). cbn [mbind outcome_bind]. rewrite decide_False by naive_solver.
    destruct (holds_wr [] buf n 0) as (b & -> & Hh); [done|lia|by rewrite take_nil..|].
    cbn [mbind outcome_bind]. pose proof (text_at_range _ _ Ht). cbn [length] in *.
    do 2 eexists. split; [done|]. split; [lia|done]. }
  pose proof (found_spec name p (c :: s) Hname Ht) as Hfound.
  destruct (text_at_cons _ _ _ Ht) as (-> & Hc & _). cbn [mbind outcome_bind].
  rewrite decide_True by done.
  destruct (strncmp_eq form p name) as [same|]; [|done]. cbn [mbind outcome_bind] in *.
  rewrite Hfound. cbn [mbind outcome_bind]. destruct (is_prefix (name ++ [61]) (c :: s)) eqn:Hp.
  - apply is_prefix_length in Hp. rewrite length_app in Hp. cbn [length] in Hp.
    pose proof (text_at_drop p (c :: s) (length name + 1) Hp Ht) as Hd.
    replace (p + Z.of_nat (length name + 1)) with (p + zlen name + 1) in Hd by lia.
    destruct (value_spec (S (length form)) _ _ buf 0 n Hd) as (p' & b1 & s' & -> & Ht' & Hl1 & Hw); [|lia|done|].
    { pose proof (text_at_range _ _ Hd). lia. }
    cbn [mbind outcome_bind]. rewrite Z.sub_0_r, Z.add_0_l in *. change (Z.to_nat 0) with 0%nat in Hw.
    rewrite take_0, app_nil_l in Hw.
    destruct (holds_wr (dec (drop (length name + 1) (c :: s))) b1 n
      (zlen (take (Z.to_nat (n - 1)) (dec (drop (length name + 1) (c :: s)))))) as (b2 & -> & Hh); try done.
    { rewrite length_take. lia. }
    cbn [mbind outcome_bind]. do 2 eexists. split; [done|]. split; [|done].
    pose proof (text_at_range _ _ Ht'). lia.
  - destruct (skip_spec (S (length form)) p (c :: s) Ht) as (p1 & -> & Ht1).
    { pose proof (text_at_range _ _ Ht). lia. }
    cbn [mbind outcome_bind]. pose proof (skip_field_shorter c s). cbn [length] in Hf.
    apply IH; try done. lia.
Qed.
End Parse.

(** For every form string, field name and buffer. *)
Lemma parse_form_field_Ok form name buf n :
  terminated form -> no_nul name -> 0 < n -> zlen buf = n ->
  exists p buf', parse_form_field form name buf n = Ok (p, buf') /\ 0 <= p < zlen form /\
    holds (form_value name (cstr form)) buf' n.
Proof.
  intros Ht Hname Hn Hb. destruct (terminated_split form Ht) as [r Hr]. pose proof (cstr_len form Ht).
  destruct (field_spec form r (S (length form)) 0 (cstr form) name buf n) as (p & b & E & Hp & Hh); try done.
  - split; [rewrite <- Hr; apply tail_at_0|apply cstr_no_nul].
  - lia.
  - exists p, b. split_and!; [done|lia|lia|]. unfold form_value.
    by rewrite (find_field_fuel _ (S (length form))) by lia.
Qed.

(** ** Lemmas: encoding *)

Lemma hex_digit_char n : 0 <= n < 16 -> hex_digit (hex_char n) = n.
Proof.
  intros Hn. assert (n ∈ seqZ 0 16) as Hin by (apply elem_of_seqZ; lia). revert n Hin Hn.
  assert (H : Forall (fun n => hex_digit (hex_char n) = n) (seqZ 0 16)) by by_decide.
  rewrite list.Forall_forall in H. intros n Hin _. by apply H.
Qed.

Lemma plain_not c : is_plain c = true -> c <> 0 /\ c <> 38 /\ c <> 37 /\ c <> 43 /\ c <> 61.
Proof.
  unfold is_plain. intros H%bool_decide_eq_true_1.
  rewrite !elem_of_cons, elem_of_nil in H. lia.
Qed.

Lemma hex_char_not n : 0 <= n < 16 -> hex_char n <> 0 /\ hex_char n <> 38.
Proof. intros. unfold hex_char. case_decide; lia. Qed.

Lemma dec_enc_byte c r : is_u8 c -> dec (enc_byte c ++ r) = c :: dec r.
Proof.
  intros Hc. unfold enc_byte. destruct (is_plain c) eqn:Hp.
  - apply plain_not in Hp as (? & ? & ? & ? & ?). cbn [app dec]. by rewrite !decide_False.
  - destruct (decide (c = 32)) as [->|]; [reflexivity|]. cbn [app].
    change (dec (37 :: hex_char (c / 16) :: hex_char (c mod 16) :: r)) with
      (u8 (hex_digit (hex_char (c / 16)) * 16 + hex_digit (hex_char (c mod 16))) :: dec r).
    rewrite !hex_digit_char by zlia. f_equal. zlia.
Qed.

Lemma dec_enc v r : is_bytes v -> dec (enc v ++ r) = v ++ dec r.
Proof.
  induction 1 as [|c v Hc Hv IH]; [done|]. unfold enc in *. rewrite bind_cons, <- app_assoc.
  rewrite dec_enc_byte by done. by rewrite IH.
Qed.

(** Encoded text has neither a terminator nor a separator. *)
Lemma enc_clean v : is_bytes v -> Forall (fun c => c <> 0 /\ c <> 38) (enc v).
Proof.
  induction 1 as [|c v Hc Hv IH]; [constructor|]. unfold enc in *. rewrite bind_cons.
  apply Forall_app. split; [|done]. unfold enc_byte. destruct (is_plain c) eqn:Hp.
  - apply plain_not in Hp. repeat constructor; lia.
  - case_decide; [repeat constructor; lia|].
    pose proof (hex_char_not (c / 16) ltac:(zlia)). pose proof (hex_char_not (c mod 16) ltac:(zlia)).
    repeat constructor; lia.
Qed.

Definition names_plain (l : list (bytes * bytes)) : Prop :=
  Forall (fun nv => forallb is_plain (fst nv) = true /\ is_bytes (snd nv)) l.

Lemma plain_clean n : forallb is_plain n = true -> Forall (fun c => c <> 0 /\ c <> 38 /\ c <> 61) n.
Proof.
  induction n as [|c n IH]; [constructor|]. cbn. intros [Hc Hn]%andb_prop.
  apply plain_not in Hc. constructor; [lia|by apply IH].
Qed.

Lemma skip_field_clean a r : Forall (fun c => c <> 0 /\ c <> 38) a -> skip_field (a ++ 38 :: r) = r.
Proof.
  induction 1 as [|c a [_ Hc] Ha IH]; cbn; [done|]. by rewrite decide_False.
Qed.

Lemma skip_field_last a : Forall (fun c => c <> 0 /\ c <> 38) a -> skip_field a = [].
Proof. induction 1 as [|c a [_ Hc] Ha IH]; cbn; [done|]. by rewrite decide_False. Qed.

Lemma is_prefix_name n n' r :
  Forall (fun c => c <> 0 /\ c <> 38 /\ c <> 61) n -> Forall (fun c => c <> 0 /\ c <> 38 /\ c <> 61) n' ->
  is_prefix (n ++ [61]) (n' ++ 61 :: r) = bool_decide (n = n').
Proof.
  intros Hn. revert n'. induction Hn as [|c n Hc Hn IH]; intros n' Hn'.
  - destruct Hn' as [|d n' Hd Hn']; [done|]. cbn. rewrite !bool_decide_false; naive_solver.
  - destruct Hn' as [|d n' Hd Hn']; cbn.
    + rewrite !bool_decide_false; naive_solver.
    + rewrite IH by done. destruct (decide (c = d)) as [->|].
      * rewrite (bool_decide_true (d = d)) by done. cbn. apply bool_decide_ext. naive_solver.
      * rewrite (bool_decide_false (c = d)) by done. cbn. symmetry. apply bool_decide_false. congruence.
Qed.

Lemma find_enc_form name l fuel :
  forallb is_plain name = true -> names_plain l -> (length (enc_form l) < fuel)%nat ->
  match find_field fuel name (enc_form l) with Some v => dec v | None => [] end = assoc name l.
Proof.
  intros Hname Hl. apply plain_clean in Hname as Hcn. revert fuel.
  induction Hl as [|[n v] l [Hn Hv] Hl IH]; intros fuel Hf; [by destruct fuel|].
  cbn [fst snd] in *. apply plain_clean in Hn as Hcn'. pose proof (enc_clean v Hv) as Hev.
  assert (Hne : Forall (fun c => c <> 0 /\ c <> 38) (n ++ 61 :: enc v)).
  { apply Forall_app. split; [eapply Forall_impl; [|exact Hcn']; cbn; tauto|].
    constructor; [done|done]. }
  destruct fuel as [|fuel]; [lia|]. cbn [assoc].
  assert (Hgen : forall tail, dec (enc v ++ tail) = v ->
    skip_field ((n ++ 61 :: enc v) ++ tail) = enc_form l -> (length (enc_form l) < fuel)%nat ->
    match find_field (S fuel) name ((n ++ 61 :: enc v) ++ tail) with Some v => dec v | None => [] end =
      if decide (n = name) then v else assoc name l).
  { intros tail Hd Hs Hf'. rewrite <- app_assoc. cbn [app].
    assert (exists x y, n ++ 61 :: enc v ++ tail = x :: y) as (x & y & Exy) by (destruct n; cbn; eauto).
    cbn [find_field]. rewrite Exy, <- Exy, is_prefix_name by done.
    case_bool_decide as He.
    - subst. rewrite decide_True by done. rewrite drop_app_ge by lia.
      replace (length n + 1 - length n)%nat with 1%nat by lia. done.
    - rewrite decide_False by congruence. rewrite <- app_assoc in Hs. cbn [app] in Hs. rewrite Hs.
      by apply IH. }
  destruct l as [|nv l].
  - specialize (Hgen []). rewrite !app_nil_r in Hgen. cbn [enc_form]. apply Hgen.
    + rewrite <- (app_nil_r (enc v)), dec_enc by done. cbn. by rewrite app_nil_r.
    + by apply skip_field_last.
    + cbn [enc_form] in Hf |- *. rewrite length_app in Hf. cbn [length] in *. lia.
  - change (enc_form ((n, v) :: nv :: l)) with (n ++ 61 :: enc v ++ 38 :: enc_form (nv :: l)) in *.
    specialize (Hgen (38 :: enc_form (nv :: l))). rewrite <- app_assoc in Hgen. cbn [app] in Hgen.
    apply Hgen.
    + rewrite dec_enc by done. cbn [dec]. rewrite decide_True by done. by rewrite app_nil_r.
    + replace (n ++ 61 :: enc v ++ 38 :: enc_form (nv :: l))
        with ((n ++ 61 :: enc v) ++ 38 :: enc_form (nv :: l)) by by rewrite <- app_assoc.
      by apply skip_field_clean.
    + rewrite !length_app in Hf. cbn [length] in Hf. rewrite length_app in Hf. cbn [length] in Hf. lia.
Qed.

Lemma form_value_enc name l :
  forallb is_plain name = true -> names_plain l -> form_value name (enc_form l) = assoc name l.
Proof. intros. unfold form_value. apply find_enc_form; [done|done|lia]. Qed.

Lemma enc_form_no_nul l : names_plain l -> no_nul (enc_form l).
Proof.
  induction 1 as [|[n v] l [Hn Hv] Hl IH]; [constructor|]. cbn [fst snd] in *.
  assert (H1 : no_nul (n ++ 61 :: enc v)).
  { apply Forall_app. split; [|constructor; [done|]].
    - eapply Forall_impl; [|by apply plain_clean]. cbn. tauto.
    - eapply Forall_impl; [|by apply enc_clean]. cbn. tauto. }
  destruct l as [|nv l]; [done|]. cbn [enc_form] in *.
  change (no_nul (n ++ 61 :: enc v ++ 38 :: enc_form (nv :: l))).
  replace (n ++ 61 :: enc v ++ 38 :: enc_form (nv :: l))
    with ((n ++ 61 :: enc v) ++ 38 :: enc_form (nv :: l)) by by rewrite <- app_assoc.
  apply Forall_app. split; [done|]. by constructor.
Qed.

(** ** Properties *)

(** C18: [html_escape] into an array six times the size of the input's: never a
    write outside it, nothing is cut, and the result is the escaped text,
    from which a browser recovers the input and which contains no quote and
    no angle bracket. *)
Theorem html_escape_correct inp out n :
  terminated inp -> zlen inp <= n -> zlen out = n * 6 ->
  exists out', html_escape inp out (n * 6) = Ok out' /\ zlen out' = n * 6 /\ terminated out' /\
    cstr out' = esc (cstr inp) /\ unesc (cstr out') = cstr inp /\
    Forall (fun c => c <> 34 /\ c <> 60 /\ c <> 62) (cstr out').
Proof.
  intros Ht Hn Ho. pose proof (cstr_len inp Ht).
  destruct (html_escape_Ok inp out (n * 6)) as (out' & E & Hl & Ht' & Hc); [done|lia|done|].
  exists out'. rewrite Hc. split_and!; try done.
  - by apply unesc_fuel_esc.
  - clear. induction (cstr inp) as [|c s IH]; [constructor|]. unfold esc in *. rewrite bind_cons.
    apply Forall_app. split; [|done]. unfold esc_byte.
    repeat case_decide; [by_decide..|]. by repeat constructor.
Qed.

Lemma html_escape_correct_witness :
  exists out', html_escape (lit "a<b&`" ++ [0]) (replicate 36 7) (6 * 6) = Ok out' /\
    zlen out' = 6 * 6 /\ terminated out' /\ cstr out' = esc (cstr (lit "a<b&`" ++ [0])) /\
    unesc (cstr out') = cstr (lit "a<b&`" ++ [0]) /\
    Forall (fun c => c <> 34 /\ c <> 60 /\ c <> 62) (cstr out').
Proof. apply (html_escape_correct (lit "a<b&`" ++ [0]) (replicate 36 7) 6); by_decide. Defined.

(** C19: [parse_form_field] on every terminated form, name and buffer: it ends,
    reads inside the form and writes inside the buffer, and leaves there the
    decoded value of the first field of that name (empty when there is none),
    cut to the buffer.  The returned pointer is inside the form. *)
Theorem parse_form_field_correct form name buf n :
  terminated form -> no_nul name -> 0 < n -> zlen buf = n ->
  exists p buf', parse_form_field form name buf n = Ok (p, buf') /\ 0 <= p < zlen form /\
    holds (form_value name (cstr form)) buf' n.
Proof. apply parse_form_field_Ok. Qed.

Lemma parse_form_field_correct_witness :
  exists p buf', parse_form_field (lit "a=1&ssid=x%2" ++ [0]) (lit "ssid") [9; 9; 9] 3 = Ok (p, buf') /\
    0 <= p < zlen (lit "a=1&ssid=x%2" ++ [0]) /\
    holds (form_value (lit "ssid") (cstr (lit "a=1&ssid=x%2" ++ [0]))) buf' 3.
Proof.
  apply (parse_form_field_correct (lit "a=1&ssid=x%2" ++ [0]) (lit "ssid") [9; 9; 9] 3); by_decide.
Defined.

(** The decoder inverts a browser's encoding: in the encoding of any list of
    fields, with values of arbitrary octets, the value found under a name is
    that of the first field of the name. *)
Theorem form_roundtrip name l :
  forallb is_plain name = true -> names_plain l ->
  form_value name (cstr (enc_form l ++ [0])) = assoc name l.
Proof.
  intros. rewrite cstr_app by by apply enc_form_no_nul. by apply form_value_enc.
Qed.

Lemma form_roundtrip_witness :
  form_value (lit "pass") (cstr (enc_form [(lit "ssid", lit "my net"); (lit "pass", lit "a&b=%25+c")] ++ [0])) =
    assoc (lit "pass") [(lit "ssid", lit "my net"); (lit "pass", lit "a&b=%25+c")].
Proof.
  apply (form_roundtrip (lit "pass") [(lit "ssid", lit "my net"); (lit "pass", lit "a&b=%25+c")]);
    [reflexivity|unfold names_plain; by_decide].
Defined.

End WebForm.
