(* ===== verification/WebConfig.v ===== *)
(** The settings page's handlers: [get_handler], [save_post_handler],
    [reboot_handler] and the table of pages of
    [examples/iperf/main/src/web_config.c].

    The HTTP server (ESP-IDF's httpd) is the environment: what it delivers are
    arguments, what the handlers give it is the list of actions they return.
    Local arrays and allocated blocks are not initialised: their octets come
    from [junk], a block of the size asked for. *)

From S2P Require Import Prelude CStr Settings WebText WebForm.

Module WebConfig.
Import Settings WebText WebForm.

Definition MAX_FORM_FIELD : Z := 64.

(** ** Actions on the response *)

Inductive httpd_err_code_t := HTTPD_400_BAD_REQUEST | HTTPD_500_INTERNAL_SERVER_ERROR.

Inductive action :=
| SetHdr (name value : bytes)
| SetStatus (status : bytes)
| SendErr (code : httpd_err_code_t) (msg : bytes)
| Send (body : bytes)
| Delay (ms : Z)
| Restart.

Definition ESP_FAIL : Z := -1.

(** [snprintf (rssi_str, ...)]; [INT32_MIN] stands for no value. *)
Definition rssi_text (rssi : Z) : bytes :=
  if decide (rssi = - 2 ^ 31) then lit "\xe2\x80\x94" else format (lit "%ld dBm") [AInt rssi].

Definition sel (b : bool) : bytes := if b then lit " selected" else [].

Definition get_lang (n : Z) : Z := if decide (n <= LANG_ZH) then n else LANG_EN.

(** The arguments of the page's format. *)
Definition page_args (L : lang_strings) (lang bp : Z) (rssi_str saved_buf h_ssid h_pass a_ssid a_pass
    h_country : bytes) : list arg :=
  let sel_1 := sel (bool_decide (bp = BUFFER_PRESET_1)) in
  let sel_2 := sel (bool_decide (bp = BUFFER_PRESET_2)) in
  let sel_3 := sel (bool_decide (bp = BUFFER_PRESET_3)) in
  let sel_en := sel (bool_decide (lang = LANG_EN)) in
  let sel_es := sel (bool_decide (lang = LANG_ES)) in
  let sel_zh := sel (bool_decide (lang = LANG_ZH)) in
  [AStr (title L); AStr (h1 L); AStr (label_lang L); AStr sel_en; AStr sel_es; AStr sel_zh;
   AStr (rssi_label L); AStr rssi_str; AStr (refresh_hint L); AStr saved_buf; AInt lang; AStr
   (label_halow_ssid L); AStr h_ssid; AInt (SETTINGS_MAX_SSID - 1); AStr (label_halow_pass L);
   AStr h_pass; AInt (SETTINGS_MAX_PASS - 1); AStr (label_ap_ssid L); AStr a_ssid; AInt
   (SETTINGS_MAX_SSID - 1); AStr (label_ap_pass L); AStr a_pass; AInt (SETTINGS_MAX_PASS - 1);
   AStr (label_country L); AStr h_country; AInt (SETTINGS_MAX_COUNTRY - 1); AStr (label_buffer
   L); AStr sel_1; AStr (buffer_opt1 L); AStr sel_2; AStr (buffer_opt2 L); AStr sel_3; AStr
   (buffer_opt3 L); AStr (hint_reboot L); AStr (btn_save L); AStr (btn_reboot L); AStr
   (credit_prefix L)].
Definition page_len (L : lang_strings) (rssi_str saved_buf h_ssid h_pass a_ssid a_pass h_country : bytes) : Z :=
  3200 + zlen (title L) + zlen (h1 L) + zlen (label_lang L) + zlen (saved_msg L)
  + zlen (rssi_label L) + zlen (refresh_hint L)
  + zlen (label_halow_ssid L) + zlen (label_halow_pass L) + zlen (label_ap_ssid L) + zlen (label_ap_pass L)
  + zlen (label_country L) + zlen (label_buffer L) + zlen (buffer_opt1 L) + zlen (buffer_opt2 L)
  + zlen (buffer_opt3 L)
  + zlen (hint_reboot L) + zlen (btn_save L) + zlen (btn_reboot L) + zlen (credit_prefix L)
  + zlen h_ssid + zlen h_pass + zlen a_ssid + zlen a_pass + zlen h_country + zlen rssi_str + zlen saved_buf.

(** ** Handlers *)

Section Handlers.
  Context {S : Type} `{!Nvs S}.
  Context (junk : Z -> bytes) (malloc : Z -> bool).

Definition junk_settings : bridge_settings_t :=
    {| halow_ssid := junk SETTINGS_MAX_SSID; halow_pass := junk SETTINGS_MAX_PASS;
       ap_ssid := junk SETTINGS_MAX_SSID; ap_pass := junk SETTINGS_MAX_PASS;
       country := junk SETTINGS_MAX_COUNTRY; buffer_preset := 0; lang := 0 |}.

  (** [query_len] and [query] are what [httpd_req_get_url_query_str] returns
      for an empty buffer and for one of 16 octets; [rssi] is the value of
      [get_halow_rssi ()]. *)
Definition get_handler (s : S) (rssi query_len query_err : Z) (query : bytes)
    : outcome (Z * list action) :=
    c ← settings_load s junk_settings;
    let lg := get_lang (lang c) in
    match lang_str !! Z.to_nat lg with
    | None => Fail OutOfBounds
    | Some L =>
        h_ssid ← html_escape (halow_ssid c) (junk (SETTINGS_MAX_SSID * 6)) (SETTINGS_MAX_SSID * 6);
        h_pass ← html_escape (halow_pass c) (junk (SETTINGS_MAX_PASS * 6)) (SETTINGS_MAX_PASS * 6);
        a_ssid ← html_escape (ap_ssid c) (junk (SETTINGS_MAX_SSID * 6)) (SETTINGS_MAX_SSID * 6);
        a_pass ← html_escape (ap_pass c) (junk (SETTINGS_MAX_PASS * 6)) (SETTINGS_MAX_PASS * 6);
        h_country ← html_escape (country c) (junk (SETTINGS_MAX_COUNTRY * 6)) (SETTINGS_MAX_COUNTRY * 6);
        saved_buf ← wr (junk 256) 0 0;
        '(_, saved_buf) ←
          (if decide (query_len > 0 /\ query_err = ESP_OK /\ strstr_found (cstr query) (lit "saved=1") = true)
           then snprintf saved_buf 0 256 (format saved_format [AStr (saved_msg L)])
           else Ok (0, saved_buf));
        let bp := if decide (buffer_preset c <= BUFFER_PRESET_LARGE) then buffer_preset c
                  else BUFFER_PRESET_2 in
        '(_, rssi_str) ← snprintf (junk 24) 0 24 (rssi_text rssi);
        let html_len := page_len L (cstr rssi_str) (cstr saved_buf) (cstr h_ssid) (cstr h_pass)
                          (cstr a_ssid) (cstr a_pass) (cstr h_country) in
        if malloc html_len then
          '(_, html) ← snprintf (junk html_len) 0 html_len
            (format page_format
               (page_args L lg bp (cstr rssi_str) (cstr saved_buf) (cstr h_ssid) (cstr h_pass)
                  (cstr a_ssid) (cstr a_pass) (cstr h_country)));
          n ← strlen html;
          body ← rdn html 0 n;
          Ok (ESP_OK, [SetHdr (lit "Content-Type") (lit "text/html; charset=utf-8"); Send body])
        else Ok (ESP_FAIL, [SendErr HTTPD_500_INTERNAL_SERVER_ERROR (lit "Out of memory")])
    end.

  (** [parse_form_field (buf, name, tmp, sizeof (tmp)); if (tmp[0])
      strncpy (field, tmp, max - 1), field[max - 1] = '\0';] *)
Definition take_field (buf : bytes) (name : string) (max : Z) (st : bytes * bytes)
    : outcome (bytes * bytes) :=
    let (tmp, field) := st in
    '(_, tmp) ← parse_form_field buf (lit name) tmp MAX_FORM_FIELD;
    c ← rd tmp 0;
    if decide (c <> 0) then
      field ← strncpy field tmp (max - 1); field ← wr field (max - 1) 0; Ok (tmp, field)
    else Ok (tmp, field).

  (** The same for a number, kept when it is in [lo..hi]. *)
Definition take_number (buf : bytes) (name : string) (lo hi : Z) (st : bytes * Z)
    : outcome (bytes * Z) :=
    let (tmp, cur) := st in
    '(_, tmp) ← parse_form_field buf (lit name) tmp MAX_FORM_FIELD;
    c ← rd tmp 0;
    if decide (c <> 0) then
      let v := atoi (cstr tmp) in
      Ok (tmp, if decide (lo <= v /\ v <= hi) then u8 v else cur)
    else Ok (tmp, cur).

Definition apply_form (buf : bytes) (c : bridge_settings_t) : outcome bridge_settings_t :=
    '(tmp, hs) ← take_field buf "halow_ssid" SETTINGS_MAX_SSID (junk MAX_FORM_FIELD, halow_ssid c);
    '(tmp, hp) ← take_field buf "halow_pass" SETTINGS_MAX_PASS (tmp, halow_pass c);
    '(tmp, as_) ← take_field buf "ap_ssid" SETTINGS_MAX_SSID (tmp, ap_ssid c);
    '(tmp, ap) ← take_field buf "ap_pass" SETTINGS_MAX_PASS (tmp, ap_pass c);
    '(tmp, co) ← take_field buf "country" SETTINGS_MAX_COUNTRY (tmp, country c);
    '(tmp, bp) ← take_number buf "buffer_preset" BUFFER_PRESET_SMALL BUFFER_PRESET_LARGE (tmp, buffer_preset c);
    '(tmp, lg) ← take_number buf "lang" LANG_EN LANG_ZH (tmp, lang c);
    Ok {| halow_ssid := hs; halow_pass := hp; ap_ssid := as_; ap_pass := ap; country := co;
          buffer_preset := bp; lang := lg |}.

  (** [recv] is what [httpd_req_recv] returns and stores. *)
Definition save_post_handler (s : S) (content_len recv : Z) (body : bytes)
    : outcome (Z * list action * S) :=
    if decide (content_len <= 0 \/ content_len > 1024) then
      Ok (ESP_FAIL, [SendErr HTTPD_400_BAD_REQUEST (lit "Bad request")], s)
    else if malloc (content_len + 1) then
      let buf := junk (content_len + 1) in
      if decide (recv <= 0) then Ok (ESP_FAIL, [], s) else
      buf ← wrn buf 0 body;
      buf ← wr buf recv 0;
      c ← settings_load s junk_settings;
      c ← apply_form buf c;
      let (saved, s) := settings_save c s in
      if (saved : bool) then
        Ok (ESP_OK, [SetStatus (lit "302 Found"); SetHdr (lit "Location") (lit "/?saved=1"); Send []], s)
      else Ok (ESP_FAIL, [SendErr HTTPD_500_INTERNAL_SERVER_ERROR (lit "Save failed")], s)
    else Ok (ESP_FAIL, [SendErr HTTPD_500_INTERNAL_SERVER_ERROR (lit "Out of memory")], s).

Definition reboot_handler (s : S) : outcome (Z * list action) :=
    c ← settings_load s junk_settings;
    match lang_str !! Z.to_nat (get_lang (lang c)) with
    | None => Fail OutOfBounds
    | Some L =>
        Ok (ESP_OK, [SetHdr (lit "Content-Type") (lit "text/plain; charset=utf-8"); Send (rebooting L);
                     Delay 500; Restart])
    end.

End Handlers.

(** ** The table of pages *)

Inductive httpd_method := HTTP_GET | HTTP_POST.
Inductive page := get_page | save_page | reboot_page.
Record httpd_uri := { uri : bytes; method : httpd_method; handler : page }.

Definition uri_get : httpd_uri := {| uri := lit "/"; method := HTTP_GET; handler := get_page |}.
Definition uri_save : httpd_uri := {| uri := lit "/save"; method := HTTP_POST; handler := save_page |}.
Definition uri_reboot : httpd_uri := {| uri := lit "/reboot"; method := HTTP_GET; handler := reboot_page |}.

(** [start_ok]: whether [httpd_start] succeeds; the result is what the server has
    been given, [None] for NULL. *)
Definition start_web_config_server (start_ok : bool) : option (list httpd_uri) :=
  if start_ok then Some [uri_get; uri_save; uri_reboot] else None.

(** ** What the handlers should do *)

(** Allocation: blocks have the size asked for. *)
Definition sized_junk (junk : Z -> bytes) : Prop := forall n, 0 <= n -> zlen (junk n) = n.

Definition nonempty_cut (v : bytes) (max : Z) (old : bytes) : bytes :=
  if decide (v = []) then old else take (Z.to_nat (max - 1)) v.

(** The number a value stands for, when it is in range. *)
Definition number_or (v : bytes) (lo hi old : Z) : Z :=
  if decide (v <> [] /\ lo <= atoi v /\ atoi v <= hi) then atoi v else old.

(** The C string that a decoded value leaves in the 64-octet buffer. *)
Definition field_text (form : bytes) (name : string) : bytes :=
  cstr (take (Z.to_nat (MAX_FORM_FIELD - 1)) (form_value (lit name) form)).

Definition form_names : list string :=
  ["halow_ssid"; "halow_pass"; "ap_ssid"; "ap_pass"; "country"; "buffer_preset"; "lang"]%string.

(** The settings after a form: each field with a non-empty value is replaced. *)
Definition updated (form : bytes) (c : bridge_settings_t)
  : bytes * bytes * bytes * bytes * bytes * Z * Z :=
  (nonempty_cut (field_text form "halow_ssid") SETTINGS_MAX_SSID (cstr (halow_ssid c)),
   nonempty_cut (field_text form "halow_pass") SETTINGS_MAX_PASS (cstr (halow_pass c)),
   nonempty_cut (field_text form "ap_ssid") SETTINGS_MAX_SSID (cstr (ap_ssid c)),
   nonempty_cut (field_text form "ap_pass") SETTINGS_MAX_PASS (cstr (ap_pass c)),
   nonempty_cut (field_text form "country") SETTINGS_MAX_COUNTRY (cstr (country c)),
   number_or (field_text form "buffer_preset") BUFFER_PRESET_SMALL BUFFER_PRESET_LARGE (buffer_preset c),
   number_or (field_text form "lang") LANG_EN LANG_ZH (lang c)).

(** ** Lemmas *)

Lemma holds_cstr v b n : holds v b n -> zlen b = n /\ terminated b /\ cstr b = cstr (take (Z.to_nat (n - 1)) v).
Proof.
  intros [Hl [r ->]]. split; [done|]. split; [apply terminated_app|apply cstr_app_nul].
Qed.

Lemma names_no_nul : Forall (fun n => no_nul (lit n)) form_names.
Proof. by_decide. Qed.

Lemma rd0_cstr b : terminated b -> exists c, rd b 0 = Ok c /\ (c = 0 <-> cstr b = []).
Proof.
  destruct b as [|c b]; [by intros ?%elem_of_nil|]. intros _. exists c. split; [done|].
  cbn. case_decide; naive_solver.
Qed.

Lemma take_field_Ok buf name max tmp field :
  terminated buf -> no_nul (lit name) -> zlen tmp = MAX_FORM_FIELD -> 0 < max -> zlen field = max ->
  terminated field ->
  exists tmp' field', take_field buf name max (tmp, field) = Ok (tmp', field') /\
    zlen tmp' = MAX_FORM_FIELD /\ zlen field' = max /\ terminated field' /\
    cstr field' = nonempty_cut (field_text (cstr buf) name) max (cstr field).
Proof.
  intros Hb Hn Ht Hm Hf Htf. unfold take_field.
  destruct (parse_form_field_Ok buf (lit name) tmp MAX_FORM_FIELD Hb Hn) as (p & tmp' & -> & _ & Hh);
    [done|done|].
  cbn [mbind outcome_bind]. apply holds_cstr in Hh as (Hl & Htt & Hc). fold (field_text (cstr buf) name) in Hc.
  destruct (rd0_cstr tmp' Htt) as (c & -> & Hc0). cbn [mbind outcome_bind]. unfold nonempty_cut.
  destruct (decide (c = 0)) as [->|Hne].
  - rewrite decide_False by (intros []; done). do 2 eexists. split; [done|]. split_and!; try done.
    rewrite decide_True; [done|]. rewrite <- Hc. by apply Hc0.
  - rewrite (decide_True (P := c <> 0)) by done.
    destruct (strncpy_terminate field tmp' max Hm Hf Htt) as (f' & E & Hl' & Ht' & Hc').
    destruct (strncpy field tmp' (max - 1)) as [f1|]; [|done]. cbn [mbind outcome_bind] in *.
    rewrite E. cbn [mbind outcome_bind]. do 2 eexists. split; [done|]. split_and!; try done.
    rewrite Hc', Hc, decide_False; [done|]. rewrite <- Hc. naive_solver.
Qed.

Lemma take_number_Ok buf name lo hi tmp cur :
  terminated buf -> no_nul (lit name) -> zlen tmp = MAX_FORM_FIELD -> 0 <= lo -> hi < 256 ->
  exists tmp', take_number buf name lo hi (tmp, cur) =
      Ok (tmp', number_or (field_text (cstr buf) name) lo hi cur) /\ zlen tmp' = MAX_FORM_FIELD.
Proof.
  intros Hb Hn Ht Hlo Hhi. unfold take_number.
  destruct (parse_form_field_Ok buf (lit name) tmp MAX_FORM_FIELD Hb Hn) as (p & tmp' & -> & _ & Hh);
    [done|done|].
  cbn [mbind outcome_bind]. apply holds_cstr in Hh as (Hl & Htt & Hc). fold (field_text (cstr buf) name) in Hc.
  destruct (rd0_cstr tmp' Htt) as (c & -> & Hc0). cbn [mbind outcome_bind]. unfold number_or.
  exists tmp'. split; [|done]. destruct (decide (c = 0)) as [->|Hne].
  - rewrite decide_False by (intros []; done). rewrite decide_False; [done|].
    rewrite <- Hc. naive_solver.
  - rewrite (decide_True (P := c <> 0)) by done. rewrite Hc.
    assert (Hv : field_text (cstr buf) name <> []) by (rewrite <- Hc; naive_solver).
    do 2 f_equal. destruct (decide (lo <= atoi (field_text (cstr buf) name) /\ _)) as [[? ?]|Hr].
    + rewrite decide_True by done. apply u8_id. zlia.
    + rewrite decide_False; [done|]. naive_solver.
Qed.

(** Junk settings are arrays of the right size. *)
Lemma junk_sized junk : sized_junk junk -> sized (junk_settings junk).
Proof. intros H. split; cbn; by apply H. Qed.

Lemma apply_form_Ok junk buf c :
  sized_junk junk -> terminated buf -> wf c ->
  exists c', apply_form junk buf c = Ok c' /\ wf c' /\ meaning c' = updated (cstr buf) c.
Proof.
  intros Hj Hb [[Ha1 Ha2 Ha3 Ha4 Ha5] H1 H2 H3 H4 H5 H6 H7]. unfold apply_form.
  pose proof names_no_nul as Hn. unfold form_names in Hn.
  rewrite !Forall_cons_iff in Hn. destruct Hn as (N1 & N2 & N3 & N4 & N5 & N6 & N7 & _).
  destruct (take_field_Ok buf "halow_ssid" SETTINGS_MAX_SSID (junk MAX_FORM_FIELD) (halow_ssid c))
    as (t1 & f1 & -> & L1 & S1 & T1 & C1); try done; [by apply Hj|]. cbn [mbind outcome_bind].
  destruct (take_field_Ok buf "halow_pass" SETTINGS_MAX_PASS t1 (halow_pass c))
    as (t2 & f2 & -> & L2 & S2 & T2 & C2); try done. cbn [mbind outcome_bind].
  destruct (take_field_Ok buf "ap_ssid" SETTINGS_MAX_SSID t2 (ap_ssid c))
    as (t3 & f3 & -> & L3 & S3 & T3 & C3); try done. cbn [mbind outcome_bind].
  destruct (take_field_Ok buf "ap_pass" SETTINGS_MAX_PASS t3 (ap_pass c))
    as (t4 & f4 & -> & L4 & S4 & T4 & C4); try done. cbn [mbind outcome_bind].
  destruct (take_field_Ok buf "country" SETTINGS_MAX_COUNTRY t4 (country c))
    as (t5 & f5 & -> & L5 & S5 & T5 & C5); try done. cbn [mbind outcome_bind].
  destruct (take_number_Ok buf "buffer_preset" BUFFER_PRESET_SMALL BUFFER_PRESET_LARGE t5 (buffer_preset c))
    as (t6 & -> & L6); try done. cbn [mbind outcome_bind].
  destruct (take_number_Ok buf "lang" LANG_EN LANG_ZH t6 (lang c)) as (t7 & -> & L7); try done.
  cbn [mbind outcome_bind]. eexists. split; [done|]. split.
  - assert (Hnum : forall v lo hi old, lo <= old <= hi -> lo <= number_or v lo hi old <= hi).
    { intros. unfold number_or. case_decide; lia. }
    split; cbn; try done; [exact (Hnum _ BUFFER_PRESET_SMALL BUFFER_PRESET_LARGE _ H6)|
      exact (Hnum _ LANG_EN LANG_ZH _ H7)].
  - unfold meaning, updated. cbn. by rewrite C1, C2, C3, C4, C5.
Qed.

(** One request body, received whole. *)
Definition whole_body (content_len : Z) (body : bytes) : Prop :=
  0 < content_len <= 1024 /\ 0 < zlen body <= content_len.

Definition save_answer {S} (r : bool * S) : Z * list action * S :=
  if fst r then
    (ESP_OK, [SetStatus (lit "302 Found"); SetHdr (lit "Location") (lit "/?saved=1"); Send []], snd r)
  else (ESP_FAIL, [SendErr HTTPD_500_INTERNAL_SERVER_ERROR (lit "Save failed")], snd r).

Lemma save_Ok {S} `{!Nvs S} junk malloc (s : S) content_len body :
  sized_junk junk -> malloc (content_len + 1) = true -> whole_body content_len body ->
  exists c c', settings_load s (junk_settings junk) = Ok c /\ wf c' /\
    meaning c' = updated (cstr (body ++ [0])) c /\
    save_post_handler junk malloc s content_len (zlen body) body = Ok (save_answer (settings_save c' s)).
Proof.
  intros Hj Hm [Hc Hb]. unfold save_post_handler.
  rewrite (decide_False (P := content_len <= 0 \/ _)) by lia. rewrite Hm.
  rewrite (decide_False (P := zlen body <= 0)) by lia.
  assert (Hjl : zlen (junk (content_len + 1)) = content_len + 1) by (apply Hj; lia).
  rewrite wrn_Ok by lia. cbn [mbind outcome_bind]. change (Z.to_nat 0) with 0%nat.
  assert (Hs : zlen (splice 0 body (junk (content_len + 1))) = content_len + 1)
    by (rewrite length_splice; lia).
  rewrite wr_Ok by lia. cbn [mbind outcome_bind].
  set (buf := <[_:=0]> _).
  assert (Hbuf : exists r, buf = body ++ 0 :: r).
  { subst buf. rewrite insert_take_drop by lia. unfold splice. rewrite take_0. cbn [app].
    rewrite Nat2Z.id, take_app_length. by eexists. }
  destruct Hbuf as [r ->]. destruct (load_ok s (junk_settings junk)) as (c & E & Hwf).
  { by apply junk_sized. }
  rewrite E. cbn [mbind outcome_bind].
  destruct (apply_form_Ok junk (body ++ 0 :: r) c) as (c' & -> & Hwf' & Hmean); [done|apply terminated_app|done|].
  cbn [mbind outcome_bind]. exists c, c'. split; [done|]. split; [done|]. split.
  { by rewrite Hmean, !cstr_app_nul. }
  unfold save_answer. by destruct (settings_save c' s) as [[] s'].
Qed.

(** The text of the page's parts fits the block [page_len] asks for. *)
Lemma sel_len b : zlen (sel b) <= 9.
Proof. by destruct b. Qed.

Lemma sel_no_nul b : no_nul (sel b).
Proof. destruct b; [by_decide|constructor]. Qed.

Lemma rssi_text_short rssi : zlen (rssi_text rssi) < 24 /\ no_nul (rssi_text rssi).
Proof.
  unfold rssi_text. case_decide; [split; by_decide|]. split.
  - pose proof (format_len (lit "%ld dBm") [AInt rssi]) as H1. cbn [args_len arg_text] in H1.
    pose proof (fmt_d_len rssi). assert (zlen (lit "%ld dBm") = 7) by done. lia.
  - apply format_no_nul; [by_decide|]. constructor; [apply fmt_d_no_nul|done].
Qed.

Lemma page_fits L lg bp rssi saved a b c d e :
  zlen (format page_format (page_args L lg bp rssi saved a b c d e)) < page_len L rssi saved a b c d e.
Proof.
  eapply Z.le_lt_trans; [apply format_len|]. rewrite page_format_len. unfold page_args, page_len.
  cbv zeta. cbn [args_len arg_text].
  pose proof (sel_len (bool_decide (bp = BUFFER_PRESET_1))). pose proof (sel_len (bool_decide (bp = BUFFER_PRESET_2))).
  pose proof (sel_len (bool_decide (bp = BUFFER_PRESET_3))). pose proof (sel_len (bool_decide (lg = LANG_EN))).
  pose proof (sel_len (bool_decide (lg = LANG_ES))). pose proof (sel_len (bool_decide (lg = LANG_ZH))).
  pose proof (fmt_d_len lg). pose proof (fmt_d_len (SETTINGS_MAX_SSID - 1)).
  pose proof (fmt_d_len (SETTINGS_MAX_PASS - 1)). pose proof (fmt_d_len (SETTINGS_MAX_COUNTRY - 1)).
  lia.
Qed.

Lemma page_no_nul L lg bp rssi saved a b c d e :
  L ∈ lang_str -> Forall no_nul [rssi; saved; a; b; c; d; e] ->
  no_nul (format page_format (page_args L lg bp rssi saved a b c d e)).
Proof.
  intros HL H. apply format_no_nul; [apply page_format_no_nul|].
  pose proof lang_strings_no_nul as HN. rewrite list.Forall_forall in HN. specialize (HN L HL).
  unfold all_strings in HN. rewrite !Forall_cons_iff in H. rewrite !Forall_cons_iff in HN. destruct_and?.
  unfold page_args. cbv zeta. repeat (apply Forall_cons_2; [cbn [arg_text]|]);
    first [apply fmt_d_no_nul|apply sel_no_nul|done|constructor].
Qed.

Lemma escaped_ok junk inp n :
  sized_junk junk -> 0 < n -> zlen inp = n -> terminated inp ->
  exists out, html_escape inp (junk (n * 6)) (n * 6) = Ok out /\ cstr out = esc (cstr inp).
Proof.
  intros Hj Hn Hl Ht. pose proof (cstr_len inp Ht).
  destruct (html_escape_Ok inp (junk (n * 6)) (n * 6)) as (o & E & _ & _ & Ho);
    [done|lia|apply Hj; lia|]. by exists o.
Qed.

(** The message after a save, and the response with the page. *)
Definition saved_text (L : lang_strings) (query_len query_err : Z) (query : bytes) : bytes :=
  if decide (query_len > 0 /\ query_err = ESP_OK /\ strstr_found (cstr query) (lit "saved=1") = true)
  then format saved_format [AStr (saved_msg L)] else [].

Lemma saved_ok junk L ql qe q buf :
  sized_junk junk -> L ∈ lang_str -> wr (junk 256) 0 0 = Ok buf ->
  exists r b, (if decide (ql > 0 /\ qe = ESP_OK /\ strstr_found (cstr q) (lit "saved=1") = true)
     then snprintf buf 0 256 (format saved_format [AStr (saved_msg L)]) else Ok (0, buf)) = Ok (r, b) /\
    cstr b = saved_text L ql qe q.
Proof.
  intros Hj HL Hw. assert (Hl : zlen (junk 256) = 256) by (apply Hj; lia).
  rewrite wr_Ok in Hw by lia. injection Hw as <-. unfold saved_text. case_decide.
  - pose proof lang_strings_no_nul as HN. rewrite list.Forall_forall in HN. specialize (HN L HL).
    pose proof lang_strings_short as HS. rewrite list.Forall_forall in HS. specialize (HS L HL). cbn beta in HS.
    unfold all_strings in HN. rewrite !Forall_cons_iff in HN. destruct_and?.
    pose proof (format_len saved_format [AStr (saved_msg L)]) as HF. cbn [args_len arg_text] in HF.
    assert (zlen saved_format < 64) by (vm_compute; done).
    destruct (snprintf_fits (<[Z.to_nat 0:=0]> (junk 256)) 256 (format saved_format [AStr (saved_msg L)]))
      as (b & E & _ & _ & Hb); [lia|by rewrite length_insert| |].
    + apply format_no_nul; [by_decide|]. by constructor.
    + rewrite E. by exists (zlen (format saved_format [AStr (saved_msg L)])), b.
  - do 2 eexists. split; [done|]. destruct (junk 256) as [|x l]; [done|]. reflexivity.
Qed.

Definition page_answer (ok : bool) (body : bytes) : Z * list action :=
  if ok then (ESP_OK, [SetHdr (lit "Content-Type") (lit "text/html; charset=utf-8"); Send body])
  else (ESP_FAIL, [SendErr HTTPD_500_INTERNAL_SERVER_ERROR (lit "Out of memory")]).

Lemma language_known c : wf c -> exists L, lang_str !! Z.to_nat (get_lang (lang c)) = Some L /\ get_lang (lang c) = lang c.
Proof.
  intros []. unfold get_lang. rewrite decide_True by lia.
  destruct (lookup_lt_is_Some_2 lang_str (Z.to_nat (lang c))) as [L HL]; [|by exists L].
  unfold LANG_ZH in *. cbn [length lang_str]. lia.
Qed.

(** ** Properties *)

(** C17: [get_handler] for every store, signal strength and query: the settings are
    loaded, and when the block of [html_len] octets is there the response is
    the whole page in the language of the settings, its fields the stored
    strings escaped; nothing is cut, no octet is written outside a buffer.
    Without the block the response is status 500. *)
Theorem get_handler_page {S} `{!Nvs S} junk malloc (s : S) rssi query_len query_err query :
  sized_junk junk ->
  exists c L, settings_load s (junk_settings junk) = Ok c /\ wf c /\
    lang_str !! Z.to_nat (lang c) = Some L /\
    let saved := saved_text L query_len query_err query in
    let e f := esc (cstr (f c)) in
    get_handler junk malloc s rssi query_len query_err query =
      Ok (page_answer
            (malloc (page_len L (rssi_text rssi) saved (e halow_ssid) (e halow_pass) (e ap_ssid)
                       (e ap_pass) (e country)))
            (format page_format
               (page_args L (lang c) (buffer_preset c) (rssi_text rssi) saved (e halow_ssid)
                  (e halow_pass) (e ap_ssid) (e ap_pass) (e country)))).
Proof.
  intros Hj. destruct (load_ok s (junk_settings junk)) as (c & E & Hwf); [by apply junk_sized|].
  destruct (language_known c Hwf) as (L & HL & Hlg). exists c, L. split; [done|]. split; [done|].
  rewrite <- Hlg at 1. split; [done|]. cbv zeta. unfold get_handler. rewrite E. cbn [mbind outcome_bind].
  rewrite HL, Hlg. pose proof Hwf as [[] ???????].
  apply list_elem_of_lookup_2 in HL as HLin.
  destruct (escaped_ok junk (halow_ssid c) SETTINGS_MAX_SSID) as (o1 & -> & C1); [done..|]. cbn [mbind outcome_bind].
  destruct (escaped_ok junk (halow_pass c) SETTINGS_MAX_PASS) as (o2 & -> & C2); [done..|]. cbn [mbind outcome_bind].
  destruct (escaped_ok junk (ap_ssid c) SETTINGS_MAX_SSID) as (o3 & -> & C3); [done..|]. cbn [mbind outcome_bind].
  destruct (escaped_ok junk (ap_pass c) SETTINGS_MAX_PASS) as (o4 & -> & C4); [done..|]. cbn [mbind outcome_bind].
  destruct (escaped_ok junk (country c) SETTINGS_MAX_COUNTRY) as (o5 & -> & C5); [done..|]. cbn [mbind outcome_bind].
  assert (Hw : wr (junk 256) 0 0 = Ok (<[0%nat:=0]> (junk 256))).
  { rewrite wr_Ok; [done|]. rewrite Hj; lia. }
  rewrite Hw. cbn [mbind outcome_bind].
  destruct (saved_ok junk L query_len query_err query _ Hj HLin Hw) as (r & b & -> & Cb). cbn [mbind outcome_bind].
  destruct (rssi_text_short rssi) as [Hr1 Hr2].
  destruct (snprintf_fits (junk 24) 24 (rssi_text rssi)) as (rs & -> & _ & _ & Cr); [done|by apply Hj|done|].
  cbn [mbind outcome_bind]. rewrite Cr, Cb, C1, C2, C3, C4, C5.
  rewrite (decide_True (P := buffer_preset c <= BUFFER_PRESET_LARGE)) by (unfold BUFFER_PRESET_LARGE in *; lia).
  set (n := page_len _ _ _ _ _ _ _ _). destruct (malloc n); [|done].
  match goal with |- context [snprintf (junk n) 0 n ?t] => set (text := t) end.
  assert (Hn : zlen text < n) by apply page_fits.
  assert (Hnn : no_nul text).
  { apply page_no_nul; [done|]. repeat (apply Forall_cons_2; [first [done|apply esc_no_nul, cstr_no_nul|rewrite <- Cb; apply cstr_no_nul]|]).
    constructor. }
  destruct (snprintf_fits (junk n) n text) as (html & -> & Hlen & Ht & Hc); [done|apply Hj; lia|done|].
  cbn [mbind outcome_bind]. rewrite strlen_Ok by done. cbn [mbind outcome_bind].
  destruct (terminated_split html Ht) as [tl Htl]. rewrite Hc in *.
  rewrite Htl, (rdn_tail_at _ 0 text (0 :: tl)); [done|apply tail_at_0|done].
Qed.

Definition ex_junk (n : Z) : bytes := replicate (Z.to_nat n) 0xA5.

Lemma ex_junk_sized : sized_junk ex_junk.
Proof. intros n Hn. unfold ex_junk. rewrite length_replicate. lia. Qed.

Lemma get_handler_page_witness :
  exists c L, settings_load ex_empty (junk_settings ex_junk) = Ok c /\ wf c /\
    lang_str !! Z.to_nat (lang c) = Some L /\
    let saved := saved_text L 7 ESP_OK (lit "saved=1" ++ [0]) in
    let e f := esc (cstr (f c)) in
    get_handler ex_junk (fun _ => true) ex_empty (-71) 7 ESP_OK (lit "saved=1" ++ [0]) =
      Ok (page_answer true
            (format page_format
               (page_args L (lang c) (buffer_preset c) (rssi_text (-71)) saved (e halow_ssid)
                  (e halow_pass) (e ap_ssid) (e ap_pass) (e country)))).
Proof.
  apply (get_handler_page ex_junk (fun _ => true) ex_empty (-71) 7 ESP_OK (lit "saved=1" ++ [0])), ex_junk_sized.
Defined.

(** C16: [save_post_handler] on a request body received whole: every access is
    inside its array, each field of the form that has a value replaces the
    setting (cut to its array, numbers only when in range), the others are
    kept, the result is saved and the answer tells the result of
    [settings_save]: a redirection to [/?saved=1], or status 500. *)
Theorem save_post_handler_saves {S} `{!Nvs S} junk malloc (s : S) content_len body :
  sized_junk junk -> malloc (content_len + 1) = true -> whole_body content_len body ->
  exists c c', settings_load s (junk_settings junk) = Ok c /\ wf c' /\
    meaning c' = updated (cstr (body ++ [0])) c /\
    save_post_handler junk malloc s content_len (zlen body) body = Ok (save_answer (settings_save c' s)).
Proof. apply save_Ok. Qed.

Definition ex_body : bytes := lit "lang=2&halow_ssid=my+net&buffer_preset=7&ap_pass=%C3%B1".

Lemma save_post_handler_saves_witness :
  exists c c', settings_load ex_empty (junk_settings ex_junk) = Ok c /\ wf c' /\
    meaning c' = updated (cstr (ex_body ++ [0])) c /\
    save_post_handler ex_junk (fun _ => true) ex_empty 56 (zlen ex_body) ex_body =
      Ok (save_answer (settings_save c' ex_empty)).
Proof.
  apply (save_post_handler_saves ex_junk (fun _ => true) ex_empty 56 ex_body);
    [apply ex_junk_sized|reflexivity|by_decide].
Defined.

(** The text a browser's value leaves in a settings array. *)
Definition typed (l : list (bytes * bytes)) (name : string) : bytes :=
  cstr (take (Z.to_nat (MAX_FORM_FIELD - 1)) (assoc (lit name) l)).

(** The settings a form with all seven values stands for. *)
Definition asked (l : list (bytes * bytes)) : bytes * bytes * bytes * bytes * bytes * Z * Z :=
  (take (Z.to_nat (SETTINGS_MAX_SSID - 1)) (typed l "halow_ssid"),
   take (Z.to_nat (SETTINGS_MAX_PASS - 1)) (typed l "halow_pass"),
   take (Z.to_nat (SETTINGS_MAX_SSID - 1)) (typed l "ap_ssid"),
   take (Z.to_nat (SETTINGS_MAX_PASS - 1)) (typed l "ap_pass"),
   take (Z.to_nat (SETTINGS_MAX_COUNTRY - 1)) (typed l "country"),
   atoi (typed l "buffer_preset"), atoi (typed l "lang")).

Definition complete (l : list (bytes * bytes)) : Prop :=
  names_plain l /\ Forall (fun n => typed l n <> []) form_names /\
  BUFFER_PRESET_SMALL <= atoi (typed l "buffer_preset") <= BUFFER_PRESET_LARGE /\
  LANG_EN <= atoi (typed l "lang") <= LANG_ZH.

Lemma updated_complete l c : complete l -> updated (cstr (enc_form l ++ [0])) c = asked l.
Proof.
  intros (Hp & Hne & Hb & Hg). rewrite cstr_app by by apply enc_form_no_nul.
  assert (Ht : forall n, n ∈ form_names -> field_text (enc_form l) n = typed l n).
  { intros n Hn. unfold field_text, typed. rewrite form_value_enc; [done| |done].
    assert (Hpl : Forall (fun n => forallb is_plain (lit n) = true) form_names) by by_decide.
    rewrite list.Forall_forall in Hpl. by apply Hpl. }
  unfold form_names in *. rewrite !Forall_cons_iff in Hne. destruct_and?.
  unfold updated, asked. rewrite !Ht by (rewrite !elem_of_cons; tauto).
  unfold nonempty_cut, number_or. by rewrite !decide_False, !decide_True by done.
Qed.

(** C3: what is typed is what the bridge uses after the next boot: when a browser
    posts the form with a value in every field, preset and language in range,
    and the store has room, then the handler answers with the redirection and
    the settings loaded from the new store are the typed values, cut to their
    arrays. *)
Theorem posted_form_is_loaded {S} `{!Nvs S} (Room : S -> Prop) junk malloc (s : S) content_len l out :
  sized_junk junk -> malloc (content_len + 1) = true -> whole_body content_len (enc_form l) ->
  complete l -> roomy Room -> Room s -> sized out ->
  (forall t : S, nvs_open NVS_READWRITE t = ESP_OK /\ fst (nvs_commit t) = ESP_OK) ->
  exists s' answer c, save_post_handler junk malloc s content_len (zlen (enc_form l)) (enc_form l) =
      Ok (ESP_OK, SetStatus (lit "302 Found") :: answer, s') /\
    settings_load s' out = Ok c /\ meaning c = asked l.
Proof.
  intros Hj Hm Hw Hl Hr Hs Hout Hok.
  destruct (save_Ok junk malloc s content_len (enc_form l)) as (c & c' & _ & Hwf & Hmean & ->); [done..|].
  rewrite (updated_complete l c Hl) in Hmean.
  assert (Hsave : fst (settings_save c' s) = true).
  { unfold settings_save. rewrite decide_False by (intros []; apply Hok).
    destruct (nvs_commit _) as [err s1] eqn:E. cbn. apply bool_decide_true.
    pose proof (proj2 (Hok (settings_write c' s))) as H. by rewrite E in H. }
  destruct (settings_save c' s) as [b s'] eqn:E. cbn in Hsave. subst b.
  destruct (save_then_load Room s s' c' out) as (d & Hd & Hmd); try done; [apply Hok|].
  exists s', [SetHdr (lit "Location") (lit "/?saved=1"); Send []], d. split; [done|]. split; [done|].
  by rewrite Hmd.
Qed.

Definition ex_typed : list (bytes * bytes) :=
  [(lit "lang", lit "2"); (lit "halow_ssid", lit "my net & co"); (lit "halow_pass", lit "50%+1=?");
   (lit "ap_ssid", lit "casa \xc3\xb1"); (lit "ap_pass", lit "letmein111"); (lit "country", lit "AU");
   (lit "buffer_preset", lit "0")].

Lemma posted_form_is_loaded_witness :
  exists s' answer c,
    save_post_handler ex_junk (fun _ => true) ex_empty 200 (zlen (enc_form ex_typed)) (enc_form ex_typed) =
      Ok (ESP_OK, SetStatus (lit "302 Found") :: answer, s') /\
    settings_load s' (junk_settings ex_junk) = Ok c /\ meaning c = asked ex_typed.
Proof.
  apply (posted_form_is_loaded (fun s => kv_full s = false) ex_junk (fun _ => true) ex_empty 200 ex_typed).
  - apply ex_junk_sized.
  - reflexivity.
  - by_decide.
  - split; [unfold names_plain; by_decide|]. split; [by_decide|]. by_decide.
  - split; intros k v s Hs; cbn; unfold kv_put; by rewrite Hs.
  - reflexivity.
  - apply junk_sized, ex_junk_sized.
  - by intros [].
Defined.

(** The answer does not depend on how much of the announced body arrived: a
    body cut by [httpd_req_recv] is saved like a whole one. *)
Lemma partial_body_is_saved :
  exists c', save_post_handler ex_junk (fun _ => true) ex_empty 200 14 (take 14 (lit "halow_ssid=myn")) =
    Ok (save_answer (settings_save c' ex_empty)) /\ cstr (halow_ssid c') = lit "myn".
Proof.
  destruct (save_Ok ex_junk (fun _ => true) ex_empty 200 (lit "halow_ssid=myn"))
    as (c & c' & _ & _ & Hmean & E); [apply ex_junk_sized|done|by_decide|].
  exists c'. split; [exact E|]. unfold meaning in Hmean.
  apply (f_equal (fun m => fst (fst (fst (fst (fst (fst m))))))) in Hmean. cbn [fst] in Hmean.
  rewrite Hmean. vm_compute. done.
Qed.

End WebConfig.
