(* ===== verification/MmPkt.v ===== *)
(** Driver packets: [framework/morselib/include/mmpkt.h].

    A packet made by [mmpkt_init_buf] lives in one block: header, data buffer,
    metadata.  The record holds the header's fields and the block's octets;
    pointers into the block are offsets from its start.  The abstract packet and
    its operations are those of [MmBuf]; here the metadata stays untouched and,
    when [MMPKT_DEBUG] is set, the open/closed protocol is checked. *)

From S2P Require Import Prelude Chain MmBuf.

Module MmPkt.
Import MmBuf(view, room_start, data, room_end, op, OPrepend, OAppend, ORemoveStart, ORemoveEnd,
  OTruncate, op_wf, spec, MM_FAST_ROUND_UP, round_up_4, view_eq).

(** ** Data *)

Definition MMPKT_DEBUG_MAGIC_OPENED : Z := 0x08254759.
Definition MMPKT_DEBUG_MAGIC_CLOSED : Z := 0xdeaddead.
Definition UINT32_MAX : Z := 0xFFFFFFFF.

(** [const struct mmpkt_ops *]: the pools tell apart their free functions. *)
Definition mmpkt_ops := nat.

Record mmpkt := {
  mem : bytes;
  buf : Z;
  buf_len : Z;
  start_offset : Z;
  data_len : Z;
  metadata : option Z;
  ops : option mmpkt_ops;
  next : ptr;
  debug_magic : Z;
}.

Definition set_window (m : mmpkt) (start len : Z) : mmpkt :=
  {| mem := mem m; buf := buf m; buf_len := buf_len m; start_offset := start; data_len := len;
     metadata := metadata m; ops := ops m; next := next m; debug_magic := debug_magic m |}.

Definition set_mem (m : mmpkt) (b : bytes) : mmpkt :=
  {| mem := b; buf := buf m; buf_len := buf_len m; start_offset := start_offset m;
     data_len := data_len m; metadata := metadata m; ops := ops m; next := next m;
     debug_magic := debug_magic m |}.

Definition set_magic (m : mmpkt) (g : Z) : mmpkt :=
  {| mem := mem m; buf := buf m; buf_len := buf_len m; start_offset := start_offset m;
     data_len := data_len m; metadata := metadata m; ops := ops m; next := next m;
     debug_magic := g |}.

Definition set_metadata (m : mmpkt) (p : Z) : mmpkt :=
  {| mem := mem m; buf := buf m; buf_len := buf_len m; start_offset := start_offset m;
     data_len := data_len m; metadata := Some p; ops := ops m; next := next m;
     debug_magic := debug_magic m |}.

Definition mmpkt_get_next (m : mmpkt) : ptr := next m.

Definition mmpkt_set_next (m : mmpkt) (n : ptr) : mmpkt :=
  {| mem := mem m; buf := buf m; buf_len := buf_len m; start_offset := start_offset m;
     data_len := data_len m; metadata := metadata m; ops := ops m; next := n;
     debug_magic := debug_magic m |}.

Definition mmpkt_get_metadata (m : mmpkt) : option Z := metadata m.
Definition mmpkt_peek_data_length (m : mmpkt) : Z := data_len m.

(** ** Operations *)

Section Debug.
  (** [MMPKT_DEBUG] *)
  Context (debug : bool).

  (** [sizeof (struct mmpkt)] on the 32-bit target *)
Definition sizeof_mmpkt : Z := if debug then 32 else 28.

Definition mmpkt_init (mem : bytes) (buf buf_len data_start_offset : Z) (ops : option mmpkt_ops) : mmpkt :=
    {| mem := mem; buf := buf; buf_len := buf_len; start_offset := data_start_offset; data_len := 0;
       metadata := None; ops := ops; next := None;
       debug_magic := if debug then MMPKT_DEBUG_MAGIC_CLOSED else 0 |}.

Definition mmpkt_init_buf (block : bytes) (buf_len space_at_start space_at_end metadata_size : Z)
      (ops : option mmpkt_ops) : outcome (option mmpkt) :=
    let header_size := MM_FAST_ROUND_UP sizeof_mmpkt 4 in
    let metadata_size := MM_FAST_ROUND_UP metadata_size 4 in
    let place data_len :=
      if decide (u32 (header_size + data_len + metadata_size) > buf_len) then Ok None
      else
        let data_start := header_size in
        let m := mmpkt_init block data_start data_len space_at_start ops in
        if decide (metadata_size <> 0) then
          let m := set_metadata m (data_start + data_len) in
          b ← wrn (mem m) (data_start + data_len) (replicate (Z.to_nat metadata_size) 0);
          Ok (Some (set_mem m b))
        else Ok (Some m) in
    if decide (space_at_end <> UINT32_MAX) then
      place (MM_FAST_ROUND_UP (u32 (space_at_start + space_at_end)) 4)
    else
      let data_len := Z.land (u32 (buf_len - header_size - metadata_size)) 0xFFFFFFFC in
      if decide (s32 data_len < s32 space_at_start) then Ok None else place data_len.

Definition check_magic (m : mmpkt) (g : Z) : outcome unit :=
    if debug then assert (bool_decide (debug_magic m = g)) else Ok tt.

Definition mmpkt_open (m : mmpkt) : outcome mmpkt :=
    check_magic m MMPKT_DEBUG_MAGIC_CLOSED ;;
    Ok (if debug then set_magic m MMPKT_DEBUG_MAGIC_OPENED else m).

Definition mmpkt_close (m : mmpkt) : outcome mmpkt :=
    check_magic m MMPKT_DEBUG_MAGIC_OPENED ;;
    Ok (if debug then set_magic m MMPKT_DEBUG_MAGIC_CLOSED else m).

Definition mmpkt_get_data_start (m : mmpkt) : outcome Z :=
    check_magic m MMPKT_DEBUG_MAGIC_OPENED ;; Ok (buf m + start_offset m).

Definition mmpkt_get_data_end (m : mmpkt) : outcome Z :=
    check_magic m MMPKT_DEBUG_MAGIC_OPENED ;; Ok (buf m + start_offset m + data_len m).

Definition mmpkt_get_data_length (m : mmpkt) : outcome Z :=
    check_magic m MMPKT_DEBUG_MAGIC_OPENED ;; Ok (data_len m).

Definition mmpkt_available_space_at_start (m : mmpkt) : outcome Z :=
    check_magic m MMPKT_DEBUG_MAGIC_OPENED ;; Ok (start_offset m).

Definition mmpkt_available_space_at_end (m : mmpkt) : outcome Z :=
    check_magic m MMPKT_DEBUG_MAGIC_OPENED ;;
    Ok (u32 (buf_len m - u32 (start_offset m + data_len m))).

Definition mmpkt_prepend (m : mmpkt) (len : Z) : outcome (Z * mmpkt) :=
    check_magic m MMPKT_DEBUG_MAGIC_OPENED ;;
    avail ← mmpkt_available_space_at_start m;
    assert (bool_decide (len <= avail)) ;;
    let m := set_window m (u32 (start_offset m - len)) (u32 (data_len m + len)) in
    Ok (buf m + start_offset m, m).

Definition mmpkt_prepend_data (m : mmpkt) (d : bytes) : outcome mmpkt :=
    '(dest, m) ← mmpkt_prepend m (zlen d);
    b ← wrn (mem m) dest d; Ok (set_mem m b).

Definition mmpkt_append (m : mmpkt) (len : Z) : outcome (Z * mmpkt) :=
    check_magic m MMPKT_DEBUG_MAGIC_OPENED ;;
    ret ← mmpkt_get_data_end m;
    avail ← mmpkt_available_space_at_end m;
    assert (bool_decide (len <= avail)) ;;
    Ok (ret, set_window m (start_offset m) (u32 (data_len m + len))).

Definition mmpkt_append_data (m : mmpkt) (d : bytes) : outcome mmpkt :=
    '(dest, m) ← mmpkt_append m (zlen d);
    b ← wrn (mem m) dest d; Ok (set_mem m b).

Definition mmpkt_adjust_start_offset (m : mmpkt) (delta : Z) : outcome mmpkt :=
    assert (bool_decide (data_len m = 0)) ;;
    let m := set_window m (u32 (start_offset m + delta)) (data_len m) in
    assert (bool_decide (start_offset m <= buf_len m)) ;; Ok m.

Definition mmpkt_remove_from_start (m : mmpkt) (len : Z) : outcome (option Z * mmpkt) :=
    check_magic m MMPKT_DEBUG_MAGIC_OPENED ;;
    l ← mmpkt_get_data_length m;
    if decide (l < len) then Ok (None, m)
    else
      ret ← mmpkt_get_data_start m;
      Ok (Some ret, set_window m (u32 (start_offset m + len)) (u32 (data_len m - len))).

Definition mmpkt_remove_from_end (m : mmpkt) (len : Z) : outcome (option Z * mmpkt) :=
    check_magic m MMPKT_DEBUG_MAGIC_OPENED ;;
    l ← mmpkt_get_data_length m;
    if decide (l < len) then Ok (None, m)
    else
      e ← mmpkt_get_data_end m;
      Ok (Some (e - len), set_window m (start_offset m) (u32 (data_len m - len))).

Definition mmpkt_truncate (m : mmpkt) (len : Z) : outcome mmpkt :=
    assert (bool_decide (len <= data_len m)) ;; Ok (set_window m (start_offset m) len).

Definition mmpkt_contains_ptr (m : mmpkt) (p : Z) : outcome bool :=
    check_magic m MMPKT_DEBUG_MAGIC_OPENED ;;
    Ok (bool_decide (buf m <= p) && bool_decide (p < buf m + buf_len m)).

(** ** Specification: an abstract packet that is open or closed *)

Inductive pkt_op :=
| POpen
| PClose
| PData (o : op)
| PAdjust (delta : Z).

Definition read_back (m : mmpkt) (p : option Z) (n : Z) : outcome (option bytes) :=
    match p with
    | Some off => d ← rdn (mem m) off n; Ok (Some d)
    | None => Ok None
    end.

Definition run (m : mmpkt) (o : pkt_op) : outcome (option bytes * mmpkt) :=
    match o with
    | POpen => m ← mmpkt_open m; Ok (None, m)
    | PClose => m ← mmpkt_close m; Ok (None, m)
    | PData (OPrepend d) => m ← mmpkt_prepend_data m d; Ok (None, m)
    | PData (OAppend d) => m ← mmpkt_append_data m d; Ok (None, m)
    | PData (ORemoveStart n) =>
        '(p, m) ← mmpkt_remove_from_start m n; r ← read_back m p n; Ok (r, m)
    | PData (ORemoveEnd n) =>
        '(p, m) ← mmpkt_remove_from_end m n; r ← read_back m p n; Ok (r, m)
    | PData (OTruncate n) => m ← mmpkt_truncate m n; Ok (None, m)
    | PAdjust delta => m ← mmpkt_adjust_start_offset m delta; Ok (None, m)
    end.

Fixpoint run_all (m : mmpkt) (os : list pkt_op) : outcome (list (option bytes) * mmpkt) :=
    match os with
    | [] => Ok ([], m)
    | o :: os => '(r, m) ← run m o; '(rs, m) ← run_all m os; Ok (r :: rs, m)
    end.

  (** The abstract packet, and whether it is open; only with [MMPKT_DEBUG] is
      the second looked at.  [mmpkt_truncate] does not look at it. *)
Definition needs_open (o : op) : bool := match o with OTruncate _ => false | _ => true end.

Definition spec_pkt (s : view * bool) (o : pkt_op) : outcome (option bytes * (view * bool)) :=
    let (v, opened) := s in
    match o with
    | POpen => if debug && opened then Fail AssertFailed else Ok (None, (v, true))
    | PClose => if debug && negb opened then Fail AssertFailed else Ok (None, (v, false))
    | PData o =>
        if debug && needs_open o && negb opened then Fail AssertFailed
        else '(r, v) ← spec v o; Ok (r, (v, opened))
    | PAdjust delta =>
        if decide (data v = [] /\ 0 <= room_start v + delta <= room_start v + room_end v)
        then Ok (None, ({| room_start := room_start v + delta; data := [];
                           room_end := room_end v - delta |}, opened))
        else Fail AssertFailed
    end.

Fixpoint spec_all (s : view * bool) (os : list pkt_op) : outcome (list (option bytes) * (view * bool)) :=
    match os with
    | [] => Ok ([], s)
    | o :: os => '(r, s) ← spec_pkt s o; '(rs, s) ← spec_all s os; Ok (r :: rs, s)
    end.
End Debug.

Definition abs (m : mmpkt) : view :=
  {| room_start := start_offset m;
     data := window (Z.to_nat (buf m + start_offset m)) (Z.to_nat (data_len m)) (mem m);
     room_end := buf_len m - start_offset m - data_len m |}.

(** The object invariant: the header, the buffer and the metadata follow each
    other in the block. *)
Record wf (m : mmpkt) : Prop := {
  wf_u32 : zlen (mem m) < 2 ^ 31;
  wf_buf : 0 <= buf m;
  wf_buf_len : buf m + buf_len m <= zlen (mem m);
  wf_start : 0 <= start_offset m;
  wf_data : 0 <= data_len m;
  wf_fits : start_offset m + data_len m <= buf_len m;
}.

(** The octets outside the data buffer: header before it, metadata after. *)
Definition outside (m : mmpkt) : bytes * bytes :=
  (take (Z.to_nat (buf m)) (mem m), drop (Z.to_nat (buf m + buf_len m)) (mem m)).

(** With [MMPKT_DEBUG] the magic number tells whether the packet is open. *)
Definition magic_ok (debug opened : bool) (m : mmpkt) : Prop :=
  debug = true ->
  debug_magic m = if opened then MMPKT_DEBUG_MAGIC_OPENED else MMPKT_DEBUG_MAGIC_CLOSED.

Definition pkt_op_wf (o : pkt_op) : Prop :=
  match o with
  | PData o => op_wf o
  | PAdjust delta => - 2 ^ 31 <= delta < 2 ^ 31
  | _ => True
  end.

(** What no data operation changes. *)
Definition same_frame (m0 m : mmpkt) : Prop :=
  buf m = buf m0 /\ buf_len m = buf_len m0 /\ metadata m = metadata m0 /\ ops m = ops m0 /\
  outside m = outside m0.

Definition matches (debug : bool) (m0 : mmpkt) {R : Type} (c : outcome (R * mmpkt))
    (s : outcome (R * (view * bool))) : Prop :=
  match c, s with
  | Ok (r, m), Ok (r', (v, opened)) =>
      r = r' /\ abs m = v /\ wf m /\ magic_ok debug opened m /\ same_frame m0 m
  | Fail e, Fail e' => e = e'
  | _, _ => False
  end.

(** ** Lemmas *)

Lemma frame_refl m : same_frame m m.
Proof. done. Qed.

Lemma frame_trans m1 m2 m3 : same_frame m1 m2 -> same_frame m2 m3 -> same_frame m1 m3.
Proof. unfold same_frame. intuition congruence. Qed.

Lemma frame_window m s n : same_frame m (set_window m s n).
Proof. done. Qed.

Lemma pkt_abs_len m : wf m -> zlen (data (abs m)) = data_len m.
Proof. intros []. cbn. rewrite length_window; lia. Qed.

Lemma pkt_set_window_wf m s n :
  wf m -> 0 <= s -> 0 <= n -> s + n <= buf_len m -> wf (set_window m s n).
Proof. intros [] ???. by constructor. Qed.

Lemma check_open debug opened m :
  magic_ok debug opened m ->
  check_magic debug m MMPKT_DEBUG_MAGIC_OPENED = if debug && negb opened then Fail AssertFailed else Ok tt.
Proof.
  intros H. unfold check_magic. destruct debug; [|done]. rewrite (H eq_refl). by destruct opened.
Qed.

Lemma check_closed debug opened m :
  magic_ok debug opened m ->
  check_magic debug m MMPKT_DEBUG_MAGIC_CLOSED = if debug && opened then Fail AssertFailed else Ok tt.
Proof.
  intros H. unfold check_magic. destruct debug; [|done]. rewrite (H eq_refl). by destruct opened.
Qed.

Lemma check_now debug opened m :
  magic_ok debug opened m -> debug && negb opened = false ->
  check_magic debug m MMPKT_DEBUG_MAGIC_OPENED = Ok tt.
Proof. intros Hm Ho. rewrite (check_open _ opened) by done. by rewrite Ho. Qed.

(** Writing [d] inside the data buffer, the window then being [s, n]. *)
Lemma write_inside debug opened m s n off d :
  wf m -> magic_ok debug opened m -> 0 <= s -> 0 <= n -> s + n <= buf_len m ->
  buf m <= off -> off + zlen d <= buf m + buf_len m ->
  let m' := set_mem (set_window m s n) (splice (Z.to_nat off) d (mem m)) in
  wf m' /\ magic_ok debug opened m' /\ same_frame m m'.
Proof.
  intros [] Hg ?????. cbv zeta. split_and!.
  - constructor; cbn; rewrite ?length_splice; lia.
  - done.
  - split_and!; try done. unfold outside. cbn. f_equal.
    + change (take ?k ?l) with (window 0 k l) at 1. unfold window at 1. rewrite drop_0.
      change (take ?k ?l) with (window 0 k l) at 1. rewrite <- (drop_0 (mem m)) at 2.
      change (take ?k (drop 0 (mem m))) with (window 0 k (mem m)). apply window_splice_before; lia.
    + apply list_eq. intros i. rewrite !lookup_drop. unfold splice.
      rewrite lookup_app_r by (rewrite length_take; lia).
      rewrite lookup_app_r by (rewrite length_take; lia). rewrite lookup_drop, length_take. f_equal. lia.
Qed.

Lemma pkt_prepend_refines debug opened m d :
  wf m -> magic_ok debug opened m -> zlen d < 2 ^ 32 ->
  matches debug m (run debug m (PData (OPrepend d))) (spec_pkt debug (abs m, opened) (PData (OPrepend d))).
Proof.
  intros Hwf Hg Hd. pose proof Hwf as []. cbn [run spec_pkt]. unfold mmpkt_prepend_data, mmpkt_prepend.
  rewrite (check_open _ opened) by done. cbn [needs_open]. rewrite andb_true_r.
  destruct (debug && negb opened) eqn:Ho; [done|]. cbn [mbind outcome_bind spec abs room_start].
  unfold mmpkt_available_space_at_start. rewrite (check_now _ opened) by done. cbn [mbind outcome_bind].
  case_decide as Hc; [rewrite bool_decide_true by done|by rewrite bool_decide_false].
  cbn [assert mbind outcome_bind set_window start_offset mem MmPkt.buf]. rewrite !u32_id by zlia.
  rewrite wrn_Ok by lia. cbn [mbind outcome_bind matches].
  destruct (write_inside debug opened m (start_offset m - zlen d) (data_len m + zlen d)
    (buf m + (start_offset m - zlen d)) d) as (? & ? & ?); try done; try lia.
  split_and!; try done. apply view_eq; cbn; [done| |lia].
  replace (Z.to_nat (data_len m + zlen d)) with (length d + Z.to_nat (data_len m))%nat by lia.
  rewrite window_app, window_splice_same by lia. f_equal.
  replace (Z.to_nat (buf m + (start_offset m - zlen d)) + length d)%nat
    with (Z.to_nat (buf m + start_offset m)) by lia.
  apply window_splice_after; lia.
Qed.

Lemma pkt_append_refines debug opened m d :
  wf m -> magic_ok debug opened m -> zlen d < 2 ^ 32 ->
  matches debug m (run debug m (PData (OAppend d))) (spec_pkt debug (abs m, opened) (PData (OAppend d))).
Proof.
  intros Hwf Hg Hd. pose proof Hwf as []. cbn [run spec_pkt]. unfold mmpkt_append_data, mmpkt_append.
  rewrite (check_open _ opened) by done. cbn [needs_open]. rewrite andb_true_r.
  destruct (debug && negb opened) eqn:Ho; [done|]. cbn [mbind outcome_bind spec abs room_end].
  unfold mmpkt_available_space_at_end, mmpkt_get_data_end.
  rewrite (check_now _ opened) by done. cbn [mbind outcome_bind]. rewrite (u32_id (start_offset m + data_len m)) by zlia.
  rewrite (u32_id (buf_len m - _)) by zlia.
  case_decide as Hc; [rewrite bool_decide_true by lia|by rewrite bool_decide_false by lia].
  cbn [assert mbind outcome_bind set_window start_offset mem MmPkt.buf]. rewrite !u32_id by zlia.
  rewrite wrn_Ok by lia. cbn [mbind outcome_bind matches].
  destruct (write_inside debug opened m (start_offset m) (data_len m + zlen d)
    (buf m + start_offset m + data_len m) d) as (? & ? & ?); try done; try lia.
  split_and!; try done. apply view_eq; cbn; [done| |lia].
  replace (Z.to_nat (data_len m + zlen d)) with (Z.to_nat (data_len m) + length d)%nat by lia.
  rewrite window_app. f_equal.
  - apply window_splice_before; lia.
  - replace (Z.to_nat (buf m + start_offset m) + Z.to_nat (data_len m))%nat
      with (Z.to_nat (buf m + start_offset m + data_len m)) by lia. apply window_splice_same. lia.
Qed.

Lemma pkt_remove_start_refines debug opened m n :
  wf m -> magic_ok debug opened m -> is_u32 n ->
  matches debug m (run debug m (PData (ORemoveStart n))) (spec_pkt debug (abs m, opened) (PData (ORemoveStart n))).
Proof.
  intros Hwf Hg Hn. pose proof Hwf as []. cbn [run spec_pkt]. unfold mmpkt_remove_from_start.
  rewrite (check_open _ opened) by done. cbn [needs_open]. rewrite andb_true_r.
  destruct (debug && negb opened) eqn:Ho; [done|]. cbn [mbind outcome_bind spec]. rewrite pkt_abs_len by done.
  unfold mmpkt_get_data_length, mmpkt_get_data_start. rewrite !(check_now _ opened) by done. cbn [mbind outcome_bind].
  destruct (decide (n <= data_len m)).
  - rewrite decide_False by lia. cbn [read_back set_window mem mbind outcome_bind]. rewrite !u32_id, rdn_Ok by zlia.
    cbn [mbind outcome_bind matches].
    split_and!; [|apply view_eq; cbn|apply pkt_set_window_wf; try done; zlia|done|done].
    + cbn. rewrite take_window by lia. done.
    + done.
    + rewrite drop_window by lia. f_equal; zlia.
    + lia.
  - rewrite decide_True by lia. done.
Qed.

Lemma pkt_remove_end_refines debug opened m n :
  wf m -> magic_ok debug opened m -> is_u32 n ->
  matches debug m (run debug m (PData (ORemoveEnd n))) (spec_pkt debug (abs m, opened) (PData (ORemoveEnd n))).
Proof.
  intros Hwf Hg Hn. pose proof Hwf as []. pose proof (pkt_abs_len m Hwf) as Hlen.
  cbn [run spec_pkt]. unfold mmpkt_remove_from_end.
  rewrite (check_open _ opened) by done. cbn [needs_open]. rewrite andb_true_r.
  destruct (debug && negb opened) eqn:Ho; [done|]. cbn [mbind outcome_bind spec]. rewrite Hlen.
  unfold mmpkt_get_data_length, mmpkt_get_data_end. rewrite !(check_now _ opened) by done. cbn [mbind outcome_bind].
  destruct (decide (n <= data_len m)).
  - rewrite decide_False by lia. cbn [read_back set_window mem mbind outcome_bind]. rewrite !u32_id, rdn_Ok by zlia.
    cbn [mbind outcome_bind matches].
    split_and!; [|apply view_eq; cbn|apply pkt_set_window_wf; try done; zlia|done|done].
    + f_equal. cbn in Hlen |- *. rewrite drop_window by zlia. f_equal; zlia.
    + done.
    + cbn in Hlen. rewrite take_window by zlia. f_equal; zlia.
    + lia.
  - rewrite decide_True by lia. done.
Qed.

Lemma pkt_truncate_refines debug opened m n :
  wf m -> magic_ok debug opened m -> is_u32 n ->
  matches debug m (run debug m (PData (OTruncate n))) (spec_pkt debug (abs m, opened) (PData (OTruncate n))).
Proof.
  intros Hwf Hg Hn. pose proof Hwf as []. cbn [run spec_pkt needs_open]. rewrite andb_false_r. cbn [spec andb].
  rewrite pkt_abs_len by done. unfold mmpkt_truncate. destruct (decide (n <= data_len m)).
  - rewrite bool_decide_true by done. cbn [assert mbind outcome_bind matches].
    split_and!; [done|apply view_eq; cbn|apply pkt_set_window_wf; try done; zlia|done|done]; [done| |lia].
    by rewrite take_window by lia.
  - by rewrite bool_decide_false.
Qed.

Lemma adjust_refines debug opened m delta :
  wf m -> magic_ok debug opened m -> - 2 ^ 31 <= delta < 2 ^ 31 ->
  matches debug m (run debug m (PAdjust delta)) (spec_pkt debug (abs m, opened) (PAdjust delta)).
Proof.
  intros Hwf Hg Hd. pose proof Hwf as []. pose proof (pkt_abs_len m Hwf) as Hlen. cbn [run spec_pkt].
  unfold mmpkt_adjust_start_offset. cbn [set_window start_offset buf_len data_len].
  destruct (decide (data_len m = 0)) as [H0|H0].
  - rewrite (bool_decide_true (data_len m = 0)) by done. cbn [assert mbind outcome_bind].
    assert (Hnil : data (abs m) = []) by (apply length_zero_iff_nil; lia).
    destruct (decide (0 <= start_offset m + delta <= buf_len m)).
    + rewrite u32_id by zlia. rewrite bool_decide_true by lia. cbn [assert mbind outcome_bind].
      rewrite decide_True by (cbn [abs room_start room_end]; split; [done|lia]). cbn [matches].
      split_and!; [done| |apply pkt_set_window_wf; try done; lia|done|done].
      apply view_eq; cbn; [done|by rewrite H0|lia].
    + rewrite bool_decide_false by zlia. cbn [assert mbind outcome_bind].
      rewrite decide_False; [done|]. cbn [abs room_start room_end]. lia.
  - rewrite (bool_decide_false (data_len m = 0)) by done. cbn [assert mbind outcome_bind].
    rewrite decide_False; [done|]. intros [Hn _]. rewrite Hn in Hlen. cbn in Hlen. lia.
Qed.

Lemma magic_refines debug opened m :
  wf m -> magic_ok debug opened m ->
  matches debug m (run debug m POpen) (spec_pkt debug (abs m, opened) POpen) /\
  matches debug m (run debug m PClose) (spec_pkt debug (abs m, opened) PClose).
Proof.
  intros Hwf Hg. pose proof Hwf as []. cbn [run spec_pkt]. unfold mmpkt_open, mmpkt_close.
  rewrite (check_open _ opened), (check_closed _ opened) by done.
  destruct debug, opened; cbn [andb negb mbind outcome_bind matches]; split_and!; done.
Qed.

Lemma pkt_op_refines debug opened m o :
  wf m -> magic_ok debug opened m -> pkt_op_wf o ->
  matches debug m (run debug m o) (spec_pkt debug (abs m, opened) o).
Proof.
  intros ?? Ho. destruct o as [| |[]|]; cbn [pkt_op_wf op_wf] in Ho.
  - by apply magic_refines.
  - by apply magic_refines.
  - by apply pkt_prepend_refines.
  - by apply pkt_append_refines.
  - by apply pkt_remove_start_refines.
  - by apply pkt_remove_end_refines.
  - by apply pkt_truncate_refines.
  - by apply adjust_refines.
Qed.

Lemma ops_refine debug opened m os :
  wf m -> magic_ok debug opened m -> Forall pkt_op_wf os ->
  matches debug m (run_all debug m os) (spec_all debug (abs m, opened) os).
Proof.
  intros Hwf Hg Hos. revert opened m Hwf Hg.
  induction Hos as [|o os Ho Hos IH]; intros opened m Hwf Hg; [done|].
  cbn [run_all spec_all]. pose proof (pkt_op_refines debug opened m o Hwf Hg Ho) as Hm. unfold matches in Hm.
  destruct (run debug m o) as [[r m']|e], (spec_pkt debug _ o) as [[r' [v' o']]|e']; try done.
  destruct Hm as (-> & <- & Hwf' & Hg' & Hf). cbn [mbind outcome_bind]. specialize (IH o' m' Hwf' Hg').
  unfold matches in IH |- *.
  destruct (run_all debug m' os) as [[rs m'']|e], (spec_all debug _ os) as [[rs' [v'' o'']]|e']; try done.
  destruct IH as (-> & <- & ? & ? & Hf'). cbn [mbind outcome_bind]. split_and!; try done.
  by apply (frame_trans m m' m'').
Qed.

Lemma land_mask4 x : is_u32 x -> Z.land x 0xFFFFFFFC = x / 4 * 4.
Proof. exact (land_high 2 30 x ltac:(lia) ltac:(lia)). Qed.

(** What [mmpkt_init_buf] makes of a block. *)
Definition laid_out (debug : bool) (block : bytes) (s dlen msize : Z) (ops_ : option mmpkt_ops) (m : mmpkt) : Prop :=
  wf m /\ magic_ok debug false m /\ abs m = {| room_start := s; data := []; room_end := dlen - s |} /\
  buf m = sizeof_mmpkt debug /\ ops m = ops_ /\ next m = None /\
  metadata m = (if decide (msize = 0) then None else Some (buf m + dlen)) /\
  mem m = splice (Z.to_nat (buf m + dlen)) (replicate (Z.to_nat msize) 0) block /\
  buf m + dlen + msize <= zlen block.

Lemma header_size debug : MM_FAST_ROUND_UP (sizeof_mmpkt debug) 4 = sizeof_mmpkt debug.
Proof. by destruct debug. Qed.

(** The common tail of both ways to size the buffer. *)
Lemma placed debug block s dlen ms o :
  zlen block < 2 ^ 30 -> 0 <= s -> s <= dlen < 2 ^ 31 + 4 -> 0 <= ms < 2 ^ 30 + 4 ->
  exists r, (if decide (u32 (sizeof_mmpkt debug + dlen + ms) > zlen block) then Ok None
    else
      let m := mmpkt_init debug block (sizeof_mmpkt debug) dlen s o in
      if decide (ms <> 0) then
        let m := set_metadata m (sizeof_mmpkt debug + dlen) in
        b ← wrn (mem m) (sizeof_mmpkt debug + dlen) (replicate (Z.to_nat ms) 0);
        Ok (Some (set_mem m b))
      else Ok (Some m)) = Ok r /\
    match r with
    | Some m => dlen <= zlen block - sizeof_mmpkt debug - ms /\ laid_out debug block s dlen ms o m
    | None => zlen block - sizeof_mmpkt debug - ms < dlen
    end.
Proof.
  intros Hb Hs Hd Hm. assert (Hsz : 28 <= sizeof_mmpkt debug <= 32) by (by destruct debug).
  rewrite u32_id by zlia. case_decide; [exists None; split; [done|cbv beta iota; lia]|]. cbv zeta.
  assert (Hgen : forall b md, zlen b = zlen block ->
    b = splice (Z.to_nat (sizeof_mmpkt debug + dlen)) (replicate (Z.to_nat ms) 0) block ->
    md = (if decide (ms = 0) then None else Some (sizeof_mmpkt debug + dlen)) ->
    let m := {| mem := b; buf := sizeof_mmpkt debug; buf_len := dlen; start_offset := s; data_len := 0;
                metadata := md; ops := o; next := None;
                debug_magic := if debug then MMPKT_DEBUG_MAGIC_CLOSED else 0 |} in
    dlen <= zlen block - sizeof_mmpkt debug - ms /\ laid_out debug block s dlen ms o m).
  { intros b md Hl Hbb ->. split; [lia|]. unfold laid_out. cbn -[sizeof_mmpkt]. split_and!; try done; try lia.
    - constructor; cbn -[sizeof_mmpkt]; lia.
    - by intros ->.
    - apply view_eq; cbn -[sizeof_mmpkt]; [done|done|lia]. }
  destruct (decide (ms = 0)) as [->|Hne].
  - rewrite decide_False by (intros []; done). eexists. split; [done|]. apply Hgen; [done|symmetry; apply splice_nil|done].
  - rewrite decide_True by done. cbn [set_metadata mmpkt_init mem].
    assert (Hrep : zlen (replicate (Z.to_nat ms) 0) = ms) by (rewrite length_replicate; lia).
    rewrite wrn_Ok by lia. cbn [mbind outcome_bind]. eexists. split; [done|].
    apply Hgen; [rewrite length_splice; lia|done|done].
Qed.

Lemma init_buf_ok debug block s e msize ops :
  zlen block < 2 ^ 30 -> 0 <= s < 2 ^ 30 -> 0 <= e < 2 ^ 30 \/ e = UINT32_MAX -> 0 <= msize < 2 ^ 30 ->
  let ms := MM_FAST_ROUND_UP msize 4 in
  let left := zlen block - sizeof_mmpkt debug - ms in
  let dlen := if decide (e = UINT32_MAX) then left / 4 * 4 else MM_FAST_ROUND_UP (s + e) 4 in
  exists r, mmpkt_init_buf debug block (zlen block) s e msize ops = Ok r /\
    match r with
    | Some m => s <= dlen <= left /\ laid_out debug block s dlen ms ops m
    | None => left < dlen \/ dlen < s
    end.
Proof.
  intros Hb Hs He Hm ms left dlen. unfold mmpkt_init_buf. rewrite header_size. fold ms.
  assert (Hms : 0 <= ms < 2 ^ 30 + 4) by (pose proof (round_up_4 msize); unfold ms; lia).
  assert (Hsz : 28 <= sizeof_mmpkt debug <= 32) by (by destruct debug).
  destruct (decide (e = UINT32_MAX)) as [->|Hne].
  - rewrite (decide_False (P := UINT32_MAX <> UINT32_MAX)) by (intros []; done).
    fold left. rewrite land_mask4 by zlia. rewrite (s32_id s) by lia.
    assert (Hs32 : s32 (u32 left / 4 * 4) = dlen) by (subst dlen; zlia). rewrite Hs32.
    case_decide; [eexists; split; [done|by right]|].
    assert (Hu : u32 left / 4 * 4 = dlen) by (subst dlen; zlia). rewrite Hu.
    destruct (placed debug block s dlen ms ops) as (r & E & Hr); try lia; [zlia|].
    exists r. split; [exact E|]. destruct r; [|by left]. destruct Hr. split; [lia|done].
  - rewrite (decide_True (P := e <> UINT32_MAX)) by done. destruct He as [He|]; [|done].
    rewrite (u32_id (s + e)) by zlia. fold dlen.
    destruct (round_up_4 (s + e)) as [Hr4 _]; [lia|].
    destruct (placed debug block s dlen ms ops) as (r & E & Hr); try done; try lia.
    exists r. split; [exact E|]. destruct r; [|by left]. destruct Hr. split; [lia|done].
Qed.


(** ** Properties *)

(** C15: a packet that satisfies the object invariant behaves, under every
    sequence of the interface's operations and with or without [MMPKT_DEBUG],
    as the abstract packet: the same octets are handed out, the same asserts
    fail (with [MMPKT_DEBUG] also those of the open/closed protocol), nothing
    outside the data buffer, the metadata included, is read or changed. *)
Theorem mmpkt_ops_refine debug opened m os :
  wf m -> magic_ok debug opened m -> Forall pkt_op_wf os ->
  matches debug m (run_all debug m os) (spec_all debug (abs m, opened) os).
Proof. apply ops_refine. Qed.

Definition ex_pkt : mmpkt := mmpkt_init true (replicate 64 7) 32 24 8 None.
Definition ex_ops : list pkt_op :=
  [POpen; PData (OAppend [1; 2; 3]); PData (OPrepend [9]); PData (ORemoveStart 2); PClose; POpen;
   PData (ORemoveEnd 9); PClose; PData (OAppend [4])].

Lemma mmpkt_ops_refine_witness :
  matches true ex_pkt (run_all true ex_pkt ex_ops) (spec_all true (abs ex_pkt, false) ex_ops).
Proof.
  apply (mmpkt_ops_refine true false ex_pkt ex_ops).
  - by constructor.
  - by intros _.
  - unfold ex_ops. repeat (apply Forall_cons_2; [first [exact I|by_decide]|]). constructor.
Defined.

(** [mmpkt_init_buf] on a block of [blen] octets, for sizes below 2^30: with
    the rounded sizes the packet is made exactly when header, data and metadata
    fit; they then follow each other without overlap, the packet is empty with
    the head room asked for and the metadata is zeroed.  With [UINT32_MAX] as
    tail room the data buffer takes all that is left, rounded down to words. *)
Theorem mmpkt_init_buf_layout debug block s e msize ops :
  zlen block < 2 ^ 30 -> 0 <= s < 2 ^ 30 -> 0 <= e < 2 ^ 30 \/ e = UINT32_MAX -> 0 <= msize < 2 ^ 30 ->
  let ms := MM_FAST_ROUND_UP msize 4 in
  let left := zlen block - sizeof_mmpkt debug - ms in
  let dlen := if decide (e = UINT32_MAX) then left / 4 * 4 else MM_FAST_ROUND_UP (s + e) 4 in
  exists r, mmpkt_init_buf debug block (zlen block) s e msize ops = Ok r /\
    match r with
    | Some m => s <= dlen <= left /\ laid_out debug block s dlen ms ops m
    | None => left < dlen \/ dlen < s
    end.
Proof. apply init_buf_ok. Qed.

Lemma mmpkt_init_buf_layout_witness :
  let ms := MM_FAST_ROUND_UP 10 4 in
  let left := zlen (replicate 256 0xa5) - sizeof_mmpkt false - ms in
  let dlen := if decide (UINT32_MAX = UINT32_MAX) then left / 4 * 4 else MM_FAST_ROUND_UP (16 + UINT32_MAX) 4 in
  exists r, mmpkt_init_buf false (replicate 256 0xa5) (zlen (replicate 256 0xa5)) 16 UINT32_MAX 10 None = Ok r /\
    match r with
    | Some m => 16 <= dlen <= left /\ laid_out false (replicate 256 0xa5) 16 dlen ms None m
    | None => left < dlen \/ dlen < 16
    end.
Proof.
  apply (mmpkt_init_buf_layout false (replicate 256 0xa5) 16 UINT32_MAX 10 None);
    [by_decide|by_decide|by right|by_decide].
Defined.

(** Sizes whose sum wraps around 32 bits pass the check: the packet's start
    offset is then outside its buffer. *)
Lemma init_buf_wraps :
  exists m, mmpkt_init_buf false (replicate 64 0) 64 (2 ^ 32 - 4) 8 0 None = Ok (Some m) /\
    buf_len m = 4 /\ start_offset m = 2 ^ 32 - 4.
Proof. eexists. vm_compute. done. Qed.

End MmPkt.
