(* ===== verification/PktList.v ===== *)
(** The interface of the driver's packet lists,
    [framework/morselib/include/mmpkt_list.h]: the operations are in the closed
    library, so the packet memories are proved against what the header says of
    them. *)

From S2P Require Import Prelude.

(** [plist] is the sequence of the queued packets, named by their blocks. *)
Class PktList (L : Type) := {
  plist : L -> list nat;
  mmpkt_list_empty : L;
  mmpkt_list_append : nat -> L -> L;
  mmpkt_list_dequeue : L -> option nat * L;
  mmpkt_list_length : L -> Z;
  plist_empty : plist mmpkt_list_empty = [];
  plist_append b l : plist (mmpkt_list_append b l) = plist l ++ [b];
  plist_dequeue l :
    match mmpkt_list_dequeue l with
    | (None, l') => plist l = [] /\ plist l' = []
    | (Some b, l') => plist l = b :: plist l'
    end;
  plist_length l : mmpkt_list_length l = zlen (plist l);
}.

(** The obvious implementation shows that the interface can be met. *)
#[global] Instance ListPktList : PktList (list nat).
Proof.
  refine {|
    plist := fun l => l;
    mmpkt_list_empty := [];
    mmpkt_list_append := fun b l => l ++ [b];
    mmpkt_list_dequeue := fun l => match l with [] => (None, []) | b :: l => (Some b, l) end;
    mmpkt_list_length := fun l => zlen l |}; try done. by intros [].
Defined.
