(* ===== verification/PktMemHeap.v ===== *)
(** Packet memory on the heap: [framework/src/mmpktmem/mmpktmem_heap.c].

    The functions as they run alone, and the transmit data pool under every
    interleaving of the atomic operations of any number of tasks.  The lists of
    free command buffers are behind the interface [PktList]; what
    [mmpkt_alloc_on_heap] (of the closed library) returns is an argument. *)

From S2P Require Import Prelude Chain MmBuf MmPkt PktList.

Module PktMemHeap.
Import MmPkt(mmpkt, mmpkt_init_buf, mmpkt_ops).

(** ** Data *)

Definition TX_COMMAND_POOL_BLOCK_SIZE : Z := 256.
Definition TX_COMMAND_POOL_N_BLOCKS : nat := 2.
Definition MMHAL_WLAN_MMPKT_RX_MAX_SIZE : Z := 1672.
Definition RX_COMMAND_POOL_BLOCK_SIZE : Z := MMHAL_WLAN_MMPKT_RX_MAX_SIZE.
Definition RX_COMMAND_POOL_N_BLOCKS : nat := 2.
Definition MMHAL_WLAN_PKT_COMMAND : Z := 9.

(** The four operation tables, by their free functions. *)
Definition tx_command_pool_ops : mmpkt_ops := 0%nat.
Definition rx_command_pool_ops : mmpkt_ops := 1%nat.
Definition tx_data_pool_pkt_ops : mmpkt_ops := 2%nat.
Definition mmpkt_rx_ops : mmpkt_ops := 3%nat.

Definition set_ops (m : mmpkt) (o : mmpkt_ops) : mmpkt :=
  {| MmPkt.mem := MmPkt.mem m; MmPkt.buf := MmPkt.buf m; MmPkt.buf_len := MmPkt.buf_len m;
     MmPkt.start_offset := MmPkt.start_offset m; MmPkt.data_len := MmPkt.data_len m;
     MmPkt.metadata := MmPkt.metadata m; MmPkt.ops := Some o; MmPkt.next := MmPkt.next m;
     MmPkt.debug_magic := MmPkt.debug_magic m |}.

(** A packet in its owner's hands: where its memory is, and its header. *)
Inductive place := Block (b : nat) | Heap.
Definition pkt : Type := place * mmpkt.

Section Pool.
  Context {L : Type} `{!PktList L}.
  (** Build configuration. *)
  Context (MMPKTMEM_TX_POOL_N_BLOCKS MMPKTMEM_RX_POOL_N_BLOCKS : Z).
  (** What is in the memory of a block when it is handed out. *)
  Context (contents : nat -> bytes).

Definition TX_DATA_POOL_UNPAUSE_THRESHOLD : Z := MMPKTMEM_TX_POOL_N_BLOCKS - 2.
Definition TX_DATA_POOL_PAUSE_THRESHOLD : Z := MMPKTMEM_TX_POOL_N_BLOCKS - 1.

Record pktmem_data := {
  tx_data_pool_allocated : Z;
  tx_data_pool_tx_paused : bool;
  rx_pool_allocated : Z;
  tx_command_pool_free_list : L;
  rx_command_pool_free_list : L;
}.

Definition set_tx (s : pktmem_data) (a : Z) (p : bool) : pktmem_data :=
    {| tx_data_pool_allocated := a; tx_data_pool_tx_paused := p; rx_pool_allocated := rx_pool_allocated s;
       tx_command_pool_free_list := tx_command_pool_free_list s;
       rx_command_pool_free_list := rx_command_pool_free_list s |}.

Definition set_rx (s : pktmem_data) (a : Z) : pktmem_data :=
    {| tx_data_pool_allocated := tx_data_pool_allocated s; tx_data_pool_tx_paused := tx_data_pool_tx_paused s;
       rx_pool_allocated := a; tx_command_pool_free_list := tx_command_pool_free_list s;
       rx_command_pool_free_list := rx_command_pool_free_list s |}.

Definition set_tx_list (s : pktmem_data) (l : L) : pktmem_data :=
    {| tx_data_pool_allocated := tx_data_pool_allocated s; tx_data_pool_tx_paused := tx_data_pool_tx_paused s;
       rx_pool_allocated := rx_pool_allocated s; tx_command_pool_free_list := l;
       rx_command_pool_free_list := rx_command_pool_free_list s |}.

Definition set_rx_list (s : pktmem_data) (l : L) : pktmem_data :=
    {| tx_data_pool_allocated := tx_data_pool_allocated s; tx_data_pool_tx_paused := tx_data_pool_tx_paused s;
       rx_pool_allocated := rx_pool_allocated s; tx_command_pool_free_list := tx_command_pool_free_list s;
       rx_command_pool_free_list := l |}.

  (** ** The functions, run alone

      Each returns the calls of [tx_flow_control_cb], with the value of the
      paused flag that the callback sees. *)

Definition free_list_of (n : nat) : L :=
    fold_left (fun l b => mmpkt_list_append b l) (seq 0 n) mmpkt_list_empty.

Definition mmhal_wlan_pktmem_init : pktmem_data :=
    {| tx_data_pool_allocated := 0; tx_data_pool_tx_paused := false; rx_pool_allocated := 0;
       tx_command_pool_free_list := free_list_of TX_COMMAND_POOL_N_BLOCKS;
       rx_command_pool_free_list := free_list_of RX_COMMAND_POOL_N_BLOCKS |}.

  (** [ops->free_mmpkt] puts the buffer back on the list it came from. *)
Definition alloc_pkt_from_list (list : L) (pktbufsize : Z) (ops : mmpkt_ops)
      (space_at_start space_at_end metadata_length : Z) : outcome (option pkt * L) :=
    let (mmpkt_buf, list) := mmpkt_list_dequeue list in
    match mmpkt_buf with
    | None => Ok (None, list)
    | Some b =>
        m ← mmpkt_init_buf false (contents b) pktbufsize space_at_start space_at_end metadata_length (Some ops);
        match m with
        | None => Ok (None, mmpkt_list_append b list)
        | Some m => Ok (Some (Block b, m), list)
        end
    end.

Definition tx_command_pool_alloc (s : pktmem_data) (space_at_start space_at_end metadata_length : Z)
      : outcome (option pkt * pktmem_data) :=
    '(p, l) ← alloc_pkt_from_list (tx_command_pool_free_list s) TX_COMMAND_POOL_BLOCK_SIZE
                tx_command_pool_ops space_at_start space_at_end metadata_length;
    Ok (p, set_tx_list s l).

Definition tx_data_pool_pkt_free (s : pktmem_data) : outcome (list bool * pktmem_data) :=
    let old_value := tx_data_pool_allocated s in
    let s := set_tx s (s32 (old_value - 1)) (tx_data_pool_tx_paused s) in
    assert (bool_decide (old_value > 0)) ;;
    if decide (tx_data_pool_allocated s < TX_DATA_POOL_UNPAUSE_THRESHOLD) then
      let old_tx_paused := tx_data_pool_tx_paused s in
      let s := set_tx s (tx_data_pool_allocated s) false in
      Ok (if old_tx_paused then [false] else [], s)
    else Ok ([], s).

  (** The part of [mmhal_wlan_alloc_mmpkt_for_tx] after the command pool;
      [heap] is what [mmpkt_alloc_on_heap] returns. *)
Definition tx_data_alloc (s : pktmem_data) (heap : option mmpkt)
      : option pkt * list bool * pktmem_data :=
    let old_value := tx_data_pool_allocated s in
    let s := set_tx s (s32 (old_value + 1)) (tx_data_pool_tx_paused s) in
    if decide (old_value >= MMPKTMEM_TX_POOL_N_BLOCKS) then
      (None, [], set_tx s (s32 (tx_data_pool_allocated s - 1)) (tx_data_pool_tx_paused s))
    else
      match heap with
      | None => (None, [], set_tx s (s32 (tx_data_pool_allocated s - 1)) (tx_data_pool_tx_paused s))
      | Some m =>
          let m := set_ops m tx_data_pool_pkt_ops in
          if decide (tx_data_pool_allocated s > TX_DATA_POOL_PAUSE_THRESHOLD) then
            let old_tx_paused := tx_data_pool_tx_paused s in
            (Some (Heap, m), if old_tx_paused then [] else [true], set_tx s (tx_data_pool_allocated s) true)
          else (Some (Heap, m), [], s)
      end.

Definition mmhal_wlan_alloc_mmpkt_for_tx (s : pktmem_data) (pkt_class space_at_start space_at_end metadata_length : Z)
      (heap : option mmpkt) : outcome (option pkt * list bool * pktmem_data) :=
    if decide (pkt_class = MMHAL_WLAN_PKT_COMMAND) then
      '(p, s) ← tx_command_pool_alloc s space_at_start space_at_end metadata_length;
      match p with
      | Some p => Ok (Some p, [], s)
      | None => Ok (tx_data_alloc s heap)
      end
    else Ok (tx_data_alloc s heap).

Definition mmhal_wlan_pktmem_tx_flow_control_state (s : pktmem_data) : bool := tx_data_pool_tx_paused s.

Definition rx_pkt_free (s : pktmem_data) (p : option pkt) : pktmem_data :=
    match p with Some _ => set_rx s (s32 (rx_pool_allocated s - 1)) | None => s end.

Definition mmhal_wlan_alloc_mmpkt_for_rx (s : pktmem_data) (pkt_class capacity metadata_length : Z)
      (heap : option mmpkt) : outcome (option pkt * pktmem_data) :=
    if decide (pkt_class = MMHAL_WLAN_PKT_COMMAND) then
      '(p, l) ← alloc_pkt_from_list (rx_command_pool_free_list s) RX_COMMAND_POOL_BLOCK_SIZE
                  rx_command_pool_ops 0 capacity metadata_length;
      let s := set_rx_list s l in
      match p with
      | Some p => Ok (Some p, s)
      | None => Ok (option_map (pair Heap) heap, s)
      end
    else
      let old_value := rx_pool_allocated s in
      let s := set_rx s (s32 (old_value + 1)) in
      if decide (old_value >= MMPKTMEM_RX_POOL_N_BLOCKS) then
        Ok (None, set_rx s (s32 (rx_pool_allocated s - 1)))
      else
        match heap with
        | None => Ok (None, set_rx s (s32 (rx_pool_allocated s - 1)))
        | Some m => Ok (Some (Heap, set_ops m mmpkt_rx_ops), s)
        end.

  (** [tx_command_reserved_free], [rx_command_reserved_free] *)
Definition tx_command_reserved_free (s : pktmem_data) (b : nat) : pktmem_data :=
    set_tx_list s (mmpkt_list_append b (tx_command_pool_free_list s)).
Definition rx_command_reserved_free (s : pktmem_data) (b : nat) : pktmem_data :=
    set_rx_list s (mmpkt_list_append b (rx_command_pool_free_list s)).

  (** [mmpkt->ops->free_mmpkt (mmpkt)], for a packet of these pools. *)
Definition free_mmpkt (s : pktmem_data) (p : pkt) : outcome (list bool * pktmem_data) :=
    match MmPkt.ops (snd p), fst p with
    | Some 0%nat, Block b => Ok ([], tx_command_reserved_free s b)
    | Some 1%nat, Block b => Ok ([], rx_command_reserved_free s b)
    | Some 2%nat, Heap => tx_data_pool_pkt_free s
    | Some 3%nat, Heap => Ok ([], rx_pkt_free s (Some p))
    | _, _ => Ok ([], s)
    end.

  (** The wait of [mmhal_wlan_pktmem_deinit]: the number of sleeps of 10 ms when
      nothing changes meanwhile. *)
Definition deinit_done (s : pktmem_data) : bool :=
    bool_decide (Z.lor (Z.lor (Z.lor (mmpkt_list_length (tx_command_pool_free_list s))
                               (mmpkt_list_length (rx_command_pool_free_list s)))
                        (tx_data_pool_allocated s)) (tx_data_pool_allocated s) = 0).
Fixpoint deinit_wait_loop (fuel : nat) (s : pktmem_data) : nat :=
    match fuel with
    | O => O
    | S fuel => if deinit_done s then O else S (deinit_wait_loop fuel s)
    end.
Definition mmhal_wlan_pktmem_deinit (s : pktmem_data) : nat := deinit_wait_loop 100 s.

End Pool.

(** ** The transmit data pool, one atomic operation at a time

    [pc] is where a task stands in [mmhal_wlan_alloc_mmpkt_for_tx] (after the
    command pool) or in [tx_data_pool_pkt_free]. *)

Inductive pc :=
| Idle
| AUndo      (** before the [atomic_fetch_sub] of an allocation that fails *)
| AHeap      (** before [mmpkt_alloc_on_heap] *)
| ACheck     (** before the comparison with the pause threshold *)
| APause     (** before the [atomic_exchange] with 1 *)
| ACallback
| FCheck     (** before the comparison with the unpause threshold *)
| FUnpause   (** before the [atomic_exchange] with 0 *)
| FCallback.

Inductive call := CAlloc | CFree.

Section Interleaving.
  Context (N : Z).

  (** One atomic operation of a task: the next place, counter and flag. *)
Definition tick (heap_ok : bool) (c : call) (p : pc) (a : Z) (paused : bool) : outcome (pc * Z * bool) :=
    match p with
    | Idle =>
        match c with
        | CAlloc => if decide (a >= N) then Ok (AUndo, s32 (a + 1), paused) else Ok (AHeap, s32 (a + 1), paused)
        | CFree => assert (bool_decide (a > 0)) ;; Ok (FCheck, s32 (a - 1), paused)
        end
    | AUndo => Ok (Idle, s32 (a - 1), paused)
    | AHeap => if heap_ok then Ok (ACheck, a, paused) else Ok (AUndo, a, paused)
    | ACheck =>
        if decide (a > TX_DATA_POOL_PAUSE_THRESHOLD N) then Ok (APause, a, paused) else Ok (Idle, a, paused)
    | APause => Ok (if paused then Idle else ACallback, a, true)
    | ACallback => Ok (Idle, a, paused)
    | FCheck =>
        if decide (a < TX_DATA_POOL_UNPAUSE_THRESHOLD N) then Ok (FUnpause, a, paused) else Ok (Idle, a, paused)
    | FUnpause => Ok (if paused then FCallback else Idle, a, false)
    | FCallback => Ok (Idle, a, paused)
    end.

  (** The call returns a packet to its caller. *)
Definition returns_packet (p p' : pc) : bool :=
    match p, p' with (ACheck | APause | ACallback), Idle => true | _, _ => false end.

  (** The task starts to free a packet. *)
Definition frees (p : pc) (c : call) : bool :=
    match p, c with Idle, CFree => true | _, _ => false end.

  (** [live]: packets of the pool in the hands of callers. *)
Record sys := { a : Z; paused : bool; live : Z; pcs : list pc }.

Definition sys_init (tasks : nat) : sys := {| a := 0; paused := false; live := 0; pcs := replicate tasks Idle |}.

  (** Task [i] executes its next atomic operation; a task that starts to free
      gives up one of the packets. *)
Definition sys_step (i : nat) (c : call) (heap_ok : bool) (s : sys) : outcome sys :=
    match pcs s !! i with
    | None => Ok s
    | Some p =>
        if decide (frees p c = true /\ live s <= 0) then Ok s
        else
          '(p', a', q') ← tick heap_ok c p (a s) (paused s);
          Ok {| a := a'; paused := q';
                live := live s - Z.b2z (frees p c) + Z.b2z (returns_packet p p');
                pcs := <[i := p']> (pcs s) |}
    end.

  (** A call that no other task interrupts, from place [p] on: counter, flag,
      callbacks and whether a packet is returned. *)
Fixpoint alone (fuel : nat) (heap_ok : bool) (c : call) (p : pc) (a : Z) (paused : bool) (cbs : list bool)
      : outcome (Z * bool * list bool * bool) :=
    match fuel with
    | O => Fail OutOfFuel
    | S fuel =>
        '(p', a', q') ← tick heap_ok c p a paused;
        let cbs := match p with ACallback | FCallback => cbs ++ [paused] | _ => cbs end in
        match p' with
        | Idle => Ok (a', q', cbs, returns_packet p p')
        | _ => alone fuel heap_ok c p' a' q' cbs
        end
    end.

Inductive reachable (tasks : nat) : sys -> Prop :=
| reach_init : reachable tasks (sys_init tasks)
| reach_step s s' i c ok : reachable tasks s -> sys_step i c ok s = Ok s' -> reachable tasks s'.

Fixpoint sys_run (es : list (nat * call * bool)) (s : sys) : outcome sys :=
    match es with
    | [] => Ok s
    | (i, c, ok) :: es => s ← sys_step i c ok s; sys_run es s
    end.

Definition quiet (s : sys) : Prop := Forall (eq Idle) (pcs s).

  (** ** Invariant *)

Definition holds_place (p : pc) : bool := match p with AHeap | ACheck | APause | ACallback => true | _ => false end.
Definition undoing (p : pc) : bool := match p with AUndo => true | _ => false end.
Definition has_packet (p : pc) : bool := match p with ACheck | APause | ACallback => true | _ => false end.
Definition will_look (p : pc) : bool := match p with FCheck | FUnpause => true | _ => false end.
Definition cnt (P : pc -> bool) (s : sys) : Z := Z.of_nat (count P (pcs s)).

Record inv (tasks : nat) (s : sys) : Prop := {
    inv_tasks : length (pcs s) = tasks;
    inv_live : 0 <= live s;
    inv_count : a s = live s + cnt holds_place s + cnt undoing s;
    inv_bound : live s + cnt holds_place s <= N;
  }.

  (** Somebody will unpause: a packet is out, or is about to be, or a task that
      freed one has not finished. *)
Definition awake (s : sys) : Prop :=
    paused s = true -> 0 < live s + cnt has_packet s + cnt will_look s.

End Interleaving.

Lemma cnt_move P i p p' s l a' q' :
  pcs s !! i = Some p ->
  cnt P {| a := a'; paused := q'; live := l; pcs := <[i := p']> (pcs s) |} =
    cnt P s - Z.b2z (P p) + Z.b2z (P p').
Proof.
  intros Hi. unfold cnt. cbn [pcs]. pose proof (count_insert P (pcs s) i p p' Hi).
  destruct (P p), (P p'); cbn [Nat.b2n Z.b2z] in *; lia.
Qed.

Lemma cnt_nonneg P s : 0 <= cnt P s.
Proof. unfold cnt. lia. Qed.

Lemma cnt_one P i p s : pcs s !! i = Some p -> P p = true -> 1 <= cnt P s.
Proof. intros Hi Hp. pose proof (count_pos P (pcs s) i p Hi Hp). unfold cnt. lia. Qed.

(** Classes of places that exclude each other fit in the number of tasks. *)
Lemma cnt_disjoint (ps : list pc) :
  (count holds_place ps + count undoing ps + count will_look ps <= length ps)%nat.
Proof.
  induction ps as [|p ps IH]; [done|]. rewrite !count_cons. cbn [length]. destruct p; cbn -[count]; lia.
Qed.

Lemma cnt_packet_le s : cnt has_packet s <= cnt holds_place s.
Proof.
  unfold cnt. apply Nat2Z.inj_le. induction (pcs s) as [|p ps IH]; [done|].
  rewrite !count_cons. destruct p; cbn -[count]; lia.
Qed.

Lemma inv_no_assert N tasks s i ok :
  inv N tasks s -> N + Z.of_nat tasks < 2 ^ 31 -> pcs s !! i = Some Idle -> 0 < live s ->
  exists r, tick N ok CFree Idle (a s) (paused s) = Ok r.
Proof.
  intros [] _ Hi Hl. pose proof (cnt_nonneg holds_place s). pose proof (cnt_nonneg undoing s).
  cbn. rewrite bool_decide_true by lia. by eexists.
Qed.

Lemma a_range N tasks s :
  inv N tasks s -> 0 <= a s <= N + Z.of_nat tasks.
Proof.
  intros []. pose proof (cnt_nonneg holds_place s). pose proof (cnt_nonneg undoing s).
  pose proof (cnt_disjoint (pcs s)). unfold cnt in *. lia.
Qed.

(** The cases of one [tick]. *)
Ltac tick_cases Et :=
  match type of Et with tick _ _ ?c ?p _ _ = _ => destruct p, c end;
  cbn [tick] in Et; unfold assert in Et;
  repeat (match type of Et with
          | context [if ?b then _ else _] => destruct b eqn:?
          end; cbn [mbind outcome_bind] in Et);
  try discriminate Et; injection Et as <- <- <-.

(** One atomic operation keeps the invariant. *)
Lemma sys_step_inv N tasks s s' i c ok :
  0 <= N -> N + Z.of_nat tasks < 2 ^ 31 - 1 ->
  inv N tasks s -> sys_step N i c ok s = Ok s' -> inv N tasks s'.
Proof.
  intros HN Hb Hinv. pose proof (a_range N tasks s Hinv) as Ha. pose proof Hinv as [Ht Hl Hc Hbd].
  unfold sys_step. destruct (pcs s !! i) as [p|] eqn:Hi; [|by intros [= <-]].
  pose proof (cnt_nonneg holds_place s). pose proof (cnt_nonneg undoing s).
  assert (Hu : undoing p = true -> 1 <= cnt undoing s) by (intros; by eapply cnt_one).
  assert (Hh : holds_place p = true -> 1 <= cnt holds_place s) by (intros; by eapply cnt_one).
  case_decide as Hno; [by intros [= <-]|].
  destruct (tick N ok c p (a s) (paused s)) as [[[p' a'] q']|] eqn:Et; [|done].
  cbn [mbind outcome_bind]. intros [= <-].
  tick_cases Et; constructor; cbn [live pcs a paused]; rewrite ?length_insert, ?(cnt_move _ _ _ _ _ _ _ _ Hi);
    cbn in Hu, Hh, Hno |- *; rewrite ?s32_id by lia; lia.
Qed.

Lemma step_ok N tasks s i c ok :
  inv N tasks s -> exists s', sys_step N i c ok s = Ok s'.
Proof.
  intros [Ht Hl Hc Hbd]. pose proof (cnt_nonneg holds_place s). pose proof (cnt_nonneg undoing s).
  unfold sys_step. destruct (pcs s !! i) as [p|]; [|by eexists]. case_decide as Hno; [by eexists|].
  assert (exists r, tick N ok c p (a s) (paused s) = Ok r) as [[[p' a'] q'] ->]; [|by eexists].
  destruct p, c; cbn in Hno |- *; repeat case_decide; destruct ok; try by eexists.
  all: rewrite bool_decide_true by lia; by eexists.
Qed.

Lemma init_inv N tasks : 0 <= N -> inv N tasks (sys_init tasks).
Proof.
  intros HN. assert (H0 : forall P, P Idle = false -> cnt P (sys_init tasks) = 0).
  { intros P HP. unfold cnt. cbn [sys_init pcs]. induction tasks as [|n IH]; [done|]. cbn [replicate].
    rewrite count_cons, HP. cbn [Nat.b2n]. lia. }
  constructor; cbn [sys_init live a pcs]; rewrite ?length_replicate, ?H0 by done; lia.
Qed.

Lemma reachable_inv N tasks s :
  0 <= N -> N + Z.of_nat tasks < 2 ^ 31 - 1 -> reachable N tasks s -> inv N tasks s.
Proof.
  intros HN Hb. induction 1 as [|s s' i c ok _ IH E]; [by apply init_inv|]. by eapply sys_step_inv.
Qed.

(** With fewer tasks than the thresholds are apart from nothing, the flag cannot
    stay set when the pool drains. *)
Lemma step_awake N tasks s s' i c ok :
  Z.of_nat tasks <= N - 2 -> N + Z.of_nat tasks < 2 ^ 31 - 1 ->
  inv N tasks s -> awake s -> sys_step N i c ok s = Ok s' -> awake s'.
Proof.
  intros HT Hb Hinv. pose proof (a_range N tasks s Hinv) as Ha. pose proof Hinv as [Ht Hl Hc Hbd].
  unfold sys_step. destruct (pcs s !! i) as [p|] eqn:Hi; [|by intros ? [= <-]].
  pose proof (cnt_nonneg has_packet s). pose proof (cnt_nonneg will_look s).
  pose proof (cnt_packet_le s). pose proof (cnt_disjoint (pcs s)) as Hd. fold (cnt holds_place s) in *.
  assert (Hp : has_packet p = true -> 1 <= cnt has_packet s) by (intros; by eapply cnt_one).
  assert (Hw : will_look p = true -> 1 <= cnt will_look s) by (intros; by eapply cnt_one).
  assert (Hdz : cnt holds_place s + cnt undoing s + cnt will_look s <= Z.of_nat tasks).
  { unfold cnt. lia. }
  clear Hd. case_decide as Hno; [by intros ? [= <-]|].
  destruct (tick N ok c p (a s) (paused s)) as [[[p' a'] q']|] eqn:Et; [|done].
  cbn [mbind outcome_bind]. intros Haw [= <-]. unfold awake in *.
  unfold TX_DATA_POOL_UNPAUSE_THRESHOLD in *.
  tick_cases Et; cbn [live pcs a paused]; rewrite ?(cnt_move _ _ _ _ _ _ _ _ Hi);
    cbn in Hp, Hw, Hno |- *; try (intros Hq; specialize (Haw Hq)); intros;
    unfold TX_DATA_POOL_UNPAUSE_THRESHOLD in *; try lia; try done.
Qed.

Lemma reachable_awake N tasks s :
  Z.of_nat tasks <= N - 2 -> N + Z.of_nat tasks < 2 ^ 31 - 1 -> reachable N tasks s -> awake s.
Proof.
  intros HT Hb H. induction H as [|s s' i c ok Hr IH E]; [done|].
  apply (step_awake N tasks s s' i c ok); try done. apply reachable_inv; [lia|done|done].
Qed.

Lemma run_reachable N tasks es s s' :
  reachable N tasks s -> sys_run N es s = Ok s' -> reachable N tasks s'.
Proof.
  revert s. induction es as [|[[i c] ok] es IH]; intros s Hr; cbn [sys_run]; [by intros [= <-]|].
  destruct (sys_step N i c ok s) as [s1|] eqn:E; [|done]. cbn [mbind outcome_bind].
  apply IH. by eapply reach_step.
Qed.

Lemma quiet_cnt P s : quiet s -> P Idle = false -> cnt P s = 0.
Proof.
  unfold quiet, cnt. intros Hq HP. induction Hq as [|p ps <- _ IH]; [done|].
  rewrite count_cons, HP. cbn [Nat.b2n]. lia.
Qed.

Lemma alone_S N fuel ok c p a q cbs :
  alone N (S fuel) ok c p a q cbs =
    ('(p', a', q') ← tick N ok c p a q;
     let cbs := match p with ACallback | FCallback => cbs ++ [q] | _ => cbs end in
     match p' with
     | Idle => Ok (a', q', cbs, returns_packet p p')
     | _ => alone N fuel ok c p' a' q' cbs
     end).
Proof. done. Qed.

(** ** Properties *)

(** C8: the transmit pool under every interleaving of the atomic operations of
    any number of tasks: no assertion fails, never more than [N] packets are
    out or being made, and when no call is under way the counter is exactly
    the number of packets out. *)
Theorem tx_pool_bounded N tasks s :
  0 <= N -> N + Z.of_nat tasks < 2 ^ 31 - 1 -> reachable N tasks s ->
  0 <= live s <= N /\ (quiet s -> a s = live s) /\
  (forall i c ok, exists s', sys_step N i c ok s = Ok s').
Proof.
  intros HN Hb Hr. pose proof (reachable_inv N tasks s HN Hb Hr) as Hinv. split_and!.
  - apply Hinv.
  - destruct Hinv. pose proof (cnt_nonneg holds_place s). lia.
  - intros Hq. destruct Hinv as [_ _ -> _]. rewrite !quiet_cnt by done. lia.
  - intros. by apply (step_ok N tasks).
Qed.

Definition ex_run : list (nat * call * bool) :=
  [(0, CAlloc, true); (1, CAlloc, false); (1, CAlloc, false); (0, CAlloc, true); (1, CAlloc, true)]%nat.

Lemma tx_pool_bounded_witness :
  let s := {| a := 1; paused := false; live := 0; pcs := [ACheck; Idle] |} in
  0 <= live s <= 20 /\ (quiet s -> a s = live s) /\
  (forall i c ok, exists s', sys_step 20 i c ok s = Ok s').
Proof.
  apply (tx_pool_bounded 20 2 {| a := 1; paused := false; live := 0; pcs := [ACheck; Idle] |}); [lia|lia|].
  apply (run_reachable 20 2 ex_run (sys_init 2)); [apply reach_init|reflexivity].
Defined.

(** C9: no lost wake-up: with at most [N - 2] tasks, under every interleaving,
    once every packet is back and no call is under way the transmit path is
    not paused. *)
Theorem tx_pool_no_lost_wakeup N tasks s :
  Z.of_nat tasks <= N - 2 -> N + Z.of_nat tasks < 2 ^ 31 - 1 -> reachable N tasks s ->
  quiet s -> live s = 0 -> paused s = false.
Proof.
  intros HT Hb Hr Hq Hl. pose proof (reachable_awake N tasks s HT Hb Hr) as Ha.
  unfold awake in Ha. destruct (paused s); [|done]. specialize (Ha eq_refl).
  rewrite !quiet_cnt in Ha by done. lia.
Qed.

Definition whole (i : nat) (c : call) (n : nat) : list (nat * call * bool) := replicate n (i, c, true).

(** Twenty allocations, the last of which pauses, then twenty frees. *)
Definition ex_fill_drain : list (nat * call * bool) :=
  whole 0 CAlloc (19 * 3) ++ whole 0 CAlloc 5 ++ whole 1 CFree (2 * 2) ++ whole 1 CFree 4 ++ whole 1 CFree (17 * 3).

Definition ex_drained : sys := {| a := 0; paused := false; live := 0; pcs := [Idle; Idle] |}.

Lemma tx_pool_no_lost_wakeup_witness : sys_run 20 ex_fill_drain (sys_init 2) = Ok ex_drained /\ paused ex_drained = false.
Proof.
  assert (H : sys_run 20 ex_fill_drain (sys_init 2) = Ok ex_drained) by (vm_compute; reflexivity).
  split; [exact H|]. apply (tx_pool_no_lost_wakeup 20 2 ex_drained).
  - lia.
  - lia.
  - exact (run_reachable 20 2 ex_fill_drain (sys_init 2) ex_drained (reach_init 20 2) H).
  - by repeat constructor.
  - reflexivity.
Defined.

(** the interleaved operations are those of the code: run without
    interruption they change the counter and the flag, call the callback and
    return a packet exactly as [tx_data_alloc] and [tx_data_pool_pkt_free]. *)
Theorem tick_refines_functions {L} N (s : pktmem_data (L := L)) heap :
  alone N 8 (bool_decide (is_Some heap)) CAlloc Idle (tx_data_pool_allocated s) (tx_data_pool_tx_paused s) [] =
    (let '(r, cbs, s') := tx_data_alloc N s heap in
     Ok (tx_data_pool_allocated s', tx_data_pool_tx_paused s', cbs, bool_decide (is_Some r))) /\
  alone N 8 true CFree Idle (tx_data_pool_allocated s) (tx_data_pool_tx_paused s) [] =
    ('(cbs, s') ← tx_data_pool_pkt_free N s;
     Ok (tx_data_pool_allocated s', tx_data_pool_tx_paused s', cbs, false)).
Proof.
  destruct s as [al pa rx l1 l2].
  split; cbn [tx_data_pool_allocated tx_data_pool_tx_paused]; rewrite alone_S; cbn [tick].
  - unfold tx_data_alloc. cbn [tx_data_pool_allocated tx_data_pool_tx_paused set_tx].
    destruct (decide (al >= N)); cbn [mbind outcome_bind]; [by rewrite alone_S|].
    rewrite alone_S. cbn [tick]. destruct heap as [m|].
    2: { change (bool_decide (is_Some (@None mmpkt))) with false. cbn [mbind outcome_bind]. by rewrite alone_S. }
    change (bool_decide (is_Some (Some m))) with true. cbn [mbind outcome_bind]. rewrite alone_S. cbn [tick].
    destruct (decide (s32 (al + 1) > TX_DATA_POOL_PAUSE_THRESHOLD N)); [|done].
    cbn [mbind outcome_bind]. rewrite alone_S. cbn [tick mbind outcome_bind]. destruct pa; [done|].
    by rewrite alone_S.
  - unfold tx_data_pool_pkt_free. cbn [tx_data_pool_allocated tx_data_pool_tx_paused set_tx].
    destruct (bool_decide (al > 0)); [|done]. cbn [assert mbind outcome_bind].
    rewrite alone_S. cbn [tick].
    destruct (decide (s32 (al - 1) < TX_DATA_POOL_UNPAUSE_THRESHOLD N)); [|done].
    cbn [mbind outcome_bind]. rewrite alone_S. cbn [tick mbind outcome_bind]. destruct pa; [|done].
    by rewrite alone_S.
Qed.

(** ** What the model shows besides *)

(** A free that was interrupted between its comparison and its exchange unpauses
    a pool that has filled up meanwhile: twenty packets out, not paused. *)
Lemma late_unpause :
  exists es s, sys_run 20 es (sys_init 2) = Ok s /\ quiet s /\ live s = 20 /\ paused s = false.
Proof.
  exists (whole 0 CAlloc (19 * 3) ++ whole 0 CAlloc 5 ++ whole 1 CFree (2 * 2) ++ whole 1 CFree 2 ++
    whole 0 CAlloc (2 * 3) ++ whole 0 CAlloc 4 ++ whole 1 CFree 2).
  eexists. split; [vm_compute; reflexivity|]. split; [by repeat constructor|done].
Qed.

(** With a pool of one or two blocks, a transmit path that was paused is never
    unpaused again. *)
Lemma small_pool_stays_paused N tasks s s' i c ok :
  0 <= N <= 2 -> N + Z.of_nat tasks < 2 ^ 31 - 1 -> inv N tasks s -> count (fun p => match p with FUnpause => true | _ => false end) (pcs s) = 0%nat ->
  paused s = true -> sys_step N i c ok s = Ok s' ->
  paused s' = true /\ count (fun p => match p with FUnpause => true | _ => false end) (pcs s') = 0%nat.
Proof.
  intros HN Hb Hinv Hu Hp. pose proof (a_range N tasks s Hinv) as Ha. unfold sys_step.
  destruct (pcs s !! i) as [p|] eqn:Hi; [|by intros [= <-]]. case_decide; [by intros [= <-]|].
  destruct (tick N ok c p (a s) (paused s)) as [[[p' a'] q']|] eqn:Et; [|done].
  cbn [mbind outcome_bind]. intros [= <-]. cbn [paused pcs].
  set (P := fun p => _) in *. pose proof (count_insert P (pcs s) i p p' Hi) as Hc.
  assert (Hpu : p <> FUnpause) by (intros ->; pose proof (count_pos P (pcs s) i _ Hi eq_refl); lia).
  unfold TX_DATA_POOL_UNPAUSE_THRESHOLD in *.
  tick_cases Et; try done; unfold TX_DATA_POOL_UNPAUSE_THRESHOLD in *; cbn [Nat.b2n P] in Hc; split; try done; lia.
Qed.

(** The wait before the leak check is the wrong way round: with nothing
    allocated it sleeps a hundred times, with every command buffer out it does
    not sleep at all. *)
Lemma heap_deinit_waits_when_clean {L} `{!PktList L} :
  mmhal_wlan_pktmem_deinit (mmhal_wlan_pktmem_init (L := L)) = 100%nat /\
  mmhal_wlan_pktmem_deinit (L := L)
    {| tx_data_pool_allocated := 0; tx_data_pool_tx_paused := false; rx_pool_allocated := 0;
       tx_command_pool_free_list := mmpkt_list_empty; rx_command_pool_free_list := mmpkt_list_empty |} = 0%nat.
Proof.
  assert (Hl : mmpkt_list_length (free_list_of (L := L) 2) = 2).
  { rewrite plist_length. unfold free_list_of. cbn [seq fold_left]. by rewrite !plist_append, plist_empty. }
  split.
  - unfold mmhal_wlan_pktmem_deinit. generalize 100%nat as n. induction n as [|n IH]; [done|].
    cbn [deinit_wait_loop]. unfold deinit_done.
    cbn [mmhal_wlan_pktmem_init tx_command_pool_free_list rx_command_pool_free_list tx_data_pool_allocated].
    unfold TX_COMMAND_POOL_N_BLOCKS, RX_COMMAND_POOL_N_BLOCKS. rewrite Hl. cbn. by rewrite IH.
  - unfold mmhal_wlan_pktmem_deinit. cbn [deinit_wait_loop]. unfold deinit_done.
    cbn [tx_command_pool_free_list rx_command_pool_free_list tx_data_pool_allocated].
    by rewrite plist_length, plist_empty.
Qed.

End PktMemHeap.
