(* ===== verification/PktMemStatic.v ===== *)
(** Packet memory in static pools: [framework/src/mmpktmem/mmpktmem_static.c].

    Four pools of blocks, each with the list of its free blocks; the transmit
    data pool drives flow control.  A function between [ENTER_CRITICAL] and
    [EXIT_CRITICAL] is one step; the functions are run one after the other. *)

From S2P Require Import Prelude Chain MmBuf MmPkt PktList.

Module PktMemStatic.
Import MmPkt(mmpkt, mmpkt_init_buf, mmpkt_ops).

(** ** Data *)

Definition MMPKTMEM_TX_DATA_POOL_UNPAUSE_THRESHOLD : Z := 2.
Definition MMPKTMEM_TX_DATA_POOL_PAUSE_THRESHOLD : Z := 1.
Definition MMHAL_WLAN_MMPKT_TX_MAX_SIZE : Z := 1668.
Definition MMHAL_WLAN_MMPKT_RX_MAX_SIZE : Z := 1672.
Definition MMPKTMEM_TX_COMMAND_POOL_BLOCK_SIZE : Z := 256.
Definition MMPKTMEM_TX_COMMAND_POOL_N_BLOCKS : nat := 2.
Definition MMPKTMEM_RX_COMMAND_POOL_BLOCK_SIZE : Z := MMHAL_WLAN_MMPKT_RX_MAX_SIZE.
Definition MMPKTMEM_RX_COMMAND_POOL_N_BLOCKS : nat := 2.
Definition MMPKTMEM_TX_POOL_BLOCK_SIZE : Z := MMHAL_WLAN_MMPKT_TX_MAX_SIZE.
Definition MMPKTMEM_RX_POOL_BLOCK_SIZE : Z := MMHAL_WLAN_MMPKT_RX_MAX_SIZE.
Definition MMHAL_WLAN_PKT_COMMAND : Z := 9.

(** The operation tables, by their free functions. *)
Definition tx_command_pool_ops : mmpkt_ops := 0%nat.
Definition tx_data_pool_ops : mmpkt_ops := 1%nat.
Definition rx_command_pool_ops : mmpkt_ops := 2%nat.
Definition rx_data_pool_ops : mmpkt_ops := 3%nat.

(** A packet in its owner's hands: its block, its header. *)
Definition pkt : Type := nat * mmpkt.

Section Pools.
  Context {L : Type} `{!PktList L}.
  Context (MMPKTMEM_TX_POOL_N_BLOCKS MMPKTMEM_RX_POOL_N_BLOCKS : nat).
  (** What is in the memory of a block of a pool when it is handed out. *)
  Context (contents : mmpkt_ops -> nat -> bytes).
  (** Whether [args->tx_flow_control_cb] is not [NULL]. *)
  Context (tx_flow_control_cb : bool).

Record pktmem_data := {
  tx_data_pool_tx_paused : bool;
  tx_command_pool_free_list : L;
  tx_data_pool_free_list : L;
  rx_command_pool_free_list : L;
  rx_data_pool_free_list : L;
}.

Definition set_tx_command (s : pktmem_data) (l : L) : pktmem_data :=
    {| tx_data_pool_tx_paused := tx_data_pool_tx_paused s; tx_command_pool_free_list := l;
       tx_data_pool_free_list := tx_data_pool_free_list s;
       rx_command_pool_free_list := rx_command_pool_free_list s;
       rx_data_pool_free_list := rx_data_pool_free_list s |}.
Definition set_tx_data (s : pktmem_data) (p : bool) (l : L) : pktmem_data :=
    {| tx_data_pool_tx_paused := p; tx_command_pool_free_list := tx_command_pool_free_list s;
       tx_data_pool_free_list := l; rx_command_pool_free_list := rx_command_pool_free_list s;
       rx_data_pool_free_list := rx_data_pool_free_list s |}.
Definition set_rx_command (s : pktmem_data) (l : L) : pktmem_data :=
    {| tx_data_pool_tx_paused := tx_data_pool_tx_paused s;
       tx_command_pool_free_list := tx_command_pool_free_list s;
       tx_data_pool_free_list := tx_data_pool_free_list s; rx_command_pool_free_list := l;
       rx_data_pool_free_list := rx_data_pool_free_list s |}.
Definition set_rx_data (s : pktmem_data) (l : L) : pktmem_data :=
    {| tx_data_pool_tx_paused := tx_data_pool_tx_paused s;
       tx_command_pool_free_list := tx_command_pool_free_list s;
       tx_data_pool_free_list := tx_data_pool_free_list s;
       rx_command_pool_free_list := rx_command_pool_free_list s; rx_data_pool_free_list := l |}.

  (** ** Operations; the lists of booleans are the calls of the flow control
      callback with the flag it sees *)

Definition free_list_of (n : nat) : L :=
    fold_left (fun l b => mmpkt_list_append b l) (seq 0 n) mmpkt_list_empty.

Definition mmhal_wlan_pktmem_init : pktmem_data :=
    {| tx_data_pool_tx_paused := false;
       tx_command_pool_free_list := free_list_of MMPKTMEM_TX_COMMAND_POOL_N_BLOCKS;
       tx_data_pool_free_list := free_list_of MMPKTMEM_TX_POOL_N_BLOCKS;
       rx_command_pool_free_list := free_list_of MMPKTMEM_RX_COMMAND_POOL_N_BLOCKS;
       rx_data_pool_free_list := free_list_of MMPKTMEM_RX_POOL_N_BLOCKS |}.

Definition tx_command_free (s : pktmem_data) (b : nat) : pktmem_data :=
    set_tx_command s (mmpkt_list_append b (tx_command_pool_free_list s)).

Definition tx_data_free_locked (s : pktmem_data) (b : nat) : bool * pktmem_data :=
    let s := set_tx_data s (tx_data_pool_tx_paused s) (mmpkt_list_append b (tx_data_pool_free_list s)) in
    if tx_data_pool_tx_paused s then
      if decide (mmpkt_list_length (tx_data_pool_free_list s) >= MMPKTMEM_TX_DATA_POOL_UNPAUSE_THRESHOLD)
      then (true, set_tx_data s false (tx_data_pool_free_list s))
      else (false, s)
    else (false, s).

Definition call_cb (invoke : bool) (s : pktmem_data) : list bool :=
    if invoke && tx_flow_control_cb then [tx_data_pool_tx_paused s] else [].

Definition tx_data_free (s : pktmem_data) (b : nat) : list bool * pktmem_data :=
    let (invoke_fc_callback, s) := tx_data_free_locked s b in
    (call_cb invoke_fc_callback s, s).

Definition alloc_pkt_from_list (list : L) (pktbufsize : Z) (ops : mmpkt_ops)
      (space_at_start space_at_end metadata_length : Z) : outcome (option pkt * L) :=
    let (mmpkt_buf, list) := mmpkt_list_dequeue list in
    match mmpkt_buf with
    | None => Ok (None, list)
    | Some b =>
        m ← mmpkt_init_buf false (contents ops b) pktbufsize space_at_start space_at_end metadata_length (Some ops);
        match m with
        | None => Ok (None, mmpkt_list_append b list)
        | Some m => Ok (Some (b, m), list)
        end
    end.

Definition tx_command_pool_alloc (s : pktmem_data) (space_at_start space_at_end metadata_length : Z)
      : outcome (option pkt * pktmem_data) :=
    '(p, l) ← alloc_pkt_from_list (tx_command_pool_free_list s) MMPKTMEM_TX_COMMAND_POOL_BLOCK_SIZE
                tx_command_pool_ops space_at_start space_at_end metadata_length;
    Ok (p, set_tx_command s l).

Definition tx_data_pool_alloc (s : pktmem_data) (space_at_start space_at_end metadata_length : Z)
      : outcome (option pkt * pktmem_data) :=
    '(p, l) ← alloc_pkt_from_list (tx_data_pool_free_list s) MMPKTMEM_TX_POOL_BLOCK_SIZE
                tx_data_pool_ops space_at_start space_at_end metadata_length;
    Ok (p, set_tx_data s (tx_data_pool_tx_paused s) l).

Definition update_tx_flow_control_state (s : pktmem_data) : bool * pktmem_data :=
    if negb (tx_data_pool_tx_paused s) then
      if decide (mmpkt_list_length (tx_data_pool_free_list s) <= MMPKTMEM_TX_DATA_POOL_PAUSE_THRESHOLD)
      then (true, set_tx_data s true (tx_data_pool_free_list s))
      else (false, s)
    else (false, s).

Definition alloc_tx_data (s : pktmem_data) (space_at_start space_at_end metadata_length : Z)
      : outcome (option pkt * list bool * pktmem_data) :=
    '(p, s) ← tx_data_pool_alloc s space_at_start space_at_end metadata_length;
    let (invoke_fc_callback, s) := update_tx_flow_control_state s in
    Ok (p, call_cb invoke_fc_callback s, s).

Definition mmhal_wlan_alloc_mmpkt_for_tx (s : pktmem_data) (pkt_class space_at_start space_at_end metadata_length : Z)
      : outcome (option pkt * list bool * pktmem_data) :=
    if decide (pkt_class = MMHAL_WLAN_PKT_COMMAND) then
      '(p, s) ← tx_command_pool_alloc s space_at_start space_at_end metadata_length;
      match p with
      | Some p => Ok (Some p, [], s)
      | None => alloc_tx_data s space_at_start space_at_end metadata_length
      end
    else alloc_tx_data s space_at_start space_at_end metadata_length.

Definition mmhal_wlan_pktmem_tx_flow_control_state (s : pktmem_data) : bool := tx_data_pool_tx_paused s.

Definition rx_command_free (s : pktmem_data) (b : nat) : pktmem_data :=
    set_rx_command s (mmpkt_list_append b (rx_command_pool_free_list s)).
Definition rx_data_free (s : pktmem_data) (b : nat) : pktmem_data :=
    set_rx_data s (mmpkt_list_append b (rx_data_pool_free_list s)).

Definition rx_command_pool_alloc (s : pktmem_data) (space_at_start space_at_end metadata_length : Z)
      : outcome (option pkt * pktmem_data) :=
    '(p, l) ← alloc_pkt_from_list (rx_command_pool_free_list s) MMPKTMEM_RX_COMMAND_POOL_BLOCK_SIZE
                rx_command_pool_ops space_at_start space_at_end metadata_length;
    Ok (p, set_rx_command s l).

Definition rx_data_pool_alloc (s : pktmem_data) (space_at_start space_at_end metadata_length : Z)
      : outcome (option pkt * pktmem_data) :=
    '(p, l) ← alloc_pkt_from_list (rx_data_pool_free_list s) MMPKTMEM_RX_POOL_BLOCK_SIZE
                rx_data_pool_ops space_at_start space_at_end metadata_length;
    Ok (p, set_rx_data s l).

Definition mmhal_wlan_alloc_mmpkt_for_rx (s : pktmem_data) (pkt_class capacity metadata_length : Z)
      : outcome (option pkt * pktmem_data) :=
    if decide (pkt_class = MMHAL_WLAN_PKT_COMMAND) then
      '(p, s) ← rx_command_pool_alloc s 0 capacity metadata_length;
      match p with
      | Some p => Ok (Some p, s)
      | None => rx_data_pool_alloc s 0 capacity metadata_length
      end
    else rx_data_pool_alloc s 0 capacity metadata_length.

  (** [mmpkt->ops->free_mmpkt (mmpkt)] *)
Definition free_mmpkt (s : pktmem_data) (p : pkt) : list bool * pktmem_data :=
    match MmPkt.ops (snd p) with
    | Some 0%nat => ([], tx_command_free s (fst p))
    | Some 1%nat => tx_data_free s (fst p)
    | Some 2%nat => ([], rx_command_free s (fst p))
    | Some 3%nat => ([], rx_data_free s (fst p))
    | _ => ([], s)
    end.

  (** The wait of [mmhal_wlan_pktmem_deinit]: how often it sleeps when nothing
      changes meanwhile. *)
Definition some_out (s : pktmem_data) : bool :=
    negb (bool_decide (mmpkt_list_length (tx_command_pool_free_list s) = Z.of_nat MMPKTMEM_TX_COMMAND_POOL_N_BLOCKS)) ||
    negb (bool_decide (mmpkt_list_length (tx_data_pool_free_list s) = Z.of_nat MMPKTMEM_TX_POOL_N_BLOCKS)) ||
    negb (bool_decide (mmpkt_list_length (rx_command_pool_free_list s) = Z.of_nat MMPKTMEM_RX_COMMAND_POOL_N_BLOCKS)) ||
    negb (bool_decide (mmpkt_list_length (rx_data_pool_free_list s) = Z.of_nat MMPKTMEM_RX_POOL_N_BLOCKS)).
Fixpoint deinit_wait_loop (fuel : nat) (s : pktmem_data) : nat :=
    match fuel with
    | O => O
    | S fuel => if some_out s then O else S (deinit_wait_loop fuel s)
    end.
Definition mmhal_wlan_pktmem_deinit (s : pktmem_data) : nat := deinit_wait_loop 100 s.


  (** ** Specification: where every block is *)

Inductive op :=
  | OAllocTx (pkt_class space_at_start space_at_end metadata_length : Z)
  | OAllocRx (pkt_class capacity metadata_length : Z)
  | OFree (i : nat).

  (** The pools, and the packets in the hands of callers. *)
Definition world : Type := pktmem_data * list pkt.

Definition cons_pkt (p : option pkt) (out : list pkt) : list pkt :=
    match p with Some p => p :: out | None => out end.

Definition run (w : world) (o : op) : outcome (list bool * world) :=
    let (s, out) := w in
    match o with
    | OAllocTx c st e m =>
        '(p, cbs, s) ← mmhal_wlan_alloc_mmpkt_for_tx s c st e m; Ok (cbs, (s, cons_pkt p out))
    | OAllocRx c cap m => '(p, s) ← mmhal_wlan_alloc_mmpkt_for_rx s c cap m; Ok ([], (s, cons_pkt p out))
    | OFree i =>
        match out !! i with
        | None => Ok ([], w)
        | Some p => let (cbs, s) := free_mmpkt s p in Ok (cbs, (s, delete i out))
        end
    end.

Fixpoint run_all (w : world) (os : list op) : outcome (list bool * world) :=
    match os with
    | [] => Ok ([], w)
    | o :: os => '(c, w) ← run w o; '(cs, w) ← run_all w os; Ok (c ++ cs, w)
    end.

Definition size_ok (n : Z) : Prop := 0 <= n < 2 ^ 30.
Definition op_wf (o : op) : Prop :=
    match o with
    | OAllocTx _ st e m => size_ok st /\ (size_ok e \/ e = MmPkt.UINT32_MAX) /\ size_ok m
    | OAllocRx _ cap m => (size_ok cap \/ cap = MmPkt.UINT32_MAX) /\ size_ok m
    | OFree _ => True
    end.

Definition free_blocks (s : pktmem_data) (k : mmpkt_ops) : list nat :=
    match k with
    | 0%nat => plist (tx_command_pool_free_list s)
    | 1%nat => plist (tx_data_pool_free_list s)
    | 2%nat => plist (rx_command_pool_free_list s)
    | _ => plist (rx_data_pool_free_list s)
    end.

Definition of_pool (k : mmpkt_ops) (p : pkt) : bool := bool_decide (MmPkt.ops (snd p) = Some k).
Definition out_blocks (k : mmpkt_ops) (out : list pkt) : list nat := map fst (List.filter (of_pool k) out).

Definition n_blocks (k : mmpkt_ops) : nat :=
    match k with
    | 0%nat => MMPKTMEM_TX_COMMAND_POOL_N_BLOCKS
    | 1%nat => MMPKTMEM_TX_POOL_N_BLOCKS
    | 2%nat => MMPKTMEM_RX_COMMAND_POOL_N_BLOCKS
    | _ => MMPKTMEM_RX_POOL_N_BLOCKS
    end.
Definition block_size (k : mmpkt_ops) : Z :=
    match k with
    | 0%nat => MMPKTMEM_TX_COMMAND_POOL_BLOCK_SIZE
    | 1%nat => MMPKTMEM_TX_POOL_BLOCK_SIZE
    | 2%nat => MMPKTMEM_RX_COMMAND_POOL_BLOCK_SIZE
    | _ => MMPKTMEM_RX_POOL_BLOCK_SIZE
    end.

Definition conserved (w : world) : Prop :=
    forall k, (k < 4)%nat -> free_blocks (fst w) k ++ out_blocks k (snd w) ≡ₚ seq 0 (n_blocks k).

  (** The transmit path is paused exactly while at most one data block is free. *)
Definition flow_ok (s : pktmem_data) : Prop :=
    tx_data_pool_tx_paused s =
      bool_decide (zlen (free_blocks s 1%nat) <= MMPKTMEM_TX_DATA_POOL_PAUSE_THRESHOLD).

  (** The callback runs exactly at the changes of the flag, and sees the new one. *)
Fixpoint flips (old : bool) (cs : list bool) : bool :=
    match cs with
    | [] => old
    | c :: cs => flips c cs
    end.
Fixpoint alternates (old : bool) (cs : list bool) : Prop :=
    match cs with
    | [] => True
    | c :: cs => c = negb old /\ alternates c cs
    end.

Definition blocks_sized : Prop := forall k b, zlen (contents k b) = block_size k.

  (** ** Lemmas *)

Lemma alloc_ok l (k : mmpkt_ops) st e m :
    (k < 4)%nat -> blocks_sized -> size_ok st -> size_ok e \/ e = MmPkt.UINT32_MAX -> size_ok m ->
    exists r l', alloc_pkt_from_list l (block_size k) k st e m = Ok (r, l') /\
      match r with
      | Some (b, pk) => plist l ≡ₚ b :: plist l' /\ MmPkt.ops pk = Some k
      | None => plist l' ≡ₚ plist l
      end.
Proof using Type.
  intros Hk Hc Hs He Hm. unfold alloc_pkt_from_list. pose proof (plist_dequeue l) as Hd.
  destruct (mmpkt_list_dequeue l) as [[b|] l'].
  - rewrite <- (Hc k b).
    assert (Hsz : zlen (contents k b) < 2 ^ 30).
    { rewrite Hc. destruct k as [|[|[|[|]]]]; [done..|lia]. }
    destruct (MmPkt.init_buf_ok false (contents k b) st e m (@Some mmpkt_ops k)) as (r & E & Hr); try done.
    rewrite E. cbn [mbind outcome_bind]. destruct r as [pk|].
    + do 2 eexists. split; [done|]. rewrite Hd. split; [done|]. by destruct Hr as (_ & _ & _ & _ & _ & ? & _).
    + do 2 eexists. split; [done|]. rewrite plist_append, Hd. by rewrite Permutation_app_comm.
  - do 2 eexists. split; [done|]. destruct Hd as [-> ->]. done.
Qed.

Lemma out_cons k k' b pk out :
    MmPkt.ops pk = Some k' ->
    out_blocks k ((b, pk) :: out) = if decide (k = k') then b :: out_blocks k out else out_blocks k out.
Proof using Type.
  intros H. unfold out_blocks, of_pool. cbn [List.filter snd]. rewrite H.
  case_decide as Hk; [subst; by rewrite bool_decide_true|]. rewrite bool_decide_false by congruence. done.
Qed.

Lemma out_delete k out i p :
    out !! i = Some p ->
    out_blocks k out ≡ₚ (if of_pool k p then [fst p] else []) ++ out_blocks k (delete i out).
Proof using Type.
  intros Hi. rewrite <- (take_drop_middle out i p Hi) at 1. rewrite delete_take_drop. unfold out_blocks.
  rewrite !List.filter_app, !map_app. cbn [List.filter]. destruct (of_pool k p); cbn [map app]; [|done].
  by rewrite Permutation_middle.
Qed.

  (** One packet taken from pool [k] (or none). *)
Definition moved (k : mmpkt_ops) (r : option pkt) (s s' : pktmem_data) : Prop :=
    (k < 4)%nat /\ tx_data_pool_tx_paused s' = tx_data_pool_tx_paused s /\
    (forall k', (k' < 4)%nat -> k' <> k -> free_blocks s' k' = free_blocks s k') /\
    match r with
    | Some (b, pk) => free_blocks s k ≡ₚ b :: free_blocks s' k /\ MmPkt.ops pk = Some k
    | None => free_blocks s' k ≡ₚ free_blocks s k
    end.

Ltac four k := let n := fresh in destruct k as [|[|[|[|n]]]]; [| | | |lia].

Lemma moved_conserved k r s s' out :
    moved k r s s' -> conserved (s, out) -> conserved (s', cons_pkt r out).
Proof using Type.
  intros (Hk & _ & Ho & Hr) Hc k' Hk'. specialize (Hc k' Hk'). cbn [fst snd] in *.
  destruct (decide (k' = k)) as [->|Hne].
  - destruct r as [[b pk]|]; cbn [cons_pkt].
    + destruct Hr as [Hr Hops]. rewrite (out_cons _ k) by done. rewrite decide_True by done.
      rewrite <- Permutation_middle, app_comm_cons, <- Hr. done.
    + by rewrite Hr.
  - rewrite Ho by done. destruct r as [[b pk]|]; [|done]. cbn [cons_pkt]. destruct Hr as [_ Hops].
    rewrite (out_cons _ k) by done. by rewrite decide_False.
Qed.

Lemma moved_trans_none k k' r s s1 s' : moved k None s s1 -> moved k' r s1 s' -> forall out,
    conserved (s, out) -> conserved (s', cons_pkt r out).
Proof using Type.
  intros H1 H2 out Hc. eapply moved_conserved; [exact H2|]. exact (moved_conserved _ _ _ _ _ H1 Hc).
Qed.

Definition sizes_ok (st e m : Z) : Prop := size_ok st /\ (size_ok e \/ e = MmPkt.UINT32_MAX) /\ size_ok m.

Ltac pool_alloc H :=
  let l' := fresh "l" in let r := fresh "r" in let Hr := fresh "Hr" in
  destruct H as (?&?&?);
  match goal with |- context [alloc_pkt_from_list ?l ?sz ?k ?st ?e ?m] =>
    destruct (alloc_ok l k st e m) as (r & l' & E & Hr);
      [unfold k; lia|done|done|done|done|];
    change (block_size k) with sz in E; rewrite E; exists r; eexists; split; [reflexivity|];
    split_and!; [lia|done|intros k' ? ?; four k'; done|exact Hr]
  end.

Lemma tx_command_pool_alloc_ok s st e m : blocks_sized -> sizes_ok st e m ->
    exists r s', tx_command_pool_alloc s st e m = Ok (r, s') /\ moved 0%nat r s s'.
Proof using Type. intros Hb H. unfold tx_command_pool_alloc. pool_alloc H. Qed.

Lemma tx_data_pool_alloc_ok s st e m : blocks_sized -> sizes_ok st e m ->
    exists r s', tx_data_pool_alloc s st e m = Ok (r, s') /\ moved 1%nat r s s'.
Proof using Type. intros Hb H. unfold tx_data_pool_alloc. pool_alloc H. Qed.

Lemma rx_command_pool_alloc_ok s st e m : blocks_sized -> sizes_ok st e m ->
    exists r s', rx_command_pool_alloc s st e m = Ok (r, s') /\ moved 2%nat r s s'.
Proof using Type. intros Hb H. unfold rx_command_pool_alloc. pool_alloc H. Qed.

Lemma rx_data_pool_alloc_ok s st e m : blocks_sized -> sizes_ok st e m ->
    exists r s', rx_data_pool_alloc s st e m = Ok (r, s') /\ moved 3%nat r s s'.
Proof using Type. intros Hb H. unfold rx_data_pool_alloc. pool_alloc H. Qed.

Definition cb_ok (old : bool) (cbs : list bool) (new : bool) : Prop :=
    if tx_flow_control_cb then alternates old cbs /\ flips old cbs = new else cbs = [].

Lemma cb_none b : cb_ok b [] b.
Proof using Type. unfold cb_ok. by destruct tx_flow_control_cb. Qed.

Lemma cb_flip s b : tx_data_pool_tx_paused s = negb b -> cb_ok b (call_cb true s) (negb b).
Proof using Type. unfold cb_ok, call_cb. intros ->. by destruct tx_flow_control_cb. Qed.

Lemma cb_app a b c x y : cb_ok a x b -> cb_ok b y c -> cb_ok a (x ++ y) c.
Proof using Type.
  unfold cb_ok. destruct tx_flow_control_cb; [|by intros -> ->].
  revert a. induction x as [|v x IH]; intros a; cbn; [by intros [_ <-]|].
  intros [[-> Hx] Hf] Hy. destruct (IH _ (conj Hx Hf) Hy). done.
Qed.

Lemma flow_other k r s s' : moved k r s s' -> k <> 1%nat -> flow_ok s -> flow_ok s'.
Proof using Type.
  intros (_ & Hp & Ho & _) Hk. unfold flow_ok. rewrite Hp, (Ho 1%nat) by (lia || done). done.
Qed.

Lemma update_ok r s s1 :
    moved 1%nat r s s1 -> flow_ok s ->
    exists inv s', update_tx_flow_control_state s1 = (inv, s') /\ flow_ok s' /\
      (forall k, free_blocks s' k = free_blocks s1 k) /\
      cb_ok (tx_data_pool_tx_paused s) (call_cb inv s') (tx_data_pool_tx_paused s').
Proof using Type.
  intros (_ & Hp & _ & Hr) Hf. unfold update_tx_flow_control_state. rewrite plist_length, Hp.
  assert (Hle : zlen (free_blocks s1 1%nat) <= zlen (free_blocks s 1%nat)).
  { destruct r as [[b pk]|]; [destruct Hr as [Hr _]|]; apply Permutation_length in Hr; cbn [length] in Hr; lia. }
  cbn [free_blocks] in Hle. unfold flow_ok in *. cbn [free_blocks] in *.
  destruct (tx_data_pool_tx_paused s) eqn:Ep; cbn [negb].
  - exists false, s1. split; [done|]. rewrite Hp. symmetry in Hf. apply bool_decide_eq_true_1 in Hf.
    split_and!; [symmetry; apply bool_decide_true; lia|done|apply cb_none].
  - destruct (decide (zlen (plist (tx_data_pool_free_list s1)) <= MMPKTMEM_TX_DATA_POOL_PAUSE_THRESHOLD)) as [Hd|Hd].
    + do 2 eexists. split; [done|]. cbn [set_tx_data tx_data_pool_tx_paused tx_data_pool_free_list].
      split_and!; [by rewrite bool_decide_true|by intros [|[|[|]]]|by apply (cb_flip _ false)].
    + exists false, s1. split; [done|]. rewrite Hp.
      split_and!; [by rewrite bool_decide_false|done|apply cb_none].
Qed.

  (** One transition of the whole: blocks conserved, flow control exact. *)
Definition good (w : world) : Prop := conserved w /\ flow_ok (fst w).

Definition step_ok (w : world) (c : outcome (list bool * world)) : Prop :=
    exists cbs w', c = Ok (cbs, w') /\ good w' /\
      cb_ok (tx_data_pool_tx_paused (fst w)) cbs (tx_data_pool_tx_paused (fst w')).

Lemma alloc_tx_data_ok s out st e m :
    blocks_sized -> sizes_ok st e m -> good (s, out) ->
    step_ok (s, out) ('(p, cbs, s) ← alloc_tx_data s st e m; Ok (cbs, (s, cons_pkt p out))).
Proof using Type.
  intros Hb Hsz [Hc Hf]. unfold alloc_tx_data.
  destruct (tx_data_pool_alloc_ok s st e m Hb Hsz) as (r & s1 & -> & Hm). cbn [mbind outcome_bind].
  destruct (update_ok r s s1 Hm Hf) as (inv & s' & -> & Hf' & Hs' & Hcb). cbn [mbind outcome_bind].
  do 2 eexists. split; [reflexivity|]. split; [split; [|exact Hf']|exact Hcb].
  pose proof (moved_conserved _ _ _ _ _ Hm Hc) as Hc'. intros k Hk. cbn [fst snd]. rewrite Hs'. by apply Hc'.
Qed.

Lemma alloc_tx_ok w c st e m :
    blocks_sized -> sizes_ok st e m -> good w -> step_ok w (run w (OAllocTx c st e m)).
Proof using Type.
  destruct w as [s out]. intros Hb Hsz Hg. cbn [run]. unfold mmhal_wlan_alloc_mmpkt_for_tx.
  case_decide; [|by apply alloc_tx_data_ok].
  destruct (tx_command_pool_alloc_ok s st e m Hb Hsz) as (r & s1 & -> & Hm). cbn [mbind outcome_bind].
  destruct Hg as [Hc Hf]. pose proof (moved_conserved _ _ _ _ _ Hm Hc) as Hc'.
  assert (Hf1 : flow_ok s1) by by apply (flow_other 0%nat r s).
  pose proof Hm as (_ & Hp & _). destruct r as [p|].
  - do 2 eexists. split; [reflexivity|]. split; [done|]. cbn [fst]. rewrite Hp. apply cb_none.
  - destruct (alloc_tx_data_ok s1 out st e m Hb Hsz) as (cbs & w' & E & Hg' & Hcb); [done|].
    exists cbs, w'. split; [exact E|]. split; [done|]. cbn [fst] in *. by rewrite Hp in Hcb.
Qed.

Lemma alloc_rx_data_ok s out st e m :
    blocks_sized -> sizes_ok st e m -> good (s, out) ->
    step_ok (s, out) ('(p, s) ← rx_data_pool_alloc s st e m; Ok ([], (s, cons_pkt p out))).
Proof using Type.
  intros Hb Hsz [Hc Hf].
  destruct (rx_data_pool_alloc_ok s st e m Hb Hsz) as (r & s1 & -> & Hm). cbn [mbind outcome_bind].
  do 2 eexists. split; [reflexivity|]. split; [split|].
  - by apply (moved_conserved _ _ _ _ _ Hm).
  - by apply (flow_other 3%nat r s).
  - destruct Hm as (_ & Hp & _). cbn [fst]. rewrite Hp. apply cb_none.
Qed.

Lemma alloc_rx_ok w c cap m :
    blocks_sized -> sizes_ok 0 cap m -> good w -> step_ok w (run w (OAllocRx c cap m)).
Proof using Type.
  destruct w as [s out]. intros Hb Hsz Hg. cbn [run]. unfold mmhal_wlan_alloc_mmpkt_for_rx.
  case_decide; [|by apply alloc_rx_data_ok].
  destruct (rx_command_pool_alloc_ok s 0 cap m Hb Hsz) as (r & s1 & -> & Hm). cbn [mbind outcome_bind].
  destruct Hg as [Hc Hf]. pose proof (moved_conserved _ _ _ _ _ Hm Hc) as Hc'.
  assert (Hf1 : flow_ok s1) by by apply (flow_other 2%nat r s).
  pose proof Hm as (_ & Hp & _). destruct r as [p|].
  - do 2 eexists. split; [reflexivity|]. split; [done|]. cbn [fst]. rewrite Hp. apply cb_none.
  - destruct (alloc_rx_data_ok s1 out 0 cap m Hb Hsz) as (cbs & w' & E & Hg' & Hcb); [done|].
    exists cbs, w'. split; [exact E|]. split; [done|]. cbn [fst] in *. by rewrite Hp in Hcb.
Qed.

  (** A packet put back. *)
Definition put_back (k : mmpkt_ops) (b : nat) (s s' : pktmem_data) : Prop :=
    forall k', (k' < 4)%nat ->
      free_blocks s' k' = if decide (k' = k) then free_blocks s k' ++ [b] else free_blocks s k'.

Lemma put_back_conserved k b pk s s' out i :
    put_back k b s s' -> out !! i = Some (b, pk) -> MmPkt.ops pk = Some k ->
    conserved (s, out) -> conserved (s', delete i out).
Proof using Type.
  intros Hb Hi Hops Hc k' Hk'. specialize (Hc k' Hk'). cbn [fst snd] in *.
  rewrite (out_delete k' out i (b, pk) Hi) in Hc. rewrite (Hb k' Hk').
  unfold of_pool in Hc. cbn [snd fst] in Hc. rewrite Hops in Hc.
  destruct (decide (k' = k)) as [->|Hd].
  - rewrite bool_decide_true in Hc by done. by rewrite <- app_assoc.
  - by rewrite bool_decide_false in Hc by congruence.
Qed.

Lemma tx_data_free_ok s b :
    flow_ok s ->
    exists cbs s', tx_data_free s b = (cbs, s') /\ put_back 1%nat b s s' /\ flow_ok s' /\
      cb_ok (tx_data_pool_tx_paused s) cbs (tx_data_pool_tx_paused s').
Proof using Type.
  intros Hf. unfold tx_data_free, tx_data_free_locked, flow_ok in *.
  cbn [set_tx_data tx_data_pool_tx_paused tx_data_pool_free_list free_blocks] in *.
  destruct (tx_data_pool_tx_paused s) eqn:Ep.
  - symmetry in Hf. apply bool_decide_eq_true_1 in Hf. rewrite plist_length, plist_append, length_app. cbn [length].
    unfold MMPKTMEM_TX_DATA_POOL_UNPAUSE_THRESHOLD, MMPKTMEM_TX_DATA_POOL_PAUSE_THRESHOLD in *.
    destruct (decide (Z.of_nat (length (plist (tx_data_pool_free_list s)) + 1) >= 2)) as [Hd|Hd];
      do 2 eexists; (split; [reflexivity|]);
      cbn [set_tx_data tx_data_pool_tx_paused tx_data_pool_free_list free_blocks];
      rewrite plist_append, length_app; cbn [length]; split_and!.
    + intros k Hk. four k; cbn; rewrite ?plist_append; done.
    + symmetry. apply bool_decide_false. lia.
    + by apply (cb_flip _ true).
    + intros k Hk. four k; cbn; rewrite ?plist_append; done.
    + symmetry. apply bool_decide_true. lia.
    + apply cb_none.
  - symmetry in Hf. apply bool_decide_eq_false_1 in Hf.
    do 2 eexists. split; [reflexivity|].
    cbn [set_tx_data tx_data_pool_tx_paused tx_data_pool_free_list free_blocks].
    rewrite plist_append, length_app. cbn [length]. split_and!.
    + intros k Hk. four k; cbn; rewrite ?plist_append; done.
    + symmetry. apply bool_decide_false. lia.
    + apply cb_none.
Qed.

  (** Putting a block back on a list that is not the data list. *)
Lemma put_back_other k b s s' :
    put_back k b s s' -> k <> 1%nat -> tx_data_pool_tx_paused s' = tx_data_pool_tx_paused s ->
    flow_ok s -> flow_ok s'.
Proof using Type.
  intros Hb Hk Hp. unfold flow_ok. rewrite (Hb 1%nat) by lia. rewrite decide_False by congruence. by rewrite Hp.
Qed.

Lemma free_ok w i : good w -> step_ok w (run w (OFree i)).
Proof using Type.
  destruct w as [s out]. intros [Hc Hf]. cbn [run]. destruct (out !! i) as [[b pk]|] eqn:Hi.
  2: { do 2 eexists. split; [reflexivity|]. split; [done|apply cb_none]. }
  unfold free_mmpkt. cbn [snd fst]. destruct (MmPkt.ops pk) as [k|] eqn:Hops.
  2: { do 2 eexists. split; [reflexivity|]. split; [split; [|done]|apply cb_none].
    intros k' Hk'. cbn [fst snd]. rewrite <- (Hc k' Hk'). cbn [fst snd].
    rewrite (out_delete k' out i (b, pk) Hi). unfold of_pool. cbn [snd]. rewrite Hops.
    by rewrite bool_decide_false. }
  assert (Hgen : forall s', put_back k b s s' -> k <> 1%nat ->
    tx_data_pool_tx_paused s' = tx_data_pool_tx_paused s -> step_ok (s, out) (Ok ([], (s', delete i out)))).
  { intros s' Hb Hk Hp. do 2 eexists. split; [reflexivity|]. split; [split|].
    - by apply (put_back_conserved k b pk s).
    - by apply (put_back_other k b s).
    - cbn [fst]. rewrite Hp. apply cb_none. }
  destruct k as [|[|[|[|k]]]].
  - apply Hgen; [|done|done]. intros k' Hk'. four k'; cbn; rewrite ?plist_append; done.
  - destruct (tx_data_free_ok s b Hf) as (cbs & s' & -> & Hb & Hf' & Hcb).
    do 2 eexists. split; [reflexivity|]. split; [split; [|done]|done].
    by apply (put_back_conserved 1%nat b pk s).
  - apply Hgen; [|done|done]. intros k' Hk'. four k'; cbn; rewrite ?plist_append; done.
  - apply Hgen; [|done|done]. intros k' Hk'. four k'; cbn; rewrite ?plist_append; done.
  - do 2 eexists. split; [reflexivity|]. split; [split; [|done]|apply cb_none].
    intros k' Hk'. cbn [fst snd]. rewrite <- (Hc k' Hk'). cbn [fst snd].
    rewrite (out_delete k' out i (b, pk) Hi). unfold of_pool. cbn [snd]. rewrite Hops.
    rewrite bool_decide_false; [done|]. intros [= <-]. lia.
Qed.

Lemma run_ok w o : blocks_sized -> op_wf o -> good w -> step_ok w (run w o).
Proof using Type.
  intros Hb Ho Hg. destruct o as [c st e m|c cap m|i].
  - by apply alloc_tx_ok.
  - apply alloc_rx_ok; [done| |done]. destruct Ho. split; [unfold size_ok; lia|by split].
  - by apply free_ok.
Qed.

Lemma free_list_of_ok n : plist (free_list_of n) = seq 0 n.
Proof using Type.
  unfold free_list_of. rewrite <- (app_nil_l (seq 0 n)) at 2. rewrite <- plist_empty.
  generalize (mmpkt_list_empty (L := L)) as l. generalize (seq 0 n) as bs. clear n.
  intros bs. induction bs as [|b bs IH]; intros l; cbn [fold_left]; [by rewrite app_nil_r|].
  rewrite IH, plist_append. by rewrite <- app_assoc.
Qed.

Lemma init_good : (2 <= MMPKTMEM_TX_POOL_N_BLOCKS)%nat -> good (mmhal_wlan_pktmem_init, []).
Proof using Type.
  intros Hn. split.
  - intros k Hk. cbn [fst snd]. rewrite app_nil_r.
    four k; cbn [free_blocks mmhal_wlan_pktmem_init tx_command_pool_free_list tx_data_pool_free_list
      rx_command_pool_free_list rx_data_pool_free_list]; by rewrite free_list_of_ok.
  - unfold flow_ok. cbn [fst free_blocks mmhal_wlan_pktmem_init tx_data_pool_tx_paused tx_data_pool_free_list].
    rewrite free_list_of_ok, length_seq. symmetry. apply bool_decide_false.
    unfold MMPKTMEM_TX_DATA_POOL_PAUSE_THRESHOLD. lia.
Qed.

Lemma run_all_ok w os : blocks_sized -> Forall op_wf os -> good w -> step_ok w (run_all w os).
Proof using Type.
  intros Hb Ho. revert w. induction Ho as [|o os Ho Hos IH]; intros w Hg; cbn [run_all].
  - exists [], w. split; [done|]. split; [done|apply cb_none].
  - destruct (run_ok w o Hb Ho Hg) as (c1 & w1 & -> & Hg1 & Hc1). cbn [mbind outcome_bind].
    destruct (IH w1 Hg1) as (c2 & w2 & -> & Hg2 & Hc2). cbn [mbind outcome_bind].
    do 2 eexists. split; [done|]. split; [done|]. by eapply cb_app.
Qed.

End Pools.

(** ** Properties *)

(** C7: from initialisation, through any sequence of allocations and frees of all
    classes and sizes: no operation fails or leaves its block, every block of
    every pool is exactly once either free or in the hands of one caller (none
    is lost when the packet does not fit its block), the transmit path is
    paused exactly while at most one data block is free, and the flow control
    callback is called exactly at the changes of that. *)
Theorem static_pools_conserve {L} `{!PktList L} (n_tx n_rx : nat) contents cb os :
  (2 <= n_tx)%nat -> blocks_sized contents -> Forall op_wf os ->
  exists cbs w, run_all contents cb (mmhal_wlan_pktmem_init (L := L) n_tx n_rx, []) os = Ok (cbs, w) /\
    conserved n_tx n_rx w /\ flow_ok (fst w) /\ cb_ok cb false cbs (tx_data_pool_tx_paused (fst w)).
Proof.
  intros Hn Hb Ho.
  destruct (run_all_ok n_tx n_rx contents cb _ os Hb Ho (init_good n_tx n_rx Hn)) as (cbs & w & E & [Hc Hf] & Hcb).
  by exists cbs, w.
Qed.

Definition ex_contents (k : mmpkt_ops) (b : nat) : bytes := replicate (Z.to_nat (block_size k)) 0xA5.
Definition ex_os : list op :=
  [OAllocTx 0 40 1500 60; OAllocTx 9 0 100 8; OAllocTx 9 0 9000 8; OFree 0; OAllocRx 9 MmPkt.UINT32_MAX 32; OFree 1].

Lemma static_pools_conserve_witness :
  exists cbs w, run_all ex_contents true (mmhal_wlan_pktmem_init (L := list nat) 3 23, []) ex_os = Ok (cbs, w) /\
    conserved 3 23 w /\ flow_ok (fst w) /\ cb_ok true false cbs (tx_data_pool_tx_paused (fst w)).
Proof.
  apply (static_pools_conserve 3 23 ex_contents true ex_os).
  - lia.
  - intros k b. unfold ex_contents. rewrite length_replicate.
    by destruct k as [|[|[|[|k]]]].
  - unfold ex_os, size_ok. repeat (apply Forall_cons_2; [cbn; unfold size_ok, MmPkt.UINT32_MAX; lia|]). constructor.
Defined.

(** The wait before the leak report is the wrong way round: with every block back
    it sleeps a hundred times, with one out it does not wait for it. *)
Lemma static_deinit_waits_when_clean {L} `{!PktList L} n_tx n_rx (s : pktmem_data (L := L)) :
  mmhal_wlan_pktmem_deinit n_tx n_rx s = if some_out n_tx n_rx s then 0%nat else 100%nat.
Proof.
  unfold mmhal_wlan_pktmem_deinit. generalize 100%nat as n.
  induction n as [|n IH]; [by destruct some_out|]. cbn [deinit_wait_loop].
  destruct (some_out n_tx n_rx s); [done|]. by rewrite IH.
Qed.

End PktMemStatic.
