(* ===== verification/AppCommon.v ===== *)
(** The HaLow station's life: [examples/iperf/main/src/mm_app_common.c].

    Start-up, the callbacks of the link and of the timers, reconnection, the
    status LED.  What the closed library and FreeRTOS are asked to do is the
    list of actions of each function; what they answer are arguments.  Tasks
    interleave: the timer task inside [do_halow_reconnect] can be overtaken by
    the link callback, so that function is also given as three steps. *)

From S2P Require Import Prelude CStr Settings RegDb RegDbDef LoadConfig.

Module AppCommon.
Import Settings LoadConfig.

(** ** Data *)

Definition LED_STATUS_INTERVAL_MS : Z := 10000.
Definition LED_BLINK_STEP_MS : Z := 200.
Definition HALOW_RECONNECT_DELAY_MS : Z := 15000.
Definition RSSI_INTERVAL_MS : Z := 15000.
Definition INT32_MIN : Z := - 2 ^ 31.

Inductive timer := reconnect_timer | rssi_timer | led_status_timer | led_step_timer.

#[global] Instance timer_eq_dec : EqDecision timer.
Proof. solve_decision. Defined.

Inductive mmwlan_sta_state := MMWLAN_STA_DISABLED | MMWLAN_STA_CONNECTING | MMWLAN_STA_CONNECTED.
Inductive mmipal_link_state := MMIPAL_LINK_DOWN | MMIPAL_LINK_UP.

(** The file's static variables; [created] tells which timer handles are not
    [NULL]. *)
Record state := {
  last_rssi : Z;
  link_established : bool;
  initial_connect_done : bool;
  reconnecting : bool;
  created : timer -> bool;
  led_step : Z;
  led_step_total : Z;
  link_up_for_led : bool;
}.

Definition initial : state :=
  {| last_rssi := INT32_MIN; link_established := false; initial_connect_done := false;
     reconnecting := false; created := fun _ => false; led_step := 0; led_step_total := 0;
     link_up_for_led := false |}.

Inductive action :=
| GpioLevel (level : Z)
| TimerPeriod (t : timer) (ms : Z)
| TimerStart (t : timer)
| TimerCreate (t : timer) (ms : Z) (reload : bool)
| SembGive
| SembWait
| HalInit
| WlanInit
| SetChannelList (l : Reg.mmwlan_s1g_channel_list)
| IpInit (args : mmipal_init_args)
| SetLinkCallback
| GetVersion
| StaDisable
| StaEnable (args : mmwlan_sta_args)
| WlanShutdown
| PrintReconnectIn (s : Z).

Definition set_led (s : state) (step total : Z) : state :=
  {| last_rssi := last_rssi s; link_established := link_established s;
     initial_connect_done := initial_connect_done s; reconnecting := reconnecting s;
     created := created s; led_step := step; led_step_total := total;
     link_up_for_led := link_up_for_led s |}.
Definition set_up (s : state) (up : bool) : state :=
  {| last_rssi := last_rssi s; link_established := link_established s;
     initial_connect_done := initial_connect_done s; reconnecting := reconnecting s;
     created := created s; led_step := led_step s; led_step_total := led_step_total s;
     link_up_for_led := up |}.
Definition set_rssi (s : state) (r : Z) : state :=
  {| last_rssi := r; link_established := link_established s;
     initial_connect_done := initial_connect_done s; reconnecting := reconnecting s;
     created := created s; led_step := led_step s; led_step_total := led_step_total s;
     link_up_for_led := link_up_for_led s |}.
Definition set_conn (s : state) (done_ rec : bool) : state :=
  {| last_rssi := last_rssi s; link_established := link_established s;
     initial_connect_done := done_; reconnecting := rec; created := created s;
     led_step := led_step s; led_step_total := led_step_total s; link_up_for_led := link_up_for_led s |}.
Definition set_created (s : state) (sem : bool) (c : timer -> bool) : state :=
  {| last_rssi := last_rssi s; link_established := sem;
     initial_connect_done := initial_connect_done s; reconnecting := reconnecting s; created := c;
     led_step := led_step s; led_step_total := led_step_total s; link_up_for_led := link_up_for_led s |}.

(** ** The status LED *)

Definition start_step : list action := [TimerPeriod led_step_timer LED_BLINK_STEP_MS; TimerStart led_step_timer].

Definition led_step_timer_cb (s : state) : state * list action :=
  let gpio := GpioLevel (if decide (Z.land (led_step s) 1 <> 0) then 1 else 0) in
  let s := set_led s (led_step s + 1) (led_step_total s) in
  (s, gpio :: if bool_decide (led_step s < led_step_total s) && created s led_step_timer
              then start_step else []).

Definition led_status_timer_cb (s : state) : state * list action :=
  let s := set_led s 0 (if link_up_for_led s then 2 else 6) in
  (s, if created s led_step_timer then start_step else []).

Definition halow_led_set_blink (link_up : bool) (s : state) : state := set_up s link_up.

(** ** Signal strength *)

(** [r] is the result of [mmwlan_get_rssi ()]. *)
Definition rssi_timer_cb (r : Z) (s : state) : state := set_rssi s r.
Definition get_halow_rssi (s : state) : Z := last_rssi s.

(** ** Callbacks of the library *)

Definition sta_status_callback (sta_state : mmwlan_sta_state) (s : state) : state :=
  match sta_state with
  | MMWLAN_STA_DISABLED => halow_led_set_blink false s
  | MMWLAN_STA_CONNECTING => halow_led_set_blink false s
  | MMWLAN_STA_CONNECTED => s
  end.

(** Only the link's state decides; the addresses are printed.  [started]: whether
    [xTimerStart] returns [pdPASS], which decides what is printed. *)
Definition link_status_callback (link_state : mmipal_link_state) (started : bool) (s : state) : state * list action :=
  match link_state with
  | MMIPAL_LINK_UP =>
      let s := halow_led_set_blink true s in
      let s := if reconnecting s then set_conn s (initial_connect_done s) false else s in
      if negb (initial_connect_done s) then (set_conn s true (reconnecting s), [SembGive]) else (s, [])
  | MMIPAL_LINK_DOWN =>
      let s := halow_led_set_blink false s in
      (s, if initial_connect_done s && negb (reconnecting s) && created s reconnect_timer
          then TimerStart reconnect_timer :: if started then [PrintReconnectIn (HALOW_RECONNECT_DELAY_MS / 1000)] else []
          else [])
  end.

Section Store.
  Context {S : Type} `{!Nvs S}.
  (** What local variables hold before they are set. *)
  Context (junk : bridge_settings_t) (strval : bytes).

  (** [MMWLAN_STA_ARGS_INIT] clears the strings. *)
Definition sta_args_init : mmwlan_sta_args :=
    {| ssid := replicate (Z.to_nat MMWLAN_SSID_MAXLEN) 0; ssid_len := 0; security_type := MMWLAN_OPEN;
       passphrase := replicate (Z.to_nat (MMWLAN_PASSPHRASE_MAXLEN + 1)) 0; passphrase_len := 0 |}.

  (** ** Reconnection: to [mmwlan_sta_disable], to [mmwlan_sta_enable], to the end *)

Definition reconnect_begin (s : state) : state * list action :=
    (set_conn s (initial_connect_done s) true, [StaDisable]).

Definition reconnect_disabled (nvs : S) (ok : bool) (s : state) : outcome (state * list action) :=
    if negb ok then Ok (set_conn s (initial_connect_done s) false, [])
    else args ← load_mmwlan_sta_args nvs junk sta_args_init; Ok (s, [StaEnable args]).

Definition reconnect_enabled (s : state) : state := set_conn s (initial_connect_done s) false.

Definition do_halow_reconnect (nvs : S) (disable_ok : bool) (s : state) : outcome (state * list action) :=
    let (s, a1) := reconnect_begin s in
    '(s, a2) ← reconnect_disabled nvs disable_ok s;
    if negb disable_ok then Ok (s, a1 ++ a2) else Ok (reconnect_enabled s, a1 ++ a2).

  (** ** Start and stop *)

Definition mmipal_init_args_default : mmipal_init_args :=
    let z := replicate (Z.to_nat MMIPAL_IPADDR_STR_MAXLEN) 0 in
    {| mode := MMIPAL_DHCP; ip_addr := z; netmask := z; gateway_addr := z;
       ip6_mode := MMIPAL_IP6_DISABLED; ip6_addr := z |}.

Definition app_wlan_init (nvs : S) (ip_ok version_ok : bool) (creates : timer -> bool) (s : state)
      : outcome (state * list action) :=
    assert (negb (link_established s)) ;;
    l ← load_channel_list nvs junk strval;
    args ← load_mmipal_init_args mmipal_init_args_default;
    assert ip_ok ;;
    assert version_ok ;;
    Ok (set_created s true creates,
        [HalInit; WlanInit; SetChannelList l; IpInit args; SetLinkCallback; GpioLevel 1;
         TimerCreate led_status_timer LED_STATUS_INTERVAL_MS true;
         TimerCreate led_step_timer LED_BLINK_STEP_MS false] ++
        (if creates led_status_timer then [TimerStart led_status_timer] else []) ++
        [TimerCreate reconnect_timer HALOW_RECONNECT_DELAY_MS false;
         TimerCreate rssi_timer RSSI_INTERVAL_MS true] ++
        (if creates rssi_timer then [TimerStart rssi_timer] else []) ++ [GetVersion]).

Definition app_wlan_start (nvs : S) (enable_ok : bool) (s : state) : outcome (state * list action) :=
    args ← load_mmwlan_sta_args nvs junk sta_args_init;
    assert enable_ok ;;
    Ok (s, [StaEnable args; SembWait]).

Definition app_wlan_stop (s : state) : state * list action := (s, [WlanShutdown]).

  (** ** The tasks together

      A one-shot timer that was started is armed until it fires; the repeating
      ones fire at any time.  A command to a timer that does not get into the full
      queue of the timer task is lost: [ok] tells which commands of an event get in
      (changing the period starts a timer too).  [at_] is where the timer task is
      in [do_halow_reconnect]. *)

Inductive place := Out | InDisable | InEnable.

Record sys := { st : state; armed : timer -> bool; at_ : place; given : nat; nvs : S }.

Inductive event :=
  | EvLink (l : mmipal_link_state) (ok : action -> bool)
  | EvSta (x : mmwlan_sta_state)
  | EvReconnectFires
  | EvDisabled (ok : bool)
  | EvEnabled
  | EvLedStatus (ok : action -> bool)
  | EvLedStep (ok : action -> bool)
  | EvRssi (r : Z)
  | EvStore (n : S).

  (** A command that starts [t]. *)
Definition starts (t : timer) (x : action) : bool :=
    match x with TimerStart t' | TimerPeriod t' _ => bool_decide (t' = t) | _ => false end.

Definition arm (ok : action -> bool) (a : list action) (armed : timer -> bool) (t : timer) : bool :=
    armed t || existsb (fun x => ok x && starts t x) a.

Definition gives (a : list action) : nat := count (fun x => match x with SembGive => true | _ => false end) a.

Definition fired (t : timer) (armed : timer -> bool) (t' : timer) : bool := armed t' && negb (bool_decide (t' = t)).

  (** The system after an action list, everything else as given. *)
Definition after (w : sys) (s : state) (ok : action -> bool) (a : list action) (armed : timer -> bool) (p : place) : sys :=
    {| st := s; armed := arm ok a armed; at_ := p; given := given w + gives a; nvs := nvs w |}.

  (** For events that give no command. *)
Definition none (x : action) : bool := false.

  (** [None]: the event cannot happen now. *)
Definition step (w : sys) (e : event) : outcome (option (sys * list action)) :=
    let s := st w in
    match e with
    | EvLink l ok =>
        let (s, a) := link_status_callback l (ok (TimerStart reconnect_timer)) s in Ok (Some (after w s ok a (armed w) (at_ w), a))
    | EvSta x => Ok (Some (after w (sta_status_callback x s) none [] (armed w) (at_ w), []))
    | EvReconnectFires =>
        match at_ w with
        | Out =>
            if armed w reconnect_timer then
              let (s, a) := reconnect_begin s in
              Ok (Some (after w s none a (fired reconnect_timer (armed w)) InDisable, a))
            else Ok None
        | _ => Ok None
        end
    | EvDisabled ok =>
        match at_ w with
        | InDisable =>
            '(s, a) ← reconnect_disabled (nvs w) ok s;
            Ok (Some (after w s none a (armed w) (if ok then InEnable else Out), a))
        | _ => Ok None
        end
    | EvEnabled =>
        match at_ w with
        | InEnable => Ok (Some (after w (reconnect_enabled s) none [] (armed w) Out, []))
        | _ => Ok None
        end
    | EvLedStatus ok =>
        match at_ w with
        | Out => let (s, a) := led_status_timer_cb s in Ok (Some (after w s ok a (armed w) Out, a))
        | _ => Ok None
        end
    | EvLedStep ok =>
        match at_ w with
        | Out =>
            if armed w led_step_timer then
              let (s, a) := led_step_timer_cb s in
              Ok (Some (after w s ok a (fired led_step_timer (armed w)) Out, a))
            else Ok None
        | _ => Ok None
        end
    | EvRssi r =>
        match at_ w with
        | Out => Ok (Some (after w (rssi_timer_cb r s) none [] (armed w) Out, []))
        | _ => Ok None
        end
    | EvStore n => Ok (Some ({| st := s; armed := armed w; at_ := at_ w; given := given w; nvs := n |}, []))
    end.

Fixpoint run (w : sys) (es : list event) : outcome (sys * list action) :=
    match es with
    | [] => Ok (w, [])
    | e :: es =>
        r ← step w e;
        let '(w, a) := match r with Some r => r | None => (w, []) end in
        '(w, a') ← run w es; Ok (w, a ++ a')
    end.
End Store.
Arguments sys : clear implicits.
Arguments event : clear implicits.

(** ** Invariant *)

Section Invariant.
  Context {S : Type} `{!Nvs S} (junk : bridge_settings_t).

Record inv (w : sys S) : Prop := {
    inv_given : given w = if initial_connect_done (st w) then 1%nat else 0%nat;
    inv_armed : armed w reconnect_timer = true ->
      initial_connect_done (st w) = true /\ created (st w) reconnect_timer = true;
    inv_place : at_ w <> Out -> initial_connect_done (st w) = true;
    inv_reconnecting : reconnecting (st w) = true -> at_ w <> Out;
    inv_led : 0 <= led_step (st w) /\ led_step (st w) <= led_step_total (st w) /\ led_step_total (st w) <= 6;
    inv_led_armed : armed w led_step_timer = true -> led_step (st w) < led_step_total (st w);
  }.

(** After [app_wlan_init]. *)
Definition ready (n : S) (creates : timer -> bool) : sys S :=
    {| st := set_created initial true creates; armed := fun _ => false; at_ := Out; given := 0; nvs := n |}.

Lemma ready_inv n creates : inv (ready n creates).
Proof using Type. by constructor. Qed.

Lemma args_ok n : sized junk -> exists args, load_mmwlan_sta_args n junk sta_args_init = Ok args.
Proof using Type.
  intros Hj. destruct (sta_args_load_ok n junk sta_args_init Hj) as (c & a & _ & E & _); [done|done|]. by exists a.
Qed.

(** [after] keeps what the action list does not touch. *)
Lemma after_inv w s ok a ar p :
    inv w ->
    initial_connect_done s = initial_connect_done (st w) -> created s = created (st w) ->
    existsb (fun x => ok x && starts reconnect_timer x) a = false ->
    gives a = 0%nat ->
    (ar reconnect_timer = true -> armed w reconnect_timer = true) ->
    (p <> Out -> initial_connect_done s = true) -> (reconnecting s = true -> p <> Out) ->
    0 <= led_step s /\ led_step s <= led_step_total s /\ led_step_total s <= 6 ->
    (arm ok a ar led_step_timer = true -> led_step s < led_step_total s) ->
    inv (after w s ok a ar p).
Proof using Type.
  intros [Hg Ha Hp Hr Hl Hla] Hi Hc Hn Hgv Har Hp' Hr' Hl' Hla'. constructor; cbn [after st armed at_ given]; try done.
  - rewrite Hgv, Hi, Hg. lia.
  - rewrite Hi, Hc. unfold arm. rewrite Hn, orb_false_r. intros H. by apply Ha, Har.
Qed.

Lemma arm_nil ok ar t : arm ok [] ar t = ar t.
Proof using Type. unfold arm. cbn. apply orb_false_r. Qed.

(** Asking for the reconnection timer starts no other. *)
Lemma arm_reconnect ok (b : bool) x ar t : t <> reconnect_timer ->
    arm ok (TimerStart reconnect_timer :: if b then [PrintReconnectIn x] else []) ar t = ar t.
Proof using Type.
  intros Ht. unfold arm. destruct b; cbn; rewrite bool_decide_false by done; by rewrite ?andb_false_r, ?orb_false_r.
Qed.

Lemma no_commands ok t (a : list action) : existsb (starts t) a = false -> existsb (fun x => ok x && starts t x) a = false.
Proof using Type.
  induction a as [|x a IH]; [done|]. cbn. intros [-> H]%orb_false_elim. by rewrite andb_false_r, IH.
Qed.

Lemma link_inv w l ok s a :
    inv w -> link_status_callback l (ok (TimerStart reconnect_timer)) (st w) = (s, a) -> inv (after w s ok a (armed w) (at_ w)).
Proof using Type.
  intros Hinv. pose proof Hinv as [Hg Ha Hp Hr Hl Hla].
  destruct w as [[lr le ic rc cr ls lt lu] ar p g n]. cbn [st armed at_ given nvs] in *.
  destruct l; cbn [link_status_callback halow_led_set_blink set_up initial_connect_done reconnecting created].
  - intros [= <- <-]. cbn [initial_connect_done reconnecting created] in *.
    destruct (ic && negb rc && cr reconnect_timer) eqn:E.
    + rewrite !andb_true_iff, negb_true_iff in E. destruct E as [[-> ->] Ec].
      constructor; cbn [after st armed at_ given led_step led_step_total set_up halow_led_set_blink initial_connect_done created reconnecting]; try done; try lia.
      * rewrite Hg. by destruct (ok _).
      * by rewrite arm_reconnect.
    + apply after_inv; try done. by rewrite arm_nil.
  - cbn [initial_connect_done reconnecting created led_step led_step_total link_up_for_led] in *.
    destruct rc, ic; cbn; intros [= <- <-]; try (apply after_inv; try done; by rewrite arm_nil).
    + destruct (Hr eq_refl). by destruct p; [|specialize (Hp ltac:(done))..].
    + constructor; cbn; try done.
      { rewrite Hg. done. }
      { intros H. unfold arm in H. cbn in H. rewrite andb_false_r, !orb_false_r in H. by destruct (Ha H). }
      intros H. apply Hla. unfold arm in H. cbn in H. by rewrite andb_false_r, !orb_false_r in H.
Qed.

Lemma step_ok_inv w e :
    sized junk -> inv w ->
    exists r, step junk w e = Ok r /\ match r with Some (w', _) => inv w' | None => True end.
Proof using Type.
  intros Hj Hinv. pose proof Hinv as [Hg Ha Hp Hr Hl Hla].
  destruct e as [l ok|x| |ok| |ok|ok|r|n']; cbn [step].
  - destruct (link_status_callback l _ (st w)) as [s a] eqn:E. eexists. split; [done|]. by eapply link_inv.
  - eexists. split; [done|]. destruct x; (apply after_inv; try done; by rewrite arm_nil).
  - destruct (at_ w); [|by eexists..]. destruct (armed w reconnect_timer) eqn:E; [|by eexists].
    eexists. split; [done|]. destruct (Ha eq_refl).
    apply after_inv; try done. unfold arm, fired. cbn. by rewrite orb_false_r, andb_true_r.
  - destruct (at_ w) eqn:Ep; [by eexists| |by eexists]. unfold reconnect_disabled. destruct ok; cbn [negb].
    + destruct (args_ok (nvs w) Hj) as [args ->]. cbn [mbind outcome_bind]. eexists. split; [done|].
      apply after_inv; try done; [by intros _; apply Hp|]. unfold arm. cbn. by rewrite orb_false_r.
    + eexists. split; [done|]. apply after_inv; try done. by rewrite arm_nil.
  - destruct (at_ w) eqn:Ep; [by eexists..|]. eexists. split; [done|].
    apply after_inv; try done. by rewrite arm_nil.
  - destruct (at_ w) eqn:Ep; [|by eexists..]. unfold led_status_timer_cb. eexists. split; [done|].
    cbn [set_led created link_up_for_led].
    apply after_inv; try done; try exact Hr; try exact Hp; cbn [set_led led_step led_step_total];
      [apply no_commands; by destruct (created (st w) led_step_timer)|by destruct (created (st w) led_step_timer)| |].
    + destruct (link_up_for_led (st w)); lia.
    + destruct (link_up_for_led (st w)); lia.
  - destruct (at_ w) eqn:Ep; [|by eexists..]. destruct (armed w led_step_timer) eqn:E; [|by eexists].
    eexists. split; [done|]. specialize (Hla eq_refl).
    apply after_inv; try done; try exact Hr; try exact Hp; cbn [set_led led_step led_step_total created].
    + apply no_commands. by destruct (_ && _).
    + by destruct (_ && _).
    + unfold fired. by intros [? _]%andb_prop.
    + lia.
    + unfold arm, fired. rewrite (bool_decide_true (led_step_timer = led_step_timer)), andb_false_r by done.
      cbn [orb existsb].
      destruct (bool_decide (led_step (st w) + 1 < led_step_total (st w))) eqn:Eb; [|by rewrite andb_false_r].
      intros _. by apply bool_decide_eq_true_1 in Eb.
  - destruct (at_ w) eqn:Ep; [|by eexists..]. eexists. split; [done|].
    apply after_inv; try done; try exact Hr; try exact Hp. by rewrite arm_nil.
  - eexists. split; [done|]. by constructor.
Qed.


Lemma run_ok_inv es w :
    sized junk -> inv w -> exists w' a, run junk w es = Ok (w', a) /\ inv w'.
Proof using Type.
  intros Hj. revert w. induction es as [|e es IH]; intros w Hw; cbn [run]; [by exists w, []|].
  destruct (step_ok_inv w e Hj Hw) as (r & -> & Hr). cbn [mbind outcome_bind].
  destruct r as [[w1 a1]|].
  - destruct (IH w1 Hr) as (w' & a' & -> & Hi). by exists w', (a1 ++ a').
  - destruct (IH w Hw) as (w' & a' & -> & Hi). by exists w', a'.
Qed.

Lemma events_app es1 es2 w :
    run junk w (es1 ++ es2) =
      ('(w1, a1) ← run junk w es1; '(w2, a2) ← run junk w1 es2; Ok (w2, a1 ++ a2)).
Proof using Type.
  revert w. induction es1 as [|e es1 IH]; intros w; cbn [run app].
  - cbn [mbind outcome_bind]. by destruct (run junk w es2) as [[w2 a2]|].
  - destruct (step junk w e) as [r|]; [|done]. cbn [mbind outcome_bind].
    destruct (match r with Some r => r | None => (w, []) end) as [w1 a1]. rewrite IH.
    destruct (run junk w1 es1) as [[w2 a2]|]; [|done]. cbn [mbind outcome_bind].
    destruct (run junk w2 es2) as [[w3 a3]|]; [|done]. cbn [mbind outcome_bind]. by rewrite app_assoc.
Qed.






Definition levels (a : list action) : list Z :=
    omap (fun x => match x with GpioLevel l => Some l | _ => None end) a.

Lemma levels_app a b : levels (a ++ b) = levels a ++ levels b.
Proof using Type. apply omap_app. Qed.

  (** Every timer command gets into the queue. *)
Definition all (x : action) : bool := true.

  (** [k]: the steps of the burst still to do. *)
Fixpoint burst (k : nat) (i : Z) : list Z :=
    match k with O => [] | Datatypes.S k => Z.land i 1 :: burst k (i + 1) end.

Lemma steps_run n w k :
    at_ w = Out -> created (st w) led_step_timer = true ->
    armed w led_step_timer = bool_decide (0 < k)%nat -> led_step_total (st w) = led_step (st w) + Z.of_nat k ->
    exists w' a, run junk w (replicate n (EvLedStep all)) = Ok (w', a) /\
      levels a = burst (n `min` k) (led_step (st w)) /\ armed w' led_step_timer = bool_decide (n < k)%nat.
Proof using Type.
  revert w k. induction n as [|n IH]; intros w k Hp Hc Ha Ht; cbn [replicate run].
  { exists w, []. done. }
  cbn [step]. rewrite Hp, Ha. destruct k as [|k].
  - rewrite bool_decide_false by lia. cbn [mbind outcome_bind]. destruct (IH w 0%nat Hp Hc Ha Ht) as (w' & a & -> & Hl & Hw).
    exists w', a. rewrite Nat.min_0_r in *. split_and!; [done|done|]. rewrite Hw. apply bool_decide_ext. lia.
  - rewrite bool_decide_true by lia. unfold led_step_timer_cb. cbn [mbind outcome_bind set_led led_step led_step_total created].
    rewrite Hc, andb_true_r. match goal with |- context [run junk ?w1 _] => set (w1' := w1) end.
    assert (Hb : bool_decide (led_step (st w) + 1 < led_step_total (st w)) = bool_decide (0 < k)%nat)
      by (apply bool_decide_ext; lia).
    destruct (IH w1' k) as (w' & a & -> & Hl & Hw); subst w1'; cbn [after at_ st armed set_led created led_step led_step_total]; try done.
    + unfold arm, fired. rewrite (bool_decide_true (led_step_timer = led_step_timer)), andb_false_r by done. rewrite Hb.
      by destruct (bool_decide (0 < k)%nat).
    + lia.
    + do 2 eexists. split; [done|]. split.
      * rewrite levels_app, Hl. cbn [after st set_led led_step]. cbn [Nat.min burst].
        assert (Hlev : forall b : bool, levels (GpioLevel (if decide (Z.land (led_step (st w)) 1 <> 0) then 1 else 0)
          :: if b then start_step else []) = [Z.land (led_step (st w)) 1]).
        { intros b. rewrite land_1. assert (Hm : led_step (st w) mod 2 = 0 \/ led_step (st w) mod 2 = 1) by zlia.
          destruct Hm as [-> | ->]; by destruct b. }
        by rewrite Hlev.
      * rewrite Hw. apply bool_decide_ext. lia.
Qed.
End Invariant.

(** ** Properties *)

(** C5: from start-up, through every sequence of events in every order that the
    tasks and timers allow, whichever timer commands are accepted: no function fails or leaves its arrays, the start
    semaphore is given exactly once, by the first link-up, the reconnection
    timer runs only after that, [reconnecting] is set only while the timer
    task is inside [do_halow_reconnect], and a running LED burst has steps
    left. *)
Theorem app_invariant {S} `{!Nvs S} junk (n : S) creates es :
  sized junk -> exists w a, run junk (ready n creates) es = Ok (w, a) /\ inv w.
Proof. intros Hj. apply run_ok_inv; [done|apply ready_inv]. Qed.

Definition ex_creates (t : timer) : bool := true.
Definition ex_es : list (event kv) :=
  [EvSta MMWLAN_STA_CONNECTING; EvLink MMIPAL_LINK_UP none; EvRssi (-60); EvLink MMIPAL_LINK_DOWN all; EvLedStatus all;
   EvLedStep none; EvReconnectFires; EvLink MMIPAL_LINK_DOWN all; EvDisabled true; EvLink MMIPAL_LINK_UP all; EvEnabled].

Lemma app_invariant_witness :
  exists w a, run ex_out (ready ex_empty ex_creates) ex_es = Ok (w, a) /\ inv w.
Proof. apply (app_invariant ex_out ex_empty ex_creates ex_es), ex_out_sized. Defined.


Definition ex_up : sys kv :=
  {| st := set_conn (set_created initial true ex_creates) true false; armed := fun _ => false; at_ := Out;
     given := 1; nvs := ex_empty |}.


(** A status burst: when nothing disturbs it and the timer's commands are accepted, the LED goes on and off once
    when the link is up and three times when it is down, ends off (the LED is
    on at level 0), and its timer has stopped. *)
Theorem led_burst {S} `{!Nvs S} junk (w : sys S) :
  at_ w = Out -> created (st w) led_step_timer = true ->
  exists w' a, run junk w (EvLedStatus all :: replicate 6 (EvLedStep all)) = Ok (w', a) /\
    levels a = (if link_up_for_led (st w) then [0; 1] else [0; 1; 0; 1; 0; 1]) /\
    armed w' led_step_timer = false.
Proof.
  intros Hp Hc. cbn [run]. cbn [step]. rewrite Hp. unfold led_status_timer_cb. cbn [set_led created]. rewrite Hc.
  cbn [mbind outcome_bind]. match goal with |- context [run junk ?w1 _] => set (w1' := w1) end.
  assert (Ha : armed w1' led_step_timer = true) by (subst w1'; cbn; unfold arm; cbn; apply orb_true_r).
  destruct (steps_run junk 6 w1' (if link_up_for_led (st w) then 2%nat else 6%nat)) as (w' & a & -> & Hl & Hw).
  - done.
  - done.
  - rewrite Ha. by destruct (link_up_for_led (st w)).
  - subst w1'. cbn. by destruct (link_up_for_led (st w)).
  - do 2 eexists. split; [done|]. rewrite levels_app, Hl, Hw. subst w1'. cbn [after st set_led led_step].
    by destruct (link_up_for_led (st w)).
Qed.

Lemma led_burst_witness :
  exists w' a, run ex_out ex_up (EvLedStatus all :: replicate 6 (EvLedStep all)) = Ok (w', a) /\
    levels a = (if link_up_for_led (st ex_up) then [0; 1] else [0; 1; 0; 1; 0; 1]) /\
    armed w' led_step_timer = false.
Proof. apply (led_burst ex_out ex_up); reflexivity. Defined.

(** ** What the model shows besides *)

Definition asks_station (x : action) : bool :=
  match x with StaDisable | StaEnable _ => true | _ => false end.


(** A link-down whose start of the timer is refused (its queue is full) arms
    nothing: the link stays down without a reconnection. *)
Lemma refused_start_is_lost {S} `{!Nvs S} junk (w : sys S) ok :
  ok (TimerStart reconnect_timer) = false -> armed w reconnect_timer = false ->
  exists w' a, step junk w (EvLink MMIPAL_LINK_DOWN ok) = Ok (Some (w', a)) /\ armed w' reconnect_timer = false /\
    forall x, PrintReconnectIn x ∉ a.
Proof.
  intros Hok Ha. cbn [step link_status_callback]. rewrite Hok. do 2 eexists. split; [reflexivity|].
  destruct (_ && created _ _); cbn [after armed]; unfold arm; cbn [existsb]; rewrite Ha, ?Hok; split; try done;
    intros x; set_solver.
Qed.

(** After a reconnection that failed nothing retries: without a new link event
    no sequence of events touches the station again. *)
Lemma failed_reconnect_is_final {S} `{!Nvs S} junk es (w w' : sys S) a :
  Forall (fun e => match e with EvLink _ _ => False | _ => True end) es ->
  at_ w = Out -> armed w reconnect_timer = false -> run junk w es = Ok (w', a) ->
  existsb asks_station a = false.
Proof.
  intros Hes. revert w a. induction Hes as [|e es He _ IH]; intros w a Hp Ha; cbn [run]; [by intros [= _ <-]|].
  destruct e as [l ok|x| |ok| |ok|ok|r0|n']; cbn [step]; rewrite ?Hp, ?Ha; try done; cbn [mbind outcome_bind].
  - destruct (run junk _ es) as [[w2 a2]|] eqn:E2; [|done]. intros [= -> <-]. eapply IH; [| |exact E2]; [done|].
    cbn. by rewrite arm_nil.
  - destruct (run junk w es) as [[w2 a2]|] eqn:E2; [|done]. intros [= -> <-]. by eapply IH.
  - destruct (run junk w es) as [[w2 a2]|] eqn:E2; [|done]. intros [= -> <-]. by eapply IH.
  - destruct (run junk w es) as [[w2 a2]|] eqn:E2; [|done]. intros [= -> <-]. by eapply IH.
  - unfold led_status_timer_cb. cbn [mbind outcome_bind]. destruct (run junk _ es) as [[w2 a2]|] eqn:E2; [|done]. intros [= -> <-].
    assert (Hrest : existsb asks_station a2 = false).
    { eapply IH; [| |exact E2]; [done|]. cbn. unfold arm. rewrite Ha. apply no_commands. by destruct (created (st w) led_step_timer). }
    rewrite existsb_app, Hrest. cbn [set_led created]. by destruct (created (st w) led_step_timer).
  - destruct (armed w led_step_timer); cbn [mbind outcome_bind].
    + unfold led_step_timer_cb. cbn [mbind outcome_bind].
      destruct (run junk _ es) as [[w2 a2]|] eqn:E2; [|done]. intros [= -> <-].
      assert (Hrest : existsb asks_station a2 = false).
      { eapply IH; [| |exact E2]; [done|]. cbn. unfold arm, fired. rewrite Ha. apply no_commands. by destruct (_ && _). }
      destruct (_ && _); exact Hrest.
    + destruct (run junk w es) as [[w2 a2]|] eqn:E2; [|done]. intros [= -> <-]. by eapply IH.
  - destruct (run junk _ es) as [[w2 a2]|] eqn:E2; [|done]. intros [= -> <-]. eapply IH; [| |exact E2]; [done|].
    cbn. by rewrite arm_nil.
  - destruct (run junk _ es) as [[w2 a2]|] eqn:E2; [|done]. intros [= -> <-]. by eapply IH; [| |exact E2].
Qed.

(** Such a state is reached: the link goes down, the attempt fails. *)
Lemma failed_reconnect_happens :
  exists w a, run ex_out ex_up [EvLink MMIPAL_LINK_DOWN all; EvReconnectFires; EvDisabled false] = Ok (w, a) /\
    at_ w = Out /\ armed w reconnect_timer = false /\ link_up_for_led (st w) = false.
Proof. do 2 eexists. split; [reflexivity|]. done. Qed.

End AppCommon.
