(* ===== verification/NatRouter.v ===== *)
(** The 2.4 GHz side of the bridge: [examples/iperf/main/src/nat_router.c], and
    the order of start-up in [app_main] of [iperf.c].

    lwIP's list of interfaces is a list of records, an IPv4 address the 32-bit
    value in memory order; what ESP-IDF returns are arguments, [ESP_ERROR_CHECK]
    of an error stops the program. *)

From S2P Require Import Prelude CStr Settings LoadConfig AppCommon.

Module NatRouter.
Import Settings.
Import LoadConfig(nonempty_or).

(** ** Addresses *)

(** [PP_HTONL (LWIP_MAKEU32 (a, b, c, d))] on the little-endian target *)
Definition ip4_nbo (a b c d : Z) : Z := a + b * 2 ^ 8 + c * 2 ^ 16 + d * 2 ^ 24.

Definition HALOW_SUBNET_NBO : Z := ip4_nbo 10 41 0 0.
Definition HALOW_SUBNET_MASK : Z := ip4_nbo 255 255 255 0.
Definition HALOW_GW_NBO : Z := ip4_nbo 10 41 0 1.
Definition AP_IP_NBO : Z := ip4_nbo 192 168 4 1.

Record netif := { id : nat; is_up : bool; ip4 : option Z; netmask : Z; gw : Z }.

(** ** On the TCP/IP thread *)

(** The new default interface; [None]: unchanged. *)
Fixpoint set_halow_default_netif_cb (netif_list : list netif) : option nat :=
  match netif_list with
  | [] => None
  | n :: next =>
      if negb (is_up n) then set_halow_default_netif_cb next
      else
        match ip4 n with
        | None => set_halow_default_netif_cb next
        | Some a => if decide (a = AP_IP_NBO) then set_halow_default_netif_cb next else Some (id n)
        end
  end.

Definition netif_set_gw (n : netif) (g : Z) : netif :=
  {| id := id n; is_up := is_up n; ip4 := ip4 n; netmask := netmask n; gw := g |}.

Fixpoint ensure_halow_default_route_cb (netif_list : list netif) : list netif :=
  match netif_list with
  | [] => []
  | n :: next =>
      if negb (is_up n) then n :: ensure_halow_default_route_cb next
      else
        match ip4 n with
        | None => n :: ensure_halow_default_route_cb next
        | Some a =>
            if decide (Z.land a HALOW_SUBNET_MASK <> HALOW_SUBNET_NBO) then n :: ensure_halow_default_route_cb next
            else if decide (gw n <> 0) then n :: ensure_halow_default_route_cb next
            else netif_set_gw n HALOW_GW_NBO :: next
        end
  end.

(** ** Events *)

Inductive action :=
| NaptEnable
| CallSetDefault
| CallEnsureRoute
| DnsForwarderStart (upstream : bytes)
| RouteFixTimerStart
| SetConfig (ssid : bytes) (ssid_len : Z) (password : bytes)
| WifiStart
| WebConfigStart.

Definition delayed_route_fix_timer_cb : list action := [CallSetDefault; CallEnsureRoute].

(** [WIFI_EVENT_AP_START] is ESP-IDF's; [gateway] is what [mmipal_get_ip_config]
    reports, [None] when it fails. *)
Definition wifi_ap_start_handler (WIFI_EVENT_AP_START event_id : Z) (ap_netif route_fix_timer : bool) (gateway : option bytes) : list action :=
  if decide (event_id <> WIFI_EVENT_AP_START \/ ap_netif = false) then []
  else
    [NaptEnable; CallSetDefault; DnsForwarderStart (lit "8.8.8.8")] ++
    match gateway with
    | Some g => if decide (cstr g = lit "0.0.0.0" \/ cstr g = []) then [CallEnsureRoute] else []
    | None => []
    end ++
    (if route_fix_timer then [RouteFixTimerStart] else []).

(** ** Start *)

(** ESP-IDF: its error codes, and what the calls of [start_2ghz_ap] return;
    [set_config] gets SSID and password. *)
Record idf := {
  ESP_ERR_INVALID_STATE : Z;
  ESP_ERR_NVS_NO_FREE_PAGES : Z;
  ESP_ERR_NVS_NEW_VERSION_FOUND : Z;
  nvs_flash_init : Z;
  nvs_flash_erase : Z;
  nvs_flash_init_again : Z;
  event_loop_create : Z;
  netif_init : Z;
  create_ap_netif : bool;
  handler_register : Z;
  wifi_init : Z;
  set_storage : Z;
  set_mode : Z;
  set_config : bytes -> bytes -> Z;
  wifi_start : Z;
}.

Definition ESP_ERROR_CHECK (e : Z) : outcome unit := assert (bool_decide (e = ESP_OK)).

Section Start.
  Context {S : Type} `{!Nvs S} (junk : bridge_settings_t) (env : idf).

  (** [if (!field[0]) strncpy (field, default, max - 1), field[max - 1] = '\0';] *)
Definition default_if_empty (field default : bytes) (max : Z) : outcome bytes :=
    c ← rd field 0;
    if decide (c = 0) then b ← strncpy field (default ++ [0]) (max - 1); wr b (max - 1) 0
    else Ok field.

  (** The access point's SSID, its length, its password. *)
Definition ap_config (c : bridge_settings_t) : outcome (bytes * Z * bytes) :=
    as_ ← default_if_empty (ap_ssid c) (lit "XIAO_S3_HALOW") SETTINGS_MAX_SSID;
    ap ← default_if_empty (ap_pass c) (lit "letmein111") SETTINGS_MAX_PASS;
    ssid ← strncpy (replicate 32 0) as_ (32 - 1);
    n ← strlen ssid;
    password ← strncpy (replicate 64 0) ap (64 - 1);
    Ok (ssid, u8 n, password).

Definition start_2ghz_ap (s : S) : outcome (list action) :=
    ret ← (if decide (nvs_flash_init env = ESP_ERR_NVS_NO_FREE_PAGES env \/
                      nvs_flash_init env = ESP_ERR_NVS_NEW_VERSION_FOUND env)
           then ESP_ERROR_CHECK (nvs_flash_erase env) ;; Ok (nvs_flash_init_again env)
           else Ok (nvs_flash_init env));
    ESP_ERROR_CHECK ret ;;
    (if decide (event_loop_create env <> ESP_OK /\ event_loop_create env <> ESP_ERR_INVALID_STATE env)
     then ESP_ERROR_CHECK (event_loop_create env) else Ok tt) ;;
    if decide (netif_init env <> ESP_OK) then Ok [] else
    if negb (create_ap_netif env) then Ok [] else
    ESP_ERROR_CHECK (handler_register env) ;;
    c ← settings_load s junk;
    '(ssid, n, password) ← ap_config c;
    ESP_ERROR_CHECK (wifi_init env) ;;
    ESP_ERROR_CHECK (set_storage env) ;;
    ESP_ERROR_CHECK (set_mode env) ;;
    ESP_ERROR_CHECK (set_config env ssid password) ;;
    ESP_ERROR_CHECK (wifi_start env) ;;
    Ok [SetConfig ssid n password; WifiStart; WebConfigStart].

  (** [app_main] after the flash, up to the access point; [link_up]: the HaLow link comes up, so
      that [app_wlan_start] returns.  [None]: it never does. *)
Definition bring_up (s : S) (ip_ok version_ok : bool) (creates : AppCommon.timer -> bool) (strval : bytes)
      (enable_ok link_up : bool) : outcome (option (list action)) :=
    '(st, _) ← AppCommon.app_wlan_init junk strval s ip_ok version_ok creates AppCommon.initial;
    '(_, _) ← AppCommon.app_wlan_start junk s enable_ok st;
    if link_up then a ← start_2ghz_ap s; Ok (Some a) else Ok None.
End Start.

(** ** Lemmas *)

Definition not_ap (n : netif) : bool :=
  is_up n && match ip4 n with Some a => negb (bool_decide (a = AP_IP_NBO)) | None => false end.

Definition no_gateway (n : netif) : bool :=
  is_up n && match ip4 n with
             | Some a => bool_decide (Z.land a HALOW_SUBNET_MASK = HALOW_SUBNET_NBO) && bool_decide (gw n = 0)
             | None => false
             end.

Lemma default_spec l : set_halow_default_netif_cb l = option_map id (List.find not_ap l).
Proof.
  induction l as [|n l IH]; [done|]. cbn [set_halow_default_netif_cb List.find]. unfold not_ap at 1.
  destruct (is_up n); [|done]. cbn [negb andb]. destruct (ip4 n) as [a|]; [|done].
  case_decide; [rewrite bool_decide_true by done; exact IH|by rewrite bool_decide_false].
Qed.

Lemma ensure_none l : Forall (fun n => no_gateway n = false) l -> ensure_halow_default_route_cb l = l.
Proof.
  induction 1 as [|n l Hn Hl IH]; [done|]. cbn [ensure_halow_default_route_cb]. unfold no_gateway in Hn.
  destruct (is_up n); cbn [negb andb] in *; [|by rewrite IH]. destruct (ip4 n) as [a|]; [|by rewrite IH].
  destruct (decide (Z.land a HALOW_SUBNET_MASK <> HALOW_SUBNET_NBO)) as [|H1]; [by rewrite IH|].
  apply dec_stable in H1. rewrite bool_decide_true in Hn by done.
  destruct (decide (gw n <> 0)) as [|H2]; [by rewrite IH|]. apply dec_stable in H2. by rewrite bool_decide_true in Hn.
Qed.

Lemma ensure_first l1 n l2 :
  Forall (fun n => no_gateway n = false) l1 -> no_gateway n = true ->
  ensure_halow_default_route_cb (l1 ++ n :: l2) = l1 ++ netif_set_gw n HALOW_GW_NBO :: l2.
Proof.
  intros Hl Hn. induction Hl as [|m l Hm Hl IH]; cbn [app ensure_halow_default_route_cb].
  - unfold no_gateway in Hn. apply andb_prop in Hn as [-> Hn]. cbn [negb]. destruct (ip4 n) as [a|]; [|done].
    apply andb_prop in Hn as [H1%bool_decide_eq_true_1 H2%bool_decide_eq_true_1].
    rewrite (decide_False (P := _ <> HALOW_SUBNET_NBO)) by tauto.
    by rewrite (decide_False (P := gw n <> 0)) by tauto.
  - unfold no_gateway in Hm. destruct (is_up m); cbn [negb andb] in *; [|by rewrite IH].
    destruct (ip4 m) as [a|]; [|by rewrite IH].
    destruct (decide (Z.land a HALOW_SUBNET_MASK <> HALOW_SUBNET_NBO)) as [|H1]; [by rewrite IH|].
    apply dec_stable in H1. rewrite bool_decide_true in Hm by done.
    destruct (decide (gw m <> 0)) as [|H2]; [by rewrite IH|]. apply dec_stable in H2. by rewrite bool_decide_true in Hm.
Qed.

Lemma default_if_empty_Ok field d max :
  0 < max -> zlen field = max -> terminated field -> no_nul d -> zlen d < max ->
  exists b, default_if_empty field d max = Ok b /\ zlen b = max /\ terminated b /\
    cstr b = nonempty_or (cstr field) d.
Proof.
  intros Hm Hl Ht Hd Hdl. unfold default_if_empty, nonempty_or.
  destruct field as [|c f]; [by apply elem_of_nil in Ht|]. change (rd (c :: f) 0) with (Ok c).
  cbn [mbind outcome_bind cstr]. destruct (decide (c = 0)) as [->|Hc].
  - destruct (strncpy_terminate (0 :: f) (d ++ [0]) max) as (b & E & ? & ? & Hb); [done|done|apply terminated_app|].
    exists b. split; [exact E|]. split_and!; [done|done|]. rewrite Hb, cstr_app by done. rewrite take_ge by lia. done.
  - exists (c :: f). split; [done|]. cbn [cstr]. by rewrite (decide_False (P := c = 0)) by done.
Qed.

(** A copy of at most [n] octets into a cleared array with room for one more. *)
Lemma strncpy_cleared n src :
  terminated src -> zlen (cstr src) <= n -> 0 <= n ->
  exists b, strncpy (replicate (Z.to_nat (n + 1)) 0) src n = Ok b /\ zlen b = n + 1 /\ terminated b /\
    cstr b = cstr src.
Proof.
  intros Ht Hc Hn. unfold strncpy. rewrite decide_True by tauto.
  set (w := take _ _). assert (Hw : length w = Z.to_nat n).
  { subst w. rewrite length_take, length_app, length_replicate. lia. }
  rewrite wrn_Ok by (rewrite ?length_replicate; lia). change (Z.to_nat 0) with 0%nat.
  assert (E : splice 0 w (replicate (Z.to_nat (n + 1)) 0) = w ++ [0]).
  { unfold splice. rewrite take_0, drop_replicate, Hw. cbn [app Nat.add].
    by replace (Z.to_nat (n + 1) - Z.to_nat n)%nat with 1%nat by lia. }
  rewrite E. eexists. split; [done|]. split_and!.
  - rewrite length_app. cbn. lia.
  - apply terminated_app.
  - rewrite cstr_app_nul. subst w. rewrite cstr_take_zeros; [|apply cstr_no_nul|lia]. apply take_ge. lia.
Qed.

Lemma ap_config_Ok c :
  wf c -> exists ssid n password, ap_config c = Ok (ssid, n, password) /\
    zlen ssid = 32 /\ terminated ssid /\ cstr ssid = nonempty_or (cstr (ap_ssid c)) (lit "XIAO_S3_HALOW") /\
    n = zlen (cstr ssid) /\
    zlen password = 64 /\ terminated password /\ cstr password = nonempty_or (cstr (ap_pass c)) (lit "letmein111").
Proof.
  intros [[] ???????]. unfold ap_config.
  destruct (default_if_empty_Ok (ap_ssid c) (lit "XIAO_S3_HALOW") SETTINGS_MAX_SSID) as (a & -> & La & Ta & Ca); try by_decide; try done.
  cbn [mbind outcome_bind].
  destruct (default_if_empty_Ok (ap_pass c) (lit "letmein111") SETTINGS_MAX_PASS) as (b & -> & Lb & Tb & Cb); try by_decide; try done.
  cbn [mbind outcome_bind]. pose proof (cstr_len a Ta). pose proof (cstr_len b Tb).
  unfold SETTINGS_MAX_SSID, SETTINGS_MAX_PASS in *.
  destruct (strncpy_cleared 31 a) as (x & Ex & Lx & Tx & Cx); [done|lia|lia|].
  change (replicate 32 0) with (replicate (Z.to_nat (31 + 1)) 0). change (32 - 1) with 31. rewrite Ex.
  cbn [mbind outcome_bind]. rewrite strlen_Ok by done. cbn [mbind outcome_bind].
  destruct (strncpy_cleared 63 b) as (y & Ey & Ly & Ty & Cy); [done|lia|lia|].
  change (replicate 64 0) with (replicate (Z.to_nat (63 + 1)) 0). change (64 - 1) with 63. rewrite Ey.
  cbn [mbind outcome_bind]. pose proof (cstr_len x Tx). do 3 eexists. split; [done|].
  rewrite Cx, Cy, Ca, Cb. rewrite <- Ca, <- Cx. split_and!; try done; try lia. apply u8_id. zlia.
Qed.

Definition all_well (env : idf) : Prop :=
  ESP_ERR_NVS_NO_FREE_PAGES env <> ESP_OK /\ ESP_ERR_NVS_NEW_VERSION_FOUND env <> ESP_OK /\
  nvs_flash_init env = ESP_OK /\ event_loop_create env = ESP_OK /\ netif_init env = ESP_OK /\
  create_ap_netif env = true /\ handler_register env = ESP_OK /\ wifi_init env = ESP_OK /\
  set_storage env = ESP_OK /\ set_mode env = ESP_OK /\ wifi_start env = ESP_OK.

Lemma start_Ok {S} `{!Nvs S} junk env (s : S) :
  sized junk -> all_well env ->
  exists c ssid n password, settings_load s junk = Ok c /\ wf c /\ ap_config c = Ok (ssid, n, password) /\
    start_2ghz_ap junk env s =
      if decide (set_config env ssid password = ESP_OK)
      then Ok [SetConfig ssid n password; WifiStart; WebConfigStart] else Fail AssertFailed.
Proof.
  intros Hj (N1 & N2 & E1 & E2 & E3 & E4 & E5 & E6 & E7 & E8 & E9).
  destruct (load_ok s junk Hj) as (c & Ec & Hwf).
  destruct (ap_config_Ok c Hwf) as (ssid & n & password & Ea & _).
  exists c, ssid, n, password. split; [done|]. split; [done|]. split; [done|].
  unfold start_2ghz_ap. rewrite E1, E2, E3, E4, E5, E6, E7, E8, E9.
  rewrite (decide_False (P := ESP_OK = ESP_ERR_NVS_NO_FREE_PAGES env \/ _)) by (intros [?|?]; congruence).
  cbn [mbind outcome_bind].
  rewrite (decide_False (P := ESP_OK <> ESP_OK /\ _)) by (intros [[] _]; done).
  cbn [mbind outcome_bind ESP_ERROR_CHECK].
  unfold ESP_ERROR_CHECK. rewrite (bool_decide_true (ESP_OK = ESP_OK)) by done. cbn [assert mbind outcome_bind].
  rewrite decide_False by (intros []; done). cbn [negb]. rewrite Ec. cbn [mbind outcome_bind]. rewrite Ea. cbn [mbind outcome_bind].
  case_decide as Hs; [by rewrite bool_decide_true|by rewrite bool_decide_false].
Qed.

(** ** Properties *)

(** C36: [start_2ghz_ap] for every store, when ESP-IDF's calls succeed: the access
    point gets the stored SSID and password, or the defaults for empty ones,
    whole and terminated in their arrays, with the right SSID length, and the
    settings page is started after it; when the driver refuses the
    configuration the program stops. *)
Theorem start_2ghz_ap_config {S} `{!Nvs S} junk env (s : S) :
  sized junk -> all_well env ->
  exists c ssid password, settings_load s junk = Ok c /\
    zlen ssid = 32 /\ terminated ssid /\ cstr ssid = nonempty_or (cstr (ap_ssid c)) (lit "XIAO_S3_HALOW") /\
    zlen password = 64 /\ terminated password /\ cstr password = nonempty_or (cstr (ap_pass c)) (lit "letmein111") /\
    start_2ghz_ap junk env s =
      if decide (set_config env ssid password = ESP_OK)
      then Ok [SetConfig ssid (zlen (cstr ssid)) password; WifiStart; WebConfigStart] else Fail AssertFailed.
Proof.
  intros Hj He. destruct (start_Ok junk env s Hj He) as (c & ssid & n & password & Ec & Hwf & Ea & E).
  destruct (ap_config_Ok c Hwf) as (ssid' & n' & password' & Ea' & H1 & H2 & H3 & H4 & H5 & H6 & H7).
  rewrite Ea in Ea'. injection Ea' as <- <- <-. exists c, ssid, password. rewrite <- H4. by split_and!.
Qed.

Definition ex_idf : idf :=
  {| ESP_ERR_INVALID_STATE := 0x103; ESP_ERR_NVS_NO_FREE_PAGES := 0x110d;
     ESP_ERR_NVS_NEW_VERSION_FOUND := 0x1110; nvs_flash_init := ESP_OK; nvs_flash_erase := ESP_OK; nvs_flash_init_again := ESP_OK;
     event_loop_create := ESP_OK; netif_init := ESP_OK; create_ap_netif := true;
     handler_register := ESP_OK; wifi_init := ESP_OK; set_storage := ESP_OK; set_mode := ESP_OK;
     set_config := fun _ password => if decide (8 <= zlen (cstr password)) then ESP_OK else 0x300b;
     wifi_start := ESP_OK |}.

Lemma start_2ghz_ap_config_witness :
  exists c ssid password, settings_load ex_empty ex_out = Ok c /\
    zlen ssid = 32 /\ terminated ssid /\ cstr ssid = nonempty_or (cstr (ap_ssid c)) (lit "XIAO_S3_HALOW") /\
    zlen password = 64 /\ terminated password /\ cstr password = nonempty_or (cstr (ap_pass c)) (lit "letmein111") /\
    start_2ghz_ap ex_out ex_idf ex_empty =
      if decide (set_config ex_idf ssid password = ESP_OK)
      then Ok [SetConfig ssid (zlen (cstr ssid)) password; WifiStart; WebConfigStart] else Fail AssertFailed.
Proof. apply (start_2ghz_ap_config ex_out ex_idf ex_empty); [apply ex_out_sized|by repeat split]. Defined.

(** The default route towards HaLow: the default interface becomes the first
    one that is up and is not the access point's, and is left alone when there
    is none; the gateway of the first HaLow interface without one becomes
    10.41.0.1 and nothing else of any interface changes. *)
Theorem route_fix_correct l :
  set_halow_default_netif_cb l = option_map id (List.find not_ap l) /\
  (Forall (fun n => no_gateway n = false) l /\ ensure_halow_default_route_cb l = l \/
   exists l1 n l2, l = l1 ++ n :: l2 /\ Forall (fun n => no_gateway n = false) l1 /\ no_gateway n = true /\
     ensure_halow_default_route_cb l = l1 ++ netif_set_gw n HALOW_GW_NBO :: l2 /\
     no_gateway (netif_set_gw n HALOW_GW_NBO) = false).
Proof.
  split; [apply default_spec|].
  assert (H : Forall (fun n => no_gateway n = false) l \/
    exists l1 n l2, l = l1 ++ n :: l2 /\ Forall (fun n => no_gateway n = false) l1 /\ no_gateway n = true).
  { induction l as [|n l IH]; [by left|]. destruct (no_gateway n) eqn:E.
    - right. by exists [], n, l.
    - destruct IH as [IH|(l1 & m & l2 & -> & Hl & Hm)]; [left; by constructor|].
      right. exists (n :: l1), m, l2. split_and!; [done|by constructor|done]. }
  destruct H as [H|(l1 & n & l2 & -> & Hl & Hn)].
  - left. split; [done|]. by apply ensure_none.
  - right. exists l1, n, l2. split_and!; try done; [by apply ensure_first|].
    unfold no_gateway in *. cbn [netif_set_gw is_up ip4 gw]. apply andb_prop in Hn as [-> Hn].
    destruct (ip4 n); [|done]. rewrite (bool_decide_false (HALOW_GW_NBO = 0)) by done. by rewrite andb_false_r.
Qed.

(** ** What the model shows besides *)

(** A password of one to seven characters, which the settings page stores, stops
    the program at every following boot, before the page that could change it
    is there: the driver asks for eight. *)
Lemma short_ap_pass_stops_boot :
  start_2ghz_ap ex_out ex_idf
    (snd (settings_save {| halow_ssid := halow_ssid ex_settings; halow_pass := halow_pass ex_settings;
                           ap_ssid := ap_ssid ex_settings; ap_pass := lit "short" ++ replicate 59 0;
                           country := country ex_settings; buffer_preset := 2; lang := 0 |} ex_empty)) =
    Fail AssertFailed.
Proof. vm_compute. reflexivity. Qed.

(** The access point and with it the settings page wait for the HaLow link: with
    wrong HaLow credentials there is no way to correct them. *)
Lemma page_waits_for_link {S} `{!Nvs S} junk env (s : S) ip_ok version_ok creates strval enable_ok r :
  bring_up junk env s ip_ok version_ok creates strval enable_ok false = Ok r -> r = None.
Proof.
  unfold bring_up. destruct (AppCommon.app_wlan_init _ _ _ _ _ _ _) as [[st a]|]; [|done]. cbn [mbind outcome_bind].
  destruct (AppCommon.app_wlan_start _ _ _ _) as [[st' a']|]; [|done]. cbn [mbind outcome_bind]. congruence.
Qed.

End NatRouter.
