(* ===== verification/IperfCommon.v ===== *)
(** iperf, the part shared by UDP and TCP: [framework/src/mmiperf/mmiperf.h],
    [common/mmiperf_private.h], [common/mmiperf_common.c],
    [common/mmiperf_list.c], and the clock comparisons of [mmosal.h].

    Structures sent over the network are records of 32-bit words as the code
    holds them, with their octets in the order of a little-endian machine. *)

From S2P Require Import Prelude CStr Chain.

Module IperfCommon.

(** ** Clock comparisons (mmosal.h) *)

Definition mmosal_time_lt (a b : Z) : bool := bool_decide (s32 (u32 (a - b)) < 0).
Definition mmosal_time_le (a b : Z) : bool := bool_decide (s32 (u32 (a - b)) <= 0).
Definition mmosal_time_max (a b : Z) : Z := if mmosal_time_lt a b then b else a.
(** [now] is the result of [mmosal_get_time_ms ()]. *)
Definition mmosal_time_has_passed (now t : Z) : bool := mmosal_time_le t now.

(** ** Data *)

Definition IPERF_UDP_SERVER_SESSION_TIMEOUT_MS : Z := 60000.
Definition IPERF_UDP_CLIENT_REPORT_RETRIES : Z := 3.
Definition IPERF_UDP_CLIENT_MAX_CONSEC_FAILURES : Z := 60.
Definition IPERF_HEADER_VERSION1 : Z := 0x80000000.
Definition BLOCK_DURATION_MS : Z := 200.

Inductive mmiperf_report_type :=
| MMIPERF_TCP_DONE_SERVER
| MMIPERF_TCP_DONE_CLIENT
| MMIPERF_TCP_ABORTED_LOCAL
| MMIPERF_TCP_ABORTED_LOCAL_DATAERROR
| MMIPERF_TCP_ABORTED_LOCAL_TXERROR
| MMIPERF_TCP_ABORTED_REMOTE
| MMIPERF_UDP_DONE_SERVER
| MMIPERF_UDP_DONE_CLIENT
| MMIPERF_INTERRIM_REPORT.

#[global] Instance report_type_eq_dec : EqDecision mmiperf_report_type.
Proof. solve_decision. Defined.

Inductive iperf_version := IPERF_VERSION_2_0_13 | IPERF_VERSION_2_0_9.

#[global] Instance version_eq_dec : EqDecision iperf_version.
Proof. solve_decision. Defined.

(** Address strings by their text. *)
Record mmiperf_report := {
  report_type : mmiperf_report_type;
  local_addr : bytes;
  local_port : Z;
  remote_addr : bytes;
  remote_port : Z;
  bytes_transferred : Z;
  duration_ms : Z;
  bandwidth_kbitpsec : Z;
  tx_frames : Z;
  rx_frames : Z;
  out_of_sequence_frames : Z;
  error_count : Z;
  ipg_count : Z;
  ipg_sum_ms : Z;
}.

(** [memset (report, 0, sizeof (report))] *)
Definition zero_report : mmiperf_report :=
  {| report_type := MMIPERF_TCP_DONE_SERVER; local_addr := []; local_port := 0; remote_addr := [];
     remote_port := 0; bytes_transferred := 0; duration_ms := 0; bandwidth_kbitpsec := 0; tx_frames := 0;
     rx_frames := 0; out_of_sequence_frames := 0; error_count := 0; ipg_count := 0; ipg_sum_ms := 0 |}.

(** [report_fn]: whether there is a callback; its argument is only passed on. *)
Record mmiperf_state := {
  next : ptr;
  tcp : Z;
  server : Z;
  time_started_ms : Z;
  last_rx_time_ms : Z;
  report : mmiperf_report;
  report_fn : bool;
}.

Definition set_report (s : mmiperf_state) (r : mmiperf_report) : mmiperf_state :=
  {| next := next s; tcp := tcp s; server := server s; time_started_ms := time_started_ms s;
     last_rx_time_ms := last_rx_time_ms s; report := r; report_fn := report_fn s |}.
Definition set_times (s : mmiperf_state) (started last : Z) : mmiperf_state :=
  {| next := next s; tcp := tcp s; server := server s; time_started_ms := started;
     last_rx_time_ms := last; report := report s; report_fn := report_fn s |}.
Definition set_list_next (p : ptr) (s : mmiperf_state) : mmiperf_state :=
  {| next := p; tcp := tcp s; server := server s; time_started_ms := time_started_ms s;
     last_rx_time_ms := last_rx_time_ms s; report := report s; report_fn := report_fn s |}.

#[global] Instance mmiperf_state_linked : Linked mmiperf_state.
Proof. by refine {| get_next := next; set_next := set_list_next |}. Defined.

Definition set_type (r : mmiperf_report) (t : mmiperf_report_type) : mmiperf_report :=
  {| report_type := t; local_addr := local_addr r; local_port := local_port r; remote_addr := remote_addr r;
     remote_port := remote_port r; bytes_transferred := bytes_transferred r; duration_ms := duration_ms r;
     bandwidth_kbitpsec := bandwidth_kbitpsec r; tx_frames := tx_frames r; rx_frames := rx_frames r;
     out_of_sequence_frames := out_of_sequence_frames r; error_count := error_count r; ipg_count := ipg_count r;
     ipg_sum_ms := ipg_sum_ms r |}.
Definition set_ends (r : mmiperf_report) (la : bytes) (lp : Z) (ra : bytes) (rp : Z) : mmiperf_report :=
  {| report_type := report_type r; local_addr := la; local_port := lp; remote_addr := ra;
     remote_port := rp; bytes_transferred := bytes_transferred r; duration_ms := duration_ms r;
     bandwidth_kbitpsec := bandwidth_kbitpsec r; tx_frames := tx_frames r; rx_frames := rx_frames r;
     out_of_sequence_frames := out_of_sequence_frames r; error_count := error_count r; ipg_count := ipg_count r;
     ipg_sum_ms := ipg_sum_ms r |}.
(** Bytes, duration and bandwidth. *)
Definition set_rate (r : mmiperf_report) (b d bw : Z) : mmiperf_report :=
  {| report_type := report_type r; local_addr := local_addr r; local_port := local_port r; remote_addr := remote_addr r;
     remote_port := remote_port r; bytes_transferred := b; duration_ms := d; bandwidth_kbitpsec := bw;
     tx_frames := tx_frames r; rx_frames := rx_frames r;
     out_of_sequence_frames := out_of_sequence_frames r; error_count := error_count r; ipg_count := ipg_count r;
     ipg_sum_ms := ipg_sum_ms r |}.
(** Frames received, out of sequence, lost. *)
Definition set_frames (r : mmiperf_report) (rx oos err : Z) : mmiperf_report :=
  {| report_type := report_type r; local_addr := local_addr r; local_port := local_port r; remote_addr := remote_addr r;
     remote_port := remote_port r; bytes_transferred := bytes_transferred r; duration_ms := duration_ms r;
     bandwidth_kbitpsec := bandwidth_kbitpsec r; tx_frames := tx_frames r; rx_frames := rx;
     out_of_sequence_frames := oos; error_count := err; ipg_count := ipg_count r; ipg_sum_ms := ipg_sum_ms r |}.
Definition set_ipg (r : mmiperf_report) (c s : Z) : mmiperf_report :=
  {| report_type := report_type r; local_addr := local_addr r; local_port := local_port r; remote_addr := remote_addr r;
     remote_port := remote_port r; bytes_transferred := bytes_transferred r; duration_ms := duration_ms r;
     bandwidth_kbitpsec := bandwidth_kbitpsec r; tx_frames := tx_frames r; rx_frames := rx_frames r;
     out_of_sequence_frames := out_of_sequence_frames r; error_count := error_count r; ipg_count := c;
     ipg_sum_ms := s |}.
Definition set_tx (r : mmiperf_report) (n : Z) : mmiperf_report :=
  {| report_type := report_type r; local_addr := local_addr r; local_port := local_port r; remote_addr := remote_addr r;
     remote_port := remote_port r; bytes_transferred := bytes_transferred r; duration_ms := duration_ms r;
     bandwidth_kbitpsec := bandwidth_kbitpsec r; tx_frames := n; rx_frames := rx_frames r;
     out_of_sequence_frames := out_of_sequence_frames r; error_count := error_count r; ipg_count := ipg_count r;
     ipg_sum_ms := ipg_sum_ms r |}.

(** ** Reports *)

(** Duration and bandwidth as both functions below compute them: 64-bit
    arithmetic, the result stored in 32 bits. *)
Definition rate (r : mmiperf_report) (d : Z) : mmiperf_report :=
  if decide (s32 d <= 0) then set_rate r (bytes_transferred r) 0 0
  else set_rate r (bytes_transferred r) d (u32 (u64 (bytes_transferred r * 8) / d)).

(** The new state and the report the callback gets, if there is one. *)
Definition iperf_finalize_report_and_invoke_callback (base_state : mmiperf_state) (duration : Z) (t : mmiperf_report_type)
    : mmiperf_state * option mmiperf_report :=
  let r := rate (set_type (report base_state) t) duration in
  (set_report base_state r, if report_fn base_state then Some r else None).

(** [now] is the result of [mmosal_get_time_ms ()]. *)
Definition interim (base_state : mmiperf_state) (now : Z) : mmiperf_report :=
  let r := report base_state in
  if decide (report_type r = MMIPERF_INTERRIM_REPORT) then rate r (u32 (now - time_started_ms base_state)) else r.

(** ** The list of sessions *)

Abbreviation heap := (gmap loc mmiperf_state).

Definition iperf_list_add (h : heap) (all : ptr) (item : loc) : outcome (heap * ptr) :=
  h ← store_next h item all; Ok (h, Some item).

Fixpoint check_listed_once (fuel : nat) (h : heap) (iter : ptr) (item : loc) : outcome unit :=
  match fuel with
  | O => Fail OutOfFuel
  | S fuel =>
      match iter with
      | None => Ok tt
      | Some i => assert (negb (bool_decide (i = item))) ;; n ← load_next h i; check_listed_once fuel h n item
      end
  end.

Fixpoint list_remove_loop (fuel : nat) (h : heap) (all prev iter : ptr) (item : loc) : outcome (heap * ptr) :=
  match fuel with
  | O => Fail OutOfFuel
  | S fuel =>
      match iter with
      | None => Ok (h, all)
      | Some i =>
          n ← load_next h i;
          if decide (i = item) then
            '(h, all) ← match prev with
                        | None => Ok (h, n)
                        | Some p => h ← store_next h p n; Ok (h, all)
                        end;
            check_listed_once fuel h n item ;; Ok (h, all)
          else list_remove_loop fuel h all (Some i) n item
      end
  end.

Definition iperf_list_remove (h : heap) (all : ptr) (item : loc) : outcome (heap * ptr) :=
  list_remove_loop (S (size h)) h all None all item.

Fixpoint list_find_loop (fuel : nat) (h : heap) (iter : ptr) (item : loc) : outcome ptr :=
  match fuel with
  | O => Fail OutOfFuel
  | S fuel =>
      match iter with
      | None => Ok None
      | Some i => if decide (i = item) then Ok (Some i) else n ← load_next h i; list_find_loop fuel h n item
      end
  end.

Definition iperf_list_find (h : heap) (all : ptr) (item : loc) : outcome ptr := list_find_loop (S (size h)) h all item.
Definition iperf_list_get (h : heap) (all : ptr) (handle : loc) : outcome ptr := list_find_loop (S (size h)) h all handle.

(** [None]: the function returns false. *)
Definition mmiperf_get_interim_report (h : heap) (all : ptr) (now : Z) (handle : loc) : outcome (option mmiperf_report) :=
  p ← iperf_list_get h all handle;
  match p with
  | None => Ok None
  | Some i => match h !! i with Some s => Ok (Some (interim s now)) | None => Fail OutOfBounds end
  end.

(** ** Payload *)

Definition iperf_data : bytes :=
  lit "01234567890123456789012345678901234567890123456789012345678901234567890123456789012345678901234" ++
  lit "56789012345678901234567890123456789012345678901234567890123456789012345678901234567890123456789" ++
  lit "01234567890123456789012345678901234567890123456789012345678901234567890123456789012345678901234" ++
  lit "56789012345678901234567890123456789012345678901234567890123456789012345678901234567890123456789" ++
  lit "01234567890123456789012345678901234567890123456789012345678901234567890123456789012345678901234" ++
  lit "56789012345678901234567890123456789012345678901234567890123456789012345678901234567890123456789" ++
  lit "01234567890123456789012345678901234567890123456789012345678901234567890123456789012345678901234" ++
  lit "56789012345678901234567890123456789012345678901234567890123456789012345678901234567890123456789" ++
  lit "01234567890123456789012345678901234567890123456789012345678901234567890123456789012345678901234" ++
  lit "56789012345678901234567890123456789012345678901234567890123456789012345678901234567890123456789" ++
  lit "01234567890123456789012345678901234567890123456789012345678901234567890123456789012345678901234" ++
  lit "56789012345678901234567890123456789012345678901234567890123456789012345678901234567890123456789" ++
  lit "01234567890123456789012345678901234567890123456789012345678901234567890123456789012345678901234" ++
  lit "56789012345678901234567890123456789012345678901234567890123456789012345678901234567890123456789" ++
  lit "01234567890123456789012345678901234567890123456789012345678901234567890123456789012345678901234" ++
  lit "56789012345678901234567890123456789012345678901234567890123456789012345678901234567890123456789" ++
  lit "01234567890123456789012345678901234567890123456789012345678901234567890123456789".

(** What a packet holds whose payload is [len] octets from
    [iperf_get_data (offset)]. *)
Definition iperf_get_data (offset len : Z) : outcome bytes := rdn iperf_data (offset mod 10) len.

(** ** The server's report on the network *)

(** [htobe32] and [be32toh] on a little-endian machine. *)
Definition bswap32 (x : Z) : Z :=
  be32 (u32 x mod 2 ^ 8) (u32 x / 2 ^ 8 mod 2 ^ 8) (u32 x / 2 ^ 16 mod 2 ^ 8) (u32 x / 2 ^ 24).

(** A 32-bit word in memory. *)
Definition enc_le32 (x : Z) : bytes :=
  [u32 x mod 2 ^ 8; u32 x / 2 ^ 8 mod 2 ^ 8; u32 x / 2 ^ 16 mod 2 ^ 8; u32 x / 2 ^ 24].
Definition words_octets (l : list Z) : bytes := concat (map enc_le32 l).
Fixpoint octets_words (b : bytes) : list Z :=
  match b with
  | x0 :: x1 :: x2 :: x3 :: b => be32 x3 x2 x1 x0 :: octets_words b
  | _ => []
  end.

Record iperf_udp_header := { id_lo : Z; tv_sec : Z; tv_usec : Z; id_hi : Z }.

Definition header_octets (h : iperf_udp_header) : bytes := words_octets [id_lo h; tv_sec h; tv_usec h; id_hi h].
Definition header_of (b : bytes) : iperf_udp_header :=
  let w i := nth i (octets_words b) 0 in {| id_lo := w 0%nat; tv_sec := w 1%nat; tv_usec := w 2%nat; id_hi := w 3%nat |}.

(** The fields the code never sets are [jitter1] to [cntTransit]. *)
Record iperf_udp_server_report := {
  flags : Z; total_len1 : Z; total_len2 : Z; stop_sec : Z; stop_usec : Z; error_cnt : Z; outorder_cnt : Z;
  datagrams : Z; jitter1 : Z; jitter2 : Z; minTransit1 : Z; minTransit2 : Z; maxTransit1 : Z; maxTransit2 : Z;
  sumTransit1 : Z; sumTransit2 : Z; meanTransit1 : Z; meanTransit2 : Z; m2Transit1 : Z; m2Transit2 : Z;
  vdTransit1 : Z; vdTransit2 : Z; cntTransit : Z; IPGcnt : Z; IPGsum : Z;
}.

Definition report_octets (r : iperf_udp_server_report) : bytes :=
  words_octets [flags r; total_len1 r; total_len2 r; stop_sec r; stop_usec r; error_cnt r; outorder_cnt r;
    datagrams r; jitter1 r; jitter2 r; minTransit1 r; minTransit2 r; maxTransit1 r; maxTransit2 r; sumTransit1 r;
    sumTransit2 r; meanTransit1 r; meanTransit2 r; m2Transit1 r; m2Transit2 r; vdTransit1 r; vdTransit2 r;
    cntTransit r; IPGcnt r; IPGsum r].
Definition report_of (b : bytes) : iperf_udp_server_report :=
  let w i := s32 (nth i (octets_words b) 0) in
  {| flags := w 0%nat; total_len1 := w 1%nat; total_len2 := w 2%nat; stop_sec := w 3%nat; stop_usec := w 4%nat;
     error_cnt := w 5%nat; outorder_cnt := w 6%nat; datagrams := w 7%nat; jitter1 := w 8%nat; jitter2 := w 9%nat;
     minTransit1 := w 10%nat; minTransit2 := w 11%nat; maxTransit1 := w 12%nat; maxTransit2 := w 13%nat;
     sumTransit1 := w 14%nat; sumTransit2 := w 15%nat; meanTransit1 := w 16%nat; meanTransit2 := w 17%nat;
     m2Transit1 := w 18%nat; m2Transit2 := w 19%nat; vdTransit1 := w 20%nat; vdTransit2 := w 21%nat;
     cntTransit := w 22%nat; IPGcnt := w 23%nat; IPGsum := w 24%nat |}.

(** [r->field = htobe32 (x)], an [int32_t] field *)
Definition field32 (x : Z) : Z := s32 (bswap32 x).

Definition iperf_populate_udp_server_report (base_state : mmiperf_state) : iperf_udp_server_report :=
  let duration := u32 (last_rx_time_ms base_state - time_started_ms base_state) in
  let r := report base_state in
  {| flags := field32 IPERF_HEADER_VERSION1;
     total_len1 := field32 (Z.shiftr (bytes_transferred r) 32);
     total_len2 := field32 (Z.land (bytes_transferred r) 0xFFFFFFFF);
     stop_sec := field32 (duration / 1000);
     stop_usec := field32 ((duration mod 1000) * 1000);
     error_cnt := field32 (error_count r);
     outorder_cnt := field32 (out_of_sequence_frames r);
     datagrams := field32 (rx_frames r);
     jitter1 := 0; jitter2 := 0; minTransit1 := 0; minTransit2 := 0; maxTransit1 := 0; maxTransit2 := 0;
     sumTransit1 := 0; sumTransit2 := 0; meanTransit1 := 0; meanTransit2 := 0; m2Transit1 := 0; m2Transit2 := 0;
     vdTransit1 := 0; vdTransit2 := 0; cntTransit := 0;
     IPGcnt := field32 (ipg_count r);
     IPGsum := field32 (ipg_sum_ms r) |}.

(** The result and the new state. *)
Definition iperf_parse_udp_server_report (base_state : mmiperf_state) (hdr : iperf_udp_header)
    (rep : iperf_udp_server_report) (version : iperf_version) : bool * mmiperf_state :=
  if match version with
     | IPERF_VERSION_2_0_9 => bool_decide (s32 (bswap32 (id_lo hdr)) > 0)
     | IPERF_VERSION_2_0_13 =>
         bool_decide (s32 (bswap32 (id_hi hdr)) > 0) || bool_decide (id_hi hdr = 0 /\ id_lo hdr <> 0)
     end
  then (false, base_state)
  else
    let r := report base_state in
    let r := set_frames r (bswap32 (datagrams rep)) (bswap32 (outorder_cnt rep)) (bswap32 (error_cnt rep)) in
    (true,
     set_report base_state
       (set_rate r (Z.lor (u64 (Z.shiftl (bswap32 (total_len1 rep)) 32)) (bswap32 (total_len2 rep)))
          (u32 (bswap32 (stop_sec rep) * 1000 + bswap32 (stop_usec rep) / 1000)) 0)).


(** ** Lemmas *)

Lemma bswap32_be32 a b c d : is_u8 a -> is_u8 b -> is_u8 c -> is_u8 d -> bswap32 (be32 a b c d) = be32 d c b a.
Proof.
  intros. unfold bswap32. rewrite u32_id by (by apply be32_range). unfold be32. zlia.
Qed.

Lemma u32_octets x : is_u32 x ->
  exists a b c d, x = be32 a b c d /\ is_u8 a /\ is_u8 b /\ is_u8 c /\ is_u8 d.
Proof.
  intros Hx. exists (x / 2 ^ 24), (x / 2 ^ 16 mod 256), (x / 2 ^ 8 mod 256), (x mod 256).
  split; [by rewrite be32_enc|]. split_and!; zlia.
Qed.

Lemma bswap32_u32 x : bswap32 (u32 x) = bswap32 x.
Proof. unfold bswap32. by rewrite (u32_id (u32 x)) by apply u32_range. Qed.

Lemma bswap32_range x : is_u32 (bswap32 x).
Proof. unfold bswap32. pose proof (u32_range x). apply be32_range; zlia. Qed.

Lemma bswap32_invol x : is_u32 x -> bswap32 (bswap32 x) = x.
Proof. intros (a & b & c & d & -> & ? & ? & ? & ?)%u32_octets. by rewrite !bswap32_be32. Qed.

Lemma u32_s32 x : u32 (s32 x) = u32 x.
Proof. zlia. Qed.

(** A field holds what was put in it. *)
Lemma bswap32_field32 x : is_u32 x -> bswap32 (field32 x) = x.
Proof. intros. unfold field32. by rewrite <- bswap32_u32, u32_s32, bswap32_u32, bswap32_invol. Qed.

Lemma octets_words_enc x b : octets_words (enc_le32 x ++ b) = u32 x :: octets_words b.
Proof.
  unfold enc_le32. cbn [app octets_words]. f_equal. pose proof (u32_range x). unfold be32. zlia.
Qed.

Lemma octets_words_octets l : octets_words (words_octets l) = map u32 l.
Proof.
  induction l as [|x l IH]; [done|]. unfold words_octets. cbn [map concat]. rewrite octets_words_enc. by f_equal.
Qed.

Lemma words_octets_len l : zlen (words_octets l) = 4 * zlen l.
Proof.
  induction l as [|x l IH]; [done|]. unfold words_octets in *. cbn [map concat]. rewrite length_app. cbn [length enc_le32] in *. lia.
Qed.

Lemma words_octets_bytes l : is_bytes (words_octets l).
Proof.
  induction l as [|x l IH]; [by constructor|]. unfold words_octets. cbn [map concat]. apply Forall_app_2; [|exact IH].
  pose proof (u32_range x). unfold enc_le32. repeat constructor; zlia.
Qed.

Lemma s32_u32 x : s32 (u32 x) = s32 x.
Proof. zlia. Qed.
Lemma s32_field32 x : s32 (field32 x) = field32 x.
Proof. unfold field32. zlia. Qed.

(** What is sent is what is received. *)
Lemma report_of_octets s :
  report_of (report_octets (iperf_populate_udp_server_report s)) = iperf_populate_udp_server_report s.
Proof.
  unfold report_of, report_octets. rewrite octets_words_octets. cbn [map nth]. rewrite !s32_u32.
  unfold iperf_populate_udp_server_report.
  cbn [flags total_len1 total_len2 stop_sec stop_usec error_cnt outorder_cnt datagrams jitter1 jitter2 minTransit1
    minTransit2 maxTransit1 maxTransit2 sumTransit1 sumTransit2 meanTransit1 meanTransit2 m2Transit1 m2Transit2
    vdTransit1 vdTransit2 cntTransit IPGcnt IPGsum].
  by rewrite !s32_field32.
Qed.

Lemma header_of_octets h : is_u32 (id_lo h) -> is_u32 (tv_sec h) -> is_u32 (tv_usec h) -> is_u32 (id_hi h) ->
  header_of (header_octets h) = h.
Proof.
  intros. unfold header_of, header_octets. rewrite octets_words_octets. cbn [map nth]. rewrite !u32_id by done. by destruct h.
Qed.

(** The datagram's number, as the server reads it. *)
Definition wire_id (hdr : iperf_udp_header) (version : iperf_version) : Z :=
  match version with
  | IPERF_VERSION_2_0_9 => s32 (bswap32 (id_lo hdr))
  | IPERF_VERSION_2_0_13 => s64 (Z.lor (u64 (Z.shiftl (bswap32 (id_hi hdr)) 32)) (bswap32 (id_lo hdr)))
  end.

Lemma lor_words hi lo : is_u32 hi -> is_u32 lo -> Z.lor (u64 (Z.shiftl hi 32)) lo = hi * 2 ^ 32 + lo.
Proof.
  intros. replace (u64 (Z.shiftl hi 32)) with (Z.shiftl hi 32) by (rewrite Z.shiftl_mul_pow2 by lia; zlia).
  rewrite Z.lor_comm, lor_shiftl by zlia. lia.
Qed.

Lemma bswap32_0 x : is_u32 x -> bswap32 x = 0 <-> x = 0.
Proof.
  intros Hx. split; [|by intros ->]. intros E. rewrite <- (bswap32_invol x Hx), E. done.
Qed.

(** The parser accepts exactly the headers whose number is not positive. *)
Lemma parse_guard hdr version :
  is_u32 (id_lo hdr) -> is_u32 (id_hi hdr) ->
  (match version with
   | IPERF_VERSION_2_0_9 => bool_decide (s32 (bswap32 (id_lo hdr)) > 0)
   | IPERF_VERSION_2_0_13 =>
       bool_decide (s32 (bswap32 (id_hi hdr)) > 0) || bool_decide (id_hi hdr = 0 /\ id_lo hdr <> 0)
   end) = negb (bool_decide (wire_id hdr version <= 0)).
Proof.
  intros Hl Hh. unfold wire_id. pose proof (bswap32_range (id_lo hdr)) as Rl. pose proof (bswap32_range (id_hi hdr)) as Rh.
  pose proof (bswap32_0 _ Hl) as Zl. pose proof (bswap32_0 _ Hh) as Zh. destruct version.
  - rewrite lor_words by done. rewrite <- bool_decide_or, <- bool_decide_not.
    apply bool_decide_ext. rewrite <- Zl, <- Zh. clear Zl Zh. revert Rl Rh. generalize (bswap32 (id_lo hdr)), (bswap32 (id_hi hdr)).
    intros lo hi Rl Rh. split; zlia.
  - rewrite <- bool_decide_not. apply bool_decide_ext. lia.
Qed.

(** Numbers within their C types. *)
Definition report_wf (r : mmiperf_report) : Prop :=
  0 <= bytes_transferred r < 2 ^ 64 /\ is_u32 (rx_frames r) /\ is_u32 (out_of_sequence_frames r) /\ is_u32 (error_count r).

Lemma bytes_words b : 0 <= b < 2 ^ 64 ->
  Z.lor (u64 (Z.shiftl (bswap32 (field32 (Z.shiftr b 32))) 32)) (bswap32 (field32 (Z.land b 0xFFFFFFFF))) = b.
Proof.
  intros Hb. change 0xFFFFFFFF with (Z.ones 32). rewrite Z.land_ones, Z.shiftr_div_pow2 by lia.
  rewrite !bswap32_field32 by zlia. rewrite lor_words by zlia. zlia.
Qed.

(** The report parsed from its octets. *)
Lemma parse_populate srv cli hdr version :
  report_wf (report srv) -> is_u32 (id_lo hdr) -> is_u32 (id_hi hdr) ->
  iperf_parse_udp_server_report cli hdr (report_of (report_octets (iperf_populate_udp_server_report srv))) version =
    if decide (wire_id hdr version <= 0) then
      (true, set_report cli
               (set_rate (set_frames (report cli) (rx_frames (report srv)) (out_of_sequence_frames (report srv)) (error_count (report srv)))
                  (bytes_transferred (report srv)) (u32 (last_rx_time_ms srv - time_started_ms srv)) 0))
    else (false, cli).
Proof.
  intros (Hb & Hrx & Ho & He) Hl Hh.
  rewrite report_of_octets. unfold iperf_parse_udp_server_report. rewrite parse_guard by done.
  destruct (decide (wire_id hdr version <= 0)) as [E|E]; [rewrite bool_decide_true by done|by rewrite bool_decide_false].
  cbn [negb]. unfold iperf_populate_udp_server_report.
  cbn [total_len1 total_len2 stop_sec stop_usec error_cnt outorder_cnt datagrams].
  pose proof (u32_range (last_rx_time_ms srv - time_started_ms srv)) as Hd.
  rewrite bytes_words by done. rewrite !bswap32_field32 by (try done; zlia).
  do 3 f_equal. zlia.
Qed.

(** The report of a UDP server reaches the client: the 100 octets
    [iperf_populate_udp_server_report] makes of any server state are parsed by
    [iperf_parse_udp_server_report] to the same bytes, losses, reorderings,
    frames and duration, when the echoed header's number is not positive as a
    signed number of the version's width; else the client's state stays as it
    was. *)
Theorem udp_report_roundtrip srv cli hdr version :
  report_wf (report srv) -> is_u32 (id_lo hdr) -> is_u32 (id_hi hdr) ->
  let wire := report_octets (iperf_populate_udp_server_report srv) in
  let r := report srv in
  zlen wire = 100 /\ is_bytes wire /\
  iperf_parse_udp_server_report cli hdr (report_of wire) version =
    if decide (wire_id hdr version <= 0) then
      (true, set_report cli
               (set_rate (set_frames (report cli) (rx_frames r) (out_of_sequence_frames r) (error_count r))
                  (bytes_transferred r) (u32 (last_rx_time_ms srv - time_started_ms srv)) 0))
    else (false, cli).
Proof.
  intros Hwf Hl Hh wire r. subst wire r.
  split_and!; [unfold report_octets; by rewrite words_octets_len|apply words_octets_bytes|by apply parse_populate].
Qed.

Definition ex_srv : mmiperf_state :=
  {| next := None; tcp := 0; server := 1; time_started_ms := 4294967000; last_rx_time_ms := 2000;
     report := set_rate (set_frames zero_report 70000 3 12) (5 * 2 ^ 32 + 7) 0 0; report_fn := true |}.
Definition ex_cli : mmiperf_state :=
  {| next := None; tcp := 0; server := 0; time_started_ms := 1; last_rx_time_ms := 0; report := zero_report; report_fn := true |}.
(** The header of the datagram number -70000. *)
Definition ex_hdr : iperf_udp_header :=
  {| id_lo := bswap32 (u32 (- 70000)); tv_sec := 0; tv_usec := 0; id_hi := bswap32 (u32 (- 1)) |}.

Lemma udp_report_roundtrip_witness :
  let r := (iperf_parse_udp_server_report ex_cli ex_hdr
              (report_of (report_octets (iperf_populate_udp_server_report ex_srv))) IPERF_VERSION_2_0_13) in
  fst r = true /\ bytes_transferred (report (snd r)) = 5 * 2 ^ 32 + 7 /\ duration_ms (report (snd r)) = 2296.
Proof.
  destruct (udp_report_roundtrip ex_srv ex_cli ex_hdr IPERF_VERSION_2_0_13) as (_ & _ & E).
  - by_decide.
  - by_decide.
  - by_decide.
  - cbv zeta. rewrite E. unfold decide. vm_compute. auto.
Defined.

(** ** The list of sessions as a sequence *)

(** The sessions' own data: everything but the link. *)
Definition data (h : heap) (i : loc) : option mmiperf_state := set_next None <$> h !! i.

Lemma data_relink h i a p : h !! i = Some a -> forall j, data (<[i := set_next p a]> h) j = data h j.
Proof.
  intros Ha j. unfold data. destruct (decide (j = i)) as [->|]; [|by rewrite lookup_insert_ne].
  rewrite lookup_insert_eq, Ha. cbn [fmap option_fmap option_map]. by rewrite set_set_next.
Qed.

Lemma iperf_list_add_spec h all l item a :
  chain h all l -> h !! item = Some a -> item ∉ l ->
  exists h', iperf_list_add h all item = Ok (h', Some item) /\ chain h' (Some item) (item :: l) /\
    forall j, data h' j = data h j.
Proof.
  intros Hc Ha Hi. unfold iperf_list_add. rewrite (store_next_Ok _ _ _ _ Ha). cbn [mbind outcome_bind].
  eexists. split; [done|]. split; [|by apply data_relink].
  split; [done|]. exists (set_next all a). rewrite lookup_insert_eq, get_set_next. split; [done|].
  by apply chain_insert.
Qed.

Lemma check_listed_once_Ok fuel h p l item :
  chain h p l -> item ∉ l -> (length l < fuel)%nat -> check_listed_once fuel h p item = Ok tt.
Proof.
  revert p l. induction fuel as [|fuel IH]; intros p l Hc Hi Hf; [lia|]. cbn [check_listed_once].
  destruct l as [|i l]; [by cbn in Hc; subst p|]. destruct (load_next_chain _ _ _ _ Hc) as (a & Ha & E & Hc').
  destruct Hc as [-> _]. apply not_elem_of_cons in Hi as [Hi1 Hi2].
  rewrite bool_decide_false by congruence. cbn [negb assert mbind outcome_bind]. rewrite E. cbn [mbind outcome_bind].
  by apply (IH _ l); cbn in Hf |- *; [|..|lia].
Qed.

Lemma list_find_loop_Ok fuel h p l item :
  chain h p l -> (length l < fuel)%nat ->
  list_find_loop fuel h p item = Ok (if decide (item ∈ l) then Some item else None).
Proof.
  revert p l. induction fuel as [|fuel IH]; intros p l Hc Hf; [lia|]. cbn [list_find_loop].
  destruct l as [|i l]; [cbn in Hc; subst p; rewrite decide_False by apply not_elem_of_nil; done|].
  destruct (load_next_chain _ _ _ _ Hc) as (a & Ha & E & Hc'). destruct Hc as [-> _].
  destruct (decide (i = item)) as [->|Hne]; [rewrite decide_True by set_solver; done|].
  rewrite E. cbn [mbind outcome_bind]. rewrite (IH _ l) by (try done; cbn in Hf; lia). f_equal.
  destruct (decide (item ∈ l)) as [H|H].
  - rewrite decide_True; [done|]. by apply elem_of_cons; right.
  - rewrite decide_False; [done|]. intros [?|?]%elem_of_cons; congruence.
Qed.

Lemma iperf_list_get_spec h all l item :
  chain h all l -> iperf_list_get h all item = Ok (if decide (item ∈ l) then Some item else None).
Proof. intros Hc. apply list_find_loop_Ok; [done|]. pose proof (chain_size _ _ _ Hc). lia. Qed.

Lemma list_last_case {A} (l : list A) : l = [] \/ exists l0 x, l = l0 ++ [x].
Proof. destruct l as [|x l] using rev_ind; [by left|]. right. by exists l, x. Qed.

(** The position of the loop of [iperf_list_remove]: [l1] lies behind. *)
Lemma list_remove_loop_Ok fuel h all l1 l2 item :
  chain h all (l1 ++ l2) -> item ∉ l1 -> (length l2 < fuel)%nat ->
  exists h' all', list_remove_loop fuel h all (list.last l1) (head l2) item = Ok (h', all') /\
    chain h' all' (l1 ++ List.filter (fun i => negb (bool_decide (i = item))) l2) /\
    forall j, data h' j = data h j.
Proof.
  revert l1 l2. induction fuel as [|fuel IH]; intros l1 l2 Hc Hi Hf; [lia|]. cbn [list_remove_loop].
  destruct l2 as [|i l2]; [by exists h, all|]. cbn [head].
  destruct (load_next_chain _ _ _ _ (chain_suffix _ _ _ _ _ Hc)) as (b & Hb & E & Hc2).
  pose proof (chain_head _ _ _ Hc2) as Hh. cbn [mbind outcome_bind length] in *. rewrite E.
  cbn [List.filter]. destruct (decide (i = item)) as [->|Hne].
  - rewrite bool_decide_true by done. cbn [negb].
    pose proof (chain_NoDup _ _ _ Hc) as Hnd. apply list.NoDup_app in Hnd as (_ & _ & Hnd%list.NoDup_cons). destruct Hnd as [Hi2 _].
    assert (Hfilter : List.filter (fun i => negb (bool_decide (i = item))) l2 = l2).
    { clear -Hi2. induction l2 as [|j l2 IH]; [done|]. apply not_elem_of_cons in Hi2 as [H1 H2]. cbn.
      rewrite bool_decide_false by congruence. cbn. by rewrite IH. }
    rewrite Hfilter. destruct (list_last_case l1) as [->|(l0 & j & ->)].
    + cbn [list.last app mbind outcome_bind]. rewrite (check_listed_once_Ok fuel h _ l2) by (done || lia). by exists h, (get_next b).
    + rewrite last_snoc. rewrite <- app_assoc in Hc. cbn [app mbind outcome_bind] in Hc |- *.
      destruct (chain_lookup _ _ _ j Hc) as [a Ha]; [set_solver|].
      rewrite (store_next_Ok _ _ _ _ Ha). cbn [mbind outcome_bind].
      assert (Hj : j ∉ l2).
      { pose proof (chain_NoDup _ _ _ Hc) as Hnd. apply list.NoDup_app in Hnd as (_ & _ & Hnd%list.NoDup_cons). set_solver. }
      rewrite (check_listed_once_Ok fuel _ _ l2) by (try (by apply chain_insert); done || lia).
      eexists _, all. split; [done|]. split; [|by apply data_relink].
      rewrite <- app_assoc. by eapply chain_unlink.
  - rewrite bool_decide_false by done. cbn [negb].
    destruct (IH (l1 ++ [i]) l2) as (h' & all' & E' & Hc' & Hd).
    + by rewrite <- app_assoc.
    + intros [?|?%list_elem_of_singleton]%elem_of_app; congruence.
    + lia.
    + rewrite last_snoc, <- Hh in E'. exists h', all'. split; [exact E'|]. split; [|done]. by rewrite <- app_assoc in Hc'.
Qed.

Lemma iperf_list_remove_spec h all l item :
  chain h all l ->
  exists h' all', iperf_list_remove h all item = Ok (h', all') /\
    chain h' all' (List.filter (fun i => negb (bool_decide (i = item))) l) /\ forall j, data h' j = data h j.
Proof.
  intros Hc. unfold iperf_list_remove. pose proof (chain_size _ _ _ Hc) as Hs.
  destruct (list_remove_loop_Ok (Datatypes.S (size h)) h all [] l item) as (h' & all' & E & H); [done|apply not_elem_of_nil|lia|].
  rewrite <- (chain_head _ _ _ Hc) in E. eauto.
Qed.

(** ** The clock *)

(** Within half its range the comparison is that of the unwrapped times. *)
Lemma mmosal_time_le_spec a d : - 2 ^ 31 <= d < 2 ^ 31 -> mmosal_time_le (u32 (a + d)) (u32 a) = bool_decide (d <= 0).
Proof. intros. unfold mmosal_time_le. apply bool_decide_ext. zlia. Qed.

End IperfCommon.
