(* ===== verification/IperfUdp.v ===== *)
(** The UDP test over lwIP: [framework/src/mmiperf/lwip/mmiperf_udp.c].

    The server as the receive callback on its state; the client as its task's
    loop.  A datagram is its octets; addresses, their comparison and printing
    are lwIP's, here parameters. *)

From Stdlib Require Import Sorted.
From S2P Require Import Prelude CStr Chain IperfCommon.

Module IperfUdp.
Import IperfCommon.

(** ** The server's data *)

Section Server.
  (** lwIP: addresses, [ip_addr_cmp_zoneless], [ip_addr_ismulticast], [ipaddr_ntoa_r]. *)
  Context {addr : Type} (addr_eq : addr -> addr -> bool) (is_multicast : addr -> bool) (ntoa : addr -> bytes).

Record timeval := { sec : Z; usec : Z }.

(** [next_packet_id] is negative when no session is active. *)
Record iperf_server_session_udp := {
    next_packet_id : Z;
    client_addr : addr;
    client_port : Z;
    ipg_start : timeval;
  }.

(** [args_addr], [args_port], [version]: the structure's [args]; [pcb_addr] is
    [pcb->local_ip]. *)
Record iperf_server_state_udp := {
    base : mmiperf_state;
    args_addr : addr;
    args_port : Z;
    version : iperf_version;
    pcb_addr : addr;
    session : iperf_server_session_udp;
  }.

(** What [mmosal_get_time_ms] returns at its calls in one run of the callback. *)
Record readings := { at_get : Z; at_check : Z; at_start : Z; at_rx : Z }.

Definition set_base (s : iperf_server_state_udp) (b : mmiperf_state) : iperf_server_state_udp :=
    {| base := b; args_addr := args_addr s; args_port := args_port s; version := version s; pcb_addr := pcb_addr s;
       session := session s |}.
Definition set_session (s : iperf_server_state_udp) (x : iperf_server_session_udp) : iperf_server_state_udp :=
    {| base := base s; args_addr := args_addr s; args_port := args_port s; version := version s; pcb_addr := pcb_addr s;
       session := x |}.
Definition set_next_id (x : iperf_server_session_udp) (n : Z) : iperf_server_session_udp :=
    {| next_packet_id := n; client_addr := client_addr x; client_port := client_port x; ipg_start := ipg_start x |}.

(** ** Sessions *)

Definition udp_server_session_has_timed_out (s : iperf_server_state_udp) (now : Z) : bool :=
    mmosal_time_has_passed now (u32 (last_rx_time_ms (base s) + IPERF_UDP_SERVER_SESSION_TIMEOUT_MS)).

(** [None]: another session is in progress. *)
Definition udp_server_start_session (s : iperf_server_state_udp) (a : addr) (port : Z) (t : readings)
      : option iperf_server_state_udp :=
    if bool_decide (next_packet_id (session s) >= 0) && negb (udp_server_session_has_timed_out s (at_check t)) then None
    else
      let x := {| next_packet_id := 0; client_addr := a; client_port := port; ipg_start := {| sec := 0; usec := 0 |} |} in
      let r := set_ends (set_type zero_report MMIPERF_INTERRIM_REPORT) (ntoa (pcb_addr s)) (args_port s) (ntoa a) port in
      Some (set_session (set_base s (set_report (set_times (base s) (at_start t) (last_rx_time_ms (base s))) r)) x).

(** The state, with the session made the sender's. *)
Definition get_session (s : iperf_server_state_udp) (a : addr) (port : Z) (t : readings) : option iperf_server_state_udp :=
    if addr_eq (client_addr (session s)) a && bool_decide (client_port (session s) = port) &&
       negb (udp_server_session_has_timed_out s (at_get t))
    then Some s else udp_server_start_session s a port t.

Definition time_delta (a b : timeval) : Z := s32 (s32 ((sec a - sec b) * 1000000) + (usec a - usec b)).

(** ** Reception *)

Inductive action :=
  | Report (r : mmiperf_report)
  | Sendto (p : bytes) (a : addr) (port : Z).

(** [alloc_ok]: whether [pbuf_alloc] succeeds. *)
Definition iperf_udp_server_handle_final_packet (s : iperf_server_state_udp) (a : addr) (port : Z) (p : bytes) (alloc_ok : bool)
      : list action :=
    if is_multicast (args_addr s) then []
    else if negb alloc_ok then []
    else [Sendto (take 16 p ++ report_octets (iperf_populate_udp_server_report (base s))) a port].

(** [if (session->next_packet_id >= 0)]: one more packet of the session. *)
Definition count_packet (s : iperf_server_state_udp) (len packet_id : Z) (packet_time : timeval) (t : readings)
      : iperf_server_state_udp :=
    let x := session s in
    let b := set_times (base s) (time_started_ms (base s)) (at_rx t) in
    let r := report b in
    let r := set_rate r (u64 (bytes_transferred r + len)) (duration_ms r) (bandwidth_kbitpsec r) in
    let r := set_frames r (u32 (rx_frames r + 1)) (out_of_sequence_frames r) (error_count r) in
    let r := set_ipg r (u32 (ipg_count r + 1)) (u32 (ipg_sum_ms r + time_delta packet_time (ipg_start x))) in
    let r :=
      if decide (packet_id < next_packet_id x) then
        set_frames r (rx_frames r) (u32 (out_of_sequence_frames r + 1)) (error_count r)
      else if decide (packet_id > next_packet_id x) then
        set_frames r (rx_frames r) (out_of_sequence_frames r) (u32 (error_count r + (packet_id - next_packet_id x)))
      else r in
    let n := if decide (packet_id >= next_packet_id x) then s32 (packet_id + 1) else next_packet_id x in
    set_session (set_base s (set_report b r))
      {| next_packet_id := n; client_addr := client_addr x; client_port := client_port x; ipg_start := packet_time |}.

(** The datagram's number: negative for the last one. *)
Definition packet_number (v : iperf_version) (hdr : iperf_udp_header) : Z :=
    match v with
    | IPERF_VERSION_2_0_9 => s32 (bswap32 (id_lo hdr))
    | IPERF_VERSION_2_0_13 => s64 (Z.lor (u64 (Z.shiftl (bswap32 (id_hi hdr)) 32)) (bswap32 (id_lo hdr)))
    end.

(** The [-1] of [session->next_packet_id] after the report. *)
Definition finish (s : iperf_server_state_udp) : iperf_server_state_udp * list action :=
    let duration := u32 (last_rx_time_ms (base s) - time_started_ms (base s)) in
    let (b, cb) := iperf_finalize_report_and_invoke_callback (base s) duration MMIPERF_UDP_DONE_SERVER in
    (set_session (set_base s b) (set_next_id (session s) (- 1)), match cb with Some r => [Report r] | None => [] end).

(** [sizeof (hdr)] is 16, [sizeof (settings)] 24. *)
Definition iperf_udp_server_recv (s : iperf_server_state_udp) (p : bytes) (a : addr) (port : Z) (t : readings) (alloc_ok : bool)
      : iperf_server_state_udp * list action :=
    if decide (zlen p < 16) then (s, [])
    else if decide (zlen p < 16 + 24) then (s, [])
    else
      let hdr := header_of (take 16 p) in
      let packet_time := {| sec := bswap32 (tv_sec hdr); usec := s32 (bswap32 (tv_usec hdr)) |} in
      let id := packet_number (version s) hdr in
      let final_packet := bool_decide (id < 0) in
      let packet_id := if final_packet then s64 (- id) else id in
      match get_session s a port t with
      | None => (s, [])
      | Some s =>
          let s := if decide (next_packet_id (session s) >= 0) then count_packet s (zlen p) packet_id packet_time t else s in
          if final_packet then
            let (s, a1) := if decide (next_packet_id (session s) >= 0) then finish s else (s, []) in
            (s, a1 ++ iperf_udp_server_handle_final_packet s a port p alloc_ok)
          else (s, [])
      end.

(** ** Start *)

(** [zero_addr]: an address cleared by [memset]; [any] is [IP_ADDR_ANY], [aton]
    is [ipaddr_aton].  [alloc_ok], [pcb_ok], [bind_ok]: whether the memory, the
    control block and the binding are had.  [None]: the function returns NULL. *)
Definition mmiperf_start_udp_server (zero_addr any : addr) (aton : bytes -> option addr)
      (args_local_addr : bytes) (args_local_port : Z) (v : iperf_version) (fn alloc_ok pcb_ok bind_ok : bool)
      : option iperf_server_state_udp :=
    if negb alloc_ok then None
    else
      match (if decide (cstr args_local_addr = []) then Some any else aton args_local_addr) with
      | None => None
      | Some local =>
          if negb pcb_ok then None
          else if negb bind_ok then None
          else
            Some {| base := {| next := None; tcp := 0; server := 1; time_started_ms := 0; last_rx_time_ms := 0;
                               report := set_type zero_report MMIPERF_INTERRIM_REPORT; report_fn := fn |};
                    args_addr := local; args_port := args_local_port; version := v; pcb_addr := local;
                    session := {| next_packet_id := - 1; client_addr := zero_addr; client_port := 0;
                                  ipg_start := {| sec := 0; usec := 0 |} |} |}
      end.
End Server.

(** ** Accounting *)

(** The datagrams that raise the expected number, the others being late or
    repeated, and the expected number after them all. *)
Fixpoint records (n : Z) (ids : list Z) : list Z :=
  match ids with
  | [] => []
  | i :: ids => if decide (i < n) then records n ids else i :: records (i + 1) ids
  end.
Fixpoint top (n : Z) (ids : list Z) : Z :=
  match ids with
  | [] => n
  | i :: ids => top (if decide (i < n) then n else i + 1) ids
  end.

Lemma top_snoc n ids i : top n (ids ++ [i]) = if decide (i < top n ids) then top n ids else i + 1.
Proof. revert n. induction ids as [|j ids IH]; intros n; [done|]. cbn [app top]. apply IH. Qed.

Lemma records_snoc n ids i : records n (ids ++ [i]) = records n ids ++ (if decide (i < top n ids) then [] else [i]).
Proof.
  revert n. induction ids as [|j ids IH]; intros n; cbn [app records top]; [by case_decide|].
  destruct (decide (j < n)); rewrite IH; done.
Qed.

Lemma records_len n ids : (length (records n ids) <= length ids)%nat.
Proof.
  revert n. induction ids as [|i ids IH]; intros n; cbn [records length]; [lia|].
  pose proof (IH n). pose proof (IH (i + 1)). case_decide; cbn [length]; lia.
Qed.

Lemma top_range m n ids : 0 <= n <= m -> Forall (fun i => 0 <= i < m) ids -> 0 <= top n ids <= m.
Proof.
  intros Hn Hids. revert n Hn. induction Hids as [|i ids Hi _ IH]; intros n Hn; cbn [top]; [done|].
  apply IH. case_decide; lia.
Qed.

(** In increasing order nothing counts as late. *)
Lemma records_sorted n ids : StronglySorted Z.lt ids -> Forall (fun i => n <= i) ids -> records n ids = ids.
Proof.
  intros Hs. revert n. induction Hs as [|i ids Hs IH Hi]; intros n Hn; [done|]. cbn [records].
  apply list.Forall_cons in Hn as [H1 H2]. rewrite decide_False by lia. f_equal. apply IH.
  eapply list.Forall_impl; [exact Hi|]. cbn. lia.
Qed.

(** A datagram with the clock's readings and the outcome of an allocation. *)
Abbreviation arrival := (bytes * readings * bool)%type.

Section Accounting.
  Context {addr : Type} (addr_eq : addr -> addr -> bool) (is_multicast : addr -> bool) (ntoa : addr -> bytes).
  Context (a : addr) (port : Z).
  (** The comparison recognises the sender. *)
  Hypothesis same_sender : addr_eq a a = true.
  Abbreviation state := (@iperf_server_state_udp addr).
  Abbreviation recv := (iperf_udp_server_recv addr_eq is_multicast ntoa).

Fixpoint deliver (s : state) (l : list arrival) : state * list (@action addr) :=
    match l with
    | [] => (s, [])
    | (p, t, ok) :: l =>
        let (s, x) := recv s p a port t ok in
        let (s, y) := deliver s l in (s, x ++ y)
    end.

Lemma deliver_cons s p t ok l s1 x s2 y :
    recv s p a port t ok = (s1, x) -> deliver s1 l = (s2, y) -> deliver s ((p, t, ok) :: l) = (s2, x ++ y).
Proof. intros E1 E2. cbn [deliver]. by rewrite E1, E2. Qed.

Definition number (v : iperf_version) (p : bytes) : Z := packet_number v (header_of (take 16 p)).

(** After the data of the session: [ids] were received, [len] octets. *)
Record accounts (s : state) (started last len : Z) (ids : list Z) : Prop := {
    ac_next : next_packet_id (session s) = top 0 ids;
    ac_client : client_addr (session s) = a /\ client_port (session s) = port;
    ac_times : time_started_ms (base s) = started /\ last_rx_time_ms (base s) = last;
    ac_ends : remote_addr (report (base s)) = ntoa a /\ remote_port (report (base s)) = port;
    ac_bytes : bytes_transferred (report (base s)) = u64 len;
    ac_rx : rx_frames (report (base s)) = u32 (zlen ids);
    ac_late : out_of_sequence_frames (report (base s)) = u32 (zlen ids - zlen (records 0 ids));
    ac_err : error_count (report (base s)) = u32 (top 0 ids - zlen (records 0 ids));
  }.

Lemma count_packet_accounts (s : state) started last len ids l id pt t :
    accounts s started last len ids -> Forall (fun i => 0 <= i < 2 ^ 31 - 1) ids -> 0 <= id < 2 ^ 31 - 1 ->
    accounts (count_packet s l id pt t) started (at_rx t) (len + l) (ids ++ [id]).
Proof.
  clear is_multicast. intros [Hn [Ha Hp] [Hs Hl] Ht Hb Hr Ho He] Hids Hid.
  pose proof (top_range (2 ^ 31 - 1) 0 ids ltac:(lia) Hids) as Htop.
  unfold count_packet. rewrite Hn.
  assert (Hsnoc : zlen (ids ++ [id]) = zlen ids + 1) by (rewrite length_app; cbn [length]; lia).
  constructor; cbn [session base set_session set_base set_report set_times client_addr client_port next_packet_id
    report time_started_ms last_rx_time_ms]; rewrite ?top_snoc, ?records_snoc, ?Hsnoc.
  - destruct (decide (id >= top 0 ids)), (decide (id < top 0 ids)); try lia. apply s32_id. lia.
  - done.
  - done.
  - destruct (decide (id < top 0 ids)); [done|]. by destruct (decide (id > top 0 ids)).
  - destruct (decide (id < top 0 ids)); [|destruct (decide (id > top 0 ids))];
      cbn [set_frames set_ipg set_rate bytes_transferred report]; rewrite Hb; zlia.
  - destruct (decide (id < top 0 ids)); [|destruct (decide (id > top 0 ids))];
      cbn [set_frames set_ipg set_rate rx_frames report]; rewrite Hr; zlia.
  - destruct (decide (id < top 0 ids)); [|destruct (decide (id > top 0 ids))];
      cbn [set_frames set_ipg set_rate out_of_sequence_frames report]; rewrite Ho, ?length_app; cbn [length]; zlia.
  - destruct (decide (id < top 0 ids)); [|destruct (decide (id > top 0 ids))];
      cbn [set_frames set_ipg set_rate error_count report]; rewrite He, ?length_app; cbn [length]; zlia.
Qed.

(** What a session never changes. *)
Definition fixed (s s' : state) : Prop :=
    version s' = version s /\ args_addr s' = args_addr s /\ report_fn (base s') = report_fn (base s).

Definition on_time (last : Z) (t : readings) : Prop :=
    mmosal_time_has_passed (at_get t) (u32 (last + IPERF_UDP_SERVER_SESSION_TIMEOUT_MS)) = false.

(** A datagram from the sender opens a session: none is active for it, and no
    other one. *)
Definition opens (s : state) (t : readings) : Prop :=
    addr_eq (client_addr (session s)) a && bool_decide (client_port (session s) = port) &&
      negb (udp_server_session_has_timed_out s (at_get t)) = false /\
    (next_packet_id (session s) < 0 \/ udp_server_session_has_timed_out s (at_check t) = true).

Lemma get_session_opens s t : opens s t ->
    exists s1, get_session addr_eq ntoa s a port t = Some s1 /\ fixed s s1 /\
      accounts s1 (at_start t) (last_rx_time_ms (base s)) 0 [].
Proof.
  intros [E H]. unfold get_session. rewrite E. unfold udp_server_start_session.
  replace (bool_decide _ && negb _) with false
    by (destruct H as [H| ->]; [by rewrite bool_decide_false by lia|by rewrite andb_false_r]).
  eexists. split; [done|]. by repeat constructor.
Qed.

(** The session is the sender's and has not timed out. *)
Lemma get_session_same s t :
    client_addr (session s) = a -> client_port (session s) = port -> on_time (last_rx_time_ms (base s)) t ->
    get_session addr_eq ntoa s a port t = Some s.
Proof.
  intros Ha Hp Ht. unfold get_session. rewrite Ha, same_sender, bool_decide_true by done.
  unfold udp_server_session_has_timed_out. by rewrite Ht.
Qed.

Lemma recv_data s s1 started last len ids p t ok :
    get_session addr_eq ntoa s a port t = Some s1 -> fixed s s1 -> accounts s1 started last len ids ->
    Forall (fun i => 0 <= i < 2 ^ 31 - 1) ids -> 40 <= zlen p -> 0 <= number (version s) p < 2 ^ 31 - 1 ->
    exists s2, recv s p a port t ok = (s2, []) /\ fixed s s2 /\
      accounts s2 started (at_rx t) (len + zlen p) (ids ++ [number (version s) p]).
Proof.
  intros Hg Hf Hac Hids Hl Hn. unfold iperf_udp_server_recv.
  rewrite !(decide_False (P := zlen p < _)) by lia. fold (number (version s) p).
  rewrite bool_decide_false by lia. rewrite Hg.
  pose proof (top_range (2 ^ 31 - 1) 0 ids ltac:(lia) Hids) as Htop.
  rewrite decide_True by (rewrite (ac_next _ _ _ _ _ Hac); lia).
  eexists. split; [done|]. split; [exact Hf|]. by apply count_packet_accounts with (last := last).
Qed.

(** The reply to a last packet. *)
Definition reply (s : state) (p : bytes) (ok : bool) : list (@action addr) :=
    iperf_udp_server_handle_final_packet is_multicast s a port p ok.

(** A session that has been reported. *)
Record closed (s : state) (started last : Z) (len : Z) (ids : list Z) : Prop := {
    cl_next : next_packet_id (session s) = - 1;
    cl_client : client_addr (session s) = a /\ client_port (session s) = port;
    cl_times : time_started_ms (base s) = started /\ last_rx_time_ms (base s) = last;
    cl_type : report_type (report (base s)) = MMIPERF_UDP_DONE_SERVER;
    cl_ends : remote_addr (report (base s)) = ntoa a /\ remote_port (report (base s)) = port;
    cl_bytes : bytes_transferred (report (base s)) = u64 len;
    cl_duration : duration_ms (report (base s)) = Z.max 0 (s32 (last - started));
    cl_rx : rx_frames (report (base s)) = u32 (zlen ids);
    cl_late : out_of_sequence_frames (report (base s)) = u32 (zlen ids - zlen (records 0 ids));
    cl_err : error_count (report (base s)) = u32 (top 0 ids - zlen (records 0 ids));
  }.

Lemma finish_closed s started last len ids s' acts :
    accounts s started last len ids -> finish s = (s', acts) ->
    closed s' started last len ids /\ fixed s s' /\
    acts = if report_fn (base s) then [Report (report (base s'))] else [].
Proof.
  clear same_sender. intros [Hn Hc [Hs Hl] He Hb Hr Ho Her] E. unfold finish, iperf_finalize_report_and_invoke_callback in E.
  rewrite Hs, Hl in E. injection E as <- <-. split; [|split; [done|by destruct (report_fn (base s))]].
  unfold rate. cbn [set_type report_type bytes_transferred].
  constructor; cbn [session base set_session set_base set_next_id next_packet_id client_addr client_port set_report
    last_rx_time_ms time_started_ms report]; try done;
    destruct (decide (s32 (u32 (last - started)) <= 0)) as [Hd|Hd]; cbn; try done;
    rewrite s32_u32 in Hd; zlia.
Qed.

Lemma recv_final s s1 started last len ids p t ok :
    get_session addr_eq ntoa s a port t = Some s1 -> fixed s s1 -> accounts s1 started last len ids ->
    Forall (fun i => 0 <= i < 2 ^ 31 - 1) ids -> 40 <= zlen p -> - (2 ^ 31 - 1) < number (version s) p < 0 ->
    exists s2, recv s p a port t ok =
        (s2, (if report_fn (base s) then [Report (report (base s2))] else []) ++ reply s2 p ok) /\
      fixed s s2 /\ closed s2 started (at_rx t) (len + zlen p) (ids ++ [- number (version s) p]).
Proof.
  intros Hg Hf Hac Hids Hl Hn. unfold iperf_udp_server_recv.
  rewrite !(decide_False (P := zlen p < _)) by lia. fold (number (version s) p).
  rewrite bool_decide_true by lia. rewrite Hg.
  replace (s64 (- number (version s) p)) with (- number (version s) p) by (unfold s64; Z.div_mod_to_equations; lia).
  pose proof (top_range (2 ^ 31 - 1) 0 ids ltac:(lia) Hids) as Htop.
  rewrite (decide_True (P := next_packet_id (session s1) >= 0)) by (rewrite (ac_next _ _ _ _ _ Hac); lia).
  set (s1' := count_packet _ _ _ _ _).
  assert (Hac' : accounts s1' started (at_rx t) (len + zlen p) (ids ++ [- number (version s) p]))
    by (apply count_packet_accounts with (last := last); [done|done|lia]).
  assert (Hids' : Forall (fun i => 0 <= i < 2 ^ 31 - 1) (ids ++ [- number (version s) p]))
    by (apply Forall_app_2; [done|by repeat constructor; lia]).
  pose proof (top_range (2 ^ 31 - 1) 0 _ ltac:(lia) Hids') as Htop'.
  rewrite (decide_True (P := next_packet_id (session s1') >= 0)) by (rewrite (ac_next _ _ _ _ _ Hac'); lia).
  destruct (finish s1') as [s2 acts] eqn:E. destruct (finish_closed _ _ _ _ _ _ _ Hac' E) as (Hcl & Hf2 & ->).
  exists s2. assert (Hfx : fixed s1 s1') by done.
  assert (Hff : fixed s s2) by (unfold fixed in *; destruct Hf as (-> & -> & ->) || idtac; intuition congruence).
  split; [|done]. f_equal. f_equal. destruct Hf as (_ & _ & <-), Hfx as (_ & _ & <-). done.
Qed.

Definition octets_of (l : list arrival) : Z := fold_right (fun x n => zlen x.1.1 + n) 0 l.
Definition numbers (v : iperf_version) (l : list arrival) : list Z := map (fun x => number v x.1.1) l.

(** Each arrival comes within the time limit after the one before. *)
Fixpoint in_time (last : Z) (l : list arrival) : Prop :=
    match l with
    | [] => True
    | (_, t, _) :: l => on_time last t /\ in_time (at_rx t) l
    end.

Definition is_data (v : iperf_version) (x : arrival) : Prop :=
    40 <= zlen x.1.1 /\ 0 <= number v x.1.1 < 2 ^ 31 - 1.
Definition is_final (v : iperf_version) (x : arrival) : Prop :=
    40 <= zlen x.1.1 /\ - (2 ^ 31 - 1) < number v x.1.1 < 0.

Lemma numbers_bound v l : Forall (is_data v) l -> Forall (fun i => 0 <= i < 2 ^ 31 - 1) (numbers v l).
Proof. intros H. unfold numbers. apply Forall_map. eapply list.Forall_impl; [exact H|]. by intros x [_ ?]. Qed.

(** From a state with the session open, through the rest of its data to its
    end. *)
Lemma deliver_rest l fin s started last len ids :
    accounts s started last len ids -> Forall (fun i => 0 <= i < 2 ^ 31 - 1) ids ->
    Forall (is_data (version s)) l -> is_final (version s) fin -> in_time last (l ++ [fin]) ->
    exists s2, deliver s (l ++ [fin]) =
        (s2, (if report_fn (base s) then [Report (report (base s2))] else []) ++ reply s2 fin.1.1 fin.2) /\
      fixed s s2 /\
      closed s2 started (at_rx fin.1.2) (len + octets_of (l ++ [fin]))
        (ids ++ numbers (version s) l ++ [- number (version s) fin.1.1]).
Proof.
  revert s last len ids. induction l as [|[[p t] ok] l IH]; intros s last len ids Hac Hids Hl Hf Ht.
  - destruct fin as [[p t] ok], Hf as [Hlen Hn]. cbn [app deliver in_time octets_of fold_right fst snd numbers map] in *.
    destruct Ht as [Ht _]. pose proof Hac as Hac'. destruct Hac' as [_ [Ha Hp] [_ <-] _ _ _ _ _].
    destruct (recv_final s s started (last_rx_time_ms (base s)) len ids p t ok) as (s2 & E & Hfx & Hcl);
      [by apply get_session_same|done|done|done|done|done|].
    rewrite E. exists s2. rewrite app_nil_r, Z.add_0_r. done.
  - apply list.Forall_cons in Hl as [[Hlen Hn] Hl]. cbn [app in_time fst snd] in *. destruct Ht as [Ht1 Ht2].
    pose proof Hac as Hac'. destruct Hac' as [_ [Ha Hp] [_ Hlast] _ _ _ _ _]. rewrite <- Hlast in Hac, Ht1.
    destruct (recv_data s s started (last_rx_time_ms (base s)) len ids p t ok) as (s1 & E & (Hv & Hm & Hfn) & Hac1);
      [by apply get_session_same|done|done|done|done|done|].
    destruct (IH s1 (at_rx t) (len + zlen p) (ids ++ [number (version s) p])) as (s2 & E2 & (Hv2 & Hm2 & Hfn2) & Hcl);
      [done|by apply Forall_app_2; [|repeat constructor; tauto]|by rewrite Hv|by rewrite Hv|done|].
    exists s2. cbn [deliver]. rewrite E, E2, Hfn. split; [done|]. split; [unfold fixed; by rewrite Hv2, Hm2, Hfn2|].
    rewrite Hv in Hcl. cbn [octets_of fold_right numbers map fst]. unfold octets_of, numbers in Hcl.
    rewrite <- app_assoc in Hcl. cbn [app] in Hcl. by rewrite Z.add_assoc.
Qed.

(** After the end: nothing is counted, a last packet is answered again. *)
Lemma recv_closed s started last len ids p t ok :
    closed s started last len ids -> on_time last t ->
    recv s p a port t ok =
      (s, if decide (40 <= zlen p /\ number (version s) p < 0) then reply s p ok else []).
Proof.
  intros [Hn [Ha Hp] [_ Hl] _ _ _ _ _ _ _] Ht. rewrite <- Hl in Ht. unfold iperf_udp_server_recv.
  destruct (decide (zlen p < 16)); [by rewrite decide_False by lia|].
  destruct (decide (zlen p < 16 + 24)); [by rewrite decide_False by lia|]. fold (number (version s) p).
  rewrite (get_session_same s t Ha Hp Ht). rewrite !(decide_False (P := next_packet_id (session s) >= 0)) by lia.
  destruct (decide (number (version s) p < 0)).
  - rewrite bool_decide_true, decide_True by (done || lia). done.
  - rewrite bool_decide_false, decide_False by (done || lia). done.
Qed.
End Accounting.

(** A whole test, from any state that lets the first datagram open a session. *)
Lemma deliver_all {addr} (addr_eq : addr -> addr -> bool) is_multicast ntoa a port s first l fin :
  addr_eq a a = true -> opens addr_eq a port s (first.1.2) ->
  Forall (is_data (version s)) (first :: l) -> is_final (version s) fin -> in_time (at_rx first.1.2) (l ++ [fin]) ->
  exists s', deliver addr_eq is_multicast ntoa a port s (first :: l ++ [fin]) =
      (s', (if report_fn (base s) then [Report (report (base s'))] else []) ++ reply is_multicast a port s' fin.1.1 fin.2) /\
    fixed s s' /\
    closed ntoa a port s' (at_start first.1.2) (at_rx fin.1.2) (octets_of (first :: l ++ [fin]))
      (numbers (version s) (first :: l) ++ [- number (version s) fin.1.1]).
Proof.
  intros Ha Ho Hd Hf Ht. apply list.Forall_cons in Hd as [[Hlen Hn] Hl]. destruct first as [[p t] ok]. cbn [fst snd] in *.
  destruct (get_session_opens addr_eq ntoa a port s t Ho) as (s1 & Hg & Hfx & Hac).
  destruct (recv_data addr_eq is_multicast ntoa a port s s1 _ _ _ _ p t ok Hg Hfx Hac) as (s2 & E & (Hv & Hm & Hfn) & Hac2);
    [constructor|done|done|].
  destruct (deliver_rest addr_eq is_multicast ntoa a port Ha l fin s2 (at_start t) (at_rx t) (0 + zlen p) ([] ++ [number (version s) p]))
    as (s3 & E3 & (Hv3 & Hm3 & Hfn3) & Hcl); [done|repeat constructor; tauto|by rewrite Hv|by rewrite Hv|done|].
  rewrite Hv in Hcl. exists s3. split; [|split; [unfold fixed; by rewrite Hv3, Hm3, Hfn3|exact Hcl]].
  rewrite <- Hfn. exact (deliver_cons _ _ _ _ _ _ _ _ _ _ _ _ _ _ E E3).
Qed.

(** Numbers in increasing order: what the account says. *)
Lemma closed_sorted {addr} ntoa (a : addr) port s started last len ids :
  closed ntoa a port s started last len ids -> StronglySorted Z.lt ids -> Forall (fun i => 0 <= i) ids ->
  out_of_sequence_frames (report (base s)) = 0 /\ error_count (report (base s)) = u32 (top 0 ids - zlen ids).
Proof.
  intros [_ _ _ _ _ _ _ _ Hlate Herr] Hs Hp. rewrite (records_sorted _ _ Hs Hp) in Hlate, Herr.
  split; [|exact Herr]. by rewrite Hlate, Z.sub_diag.
Qed.

(** C11: the server's account of one test: from any state in which the first
    datagram opens a session, data datagrams and a last one, in any order, with
    any losses and repetitions, none more than a minute after the one before,
    give one report at the last datagram, to the callback if there is one.  It
    holds all datagrams and octets; as out of sequence those that did not raise
    the expected number, as lost the numbers skipped when it was raised (with
    nothing reordered: no datagram, and exactly the missing ones); the duration
    from first to last.  The sender is answered with the report, and again for
    each repetition of the last datagram, without a change of the state. *)
Theorem server_accounts {addr} (addr_eq : addr -> addr -> bool) is_multicast ntoa a port s first l fin :
  addr_eq a a = true ->
  opens addr_eq a port s (first.1.2) ->
  let v := version s in
  let data := first :: l in
  Forall (is_data v) data -> is_final v fin -> in_time (at_rx first.1.2) (l ++ [fin]) ->
  let ids := numbers v data ++ [- number v fin.1.1] in
  exists s' : iperf_server_state_udp,
    deliver addr_eq is_multicast ntoa a port s (first :: l ++ [fin]) =
      (s', (if report_fn (base s) then [Report (report (base s'))] else []) ++ reply is_multicast a port s' fin.1.1 fin.2) /\
    closed ntoa a port s' (at_start first.1.2) (at_rx fin.1.2) (octets_of (first :: l ++ [fin])) ids /\
    (StronglySorted Z.lt ids ->
       out_of_sequence_frames (report (base s')) = 0 /\
       error_count (report (base s')) = u32 (top 0 ids - zlen ids)) /\
    (forall p t ok, on_time (at_rx fin.1.2) t ->
       iperf_udp_server_recv addr_eq is_multicast ntoa s' p a port t ok =
         (s', if decide (40 <= zlen p /\ number v p < 0) then reply is_multicast a port s' p ok else [])).
Proof.
  intros Ha Ho v data Hd Hf Ht ids.
  destruct (deliver_all addr_eq is_multicast ntoa a port s first l fin Ha Ho Hd Hf Ht) as (s' & E & (Hv & _ & _) & Hcl).
  exists s'. split; [exact E|]. split; [exact Hcl|]. split.
  - intros Hs. apply (closed_sorted _ _ _ _ _ _ _ _ Hcl); [exact Hs|]. destruct Hf as [_ Hf].
    apply list.Forall_app_2; [|apply list.Forall_singleton; fold v; lia]. eapply list.Forall_impl; [exact (numbers_bound _ _ Hd)|]. cbn. lia.
  - intros p t ok Ht'. rewrite (recv_closed addr_eq is_multicast ntoa a port Ha _ _ _ _ _ _ _ _ Hcl Ht'). by rewrite Hv.
Qed.

(** ** An example *)

Definition ex_packet (v : iperf_version) (n seconds : Z) (payload : bytes) : bytes :=
  header_octets {| id_lo := bswap32 (u32 n); tv_sec := bswap32 seconds; tv_usec := 0; id_hi := bswap32 (u32 (n / 2 ^ 32)) |} ++
  replicate 24 0 ++ payload.

Definition ex_clock (now : Z) : readings := {| at_get := now; at_check := now; at_start := now; at_rx := now |}.
Definition ex_ntoa (a : Z) : bytes := fmt_d a.

Definition ex_server : option (@iperf_server_state_udp Z) :=
  mmiperf_start_udp_server 0 0 (fun _ => None) (lit "") 5001 IPERF_VERSION_2_0_13 true true true true.
Definition ex_state : @iperf_server_state_udp Z :=
  match ex_server with
  | Some s => s
  | None => {| base := ex_srv; args_addr := 0; args_port := 0; version := IPERF_VERSION_2_0_9; pcb_addr := 0;
               session := {| next_packet_id := 0; client_addr := 0; client_port := 0; ipg_start := {| sec := 0; usec := 0 |} |} |}
  end.

(** Number 1 is overtaken, number 3 is lost. *)
Definition ex_first : arrival := (ex_packet IPERF_VERSION_2_0_13 0 7 [1; 2], ex_clock 4294967290, true).
Definition ex_rest : list arrival :=
  [(ex_packet IPERF_VERSION_2_0_13 2 7 [], ex_clock 4, true); (ex_packet IPERF_VERSION_2_0_13 1 7 [], ex_clock 10, true)].
Definition ex_fin : arrival := (ex_packet IPERF_VERSION_2_0_13 (- 4) 7 [], ex_clock 20, true).

Lemma server_accounts_witness :
  exists s', deliver Z.eqb (fun _ => false) ex_ntoa 9 1234 ex_state (ex_first :: ex_rest ++ [ex_fin]) =
    (s', [Report (report (base s')); Sendto (take 16 ex_fin.1.1 ++ report_octets (iperf_populate_udp_server_report (base s'))) 9 1234]) /\
    rx_frames (report (base s')) = 4 /\ bytes_transferred (report (base s')) = 162 /\
    out_of_sequence_frames (report (base s')) = 1 /\ error_count (report (base s')) = 2 /\
    duration_ms (report (base s')) = 26.
Proof.
  destruct (server_accounts Z.eqb (fun _ => false) ex_ntoa 9 1234 ex_state ex_first ex_rest ex_fin) as (s' & E & Hcl & _ & _).
  - reflexivity.
  - split; [reflexivity|left; reflexivity].
  - repeat constructor; vm_compute; congruence.
  - split; vm_compute; auto. congruence.
  - repeat split.
  - exists s'. split; [exact E|]. destruct Hcl as [_ _ _ _ _ -> Hd -> -> ->]. rewrite Hd. vm_compute. auto.
Defined.

(** ** Two peculiarities *)

(** The sum of the gaps between packets starts with the first packet's own
    time stamp and is in microseconds, modulo 32 bits: two packets of one
    second after another, 1000 s after the epoch. *)
Lemma gap_sum_is_absolute :
  let s := fst (deliver Z.eqb (fun _ => false) ex_ntoa 9 1234 ex_state
                  [(ex_packet IPERF_VERSION_2_0_13 0 1000 [], ex_clock 0, true);
                   (ex_packet IPERF_VERSION_2_0_13 1 1001 [], ex_clock 1000, true)]) in
  ipg_count (report (base s)) = 2 /\ ipg_sum_ms (report (base s)) = 1000000000 + 1000000.
Proof. vm_compute. auto. Qed.

(** Port 0 is not replaced by the default port. *)
Lemma server_port_zero {addr} (zero any : addr) aton v fn :
  exists s, mmiperf_start_udp_server zero any aton (lit "") 0 v fn true true true = Some s /\ args_port s = 0.
Proof. eexists. split; reflexivity. Qed.

End IperfUdp.
