(* ===== verification/IperfUdpClient.v ===== *)
(** The UDP test's client: [iperf_udp_client_send_packet],
    [iperf_udp_client_task], [iperf_udp_client_report] and
    [iperf_udp_client_recv] of [framework/src/mmiperf/lwip/mmiperf_udp.c].

    The task's loop runs in an environment that gives the clock's readings and
    the outcome of each attempt to send; it has no bound of its own in the code
    and fuel here, with theorems that tell how much is enough. *)

From Stdlib Require Import Sorted.
From S2P Require Import Prelude CStr Chain IperfCommon IperfUdp.

Module IperfUdpClient.
Import IperfCommon IperfUdp.

(** ** Data *)

(** The fields of [struct iperf_client_state_udp] that the task reads; the
    address as whether it is a multicast one. *)
Record client := {
  base : mmiperf_state;
  server_addr : bytes;
  server_port : Z;
  target_bw : Z;
  packet_size : Z;
  amount : Z;
  version : iperf_version;
  multicast : bool;
  awaiting_report : bool;
  report : option bytes;
  block_tx_amount : Z;
}.

Definition set_base (c : client) (b : mmiperf_state) : client :=
  {| base := b; server_addr := server_addr c; server_port := server_port c; target_bw := target_bw c; packet_size := packet_size c; amount := amount c;
     version := version c; multicast := multicast c; awaiting_report := awaiting_report c; report := report c;
     block_tx_amount := block_tx_amount c |}.
Definition set_awaiting (c : client) (w : bool) (r : option bytes) : client :=
  {| base := base c; server_addr := server_addr c; server_port := server_port c; target_bw := target_bw c; packet_size := packet_size c; amount := amount c;
     version := version c; multicast := multicast c; awaiting_report := w; report := r;
     block_tx_amount := block_tx_amount c |}.

Definition UINT32_MAX : Z := 2 ^ 32 - 1.
Definition UINT64_MAX : Z := 2 ^ 64 - 1.

(** ** One datagram *)

(** [sizeof (udp_header_t)] and [sizeof (struct iperf_settings)] *)
Definition hdrs_len (v : iperf_version) : Z :=
  match v with IPERF_VERSION_2_0_13 => 16 + 24 | IPERF_VERSION_2_0_9 => 16 + 24 - 4 end.

(** [word b off x]: the 32-bit field at [off]. *)
Definition word (b : bytes) (off x : Z) : outcome bytes := wrn b off (enc_le32 x).

(** The octets given to [udp_sendto].  [pool]: what the pool's buffer held, of
    which the first [hdrs_len] octets are the datagram's; [now]: [sys_now ()]. *)
Definition iperf_udp_client_send_packet (v : iperf_version) (frames tx_amount : Z) (final : bool) (pool : bytes) (now : Z)
    : outcome bytes :=
  let datagrams_cnt := if final then - frames else frames in
  b ← word pool 0 (bswap32 (u32 datagrams_cnt));
  b ← match v with
      | IPERF_VERSION_2_0_9 => Ok b
      | IPERF_VERSION_2_0_13 => word b 12 (bswap32 (u32 (Z.shiftr (u64 datagrams_cnt) 32)))
      end;
  b ← word b 8 (bswap32 (u32 ((now mod 1000) * 1000)));
  b ← word b 4 (bswap32 (u32 (now / 1000)));
  b ← wrn b 16 (replicate 24 0);
  let payload_len := if decide (tx_amount > hdrs_len v) then tx_amount - hdrs_len v else 0 in
  payload ← iperf_get_data 0 payload_len;
  Ok (take (Z.to_nat (hdrs_len v)) b ++ payload).

(** ** The sending loop *)

(** What one turn meets: [sys_now ()] at its places, the pool's buffer, whether
    the datagram is sent. *)
Record turn := { now_end : Z; now_block : Z; now_next : Z; now_gate : Z; now_hdr : Z; pool : bytes; sent : bool }.

Record loop_state := {
  cl : client;
  remaining_amount : Z;
  tx_amount : Z;
  final : bool;
  failure_cnt : Z;
  block_end_time : Z;
  block_remaining_tx_amount : Z;
}.

Definition frames (c : client) : Z := tx_frames (IperfCommon.report (base c)).

(** [base.report.bytes_transferred += tx_amount; base.report.tx_frames++;] *)
Definition count_sent (c : client) (n : Z) : client :=
  let r := IperfCommon.report (base c) in
  let r := set_rate r (u64 (bytes_transferred r + n)) (duration_ms r) (bandwidth_kbitpsec r) in
  set_base c (set_report (base c) (set_tx r (u32 (tx_frames r + 1)))).

Definition end_time (c : client) : Z :=
  if decide (amount c < 0) then u32 (time_started_ms (base c) + s32 (s32 (- amount c) * 10)) else UINT32_MAX.
Definition start_amount (c : client) : Z := if decide (amount c < 0) then UINT64_MAX else u64 (amount c).

(** The body of the loop: the new state and the datagram, if one was sent. *)
Definition client_turn (s : loop_state) (e : turn) : outcome (loop_state * list bytes) :=
  let c := cl s in
  let last_one := bool_decide (now_end e > end_time c) || bool_decide (remaining_amount s <= packet_size c) ||
                  bool_decide (frames c >= UINT32_MAX - 10) in
  let final := final s || last_one in
  let c := if last_one then set_awaiting c true (report c) else c in
  let tx_amount := u32 (Z.min (remaining_amount s) (packet_size c)) in
  let bw_limit := negb (bool_decide (target_bw c = 0)) in
  let next_block := bw_limit && bool_decide (block_end_time s < now_block e) in
  let block_end := if next_block then u32 (now_next e + BLOCK_DURATION_MS) else block_end_time s in
  let block_remaining := if next_block then u32 (block_remaining_tx_amount s + block_tx_amount c) else block_remaining_tx_amount s in
  let s := {| cl := c; remaining_amount := remaining_amount s; tx_amount := tx_amount; final := final;
              failure_cnt := failure_cnt s; block_end_time := block_end; block_remaining_tx_amount := block_remaining |} in
  if negb bw_limit || bool_decide (block_remaining >= tx_amount) || bool_decide (now_gate e > end_time c) then
    p ← iperf_udp_client_send_packet (version c) (frames c) tx_amount final (pool e) (now_hdr e);
    if sent e then
      Ok ({| cl := count_sent c tx_amount; remaining_amount := u64 (remaining_amount s - tx_amount); tx_amount := tx_amount;
             final := final; failure_cnt := 0; block_end_time := block_end;
             block_remaining_tx_amount := u32 (block_remaining - tx_amount) |}, [p])
    else
      Ok ({| cl := c; remaining_amount := remaining_amount s; tx_amount := tx_amount; final := final;
             failure_cnt := failure_cnt s + 1; block_end_time := block_end; block_remaining_tx_amount := block_remaining |}, [])
  else Ok (s, []).

(** [i] counts the turns. *)
Fixpoint client_loop (fuel : nat) (env : nat -> turn) (i : nat) (s : loop_state) : outcome (loop_state * list bytes) :=
  match fuel with
  | O => Fail OutOfFuel
  | S fuel =>
      if negb (final s) && bool_decide (failure_cnt s < IPERF_UDP_CLIENT_MAX_CONSEC_FAILURES) then
        '(s, x) ← client_turn s (env i);
        '(s, y) ← client_loop fuel env (S i) s; Ok (s, x ++ y)
      else Ok (s, [])
  end.

(** [now] is [sys_now ()] before the loop; [addr] and [port] are the control
    block's own, as text and number. *)
Definition loop_start (c : client) (addr : bytes) (port : Z) (now : Z) : loop_state :=
  let r := set_ends (IperfCommon.report (base c)) addr port (server_addr c) (server_port c) in
  {| cl := set_base c (set_report (base c) r); remaining_amount := start_amount c; tx_amount := 0; final := false; failure_cnt := 0;
     block_end_time := u32 (now + BLOCK_DURATION_MS); block_remaining_tx_amount := block_tx_amount c |}.

(** ** The report *)

(** The receive callback: the new state, and whether the semaphore is given. *)
Definition iperf_udp_client_recv (c : client) (from_server : bool) (port : Z) (p : bytes) : client * bool :=
  if negb from_server then (c, false)
  else if decide (port <> server_port c) then (c, false)
  else if negb (awaiting_report c) then (c, false)
  else match report c with
       | Some _ => (c, false)
       | None => (set_awaiting c (awaiting_report c) (Some p), true)
       end.

(** The state and [final_duration_ms], 0 before. *)
Definition iperf_udp_client_report (c : client) (p : bytes) : client * Z :=
  if decide (zlen p < 16) then (c, 0)
  else if decide (zlen p - 16 < 100) then (c, 0)
  else
    let (_, b) := iperf_parse_udp_server_report (base c) (header_of (take 16 p)) (report_of (take 100 (drop 16 p))) (version c) in
    (set_base c b, duration_ms (IperfCommon.report b)).

(** The wait for the report, with retransmissions: [heard k] is what the
    callback has stored by the end of the [k]-th wait, [again k] the turn of the
    [k]-th retransmission. *)
Fixpoint wait_report (ii : nat) (k : nat) (heard : nat -> option bytes) (again : nat -> turn) (c : client) (tx_amount : Z)
    : outcome (option bytes * list bytes) :=
  match ii, heard k with
  | S ii, None =>
      let e := again k in
      p ← iperf_udp_client_send_packet (version c) (frames c) tx_amount true (pool e) (now_hdr e);
      '(r, l) ← wait_report ii (S k) heard again c tx_amount;
      Ok (r, (if sent e then [p] else []) ++ l)
  | _, r => Ok (r, [])
  end.

(** The task from its loop's end: the final state, the datagrams sent again, the
    callback's report.  [now] is [mmosal_get_time_ms ()]. *)
Definition client_end (c : client) (tx_amount : Z) (heard : nat -> option bytes) (again : nat -> turn) (now : Z)
    : outcome (client * list bytes * option mmiperf_report) :=
  '(r, l) ← wait_report (if multicast c then 0 else Z.to_nat IPERF_UDP_CLIENT_REPORT_RETRIES) 0 heard again c tx_amount;
  let (c, d) :=
    match r with
    | Some p => iperf_udp_client_report c p
    | None =>
        let rep := IperfCommon.report (base c) in
        (if multicast c then c
         else set_base c (set_report (base c) (set_rate rep 0 (duration_ms rep) (bandwidth_kbitpsec rep))),
         u32 (now - time_started_ms (base c)))
    end in
  let (b, cb) := iperf_finalize_report_and_invoke_callback (base c) d MMIPERF_UDP_DONE_CLIENT in
  Ok (set_awaiting (set_base c b) (awaiting_report c) None, l, cb).

Definition iperf_udp_client_task (fuel : nat) (c : client) (addr : bytes) (port now : Z) (env : nat -> turn) (heard : nat -> option bytes)
    (again : nat -> turn) (now_done : Z) : outcome (client * list bytes * option mmiperf_report) :=
  '(s, x) ← client_loop fuel env 0 (loop_start c addr port now);
  '(c, y, cb) ← client_end (cl s) (tx_amount s) heard again now_done;
  Ok (c, x ++ y, cb).

(** ** Start *)

Definition MMIPERF_DEFAULT_PORT : Z := 5001.
Definition MMIPERF_DEFAULT_UDP_PACKET_SIZE_V4 : Z := 1460.
Definition MMIPERF_DEFAULT_UDP_PACKET_SIZE_V6 : Z := 1440.
Definition MMIPERF_DEFAULT_AMOUNT : Z := - 1000.
Definition IPERF_UDP_CLIENT_LOCAL_PORT_RANGE_BASE : Z := 5010.
Definition IPERF_UDP_CLIENT_LOCAL_PORT_RANGE_SIZE : Z := 16.

Record mmiperf_client_args := {
  arg_server_addr : bytes;
  arg_server_port : Z;
  arg_target_bw : Z;
  arg_packet_size : Z;
  arg_amount : Z;
  arg_report_fn : bool;
  arg_version : iperf_version;
}.

(** [family]: what [ipaddr_aton] makes of the address, [Some true] for IPv4;
    [session_counter] the static counter before; [now] is
    [mmosal_get_time_ms ()]; the flags tell whether memory, control block and
    binding are had.  The result is the new state, the local port and the
    counter; [None] for NULL. *)
Definition mmiperf_start_udp_client (args : mmiperf_client_args) (family : option bool) (mcast : bool) (session_counter now : Z)
    (alloc_ok pcb_ok bind_ok : bool) : option (client * Z * Z) :=
  if negb alloc_ok then None
  else
    match family with
    | None => None
    | Some v4 =>
        let port := if decide (arg_server_port args = 0) then MMIPERF_DEFAULT_PORT else arg_server_port args in
        let size := if decide (arg_packet_size args = 0)
                    then if v4 then MMIPERF_DEFAULT_UDP_PACKET_SIZE_V4 else MMIPERF_DEFAULT_UDP_PACKET_SIZE_V6
                    else arg_packet_size args in
        let amount := if decide (arg_amount args = 0) then MMIPERF_DEFAULT_AMOUNT else arg_amount args in
        let block := u32 (arg_target_bw args * BLOCK_DURATION_MS) / 8 in
        let pkt_size := u32 (arg_target_bw args * 1000) / 8 in
        if decide (arg_target_bw args <> 0 /\ size > pkt_size) then None
        else
          let counter := u32 (session_counter + 1) in
          let local_port := IPERF_UDP_CLIENT_LOCAL_PORT_RANGE_BASE + Z.land counter (IPERF_UDP_CLIENT_LOCAL_PORT_RANGE_SIZE - 1) in
          if negb pcb_ok then None
          else if negb bind_ok then None
          else
            Some ({| base := {| next := None; tcp := 0; server := 0; time_started_ms := now; last_rx_time_ms := 0;
                                IperfCommon.report := set_type zero_report MMIPERF_INTERRIM_REPORT; report_fn := arg_report_fn args |};
                     server_addr := arg_server_addr args; server_port := port; target_bw := arg_target_bw args;
                     packet_size := size; amount := amount; version := arg_version args; multicast := mcast;
                     awaiting_report := false; report := None; block_tx_amount := block |},
                  local_port, counter)
    end.

(** ** Datagrams *)

Lemma wrn_at (pre w d r : bytes) off : off = zlen pre -> zlen w = zlen d -> wrn (pre ++ w ++ r) off d = Ok (pre ++ d ++ r).
Proof.
  intros -> Hw. rewrite wrn_Ok by (rewrite ?length_app; lia). unfold splice. rewrite Nat2Z.id, take_app_length.
  do 3 f_equal. rewrite <- drop_drop, drop_app_length. replace (length d) with (length w) by lia. apply drop_app_length.
Qed.

Lemma word_at (pre w r : bytes) off x : off = zlen pre -> zlen w = 4 -> word (pre ++ w ++ r) off x = Ok (pre ++ enc_le32 x ++ r).
Proof. intros. by apply wrn_at. Qed.

(** A buffer cut into pieces. *)
Lemma split_at (b : bytes) n : 0 <= n <= zlen b -> exists w r, b = w ++ r /\ zlen w = n /\ zlen r = zlen b - n.
Proof.
  intros Hn. exists (take (Z.to_nat n) b), (drop (Z.to_nat n) b). split; [by rewrite take_drop|]. rewrite length_take, length_drop. lia.
Qed.

Lemma header_of_words x0 x1 x2 (w3 r : bytes) : zlen w3 = 4 ->
  exists hi, header_of (take 16 (enc_le32 x0 ++ enc_le32 x1 ++ enc_le32 x2 ++ w3 ++ r)) =
    {| id_lo := u32 x0; tv_sec := u32 x1; tv_usec := u32 x2; id_hi := hi |} /\
    (forall x, w3 = enc_le32 x -> hi = u32 x).
Proof.
  intros Hw. destruct w3 as [|a [|b [|c [|d [|? ?]]]]]; try (cbn in Hw; lia).
  exists (be32 d c b a). unfold header_of.
  replace (take 16 _) with (enc_le32 x0 ++ enc_le32 x1 ++ enc_le32 x2 ++ [a; b; c; d]) by done.
  rewrite !octets_words_enc. split; [done|]. intros x Hx.
  pose proof (octets_words_enc x []) as E. rewrite app_nil_r, <- Hx in E. by injection E.
Qed.

Lemma iperf_data_len : zlen iperf_data = 1600.
Proof. vm_compute. reflexivity. Qed.

Lemma payload_Ok n : 0 <= n <= 1600 -> exists l, iperf_get_data 0 n = Ok l /\ zlen l = n.
Proof.
  intros Hn. unfold iperf_get_data. change (0 mod 10) with 0. rewrite rdn_Ok by (rewrite ?iperf_data_len; lia).
  eexists. split; [done|]. rewrite length_window by (pose proof iperf_data_len; lia). lia.
Qed.

(** The octets of the four words the header writes. *)
Lemma send_packet_Ok v n tx (fin : bool) pool now :
  40 <= zlen pool -> 0 <= tx <= 1636 ->
  exists p, iperf_udp_client_send_packet v n tx fin pool now = Ok p /\ zlen p = Z.max (hdrs_len v) tx /\
    exists hi, header_of (take 16 p) =
      {| id_lo := bswap32 (u32 (if fin then - n else n)); tv_sec := bswap32 (u32 (now / 1000));
         tv_usec := bswap32 (u32 (now mod 1000 * 1000)); id_hi := hi |} /\
      (v = IPERF_VERSION_2_0_13 -> hi = bswap32 (u32 (Z.shiftr (u64 (if fin then - n else n)) 32))).
Proof.
  intros Hpool Htx. unfold iperf_udp_client_send_packet.
  destruct (split_at pool 4) as (w0 & r0 & -> & H0 & Hr0); [lia|]. destruct (split_at r0 4) as (w1 & r1 & -> & H1 & Hr1); [lia|].
  destruct (split_at r1 4) as (w2 & r2 & -> & H2 & Hr2); [lia|]. destruct (split_at r2 4) as (w3 & r3 & -> & H3 & Hr3); [lia|].
  destruct (split_at r3 24) as (w4 & r4 & -> & H4 & Hr4); [lia|]. clear Hpool Hr0 Hr1 Hr2 Hr3 Hr4.
  set (cnt := if fin then - n else n).
  destruct (payload_Ok (if decide (tx > hdrs_len v) then tx - hdrs_len v else 0)) as (pay & Epay & Hpay);
    [destruct v; cbn [hdrs_len]; case_decide; lia|].
  set (w3' := match v with IPERF_VERSION_2_0_13 => enc_le32 (bswap32 (u32 (Z.shiftr (u64 cnt) 32))) | IPERF_VERSION_2_0_9 => w3 end).
  assert (H3' : zlen w3' = 4) by by destruct v.
  set (b := enc_le32 (bswap32 (u32 cnt)) ++ enc_le32 (bswap32 (u32 (now / 1000))) ++
            enc_le32 (bswap32 (u32 (now mod 1000 * 1000))) ++ w3' ++ replicate 24 0 ++ r4).
  exists (take (Z.to_nat (hdrs_len v)) b ++ pay). split; [|split].
  - pose proof (word_at [] w0 (w1 ++ w2 ++ w3 ++ w4 ++ r4) 0 (bswap32 (u32 cnt)) eq_refl H0) as E0.
    cbn [app] in E0. rewrite E0. clear E0. cbn [mbind outcome_bind].
    transitivity (b' ← Ok (enc_le32 (bswap32 (u32 cnt)) ++ w1 ++ w2 ++ w3' ++ w4 ++ r4);
      b' ← word b' 8 (bswap32 (u32 (now mod 1000 * 1000))); b' ← word b' 4 (bswap32 (u32 (now / 1000)));
      b' ← wrn b' 16 (replicate 24 0); payload ← iperf_get_data 0 (if decide (tx > hdrs_len v) then tx - hdrs_len v else 0);
      Ok (take (Z.to_nat (hdrs_len v)) b' ++ payload)).
    { destruct v; [|done]. rewrite (app_assoc _ w1), (app_assoc _ w2), (word_at _ w3) by (rewrite ?length_app; cbn; lia).
      by rewrite <- !app_assoc. }
    cbn [mbind outcome_bind]. rewrite (app_assoc _ w1), (word_at _ w2) by (rewrite ?length_app; cbn; lia).
    cbn [mbind outcome_bind]. rewrite <- app_assoc, (word_at _ w1) by (cbn; lia). cbn [mbind outcome_bind].
    rewrite (app_assoc (enc_le32 _)), (app_assoc (_ ++ _)), (app_assoc (_ ++ _)), (wrn_at _ w4)
      by (rewrite ?length_app, ?length_replicate; cbn; lia).
    cbn [mbind outcome_bind]. rewrite Epay. cbn [mbind outcome_bind]. by rewrite <- !app_assoc.
  - rewrite length_app, length_take. subst b. rewrite !length_app, length_replicate. cbn [length enc_le32].
    destruct v; cbn [hdrs_len] in *; case_decide; lia.
  - subst b. destruct (header_of_words (bswap32 (u32 cnt)) (bswap32 (u32 (now / 1000))) (bswap32 (u32 (now mod 1000 * 1000))) w3'
      (replicate 24 0 ++ r4) H3') as (hi & E & Hhi).
    exists hi. split; [|intros ->; rewrite (Hhi _ eq_refl); apply u32_id, bswap32_range].
    rewrite take_app_le by (rewrite length_take, !length_app, length_replicate; cbn [length enc_le32]; destruct v; cbn [hdrs_len]; lia).
    rewrite take_take. replace (16 `min` _)%nat with 16%nat by (destruct v; cbn [hdrs_len]; lia).
    rewrite E, !(u32_id (bswap32 _)) by apply bswap32_range. done.
Qed.

(** The server reads the client's number. *)
Lemma send_packet_number v n (fin : bool) p lo hi sec usec :
  0 <= n < 2 ^ 31 -> header_of (take 16 p) = {| id_lo := lo; tv_sec := sec; tv_usec := usec; id_hi := hi |} ->
  lo = bswap32 (u32 (if fin then - n else n)) ->
  (v = IPERF_VERSION_2_0_13 -> hi = bswap32 (u32 (Z.shiftr (u64 (if fin then - n else n)) 32))) ->
  number v p = if fin then - n else n.
Proof.
  intros Hn E -> Hhi. unfold number. rewrite E. unfold packet_number. cbn [id_lo id_hi].
  set (cnt := if fin then - n else n) in *. assert (Hc : - 2 ^ 31 < cnt < 2 ^ 31) by (subst cnt; destruct fin; lia). clearbody cnt.
  rewrite bswap32_invol by apply u32_range. destruct v.
  - rewrite (Hhi eq_refl), bswap32_invol by apply u32_range. rewrite lor_words by apply u32_range.
    rewrite Z.shiftr_div_pow2 by lia. zlia.
  - zlia.
Qed.

(** ** Termination *)

(** Without a bandwidth limit. *)
Record unlimited (c : client) : Prop := {
  un_bw : target_bw c = 0;
  un_size : 0 < packet_size c <= 1600;
}.

(** How many more datagrams can still be sent, at most. *)
Definition left (s : loop_state) : Z :=
  if decide (amount (cl s) < 0) then 2 ^ 32 - frames (cl s) else remaining_amount s / packet_size (cl s) + 1.

(** What holds between the turns of a task that started with [a] octets to
    send. *)
Record in_loop (a : Z) (s : loop_state) : Prop := {
  il_un : unlimited (cl s);
  il_frames : 0 <= frames (cl s) <= if final s then 2 ^ 32 - 10 else 2 ^ 32 - 11;
  il_remaining : 0 <= remaining_amount s < 2 ^ 64;
  il_fail : 0 <= failure_cnt s <= IPERF_UDP_CLIENT_MAX_CONSEC_FAILURES;
  il_sent : 0 <= bytes_transferred (IperfCommon.report (base (cl s)));
  il_bytes : bytes_transferred (IperfCommon.report (base (cl s))) + remaining_amount s = a;
}.

(** What the environment must give: a pool buffer that holds the headers. *)
Definition good_turn (e : turn) : Prop := 40 <= zlen (pool e).

Lemma client_turn_Ok a s e :
  in_loop a s -> 0 <= a < 2 ^ 64 -> final s = false -> failure_cnt s < IPERF_UDP_CLIENT_MAX_CONSEC_FAILURES -> good_turn e ->
  exists s' l, client_turn s e = Ok (s', l) /\ in_loop a s' /\
    amount (cl s') = amount (cl s) /\ frames (cl s') = frames (cl s) + zlen l /\
    (final s' = false -> 60 * left s' - failure_cnt s' < 60 * left s - failure_cnt s).
Proof.
  intros [[Hbw Hps] Hfr Hrem Hfc Hb0 Hb] Ha Hfin Hlt Hg. rewrite Hfin in Hfr. unfold client_turn. rewrite Hfin. cbn [orb].
  set (last_one := bool_decide (now_end e > _) || _ || _).
  set (c := if last_one then _ else cl s).
  assert (Ec : base c = base (cl s) /\ target_bw c = target_bw (cl s) /\ packet_size c = packet_size (cl s) /\
    amount c = amount (cl s) /\ version c = version (cl s) /\ frames c = frames (cl s)) by (subst c; by destruct last_one).
  destruct Ec as (Eb & Ebw & Eps & Eam & Ev & Efr). rewrite Ebw, Hbw, bool_decide_true by done. cbn [negb orb andb].
  set (tx := u32 (Z.min (remaining_amount s) (packet_size c))).
  assert (Htx : tx = Z.min (remaining_amount s) (packet_size (cl s))) by (subst tx; rewrite Eps; apply u32_id; unfold is_u32; lia).
  destruct (send_packet_Ok (version c) (frames c) tx last_one (pool e) (now_hdr e)) as (p & Ep & _); [exact Hg|lia|].
  rewrite Ep. cbn [mbind outcome_bind].
  assert (Hlast : last_one = false -> remaining_amount s > packet_size (cl s) /\ frames (cl s) < UINT32_MAX - 10).
  { intros [[_ H1]%orb_false_elim H2]%orb_false_elim. apply bool_decide_eq_false_1 in H1, H2. lia. }
  unfold UINT32_MAX in Hlast. clearbody last_one. destruct (sent e).
  - eexists _, _. split; [done|]. cbn [remaining_amount failure_cnt final cl].
    assert (Hr' : u64 (remaining_amount s - tx) = remaining_amount s - tx) by (rewrite Htx; zlia).
    assert (Ef : frames (count_sent c tx) = frames (cl s) + 1)
      by (unfold frames, count_sent in *; cbn [base set_base set_report set_tx tx_frames IperfCommon.report set_rate];
          rewrite Efr; apply u32_id; unfold is_u32; lia).
    split; [|split; [exact Eam|split; [exact Ef|]]].
    + constructor; cbn [cl final remaining_amount failure_cnt].
      * split; [exact (eq_trans Ebw Hbw)|]. change (packet_size (count_sent c tx)) with (packet_size c). lia.
      * rewrite Ef. destruct last_one; [lia|]. specialize (Hlast eq_refl). lia.
      * lia.
      * unfold IPERF_UDP_CLIENT_MAX_CONSEC_FAILURES. lia.
      * unfold count_sent. cbn [base set_base set_report set_tx bytes_transferred IperfCommon.report set_rate].
        rewrite Eb. zlia.
      * rewrite Hr'. unfold count_sent. cbn [base set_base set_report set_tx bytes_transferred IperfCommon.report set_rate].
        rewrite Eb. replace (u64 _) with (bytes_transferred (IperfCommon.report (base (cl s))) + tx) by zlia. lia.
    + intros ->. destruct (Hlast eq_refl) as [Hl1 Hl2]. unfold left, IPERF_UDP_CLIENT_MAX_CONSEC_FAILURES in *. cbn [cl remaining_amount].
      change (amount (count_sent c tx)) with (amount c). change (packet_size (count_sent c tx)) with (packet_size c).
      rewrite Ef, Eam, Eps, Hr', Htx, Z.min_r by lia. destruct (decide (amount (cl s) < 0)); [lia|].
      replace (remaining_amount s) with (remaining_amount s - packet_size (cl s) + 1 * packet_size (cl s)) at 2 by lia.
      rewrite Z.div_add by lia. lia.
  - eexists _, _. split; [done|]. cbn [remaining_amount failure_cnt final cl length].
    split; [|split; [exact Eam|split; [lia|]]].
    + constructor; cbn [cl final remaining_amount failure_cnt].
      * split; [exact (eq_trans Ebw Hbw)|lia].
      * rewrite Efr. destruct last_one; lia.
      * lia.
      * lia.
      * by rewrite Eb.
      * by rewrite Eb.
    + intros _. unfold left. cbn [cl remaining_amount]. rewrite Eam, Eps, Efr. lia.
Qed.

Lemma left_pos a s : in_loop a s -> 1 <= left s.
Proof.
  intros [[_ Hps] Hf Hr _ _ _]. unfold left. destruct (decide _); [destruct (final s); lia|].
  pose proof (Z.div_pos (remaining_amount s) (packet_size (cl s))). lia.
Qed.

Lemma client_loop_Ok fuel env i a s :
  in_loop a s -> 0 <= a < 2 ^ 64 -> (forall k, good_turn (env k)) -> (0 < fuel)%nat ->
  (final s = false -> 60 * left s - failure_cnt s < Z.of_nat fuel) ->
  exists s' l, client_loop fuel env i s = Ok (s', l) /\ in_loop a s' /\
    (final s' = true \/ failure_cnt s' = IPERF_UDP_CLIENT_MAX_CONSEC_FAILURES) /\
    frames (cl s') = frames (cl s) + zlen l.
Proof.
  revert i s. induction fuel as [|fuel IH]; intros i s Hin Ha Hg Hf Hm; [lia|]. cbn [client_loop].
  destruct (final s) eqn:Hfin; [exists s, []; cbn [negb andb length]; split_and!; auto; lia|]. cbn [negb andb].
  case_bool_decide as Hlt; [|exists s, []; pose proof (il_fail _ _ Hin); cbn [length]; split_and!; auto; try lia; right; lia].
  destruct (client_turn_Ok a s (env i) Hin Ha Hfin Hlt (Hg i)) as (s1 & l1 & E1 & Hin1 & _ & Hfr & Hm1).
  pose proof (left_pos a s Hin). pose proof (left_pos a s1 Hin1). pose proof (il_fail _ _ Hin1).
  unfold IPERF_UDP_CLIENT_MAX_CONSEC_FAILURES in *. specialize (Hm eq_refl).
  destruct (IH (S i) s1 Hin1 Ha Hg) as (s2 & l2 & E2 & Hin2 & Hend & Hfr2); [lia|intros Hf1; specialize (Hm1 Hf1); lia|].
  rewrite E1. cbn [mbind outcome_bind]. rewrite E2. cbn [mbind outcome_bind]. exists s2, (l1 ++ l2).
  split_and!; auto. rewrite length_app. lia.
Qed.

(** A client as it was started: nothing counted. *)
Record fresh (c : client) : Prop := {
  fr_un : unlimited c;
  fr_frames : frames c = 0;
  fr_bytes : bytes_transferred (IperfCommon.report (base c)) = 0;
}.

Definition turns_bound (c : client) : Z :=
  60 * (if decide (amount c < 0) then 2 ^ 32 else amount c / packet_size c + 1).

Lemma loop_start_in c addr port now : fresh c -> - 2 ^ 31 <= amount c < 2 ^ 31 ->
  in_loop (start_amount c) (loop_start c addr port now) /\ 0 <= start_amount c < 2 ^ 64.
Proof.
  intros [Hun Hf Hb] Ha. assert (Hs : 0 <= start_amount c < 2 ^ 64)
    by (unfold start_amount, UINT64_MAX; destruct (decide _); [lia|zlia]).
  split; [|done]. constructor; cbn [loop_start cl final remaining_amount failure_cnt base set_base set_report IperfCommon.report
    set_ends bytes_transferred]; try (rewrite Hb; lia); try done.
  - by destruct Hun.
  - change (frames (set_base c _)) with (frames c). rewrite Hf. lia.
Qed.

(** C12: the client's loop ends: without a bandwidth limit, for every amount of
    octets or time, whatever the clock reads and whichever attempts to send
    fail.  It takes at most sixty turns for each datagram an amount of octets
    needs, or for each of the 2^32 of a timed test.  It stops at the last
    datagram or after sixty failures in a row; the datagrams sent are those
    counted, and octets counted and remaining make the amount. *)
Theorem client_loop_ends c addr port now env fuel :
  fresh c -> - 2 ^ 31 <= amount c < 2 ^ 31 -> (forall k, good_turn (env k)) -> turns_bound c < Z.of_nat fuel ->
  exists s l, client_loop fuel env 0 (loop_start c addr port now) = Ok (s, l) /\
    (final s = true \/ failure_cnt s = IPERF_UDP_CLIENT_MAX_CONSEC_FAILURES) /\
    frames (cl s) = zlen l /\
    bytes_transferred (IperfCommon.report (base (cl s))) + remaining_amount s = start_amount c.
Proof.
  intros Hfresh Ha Hg Hfuel. destruct (loop_start_in c addr port now Hfresh Ha) as [Hin Hs].
  pose proof (left_pos _ _ Hin) as Hl.
  assert (Hleft : 60 * left (loop_start c addr port now) = turns_bound c).
  { unfold left, turns_bound. cbn [loop_start cl remaining_amount]. f_equal.
    change (amount (set_base c _)) with (amount c). change (packet_size (set_base c _)) with (packet_size c).
    unfold start_amount. destruct (decide (amount c < 0)).
    - change (frames (set_base c _)) with (frames c). rewrite (fr_frames _ Hfresh). lia.
    - replace (u64 (amount c)) with (amount c) by zlia. done. }
  destruct (client_loop_Ok fuel env 0 _ _ Hin Hs Hg) as (s & l & E & Hin' & Hend & Hfr).
  - lia.
  - intros _. cbn [failure_cnt loop_start] in *. lia.
  - exists s, l. split; [exact E|]. split; [exact Hend|]. split; [|by destruct Hin'].
    rewrite Hfr. change (frames (cl (loop_start c addr port now))) with (frames c). rewrite (fr_frames _ Hfresh). lia.
Qed.

(** ** When every datagram is sent *)

Record clear_turn (e : turn) : Prop := {
  ct_pool : good_turn e;
  ct_clock : now_end e <= UINT32_MAX;
  ct_sent : sent e = true;
}.

(** Two clients that differ in counters, addresses and what they await only. *)
Definition same_task (c c' : client) : Prop :=
  packet_size c' = packet_size c /\ amount c' = amount c /\ target_bw c' = target_bw c /\ version c' = version c /\
  multicast c' = multicast c /\ report_fn (base c') = report_fn (base c).

(** A datagram of the task: its number and its length, the header's words
    within 32 bits. *)
Definition datagram_is (v : iperf_version) (p : bytes) (x : Z * Z) : Prop :=
  number v p = x.1 /\ zlen p = Z.max (hdrs_len v) x.2 /\
  (v = IPERF_VERSION_2_0_13 -> is_u32 (id_lo (header_of (take 16 p))) /\ is_u32 (id_hi (header_of (take 16 p)))).

Lemma client_turn_sent s e :
  unlimited (cl s) -> 0 <= amount (cl s) -> final s = false -> clear_turn e ->
  0 <= frames (cl s) < 2 ^ 31 -> 0 < remaining_amount s < 2 ^ 64 ->
  let last_one := bool_decide (remaining_amount s <= packet_size (cl s)) in
  let tx := Z.min (remaining_amount s) (packet_size (cl s)) in
  exists s' p, client_turn s e = Ok (s', [p]) /\ same_task (cl s) (cl s') /\
    frames (cl s') = frames (cl s) + 1 /\ remaining_amount s' = remaining_amount s - tx /\ final s' = last_one /\
    failure_cnt s' = 0 /\ tx_amount s' = tx /\
    datagram_is (version (cl s)) p (if last_one then - frames (cl s) else frames (cl s), tx).
Proof.
  intros [Hbw Hps] Ham Hfin [Hpool Hclock Hsent] Hfr Hrem last_one tx. unfold client_turn. rewrite Hfin, Hsent. cbn [orb].
  assert (Elast : bool_decide (now_end e > end_time (cl s)) || last_one || bool_decide (frames (cl s) >= UINT32_MAX - 10) = last_one).
  { unfold end_time, UINT32_MAX in *. rewrite (decide_False (P := amount (cl s) < 0)), !bool_decide_false by lia.
    cbn [orb]. apply orb_false_r. }
  fold last_one. rewrite Elast. set (c := if last_one then _ else cl s).
  assert (Ec : same_task (cl s) c /\ frames c = frames (cl s)) by (subst c; by destruct last_one).
  destruct Ec as [(Eps & Eam & Ebw & Ev & Emc & Efn) Efr]. rewrite Ebw, Hbw, bool_decide_true by done. cbn [negb orb andb].
  rewrite Eps. replace (u32 (Z.min _ _)) with tx by (symmetry; apply u32_id; unfold is_u32; lia).
  destruct (send_packet_Ok (version c) (frames c) tx last_one (pool e) (now_hdr e)) as (p & Ep & Hlen & hi & Hh & Hhi); [exact Hpool|lia|].
  rewrite Ep. cbn [mbind outcome_bind]. eexists _, p. split; [done|]. cbn [cl remaining_amount final failure_cnt tx_amount].
  split_and!; try done.
  - unfold frames, count_sent in *. cbn [base set_base set_report set_tx tx_frames IperfCommon.report set_rate]. rewrite Efr.
    apply u32_id. unfold is_u32. lia.
  - zlia.
  - rewrite <- Ev. split; [|split; [exact Hlen|]].
    + rewrite <- Efr. by eapply send_packet_number; [rewrite Efr|exact Hh|done|].
    + intros E13. rewrite Hh. cbn [id_lo id_hi]. rewrite (Hhi E13). split; apply bswap32_range.
Qed.

(** [m] whole datagrams and a last one of [r] octets. *)
Lemma client_loop_sent m env fuel i s r :
  unlimited (cl s) -> 0 <= amount (cl s) -> final s = false -> failure_cnt s = 0 -> (forall k, clear_turn (env k)) ->
  0 <= frames (cl s) -> frames (cl s) + Z.of_nat m < 2 ^ 31 -> 0 < r <= packet_size (cl s) ->
  remaining_amount s = Z.of_nat m * packet_size (cl s) + r -> remaining_amount s < 2 ^ 64 -> (S (S m) <= fuel)%nat ->
  exists s' l p, client_loop fuel env i s = Ok (s', l ++ [p]) /\ same_task (cl s) (cl s') /\ tx_amount s' = r /\
    Forall2 (datagram_is (version (cl s))) l (map (fun k => (k, packet_size (cl s))) (seqZ (frames (cl s)) (Z.of_nat m))) /\
    datagram_is (version (cl s)) p (- (frames (cl s) + Z.of_nat m), r).
Proof.
  revert fuel i s. induction m as [|m IH]; intros fuel i s Hun Ham Hfin Hfc Henv Hfr Hfr2 Hr Hrem Hrem2 Hf;
    (destruct fuel as [|fuel]; [lia|]); (assert (Hpos : 0 < remaining_amount s) by nia); cbn [client_loop]; rewrite Hfin, Hfc, bool_decide_true by done; cbn [negb andb];
    destruct (client_turn_sent s (env i)) as (s1 & p & E & Hsame & Hfr1 & Hrem1 & Hfin1 & Hfc1 & Htx1 & Hp);
      try done; try lia; rewrite E; cbn [mbind outcome_bind].
  - rewrite bool_decide_true in Hfin1, Hp by lia. destruct fuel as [|fuel]; [lia|]. cbn [client_loop]. rewrite Hfin1.
    cbn [negb andb mbind outcome_bind app]. exists s1, [], p. rewrite Z.min_l in Htx1, Hp by lia.
    split; [done|]. split; [done|]. split; [lia|]. split; [constructor|]. replace (- (_ + _)) with (- frames (cl s)) by lia.
    by replace r with (remaining_amount s) by lia.
  - assert (Hbig : packet_size (cl s) < remaining_amount s) by nia.
    rewrite bool_decide_false in Hfin1, Hp by lia. rewrite Z.min_r in Hrem1, Hp by lia.
    destruct Hsame as (Eps & Eam & Ebw & Ev & Emc & Efn).
    destruct (IH fuel (S i) s1) as (s2 & l & q & E2 & (Eps2 & Eam2 & Ebw2 & Ev2 & Emc2 & Efn2) & Htx & Hl & Hq);
      rewrite ?Eps, ?Eam; try done; try lia; [destruct Hun; split; [by rewrite Ebw|by rewrite Eps]|].
    rewrite E2. cbn [mbind outcome_bind]. exists s2, (p :: l), q. split; [done|]. split; [by unfold same_task; intuition congruence|].
    split; [done|]. rewrite Ev, Hfr1 in *. rewrite Eps in Hl. split.
    + rewrite Nat2Z.inj_succ, seqZ_cons by lia. cbn [map]. constructor; [exact Hp|].
      replace (Z.succ (frames (cl s))) with (frames (cl s) + 1) by lia.
      by replace (Z.pred (Z.succ (Z.of_nat m))) with (Z.of_nat m) by lia.
    + by replace (frames (cl s) + Z.of_nat (S m)) with (frames (cl s) + 1 + Z.of_nat m) by lia.
Qed.

(** ** Client and server together *)

Lemma seqZ_sorted n m : StronglySorted Z.lt (seqZ n (Z.of_nat m)).
Proof.
  revert n. induction m as [|m IH]; intros n; [constructor|]. rewrite Nat2Z.inj_succ, seqZ_cons, Z.pred_succ by lia.
  constructor; [apply IH|]. apply Forall_seqZ. lia.
Qed.

Lemma top_seqZ m : top 0 (seqZ 0 (Z.of_nat m)) = Z.of_nat m.
Proof.
  induction m as [|m IH]; [done|]. rewrite seqZ_S, top_snoc, IH. rewrite decide_False by lia. lia.
Qed.

(** The client's datagrams as the server's arrivals. *)
Lemma numbers_sent v l ps n m : Forall2 (datagram_is v) (map (fun x : arrival => x.1.1) l) (map (fun k => (k, ps)) (seqZ n m)) ->
  numbers v l = seqZ n m.
Proof.
  intros H. generalize dependent (seqZ n m). clear n m. induction l as [|x l IH]; intros [|n ns] H; try by inversion H.
  cbn [map] in H. apply list.Forall2_cons in H as [[H1 _] H2]. cbn [numbers map]. f_equal; [exact H1|by apply IH].
Qed.

Lemma octets_sent v l ps ns : Forall2 (datagram_is v) (map (fun x : arrival => x.1.1) l) (map (fun k : Z => (k, ps)) ns) ->
  octets_of l = zlen ns * Z.max (hdrs_len v) ps.
Proof.
  revert ns. induction l as [|x l IH]; intros [|n ns] H; try by inversion H.
  cbn [map] in H. apply list.Forall2_cons in H as [(_ & H1 & _) H2]. unfold octets_of in *. cbn [fold_right length].
  rewrite H1, (IH ns H2). cbn [snd]. lia.
Qed.

Lemma data_sent v l ps n m : 0 <= n -> n + m < 2 ^ 31 -> v = IPERF_VERSION_2_0_13 ->
  Forall2 (datagram_is v) (map (fun x : arrival => x.1.1) l) (map (fun k => (k, ps)) (seqZ n m)) -> Forall (is_data v) l.
Proof.
  intros Hn Hm Hv H. assert (Hb : Forall (fun k => 0 <= k < 2 ^ 31 - 1) (seqZ n m)) by (apply Forall_seqZ; lia).
  generalize dependent (seqZ n m). clear n m Hn Hm. induction l as [|x l IH]; intros [|n ns] H Hb; try by inversion H.
  cbn [map] in H. apply list.Forall2_cons in H as [(H1 & H2 & _) H3]. apply list.Forall_cons in Hb as [Hb1 Hb2].
  constructor; [|by apply (IH ns)]. cbn [fst snd] in *. rewrite Hv in *. cbn [hdrs_len] in H2. split; [lia|]. by rewrite H1.
Qed.

Lemma octets_of_app l1 l2 : octets_of (l1 ++ l2) = octets_of l1 + octets_of l2.
Proof. unfold octets_of. induction l1 as [|x l1 IH]; cbn [app fold_right]; lia. Qed.

Lemma number_wire_id v p : number v p = wire_id (header_of (take 16 p)) v.
Proof. unfold number, packet_number, wire_id. destruct v; reflexivity. Qed.

(** The report in the reply to a last datagram, as the client takes it. *)
Lemma client_report_reply c srv (p : bytes) :
  16 <= zlen p -> version c = IPERF_VERSION_2_0_13 -> number IPERF_VERSION_2_0_13 p <= 0 ->
  is_u32 (id_lo (header_of (take 16 p))) -> is_u32 (id_hi (header_of (take 16 p))) -> report_wf (IperfCommon.report srv) ->
  let r := IperfCommon.report srv in
  let d := u32 (last_rx_time_ms srv - time_started_ms srv) in
  iperf_udp_client_report c (take 16 p ++ report_octets (iperf_populate_udp_server_report srv)) =
    (set_base c (set_report (base c)
       (set_rate (set_frames (IperfCommon.report (base c)) (rx_frames r) (out_of_sequence_frames r) (error_count r))
          (bytes_transferred r) d 0)), d).
Proof.
  intros Hp Hv Hn Hlo Hhi Hwf r d. unfold iperf_udp_client_report.
  assert (Hr : zlen (report_octets (iperf_populate_udp_server_report srv)) = 100) by (unfold report_octets; by rewrite words_octets_len).
  assert (Ht : length (take 16 p) = 16%nat) by (rewrite length_take; lia).
  rewrite (decide_False (P := zlen _ < 16)), (decide_False (P := zlen _ - 16 < 100)) by (rewrite length_app; lia).
  rewrite take_app_length', drop_app_length', (take_ge (report_octets _)) by lia. rewrite Hv, parse_populate by done.
  rewrite number_wire_id in Hn. by rewrite decide_True.
Qed.

(** The task's end when the report has come during the first wait. *)
Lemma client_end_heard c tx heard again now rep c' d :
  heard 0%nat = Some rep -> iperf_udp_client_report c rep = (c', d) ->
  exists c'', client_end c tx heard again now =
      Ok (c'', [], if report_fn (base c') then Some (IperfCommon.report (base c'')) else None) /\
    IperfCommon.report (base c'') = rate (set_type (IperfCommon.report (base c')) MMIPERF_UDP_DONE_CLIENT) d.
Proof.
  intros Hh Hr. unfold client_end.
  replace (wait_report _ 0 heard again c tx) with (Ok (Some rep, @nil bytes))
    by (destruct (if multicast c then _ else _); cbn [wait_report]; by rewrite Hh).
  cbn [mbind outcome_bind]. rewrite Hr. unfold iperf_finalize_report_and_invoke_callback.
  eexists (set_awaiting (set_base c' (set_report (base c') _)) _ None). split; reflexivity.
Qed.

Lemma rate_fields r d :
  bytes_transferred (rate r d) = bytes_transferred r /\ rx_frames (rate r d) = rx_frames r /\
  out_of_sequence_frames (rate r d) = out_of_sequence_frames r /\ error_count (rate r d) = error_count r /\
  duration_ms (rate r d) = if decide (s32 d <= 0) then 0 else d.
Proof. unfold rate. by destruct (decide _). Qed.

Lemma closed_wf {addr} ntoa (a : addr) port (s : @iperf_server_state_udp addr) started last len ids :
  closed ntoa a port s started last len ids -> report_wf (IperfCommon.report (IperfUdp.base s)).
Proof.
  intros [_ _ _ _ _ Hb _ Hr Ho He]. unfold report_wf. rewrite Hb, Hr, Ho, He. split; [zlia|].
  split_and!; apply u32_range.
Qed.

(** C10: client and server together: an unlimited test ([fresh]: no target
    bandwidth, a packet size of at most 1600) of version 2.0.13 over an amount of
    octets (below 2^31), of more than one datagram ([single_datagram_is_not_final]
    is the other case), every one sent and delivered in order and in time.  The
    client's loop ends with one datagram for each [packet_size] octets and one
    for the rest; the server, from any state in which the first opens a session,
    reports each of them received, none lost, none out of sequence, and as
    octets their lengths (at least the headers'); and the client that hears the
    server's answer reports the same numbers. *)
Theorem udp_test_end_to_end {addr} (addr_eq : addr -> addr -> bool) is_multicast ntoa a port (srv : @iperf_server_state_udp addr)
    c loc lport now env fuel m r :
  addr_eq a a = true ->
  fresh c -> version c = IPERF_VERSION_2_0_13 -> IperfUdp.version srv = IPERF_VERSION_2_0_13 -> is_multicast (args_addr srv) = false ->
  amount c = Z.of_nat m * packet_size c + r -> 0 < r <= packet_size c -> (0 < m)%nat -> amount c < 2 ^ 31 ->
  (forall k, clear_turn (env k)) -> (S (S m) <= fuel)%nat ->
  exists s l, client_loop fuel env 0 (loop_start c loc lport now) = Ok (s, l) /\
    forall (first : arrival) (rest : list arrival) (fin : arrival),
      map (fun x => x.1.1) (first :: rest ++ [fin]) = l ->
      opens addr_eq a port srv first.1.2 -> in_time (at_rx first.1.2) (rest ++ [fin]) -> fin.2 = true ->
      exists (srv' : iperf_server_state_udp) rep,
        let rs := IperfCommon.report (IperfUdp.base srv') in
        deliver addr_eq is_multicast ntoa a port srv (first :: rest ++ [fin]) =
          (srv', (if report_fn (IperfUdp.base srv) then [Report rs] else []) ++ [Sendto rep a port]) /\
        rx_frames rs = Z.of_nat m + 1 /\ out_of_sequence_frames rs = 0 /\ error_count rs = 0 /\
        bytes_transferred rs = Z.of_nat m * Z.max 40 (packet_size c) + Z.max 40 r /\
        forall heard again now_done, heard 0%nat = Some rep ->
          exists c', client_end (cl s) (tx_amount s) heard again now_done =
              Ok (c', [], if report_fn (base c) then Some (IperfCommon.report (base c')) else None) /\
            let rc := IperfCommon.report (base c') in
            rx_frames rc = rx_frames rs /\ out_of_sequence_frames rc = 0 /\ error_count rc = 0 /\
            bytes_transferred rc = bytes_transferred rs /\ duration_ms rc = duration_ms rs.
Proof.
  intros Ha Hfresh Hvc Hvs Hmc Ham Hr Hm Ham2 Henv Hfuel. set (s0 := loop_start c loc lport now).
  pose proof (un_size _ (fr_un _ Hfresh)) as Hps. assert (Hm2 : Z.of_nat m < 2 ^ 31 - 1) by nia.
  assert (Hrem : remaining_amount s0 = amount c)
    by (unfold s0, loop_start, start_amount; cbn [remaining_amount]; rewrite decide_False by lia; zlia).
  assert (Hfr0 : frames (cl s0) = 0) by exact (fr_frames _ Hfresh).
  assert (Hun0 : unlimited (cl s0)) by (split; [exact (un_bw _ (fr_un _ Hfresh))|exact Hps]).
  destruct (client_loop_sent m env fuel 0 s0 r Hun0) as (s & l & p & E & (_ & _ & _ & Ev & _ & Efn) & _ & Hl & Hp);
    [change (0 <= amount c); lia|reflexivity|reflexivity|exact Henv|lia|lia|exact Hr|by rewrite Hrem|lia|exact Hfuel|].
  rewrite Hfr0 in Hl, Hp. change (version (cl s0)) with (version c) in *. change (packet_size (cl s0)) with (packet_size c) in *.
  change (report_fn (base (cl s0))) with (report_fn (base c)) in Efn.
  exists s, (l ++ [p]). split; [exact E|]. intros first rest fin Hmap Hop Ht Hok. rewrite app_comm_cons, map_app in Hmap. cbn [map] in Hmap.
  apply app_inj_tail in Hmap as [<- <-]. rewrite Hvc in Hl, Hp. destruct Hp as (Hpn & Hpl & Hpw). cbn [fst snd hdrs_len] in Hpn, Hpl.
  change (_ :: map _ rest) with (map (fun x : arrival => x.1.1) (first :: rest)) in Hl.
  pose proof (data_sent _ _ (packet_size c) 0 (Z.of_nat m) (Z.le_refl 0) ltac:(lia) eq_refl Hl) as Hdata.
  destruct (deliver_all addr_eq is_multicast ntoa a port srv first rest fin Ha Hop) as (srv' & Ed & (_ & Hsm & _) & Hcl);
    [by rewrite Hvs|rewrite Hvs; split; [rewrite Hpl; lia|rewrite Hpn; lia]|exact Ht|].
  rewrite Hvs, (numbers_sent _ _ _ _ _ Hl), Hpn in Hcl.
  replace (seqZ 0 (Z.of_nat m) ++ [- - (0 + Z.of_nat m)]) with (seqZ 0 (Z.of_nat (S m))) in Hcl by (rewrite seqZ_S; do 2 f_equal; lia).
  destruct (closed_sorted _ _ _ _ _ _ _ _ Hcl (seqZ_sorted _ _)) as [Hoos Herr]; [apply Forall_seqZ; lia|].
  rewrite top_seqZ, length_seqZ in Herr. replace (u32 _) with 0 in Herr by zlia.
  pose proof (octets_sent _ _ _ _ Hl) as Ho. rewrite length_seqZ in Ho. cbn [hdrs_len] in Ho.
  assert (Hrx : rx_frames (IperfCommon.report (IperfUdp.base srv')) = Z.of_nat m + 1)
    by (rewrite (cl_rx _ _ _ _ _ _ _ _ Hcl), length_seqZ; zlia).
  assert (Hby : bytes_transferred (IperfCommon.report (IperfUdp.base srv')) = Z.of_nat m * Z.max 40 (packet_size c) + Z.max 40 r).
  { rewrite (cl_bytes _ _ _ _ _ _ _ _ Hcl), app_comm_cons, octets_of_app, Ho. cbn [octets_of fold_right]. rewrite Hpl.
    replace (Z.of_nat (Z.to_nat (Z.of_nat m))) with (Z.of_nat m) by lia.
    assert (Z.of_nat m * Z.max 40 (packet_size c) <= 2 ^ 31 * 1600) by nia. zlia. }
  exists srv', (take 16 fin.1.1 ++ report_octets (iperf_populate_udp_server_report (IperfUdp.base srv'))). cbv zeta.
  split; [|split; [exact Hrx|split; [exact Hoos|split; [exact Herr|split; [exact Hby|]]]]].
  { rewrite Ed. unfold reply, iperf_udp_server_handle_final_packet. by rewrite Hsm, Hmc, Hok. }
  intros heard again now_done Hheard. destruct (Hpw eq_refl) as [Hlo Hhi].
  pose proof (client_report_reply (cl s) (IperfUdp.base srv') fin.1.1) as Hrep. cbv zeta in Hrep.
  destruct (client_end_heard (cl s) (tx_amount s) heard again now_done _ _ _ Hheard
    (Hrep ltac:(lia) ltac:(by rewrite Ev) ltac:(lia) Hlo Hhi (closed_wf _ _ _ _ _ _ _ _ Hcl))) as (c' & Ec & Er).
  exists c'. change (report_fn (base (set_base _ _))) with (report_fn (base (cl s))) in Ec. rewrite Efn in Ec.
  split; [exact Ec|]. rewrite Er.
  match goal with |- context [rate ?x ?y] => destruct (rate_fields x y) as (-> & -> & -> & -> & ->) end.
  destruct (cl_times _ _ _ _ _ _ _ _ Hcl) as [-> ->]. rewrite (cl_duration _ _ _ _ _ _ _ _ Hcl).
  split_and!; [done|exact Hoos|exact Herr|done|]. rewrite s32_u32. destruct (decide _); zlia.
Qed.

(** ** Examples *)

Definition ex_args (amount size : Z) (v : iperf_version) : mmiperf_client_args :=
  {| arg_server_addr := lit "10.0.0.9"; arg_server_port := 0; arg_target_bw := 0; arg_packet_size := size;
     arg_amount := amount; arg_report_fn := true; arg_version := v |}.
Definition ex_client (amount size : Z) (v : iperf_version) (now : Z) : client :=
  match mmiperf_start_udp_client (ex_args amount size v) (Some true) false 0 now true true true with
  | Some (c, _, _) => c
  | None => {| base := ex_cli; server_addr := []; server_port := 0; target_bw := 1; packet_size := 0; amount := 0; version := v;
               multicast := true; awaiting_report := false; report := None; block_tx_amount := 0 |}
  end.

Definition ex_turn (now : Z) (ok : bool) : turn :=
  {| now_end := now; now_block := now; now_next := now; now_gate := now; now_hdr := now; pool := replicate 64 170; sent := ok |}.

(** Every third attempt is the one that succeeds. *)
Definition ex_env (k : nat) : turn := ex_turn (1000 + Z.of_nat k) (bool_decide (k mod 3 = 2)%nat).
Definition ex_env_ok (k : nat) : turn := ex_turn 1000 true.

Lemma client_loop_ends_witness :
  exists s l, client_loop 241 ex_env 0 (loop_start (ex_client 3000 1000 IPERF_VERSION_2_0_13 990) [] 5011 1000) = Ok (s, l) /\
    (final s = true \/ failure_cnt s = 60) /\ frames (cl s) = zlen l /\
    bytes_transferred (IperfCommon.report (base (cl s))) + remaining_amount s = 3000.
Proof.
  apply (client_loop_ends (ex_client 3000 1000 IPERF_VERSION_2_0_13 990) [] 5011 1000 ex_env 241).
  - constructor; [constructor; [reflexivity|vm_compute; split; congruence]|reflexivity|reflexivity].
  - vm_compute. split; congruence.
  - intros k. unfold good_turn. vm_compute. congruence.
  - reflexivity.
Defined.

Definition ex_loop : outcome (loop_state * list bytes) :=
  client_loop 4 ex_env_ok 0 (loop_start (ex_client 2030 1000 IPERF_VERSION_2_0_13 990) [] 5011 1000).
Definition ex_packets : list bytes := match ex_loop with Ok (_, l) => l | Fail _ => [] end.
Definition ex_arrival (k : nat) : arrival := (nth k ex_packets [], ex_clock (2000 + 10 * Z.of_nat k), true).

(** Two datagrams of 1000 octets and one of 30, which is sent as 40. *)
Lemma udp_test_end_to_end_witness :
  exists srv' rep,
    deliver Z.eqb (fun _ => false) ex_ntoa 9 1234 ex_state [ex_arrival 0; ex_arrival 1; ex_arrival 2] =
      (srv', [Report (IperfCommon.report (IperfUdp.base srv')); Sendto rep 9 1234]) /\
    rx_frames (IperfCommon.report (IperfUdp.base srv')) = 3 /\
    bytes_transferred (IperfCommon.report (IperfUdp.base srv')) = 2040.
Proof.
  destruct (udp_test_end_to_end Z.eqb (fun _ => false) ex_ntoa 9 1234 ex_state (ex_client 2030 1000 IPERF_VERSION_2_0_13 990)
    [] 5011 1000 ex_env_ok 4 2 30) as (s & l & E & H).
  - reflexivity.
  - constructor; [constructor; [reflexivity|vm_compute; split; congruence]|reflexivity|reflexivity].
  - reflexivity.
  - reflexivity.
  - reflexivity.
  - reflexivity.
  - vm_compute. split; congruence.
  - lia.
  - reflexivity.
  - intros k. split; [vm_compute; congruence|vm_compute; congruence|reflexivity].
  - lia.
  - assert (El : l = ex_packets) by (unfold ex_packets, ex_loop; by rewrite E).
    destruct (H (ex_arrival 0) [ex_arrival 1] (ex_arrival 2)) as (srv' & rep & Ed & Hrx & _ & _ & Hb & _).
    + rewrite El. vm_compute. reflexivity.
    + split; [reflexivity|left; reflexivity].
    + repeat split.
    + reflexivity.
    + exists srv', rep. split; [exact Ed|]. rewrite Hrx, Hb. split; reflexivity.
Defined.

(** ** What the client does not handle *)

(** A test of one datagram: its number is 0, the server does not take it for
    the last one and makes no report. *)
Lemma single_datagram_is_not_final :
  match client_loop 4 ex_env_ok 0 (loop_start (ex_client 500 1000 IPERF_VERSION_2_0_13 990) [] 5011 1000) with
  | Ok (s, [p]) => final s = true /\ number IPERF_VERSION_2_0_13 p = 0 /\
      snd (deliver Z.eqb (fun _ => false) ex_ntoa 9 1234 ex_state [(p, ex_clock 2000, true)]) = []
  | _ => False
  end.
Proof. vm_compute. auto. Qed.

(** A timed test of ten seconds started a second before the clock wraps around
    stops with its first datagram: the comparison with the end time is not
    modulo 2^32. *)
Lemma timed_test_stops_at_wrap :
  match client_loop 4 (fun _ => ex_turn (2 ^ 32 - 999) true) 0
          (loop_start (ex_client (- 1000) 1000 IPERF_VERSION_2_0_13 (2 ^ 32 - 1000)) [] 5011 (2 ^ 32 - 1000)) with
  | Ok (s, [p]) => final s = true
  | _ => False
  end.
Proof. vm_compute. auto. Qed.

(** A packet size above the payload table reads outside it. *)
Lemma large_packet_reads_outside :
  client_loop 4 ex_env_ok 0 (loop_start (ex_client 9000 3000 IPERF_VERSION_2_0_13 990) [] 5011 1000) = Fail OutOfBounds.
Proof. vm_compute. reflexivity. Qed.

(** For version 2.0.9 the settings follow twelve octets of header, but are
    cleared from the sixteenth: the four octets of their flags are what the
    buffer held, and four octets after the datagram's end are overwritten. *)
Lemma flags_uninitialised :
  match iperf_udp_client_send_packet IPERF_VERSION_2_0_9 0 36 false (replicate 64 170) 1000 with
  | Ok p => take 4 (drop 12 p) = [170; 170; 170; 170] /\ zlen p = 36
  | Fail _ => False
  end.
Proof. vm_compute. auto. Qed.
End IperfUdpClient.
