(* ===== verification/MmNetif.v ===== *)
(** The driver's network interface for lwIP:
    [framework/src/mmipal/lwip/mmnetif.c], and the transmit helpers
    [mmwlan_tx_tid] and [mmwlan_tx] of [framework/morselib/include/mmwlan.h].

    Packets are those of [MmPkt].  lwIP's pool of wrappers, its input queue and
    its callbacks, and the calls into the closed library, are the environment:
    what they answer are arguments, what they are given is recorded. *)

From S2P Require Import Prelude Chain MmBuf MmPkt.

Module MmNetif.
Import MmBuf(view, room_start, data, room_end, spec, OAppend).
Import MmPkt.

(** ** Data *)

Inductive mmwlan_vif := MMWLAN_VIF_UNSPECIFIED | MMWLAN_VIF_STA | MMWLAN_VIF_AP.

#[global] Instance vif_eq_dec : EqDecision mmwlan_vif.
Proof. solve_decision. Defined.

Inductive mmwlan_link_state := MMWLAN_LINK_DOWN | MMWLAN_LINK_UP.

Record mmwlan_vif_state := { ev_vif : mmwlan_vif; ev_link : mmwlan_link_state }.

Definition MMWLAN_MAC_ADDR_LEN : Z := 6.
Definition MMWLAN_TX_DEFAULT_QOS_TID : Z := 0.
Definition MMWLAN_MAX_QOS_TID : Z := 7.

Record mmwlan_tx_metadata := { tid : Z; md_vif : mmwlan_vif }.

(** [MMWLAN_TX_METADATA_INIT]; the receiver address is never set. *)
Definition MMWLAN_TX_METADATA_INIT : mmwlan_tx_metadata :=
  {| tid := MMWLAN_TX_DEFAULT_QOS_TID; md_vif := MMWLAN_VIF_UNSPECIFIED |}.

(** What the interface's functions return; lwIP's codes by name. *)
Inductive err_t := ERR_OK | ERR_MEM | ERR_BUF | ERR_IF.

#[global] Instance err_eq_dec : EqDecision err_t.
Proof. solve_decision. Defined.

Record netif_state := { vif : mmwlan_vif; tx_qos_tid : Z }.

(** The members of lwIP's [struct netif] and of its statistics that the file
    uses. *)
Record netif := {
  state : option netif_state;
  link_up : bool;
  hwaddr : bytes;
  mtu : Z;
  recv_count : Z;
  xmit_count : Z;
  memerr_count : Z;
  drop_count : Z;
}.

Definition set_state (n : netif) (s : option netif_state) (a : bytes) : netif :=
  {| state := s; link_up := link_up n; hwaddr := a; mtu := mtu n; recv_count := recv_count n;
     xmit_count := xmit_count n; memerr_count := memerr_count n; drop_count := drop_count n |}.
(** [LINK_STATS_INC] *)
Definition count_link (n : netif) (recv xmit memerr drop : Z) : netif :=
  {| state := state n; link_up := link_up n; hwaddr := hwaddr n; mtu := mtu n; recv_count := recv_count n + recv;
     xmit_count := xmit_count n + xmit; memerr_count := memerr_count n + memerr; drop_count := drop_count n + drop |}.

Definition get_netif_state (n : netif) : outcome netif_state :=
  match state n with Some s => Ok s | None => Fail AssertFailed end.

(** ** Transmission *)

Section Debug.
  (** [MMPKT_DEBUG] *)
  Context (debug : bool).

Fixpoint append_chain (m : mmpkt) (chain : list bytes) : outcome mmpkt :=
    match chain with
    | [] => Ok m
    | payload :: walk => m ← mmpkt_append_data debug m payload; append_chain m walk
    end.

(** What is handed to [mmwlan_tx_pkt]. *)
Definition sent : Type := mmpkt * mmwlan_tx_metadata.

(** [chain]: the payloads of the packet's buffers; [ready], [tx_ok]: whether
    [mmwlan_tx_wait_until_ready] and [mmwlan_tx_pkt] succeed; [alloc] is
    [mmwlan_alloc_mmpkt_for_tx]. *)
Definition mmnetif_tx (n : netif) (chain : list bytes) (ready : bool) (alloc : Z -> Z -> option mmpkt) (tx_ok : bool)
      : outcome (err_t * netif * list sent) :=
    s ← get_netif_state n;
    let metadata := {| tid := tx_qos_tid s; md_vif := vif s |} in
    if negb ready then Ok (ERR_BUF, count_link n 0 0 0 1, [])
    else
      match alloc (zlen (concat chain)) (tid metadata) with
      | None => Ok (ERR_MEM, count_link n 0 0 1 0, [])
      | Some pkt =>
          pkt ← mmpkt_open debug pkt;
          pkt ← append_chain pkt chain;
          pkt ← mmpkt_close debug pkt;
          if tx_ok then Ok (ERR_OK, count_link n 0 1 0 0, [(pkt, metadata)])
          else Ok (ERR_BUF, count_link n 0 0 0 1, [(pkt, metadata)])
      end.

(** The statuses [mmwlan_tx_tid] returns: those of the library's calls, or
    [None] for [MMWLAN_NO_MEM]. *)
Definition mmwlan_tx_tid {St : Type} (d : bytes) (t : Z) (ready : option St) (alloc : Z -> Z -> option mmpkt) (tx : St)
      : outcome (option St * list sent) :=
    match ready with
    | Some failed => Ok (Some failed, [])
    | None =>
        match alloc (zlen d) t with
        | None => Ok (None, [])
        | Some pkt =>
            pkt ← mmpkt_open debug pkt;
            pkt ← mmpkt_append_data debug pkt d;
            pkt ← mmpkt_close debug pkt;
            Ok (Some tx, [(pkt, {| tid := t; md_vif := md_vif MMWLAN_TX_METADATA_INIT |})])
        end
    end.

Definition mmwlan_tx {St : Type} (d : bytes) (ready : option St) (alloc : Z -> Z -> option mmpkt) (tx : St)
      : outcome (option St * list sent) :=
    mmwlan_tx_tid d MMWLAN_TX_DEFAULT_QOS_TID ready alloc tx.

(** ** Reception *)

(** A wrapper that lwIP holds: the packet, opened, with the address its owner
    knows it by, and the payload lwIP reads through it. *)
Record mmpkt_pbuf_wrapper := { pkt_id : loc; pkt : mmpkt; payload : bytes }.

(** [free_wrappers]: what is left of [RX_POOL]; [released]: the packets given
    back to the driver. *)
Record rx_world := {
    nif : netif;
    free_wrappers : nat;
    held : list mmpkt_pbuf_wrapper;
    released : list loc;
  }.

Definition release (w : rx_world) (i : loc) : rx_world :=
    {| nif := nif w; free_wrappers := free_wrappers w; held := held w; released := i :: released w |}.
Definition set_nif (w : rx_world) (n : netif) : rx_world :=
    {| nif := n; free_wrappers := free_wrappers w; held := held w; released := released w |}.

(** The buffer's custom free function. *)
Definition mmpkt_pbuf_wrapper_free (w : rx_world) (p : mmpkt_pbuf_wrapper) : outcome rx_world :=
    _ ← mmpkt_close debug (pkt p);
    let w := release w (pkt_id p) in
    Ok {| nif := nif w; free_wrappers := S (free_wrappers w); held := held w; released := released w |}.

(** [from]: the interface of the packet's metadata; [input_ok]: whether
    [tcpip_input] takes the buffer. *)
Definition mmnetif_rx (w : rx_world) (i : loc) (m : mmpkt) (from : mmwlan_vif) (input_ok : bool) : outcome rx_world :=
    s ← get_netif_state (nif w);
    if decide (from <> vif s) then Ok (release w i)
    else
      match free_wrappers w with
      | S rest =>
          m ← mmpkt_open debug m;
          len ← mmpkt_get_data_length debug m;
          start ← mmpkt_get_data_start debug m;
          d ← rdn (mem m) start len;
          let p := {| pkt_id := i; pkt := m; payload := d |} in
          let w := {| nif := nif w; free_wrappers := rest; held := held w; released := released w |} in
          if input_ok then
            Ok {| nif := count_link (nif w) 1 0 0 0; free_wrappers := rest; held := held w ++ [p]; released := released w |}
          else
            w ← mmpkt_pbuf_wrapper_free w p;
            Ok (set_nif w (count_link (nif w) 0 0 1 1))
      | O => Ok (release (set_nif w (count_link (nif w) 0 0 1 0)) i)
      end.

(** lwIP is done with the [k]-th buffer it holds. *)
Definition pbuf_free (w : rx_world) (k : nat) : outcome rx_world :=
    match held w !! k with
    | None => Ok w
    | Some p =>
        mmpkt_pbuf_wrapper_free {| nif := nif w; free_wrappers := free_wrappers w; held := delete k (held w); released := released w |} p
    end.
End Debug.

(** ** The link *)

(** lwIP's core lock and the callbacks queued for its thread. *)
Inductive callback := SetLinkDown | SetLinkUp.
Record core := { lif : netif; locked : bool; queue : list callback }.

(** [mac] is what [mmwlan_get_vif_mac_addr] writes; [sched_ok]: whether
    [tcpip_callback_with_block] succeeds.  [None]: the function waits for the
    core lock, which nobody gives back. *)
Definition mmnetif_vif_state (c : core) (ev : mmwlan_vif_state) (mac : mmwlan_vif -> bytes) (sched_ok : bool) : outcome (option core) :=
  s ← get_netif_state (lif c);
  if locked c then Ok None
  else
    match ev_link ev with
    | MMWLAN_LINK_DOWN =>
        if decide (vif s <> ev_vif ev) then Ok (Some {| lif := lif c; locked := true; queue := queue c |})
        else assert sched_ok ;; Ok (Some {| lif := lif c; locked := false; queue := queue c ++ [SetLinkDown] |})
    | MMWLAN_LINK_UP =>
        let n := if negb (link_up (lif c))
                 then set_state (lif c) (Some {| vif := ev_vif ev; tx_qos_tid := tx_qos_tid s |}) (mac (ev_vif ev))
                 else lif c in
        assert sched_ok ;; Ok (Some {| lif := n; locked := false; queue := queue c ++ [SetLinkUp] |})
    end.

Definition mmnetif_set_tx_qos_tid (n : netif) (t : Z) : outcome netif :=
  assert (bool_decide (t <= MMWLAN_MAX_QOS_TID)) ;;
  s ← get_netif_state n; Ok (set_state n (Some {| vif := vif s; tx_qos_tid := t |}) (hwaddr n)).

(** [initialised] is the static flag; [boot_ok], [mac], [rx_ok], [vif_ok]: the
    library's answers ([None]: the MAC address cannot be read); [mem_ok]: whether
    [mmosal_calloc] succeeds. *)
Definition mmnetif_init (initialised : bool) (n : netif) (boot_ok : bool) (mac : option bytes) (mem_ok rx_ok vif_ok : bool)
    : outcome (err_t * bool * netif) :=
  if initialised then Ok (ERR_IF, initialised, n)
  else
    assert boot_ok ;;
    match mac with
    | None => Fail AssertFailed
    | Some a =>
        assert mem_ok ;;
        let n := {| state := Some {| vif := MMWLAN_VIF_UNSPECIFIED; tx_qos_tid := MMWLAN_TX_DEFAULT_QOS_TID |};
                    link_up := link_up n; hwaddr := a; mtu := 1500; recv_count := recv_count n; xmit_count := xmit_count n;
                    memerr_count := memerr_count n; drop_count := drop_count n |} in
        assert rx_ok ;; assert vif_ok ;; Ok (ERR_OK, true, n)
    end.


(** ** Transmission: the packet holds the chain *)

(** A packet as [mmwlan_alloc_mmpkt_for_tx] documents it: closed, empty, with
    room for the payload. *)
Definition fresh_for (debug : bool) (len : Z) (m : mmpkt) : Prop :=
  wf m /\ magic_ok debug false m /\ data (abs m) = [] /\ len <= room_end (abs m).

Lemma open_Ok debug m : wf m -> magic_ok debug false m ->
  exists m', mmpkt_open debug m = Ok m' /\ abs m' = abs m /\ wf m' /\ magic_ok debug true m' /\ same_frame m m'.
Proof.
  intros Hwf Hm. destruct (magic_refines debug false m Hwf Hm) as [H _]. unfold matches in H. cbn [run spec_pkt] in H.
  rewrite andb_false_r in H. destruct (mmpkt_open debug m) as [m'|]; [|done].
  cbn [mbind outcome_bind] in H. exists m'. destruct H as (_ & ? & ? & ? & ?). done.
Qed.

Lemma close_Ok debug m : wf m -> magic_ok debug true m ->
  exists m', mmpkt_close debug m = Ok m' /\ abs m' = abs m /\ wf m' /\ magic_ok debug false m' /\ same_frame m m'.
Proof.
  intros Hwf Hm. destruct (magic_refines debug true m Hwf Hm) as [_ H]. unfold matches in H. cbn [run spec_pkt negb] in H.
  rewrite andb_false_r in H. destruct (mmpkt_close debug m) as [m'|]; [|done].
  cbn [mbind outcome_bind] in H. exists m'. destruct H as (_ & ? & ? & ? & ?). done.
Qed.

Lemma append_Ok debug m d : wf m -> magic_ok debug true m -> zlen d < 2 ^ 32 -> zlen d <= room_end (abs m) ->
  exists m', mmpkt_append_data debug m d = Ok m' /\ data (abs m') = data (abs m) ++ d /\
    room_end (abs m') = room_end (abs m) - zlen d /\ wf m' /\ magic_ok debug true m' /\ same_frame m m'.
Proof.
  intros Hwf Hm Hd Hr. pose proof (pkt_append_refines debug true m d Hwf Hm Hd) as H. unfold matches in H. cbn [run spec_pkt negb] in H.
  rewrite andb_false_r in H. cbn [spec mbind outcome_bind] in H. rewrite (decide_True (P := zlen d <= room_end (abs m))) in H by done.
  destruct (mmpkt_append_data debug m d) as [m'|]; [|done]. cbn [mbind outcome_bind] in H. exists m'.
  destruct H as (_ & -> & ? & ? & ?). done.
Qed.

Lemma append_chain_Ok debug chain m :
  wf m -> magic_ok debug true m -> zlen (concat chain) < 2 ^ 32 -> zlen (concat chain) <= room_end (abs m) ->
  exists m', append_chain debug m chain = Ok m' /\ data (abs m') = data (abs m) ++ concat chain /\
    wf m' /\ magic_ok debug true m' /\ same_frame m m'.
Proof.
  revert m. induction chain as [|d chain IH]; intros m Hwf Hm Hl Hr; cbn [append_chain concat] in *.
  { exists m. by rewrite app_nil_r. }
  rewrite length_app in Hl, Hr. destruct (append_Ok debug m d Hwf Hm) as (m1 & E1 & Ed & Er & Hwf1 & Hm1 & Hf1); [lia|lia|].
  destruct (IH m1 Hwf1 Hm1) as (m2 & E2 & Ed2 & Hwf2 & Hm2 & Hf2); [lia|lia|].
  exists m2. rewrite E1. cbn [mbind outcome_bind]. rewrite E2, Ed2, Ed, app_assoc. split_and!; try done.
  by apply (frame_trans _ m1).
Qed.

(** Open, fill, close. *)
Lemma fill_Ok debug chain m : fresh_for debug (zlen (concat chain)) m -> zlen (concat chain) < 2 ^ 32 ->
  exists m1 m2 m3, mmpkt_open debug m = Ok m1 /\ append_chain debug m1 chain = Ok m2 /\ mmpkt_close debug m2 = Ok m3 /\
    data (abs m3) = concat chain /\ wf m3 /\ magic_ok debug false m3 /\ same_frame m m3.
Proof.
  intros (Hwf & Hm & Hd & Hr) Hl. destruct (open_Ok debug m Hwf Hm) as (m1 & E1 & A1 & Hwf1 & Hm1 & Hf1).
  rewrite <- A1 in Hd, Hr. destruct (append_chain_Ok debug chain m1 Hwf1 Hm1 Hl Hr) as (m2 & E2 & Ed & Hwf2 & Hm2 & Hf2).
  destruct (close_Ok debug m2 Hwf2 Hm2) as (m3 & E3 & A3 & Hwf3 & Hm3 & Hf3). exists m1, m2, m3.
  rewrite A3, Ed, Hd. split_and!; try done. apply (frame_trans _ m1); [done|]. by apply (frame_trans _ m2).
Qed.

(** Transmission: a packet handed to [mmnetif_tx] as a chain of buffers is
    either sent, or counted once as dropped or out of memory.  What
    [mmwlan_tx_pkt] gets is a closed packet whose data are the octets of the whole
    chain in order, with the interface's TID and VIF, nothing outside its buffer
    changed; nothing is allocated while the transmit path is not ready.  With
    [MMPKT_DEBUG] none of its assertions fails. *)
Theorem mmnetif_tx_sends debug n s chain ready alloc tx_ok :
  state n = Some s -> zlen (concat chain) < 2 ^ 16 ->
  (forall len t m, alloc len t = Some m -> fresh_for debug len m) ->
  exists r n' l, mmnetif_tx debug n chain ready alloc tx_ok = Ok (r, n', l) /\
    xmit_count n' + memerr_count n' + drop_count n' = xmit_count n + memerr_count n + drop_count n + 1 /\
    (xmit_count n' = xmit_count n + 1 <-> r = ERR_OK) /\
    match l with
    | [] => ready = false /\ r = ERR_BUF \/ alloc (zlen (concat chain)) (tx_qos_tid s) = None /\ r = ERR_MEM
    | [(m, md)] =>
        ready = true /\ md = {| tid := tx_qos_tid s; md_vif := vif s |} /\ r = (if tx_ok then ERR_OK else ERR_BUF) /\
        data (abs m) = concat chain /\ wf m /\ magic_ok debug false m /\
        exists m0, alloc (zlen (concat chain)) (tx_qos_tid s) = Some m0 /\ same_frame m0 m
    | _ => False
    end.
Proof.
  intros Hs Hl Halloc. unfold mmnetif_tx, get_netif_state. rewrite Hs. cbn [mbind outcome_bind tid].
  destruct ready; cbn [negb]; [|eexists _, _, _; split; [done|]; cbn; split_and!; [lia|split; [lia|done]|by left]].
  destruct (alloc (zlen (concat chain)) (tx_qos_tid s)) as [m|] eqn:E;
    [|eexists _, _, _; split; [done|]; cbn; split_and!; [lia|split; [lia|done]|by right]].
  destruct (fill_Ok debug chain m) as (m1 & m2 & m3 & -> & E2 & E3 & Hd & Hwf & Hm & Hf); [by eapply Halloc|lia|].
  cbn [mbind outcome_bind]. rewrite E2. cbn [mbind outcome_bind]. rewrite E3. cbn [mbind outcome_bind].
  destruct tx_ok; eexists _, _, _; (split; [done|]); cbn; (split; [lia|]);
    (split; [split; [done || lia|done || lia]|]); split_and!; eauto.
Qed.

(** ** Reception: every packet is given back exactly once *)

Inductive rx_event :=
| RxPacket (i : loc) (m : mmpkt) (from : mmwlan_vif) (input_ok : bool)
| RxFree (k : nat).

Definition rx_step (debug : bool) (w : rx_world) (e : rx_event) : outcome rx_world :=
  match e with
  | RxPacket i m from ok => mmnetif_rx debug w i m from ok
  | RxFree k => pbuf_free debug w k
  end.

Fixpoint rx_run (debug : bool) (w : rx_world) (es : list rx_event) : outcome rx_world :=
  match es with
  | [] => Ok w
  | e :: es => w ← rx_step debug w e; rx_run debug w es
  end.

Definition ids_of (es : list rx_event) : list loc :=
  omap (fun e => match e with RxPacket i _ _ _ => Some i | RxFree _ => None end) es.

(** The driver hands over packets that are closed. *)
Definition rx_event_ok (debug : bool) (e : rx_event) : Prop :=
  match e with RxPacket _ m _ _ => wf m /\ magic_ok debug false m | RxFree _ => True end.

(** [seen]: the events so far. *)
Record rx_inv (debug : bool) (s : netif_state) (pool : nat) (seen : list rx_event) (w : rx_world) : Prop := {
  rx_state : state (nif w) = Some s;
  rx_pool : (free_wrappers w + length (held w) = pool)%nat;
  rx_once : Permutation (released w ++ map pkt_id (held w)) (ids_of seen);
  rx_held : Forall (fun p => magic_ok debug true (pkt p) /\ wf (pkt p) /\
    exists m ok, In (RxPacket (pkt_id p) m (vif s) ok) seen /\ payload p = data (abs m)) (held w);
}.

Lemma wrapper_free_Ok debug w p : wf (pkt p) -> magic_ok debug true (pkt p) ->
  mmpkt_pbuf_wrapper_free debug w p =
    Ok {| nif := nif w; free_wrappers := S (free_wrappers w); held := held w; released := pkt_id p :: released w |}.
Proof.
  intros Hwf Hm. destruct (close_Ok debug (pkt p) Hwf Hm) as (m' & E & _). unfold mmpkt_pbuf_wrapper_free.
  rewrite E. reflexivity.
Qed.

Lemma held_weaken debug s seen e l :
  Forall (fun p => magic_ok debug true (pkt p) /\ wf (pkt p) /\
    exists m ok, In (RxPacket (pkt_id p) m (vif s) ok) seen /\ payload p = data (abs m)) l ->
  Forall (fun p => magic_ok debug true (pkt p) /\ wf (pkt p) /\
    exists m ok, In (RxPacket (pkt_id p) m (vif s) ok) (seen ++ [e]) /\ payload p = data (abs m)) l.
Proof.
  intros H. eapply list.Forall_impl; [exact H|]. cbn. intros p (? & ? & m & ok & Hin & ?). split_and!; try done.
  exists m, ok. split; [|done]. apply in_or_app. by left.
Qed.

Lemma ids_snoc seen e : ids_of (seen ++ [e]) = ids_of seen ++ ids_of [e].
Proof. unfold ids_of. by rewrite omap_app. Qed.

(** The data of an opened packet, read through the accessors. *)
Lemma open_data debug m : wf m -> magic_ok debug true m ->
  mmpkt_get_data_length debug m = Ok (data_len m) /\ mmpkt_get_data_start debug m = Ok (buf m + start_offset m) /\
  rdn (mem m) (buf m + start_offset m) (data_len m) = Ok (data (abs m)).
Proof.
  intros Hwf Hm. unfold mmpkt_get_data_length, mmpkt_get_data_start.
  rewrite (check_now debug true m Hm) by apply andb_false_r. pose proof Hwf as [].
  split; [done|]. split; [done|]. rewrite rdn_Ok by lia. done.
Qed.

Lemma mmnetif_rx_inv debug s pool seen w i m from ok :
  rx_inv debug s pool seen w -> wf m -> magic_ok debug false m ->
  exists w', mmnetif_rx debug w i m from ok = Ok w' /\ rx_inv debug s pool (seen ++ [RxPacket i m from ok]) w'.
Proof.
  intros [Hs Hp Ho Hh] Hwf Hm. unfold mmnetif_rx, get_netif_state. rewrite Hs. cbn [mbind outcome_bind].
  destruct (decide (from <> vif s)) as [|Hf].
  { eexists. split; [done|]. constructor; cbn [release nif free_wrappers held released]; [done|done| |by apply held_weaken].
    rewrite ids_snoc. cbn [app]. rewrite Ho. apply Permutation_cons_append. }
  apply dec_stable in Hf. subst from. destruct (free_wrappers w) as [|rest] eqn:Efree.
  { eexists. split; [done|]. constructor; cbn [release set_nif count_link state nif free_wrappers held released];
      [done|by rewrite Efree| |by apply held_weaken].
    rewrite ids_snoc. cbn [app]. rewrite Ho. apply Permutation_cons_append. }
  destruct (open_Ok debug m Hwf Hm) as (m1 & -> & Ha & Hwf1 & Hm1 & _). cbn [mbind outcome_bind].
  destruct (open_data debug m1 Hwf1 Hm1) as (-> & -> & E). cbn [mbind outcome_bind]. rewrite E. cbn [mbind outcome_bind].
  destruct ok.
  - eexists. split; [done|]. constructor; cbn [count_link state nif free_wrappers held released].
    + done.
    + rewrite length_app. cbn [length]. lia.
    + rewrite map_app, app_assoc, ids_snoc. by apply Permutation_app.
    + apply list.Forall_app_2; [by apply held_weaken|]. apply list.Forall_singleton. cbn [pkt pkt_id payload].
      split_and!; [done|done|]. exists m, true. rewrite Ha. split; [|done]. apply in_or_app. right. by left.
  - rewrite wrapper_free_Ok by done. cbn [mbind outcome_bind]. eexists. split; [done|].
    constructor; cbn [set_nif count_link state nif free_wrappers held released pkt_id]; [done|lia| |by apply held_weaken].
    rewrite ids_snoc. cbn [app]. rewrite Ho. apply Permutation_cons_append.
Qed.

Lemma pbuf_free_inv debug s pool seen w k :
  rx_inv debug s pool seen w ->
  exists w', pbuf_free debug w k = Ok w' /\ rx_inv debug s pool (seen ++ [RxFree k]) w'.
Proof.
  intros [Hs Hp Ho Hh]. unfold pbuf_free. destruct (held w !! k) as [p|] eqn:E.
  - pose proof (list.Forall_lookup_1 _ _ _ _ Hh E) as (Hm & Hwf & _). rewrite wrapper_free_Ok by done.
    eexists. split; [done|]. pose proof (delete_Permutation _ _ _ E) as Hperm.
    constructor; cbn [nif free_wrappers held released].
    + done.
    + apply Permutation_length in Hperm. cbn [length] in Hperm. lia.
    + rewrite ids_snoc. cbn [ids_of omap list_omap]. rewrite app_nil_r, <- Ho, (Permutation_map pkt_id Hperm).
      cbn [map app]. apply Permutation_middle.
    + apply held_weaken. rewrite Hperm in Hh. by apply list.Forall_cons in Hh as [_ Hh].
  - eexists. split; [done|]. constructor; [done|done| |by apply held_weaken].
    rewrite ids_snoc. cbn [ids_of omap list_omap]. by rewrite app_nil_r.
Qed.

(** C35: reception: through any sequence of packets from the driver and buffers
    freed by lwIP, nothing fails and every packet is in exactly one place: given
    back to the driver once, or in a buffer lwIP holds; so none is lost and none
    freed twice, and when lwIP holds none all are back and the pool is full
    again.  What lwIP holds came over the interface's own VIF and is the packet's
    data. *)
Theorem rx_conserves debug s w0 es :
  state (nif w0) = Some s -> held w0 = [] -> released w0 = [] -> Forall (rx_event_ok debug) es ->
  exists w, rx_run debug w0 es = Ok w /\
    Permutation (released w ++ map pkt_id (held w)) (ids_of es) /\
    (free_wrappers w + length (held w) = free_wrappers w0)%nat /\
    Forall (fun p => exists m ok, In (RxPacket (pkt_id p) m (vif s) ok) es /\ payload p = data (abs m)) (held w).
Proof.
  intros Hs Hh Hr Hes.
  assert (H : forall es1 es2 w, rx_inv debug s (free_wrappers w0) es1 w -> Forall (rx_event_ok debug) es2 ->
    exists w', rx_run debug w es2 = Ok w' /\ rx_inv debug s (free_wrappers w0) (es1 ++ es2) w').
  { intros es1 es2. revert es1. induction es2 as [|e es2 IH]; intros es1 w Hi He; cbn [rx_run].
    { exists w. by rewrite app_nil_r. }
    apply list.Forall_cons in He as [He1 He2].
    assert (Hstep : exists w', rx_step debug w e = Ok w' /\ rx_inv debug s (free_wrappers w0) (es1 ++ [e]) w').
    { destruct e as [i m from ok|k]; [by apply mmnetif_rx_inv; [|apply He1..]|by apply pbuf_free_inv]. }
    destruct Hstep as (w1 & -> & Hi1). cbn [mbind outcome_bind]. destruct (IH (es1 ++ [e]) w1 Hi1 He2) as (w2 & E & Hi2).
    exists w2. split; [exact E|]. by rewrite <- app_assoc in Hi2. }
  destruct (H [] es w0) as (w & E & [_ Hp Ho Hheld]); [|done|].
  - constructor; [done|rewrite Hh; cbn; lia|by rewrite Hh, Hr|rewrite Hh; constructor].
  - exists w. split; [exact E|]. split; [exact Ho|]. split; [exact Hp|].
    eapply list.Forall_impl; [exact Hheld|]. cbn. tauto.
Qed.

(** ** Examples *)

Definition ex_netif : netif :=
  {| state := Some {| vif := MMWLAN_VIF_STA; tx_qos_tid := 3 |}; link_up := true; hwaddr := [2; 0; 0; 0; 0; 1]; mtu := 1500;
     recv_count := 0; xmit_count := 0; memerr_count := 0; drop_count := 0 |}.

Definition ex_alloc (len t : Z) : option mmpkt :=
  if decide (0 <= len <= 100) then Some (mmpkt_init true (replicate 256 7) 32 128 20 None) else None.

Lemma mmnetif_tx_sends_witness :
  exists r n' l, mmnetif_tx true ex_netif [[1; 2]; []; [3]] true ex_alloc true = Ok (r, n', l) /\ xmit_count n' = 1.
Proof.
  destruct (mmnetif_tx_sends true ex_netif {| vif := MMWLAN_VIF_STA; tx_qos_tid := 3 |} [[1; 2]; []; [3]] true ex_alloc true)
    as (r & n' & l & E & _ & Hx & Hl).
  - reflexivity.
  - reflexivity.
  - intros len t m. unfold ex_alloc. destruct (decide _); [|discriminate]. intros [= <-].
    split; [constructor; vm_compute; congruence|]. split; [intros _; reflexivity|]. split; [reflexivity|].
    change (room_end _) with 108. lia.
  - exists r, n', l. split; [exact E|]. apply Hx. destruct l as [|[m md] [|]]; [|apply Hl|destruct Hl].
    destruct Hl as [[? _]|[? _]]; discriminate.
Defined.

Definition ex_world : rx_world := {| nif := ex_netif; free_wrappers := 1; held := []; released := [] |}.
Definition ex_rx (i : positive) (from : mmwlan_vif) (ok : bool) : rx_event :=
  RxPacket i (set_window (mmpkt_init true (replicate 256 7) 32 128 20 None) 20 60) from ok.

(** One held, one from another VIF, one without a wrapper, one refused. *)
Lemma rx_conserves_witness :
  exists w, rx_run true ex_world [ex_rx 1 MMWLAN_VIF_STA true; ex_rx 2 MMWLAN_VIF_AP true; ex_rx 3 MMWLAN_VIF_STA true;
                                  RxFree 0; ex_rx 4 MMWLAN_VIF_STA false] = Ok w /\
    Permutation (released w ++ map pkt_id (held w)) [1; 2; 3; 4]%positive /\ (free_wrappers w + length (held w) = 1)%nat.
Proof.
  destruct (rx_conserves true {| vif := MMWLAN_VIF_STA; tx_qos_tid := 3 |} ex_world
    [ex_rx 1 MMWLAN_VIF_STA true; ex_rx 2 MMWLAN_VIF_AP true; ex_rx 3 MMWLAN_VIF_STA true; RxFree 0; ex_rx 4 MMWLAN_VIF_STA false])
    as (w & E & Hp & Hf & _).
  - reflexivity.
  - reflexivity.
  - reflexivity.
  - repeat (apply Forall_cons_2; [first [exact I|split; [constructor; vm_compute; congruence|intros _; reflexivity]]|]). constructor.
  - exists w. split; [exact E|]. split; [exact Hp|exact Hf].
Defined.

(** ** The core lock *)

(** A link-down of the other VIF is ignored with the core lock held: whatever
    comes after it waits for ever. *)
Lemma ignored_link_down_keeps_lock c s mac ok from :
  state (lif c) = Some s -> locked c = false -> from <> vif s ->
  exists c', mmnetif_vif_state c {| ev_vif := from; ev_link := MMWLAN_LINK_DOWN |} mac ok = Ok (Some c') /\ locked c' = true /\
    forall ev mac' ok', mmnetif_vif_state c' ev mac' ok' = Ok None.
Proof.
  intros Hs Hl Hf. unfold mmnetif_vif_state, get_netif_state. rewrite Hs, Hl. cbn [mbind outcome_bind ev_link ev_vif].
  rewrite decide_True by congruence. eexists. split; [done|]. split; [done|]. intros. cbn [lif locked]. by rewrite Hs.
Qed.

(** After start-up the interface is on no VIF, and packets are dropped until a
    link comes up on one, which it then follows. *)
Lemma vif_follows_first_link n b a c :
  mmnetif_init false n true (Some a) true true true = Ok (ERR_OK, true, b) -> link_up b = false -> lif c = b -> locked c = false ->
  forall from mac, from <> MMWLAN_VIF_UNSPECIFIED ->
  (forall debug w i m ok, nif w = b -> mmnetif_rx debug w i m from ok = Ok (release w i)) /\
  exists c', mmnetif_vif_state c {| ev_vif := from; ev_link := MMWLAN_LINK_UP |} mac true = Ok (Some c') /\
    state (lif c') = Some {| vif := from; tx_qos_tid := MMWLAN_TX_DEFAULT_QOS_TID |} /\ hwaddr (lif c') = mac from /\
    queue c' = queue c ++ [SetLinkUp].
Proof.
  intros Hi Hup Hc Hl from mac Hfrom. cbn in Hi. injection Hi as <-. cbn in Hup. split.
  - intros debug w i m ok Hw. unfold mmnetif_rx. rewrite Hw. cbn. by destruct from.
  - unfold mmnetif_vif_state. rewrite Hc, Hl. cbn. rewrite Hup. cbn. eexists. split; [done|]. done.
Qed.
End MmNetif.
