(* ===== verification/MmIpal.v ===== *)
(** The IP stack abstraction over lwIP:
    [framework/src/mmipal/lwip/mmipal_lwip.c], in the build with IPv4 and IPv6.

    lwIP's address type, its text conversions and its decisions are the class
    [Lwip], what the code relies on of them the class [LwipLaws].  A function is
    a computation on the module's static data, lwIP's interface and the list of
    calls made to the environment. *)

From S2P Require Import Prelude CStr LoadConfig AppCommon MmNetif.

Module MmIpal.
Import LoadConfig(mmipal_addr_mode, MMIPAL_DISABLED, MMIPAL_STATIC, MMIPAL_DHCP, MMIPAL_AUTOIP, MMIPAL_DHCP_OFFLOAD,
  mmipal_ip6_addr_mode, MMIPAL_IP6_DISABLED, MMIPAL_IP6_STATIC, MMIPAL_IP6_AUTOCONFIG, MMIPAL_IP6_DHCP6_STATELESS,
  MMIPAL_IPADDR_STR_MAXLEN).
Import AppCommon(mmipal_link_state, MMIPAL_LINK_DOWN, MMIPAL_LINK_UP).

(** ** lwIP *)

(** [ip4] is the address of type IPv4 with the given 32 bits, [ip_2_ip4] the 32
    bits an address has as one of type IPv4; [ipaddr_aton] is given the array
    that holds the text; [ipaddr_ntoa_r] the size of the array the text must fit
    with its terminator; [notifies old new]: whether [netif_set_addr] calls the
    status callback for this change of the interface's address. *)
Class Lwip := {
  ip_addr_t : Type;
  ip4 : Z -> ip_addr_t;
  ip_2_ip4 : ip_addr_t -> Z;
  ip6_any : ip_addr_t;
  ip_2_ip6 : ip_addr_t -> ip_addr_t;
  IP_IS_V6 : ip_addr_t -> bool;
  ip_addr_isany : ip_addr_t -> bool;
  ipaddr_aton : bytes -> option ip_addr_t;
  ipaddr_ntoa_r : ip_addr_t -> Z -> option bytes;
  notifies : ip_addr_t -> ip_addr_t -> bool;
  LWIP_IPV6_NUM_ADDRESSES : nat;
}.

(** The IPv4 address of zeros, which is also [ip_addr_any]. *)
Definition ip_addr_any `{Lwip} : ip_addr_t := ip4 0.

Class LwipLaws `{Lwip} := {
  ip_2_ip4_ip4 z : is_u32 z -> ip_2_ip4 (ip4 z) = z;
  isany_ip4 z : is_u32 z -> ip_addr_isany (ip4 z) = bool_decide (z = 0);
  v6_ip4 z : IP_IS_V6 (ip4 z) = false;
  ip_2_ip4_range a : is_u32 (ip_2_ip4 a);
  ntoa_fits a : exists t, ipaddr_ntoa_r a MMIPAL_IPADDR_STR_MAXLEN = Some t /\ zlen t < MMIPAL_IPADDR_STR_MAXLEN;
  aton_ntoa a t rest : ipaddr_ntoa_r a MMIPAL_IPADDR_STR_MAXLEN = Some t -> ipaddr_aton (t ++ 0 :: rest) = Some a;
  aton_empty rest : ipaddr_aton (0 :: rest) = None;
  set_addr_notifies a b : ip_addr_isany a <> ip_addr_isany b -> notifies a b = true;
}.

(** ** Data *)

Inductive mmipal_status := MMIPAL_SUCCESS | MMIPAL_INVALID_ARGUMENT | MMIPAL_NO_LINK | MMIPAL_NO_MEM | MMIPAL_NOT_SUPPORTED.

#[global] Instance status_eq_dec : EqDecision mmipal_status.
Proof. solve_decision. Defined.
#[global] Instance link_state_eq_dec : EqDecision mmipal_link_state.
Proof. solve_decision. Defined.
#[global] Instance addr_mode_eq_dec : EqDecision mmipal_addr_mode.
Proof. solve_decision. Defined.
#[global] Instance ip6_mode_eq_dec : EqDecision mmipal_ip6_addr_mode.
Proof. solve_decision. Defined.

(** lwIP's error codes, by name. *)
Inductive err_t := ERR_OK | ERR_ARG | ERR_RTE | ERR_MEM | ERR_OTHER.
#[global] Instance ipal_err_eq_dec : EqDecision err_t.
Proof. solve_decision. Defined.

Inductive ip6_addr_state := IP6_ADDR_INVALID | IP6_ADDR_TENTATIVE | IP6_ADDR_VALID.

(** The texts are arrays of [MMIPAL_IPADDR_STR_MAXLEN] octets. *)
Record mmipal_ip_config := { cfg_mode : mmipal_addr_mode; cfg_ip : bytes; cfg_netmask : bytes; cfg_gateway : bytes }.
Record mmipal_ip6_config := { cfg_ip6_mode : mmipal_ip6_addr_mode; cfg_ip6_addr : list bytes }.
Record mmipal_arp_config := { arp_ip : bytes; arp_mac : bytes }.
Record mmipal_link_status := { st_link : mmipal_link_state; st_ip : bytes; st_netmask : bytes; st_gateway : bytes }.

(** [struct mmipal_init_args]: the loader's part and the two offload requests,
    which it leaves as they are. *)
Record mmipal_init_args := {
  loaded : LoadConfig.mmipal_init_args;
  arg_arp_response : bool;
  arg_arp_refresh_s : Z;
}.

(** [struct mmwlan_dhcp_lease_info] *)
Record lease_info := { ip4_addr : Z; mask4_addr : Z; gw4_addr : Z; dns4_addr : Z }.

Section Ipal.
Context `{Lwip}.

(** lwIP's interface: the driver's part, the addresses, and whether the two
    callbacks have been registered. *)
Record netif := {
  drv : MmNetif.netif;
  ip_addr : ip_addr_t;
  netmask : ip_addr_t;
  gw : ip_addr_t;
  ip6_addrs : list (ip6_addr_state * ip_addr_t);
  callbacks : bool;
}.

(** What the environment is asked, and when the interface changes: [NetifAddrs] and
    [NetifLink] record what lwIP's [netif_set_addr] and [netif_set_link_up] or
    [netif_set_link_down] put into it, whoever called them.  Functions of the
    application are known by a number. *)
Inductive action :=
| LockCore | UnlockCore
| NetifSetDefault | NetifSetUp
| NetifAddrs (a m g : ip_addr_t)
| NetifLink (up : bool)
| EnableDhcpOffload
| ArpResponseOffload (addr : Z)
| ArpRefreshOffload (interval_s addr : Z)
| Notify (fn : positive) (st : mmipal_link_status)
| NotifyExt (fn : positive) (st : mmipal_link_status) (arg : Z)
| DhcpStart | DhcpStop
| Dhcp6Disable | Dhcp6EnableStateless
| Ip6Autoconfig (on : bool) | Ip6CreateLinkLocal
| Ip6LifeStatic (index : nat)
| ArpAdd (addr : Z) (mac : bytes) | ArpRemove (addr : Z)
| DnsSetServer (index : Z) (addr : ip_addr_t).

Record mmipal_data := {
  lwip_mmnetif : netif;
  ip_link_state : mmipal_link_state;
  offload_arp_response : bool;
  offload_arp_refresh_s : Z;
  dhcp_offload_init_complete : bool;
  link_status_callback : option positive;
  ext_link_status_callback : option positive;
  ext_link_status_callback_arg : Z;
  ip4_mode : mmipal_addr_mode;
  ip6_mode : mmipal_ip6_addr_mode;
}.

Definition set_netif (n : netif) (d : mmipal_data) : mmipal_data :=
  {| lwip_mmnetif := n; ip_link_state := ip_link_state d; offload_arp_response := offload_arp_response d;
     offload_arp_refresh_s := offload_arp_refresh_s d; dhcp_offload_init_complete := dhcp_offload_init_complete d;
     link_status_callback := link_status_callback d; ext_link_status_callback := ext_link_status_callback d;
     ext_link_status_callback_arg := ext_link_status_callback_arg d; ip4_mode := ip4_mode d; ip6_mode := ip6_mode d |}.
Definition set_link_state (l : mmipal_link_state) (d : mmipal_data) : mmipal_data :=
  {| lwip_mmnetif := lwip_mmnetif d; ip_link_state := l; offload_arp_response := offload_arp_response d;
     offload_arp_refresh_s := offload_arp_refresh_s d; dhcp_offload_init_complete := dhcp_offload_init_complete d;
     link_status_callback := link_status_callback d; ext_link_status_callback := ext_link_status_callback d;
     ext_link_status_callback_arg := ext_link_status_callback_arg d; ip4_mode := ip4_mode d; ip6_mode := ip6_mode d |}.
Definition set_offload_complete (b : bool) (d : mmipal_data) : mmipal_data :=
  {| lwip_mmnetif := lwip_mmnetif d; ip_link_state := ip_link_state d; offload_arp_response := offload_arp_response d;
     offload_arp_refresh_s := offload_arp_refresh_s d; dhcp_offload_init_complete := b;
     link_status_callback := link_status_callback d; ext_link_status_callback := ext_link_status_callback d;
     ext_link_status_callback_arg := ext_link_status_callback_arg d; ip4_mode := ip4_mode d; ip6_mode := ip6_mode d |}.
Definition set_modes (m4 : mmipal_addr_mode) (m6 : mmipal_ip6_addr_mode) (d : mmipal_data) : mmipal_data :=
  {| lwip_mmnetif := lwip_mmnetif d; ip_link_state := ip_link_state d; offload_arp_response := offload_arp_response d;
     offload_arp_refresh_s := offload_arp_refresh_s d; dhcp_offload_init_complete := dhcp_offload_init_complete d;
     link_status_callback := link_status_callback d; ext_link_status_callback := ext_link_status_callback d;
     ext_link_status_callback_arg := ext_link_status_callback_arg d; ip4_mode := m4; ip6_mode := m6 |}.
Definition set_callbacks (l x : option positive) (arg : Z) (resp : bool) (refresh : Z) (d : mmipal_data) : mmipal_data :=
  {| lwip_mmnetif := lwip_mmnetif d; ip_link_state := ip_link_state d; offload_arp_response := resp;
     offload_arp_refresh_s := refresh; dhcp_offload_init_complete := dhcp_offload_init_complete d;
     link_status_callback := l; ext_link_status_callback := x;
     ext_link_status_callback_arg := arg; ip4_mode := ip4_mode d; ip6_mode := ip6_mode d |}.

Definition with_addrs (a m g : ip_addr_t) (n : netif) : netif :=
  {| drv := drv n; ip_addr := a; netmask := m; gw := g; ip6_addrs := ip6_addrs n; callbacks := callbacks n |}.
Definition with_drv (x : MmNetif.netif) (n : netif) : netif :=
  {| drv := x; ip_addr := ip_addr n; netmask := netmask n; gw := gw n; ip6_addrs := ip6_addrs n; callbacks := callbacks n |}.
Definition with_ip6 (l : list (ip6_addr_state * ip_addr_t)) (n : netif) : netif :=
  {| drv := drv n; ip_addr := ip_addr n; netmask := netmask n; gw := gw n; ip6_addrs := l; callbacks := callbacks n |}.
Definition with_callbacks (n : netif) : netif :=
  {| drv := drv n; ip_addr := ip_addr n; netmask := netmask n; gw := gw n; ip6_addrs := ip6_addrs n; callbacks := true |}.

(** ** Computations *)

(** [tcpip_init_done] is the module's other static variable. *)
Record world := { dat : mmipal_data; trace : list action; tcpip_init_done : bool }.

Definition M (A : Type) : Type := world -> outcome (A * world).

#[global] Instance M_ret : MRet M := fun A a w => Ok (a, w).
#[global] Instance M_bind : MBind M := fun A B f m w => '(a, w) ← m w; f a w.

Definition get_data : M mmipal_data := fun w => Ok (dat w, w).
Definition modify (f : mmipal_data -> mmipal_data) : M unit := fun w =>
  Ok (tt, {| dat := f (dat w); trace := trace w; tcpip_init_done := tcpip_init_done w |}).
Definition modify_netif (f : netif -> netif) : M unit := modify (fun d => set_netif (f (lwip_mmnetif d)) d).
Definition emit (a : action) : M unit := fun w =>
  Ok (tt, {| dat := dat w; trace := trace w ++ [a]; tcpip_init_done := tcpip_init_done w |}).
Definition lift {A} (m : outcome A) : M A := fun w => a ← m; Ok (a, w).
Definition when (b : bool) (m : M unit) : M unit := if b then m else mret tt.

Lemma bind_run {A B} (m : M A) (f : A -> M B) w : mbind f m w = ('(a, w) ← m w; f a w).
Proof. done. Qed.
Lemma bind_get {B} (f : mmipal_data -> M B) w : mbind f get_data w = f (dat w) w.
Proof. done. Qed.
Lemma bind_modify {B} g (f : unit -> M B) w :
  mbind f (modify g) w = f tt {| dat := g (dat w); trace := trace w; tcpip_init_done := tcpip_init_done w |}.
Proof. done. Qed.
Lemma bind_emit {B} a (f : unit -> M B) w :
  mbind f (emit a) w = f tt {| dat := dat w; trace := trace w ++ [a]; tcpip_init_done := tcpip_init_done w |}.
Proof. done. Qed.

(** A text written at the start of an array. *)
Definition put_text (a : ip_addr_t) (dst : bytes) : outcome bytes :=
  match ipaddr_ntoa_r a (zlen dst) with
  | Some t => wrn dst 0 (t ++ [0])
  | None => Fail AssertFailed
  end.

(** ** Link status *)

Definition mmipal_err_to_status (result : err_t) : mmipal_status :=
  match result with
  | ERR_OK => MMIPAL_SUCCESS
  | ERR_ARG => MMIPAL_INVALID_ARGUMENT
  | ERR_RTE => MMIPAL_NO_LINK
  | ERR_MEM => MMIPAL_NO_MEM
  | ERR_OTHER => MMIPAL_NOT_SUPPORTED
  end.

Definition mmipal_link_status_check (n : netif) : bool :=
  negb (ip_addr_isany (ip_addr n)) && MmNetif.link_up (drv n).

Definition zeros : bytes := replicate (Z.to_nat MMIPAL_IPADDR_STR_MAXLEN) 0.

(** The status given to the application. *)
Definition make_status (d : mmipal_data) : outcome mmipal_link_status :=
  let n := lwip_mmnetif d in
  a ← put_text (ip_addr n) zeros;
  m ← put_text (netmask n) zeros;
  g ← put_text (gw n) zeros;
  Ok {| st_link := ip_link_state d; st_ip := a; st_netmask := m; st_gateway := g |}.

(** The body for a changed state. *)
Definition announce (d : mmipal_data) : M unit :=
  when (bool_decide (is_Some (link_status_callback d) \/ is_Some (ext_link_status_callback d)))
    (st ← lift (make_status d);
     when (bool_decide (ip_link_state d = MMIPAL_LINK_UP))
       (when (offload_arp_response d) (emit (ArpResponseOffload (ip_2_ip4 (ip_addr (lwip_mmnetif d)))));;
        when (bool_decide (0 < offload_arp_refresh_s d))
          (emit (ArpRefreshOffload (offload_arp_refresh_s d) (ip_2_ip4 (gw (lwip_mmnetif d))))));;
     match link_status_callback d with Some fn => emit (Notify fn st) | None => mret tt end;;
     match ext_link_status_callback d with
     | Some fn => emit (NotifyExt fn st (ext_link_status_callback_arg d))
     | None => mret tt
     end).

(** What the environment answers during a call: whether the station is
    connected; whether [dhcp_start] and [dhcp6_enable_stateless] succeed; the
    addresses they and [dhcp_stop] leave on the interface, if they set any. *)
Record env := {
  sta_connected : bool;
  dhcp_start_ok : bool;
  dhcp6_ok : bool;
  on_start : option (ip_addr_t * ip_addr_t * ip_addr_t);
  on_stop : option (ip_addr_t * ip_addr_t * ip_addr_t);
}.

Definition netif_status_callback (e : env) : M unit :=
  d ← get_data;
  when (bool_decide (ip4_mode d = MMIPAL_DHCP_OFFLOAD) && negb (dhcp_offload_init_complete d) && sta_connected e)
    (emit EnableDhcpOffload);;
  let new_link_state := if mmipal_link_status_check (lwip_mmnetif d) then MMIPAL_LINK_UP else MMIPAL_LINK_DOWN in
  when (bool_decide (ip_link_state d <> new_link_state))
    (modify (set_link_state new_link_state);;
     announce (set_link_state new_link_state d);;
     when (bool_decide (new_link_state = MMIPAL_LINK_DOWN)) (modify (set_offload_complete false))).

(** lwIP's [netif_set_addr], and the calls that may use it. *)
Definition netif_set_addr (e : env) (a m g : ip_addr_t) : M unit :=
  d ← get_data;
  emit (NetifAddrs a m g);;
  modify_netif (with_addrs a m g);;
  when (callbacks (lwip_mmnetif d) && notifies (ip_addr (lwip_mmnetif d)) a) (netif_status_callback e).
Definition netif_update (e : env) (u : option (ip_addr_t * ip_addr_t * ip_addr_t)) : M unit :=
  match u with Some (a, m, g) => netif_set_addr e a m g | None => mret tt end.
Definition dhcp_start (e : env) : M unit := emit DhcpStart;; lift (assert (dhcp_start_ok e));; netif_update e (on_start e).
Definition dhcp_stop (e : env) : M unit := emit DhcpStop;; netif_update e (on_stop e).

Definition mmipal_dhcp_lease_updated (e : env) (lease : lease_info) : M unit :=
  modify (set_offload_complete true);;
  emit LockCore;;
  netif_set_addr e (ip4 (ip4_addr lease)) (ip4 (mask4_addr lease)) (ip4 (gw4_addr lease));;
  emit (DnsSetServer 0 (ip4 (dns4_addr lease)));;
  emit UnlockCore;;
  netif_status_callback e.

Definition mmipal_set_link_status_callback (fn : option positive) : M unit :=
  modify (fun d => set_callbacks fn (ext_link_status_callback d) (ext_link_status_callback_arg d) (offload_arp_response d) (offload_arp_refresh_s d) d).
Definition mmipal_set_ext_link_status_callback (fn : option positive) (arg : Z) : M unit :=
  modify (fun d => set_callbacks (link_status_callback d) fn arg (offload_arp_response d) (offload_arp_refresh_s d) d).
Definition mmipal_get_link_state : M mmipal_link_state := d ← get_data; mret (ip_link_state d).

(** ** IPv4 *)

(** The three texts, in order; [None] for one that is not an address. *)
Definition parse3 (a m g : bytes) : option (ip_addr_t * ip_addr_t * ip_addr_t) :=
  a ← ipaddr_aton a; m ← ipaddr_aton m; g ← ipaddr_aton g; Some (a, m, g).

Definition mmipal_get_ip_config (config : mmipal_ip_config) : M (mmipal_status * mmipal_ip_config) :=
  d ← get_data;
  a ← lift (put_text (ip_addr (lwip_mmnetif d)) (cfg_ip config));
  m ← lift (put_text (netmask (lwip_mmnetif d)) (cfg_netmask config));
  g ← lift (put_text (gw (lwip_mmnetif d)) (cfg_gateway config));
  mret (MMIPAL_SUCCESS, {| cfg_mode := ip4_mode d; cfg_ip := a; cfg_netmask := m; cfg_gateway := g |}).

(** After the arguments have been checked. *)
Definition apply_ip_config (e : env) (mode : mmipal_addr_mode) (a m g : ip_addr_t) : M mmipal_status :=
  emit LockCore;;
  d ← get_data;
  when (bool_decide (mode <> MMIPAL_DHCP) && bool_decide (ip4_mode d = MMIPAL_DHCP)) (dhcp_stop e);;
  modify (fun d => set_modes mode (ip6_mode d) d);;
  netif_set_addr e (ip4 (ip_2_ip4 a)) (ip4 (ip_2_ip4 m)) (ip4 (ip_2_ip4 g));;
  when (bool_decide (mode = MMIPAL_DHCP)) (dhcp_start e);;
  emit UnlockCore;;
  mret MMIPAL_SUCCESS.

Definition mmipal_set_ip_config (e : env) (config : mmipal_ip_config) : M mmipal_status :=
  d ← get_data;
  if bool_decide (cfg_mode config <> MMIPAL_DHCP_OFFLOAD) && bool_decide (ip4_mode d = MMIPAL_DHCP_OFFLOAD)
  then mret MMIPAL_NOT_SUPPORTED
  else
    match cfg_mode config with
    | MMIPAL_DISABLED | MMIPAL_AUTOIP | MMIPAL_DHCP_OFFLOAD => mret MMIPAL_INVALID_ARGUMENT
    | MMIPAL_STATIC =>
        match parse3 (cfg_ip config) (cfg_netmask config) (cfg_gateway config) with
        | Some (a, m, g) => apply_ip_config e MMIPAL_STATIC a m g
        | None => mret MMIPAL_INVALID_ARGUMENT
        end
    | MMIPAL_DHCP => apply_ip_config e MMIPAL_DHCP ip_addr_any ip_addr_any ip_addr_any
    end.

(** [supported] is [ETHARP_SUPPORT_STATIC_ENTRIES]; [result] is lwIP's answer. *)
Definition mmipal_add_static_arp_entry (supported : bool) (config : mmipal_arp_config) (result : err_t) : M mmipal_status :=
  if negb supported then mret MMIPAL_NOT_SUPPORTED
  else
    match ipaddr_aton (arp_ip config) with
    | None => mret MMIPAL_INVALID_ARGUMENT
    | Some a => emit LockCore;; emit (ArpAdd (ip_2_ip4 a) (arp_mac config));; emit UnlockCore;; mret (mmipal_err_to_status result)
    end.
Definition mmipal_remove_static_arp_entry (supported : bool) (config : mmipal_arp_config) (result : err_t) : M mmipal_status :=
  if negb supported then mret MMIPAL_NOT_SUPPORTED
  else
    match ipaddr_aton (arp_ip config) with
    | None => mret MMIPAL_INVALID_ARGUMENT
    | Some a => emit LockCore;; emit (ArpRemove (ip_2_ip4 a));; emit UnlockCore;; mret (mmipal_err_to_status result)
    end.

Definition mmipal_get_ip_broadcast_addr (broadcast_addr : bytes) : M (mmipal_status * bytes) :=
  d ← get_data;
  let a := ip_2_ip4 (ip_addr (lwip_mmnetif d)) in
  let m := ip_2_ip4 (netmask (lwip_mmnetif d)) in
  let broadcast_u32 := Z.lor (Z.land a m) (Z.land 0xffffffff (u32 (Z.lnot m))) in
  match ipaddr_ntoa_r (ip4 broadcast_u32) MMIPAL_IPADDR_STR_MAXLEN with
  | Some t => b ← lift (wrn broadcast_addr 0 (t ++ [0])); mret (MMIPAL_SUCCESS, b)
  | None => lift (Fail AssertFailed)
  end.

(** ** IPv6 *)

Fixpoint parse_all (l : list bytes) : option (list ip_addr_t) :=
  match l with
  | [] => Some []
  | t :: l => a ← ipaddr_aton t; r ← parse_all l; Some (a :: r)
  end.

Fixpoint put_ip6 (l : list (ip6_addr_state * ip_addr_t)) (dst : list bytes) : outcome (list bytes) :=
  match l, dst with
  | (s, a) :: l, b :: dst =>
      b ← put_text (match s with IP6_ADDR_VALID => a | _ => ip6_any end) b;
      dst ← put_ip6 l dst; Ok (b :: dst)
  | _ :: _, [] => Fail OutOfBounds
  | [], dst => Ok dst
  end.

Definition mmipal_get_ip6_config (config : option mmipal_ip6_config) : M (mmipal_status * option mmipal_ip6_config) :=
  match config with
  | None => mret (MMIPAL_INVALID_ARGUMENT, None)
  | Some config =>
      d ← get_data;
      l ← lift (put_ip6 (ip6_addrs (lwip_mmnetif d)) (cfg_ip6_addr config));
      mret (MMIPAL_SUCCESS, Some {| cfg_ip6_mode := ip6_mode d; cfg_ip6_addr := l |})
  end.

(** The address with the given index. *)
Definition set_ip6 (i : nat) (s : ip6_addr_state) (a : ip_addr_t) : M unit :=
  modify_netif (fun n => with_ip6 (<[i := (s, a)]> (ip6_addrs n)) n).

Fixpoint set_static_ip6 (i : nat) (l : list ip_addr_t) : M unit :=
  match l with
  | [] => mret tt
  | a :: l =>
      (if ip_addr_isany a then set_ip6 i IP6_ADDR_INVALID ip6_any
       else set_ip6 i IP6_ADDR_TENTATIVE (ip_2_ip6 a);; emit (Ip6LifeStatic i));;
      set_static_ip6 (S i) l
  end.
Fixpoint clear_ip6 (i n : nat) : M unit :=
  match n with O => mret tt | S n => set_ip6 i IP6_ADDR_INVALID ip6_any;; clear_ip6 (S i) n end.

(** [dhcp6] is [LWIP_IPV6_DHCP6]. *)
Definition mmipal_set_ip6_config (dhcp6 : bool) (e : env) (config : mmipal_ip6_config) : M mmipal_status :=
  d ← get_data;
  if decide (length (cfg_ip6_addr config) < LWIP_IPV6_NUM_ADDRESSES)%nat then lift (Fail OutOfBounds) else
  match parse_all (take LWIP_IPV6_NUM_ADDRESSES (cfg_ip6_addr config)) with
  | None => mret MMIPAL_INVALID_ARGUMENT
  | Some ip6_addr =>
      emit LockCore;;
      (if bool_decide (cfg_ip6_mode config = MMIPAL_IP6_STATIC) then
         when (bool_decide (ip6_mode d <> MMIPAL_IP6_STATIC))
           (when dhcp6 (emit Dhcp6Disable);; emit (Ip6Autoconfig false);;
            modify (fun d => set_modes (ip4_mode d) MMIPAL_IP6_STATIC d));;
         set_static_ip6 0 ip6_addr
       else
         when (bool_decide (ip6_mode d = MMIPAL_IP6_STATIC)) (clear_ip6 0 LWIP_IPV6_NUM_ADDRESSES);;
         emit (Ip6Autoconfig true);; emit Ip6CreateLinkLocal;;
         modify (fun d => set_modes (ip4_mode d) MMIPAL_IP6_AUTOCONFIG d));;
      when dhcp6
        (if bool_decide (cfg_ip6_mode config = MMIPAL_IP6_DHCP6_STATELESS) then
           emit Dhcp6EnableStateless;; lift (assert (dhcp6_ok e));;
           modify (fun d => set_modes (ip4_mode d) MMIPAL_IP6_DHCP6_STATELESS d)
         else emit Dhcp6Disable);;
      emit UnlockCore;;
      mret MMIPAL_SUCCESS
  end.

(** ** Start-up *)

Record lwip_init_args := {
  la_mode : mmipal_addr_mode;
  la_ip6_mode : mmipal_ip6_addr_mode;
  la_ip_addr : ip_addr_t;
  la_netmask : ip_addr_t;
  la_gateway_addr : ip_addr_t;
  la_ip6_addr : ip_addr_t;
}.

(** The closed library's answers to [mmnetif_init], which [netif_add_noaddr]
    calls; what it returns is not looked at. *)
Record boot := { initialised : bool; boot_ok : bool; boot_mac : option bytes; mem_ok : bool; rx_cb_ok : bool; vif_cb_ok : bool }.

Definition netif_add_noaddr (b : boot) : M unit :=
  d ← get_data;
  '(_, _, n) ← lift (MmNetif.mmnetif_init (initialised b) (drv (lwip_mmnetif d)) (boot_ok b) (boot_mac b) (mem_ok b) (rx_cb_ok b) (vif_cb_ok b));
  modify_netif (with_drv n).

Definition set_init_done : M unit := fun w =>
  Ok (tt, {| dat := dat w; trace := trace w; tcpip_init_done := true |}).

Definition tcpip_init_done_handler (dhcp6 : bool) (e : env) (b : boot) (args : lwip_init_args) : M unit :=
  netif_add_noaddr b;;
  emit NetifSetDefault;; emit NetifSetUp;;
  modify (fun d => set_modes (la_mode args) (ip6_mode d) d);;
  match la_mode args with
  | MMIPAL_DHCP => dhcp_start e
  | MMIPAL_STATIC => netif_set_addr e (ip4 (ip_2_ip4 (la_ip_addr args))) (ip4 (ip_2_ip4 (la_netmask args))) (ip4 (ip_2_ip4 (la_gateway_addr args)))
  | _ => mret tt
  end;;
  modify_netif with_callbacks;;
  modify (fun d => set_modes (ip4_mode d) (la_ip6_mode args) d);;
  match la_ip6_mode args with
  | MMIPAL_IP6_STATIC => set_ip6 0 IP6_ADDR_TENTATIVE (ip_2_ip6 (la_ip6_addr args))
  | MMIPAL_IP6_AUTOCONFIG => emit (Ip6Autoconfig true);; emit Ip6CreateLinkLocal
  | MMIPAL_IP6_DHCP6_STATELESS => when dhcp6 (emit Dhcp6EnableStateless;; lift (assert (dhcp6_ok e)))
  | MMIPAL_IP6_DISABLED => mret tt
  end;;
  set_init_done.

(** The checks of the arguments; [None]: they are refused.  The three switches are
    [LWIP_DHCP], [LWIP_IPV6_AUTOCONFIG] and [LWIP_IPV6_DHCP6_STATELESS]. *)
Definition validate (dhcp autoconfig stateless : bool) (args : LoadConfig.mmipal_init_args) : option lwip_init_args :=
  let '(LoadConfig.Build_mmipal_init_args mode ip nm gateway ip6_mode ip6) := args in
  '(a, m, g) ← match mode with
    | MMIPAL_DISABLED => None
    | MMIPAL_DHCP_OFFLOAD | MMIPAL_STATIC =>
        '(a, m, g) ← parse3 ip nm gateway;
        if ip_addr_isany a then None else Some (a, m, g)
    | MMIPAL_DHCP => if dhcp then Some (ip_addr_any, ip_addr_any, ip_addr_any) else None
    | MMIPAL_AUTOIP => Some (ip_addr_any, ip_addr_any, ip_addr_any)
    end;
  a6 ← match ip6_mode with
    | MMIPAL_IP6_DISABLED => Some ip_addr_any
    | MMIPAL_IP6_STATIC => a ← ipaddr_aton ip6; if ip_addr_isany a then None else Some a
    | MMIPAL_IP6_AUTOCONFIG => if autoconfig then Some ip_addr_any else None
    | MMIPAL_IP6_DHCP6_STATELESS => if stateless then Some ip_addr_any else None
    end;
  Some {| la_mode := mode; la_ip6_mode := ip6_mode; la_ip_addr := a; la_netmask := m; la_gateway_addr := g; la_ip6_addr := a6 |}.

(** [tcpip_init] starts lwIP's thread, which runs the handler; the function waits
    until it has. *)
Definition mmipal_init (dhcp autoconfig stateless dhcp6 malloc_ok : bool) (e : env) (b : boot) (args : mmipal_init_args) : M mmipal_status :=
  if negb malloc_ok then mret MMIPAL_NO_MEM
  else
    modify (fun d => set_callbacks None (ext_link_status_callback d) (ext_link_status_callback_arg d) (arg_arp_response args) (arg_arp_refresh_s args) d);;
    match validate dhcp autoconfig stateless (loaded args) with
    | None => mret MMIPAL_INVALID_ARGUMENT
    | Some lwip_args => tcpip_init_done_handler dhcp6 e b lwip_args;; mret MMIPAL_SUCCESS
    end.

(** ** The rest *)

(** [stats] is [LWIP_STATS]. *)
Definition mmipal_get_link_packet_counts (stats : bool) : M (Z * Z) :=
  d ← get_data;
  let n := drv (lwip_mmnetif d) in
  mret (if stats then (u32 (MmNetif.xmit_count n), u32 (MmNetif.recv_count n)) else (0, 0)).

Definition mmipal_set_tx_qos_tid (tid : Z) : M unit := fun w =>
  (_ ← lift (assert (tcpip_init_done w));
   d ← get_data;
   n ← lift (MmNetif.mmnetif_set_tx_qos_tid (drv (lwip_mmnetif d)) tid);
   modify_netif (with_drv n)) w.

(** [select] is lwIP's choice of a source address for an IPv6 destination. *)
Definition mmipal_get_local_addr_ (select : ip_addr_t -> option ip_addr_t) (dest_addr : ip_addr_t) : M (mmipal_status + ip_addr_t) :=
  d ← get_data;
  if IP_IS_V6 dest_addr then
    match select dest_addr with
    | None => mret (inl MMIPAL_NO_LINK)
    | Some a => mret (inr a)
    end
  else mret (inr (ip_addr (lwip_mmnetif d))).

Definition mmipal_get_local_addr (select : ip_addr_t -> option ip_addr_t) (local_addr : bytes) (dest_addr : option bytes) : M (mmipal_status * bytes) :=
  match dest_addr with
  | None => mret (MMIPAL_INVALID_ARGUMENT, local_addr)
  | Some t =>
      match ipaddr_aton t with
      | None => mret (MMIPAL_INVALID_ARGUMENT, local_addr)
      | Some dest =>
          r ← mmipal_get_local_addr_ select dest;
          match r with
          | inl s => mret (s, local_addr)
          | inr a =>
              match ipaddr_ntoa_r a MMIPAL_IPADDR_STR_MAXLEN with
              | None => mret (MMIPAL_NO_MEM, local_addr)
              | Some t => l ← lift (wrn local_addr 0 (t ++ [0])); mret (MMIPAL_SUCCESS, l)
              end
          end
      end
  end.

(** [max] is [DNS_MAX_SERVERS]; [server] is what [dns_getserver] points to, and
    [same] compares its octets with [ip_addr_any]'s. *)
Definition mmipal_set_dns_server (max index : Z) (addr : bytes) : M mmipal_status :=
  if decide (max <= index) then mret MMIPAL_INVALID_ARGUMENT
  else
    match ipaddr_aton addr with
    | None => mret MMIPAL_INVALID_ARGUMENT
    | Some a => emit (DnsSetServer index a);; mret MMIPAL_SUCCESS
    end.

Definition mmipal_get_dns_server (max index : Z) (server : ip_addr_t) (same : bool) (addr : bytes) : M (mmipal_status * bytes) :=
  if decide (max <= index) then mret (MMIPAL_INVALID_ARGUMENT, addr)
  else if same then a ← lift (wr addr 0 0); mret (MMIPAL_SUCCESS, a)
  else
    match ipaddr_ntoa_r server MMIPAL_IPADDR_STR_MAXLEN with
    | None => mret (MMIPAL_NO_MEM, addr)
    | Some t => a ← lift (wrn addr 0 (t ++ [0])); mret (MMIPAL_SUCCESS, a)
    end.

(** ** Events *)

(** A change of the interface's state: an address set by lwIP itself (DHCP), the
    link set by the driver's queued callback ([MmNetif]), a status callback for
    any other reason, a lease from the chip, and a request of the application. *)
Inductive event :=
| EvAddr (a m g : ip_addr_t)
| EvLink (up : bool)
| EvStatus
| EvLease (lease : lease_info)
| EvSetIp (config : mmipal_ip_config)
| EvSetIp6 (dhcp6 : bool) (config : mmipal_ip6_config).

(** lwIP's [netif_set_link_up] and [netif_set_link_down]. *)
Definition netif_set_link (e : env) (up : bool) : M unit :=
  d ← get_data;
  let x := drv (lwip_mmnetif d) in
  when (bool_decide (MmNetif.link_up x <> up))
    (emit (NetifLink up);;
     modify_netif (with_drv
       {| MmNetif.state := MmNetif.state x; MmNetif.link_up := up; MmNetif.hwaddr := MmNetif.hwaddr x; MmNetif.mtu := MmNetif.mtu x;
          MmNetif.recv_count := MmNetif.recv_count x; MmNetif.xmit_count := MmNetif.xmit_count x;
          MmNetif.memerr_count := MmNetif.memerr_count x; MmNetif.drop_count := MmNetif.drop_count x |});;
     when (callbacks (lwip_mmnetif d)) (netif_status_callback e)).

Definition handle (ev : event) (e : env) : M unit :=
  match ev with
  | EvAddr a m g => netif_set_addr e a m g
  | EvLink up => netif_set_link e up
  | EvStatus => netif_status_callback e
  | EvLease lease => mmipal_dhcp_lease_updated e lease
  | EvSetIp config => _ ← mmipal_set_ip_config e config; mret tt
  | EvSetIp6 dhcp6 config => _ ← mmipal_set_ip6_config dhcp6 e config; mret tt
  end.

Fixpoint run (l : list (event * env)) : M unit :=
  match l with [] => mret tt | (ev, e) :: l => handle ev e;; run l end.

(** ** The notifications follow the link *)

Fixpoint alternates (s : mmipal_link_state) (l : list mmipal_link_state) (s' : mmipal_link_state) : Prop :=
  match l with [] => s = s' | x :: l => x <> s /\ alternates x l s' end.

Definition to_link (a : action) : option (positive * mmipal_link_status) :=
  match a with Notify fn st => Some (fn, st) | _ => None end.
Definition to_ext (a : action) : option (positive * (mmipal_link_status * Z)) :=
  match a with NotifyExt fn st arg => Some (fn, (st, arg)) | _ => None end.

(** The interface at a moment: its three addresses, and its link. *)
Definition iface : Type := ip_addr_t * ip_addr_t * ip_addr_t * bool.
Definition iface_of (n : netif) : iface := (ip_addr n, netmask n, gw n, MmNetif.link_up (drv n)).

Definition changed (x : iface) (act : action) : iface :=
  match act with
  | NetifAddrs a m g => (a, m, g, x.2)
  | NetifLink up => (x.1, up)
  | _ => x
  end.

(** The three texts are the interface's address, netmask and gateway, each in its
    member, and the state is UP exactly when the address is not zero and the link
    is up. *)
Definition truthful (x : iface) (st : mmipal_link_status) : Prop :=
  parse3 (st_ip st) (st_netmask st) (st_gateway st) = Some x.1 /\
  (st_link st = MMIPAL_LINK_UP <-> ip_addr_isany x.1.1.1 = false /\ x.2 = true).

(** Each status in the trace is true of the interface at that moment, which was [x]
    before, and so are the addresses the chip is given. *)
Definition true_of (x : iface) (act : action) : Prop :=
  match act with
  | Notify _ st | NotifyExt _ st _ => truthful x st
  | ArpResponseOffload addr => addr = ip_2_ip4 x.1.1.1
  | ArpRefreshOffload _ addr => addr = ip_2_ip4 x.1.2
  | _ => True
  end.
Fixpoint all_true (x : iface) (tr : list action) : Prop :=
  match tr with [] => True | act :: tr => true_of x act /\ all_true (changed x act) tr end.

Lemma all_true_app x t1 t2 : all_true x t1 -> all_true (foldl changed x t1) t2 -> all_true x (t1 ++ t2).
Proof. revert x. induction t1 as [|act t1 IH]; intros x; [done|]. intros [? ?] ?. split; [done|]. by apply IH. Qed.

Definition state_of (n : netif) : mmipal_link_state :=
  if mmipal_link_status_check n then MMIPAL_LINK_UP else MMIPAL_LINK_DOWN.

(** The calls [tr] tell each registered callback of the statuses [l], in order. *)
Definition delivered (d : mmipal_data) (tr : list action) (l : list mmipal_link_status) : Prop :=
  omap to_link tr = match link_status_callback d with Some fn => map (pair fn) l | None => [] end /\
  omap to_ext tr = match ext_link_status_callback d with
                   | Some fn => map (fun st => (fn, (st, ext_link_status_callback_arg d))) l | None => [] end.

Definition same_settings (d d' : mmipal_data) : Prop :=
  link_status_callback d' = link_status_callback d /\ ext_link_status_callback d' = ext_link_status_callback d /\
  ext_link_status_callback_arg d' = ext_link_status_callback_arg d /\
  offload_arp_response d' = offload_arp_response d /\ offload_arp_refresh_s d' = offload_arp_refresh_s d.

Lemma state_iface n n' : iface_of n' = iface_of n -> state_of n' = state_of n.
Proof. unfold iface_of, state_of, mmipal_link_status_check. by intros [= -> _ _ ->]. Qed.

Record follows (w w' : world) : Prop := {
  f_settings : same_settings (dat w) (dat w');
  f_trace : exists tr l, trace w' = trace w ++ tr /\ delivered (dat w) tr l /\
      (all_true (iface_of (lwip_mmnetif (dat w))) tr /\
       iface_of (lwip_mmnetif (dat w')) = foldl changed (iface_of (lwip_mmnetif (dat w))) tr) /\
      alternates (ip_link_state (dat w)) (map st_link l) (ip_link_state (dat w'));
}.

(** Between calls. *)
Record good (w : world) : Prop := {
  g_callbacks : callbacks (lwip_mmnetif (dat w)) = true;
  g_state : ip_link_state (dat w) = state_of (lwip_mmnetif (dat w));
}.

Definition safe {A} (m : M A) : Prop :=
  forall w, good w -> exists a w', m w = Ok (a, w') /\ good w' /\ follows w w'.

Lemma alternates_app s l1 s1 l2 s2 : alternates s l1 s1 -> alternates s1 l2 s2 -> alternates s (l1 ++ l2) s2.
Proof. revert s. induction l1 as [|x l1 IH]; intros s; cbn; [by intros ->|]. intros [? ?] ?. split; [done|]. by apply IH. Qed.

Lemma follows_refl w : follows w w.
Proof.
  constructor; [done|]. exists [], []. rewrite app_nil_r. split_and!; [done| |done..].
  split; cbn; by (repeat case_match).
Qed.

Lemma follows_trans w1 w2 w3 : follows w1 w2 -> follows w2 w3 -> follows w1 w3.
Proof.
  intros [(L & X & A & R1 & R2) (t1 & l1 & E1 & [D1 D1'] & [T1 I1] & A1)] [(L' & X' & A' & R1' & R2') (t2 & l2 & E2 & [D2 D2'] & [T2 I2] & A2)].
  rewrite L, X, A in *. constructor; [by split_and!; congruence|].
  exists (t1 ++ t2), (l1 ++ l2). split_and!.
  - by rewrite E2, E1, app_assoc.
  - split; rewrite omap_app, ?D1, ?D1', ?D2, ?D2'; repeat case_match; try done; by rewrite map_app.
  - apply all_true_app; [done|]. by rewrite <- I1.
  - by rewrite foldl_app, <- I1.
  - rewrite map_app. by eapply alternates_app.
Qed.

Lemma safe_ret {A} (a : A) : safe (mret a).
Proof. intros w Hw. exists a, w. split; [done|]. split; [done|apply follows_refl]. Qed.

Lemma safe_bind {A B} (m : M A) (f : A -> M B) : safe m -> (forall a, safe (f a)) -> safe (m ≫= f).
Proof.
  intros Hm Hf w Hw. destruct (Hm w Hw) as (a & w1 & E1 & G1 & F1). destruct (Hf a w1 G1) as (b & w2 & E2 & G2 & F2).
  exists b, w2. split; [|split; [done|by eapply follows_trans]].
  rewrite bind_run. by rewrite E1.
Qed.

Lemma safe_get {B} (f : mmipal_data -> M B) : (forall d, safe (f d)) -> safe (d ← get_data; f d).
Proof. intros Hf. apply safe_bind; [|done]. intros w Hw. eexists _, w. split; [done|]. split; [done|apply follows_refl]. Qed.

Lemma safe_when b m : safe m -> safe (when b m).
Proof. intros Hm. destruct b; [done|apply safe_ret]. Qed.

Lemma safe_emit a : to_link a = None -> to_ext a = None -> (forall x, changed x a = x) -> (forall x, true_of x a) -> safe (emit a).
Proof.
  intros Hl He Hc Ht w Hw. eexists tt, _. split; [done|]. split; [by destruct Hw|]. constructor; [done|].
  exists [a], []. unfold delivered. cbn. rewrite Hl, He, Hc. split; [done|]. split; [split; by (repeat case_match)|]. by split_and!.
Qed.

(** A change that leaves addresses, link and callbacks alone. *)
Lemma safe_modify f :
  (forall d, same_settings d (f d) /\ ip_link_state (f d) = ip_link_state d /\
     callbacks (lwip_mmnetif (f d)) = callbacks (lwip_mmnetif d) /\ iface_of (lwip_mmnetif (f d)) = iface_of (lwip_mmnetif d)) ->
  safe (modify f).
Proof.
  intros Hf w [Hc Hs]. destruct (Hf (dat w)) as (S & L & C & N). eexists tt, _. split; [done|].
  split; [constructor; cbn; [congruence|by rewrite L, Hs, (state_iface _ _ N)]|]. constructor; [done|].
  exists [], []. cbn. rewrite app_nil_r. split_and!; [done| |done..]. split; cbn; by (repeat case_match).
Qed.

Section Laws.
Context `{!LwipLaws}.

Lemma put_text_Ok a dst : zlen dst = MMIPAL_IPADDR_STR_MAXLEN ->
  exists b, put_text a dst = Ok b /\ zlen b = MMIPAL_IPADDR_STR_MAXLEN /\ ipaddr_aton b = Some a.
Proof.
  intros Hd. unfold put_text. rewrite Hd. destruct (ntoa_fits a) as (t & E & Ht). rewrite E.
  rewrite wrn_Ok by (rewrite ?length_app; cbn [length]; lia). eexists. split; [done|].
  unfold splice. change (Z.to_nat 0) with 0%nat. rewrite take_0. cbn [app]. split.
  - rewrite !length_app, length_drop, ?length_app. cbn [length]. lia.
  - rewrite <- app_assoc. cbn [app]. by apply aton_ntoa.
Qed.

Lemma make_status_Ok d : ip_link_state d = state_of (lwip_mmnetif d) ->
  exists st, make_status d = Ok st /\ truthful (iface_of (lwip_mmnetif d)) st /\ st_link st = ip_link_state d.
Proof.
  intros Hd. unfold make_status.
  destruct (put_text_Ok (ip_addr (lwip_mmnetif d)) zeros) as (a & -> & _ & Ha); [done|]. cbn [mbind outcome_bind].
  destruct (put_text_Ok (netmask (lwip_mmnetif d)) zeros) as (m & -> & _ & Hm); [done|]. cbn [mbind outcome_bind].
  destruct (put_text_Ok (gw (lwip_mmnetif d)) zeros) as (g & -> & _ & Hg); [done|]. cbn [mbind outcome_bind].
  eexists. split; [done|]. split; [|done]. split; [unfold parse3; cbn; by rewrite Ha, Hm, Hg|].
  cbn. rewrite Hd. unfold state_of, mmipal_link_status_check. destruct (ip_addr_isany _), (MmNetif.link_up _); cbn; split; try done; by intros [? ?].
Qed.

(** What [announce] adds to the trace. *)
Lemma announce_run d w : ip_link_state d = state_of (lwip_mmnetif d) ->
  exists tr st, announce d w = Ok (tt, {| dat := dat w; trace := trace w ++ tr; tcpip_init_done := tcpip_init_done w |}) /\
    delivered d tr [st] /\ all_true (iface_of (lwip_mmnetif d)) tr /\ foldl changed (iface_of (lwip_mmnetif d)) tr = iface_of (lwip_mmnetif d) /\
    st_link st = ip_link_state d.
Proof.
  intros Hd. destruct (make_status_Ok d Hd) as (st & Es & Ht & Hl). unfold announce, delivered. case_bool_decide as Hcb; cbn [when].
  - unfold lift, when, emit, mbind, M_bind, mret, M_ret. rewrite Es. cbn [mbind outcome_bind].
    destruct (link_status_callback d) as [fl|], (ext_link_status_callback d) as [fx|];
      [| | |exfalso; destruct Hcb as [[? ?]|[? ?]]; discriminate];
      destruct (bool_decide _), (offload_arp_response d), (bool_decide (0 < offload_arp_refresh_s d));
      cbn; rewrite <- ?app_assoc; eexists _, st; (split; [reflexivity|]); (split; [split; reflexivity|]); cbn; by split_and!.
  - exists [], st. rewrite app_nil_r. split; [by destruct w|]. split; [|done].
    destruct (link_status_callback d), (ext_link_status_callback d); try done; destruct Hcb; eauto.
Qed.

(** The callback, from any state. *)
Lemma status_callback_run e w :
  exists w', netif_status_callback e w = Ok (tt, w') /\ follows w w' /\
    lwip_mmnetif (dat w') = lwip_mmnetif (dat w) /\ ip_link_state (dat w') = state_of (lwip_mmnetif (dat w)) /\
    ip4_mode (dat w') = ip4_mode (dat w).
Proof.
  unfold netif_status_callback, get_data, mbind, M_bind, mbind, outcome_bind.
  set (b := bool_decide _ && _ && _).
  assert (exists w1, when b (emit EnableDhcpOffload) w = Ok (tt, w1) /\ dat w1 = dat w /\ follows w w1) as (w1 & -> & Ed & F1).
  { destruct b; [|exists w; split; [done|]; split; [done|apply follows_refl]]. eexists. split; [done|]. split; [done|].
    constructor; [done|]. eexists [_], []. split_and!; [done| |done..]. split; cbn; by (repeat case_match). }
  change (if mmipal_link_status_check (lwip_mmnetif (dat w)) then MMIPAL_LINK_UP else MMIPAL_LINK_DOWN) with (state_of (lwip_mmnetif (dat w))).
  rewrite <- Ed in *. set (new := state_of (lwip_mmnetif (dat w1))) in *.
  case_bool_decide as Hn; cbn [when]; [|exists w1; split; [done|]; split; [exact F1|]; split; [done|]; split; [exact Hn|done]].
  cbn. destruct (announce_run (set_link_state new (dat w1))
    {| dat := set_link_state new (dat w1); trace := trace w1; tcpip_init_done := tcpip_init_done w1 |}) as (tr & st & -> & Hdel & Ht & Hi & Hl); [done|].
  cbn. cbn in Hl, Ht, Hi. assert (F2 : forall d', same_settings (dat w1) d' -> ip_link_state d' = new -> lwip_mmnetif d' = lwip_mmnetif (dat w1) ->
    follows w1 {| dat := d'; trace := trace w1 ++ tr; tcpip_init_done := tcpip_init_done w1 |}).
  { intros d' Hset Hst Hn'. constructor; [done|]. exists tr, [st]. cbn. rewrite Hst, Hl, Hn'. split_and!; [done|done|done|by rewrite Hi|congruence|done]. }
  case_bool_decide; cbn; eexists; (split; [reflexivity|]); (split; [|done]);
    (eapply follows_trans; [exact F1|by apply F2]).
Qed.

Lemma safe_status_callback e : safe (netif_status_callback e).
Proof.
  intros w [Hc Hs]. destruct (status_callback_run e w) as (w' & E & F & N & S & _). exists tt, w'.
  split; [done|]. split; [|done]. by constructor; rewrite N.
Qed.

(** A change of the interface followed, where it matters, by the callback. *)
Lemma safe_change act f b e w :
  (forall x, true_of x act) -> to_link act = None -> to_ext act = None ->
  iface_of (f (lwip_mmnetif (dat w))) = changed (iface_of (lwip_mmnetif (dat w))) act ->
  good w -> callbacks (f (lwip_mmnetif (dat w))) = true ->
  (b = false -> state_of (f (lwip_mmnetif (dat w))) = state_of (lwip_mmnetif (dat w))) ->
  exists w', (emit act;; modify_netif f;; when b (netif_status_callback e)) w = Ok (tt, w') /\ good w' /\ follows w w' /\
    lwip_mmnetif (dat w') = f (lwip_mmnetif (dat w)) /\ ip4_mode (dat w') = ip4_mode (dat w).
Proof.
  intros Ht Hl He Hi [Hc Hs] Hf Hb. unfold modify_netif, modify, emit, mbind, M_bind, mbind, outcome_bind. cbn.
  set (w1 := {| dat := set_netif _ _; trace := _; tcpip_init_done := _ |}).
  assert (F1 : follows w w1).
  { constructor; [done|]. exists [act], []. unfold delivered. cbn. rewrite Hl, He, Hi. split_and!; try done; by (repeat case_match). }
  destruct b; cbn [when].
  - destruct (status_callback_run e w1) as (w' & -> & F2 & N & S & M4). exists w'. split; [done|].
    split; [constructor; rewrite ?N; done|]. split; [by eapply follows_trans|done].
  - exists w1. split; [done|]. split; [|by split]. constructor; cbn; [done|]. rewrite Hs. symmetry. by apply Hb.
Qed.

Lemma set_addr_run e a m g w : good w -> exists w', netif_set_addr e a m g w = Ok (tt, w') /\ good w' /\ follows w w' /\
  lwip_mmnetif (dat w') = with_addrs a m g (lwip_mmnetif (dat w)) /\ ip4_mode (dat w') = ip4_mode (dat w).
Proof.
  intros Hw. unfold netif_set_addr. destruct (safe_change (NetifAddrs a m g) (with_addrs a m g)
    (callbacks (lwip_mmnetif (dat w)) && notifies (ip_addr (lwip_mmnetif (dat w))) a) e w) as (w' & E & G); [done..|exact Hw| | |].
  - apply Hw.
  - rewrite (g_callbacks _ Hw). cbn. intros Hn. unfold state_of, mmipal_link_status_check. cbn.
    assert (ip_addr_isany a = ip_addr_isany (ip_addr (lwip_mmnetif (dat w)))) as ->; [|done].
    destruct (decide (ip_addr_isany (ip_addr (lwip_mmnetif (dat w))) = ip_addr_isany a)) as [|H1]; [done|].
    by rewrite (set_addr_notifies _ _ H1) in Hn.
  - exists w'. split; [exact E|exact G].
Qed.

Lemma safe_set_addr e a m g : safe (netif_set_addr e a m g).
Proof. intros w Hw. destruct (set_addr_run e a m g w Hw) as (w' & E & G & F & _). by exists tt, w'. Qed.

Lemma safe_set_link e up : safe (netif_set_link e up).
Proof.
  intros w Hw. unfold netif_set_link. rewrite bind_get; cbn beta zeta.
  case_bool_decide as Hu; cbn [when]; [|apply safe_ret; done].
  rewrite (g_callbacks _ Hw). match goal with |- context[modify_netif ?f] => destruct (safe_change (NetifLink up) f true e w) as (w' & E & G); [done..|exact Hw| | |] end.
  - apply Hw.
  - done.
  - exists tt, w'. split; [exact E|]. destruct G as (? & ? & _). by split.
Qed.

Definition env_ok (e : env) : Prop := dhcp_start_ok e = true /\ dhcp6_ok e = true.

Lemma safe_get_data : safe get_data.
Proof. intros w Hw. eexists _, w. split; [done|]. split; [done|apply follows_refl]. Qed.

Lemma safe_lift_assert b : b = true -> safe (lift (assert b)).
Proof. intros -> w Hw. exists tt, w. split; [done|]. split; [done|apply follows_refl]. Qed.

Lemma safe_set_modes f4 f6 : safe (modify (fun d => set_modes (f4 d) (f6 d) d)).
Proof. by apply safe_modify. Qed.

Lemma safe_offload_complete b : safe (modify (set_offload_complete b)).
Proof. by apply safe_modify. Qed.

Lemma safe_set_ip6 i s a : safe (set_ip6 i s a).
Proof. by apply safe_modify. Qed.

(** One step of a computation that is a sequence of safe ones. *)
Ltac safe_step :=
  lazymatch goal with
  | |- safe (mbind _ _) => apply safe_bind; [|intros ?]
  | |- safe (when _ _) => apply safe_when
  | |- safe (mret _) => apply safe_ret
  | |- safe get_data => apply safe_get_data
  | |- safe (emit _) => apply safe_emit; reflexivity
  | |- safe (netif_set_addr _ _ _ _) => apply safe_set_addr
  | |- safe (netif_status_callback _) => apply safe_status_callback
  | |- safe (set_ip6 _ _ _) => apply safe_set_ip6
  | |- safe (modify (set_offload_complete _)) => apply safe_offload_complete
  | |- safe (modify _) => apply safe_set_modes
  end.
Ltac safe_auto := repeat safe_step.

Lemma safe_update e u : safe (netif_update e u).
Proof. destruct u as [[[a m] g]|]; cbn; safe_auto. Qed.

Lemma safe_dhcp_start e : env_ok e -> safe (dhcp_start e).
Proof. intros [He _]. unfold dhcp_start. safe_auto; [by apply safe_lift_assert|apply safe_update]. Qed.
Lemma safe_dhcp_stop e : safe (dhcp_stop e).
Proof. unfold dhcp_stop. safe_auto. apply safe_update. Qed.

Lemma safe_apply_ip_config e mode a m g : env_ok e -> safe (apply_ip_config e mode a m g).
Proof. intros He. unfold apply_ip_config. safe_auto; [apply safe_dhcp_stop|by apply safe_dhcp_start]. Qed.

Lemma safe_set_ip_config e config : env_ok e -> safe (mmipal_set_ip_config e config).
Proof.
  intros He. unfold mmipal_set_ip_config. apply safe_bind; [apply safe_get_data|intros d]. case_match; [apply safe_ret|].
  destruct (cfg_mode config); try apply safe_ret; [|by apply safe_apply_ip_config].
  destruct (parse3 _ _ _) as [[[a m] g]|]; [by apply safe_apply_ip_config|apply safe_ret].
Qed.

Lemma safe_set_static_ip6 l i : safe (set_static_ip6 i l).
Proof. revert i. induction l as [|a l IH]; intros i; cbn [set_static_ip6]; [apply safe_ret|]. destruct (ip_addr_isany a); safe_auto; apply IH. Qed.
Lemma safe_clear_ip6 n i : safe (clear_ip6 i n).
Proof. revert i. induction n as [|n IH]; intros i; cbn [clear_ip6]; safe_auto. apply IH. Qed.

Definition event_ok (ev : event) : Prop :=
  match ev with EvSetIp6 _ config => (LWIP_IPV6_NUM_ADDRESSES <= length (cfg_ip6_addr config))%nat | _ => True end.

Lemma safe_set_ip6_config dhcp6 e config :
  env_ok e -> event_ok (EvSetIp6 dhcp6 config) -> safe (mmipal_set_ip6_config dhcp6 e config).
Proof.
  intros [_ He] Hc. unfold mmipal_set_ip6_config. apply safe_bind; [apply safe_get_data|intros d].
  cbn in Hc. rewrite decide_False by lia. destruct (parse_all _) as [l|]; [|apply safe_ret].
  safe_auto.
  - case_bool_decide; safe_auto; [apply safe_set_static_ip6|apply safe_clear_ip6].
  - case_bool_decide; safe_auto. by apply safe_lift_assert.
Qed.

Lemma safe_handle ev e : env_ok e -> event_ok ev -> safe (handle ev e).
Proof.
  intros He Hev. destruct ev; cbn [handle].
  - apply safe_set_addr.
  - apply safe_set_link.
  - apply safe_status_callback.
  - unfold mmipal_dhcp_lease_updated. safe_auto.
  - safe_auto. by apply safe_set_ip_config.
  - safe_auto. by apply safe_set_ip6_config.
Qed.

Lemma safe_run l : Forall (fun p => env_ok p.2 /\ event_ok p.1) l -> safe (run l).
Proof.
  induction 1 as [|[ev e] l [He Hev] _ IH]; cbn [run]; [apply safe_ret|]. apply safe_bind; [by apply safe_handle|done].
Qed.

(** ** Start-up *)

(** The static data before the first call: zeros. *)
Record pristine (w : world) : Prop := {
  p_state : ip_link_state (dat w) = MMIPAL_LINK_DOWN;
  p_link : MmNetif.link_up (drv (lwip_mmnetif (dat w))) = false;
  p_callbacks : callbacks (lwip_mmnetif (dat w)) = false;
}.

(** What the driver must answer on the first start. *)
Definition boot_works (b : boot) : Prop :=
  initialised b = false /\ boot_ok b = true /\ is_Some (boot_mac b) /\ mem_ok b = true /\ rx_cb_ok b = true /\ vif_cb_ok b = true.

(** Before the callbacks are registered: the address may change, nothing is told. *)
Record quiet (w w' : world) : Prop := {
  q_pristine : pristine w';
  q_settings : same_settings (dat w) (dat w');
  q_modes : ip4_mode (dat w') = ip4_mode (dat w) /\ ip6_mode (dat w') = ip6_mode (dat w);
}.
Definition silent (m : M unit) : Prop := forall w, pristine w -> exists w', m w = Ok (tt, w') /\ quiet w w'.

Lemma silent_bind m (f : unit -> M unit) : silent m -> (forall u, silent (f u)) -> silent (m ≫= f).
Proof.
  intros Hm Hf w Hw. destruct (Hm w Hw) as (w1 & E1 & [P1 S1 [M1 M1']]). destruct (Hf tt w1 P1) as (w2 & E2 & [P2 S2 [M2 M2']]).
  exists w2. split; [by rewrite bind_run, E1|].
  split; [done| |split; congruence].
  unfold same_settings in *. destruct S1 as (?&?&?&?&?), S2 as (?&?&?&?&?). by split_and!; congruence.
Qed.
Lemma silent_ret : silent (mret tt).
Proof. intros w Hw. exists w. split; [done|]. by split. Qed.
Lemma silent_emit a : silent (emit a).
Proof. intros w []. eexists. split; [done|]. by split. Qed.
Lemma silent_modify f :
  (forall d, same_settings d (f d) /\ ip_link_state (f d) = ip_link_state d /\
     callbacks (lwip_mmnetif (f d)) = callbacks (lwip_mmnetif d) /\
     MmNetif.link_up (drv (lwip_mmnetif (f d))) = MmNetif.link_up (drv (lwip_mmnetif d)) /\
     ip4_mode (f d) = ip4_mode d /\ ip6_mode (f d) = ip6_mode d) -> silent (modify f).
Proof.
  intros Hf w []. destruct (Hf (dat w)) as (S & L & C & N & M4 & M6). eexists. split; [done|]. split; [constructor; cbn; congruence|done|done].
Qed.
Lemma silent_set_addr e a m g : silent (netif_set_addr e a m g).
Proof.
  intros w Hw. unfold netif_set_addr. rewrite bind_get; cbn beta.
  rewrite (p_callbacks _ Hw). cbn [andb when]. apply silent_bind; [apply silent_emit|intros _|done].
  apply silent_bind; [by apply silent_modify|intros; apply silent_ret].
Qed.
Lemma silent_lift_assert b : b = true -> silent (lift (assert b)).
Proof. intros ->. apply silent_ret. Qed.

Lemma silent_add b : boot_works b -> silent (netif_add_noaddr b).
Proof.
  intros (H1 & H2 & [mac H3] & H4 & H5 & H6) w Hw. unfold netif_add_noaddr.
  rewrite bind_get; cbn beta.
  unfold MmNetif.mmnetif_init. rewrite H1, H2, H3, H4, H5, H6. cbn. eexists. split; [done|]. destruct Hw. by split.
Qed.

Lemma silent_dhcp_start e : env_ok e -> silent (dhcp_start e).
Proof.
  intros [He _]. unfold dhcp_start. apply silent_bind; [apply silent_emit|intros _].
  apply silent_bind; [by apply silent_lift_assert|intros _]. destruct (on_start e) as [[[a m] g]|]; [apply silent_set_addr|apply silent_ret].
Qed.

Lemma handler_run dhcp6 e b lw w : pristine w -> boot_works b -> env_ok e ->
  exists w', tcpip_init_done_handler dhcp6 e b lw w = Ok (tt, w') /\ good w' /\ tcpip_init_done w' = true /\
    ip_link_state (dat w') = MMIPAL_LINK_DOWN /\ same_settings (dat w) (dat w') /\
    ip4_mode (dat w') = la_mode lw /\ ip6_mode (dat w') = la_ip6_mode lw.
Proof.
  intros Hw Hb He. unfold tcpip_init_done_handler.
  destruct (silent_add b Hb w Hw) as (w1 & E1 & [P1 S1 M1]).
  rewrite bind_run, E1. cbn [mbind outcome_bind].
  set (w2 := {| dat := set_modes (la_mode lw) (ip6_mode (dat w1)) (dat w1);
                trace := (trace w1 ++ [NetifSetDefault]) ++ [NetifSetUp]; tcpip_init_done := tcpip_init_done w1 |}).
  rewrite !bind_emit, bind_modify. cbn [dat trace tcpip_init_done]. fold w2.
  assert (P2 : pristine w2) by (destruct P1; by constructor).
  match goal with |- context[mbind ?k ?m w2] => set (addr := m); set (rest := k) end.
  assert (Ha : silent addr).
  { subst addr. destruct (la_mode lw); try apply silent_ret; [apply silent_set_addr|by apply silent_dhcp_start]. }
  destruct (Ha w2 P2) as (w3 & E3 & [P3 S3 [M3 M3']]).
  rewrite bind_run, E3. cbn [mbind outcome_bind].
  clearbody addr. subst rest. cbn beta. destruct P3 as [L3 U3 C3], He as [_ H6], S1 as (A1 & A2 & A3 & A4 & A5), S3 as (B1 & B2 & B3 & B4 & B5).
  cbn in M3, B1, B2, B3, B4, B5.
  destruct (la_ip6_mode lw), dhcp6; cbn; rewrite ?H6; cbn; eexists; (split; [reflexivity|]); cbn;
    (split; [constructor; cbn; [done|]; unfold state_of, mmipal_link_status_check; cbn; by rewrite U3, andb_false_r|]);
    split_and!; try done; unfold same_settings; cbn; split_and!; congruence.
Qed.

(** After [mmipal_init] has succeeded the invariant holds. *)
Lemma init_done dhcp autoconfig stateless dhcp6 e b args w lw :
  pristine w -> boot_works b -> env_ok e -> validate dhcp autoconfig stateless (loaded args) = Some lw ->
  exists w', mmipal_init dhcp autoconfig stateless dhcp6 true e b args w = Ok (MMIPAL_SUCCESS, w') /\ good w' /\
    tcpip_init_done w' = true /\
    link_status_callback (dat w') = None /\ ip_link_state (dat w') = MMIPAL_LINK_DOWN /\
    offload_arp_response (dat w') = arg_arp_response args /\ offload_arp_refresh_s (dat w') = arg_arp_refresh_s args /\
    ip4_mode (dat w') = la_mode lw /\ ip6_mode (dat w') = la_ip6_mode lw.
Proof.
  intros Hw Hb He Hv. unfold mmipal_init. cbn [negb]. rewrite Hv.
  set (f := fun d => set_callbacks _ _ _ _ _ d).
  rewrite bind_modify.
  assert (Hw1 : pristine {| dat := f (dat w); trace := trace w; tcpip_init_done := tcpip_init_done w |}) by (destruct Hw; by constructor).
  set (w1 := {| dat := f _; trace := _; tcpip_init_done := _ |}) in *.
  destruct (handler_run dhcp6 e b lw w1 Hw1 Hb He) as (w2 & E2 & G & D & L & (S1 & S2 & S3 & S4 & S5) & M4 & M6).
  exists w2. split; [by rewrite bind_run, E2|].
  by split_and!.
Qed.

(** C33: the link status: after a successful [mmipal_init], whatever the driver,
    lwIP, the chip and the application then do to link and addresses, nothing
    fails, and the registered callback is called exactly when the state changes:
    the states it is told alternate, beginning with UP, and the last one is the
    recorded state, which is UP exactly when the link is up and the interface has
    an IPv4 address.  The interface at every moment is what its recorded changes
    make of it; the texts the callback is given are the address, the netmask and
    the gateway that it has at that moment, and the state it is told is true then
    too, as are the addresses the chip is given for its ARP offloads. *)
Theorem link_notifications dhcp autoconfig stateless dhcp6 e b args w lw fn l :
  pristine w -> boot_works b -> env_ok e -> validate dhcp autoconfig stateless (loaded args) = Some lw ->
  Forall (fun p => env_ok p.2 /\ event_ok p.1) l ->
  exists w1 w2 tr sts,
    mmipal_init dhcp autoconfig stateless dhcp6 true e b args w = Ok (MMIPAL_SUCCESS, w1) /\
    (mmipal_set_link_status_callback (Some fn);; run l) w1 = Ok (tt, w2) /\
    trace w2 = trace w1 ++ tr /\ omap to_link tr = map (pair fn) sts /\
    iface_of (lwip_mmnetif (dat w2)) = foldl changed (iface_of (lwip_mmnetif (dat w1))) tr /\
    all_true (iface_of (lwip_mmnetif (dat w1))) tr /\
    alternates MMIPAL_LINK_DOWN (map st_link sts) (ip_link_state (dat w2)) /\
    (ip_link_state (dat w2) = MMIPAL_LINK_UP <->
      ip_addr_isany (ip_addr (lwip_mmnetif (dat w2))) = false /\ MmNetif.link_up (drv (lwip_mmnetif (dat w2))) = true).
Proof.
  intros Hw Hb He Hv Hl. destruct (init_done _ _ _ dhcp6 _ _ _ _ _ Hw Hb He Hv) as (w1 & E1 & [Hc Hs] & _ & _ & Hd & _).
  unfold mmipal_set_link_status_callback.
  destruct (safe_run l Hl {| dat := set_callbacks (Some fn) (ext_link_status_callback (dat w1)) (ext_link_status_callback_arg (dat w1))
    (offload_arp_response (dat w1)) (offload_arp_refresh_s (dat w1)) (dat w1); trace := trace w1; tcpip_init_done := tcpip_init_done w1 |})
    as ([] & w2 & E2 & G2 & [_ (tr & sts & T & [D _] & [Ft Fi] & A)]); [by constructor|].
  exists w1, w2, tr, sts. split; [done|]. rewrite bind_modify. split; [exact E2|]. split; [exact T|]. split; [exact D|].
  split; [exact Fi|]. split; [exact Ft|]. cbn in A. rewrite Hd in A. split; [done|]. rewrite (g_state _ G2). unfold state_of, mmipal_link_status_check.
  destruct (ip_addr_isany _), (MmNetif.link_up _); cbn; split; try done; by intros [? ?].
Qed.

Lemma get_ip_config_run c w : zlen (cfg_ip c) = MMIPAL_IPADDR_STR_MAXLEN -> zlen (cfg_netmask c) = MMIPAL_IPADDR_STR_MAXLEN ->
  zlen (cfg_gateway c) = MMIPAL_IPADDR_STR_MAXLEN ->
  exists c', mmipal_get_ip_config c w = Ok (MMIPAL_SUCCESS, c', w) /\ cfg_mode c' = ip4_mode (dat w) /\
    parse3 (cfg_ip c') (cfg_netmask c') (cfg_gateway c') =
      Some (ip_addr (lwip_mmnetif (dat w)), netmask (lwip_mmnetif (dat w)), gw (lwip_mmnetif (dat w))).
Proof.
  intros H1 H2 H3. unfold mmipal_get_ip_config. rewrite bind_get. unfold lift. rewrite bind_run.
  destruct (put_text_Ok (ip_addr (lwip_mmnetif (dat w))) _ H1) as (a & -> & _ & Ea). cbn [mbind outcome_bind]. rewrite bind_run.
  destruct (put_text_Ok (netmask (lwip_mmnetif (dat w))) _ H2) as (m & -> & _ & Em). cbn [mbind outcome_bind]. rewrite bind_run.
  destruct (put_text_Ok (gw (lwip_mmnetif (dat w))) _ H3) as (g & -> & _ & Eg). cbn [mbind outcome_bind].
  eexists. split; [done|]. split; [done|]. unfold parse3. cbn. by rewrite Ea, Em, Eg.
Qed.

(** The part of [apply_ip_config] that sets addresses. *)
Lemma apply_run e mode a m g w : good w -> env_ok e ->
  exists w', apply_ip_config e mode a m g w = Ok (MMIPAL_SUCCESS, w') /\ good w' /\ ip4_mode (dat w') = mode /\
    (mode <> MMIPAL_DHCP -> exists n, lwip_mmnetif (dat w') = with_addrs (ip4 (ip_2_ip4 a)) (ip4 (ip_2_ip4 m)) (ip4 (ip_2_ip4 g)) n).
Proof.
  intros Hw He. unfold apply_ip_config. rewrite bind_emit, bind_get, bind_run. cbn [dat].
  set (w0 := {| dat := dat w; trace := _; tcpip_init_done := _ |}). assert (Hw0 : good w0) by (destruct Hw; by constructor).
  destruct (safe_when (bool_decide (mode <> MMIPAL_DHCP) && bool_decide (ip4_mode (dat w) = MMIPAL_DHCP)) _ (safe_dhcp_stop e) w0 Hw0)
    as ([] & w1 & -> & [Hc1 Hs1] & _). cbn [mbind outcome_bind]. rewrite bind_modify, bind_run.
  match goal with |- context[netif_set_addr _ _ _ _ ?x] => destruct (set_addr_run e (ip4 (ip_2_ip4 a)) (ip4 (ip_2_ip4 m)) (ip4 (ip_2_ip4 g)) x)
    as (w2 & -> & G2 & _ & N2 & M2) end; [by constructor|]. cbn [mbind outcome_bind dat ip4_mode set_modes] in *.
  case_bool_decide as Hm; cbn [when].
  - unfold dhcp_start. rewrite bind_run, bind_emit, bind_run. unfold lift. destruct He as [-> _]. cbn [assert mbind outcome_bind].
    set (w3 := {| dat := dat w2; trace := _; tcpip_init_done := _ |}). assert (G3 : good w3) by (destruct G2; by constructor).
    assert (exists w4, netif_update e (on_start e) w3 = Ok (tt, w4) /\ good w4 /\ ip4_mode (dat w4) = mode) as (w4 & -> & [] & M4).
    { destruct (on_start e) as [[[a' m'] g']|]; cbn; [|by exists w3].
      destruct (set_addr_run e a' m' g' w3 G3) as (w4 & E4 & G4 & _ & _ & M4). exists w4. split; [done|]. split; [done|]. by rewrite M4. }
    cbn [mbind outcome_bind]. rewrite bind_emit. eexists. split; [done|]. split; [by constructor|]. by split.
  - rewrite bind_run. cbn [mret M_ret mbind outcome_bind]. rewrite bind_emit. eexists. split; [done|].
    destruct G2. split; [by constructor|]. split; [done|]. intros _. eexists. exact N2.
Qed.

(** C34: [mmipal_set_ip_config]: it succeeds exactly for DHCP and for static
    addresses that parse, unless DHCP is offloaded to the chip, and then the mode
    is the requested one; a static configuration is what [mmipal_get_ip_config]
    reads back, as addresses, while it stays; every refusal leaves the state as
    it was. *)
Theorem set_ip_config_correct e config w :
  good w -> env_ok e ->
  exists r w', mmipal_set_ip_config e config w = Ok (r, w') /\
    match r with
    | MMIPAL_NOT_SUPPORTED => w' = w /\ ip4_mode (dat w) = MMIPAL_DHCP_OFFLOAD /\ cfg_mode config <> MMIPAL_DHCP_OFFLOAD
    | MMIPAL_INVALID_ARGUMENT =>
        w' = w /\ (cfg_mode config = MMIPAL_DISABLED \/ cfg_mode config = MMIPAL_AUTOIP \/ cfg_mode config = MMIPAL_DHCP_OFFLOAD \/
          cfg_mode config = MMIPAL_STATIC /\ parse3 (cfg_ip config) (cfg_netmask config) (cfg_gateway config) = None)
    | MMIPAL_SUCCESS =>
        ip4_mode (dat w) <> MMIPAL_DHCP_OFFLOAD /\ ip4_mode (dat w') = cfg_mode config /\
        (cfg_mode config = MMIPAL_DHCP \/
         cfg_mode config = MMIPAL_STATIC /\ exists a m g,
           parse3 (cfg_ip config) (cfg_netmask config) (cfg_gateway config) = Some (a, m, g) /\
           forall c, zlen (cfg_ip c) = MMIPAL_IPADDR_STR_MAXLEN -> zlen (cfg_netmask c) = MMIPAL_IPADDR_STR_MAXLEN ->
             zlen (cfg_gateway c) = MMIPAL_IPADDR_STR_MAXLEN ->
             exists c', mmipal_get_ip_config c w' = Ok (MMIPAL_SUCCESS, c', w') /\ cfg_mode c' = MMIPAL_STATIC /\
               parse3 (cfg_ip c') (cfg_netmask c') (cfg_gateway c') = Some (ip4 (ip_2_ip4 a), ip4 (ip_2_ip4 m), ip4 (ip_2_ip4 g)))
    | _ => False
    end.
Proof.
  intros Hw He. unfold mmipal_set_ip_config. rewrite bind_get. case_bool_decide as H1; case_bool_decide as H2; cbn [andb];
    [by eexists _, w|..]; (destruct (cfg_mode config) eqn:Em; try (eexists _, w; split; [done|]; cbn; tauto)); try done.
  1: destruct (parse3 _ _ _) as [[[a m] g]|] eqn:Ep; [|eexists _, w; split; [done|]; cbn; tauto].
  - destruct (apply_run e MMIPAL_STATIC a m g w Hw He) as (w' & -> & G & M & N). eexists _, w'. split; [done|]. split; [done|]. split; [done|].
    right. split; [done|]. exists a, m, g. split; [done|]. intros c L1 L2 L3. destruct N as [n N]; [done|].
    destruct (get_ip_config_run c w' L1 L2 L3) as (c' & E & M' & P). exists c'. split; [done|]. rewrite M', P, N. done.
  - destruct (apply_run e MMIPAL_DHCP ip_addr_any ip_addr_any ip_addr_any w Hw He) as (w' & -> & G & M & _). eexists _, w'. split; [done|]. split; [done|]. split; [done|]. by left.
Qed.

(** ** What is refused, accepted and forgotten *)

(** [MMIPAL_IP6_CONFIG_DEFAULT] leaves the texts empty, and every text is parsed
    whatever the mode. *)
Lemma default_ip6_config_refused dhcp6 e r1 r2 r3 w :
  (0 < LWIP_IPV6_NUM_ADDRESSES <= 3)%nat ->
  mmipal_set_ip6_config dhcp6 e {| cfg_ip6_mode := MMIPAL_IP6_AUTOCONFIG; cfg_ip6_addr := [0 :: r1; 0 :: r2; 0 :: r3] |} w =
    Ok (MMIPAL_INVALID_ARGUMENT, w).
Proof.
  intros Hn. unfold mmipal_set_ip6_config. rewrite bind_get. cbn [cfg_ip6_addr length]. rewrite decide_False by lia.
  destruct LWIP_IPV6_NUM_ADDRESSES as [|n]; [lia|]. cbn [take parse_all]. by rewrite aton_empty.
Qed.

(** Asked to disable IPv6 it turns autoconfiguration on. *)
Lemma disabled_ip6_enables_autoconfig dhcp6 e texts l w :
  (LWIP_IPV6_NUM_ADDRESSES <= length texts)%nat -> parse_all (take LWIP_IPV6_NUM_ADDRESSES texts) = Some l ->
  ip6_mode (dat w) <> MMIPAL_IP6_STATIC ->
  exists w', mmipal_set_ip6_config dhcp6 e {| cfg_ip6_mode := MMIPAL_IP6_DISABLED; cfg_ip6_addr := texts |} w = Ok (MMIPAL_SUCCESS, w') /\
    ip6_mode (dat w') = MMIPAL_IP6_AUTOCONFIG /\ In (Ip6Autoconfig true) (trace w').
Proof.
  intros Hl Hp Hm. unfold mmipal_set_ip6_config. rewrite bind_get. cbn [cfg_ip6_addr cfg_ip6_mode]. rewrite decide_False, Hp by lia.
  rewrite (bool_decide_false _ Hm). destruct dhcp6; cbn; eexists; (split; [reflexivity|]); (split; [reflexivity|]); cbn;
    repeat (apply in_or_app; (by right; left) || left); by right; left.
Qed.

(** AutoIP is not supported, but start-up with it succeeds. *)
Lemma autoip_init_succeeds dhcp autoconfig stateless dhcp6 e b args w :
  pristine w -> boot_works b -> env_ok e -> LoadConfig.mode (loaded args) = MMIPAL_AUTOIP -> LoadConfig.ip6_mode (loaded args) = MMIPAL_IP6_DISABLED ->
  exists w', mmipal_init dhcp autoconfig stateless dhcp6 true e b args w = Ok (MMIPAL_SUCCESS, w') /\ ip4_mode (dat w') = MMIPAL_AUTOIP.
Proof.
  intros Hw Hb He Hm H6. destruct args as [[] ? ?]. cbn in Hm, H6. subst.
  match goal with |- context[mmipal_init _ _ _ _ _ _ _ ?x _] =>
    destruct (init_done dhcp autoconfig stateless dhcp6 e b x w _ Hw Hb He eq_refl) as (w' & E & _ & _ & _ & _ & _ & _ & M & _) end.
  by exists w'.
Qed.

(** With DHCP left to the chip the static addresses are still required. *)
Lemma dhcp_offload_needs_addresses dhcp autoconfig stateless dhcp6 e b args w r :
  LoadConfig.mode (loaded args) = MMIPAL_DHCP_OFFLOAD -> LoadConfig.ip_addr (loaded args) = 0 :: r ->
  exists w', mmipal_init dhcp autoconfig stateless dhcp6 true e b args w = Ok (MMIPAL_INVALID_ARGUMENT, w').
Proof.
  intros Hm Ha. unfold mmipal_init. cbn [negb]. rewrite bind_modify. destruct args as [[] ? ?]. cbn in *. subst.
  unfold parse3. rewrite aton_empty. by eexists.
Qed.

(** The ARP offloads are asked for only when a callback is registered. *)
Lemma offload_needs_callback d : link_status_callback d = None -> ext_link_status_callback d = None -> announce d = mret tt.
Proof. intros H1 H2. unfold announce. rewrite H1, H2. by rewrite bool_decide_false by (intros [[? ?]|[? ?]]; discriminate). Qed.

(** A new address on a link that is up: nobody is told, and the chip answers for
    the old one. *)
Lemma new_address_not_offloaded e a m g w :
  good w -> ip_link_state (dat w) = MMIPAL_LINK_UP -> ip_addr_isany a = false -> ip4_mode (dat w) <> MMIPAL_DHCP_OFFLOAD ->
  exists w', netif_set_addr e a m g w = Ok (tt, w') /\ trace w' = trace w ++ [NetifAddrs a m g] /\ ip_addr (lwip_mmnetif (dat w')) = a.
Proof.
  intros [Hc Hs] Hu Ha Hm. unfold netif_set_addr, modify_netif. rewrite bind_get, bind_emit, bind_modify. rewrite Hc. cbn [andb].
  destruct (notifies _ _); cbn [when]; [|by eexists]. unfold netif_status_callback. rewrite bind_get. cbn.
  rewrite (bool_decide_false _ Hm). cbn. rewrite Hu in Hs. unfold state_of, mmipal_link_status_check in *. cbn in *. rewrite Ha.
  destruct (MmNetif.link_up _); [|by rewrite andb_false_r in Hs]. cbn. rewrite Hu. cbn. by eexists.
Qed.
End Laws.
End Ipal.

(** ** An instance *)

(** IPv4 addresses only, as four octets; the text has a character for each, one
    more than its value. *)
Definition quad : Type := Byte.byte * Byte.byte * Byte.byte * Byte.byte.
Definition byte_of (z : Z) : Byte.byte := default Byte.x00 (Byte.of_N (Z.to_N (z mod 256))).
Definition of_byte (b : Byte.byte) : Z := Z.of_N (Byte.to_N b).
Definition char_octet (c : Z) : option Byte.byte := if decide (1 <= c) then Byte.of_N (Z.to_N (c - 1)) else None.

Definition quad_of (z : Z) : quad := (byte_of (z / 2 ^ 24), byte_of (z / 2 ^ 16), byte_of (z / 2 ^ 8), byte_of z).
Definition of_quad (q : quad) : Z :=
  let '(a, b, c, d) := q in of_byte a * 2 ^ 24 + of_byte b * 2 ^ 16 + of_byte c * 2 ^ 8 + of_byte d.
Definition quad_text (q : quad) : bytes := let '(a, b, c, d) := q in [of_byte a + 1; of_byte b + 1; of_byte c + 1; of_byte d + 1].
Definition text_quad (t : bytes) : option quad :=
  match t with
  | a :: b :: c :: d :: 0 :: _ => a ← char_octet a; b ← char_octet b; c ← char_octet c; d ← char_octet d; Some (a, b, c, d)
  | _ => None
  end.

#[local] Instance ex_lwip : Lwip := {|
  ip_addr_t := quad; ip4 := quad_of; ip_2_ip4 := of_quad; ip6_any := quad_of 0; ip_2_ip6 := id; IP_IS_V6 := fun _ => false;
  ip_addr_isany := fun q => bool_decide (of_quad q = 0); ipaddr_aton := text_quad;
  ipaddr_ntoa_r := fun q size => if decide (4 < size) then Some (quad_text q) else None;
  notifies := fun _ _ => true; LWIP_IPV6_NUM_ADDRESSES := 3 |}.

Lemma of_byte_range b : 0 <= of_byte b < 256.
Proof. unfold of_byte. pose proof (Byte.to_N_bounded b). lia. Qed.

Lemma of_byte_of z : of_byte (byte_of z) = z mod 256.
Proof.
  unfold of_byte, byte_of. destruct (Byte.of_N (Z.to_N (z mod 256))) as [b|] eqn:E; cbn.
  - apply Byte.to_of_N in E. rewrite E. pose proof (Z.mod_pos_bound z 256). lia.
  - apply Byte.of_N_None_iff in E. pose proof (Z.mod_pos_bound z 256). lia.
Qed.

Lemma of_quad_of z : is_u32 z -> of_quad (quad_of z) = z.
Proof. intros Hz. unfold of_quad, quad_of. rewrite !of_byte_of. zlia. Qed.

Lemma char_octet_of b : char_octet (of_byte b + 1) = Some b.
Proof.
  pose proof (of_byte_range b). unfold char_octet. rewrite decide_True by lia.
  replace (of_byte b + 1 - 1) with (of_byte b) by lia. unfold of_byte. rewrite N2Z.id. apply Byte.of_to_N.
Qed.

#[local] Instance ex_lwip_laws : LwipLaws.
Proof.
  constructor.
  - apply of_quad_of.
  - intros z Hz. change (bool_decide (of_quad (quad_of z) = 0) = bool_decide (z = 0)). by rewrite of_quad_of.
  - done.
  - intros [[[a b] c] d]. pose proof (of_byte_range a). pose proof (of_byte_range b). pose proof (of_byte_range c).
    pose proof (of_byte_range d). cbn. unfold is_u32. lia.
  - intros [[[a b] c] d]. eexists. split; [reflexivity|]. reflexivity.
  - intros [[[a b] c] d] t rest [= <-].
    change (text_quad (quad_text (a, b, c, d) ++ 0 :: rest) = Some (a, b, c, d)).
    unfold text_quad, quad_text. cbn [app]. by rewrite !char_octet_of.
  - intros rest. change (text_quad (0 :: rest) = None). destruct rest as [|b [|c [|d [|z rest]]]]; try done. by destruct z.
  - done.
Qed.

Definition ex_text (a b c d : Z) : bytes := [a + 1; b + 1; c + 1; d + 1] ++ replicate 44 0.
Definition ex_netif : netif :=
  {| drv := {| MmNetif.state := None; MmNetif.link_up := false; MmNetif.hwaddr := []; MmNetif.mtu := 0; MmNetif.recv_count := 0;
               MmNetif.xmit_count := 0; MmNetif.memerr_count := 0; MmNetif.drop_count := 0 |};
     ip_addr := ip_addr_any; netmask := ip_addr_any; gw := ip_addr_any;
     ip6_addrs := replicate 3 (IP6_ADDR_INVALID, ip6_any); callbacks := false |}.
Definition ex_world : world :=
  {| dat := {| lwip_mmnetif := ex_netif; ip_link_state := MMIPAL_LINK_DOWN; offload_arp_response := false; offload_arp_refresh_s := 0;
               dhcp_offload_init_complete := false; link_status_callback := None; ext_link_status_callback := None;
               ext_link_status_callback_arg := 0; ip4_mode := MMIPAL_DISABLED; ip6_mode := MMIPAL_IP6_DISABLED |};
     trace := []; tcpip_init_done := false |}.
Definition ex_env : env := {| sta_connected := true; dhcp_start_ok := true; dhcp6_ok := true; on_start := None; on_stop := None |}.
Definition ex_boot : boot :=
  {| initialised := false; boot_ok := true; boot_mac := Some [2; 0; 0; 0; 0; 1]; mem_ok := true; rx_cb_ok := true; vif_cb_ok := true |}.
Definition ex_args : mmipal_init_args :=
  {| loaded := {| LoadConfig.mode := MMIPAL_DHCP; LoadConfig.ip_addr := []; LoadConfig.netmask := []; LoadConfig.gateway_addr := [];
                  LoadConfig.ip6_mode := MMIPAL_IP6_AUTOCONFIG; LoadConfig.ip6_addr := [] |};
     arg_arp_response := true; arg_arp_refresh_s := 60 |}.

Definition ex_events : list (event * env) :=
  [(EvLink true, ex_env); (EvAddr (quad_of 5) (quad_of 6) (quad_of 7), ex_env); (EvStatus, ex_env); (EvLink false, ex_env)].

Definition offloads (a : action) : option Z :=
  match a with ArpResponseOffload x => Some x | ArpRefreshOffload _ x => Some x | _ => None end.

(** DHCP: the link comes up, then the address; later the link is lost.  The
    callback is told of the second and the last event. *)
Example ex_notifications :
  match (_ ← mmipal_init true true true true true ex_env ex_boot ex_args; mmipal_set_link_status_callback (Some 1%positive);; run ex_events) ex_world with
  | Ok (_, w) => Some (map (fun p => st_link p.2) (omap to_link (trace w)), omap offloads (trace w))
  | Fail _ => None
  end = Some ([MMIPAL_LINK_UP; MMIPAL_LINK_DOWN], [5; 7]).
Proof. vm_compute. reflexivity. Qed.

Lemma link_notifications_witness :
  exists w1 w2 tr sts,
    mmipal_init true true true true true ex_env ex_boot ex_args ex_world = Ok (MMIPAL_SUCCESS, w1) /\
    (mmipal_set_link_status_callback (Some 1%positive);; run ex_events) w1 = Ok (tt, w2) /\
    trace w2 = trace w1 ++ tr /\ omap to_link tr = map (pair 1%positive) sts /\
    all_true (iface_of (lwip_mmnetif (dat w1))) tr /\
    alternates MMIPAL_LINK_DOWN (map st_link sts) (ip_link_state (dat w2)).
Proof.
  destruct (link_notifications true true true true ex_env ex_boot ex_args ex_world
    {| la_mode := MMIPAL_DHCP; la_ip6_mode := MMIPAL_IP6_AUTOCONFIG; la_ip_addr := ip_addr_any; la_netmask := ip_addr_any;
       la_gateway_addr := ip_addr_any; la_ip6_addr := ip_addr_any |} 1%positive ex_events)
    as (w1 & w2 & tr & sts & E1 & E2 & T & D & _ & Ft & A & _).
  - constructor; reflexivity.
  - unfold boot_works. split_and!; try reflexivity. by eexists.
  - split; reflexivity.
  - reflexivity.
  - repeat (constructor; [split; [split; reflexivity|exact I]|]). constructor.
  - exists w1, w2, tr, sts. split; [exact E1|]. split; [exact E2|]. split; [exact T|]. split; [exact D|]. split; [exact Ft|exact A].
Defined.

(** The interface after start-up, with a static address. *)
Definition ex_running : world :=
  {| dat := set_netif (with_callbacks ex_netif) (set_modes MMIPAL_DHCP MMIPAL_IP6_AUTOCONFIG (dat ex_world)); trace := []; tcpip_init_done := true |}.
Definition ex_static : mmipal_ip_config :=
  {| cfg_mode := MMIPAL_STATIC; cfg_ip := ex_text 192 168 1 2; cfg_netmask := ex_text 255 255 255 0; cfg_gateway := ex_text 192 168 1 1 |}.

Lemma set_ip_config_correct_witness :
  exists r w', mmipal_set_ip_config ex_env ex_static ex_running = Ok (r, w') /\
    (r = MMIPAL_SUCCESS -> ip4_mode (dat w') = MMIPAL_STATIC).
Proof.
  destruct (set_ip_config_correct ex_env ex_static ex_running) as (r & w' & E & Hr).
  - constructor; reflexivity.
  - split; reflexivity.
  - exists r, w'. split; [exact E|]. intros ->. apply Hr.
Defined.
End MmIpal.
