(* ===== verification/IperfTcp.v ===== *)
(** The TCP test over lwIP: [framework/src/mmiperf/lwip/mmiperf_tcp.c].

    A session is the state its callbacks work on, [None] once it has been freed.
    lwIP's answers (the room in the send buffer, whether [tcp_write] and
    [tcp_close] succeed) and the clock are arguments; what is asked of lwIP and
    of the application is a list of actions.  The members [remote_addr] and
    [client_tradeoff_mode], which nothing reads, are left out. *)

From S2P Require Import Prelude CStr IperfCommon IperfUdpClient.

Module IperfTcp.
Import IperfCommon.
Import IperfUdpClient(MMIPERF_DEFAULT_PORT, mmiperf_client_args, arg_server_addr, arg_server_port, arg_target_bw, arg_packet_size,
  arg_amount, arg_report_fn, arg_version, Build_mmiperf_client_args, iperf_data_len).

(** ** Data *)

Definition IPERF_TCP_MAX_IDLE_S : Z := 140.
Definition IPV6_HEADER_SIZE_DIFF : Z := 20.

Inductive err_t := ERR_OK | ERR_MEM | ERR_ARG | ERR_VAL | ERR_ALREADY | ERR_LWIP.

#[global] Instance tcp_err_eq_dec : EqDecision err_t.
Proof. solve_decision. Defined.

(** The words as they are in memory. *)
Record iperf_settings := {
  flags : Z; num_threads : Z; remote_port : Z; buffer_len : Z; win_band : Z; amount : Z;
}.

Definition settings_octets (s : iperf_settings) : bytes :=
  words_octets [flags s; num_threads s; remote_port s; buffer_len s; win_band s; amount s].
Definition settings_of (b : bytes) : iperf_settings :=
  let w i := nth i (octets_words b) 0 in
  {| flags := w 0%nat; num_threads := w 1%nat; remote_port := w 2%nat; buffer_len := w 3%nat; win_band := w 4%nat; amount := w 5%nat |}.
Definition zero_settings : iperf_settings :=
  {| flags := 0; num_threads := 0; remote_port := 0; buffer_len := 0; win_band := 0; amount := 0 |}.

(** Control blocks are known by their addresses. *)
Record iperf_state_tcp := {
  base : mmiperf_state;
  server_pcb : option positive;
  conn_pcb : option positive;
  poll_count : Z;
  mss : Z;
  settings : iperf_settings;
  have_settings_buf : bool;
  bw_limit : bool;
  block_end_time : Z;
  block_txlen : Z;
  block_remaining_txlen : Z;
}.

Definition set_base (c : iperf_state_tcp) (b : mmiperf_state) : iperf_state_tcp :=
  {| base := b; server_pcb := server_pcb c; conn_pcb := conn_pcb c; poll_count := poll_count c; mss := mss c; settings := settings c;
     have_settings_buf := have_settings_buf c; bw_limit := bw_limit c; block_end_time := block_end_time c; block_txlen := block_txlen c;
     block_remaining_txlen := block_remaining_txlen c |}.
Definition set_pcbs (c : iperf_state_tcp) (s k : option positive) : iperf_state_tcp :=
  {| base := base c; server_pcb := s; conn_pcb := k; poll_count := poll_count c; mss := mss c; settings := settings c;
     have_settings_buf := have_settings_buf c; bw_limit := bw_limit c; block_end_time := block_end_time c; block_txlen := block_txlen c;
     block_remaining_txlen := block_remaining_txlen c |}.
Definition set_poll (c : iperf_state_tcp) (n : Z) : iperf_state_tcp :=
  {| base := base c; server_pcb := server_pcb c; conn_pcb := conn_pcb c; poll_count := n; mss := mss c; settings := settings c;
     have_settings_buf := have_settings_buf c; bw_limit := bw_limit c; block_end_time := block_end_time c; block_txlen := block_txlen c;
     block_remaining_txlen := block_remaining_txlen c |}.
Definition set_settings (c : iperf_state_tcp) (s : iperf_settings) (have : bool) : iperf_state_tcp :=
  {| base := base c; server_pcb := server_pcb c; conn_pcb := conn_pcb c; poll_count := poll_count c; mss := mss c; settings := s;
     have_settings_buf := have; bw_limit := bw_limit c; block_end_time := block_end_time c; block_txlen := block_txlen c;
     block_remaining_txlen := block_remaining_txlen c |}.
Definition set_block (c : iperf_state_tcp) (t r : Z) : iperf_state_tcp :=
  {| base := base c; server_pcb := server_pcb c; conn_pcb := conn_pcb c; poll_count := poll_count c; mss := mss c; settings := settings c;
     have_settings_buf := have_settings_buf c; bw_limit := bw_limit c; block_end_time := t; block_txlen := block_txlen c;
     block_remaining_txlen := r |}.

Definition moved (c : iperf_state_tcp) : Z := bytes_transferred (report (base c)).
Definition set_moved (c : iperf_state_tcp) (n : Z) : iperf_state_tcp :=
  set_base c (set_report (base c) (set_rate (report (base c)) n (duration_ms (report (base c))) (bandwidth_kbitpsec (report (base c))))).
Definition set_started (c : iperf_state_tcp) (t : Z) : iperf_state_tcp :=
  set_base c (set_times (base c) t (last_rx_time_ms (base c))).

(** [Detach]: the callbacks and the argument of a control block are cleared;
    [Attach]: they are set.  [TcpRecved] opens the receive window. *)
Inductive action :=
| Report (r : mmiperf_report)
| Attach (pcb : positive) | Detach (pcb : positive)
| TcpBind (pcb : positive) (port : Z) | TcpListen (pcb : positive)
| TcpClose (pcb : positive) | TcpAbort (pcb : positive)
| TcpWrite (d : bytes) (copy more : bool)
| TcpOutput
| TcpRecved (n : Z)
| FreeBuf
| Free.

(** ** Closing *)

(** [now] is the clock, [close_ok] whether [tcp_close] succeeds. *)
Record at_close := { now : Z; close_ok : bool }.

Definition iperf_tcp_close (c : iperf_state_tcp) (t : mmiperf_report_type) (x : at_close) : outcome (option iperf_state_tcp * list action) :=
  let '(b, r) := iperf_finalize_report_and_invoke_callback (base c) (u32 (now x - time_started_ms (base c))) t in
  let c := set_base c b in
  let told := match r with Some r => [Report r] | None => [] end in
  '(c, acts) ←
    match conn_pcb c with
    | Some k => Ok (set_pcbs c (server_pcb c) None, [Detach k; TcpClose k] ++ (if close_ok x then [] else [TcpAbort k]))
    | None =>
        match server_pcb c with
        | Some s => assert (close_ok x) ;; Ok (set_pcbs c None None, [TcpClose s])
        | None => Ok (c, [])
        end
    end;
  match conn_pcb c, server_pcb c with
  | None, None => Ok (None, told ++ acts ++ [Free])
  | _, _ => Ok (Some c, told ++ acts)
  end.

(** ** The client *)

(** One turn of the loop: the clock when the time limit and when the block are
    looked at, whether the queue of segments has room, and whether [tcp_write]
    succeeds. *)
Record turn := { now_limit : Z; now_block : Z; queue_ok : bool; write_ok : bool }.

(** The test is over, by time or by octets. *)
Definition over (c : iperf_state_tcp) (t : Z) : bool :=
  if decide (Z.land (amount (settings c)) (bswap32 0x80000000) <> 0) then
    let time := u32 (- s32 (bswap32 (amount (settings c)))) in
    bool_decide (u32 (t - time_started_ms (base c)) >= u32 (time * 10))
  else bool_decide (bswap32 (amount (settings c)) <= moved c).

Definition next_block (c : iperf_state_tcp) (t : Z) : iperf_state_tcp :=
  if bw_limit c && bool_decide (block_end_time c < t)
  then set_block c (u32 (block_end_time c + BLOCK_DURATION_MS)) (s32 (block_remaining_txlen c + block_txlen c))
  else c.

(** What is to be written next: its octets for a given length, the greatest
    length, the flags, and whether to go on afterwards. *)
Definition next_write (c : iperf_state_tcp) : (Z -> outcome bytes) * Z * bool * bool * bool :=
  if decide (moved c < 24) then (rdn (settings_octets (settings c)) (moved c), u16 (24 - moved c), true, false, false)
  else if decide (moved c < 48) then (rdn (settings_octets (settings c)) (moved c - 24), u16 (48 - moved c), true, true, true)
  else (iperf_get_data (u32 (moved c)), u16 (if decide (moved c = 48) then mss c - 24 else mss c), false, false, true).

Inductive turn_result :=
| Over
| Wrote (c : iperf_state_tcp) (snd_buf : Z) (send_more : bool) (acts : list action).

Definition send_turn (c : iperf_state_tcp) (snd_buf : Z) (e : turn) : outcome turn_result :=
  if over c (now_limit e) then Ok Over
  else
    let c := next_block c (now_block e) in
    let '(data, txlen_max, copy, more, send_more) := next_write c in
    if bool_decide (snd_buf >= mss c / 2) && queue_ok e then
      let txlen := if decide (txlen_max > snd_buf) then snd_buf else txlen_max in
      d ← data txlen;
      if write_ok e then
        let c := set_block (set_moved c (u64 (moved c + txlen))) (block_end_time c) (s32 (block_remaining_txlen c - txlen)) in
        Ok (Wrote c (snd_buf - txlen) (send_more && negb (bw_limit c && bool_decide (block_remaining_txlen c <= 0))) [TcpWrite d copy more])
      else Ok (Wrote c snd_buf false [])
    else Ok (Wrote c snd_buf false []).

Fixpoint send_loop (fuel : nat) (env : nat -> turn) (i : nat) (c : iperf_state_tcp) (snd_buf : Z) (x : at_close)
    : outcome (option iperf_state_tcp * list action) :=
  match fuel with
  | O => Fail OutOfFuel
  | S fuel =>
      r ← send_turn c snd_buf (env i);
      match r with
      | Over => iperf_tcp_close c MMIPERF_TCP_DONE_CLIENT x
      | Wrote c snd_buf true acts => '(c, rest) ← send_loop fuel env (S i) c snd_buf x; Ok (c, acts ++ rest)
      | Wrote c snd_buf false acts => Ok (Some c, acts ++ [TcpOutput])
      end
  end.

(** Every turn but the last fills some of the send buffer. *)
Definition iperf_tcp_client_send_more (env : nat -> turn) (c : iperf_state_tcp) (snd_buf : Z) (x : at_close)
    : outcome (option iperf_state_tcp * list action) :=
  assert (bool_decide (tcp (base c) <> 0) && bool_decide (server (base c) = 0)) ;;
  send_loop (S (S (Z.to_nat snd_buf))) env 0 c snd_buf x.

(** Waiting for the end of the block, a millisecond a turn. *)
Fixpoint wait_block (fuel : nat) (clock : nat -> Z) (i : nat) (c : iperf_state_tcp) : outcome unit :=
  match fuel with
  | O => Fail OutOfFuel
  | S fuel =>
      if bw_limit c && bool_decide (block_remaining_txlen c <= 0) && bool_decide (clock i < block_end_time c)
      then wait_block fuel clock (S i) c else Ok tt
  end.

Definition is_conn (c : iperf_state_tcp) (pcb : positive) : bool := bool_decide (conn_pcb c = Some pcb).

Definition iperf_tcp_client_sent (fuel : nat) (clock : nat -> Z) (env : nat -> turn) (c : iperf_state_tcp) (pcb : positive) (snd_buf : Z) (x : at_close)
    : outcome (option iperf_state_tcp * list action) :=
  assert (is_conn c pcb) ;;
  let c := set_poll c 0 in
  wait_block fuel clock 0 c ;;
  iperf_tcp_client_send_more env c snd_buf x.

(** The addresses of a connection, as texts, with their ports. *)
Record ends := { l_addr : bytes; l_port : Z; r_addr : bytes; r_port : Z }.

Definition init_report (c : iperf_state_tcp) (a : ends) : iperf_state_tcp :=
  set_base c (set_report (base c) (set_ends (set_type (report (base c)) MMIPERF_INTERRIM_REPORT) (l_addr a) (l_port a) (r_addr a) (r_port a))).

(** [t1], [t2]: the clock at its two readings. *)
Definition iperf_tcp_client_connected (env : nat -> turn) (c : iperf_state_tcp) (pcb : positive) (ok : bool) (a : ends) (t1 t2 : Z) (snd_buf : Z) (x : at_close)
    : outcome (option iperf_state_tcp * list action) :=
  assert (is_conn c pcb) ;;
  if negb ok then iperf_tcp_close c MMIPERF_TCP_ABORTED_REMOTE x
  else
    let c := set_poll c 0 in
    let c := set_started c t1 in
    let c := set_block c (u32 (t2 + BLOCK_DURATION_MS)) (block_remaining_txlen c) in
    iperf_tcp_client_send_more env (init_report c a) snd_buf x.

(** [family]: what [ipaddr_aton] makes of the address, [Some true] for IPv6;
    [pcb] is the new control block; [connect] is what [tcp_connect] returns. *)
Definition iperf_tx_start_impl (TCP_MSS : Z) (args : mmiperf_client_args) (s : iperf_settings) (alloc_ok : bool) (family : option bool)
    (pcb : option positive) (connect : err_t) (t : Z) (x : at_close) : outcome (err_t * option iperf_state_tcp * list action) :=
  if negb alloc_ok then Ok (ERR_MEM, None, [])
  else
    match family with
    | None => Ok (ERR_ARG, None, [Free])
    | Some v6 =>
        match pcb with
        | None => Ok (ERR_MEM, None, [Free])
        | Some k =>
            let m := if v6 then u32 (TCP_MSS - IPV6_HEADER_SIZE_DIFF) else TCP_MSS in
            let limited := negb (bool_decide (arg_target_bw args = 0)) in
            let block := if limited then u32 (arg_target_bw args * BLOCK_DURATION_MS) / 8 else 0 in
            let c := {| base := {| next := None; tcp := 1; server := 0; time_started_ms := t; last_rx_time_ms := 0;
                                   report := zero_report; report_fn := arg_report_fn args |};
                        server_pcb := None; conn_pcb := Some k; poll_count := 0; mss := m; settings := s; have_settings_buf := true;
                        bw_limit := limited; block_end_time := 0; block_txlen := block; block_remaining_txlen := s32 block |} in
            if limited && bool_decide (m > block) then
              '(_, acts) ← iperf_tcp_close c MMIPERF_TCP_ABORTED_LOCAL x; Ok (ERR_ARG, None, acts)
            else
              if decide (connect <> ERR_OK) then
                '(_, acts) ← iperf_tcp_close c MMIPERF_TCP_ABORTED_LOCAL x; Ok (connect, None, Attach k :: acts)
              else Ok (ERR_OK, Some c, [Attach k])
        end
    end.

Definition mmiperf_start_tcp_client (TCP_MSS : Z) (args : mmiperf_client_args) (alloc_ok : bool) (family : option bool)
    (pcb : option positive) (connect : err_t) (t : Z) (x : at_close) : outcome (option iperf_state_tcp * list action) :=
  let s := {| flags := 0; num_threads := bswap32 1; remote_port := bswap32 MMIPERF_DEFAULT_PORT; buffer_len := 0; win_band := 0;
              amount := bswap32 (u32 (arg_amount args)) |} in
  '(ret, c, acts) ← iperf_tx_start_impl TCP_MSS args s alloc_ok family pcb connect t x;
  if decide (ret = ERR_OK) then assert (bool_decide (c <> None)) ;; Ok (c, acts) else Ok (None, acts).

(** ** The server *)

(** The check of the header: at the start, and whenever the octets after it are
    a multiple of 128 KiB. *)
Definition at_header (c : iperf_state_tcp) : bool :=
  negb (have_settings_buf c) || bool_decide (u64 (moved c - 24) mod (1024 * 128) = 0).

(** [p]: the payloads of the chain of buffers, [None] for NULL; [copied] is what
    [pbuf_copy_partial] returns; [t] is the clock. *)
Definition iperf_tcp_recv (c : iperf_state_tcp) (pcb : positive) (p : option (list bytes)) (ok : bool) (copied t : Z) (x : at_close)
    : outcome (err_t * option iperf_state_tcp * list action) :=
  assert (is_conn c pcb) ;;
  if negb ok then '(c, acts) ← iperf_tcp_close c MMIPERF_TCP_ABORTED_REMOTE x; Ok (ERR_OK, c, acts)
  else
    match p with
    | None => '(c, acts) ← iperf_tcp_close c MMIPERF_TCP_DONE_SERVER x; Ok (ERR_OK, c, acts)
    | Some chain =>
        let tot_len := zlen (concat chain) in
        let c := set_poll c 0 in
        if at_header c then
          if decide (tot_len < 24) then
            '(c, acts) ← iperf_tcp_close c MMIPERF_TCP_ABORTED_LOCAL_DATAERROR x; Ok (ERR_OK, c, acts ++ [FreeBuf])
          else if negb (have_settings_buf c) && bool_decide (copied <> 24) then
            '(c, acts) ← iperf_tcp_close c MMIPERF_TCP_ABORTED_LOCAL x; Ok (ERR_OK, c, acts ++ [FreeBuf])
          else
            let c := if have_settings_buf c then c else set_settings c (settings_of (take 24 (concat chain))) true in
            let c := set_moved c (u64 (moved c + 24)) in
            if decide (moved c <= 24) then Ok (ERR_OK, Some (set_started c t), [TcpRecved tot_len; FreeBuf])
            else Ok (ERR_OK, Some (set_moved c (u64 (moved c + (tot_len - 24)))), [TcpRecved tot_len; FreeBuf])
        else Ok (ERR_OK, Some (set_moved c (u64 (moved c + tot_len))), [TcpRecved tot_len; FreeBuf])
    end.

Definition iperf_tcp_err (c : iperf_state_tcp) (x : at_close) : outcome (option iperf_state_tcp * list action) :=
  iperf_tcp_close (set_pcbs c None None) MMIPERF_TCP_ABORTED_REMOTE x.

Definition iperf_tcp_poll (env : nat -> turn) (c : iperf_state_tcp) (pcb : positive) (snd_buf : Z) (x : at_close)
    : outcome (err_t * option iperf_state_tcp * list action) :=
  assert (is_conn c pcb) ;;
  let c := set_poll c (u8 (poll_count c + 1)) in
  if decide (poll_count c >= IPERF_TCP_MAX_IDLE_S) then
    '(c, acts) ← iperf_tcp_close c MMIPERF_TCP_ABORTED_LOCAL x; Ok (ERR_OK, c, acts)
  else if decide (server (base c) = 0) then
    '(c, acts) ← iperf_tcp_client_send_more env c snd_buf x; Ok (ERR_OK, c, acts)
  else Ok (ERR_OK, Some c, []).


(** [local_ok]: whether [ipaddr_aton] takes the local address; [pcb]: the new
    control block; [bind], [listen]: what the calls return, the listening control
    block being [listener], NULL when it fails. *)
Definition iperf_start_tcp_server_impl (args_local_addr : bytes) (args_local_port : Z) (fn local_ok alloc_ok : bool) (pcb : option positive)
    (bind listen : err_t) (listener : positive) : err_t * option iperf_state_tcp * list action :=
  if bool_decide (cstr args_local_addr <> []) && negb local_ok then (ERR_ARG, None, [])
  else if negb alloc_ok then (ERR_MEM, None, [])
  else
    match pcb with
    | None => (ERR_MEM, None, [Free])
    | Some k =>
        let port := if decide (args_local_port = 0) then MMIPERF_DEFAULT_PORT else args_local_port in
        if decide (bind <> ERR_OK) then (bind, None, [TcpBind k port; TcpClose k; Free])
        else if decide (listen <> ERR_OK) then (listen, None, [TcpBind k port; Free])
        else
          (ERR_OK,
           Some {| base := {| next := None; tcp := 1; server := 1; time_started_ms := 0; last_rx_time_ms := 0;
                              report := zero_report; report_fn := fn |};
                   server_pcb := Some listener; conn_pcb := None; poll_count := 0; mss := 0; settings := zero_settings;
                   have_settings_buf := false; bw_limit := false; block_end_time := 0; block_txlen := 0; block_remaining_txlen := 0 |},
           [TcpBind k port; TcpListen listener; Attach listener])
    end.


(** ** Runs *)

(** The callbacks of a client's session, with what they meet. *)
Inductive client_event :=
| Connected (ok : bool) (a : ends) (t1 t2 : Z) (env : nat -> turn) (snd_buf : Z) (x : at_close)
| Sent (fuel : nat) (clock : nat -> Z) (env : nat -> turn) (snd_buf : Z) (x : at_close)
| Poll (env : nat -> turn) (snd_buf : Z) (x : at_close)
| Err (x : at_close).

Definition client_step (k : positive) (c : iperf_state_tcp) (e : client_event) : outcome (option iperf_state_tcp * list action) :=
  match e with
  | Connected ok a t1 t2 env sb x => iperf_tcp_client_connected env c k ok a t1 t2 sb x
  | Sent fuel clock env sb x => iperf_tcp_client_sent fuel clock env c k sb x
  | Poll env sb x => '(_, c, acts) ← iperf_tcp_poll env c k sb x; Ok (c, acts)
  | Err x => iperf_tcp_err c x
  end.

(** A session that has been freed is not called any more. *)
Fixpoint client_run (k : positive) (c : option iperf_state_tcp) (l : list client_event) : outcome (option iperf_state_tcp * list action) :=
  match c, l with
  | Some c, e :: l => '(c, a1) ← client_step k c e; '(c, a2) ← client_run k c l; Ok (c, a1 ++ a2)
  | _, _ => Ok (c, [])
  end.


(** What an action writes into the connection, and what it reports. *)
Definition written (a : action) : option bytes := match a with TcpWrite d _ _ => Some d | _ => None end.
Definition reported (a : action) : option mmiperf_report := match a with Report r => Some r | _ => None end.
Definition stream (acts : list action) : bytes := concat (omap written acts).

(** ** The stream of a client *)

(** What a client sends: its settings twice, then digits that count. *)
Definition octet_at (s : iperf_settings) (i : nat) : Z :=
  if decide (i < 24)%nat then nth i (settings_octets s) 0
  else if decide (i < 48)%nat then nth (i - 24) (settings_octets s) 0
  else 48 + Z.of_nat i mod 10.
Definition expected (s : iperf_settings) (from n : nat) : bytes := map (octet_at s) (seq from n).

Lemma window_map_nth (l : bytes) off n : (off + n <= length l)%nat -> window off n l = map (fun i => nth i l 0) (seq off n).
Proof.
  unfold window. revert off. induction n as [|n IH]; intros off Hn; [by rewrite take_0|].
  destruct (lookup_lt_is_Some_2 l off) as [x Hx]; [lia|]. rewrite (drop_S _ x off Hx). cbn [take seq map].
  rewrite IH by lia. f_equal. symmetry. apply nth_lookup_Some with (d := 0) in Hx. done.
Qed.

Lemma iperf_data_nth i : (i < 1600)%nat -> nth i iperf_data 0 = 48 + Z.of_nat i mod 10.
Proof.
  intros Hi. assert (H : forallb (fun i => nth i iperf_data 0 =? 48 + Z.of_nat i mod 10) (seq 0 1600) = true) by (vm_compute; reflexivity).
  rewrite forallb_forall in H. apply Z.eqb_eq, (H i), in_seq. lia.
Qed.

Lemma settings_len s : zlen (settings_octets s) = 24.
Proof. unfold settings_octets. rewrite words_octets_len. done. Qed.

Lemma map_seq_shift {A} (f g : nat -> A) a b n : (forall i, (i < n)%nat -> f (a + i)%nat = g (b + i)%nat) -> map f (seq a n) = map g (seq b n).
Proof.
  revert a b. induction n as [|n IH]; intros a b H; [done|]. cbn [seq map]. f_equal.
  - specialize (H 0%nat). rewrite !Nat.add_0_r in H. apply H. lia.
  - apply IH. intros i Hi. specialize (H (S i)). rewrite !Nat.add_succ_r in H. rewrite !Nat.add_succ_l. apply H. lia.
Qed.

(** The data of the next write, whatever part of it is written. *)
Lemma next_write_data c n txlen :
  moved c = Z.of_nat n -> Z.of_nat n < 2 ^ 32 -> 40 <= mss c <= 1590 ->
  let '(data, len_max, copy, more, send_more) := next_write c in
  0 < len_max <= mss c /\
  (0 <= txlen <= len_max -> data txlen = Ok (expected (settings c) n (Z.to_nat txlen))).
Proof.
  intros Hm Hn Hs. pose proof (settings_len (settings c)) as HL. unfold next_write, expected.
  destruct (decide (moved c < 24)) as [H24|H24]; [|destruct (decide (moved c < 48)) as [H48|H48]].
  - rewrite u16_id by zlia. split; [lia|]. intros Ht. rewrite rdn_Ok by lia. rewrite window_map_nth by lia. f_equal.
    apply map_seq_shift. intros i Hi. unfold octet_at. rewrite decide_True by lia. f_equal. lia.
  - rewrite u16_id by zlia. split; [lia|]. intros Ht. rewrite rdn_Ok by lia. rewrite window_map_nth by lia. f_equal.
    apply map_seq_shift. intros i Hi. unfold octet_at. rewrite decide_False, decide_True by lia. f_equal. lia.
  - assert (0 < u16 (if decide (moved c = 48) then mss c - 24 else mss c) <= mss c).
    { destruct (decide _); rewrite u16_id by zlia; lia. }
    split; [done|]. intros Ht. unfold iperf_get_data. rewrite Hm, u32_id by zlia.
    pose proof (Z.mod_pos_bound (Z.of_nat n) 10 ltac:(lia)).
    rewrite rdn_Ok by (rewrite ?iperf_data_len; lia). rewrite window_map_nth by (pose proof iperf_data_len; lia). f_equal.
    apply map_seq_shift. intros i Hi. rewrite iperf_data_nth by lia. unfold octet_at. rewrite !decide_False by lia. f_equal.
    rewrite Nat2Z.inj_add, Z2Nat.id, Nat2Z.inj_add by lia. by rewrite Zplus_mod_idemp_l.
Qed.

(** A client of a test of [A] octets that has written [n] of them. *)
Record client_at (s : iperf_settings) (m A : Z) (k : positive) (fn : bool) (c : iperf_state_tcp) (n : nat) : Prop := {
  a_tcp : tcp (base c) = 1;
  a_server : server (base c) = 0;
  a_fn : report_fn (base c) = fn;
  a_pcbs : server_pcb c = None /\ conn_pcb c = Some k;
  a_settings : settings c = s;
  a_mss : mss c = m;
  a_moved : moved c = Z.of_nat n;
  a_bound : Z.of_nat n < A + m;
  a_block : block_end_time c < 2 ^ 32;
}.

(** A test limited by octets. *)
Record byte_test (s : iperf_settings) (A : Z) : Prop := {
  t_sign : Z.land (amount s) (bswap32 0x80000000) = 0;
  t_amount : bswap32 (amount s) = A;
  t_range : 0 <= A < 2 ^ 31;
}.

(** What a callback does to such a client. *)
Definition goes_on (s : iperf_settings) (m A : Z) (k : positive) (fn : bool) (n : nat) (c' : option iperf_state_tcp) (acts : list action) : Prop :=
  exists n', (n <= n')%nat /\ Z.of_nat n' < A + m /\ stream acts = expected s n (n' - n) /\
    match c' with
    | Some c' => client_at s m A k fn c' n' /\ omap reported acts = []
    | None =>
        exists r, omap reported acts = (if fn then [r] else []) /\ bytes_transferred r = Z.of_nat n' /\
          (report_type r = MMIPERF_TCP_DONE_CLIENT /\ A <= Z.of_nat n' \/
           report_type r = MMIPERF_TCP_ABORTED_LOCAL \/ report_type r = MMIPERF_TCP_ABORTED_REMOTE)
    end.

Lemma stream_app a b : stream (a ++ b) = stream a ++ stream b.
Proof. unfold stream. by rewrite omap_app, concat_app. Qed.

Lemma expected_app s n a b : expected s n (a + b) = expected s n a ++ expected s (n + a) b.
Proof. unfold expected. by rewrite seq_app, map_app. Qed.

Lemma goes_on_trans s m A k fn n n1 a1 c' a2 :
  (n <= n1)%nat -> stream a1 = expected s n (n1 - n) -> omap reported a1 = [] ->
  goes_on s m A k fn n1 c' a2 -> goes_on s m A k fn n c' (a1 ++ a2).
Proof.
  intros Hn Hs Hr (n2 & H2 & Hb & Hs2 & Hc). exists n2. split; [lia|]. split; [done|]. split.
  { rewrite stream_app, Hs, Hs2. replace (n2 - n)%nat with ((n1 - n) + (n2 - n1))%nat by lia. rewrite expected_app.
    by replace (n + (n1 - n))%nat with n1 by lia. }
  rewrite omap_app, Hr. done.
Qed.

Lemma rate_bytes r d : bytes_transferred (rate r d) = bytes_transferred r /\ report_type (rate r d) = report_type r.
Proof. unfold rate. by destruct (decide _). Qed.

(** One report, of the given type. *)
Definition ended (fn : bool) (t : mmiperf_report_type) (acts : list action) : Prop :=
  exists r, omap reported acts = (if fn then [r] else []) /\ report_type r = t.

(** Closing a client ends it with one report. *)
Lemma close_client s m A k fn c n t x :
  client_at s m A k fn c n -> t = MMIPERF_TCP_DONE_CLIENT /\ A <= Z.of_nat n \/ t = MMIPERF_TCP_ABORTED_LOCAL \/ t = MMIPERF_TCP_ABORTED_REMOTE ->
  exists acts, iperf_tcp_close c t x = Ok (None, acts) /\ goes_on s m A k fn n None acts /\ ended fn t acts.
Proof.
  intros [_ _ Hf [Hs Hk] _ _ Hm Hb _] Ht. unfold iperf_tcp_close, iperf_finalize_report_and_invoke_callback.
  cbn [set_base conn_pcb server_pcb]. rewrite Hk, Hs, Hf. cbn [mbind outcome_bind set_pcbs conn_pcb server_pcb set_base]. rewrite ?Hs.
  eexists. split; [reflexivity|]. set (r := rate _ _). pose proof (rate_bytes (set_type (report (base c)) t) (u32 (now x - time_started_ms (base c)))) as [Eb Et].
  fold r in Eb, Et. split; [|exists r; split; [by destruct fn, (close_ok x)|exact Et]].
  exists n. rewrite Nat.sub_diag. split; [done|]. split; [done|].
  split; [by destruct fn, (close_ok x)|]. exists r. split; [by destruct fn, (close_ok x)|].
  rewrite Eb, Et. cbn. split; [exact Hm|]. naive_solver.
Qed.

Lemma over_bytes s A c t : byte_test s A -> settings c = s -> over c t = bool_decide (A <= moved c).
Proof. intros [H1 H2 _] Hs. unfold over. rewrite Hs, H1, H2. rewrite decide_False by tauto. done. Qed.

Lemma next_block_at s m A k fn c n t : client_at s m A k fn c n -> client_at s m A k fn (next_block c t) n.
Proof. intros []. unfold next_block. destruct (_ && _); [|done]. constructor; try done. cbn. zlia. Qed.

(** One turn. *)
Lemma send_turn_at s m A k fn c n sb e :
  client_at s m A k fn c n -> byte_test s A -> 40 <= m <= 1590 -> 0 <= sb ->
  send_turn c sb e = Ok Over /\ A <= Z.of_nat n \/
  exists c' sb' more acts n', send_turn c sb e = Ok (Wrote c' sb' more acts) /\ Z.of_nat n < A /\ client_at s m A k fn c' n' /\
    (n <= n')%nat /\ stream acts = expected s n (n' - n) /\ omap reported acts = [] /\ 0 <= sb' <= sb /\ (more = true -> sb' < sb) /\
    (m / 2 <= sb -> 0 < sb -> queue_ok e = true -> write_ok e = true -> (n < n')%nat).
Proof.
  intros Hc Ht Hm Hsb. unfold send_turn. rewrite (over_bytes _ _ _ _ Ht (a_settings _ _ _ _ _ _ _ Hc)).
  rewrite (a_moved _ _ _ _ _ _ _ Hc). case_bool_decide as Hov; [by left|right].
  pose proof (next_block_at _ _ _ _ _ _ _ (now_block e) Hc) as Hb. set (c1 := next_block c (now_block e)) in *.
  pose proof Hb as [B1 B2 B3 B4 B5 B6 B7 B8 B9]. destruct Ht as [_ _ HA].
  pose proof (next_write_data c1 n) as Hd. destruct (next_write c1) as [[[[data len_max] copy] more] go]. rewrite B5, B6 in *.
  case_bool_decide as Hq; [destruct (queue_ok e) eqn:Eq|]; cbn [andb].
  2-3: eexists c1, sb, false, [], n; rewrite Nat.sub_diag; split_and!; try done; try lia; intros; exfalso; congruence || lia.
  set (tx := if decide (len_max > sb) then sb else len_max). pose proof (Z.div_le_lower_bound m 2 20 ltac:(lia) ltac:(lia)) as Hhalf.
  destruct (Hd tx B7 ltac:(lia) ltac:(lia)) as [Hlen Hdata].
  assert (Htx : 0 < tx <= len_max /\ tx <= sb) by (subst tx; destruct (decide _); lia). rewrite Hdata by lia. cbn [mbind outcome_bind].
  destruct (write_ok e); [|eexists c1, sb, false, [], n; rewrite Nat.sub_diag; split_and!; try done; lia].
  eexists _, (sb - tx), _, [_], (n + Z.to_nat tx)%nat. split; [reflexivity|]. split; [lia|]. split.
  { constructor; try done; cbn; rewrite ?B7; [|lia..]. unfold u64. rewrite Z.mod_small by lia. lia. }
  split; [lia|]. split; [unfold stream; cbn; rewrite app_nil_r; f_equal; lia|]. split; [done|]. split; [lia|]. split; [lia|]. lia.
Qed.

(** The whole loop; it starts with enough fuel. *)
Lemma send_loop_at fuel env i s m A k fn c n sb x :
  client_at s m A k fn c n -> byte_test s A -> 40 <= m <= 1590 -> 0 <= sb -> sb < Z.of_nat fuel ->
  exists c' acts, send_loop fuel env i c sb x = Ok (c', acts) /\ goes_on s m A k fn n c' acts /\
    (c' = None -> ended fn MMIPERF_TCP_DONE_CLIENT acts) /\
    (m / 2 <= sb -> 0 < sb -> queue_ok (env i) = true -> write_ok (env i) = true ->
     c' = None \/ Z.of_nat n < A /\ exists c1 n1, c' = Some c1 /\ client_at s m A k fn c1 n1 /\ (n < n1)%nat).
Proof.
  revert i c n sb. induction fuel as [|fuel IH]; intros i c n sb Hc Ht Hm Hsb Hf; [lia|]. cbn [send_loop].
  destruct (send_turn_at s m A k fn c n sb (env i) Hc Ht Hm Hsb) as
    [[-> Hov]|(c1 & sb1 & more & acts & n1 & -> & Hlt & Hc1 & Hn & Hs & Hr & Hsb1 & Hmore & Hprog)]; cbn [mbind outcome_bind].
  - destruct (close_client s m A k fn c n MMIPERF_TCP_DONE_CLIENT x Hc) as (acts & -> & G & En); [by left|]. eexists _, _. split; [done|]. split; [done|]. split; [done|]. by left.
  - destruct more.
    + destruct (IH (S i) c1 n1 sb1 Hc1 Ht Hm) as (c' & rest & -> & G & En & _); [lia|specialize (Hmore eq_refl); lia|]. cbn [mbind outcome_bind].
      eexists _, _. split; [done|]. split; [by eapply goes_on_trans|]. split; [intros H0; unfold ended; rewrite omap_app, Hr; by apply En|]. intros H1 H2 H3 H4. specialize (Hprog H1 H2 H3 H4).
      destruct G as (n2 & Hn2 & _ & _ & Hc'). destruct c' as [c'|]; [right|by left]. split; [done|]. exists c', n2. split; [done|]. split; [apply Hc'|lia].
    + eexists _, _. split; [done|]. split.
      * eapply goes_on_trans; [exact Hn|exact Hs|exact Hr|]. exists n1. rewrite Nat.sub_diag. split; [done|]. split; [apply Hc1|].
        split; [done|]. split; [done|done].
      * split; [discriminate|]. intros H1 H2 H3 H4. right. split; [done|]. exists c1, n1. split; [done|]. split; [done|]. by apply Hprog.
Qed.

Lemma send_more_at env s m A k fn c n sb x :
  client_at s m A k fn c n -> byte_test s A -> 40 <= m <= 1590 -> 0 <= sb ->
  exists c' acts, iperf_tcp_client_send_more env c sb x = Ok (c', acts) /\ goes_on s m A k fn n c' acts /\
    (c' = None -> ended fn MMIPERF_TCP_DONE_CLIENT acts) /\
    (m / 2 <= sb -> 0 < sb -> queue_ok (env 0%nat) = true -> write_ok (env 0%nat) = true ->
     c' = None \/ Z.of_nat n < A /\ exists c1 n1, c' = Some c1 /\ client_at s m A k fn c1 n1 /\ (n < n1)%nat).
Proof.
  intros Hc Ht Hm Hsb. unfold iperf_tcp_client_send_more. rewrite (a_tcp _ _ _ _ _ _ _ Hc), (a_server _ _ _ _ _ _ _ Hc).
  cbn [mbind outcome_bind assert]. apply send_loop_at; [done|done|done|done|lia].
Qed.

Lemma wait_block_Ok fuel clock i c j :
  (i <= j < i + fuel)%nat -> block_end_time c <= clock j -> wait_block fuel clock i c = Ok tt.
Proof.
  revert i. induction fuel as [|fuel IH]; intros i Hj Hc; [lia|]. cbn [wait_block].
  destruct (decide (clock i < block_end_time c)) as [Hl|Hl]; [|by rewrite (bool_decide_false _ Hl), andb_false_r].
  destruct (_ && _ && _); [|done]. apply IH; [|done]. assert (i <> j) by (intros ->; lia). lia.
Qed.

(** Reasonable events: the send buffer's room is not negative, and a clock that
    is waited for runs on to its greatest value. *)
Definition client_event_ok (e : client_event) : Prop :=
  match e with
  | Connected _ _ _ _ _ sb _ => 0 <= sb
  | Sent fuel clock _ sb _ => 0 <= sb /\ exists j, (j < fuel)%nat /\ 2 ^ 32 - 1 <= clock j
  | Poll _ sb _ => 0 <= sb
  | Err _ => True
  end.

(** What the callbacks set before they send. *)
Lemma set_poll_at s m A k fn c n p : client_at s m A k fn c n -> client_at s m A k fn (set_poll c p) n.
Proof. intros []. by constructor. Qed.

Lemma client_step_at s m A k fn c n e :
  client_at s m A k fn c n -> byte_test s A -> 40 <= m <= 1590 -> client_event_ok e ->
  exists c' acts, client_step k c e = Ok (c', acts) /\ goes_on s m A k fn n c' acts.
Proof.
  intros Hc Ht Hm He. assert (Hk : is_conn c k = true) by (apply bool_decide_true; apply Hc).
  destruct e as [ok a t1 t2 env sb x|fuel clock env sb x|env sb x|x]; cbn [client_step client_event_ok] in *.
  - unfold iperf_tcp_client_connected. rewrite Hk. cbn [assert mbind outcome_bind]. destruct ok; cbn [negb].
    + match goal with |- context[iperf_tcp_client_send_more env ?c0 sb x] =>
        destruct (send_more_at env s m A k fn c0 n sb x) as (c' & acts & E & G & _ & _) end; [|done|done|done|by exists c', acts].
      destruct Hc. constructor; try done. cbn. zlia.
    + destruct (close_client s m A k fn c n MMIPERF_TCP_ABORTED_REMOTE x Hc) as (acts & -> & G & _); [by right; right|]. by exists None, acts.
  - destruct He as [Hsb (j & Hj & Hcl)]. unfold iperf_tcp_client_sent. rewrite Hk. cbn [assert mbind outcome_bind].
    rewrite (wait_block_Ok _ _ _ _ j) by (cbn; pose proof (a_block _ _ _ _ _ _ _ Hc); lia). cbn [mbind outcome_bind].
    destruct (send_more_at env s m A k fn _ n sb x (set_poll_at _ _ _ _ _ _ _ 0 Hc) Ht Hm Hsb) as (c' & acts & -> & G & _ & _). by exists c', acts.
  - unfold iperf_tcp_poll. rewrite Hk. cbn [assert mbind outcome_bind].
    pose proof (set_poll_at _ _ _ _ _ _ _ (u8 (poll_count c + 1)) Hc) as Hp. destruct (decide _).
    + destruct (close_client s m A k fn _ n MMIPERF_TCP_ABORTED_LOCAL x Hp) as (acts & -> & G & _); [by right; left|]. by exists None, acts.
    + rewrite decide_True by apply Hp.
      destruct (send_more_at env s m A k fn _ n sb x Hp Ht Hm He) as (c' & acts & -> & G & _ & _). by exists c', acts.
  - unfold iperf_tcp_err, iperf_tcp_close, iperf_finalize_report_and_invoke_callback.
    cbn [set_pcbs set_base base conn_pcb server_pcb mbind outcome_bind]. destruct Hc as [_ _ Hf _ _ _ Hmv Hb _].
    rewrite Hf. eexists None, _. split; [reflexivity|]. exists n. rewrite Nat.sub_diag. split; [done|]. split; [done|].
    set (r0 := rate _ _). pose proof (rate_bytes (set_type (report (base c)) MMIPERF_TCP_ABORTED_REMOTE) (u32 (now x - time_started_ms (base c)))) as [Eb Et].
    split; [by destruct fn|]. exists r0. split; [by destruct fn|]. subst r0. rewrite Eb, Et. split; [exact Hmv|]. by right; right.
Qed.

Lemma client_run_at s m A k fn l c n :
  client_at s m A k fn c n -> byte_test s A -> 40 <= m <= 1590 -> Forall client_event_ok l ->
  exists c' acts, client_run k (Some c) l = Ok (c', acts) /\ goes_on s m A k fn n c' acts.
Proof.
  intros Hc Ht Hm Hl. revert c n Hc. induction Hl as [|e l He _ IH]; intros c n Hc; cbn [client_run].
  { eexists _, _. split; [done|]. exists n. rewrite Nat.sub_diag. split; [done|]. split; [apply Hc|]. by split. }
  destruct (client_step_at s m A k fn c n e Hc Ht Hm He) as (c1 & a1 & -> & G1). cbn [mbind outcome_bind].
  destruct c1 as [c1|].
  - destruct G1 as (n1 & Hn & Hb & Hs & Hc1 & Hr). destruct (IH c1 n1 Hc1) as (c' & a2 & -> & G2). cbn [mbind outcome_bind].
    eexists _, _. split; [done|]. by eapply goes_on_trans.
  - destruct l; cbn [client_run mbind outcome_bind]; rewrite app_nil_r; by eexists _, _.
Qed.

(** A new client. *)
Definition client_settings (a : Z) : iperf_settings :=
  {| flags := 0; num_threads := bswap32 1; remote_port := bswap32 MMIPERF_DEFAULT_PORT; buffer_len := 0; win_band := 0; amount := bswap32 (u32 a) |}.

Lemma byte_test_settings a : 0 <= a < 2 ^ 31 -> byte_test (client_settings a) a.
Proof.
  intros Ha. assert (Hu : u32 a = a) by (apply u32_id; zlia). constructor; [|cbn; rewrite Hu; apply bswap32_invol; zlia|done].
  cbn [amount client_settings]. rewrite Hu. change (bswap32 0x80000000) with (2 ^ 7). apply Z.bits_inj'. intros i Hi.
  rewrite Z.land_spec, Z.pow2_bits_eqb, Z.bits_0 by lia. destruct (Z.eqb_spec 7 i) as [<-|]; [|by rewrite andb_false_r].
  rewrite andb_true_r. apply Z.testbit_false; [lia|]. unfold bswap32, be32. rewrite Hu. zlia.
Qed.

Lemma client_started MSS args v6 k t x c acts0 :
  mmiperf_start_tcp_client MSS args true (Some v6) (Some k) ERR_OK t x = Ok (Some c, acts0) ->
  60 <= MSS <= 1590 -> 0 <= arg_amount args < 2 ^ 31 ->
  client_at (client_settings (arg_amount args)) (if v6 then MSS - IPV6_HEADER_SIZE_DIFF else MSS) (arg_amount args) k (arg_report_fn args) c 0 /\
  omap written acts0 = [] /\ omap reported acts0 = [].
Proof.
  intros E Hm Ha. unfold mmiperf_start_tcp_client, iperf_tx_start_impl in E. cbn [negb] in E.
  destruct (_ && bool_decide (_ > _)).
  { unfold iperf_tcp_close in E. cbn in E. discriminate. }
  cbn in E. injection E as <- <-. split; [|done]. constructor; try done; cbn; unfold IPV6_HEADER_SIZE_DIFF.
  - destruct v6; [|done]. rewrite u32_id by zlia. done.
  - destruct v6; lia.
Qed.

(** C22: the client of a TCP test limited by octets, whatever the send buffer
    takes, the clock says and however the callbacks come: nothing fails; what it
    has written is its settings twice and then counting digits, without a gap; it
    stops after the first write that reaches the amount, less than a segment above
    it.  Once it is closed there was one report, with the number of octets
    written; while it is open there was none. *)
Theorem tcp_client_stream MSS args v6 k t x c acts0 l :
  mmiperf_start_tcp_client MSS args true (Some v6) (Some k) ERR_OK t x = Ok (Some c, acts0) ->
  60 <= MSS <= 1590 -> 0 <= arg_amount args < 2 ^ 31 -> Forall client_event_ok l ->
  exists c' acts n, client_run k (Some c) l = Ok (c', acts) /\
    stream acts = expected (client_settings (arg_amount args)) 0 n /\ Z.of_nat n < arg_amount args + MSS /\
    match c' with
    | Some c' => moved c' = Z.of_nat n /\ omap reported acts = []
    | None =>
        exists r, omap reported acts = (if arg_report_fn args then [r] else []) /\ bytes_transferred r = Z.of_nat n /\
          (report_type r = MMIPERF_TCP_DONE_CLIENT /\ arg_amount args <= Z.of_nat n \/
           report_type r = MMIPERF_TCP_ABORTED_LOCAL \/ report_type r = MMIPERF_TCP_ABORTED_REMOTE)
    end.
Proof.
  intros E Hm Ha Hl. destruct (client_started _ _ _ _ _ _ _ _ E Hm Ha) as (Hc & _ & _).
  destruct (client_run_at _ _ _ _ _ l c 0 Hc (byte_test_settings _ Ha)) as (c' & acts & Er & n & _ & Hb & Hs & Hc').
  { unfold IPV6_HEADER_SIZE_DIFF. destruct v6; lia. }
  { done. }
  exists c', acts, n. split; [exact Er|]. rewrite Nat.sub_0_r in Hs. split; [exact Hs|]. split; [unfold IPV6_HEADER_SIZE_DIFF in Hb; destruct v6; lia|].
  destruct c' as [c'|]; [|exact Hc']. destruct Hc' as [Hc' Hr]. split; [apply Hc'|exact Hr].
Qed.

(** Each acknowledgement that finds room and whose first write succeeds brings
    the test at least one octet nearer to its end. *)
Definition room (MSS : Z) (e : client_event) : Prop :=
  match e with
  | Sent fuel clock env sb _ => 0 < sb /\ MSS / 2 <= sb /\ queue_ok (env 0%nat) = true /\ write_ok (env 0%nat) = true
  | _ => False
  end.

Lemma client_run_None k l : client_run k None l = Ok (None, []).
Proof. by destruct l. Qed.

Lemma client_finishes_at s m A k fn l c n :
  client_at s m A k fn c n -> byte_test s A -> 40 <= m <= 1590 -> Forall client_event_ok l -> Forall (room m) l ->
  0 < zlen l -> A - Z.of_nat n < zlen l ->
  exists acts, client_run k (Some c) l = Ok (None, acts) /\ ended fn MMIPERF_TCP_DONE_CLIENT acts.
Proof.
  intros Hc Ht Hm. revert c n Hc. induction l as [|e l IH]; intros c n Hc Hl Hroom H0 HA; [cbn in H0; lia|]. clear H0.
  apply list.Forall_cons in Hl as [He Hl], Hroom as [Hr Hroom]. cbn [client_run length] in *.
  destruct e as [|fuel clock env sb x| |]; try done. destruct He as [Hsb (j & Hj & Hcl)], Hr as (R1 & R2 & R3 & R4). cbn [client_step].
  unfold iperf_tcp_client_sent. assert (is_conn c k = true) as -> by (apply bool_decide_true; apply Hc). cbn [assert mbind outcome_bind].
  rewrite (wait_block_Ok _ _ _ _ j) by (cbn; pose proof (a_block _ _ _ _ _ _ _ Hc); lia). cbn [mbind outcome_bind].
  destruct (send_more_at env s m A k fn _ n sb x (set_poll_at _ _ _ _ _ _ _ 0 Hc) Ht Hm Hsb) as (c' & acts & -> & G & En & P).
  cbn [mbind outcome_bind]. destruct (P R2 R1 R3 R4) as [->|(Hlt & c1 & n1 & -> & Hc1 & Hn1)].
  - rewrite client_run_None. cbn [mbind outcome_bind]. rewrite app_nil_r. exists acts. split; [done|]. by apply En.
  - destruct (IH c1 n1 Hc1 Hl Hroom) as (a2 & -> & r & Er & Et); [lia|lia|]. cbn [mbind outcome_bind]. eexists. split; [done|].
    exists r. rewrite omap_app, Er. split; [|done]. destruct G as (? & _ & _ & _ & _ & ->). done.
Qed.

(** C24: the client of a TCP test limited by octets ends: when every callback
    finds room in the send buffer and its first write succeeds, one callback more
    than the amount has octets is enough, and the report says the test is done. *)
Theorem tcp_client_finishes MSS args v6 k t x c acts0 l :
  mmiperf_start_tcp_client MSS args true (Some v6) (Some k) ERR_OK t x = Ok (Some c, acts0) ->
  60 <= MSS <= 1590 -> 0 <= arg_amount args < 2 ^ 31 -> Forall client_event_ok l -> Forall (room MSS) l ->
  arg_amount args < zlen l ->
  exists acts, client_run k (Some c) l = Ok (None, acts) /\ ended (arg_report_fn args) MMIPERF_TCP_DONE_CLIENT acts.
Proof.
  intros E Hm Ha Hl Hr Hlen. destruct (client_started _ _ _ _ _ _ _ _ E Hm Ha) as (Hc & _ & _).
  apply (client_finishes_at _ _ _ _ _ l c 0 Hc (byte_test_settings _ Ha)); [|done| |lia|lia].
  - unfold IPV6_HEADER_SIZE_DIFF. destruct v6; lia.
  - eapply list.Forall_impl; [exact Hr|]. intros [|fuel clock env sb y| |]; cbn; try done. unfold IPV6_HEADER_SIZE_DIFF.
    intros (? & ? & ? & ?). split_and!; try done. destruct v6; [|done]. pose proof (Z.div_le_mono (MSS - 20) MSS 2 ltac:(lia) ltac:(lia)). lia.
Qed.

(** ** The server *)

(** A server with a connection that has received [n] octets, the first at [t0]. *)
Record server_at (k : positive) (l : positive) (fn : bool) (t0 : Z) (c : iperf_state_tcp) (n : Z) : Prop := {
  v_server : server (base c) = 1;
  v_fn : report_fn (base c) = fn;
  v_pcbs : server_pcb c = Some l /\ conn_pcb c = Some k;
  v_have : have_settings_buf c = true;
  v_started : time_started_ms (base c) = t0;
  v_moved : moved c = n;
}.

Lemma moved_set_moved c n : moved (set_moved c n) = n.
Proof. done. Qed.
Lemma u64_small n : 0 <= n < 2 ^ 64 -> u64 n = n.
Proof. apply Z.mod_small. Qed.


Lemma recv_first_at l fn c k chain t x :
  server (base c) = 1 -> report_fn (base c) = fn -> server_pcb c = Some l -> conn_pcb c = Some k -> have_settings_buf c = false ->
  moved c = 0 -> 24 <= zlen (concat chain) ->
  exists c', iperf_tcp_recv c k (Some chain) true 24 t x = Ok (ERR_OK, Some c', [TcpRecved (zlen (concat chain)); FreeBuf]) /\
    server_at k l fn t c' 24 /\ settings c' = settings_of (take 24 (concat chain)).
Proof.
  intros Hs Hf Hl Hk Hh Hm Hlen. unfold iperf_tcp_recv, at_header.
  assert (is_conn c k = true) as -> by by apply bool_decide_true. cbn [assert negb mbind outcome_bind].
  change (have_settings_buf (set_poll c 0)) with (have_settings_buf c). rewrite Hh. cbn [negb orb andb]. rewrite decide_False by lia.
  rewrite (bool_decide_false (24 <> 24)) by tauto. cbn zeta.
  change (moved (set_settings (set_poll c 0) _ _)) with (moved c). rewrite Hm, moved_set_moved, u64_small by lia. rewrite decide_True by lia.
  eexists. split; [reflexivity|]. by split; [constructor|].
Qed.






(** ** What goes wrong *)

(** An error on the accepted connection frees the session, while the listening
    control block stays open with the freed session as its argument. *)
Lemma listener_outlives_session c listener k x :
  server_pcb c = Some listener -> conn_pcb c = Some k ->
  exists acts, iperf_tcp_err c x = Ok (None, acts) /\ In Free acts /\ ~ In (TcpClose listener) acts /\ ~ In (Detach listener) acts.
Proof.
  intros Hs Hk. unfold iperf_tcp_err, iperf_tcp_close, iperf_finalize_report_and_invoke_callback.
  cbn [set_pcbs set_base base conn_pcb server_pcb mbind outcome_bind]. eexists. split; [reflexivity|].
  destruct (report_fn (base c)); cbn; intuition discriminate.
Qed.

(** Of a first segment with more than the settings only these are counted. *)
Lemma first_segment_undercounted l fn c k chain t x :
  server (base c) = 1 -> report_fn (base c) = fn -> server_pcb c = Some l -> conn_pcb c = Some k -> have_settings_buf c = false ->
  moved c = 0 -> 24 <= zlen (concat chain) ->
  exists c', iperf_tcp_recv c k (Some chain) true 24 t x = Ok (ERR_OK, Some c', [TcpRecved (zlen (concat chain)); FreeBuf]) /\ moved c' = 24.
Proof.
  intros H1 H2 H3 H4 H5 H6 H7. destruct (recv_first_at l fn c k chain t x H1 H2 H3 H4 H5 H6 H7) as (c' & E & Hc & _). exists c'. split; [done|]. apply Hc.
Qed.

(** A segment shorter than the settings ends the test when the octets before it
    happen to be a multiple of 128 KiB after the first 24. *)
Lemma short_segment_aborts k l fn t0 c j chain t x :
  server_at k l fn t0 c (24 + 131072 * j) -> 0 <= j < 2 ^ 32 -> zlen (concat chain) < 24 ->
  exists c' acts, iperf_tcp_recv c k (Some chain) true 24 t x = Ok (ERR_OK, Some c', acts) /\ conn_pcb c' = None /\
    (fn = true -> exists r, In (Report r) acts /\ report_type r = MMIPERF_TCP_ABORTED_LOCAL_DATAERROR).
Proof.
  intros [Hs Hf [Hl Hk] Hh _ Hm] Hj Hlen. unfold iperf_tcp_recv. assert (is_conn c k = true) as -> by by apply bool_decide_true.
  cbn [assert negb mbind outcome_bind]. assert (at_header (set_poll c 0) = true) as ->.
  { unfold at_header. change (moved (set_poll c 0)) with (moved c). rewrite Hm. replace (24 + 131072 * j - 24) with (131072 * j) by lia.
    rewrite u64_small by lia. apply orb_true_intro. right. apply bool_decide_true. change (1024 * 128) with 131072. rewrite Z.mul_comm. by apply Z.mod_mul. }
  rewrite decide_True by done. unfold iperf_tcp_close, iperf_finalize_report_and_invoke_callback.
  cbn [set_poll set_base conn_pcb server_pcb base mbind outcome_bind]. rewrite Hk. cbn [mbind outcome_bind set_pcbs set_base conn_pcb server_pcb].
  rewrite Hl, Hf. cbn [mbind outcome_bind]. set (r := rate _ _). eexists _, _. split; [reflexivity|]. split; [done|].
  intros ->. exists r. split; [by left|]. subst r. by rewrite (proj2 (rate_bytes _ _)).
Qed.

(** When listening fails the bound control block is not closed. *)
Lemma listen_failure_leaks addr port fn pcb listen listener :
  listen <> ERR_OK ->
  exists p, iperf_start_tcp_server_impl addr port fn true true (Some pcb) ERR_OK listen listener = (listen, None, [TcpBind pcb p; Free]).
Proof.
  intros Hl. unfold iperf_start_tcp_server_impl. rewrite andb_false_r. cbn [negb]. rewrite decide_False by tauto. rewrite decide_True by done. by eexists.
Qed.

(** The callback aborts its connection but returns [ERR_OK]. *)
Lemma abort_returns_ok c k t n :
  conn_pcb c = Some k ->
  exists c' acts, iperf_tcp_recv c k None true 24 t {| now := n; close_ok := false |} = Ok (ERR_OK, c', acts) /\ In (TcpAbort k) acts.
Proof.
  intros Hk. unfold iperf_tcp_recv. assert (is_conn c k = true) as -> by by apply bool_decide_true.
  unfold iperf_tcp_close, iperf_finalize_report_and_invoke_callback. cbn [assert negb set_base conn_pcb server_pcb base mbind outcome_bind].
  rewrite Hk. cbn [mbind outcome_bind set_pcbs set_base conn_pcb server_pcb close_ok].
  destruct (server_pcb c); cbn [mbind outcome_bind]; eexists _, _; (split; [reflexivity|]); destruct (report_fn _); cbn; tauto.
Qed.

(** ** Examples *)

Definition ex_args (a : Z) : mmiperf_client_args :=
  {| arg_server_addr := lit "10.0.0.1"; arg_server_port := 0; arg_target_bw := 0; arg_packet_size := 0; arg_amount := a;
     arg_report_fn := true; arg_version := IPERF_VERSION_2_0_13 |}.
Definition ex_close : at_close := {| now := 5000; close_ok := true |}.
Definition ex_start : outcome (option iperf_state_tcp * list action) :=
  mmiperf_start_tcp_client 536 (ex_args 200) true (Some false) (Some 1%positive) ERR_OK 1000 ex_close.
Definition ex_blank : iperf_state_tcp :=
  {| base := {| next := None; tcp := 0; server := 0; time_started_ms := 0; last_rx_time_ms := 0; report := zero_report; report_fn := false |};
     server_pcb := None; conn_pcb := None; poll_count := 0; mss := 0; settings := zero_settings; have_settings_buf := false;
     bw_limit := false; block_end_time := 0; block_txlen := 0; block_remaining_txlen := 0 |}.
Definition ex_client : iperf_state_tcp := match ex_start with Ok (Some c, _) => c | _ => ex_blank end.
Definition ex_turn (k : nat) : turn := {| now_limit := 0; now_block := 0; queue_ok := true; write_ok := true |}.
Definition ex_ends : ends := {| l_addr := lit "10.0.0.2"; l_port := 50000; r_addr := lit "10.0.0.1"; r_port := 5001 |}.
Definition ex_sent : client_event := Sent 1 (fun _ => 2 ^ 32 - 1) ex_turn 300 ex_close.
(** Connected, then acknowledgements with room for 300 octets. *)
Definition ex_events : list client_event := [Connected true ex_ends 1000 1000 ex_turn 300 ex_close; ex_sent; ex_sent; ex_sent].

Lemma ex_start_ok : ex_start = Ok (Some ex_client, [Attach 1%positive]).
Proof. reflexivity. Qed.

Lemma tcp_client_stream_witness :
  exists c' acts n, client_run 1 (Some ex_client) ex_events = Ok (c', acts) /\
    stream acts = expected (client_settings 200) 0 n /\ Z.of_nat n < 736.
Proof.
  destruct (tcp_client_stream 536 (ex_args 200) false 1 1000 ex_close ex_client [Attach 1%positive] ex_events)
    as (c' & acts & n & E & Hs & Hn & _).
  - reflexivity.
  - lia.
  - cbn. lia.
  - repeat (apply Forall_cons_2; [first [cbn; lia|split; [lia|exists 0%nat; lia]]|]). constructor.
  - exists c', acts, n. split; [exact E|]. split; [exact Hs|exact Hn].
Defined.

Definition ex_short : iperf_state_tcp :=
  match mmiperf_start_tcp_client 536 (ex_args 1) true (Some false) (Some 1%positive) ERR_OK 1000 ex_close with Ok (Some c, _) => c | _ => ex_blank end.

Lemma tcp_client_finishes_witness :
  exists acts, client_run 1 (Some ex_short) [ex_sent; ex_sent] = Ok (None, acts) /\ ended true MMIPERF_TCP_DONE_CLIENT acts.
Proof.
  apply (tcp_client_finishes 536 (ex_args 1) false 1 1000 ex_close ex_short [Attach 1%positive] [ex_sent; ex_sent]).
  - reflexivity.
  - lia.
  - cbn. lia.
  - repeat (apply Forall_cons_2; [split; [lia|exists 0%nat; lia]|]). constructor.
  - repeat (apply Forall_cons_2; [split_and!; [lia|vm_compute; discriminate|reflexivity|reflexivity]|]). constructor.
  - cbn. lia.
Defined.



End IperfTcp.
