(* ===== verification/IperfMain.v ===== *)
(** The program's entry point, [app_main] of [examples/iperf/main/src/iperf.c],
    with the start of the iperf service and the printing of its reports.

    What is printed is a list of texts.  The configuration macros are the
    arguments of the section. *)

From S2P Require Import Prelude CStr Settings AppCommon NatRouter IperfCommon IperfUdpClient.

Module IperfMain.
Import IperfCommon.
Import IperfUdpClient(mmiperf_client_args, Build_mmiperf_client_args, MMIPERF_DEFAULT_PORT).

(** ** Sizes with a unit *)

Definition units : bytes := lit " KMGT".

Fixpoint format_loop (fuel : nat) (n unit_index : Z) : outcome (Z * Z) :=
  match fuel with
  | O => Fail OutOfFuel
  | S fuel => if decide (n >= 1000 /\ unit_index < 4) then format_loop fuel (n / 1000) (u8 (unit_index + 1)) else Ok (n, unit_index)
  end.

(** The value returned has 32 bits.  Five turns are enough: the index ends the
    loop. *)
Definition format_bytes (n : Z) : outcome (Z * Z) :=
  '(n, unit_index) ← format_loop 5 n 0; Ok (u32 n, unit_index).

(** ** Reports *)

Definition iperf_report_handler (r : mmiperf_report) : outcome (list bytes) :=
  '(n, i) ← format_bytes (bytes_transferred r);
  u ← rd units i;
  Ok ([lit "\x0aIperf Report\x0a";
       format (lit "  Remote Address: %s:%d\x0a") [AStr (remote_addr r); AInt (remote_port r)];
       format (lit "  Local Address:  %s:%d\x0a") [AStr (local_addr r); AInt (local_port r)];
       format (lit "  Transferred: %lu %cBytes, duration: %lu ms, bandwidth: %lu kbps\x0a")
         [AInt n; AStr [u]; AInt (duration_ms r); AInt (bandwidth_kbitpsec r)];
       lit "\x0a"] ++
      (if decide (report_type r = MMIPERF_UDP_DONE_SERVER \/ report_type r = MMIPERF_TCP_DONE_SERVER)
       then [lit "Waiting for client to connect...\x0a"] else [])).

(** ** The iperf service *)

Inductive iperf_type := IPERF_TCP_SERVER | IPERF_UDP_SERVER | IPERF_TCP_CLIENT | IPERF_UDP_CLIENT.

(** [struct mmiperf_server_args]; the report callback is always given. *)
Record mmiperf_server_args := { srv_local_addr : bytes; srv_local_port : Z; srv_version : iperf_version }.

Inductive service :=
| TcpClient (args : mmiperf_client_args)
| UdpClient (args : mmiperf_client_args)
| TcpServer (args : mmiperf_server_args)
| UdpServer (args : mmiperf_server_args).

Section Config.
  (** [IPERF_SERVER_IP] without its terminator, [IPERF_TIME_AMOUNT],
      [IPERF_SERVER_PORT]; [MMIPERF_IPADDR_MAXLEN]. *)
  Context (IPERF_SERVER_IP : bytes) (IPERF_TIME_AMOUNT IPERF_SERVER_PORT MMIPERF_IPADDR_MAXLEN : Z).

Definition client_args : outcome mmiperf_client_args :=
    a ← strncpy (replicate (Z.to_nat MMIPERF_IPADDR_MAXLEN) 0) (IPERF_SERVER_IP ++ [0]) MMIPERF_IPADDR_MAXLEN;
    assert (bool_decide (IPERF_SERVER_PORT <= 2 ^ 16 - 1)) ;;
    let amount := if decide (s32 IPERF_TIME_AMOUNT < 0) then s32 (s32 IPERF_TIME_AMOUNT * 100) else s32 IPERF_TIME_AMOUNT in
    Ok (Build_mmiperf_client_args a (u16 IPERF_SERVER_PORT) 0 0 amount true IPERF_VERSION_2_0_13).

Definition start_tcp_client : outcome (service * list bytes) :=
    args ← client_args; Ok (TcpClient args, [lit "\x0aIperf TCP client started, waiting for completion...\x0a"]).
Definition start_udp_client : outcome (service * list bytes) :=
    args ← client_args; Ok (UdpClient args, [lit "\x0aIperf UDP client started, waiting for completion...\x0a"]).

Definition server_args : mmiperf_server_args :=
    {| srv_local_addr := replicate (Z.to_nat MMIPERF_IPADDR_MAXLEN) 0; srv_local_port := u16 IPERF_SERVER_PORT; srv_version := IPERF_VERSION_2_0_13 |}.

  (** [started]: whether the server could be started; [ip4], [ip6]: the addresses
      [mmipal_get_ip_config] and [mmipal_get_ip6_config] give, if they succeed. *)
Definition start_tcp_server (started : bool) (ip4 ip6 : option bytes) : service * list bytes :=
    let args := server_args in
    (TcpServer args,
     if negb started then [lit "Failed to get local address\x0a"]
     else
       lit "\x0aIperf TCP server started, waiting for client to connect...\x0a" ::
       match ip4 with
       | Some a => [format (lit "Execute cmd on AP 'iperf -c %s -p %u -i 1' for IPv4\x0a") [AStr a; AInt (srv_local_port args)]]
       | None => []
       end ++
       match ip6 with
       | Some a => [format (lit "Execute cmd on AP 'iperf -c %s%%wlan0 -p %u -i 1 -V' for IPv6\x0a") [AStr a; AInt (srv_local_port args)]]
       | None => []
       end).
Definition start_udp_server (started : bool) (ip4 ip6 : option bytes) : service * list bytes :=
    let args := server_args in
    (UdpServer args,
     if negb started then [lit "Failed to start iperf server\x0a"]
     else
       lit "\x0aIperf UDP server started, waiting for client to connect...\x0a" ::
       match ip4 with
       | Some a => [format (lit "Execute cmd on AP 'iperf -c %s -p %u -i 1 -u -b 20M' for IPv4\x0a") [AStr a; AInt (srv_local_port args)]]
       | None => []
       end ++
       match ip6 with
       | Some a => [format (lit "Execute cmd on AP 'iperf -c %s%%wlan0 -p %u -i 1 -V -u -b 20M' for IPv6\x0a") [AStr a; AInt (srv_local_port args)]]
       | None => []
       end).

Definition start_iperf (mode : iperf_type) (started : bool) (ip4 ip6 : option bytes) : outcome (service * list bytes) :=
    match mode with
    | IPERF_TCP_SERVER => Ok (start_tcp_server started ip4 ip6)
    | IPERF_UDP_SERVER => Ok (start_udp_server started ip4 ip6)
    | IPERF_UDP_CLIENT => start_udp_client
    | IPERF_TCP_CLIENT => start_tcp_client
    end.

(** ** [app_main] *)

  Context {S : Type} `{!Nvs S}.

  (** The flash, the station's start, the pause of two seconds, the access point
      ([NatRouter.bring_up]), then the service.  [link_up]: the HaLow link comes
      up; [None]: [app_wlan_start] never returns. *)
Definition app_main (init : S -> Settings.flash_status * S) (erase : S -> S) (mode : iperf_type)
      (junk : Settings.bridge_settings_t) (env : NatRouter.idf) (s : S) (ip_ok version_ok : bool) (creates : AppCommon.timer -> bool)
      (strval : bytes) (enable_ok link_up started : bool) (ip4 ip6 : option bytes)
      : outcome (option (list NatRouter.action * service * list bytes)) :=
    let s := Settings.settings_init init erase s in
    r ← NatRouter.bring_up junk env s ip_ok version_ok creates strval enable_ok link_up;
    match r with
    | None => Ok None
    | Some acts => '(srv, out) ← start_iperf mode started ip4 ip6; Ok (Some (acts, srv, out))
    end.
End Config.

(** ** Lemmas *)

Lemma format_loop_Ok k n i :
  0 <= n -> 0 <= i -> i + Z.of_nat k = 4 ->
  exists j, i <= j <= 4 /\ format_loop (S k) n i = Ok (n / 1000 ^ (j - i), j) /\ (j < 4 -> n / 1000 ^ (j - i) < 1000) /\
    (i < j -> 1 <= n / 1000 ^ (j - i)).
Proof.
  revert n i. induction k as [|k IH]; intros n i Hn Hi Hk; cbn [format_loop].
  { rewrite decide_False by lia. exists i. rewrite Z.sub_diag, Z.pow_0_r, Z.div_1_r. split_and!; try done; lia. }
  destruct (decide (n >= 1000 /\ i < 4)) as [[H1 H2]|H].
  - assert (Hu : u8 (i + 1) = i + 1) by (apply u8_id; zlia). rewrite Hu.
    destruct (IH (n / 1000) (i + 1)) as (j & Hj & E & Hs & Hp); [apply Z.div_pos; lia|lia|lia|].
    assert (Ed : n / 1000 / 1000 ^ (j - (i + 1)) = n / 1000 ^ (j - i)).
    { rewrite Z.div_div by (try apply Z.pow_pos_nonneg; lia). f_equal.
      replace (j - i) with (Z.succ (j - (i + 1))) by lia. by rewrite Z.pow_succ_r by lia. }
    rewrite Ed in *. exists j. split; [lia|]. split; [exact E|]. split; [done|]. intros _.
    destruct (decide (i + 1 < j)); [by apply Hp|]. replace j with (i + 1) by lia. replace (i + 1 - i) with 1 by lia.
    apply Z.div_le_lower_bound; lia.
  - exists i. rewrite Z.sub_diag, Z.pow_0_r, Z.div_1_r. split_and!; try done; lia.
Qed.

(** The number printed: below 1000 except in terabytes, the octets divided by the
    unit, rounded down; no access leaves the array of units. *)
Lemma format_bytes_spec n : 0 <= n < 2 ^ 32 * 1000 ^ 4 ->
  exists i, 0 <= i <= 4 /\ format_bytes n = Ok (n / 1000 ^ i, i) /\ (i < 4 -> n / 1000 ^ i < 1000) /\ (0 < i -> 1 <= n / 1000 ^ i).
Proof.
  intros Hn. unfold format_bytes. destruct (format_loop_Ok 4 n 0) as (i & Hi & E & Hs & Hp); [lia..|].
  rewrite Z.sub_0_r in *. exists i. rewrite E. cbn [mbind outcome_bind]. split; [lia|]. split; [|done]. repeat f_equal. apply u32_id.
  unfold is_u32. split; [apply Z.div_pos; [lia|by apply Z.pow_pos_nonneg; lia]|].
  destruct (decide (i < 4)) as [Hlt|]; [specialize (Hs Hlt); lia|]. replace i with 4 by lia. apply Z.div_lt_upper_bound; lia.
Qed.

Lemma report_handler_total r : 0 <= bytes_transferred r < 2 ^ 32 * 1000 ^ 4 -> exists l, iperf_report_handler r = Ok l.
Proof.
  intros Hr. unfold iperf_report_handler. destruct (format_bytes_spec _ Hr) as (i & Hi & -> & _). cbn [mbind outcome_bind].
  destruct (rd_Ok units i) as (u & -> & _); [change (zlen units) with 5; lia|]. by eexists.
Qed.

(** With the default configuration a client runs for ten seconds. *)
Example default_client :
  client_args (lit "192.168.1.1") (- 10) 5001 48 =
    Ok (Build_mmiperf_client_args (lit "192.168.1.1" ++ replicate 37 0) 5001 0 0 (- 1000) true IPERF_VERSION_2_0_13).
Proof. vm_compute. reflexivity. Qed.
End IperfMain.
