(* ===== verification/S1gAp.v ===== *)
(** An access point's S1G configuration: [src/ap/ieee802_11_s1g.c] of the
    supplicant under [framework/src/hostap], whole.

    An element is the list of octets appended at [eid].  The operating class
    tables are compared with the regulatory databases of the SDK ([RegDb],
    [RegDbDef]), the S1G Operation element with the SDK's parser ([WlanIe]). *)

From S2P Require Import Prelude CStr WlanIe RegDb RegDbDef.

Module S1gAp.
Import WlanIe.

(** ** Configuration *)

(** [enum s1g_oper_chwidth] and [enum s1g_prim_chwidth] of [src/common/defs.h]. *)
Inductive oper_chwidth :=
| S1G_OPER_CHWIDTH_1 | S1G_OPER_CHWIDTH_2 | S1G_OPER_CHWIDTH_4 | S1G_OPER_CHWIDTH_8 | S1G_OPER_CHWIDTH_16.

#[global] Instance oper_chwidth_eq_dec : EqDecision oper_chwidth.
Proof. solve_decision. Defined.

Definition S1G_PRIM_CHWIDTH_1 : Z := 0.
Definition S1G_PRIM_CHWIDTH_2 : Z := 1.

(** The fields of [struct hostapd_config] the code uses. *)
Record hostapd_config := {
  beacon_int : Z;
  op_class : Z;
  channel : Z;
  country : bytes;
  s1g_prim_chwidth : Z;
  s1g_op_class : Z;
  s1g_prim_channel : Z;
  s1g_prim_1mhz_chan_loc : Z;
  s1g_oper_chwidth : oper_chwidth;
  s1g_basic_mcs_nss_set : Z;
}.

(** Those of [struct hostapd_iface]. *)
Record hostapd_iface := { conf : hostapd_config; freq_khz : Z }.

(** Those of [struct hostapd_data]: [hapd->iconf], [hapd->conf->short_beacon_int]
    and the S1G fields of [hapd->iface->current_mode]. *)
Record hostapd_data := { iconf : hostapd_config; short_beacon_int : Z; s1g_capab : bytes; s1g_mcs : bytes }.

(** ** Elements *)

Definition WLAN_EID_S1G_BCN_COMPAT : Z := 213.
Definition WLAN_EID_S1G_SHORT_BCN_INTERVAL : Z := 214.
Definition WLAN_EID_S1G_CAPABILITIES : Z := 217.
Definition WLAN_EID_S1G_OPERATION : Z := 232.

Definition S1G_OPER_IE_CHANWIDTH_PRIM_CH_MASK : Z := Z.shiftl 1 0.
Definition S1G_OPER_IE_CHANWIDTH_OPER_CH_MASK : Z :=
  Z.lor (Z.lor (Z.lor (Z.shiftl 1 1) (Z.shiftl 1 2)) (Z.shiftl 1 3)) (Z.shiftl 1 4).
Definition S1G_OPER_IE_CHANWIDTH_PRIM_OFFSET : Z := Z.shiftl 1 5.
Definition S1G_OPER_IE_MAX_MCS_1_NSS_SHIFT : Z := 2.
Definition S1G_OPER_IE_MAX_MCS_2_NSS_SHIFT : Z := 6.
Definition S1G_OPER_IE_MAX_MCS_3_NSS_SHIFT : Z := 10.
Definition S1G_OPER_IE_MAX_MCS_4_NSS_SHIFT : Z := 14.

Definition oper_chwidth_mhz (w : oper_chwidth) : Z :=
  match w with
  | S1G_OPER_CHWIDTH_1 => 1
  | S1G_OPER_CHWIDTH_2 => 2
  | S1G_OPER_CHWIDTH_4 => 4
  | S1G_OPER_CHWIDTH_8 => 8
  | S1G_OPER_CHWIDTH_16 => 16
  end.

Definition s1g_basic_min_max_mcs_nss_ie (max_mcs_nss_set : Z) : Z :=
  u16 (Z.lor (Z.lor (Z.lor
    (Z.shiftl (Z.land max_mcs_nss_set 3) S1G_OPER_IE_MAX_MCS_1_NSS_SHIFT)
    (Z.shiftl (Z.land (Z.shiftr max_mcs_nss_set 2) 3) S1G_OPER_IE_MAX_MCS_2_NSS_SHIFT))
    (Z.shiftl (Z.land (Z.shiftr max_mcs_nss_set 4) 3) S1G_OPER_IE_MAX_MCS_3_NSS_SHIFT))
    (Z.shiftl (Z.land (Z.shiftr max_mcs_nss_set 6) 3) S1G_OPER_IE_MAX_MCS_4_NSS_SHIFT)).

Definition hostapd_eid_s1g_oper (hapd : hostapd_data) : bytes :=
  let c := iconf hapd in
  let s1g_supp_oper_chwidth_mask := u8 (oper_chwidth_mhz (s1g_oper_chwidth c) - 1) in
  let ch_width := u8 (Z.lor (Z.lor
    (if decide (s1g_prim_chwidth c = 1) then S1G_OPER_IE_CHANWIDTH_PRIM_CH_MASK else 0)
    (Z.land (Z.shiftl s1g_supp_oper_chwidth_mask 1) S1G_OPER_IE_CHANWIDTH_OPER_CH_MASK))
    (if decide (s1g_prim_1mhz_chan_loc c <> 0) then S1G_OPER_IE_CHANWIDTH_PRIM_OFFSET else 0)) in
  let v := s1g_basic_min_max_mcs_nss_ie (u8 (s1g_basic_mcs_nss_set c)) in
  let basic_mcs_nss := Z.lor (Z.land v 0xff) (Z.shiftr v 8) in
  [WLAN_EID_S1G_OPERATION; 6; ch_width; s1g_op_class c; s1g_prim_channel c; channel c] ++ enc_le16 basic_mcs_nss.

(** The two arrays have 10 and 5 octets, in the structure as in the element. *)
Definition hostapd_eid_s1g_capab (hapd : hostapd_data) : bytes :=
  [WLAN_EID_S1G_CAPABILITIES; 15] ++ s1g_capab hapd ++ s1g_mcs hapd.

Definition hostapd_eid_s1g_beacon_compat (hapd : hostapd_data) : bytes :=
  let beacon_int := u16 (short_beacon_int hapd * beacon_int (iconf hapd)) in
  [WLAN_EID_S1G_BCN_COMPAT; 8; Z.lor (Z.shiftl 1 0) (Z.shiftl 1 4); 0;
   Z.land beacon_int 0xff; Z.land (Z.shiftr beacon_int 8) 0xff; 0; 0; 0; 0].

Definition hostapd_eid_s1g_short_beacon_int (hapd : hostapd_data) : bytes :=
  let b := beacon_int (iconf hapd) in
  [WLAN_EID_S1G_SHORT_BCN_INTERVAL; 2; Z.land b 0xff; Z.land (Z.shiftr b 8) 0xff].

(** ** Operating classes *)

(** The switch: bandwidth and starting frequency in kHz; [None]: default. *)
Definition oper_class_s1g (s1g_op : Z) : option (oper_chwidth * Z) :=
  match s1g_op with
  | 1 => Some (S1G_OPER_CHWIDTH_1, 902000)
  | 2 => Some (S1G_OPER_CHWIDTH_2, 902000)
  | 3 => Some (S1G_OPER_CHWIDTH_4, 902000)
  | 4 => Some (S1G_OPER_CHWIDTH_8, 902000)
  | 5 => Some (S1G_OPER_CHWIDTH_16, 902000)
  | 6 => Some (S1G_OPER_CHWIDTH_1, 863000)
  | 7 => Some (S1G_OPER_CHWIDTH_2, 863000)
  | 8 => Some (S1G_OPER_CHWIDTH_1, 916500)
  | 9 => Some (S1G_OPER_CHWIDTH_2, 922500)
  | 10 => Some (S1G_OPER_CHWIDTH_2, 922500)
  | 11 => Some (S1G_OPER_CHWIDTH_4, 906500)
  | 12 => Some (S1G_OPER_CHWIDTH_4, 906500)
  | 14 => Some (S1G_OPER_CHWIDTH_1, 917500)
  | 15 => Some (S1G_OPER_CHWIDTH_2, 917500)
  | 16 => Some (S1G_OPER_CHWIDTH_4, 917500)
  | 17 => Some (S1G_OPER_CHWIDTH_1, 863000)
  | 18 => Some (S1G_OPER_CHWIDTH_1, 902000)
  | 19 => Some (S1G_OPER_CHWIDTH_2, 863000)
  | 20 => Some (S1G_OPER_CHWIDTH_2, 902000)
  | 21 => Some (S1G_OPER_CHWIDTH_4, 902000)
  | 22 => Some (S1G_OPER_CHWIDTH_1, 902000)
  | 23 => Some (S1G_OPER_CHWIDTH_2, 902000)
  | 24 => Some (S1G_OPER_CHWIDTH_4, 902000)
  | 25 => Some (S1G_OPER_CHWIDTH_8, 902000)
  | 26 => Some (S1G_OPER_CHWIDTH_1, 902000)
  | 27 => Some (S1G_OPER_CHWIDTH_2, 902000)
  | 28 => Some (S1G_OPER_CHWIDTH_4, 902000)
  | 29 => Some (S1G_OPER_CHWIDTH_8, 902000)
  | 30 => Some (S1G_OPER_CHWIDTH_1, 901400)
  | 31 => Some (S1G_OPER_CHWIDTH_8, 902000)
  | 32 => Some (S1G_OPER_CHWIDTH_1, 902000)
  | 33 => Some (S1G_OPER_CHWIDTH_2, 902000)
  | 34 => Some (S1G_OPER_CHWIDTH_4, 902000)
  | 35 => Some (S1G_OPER_CHWIDTH_2, 840000)
  | 36 => Some (S1G_OPER_CHWIDTH_4, 840000)
  | 37 => Some (S1G_OPER_CHWIDTH_8, 840000)
  | 39 => Some (S1G_OPER_CHWIDTH_4, 894000)
  | 40 => Some (S1G_OPER_CHWIDTH_8, 894000)
  | _ => None
  end.

Definition set_oper (bw : oper_chwidth) (s1g_op : Z) (c : hostapd_config) : hostapd_config :=
  {| beacon_int := beacon_int c; op_class := op_class c; channel := channel c; country := country c;
     s1g_prim_chwidth := s1g_prim_chwidth c; s1g_op_class := u8 s1g_op; s1g_prim_channel := s1g_prim_channel c;
     s1g_prim_1mhz_chan_loc := s1g_prim_1mhz_chan_loc c; s1g_oper_chwidth := bw;
     s1g_basic_mcs_nss_set := s1g_basic_mcs_nss_set c |}.

(** The functions return [u8]. *)
Definition hostapd_s1g_get_oper_class_s1g (s1g_op : Z) (iface : hostapd_iface) : Z * hostapd_iface :=
  match oper_class_s1g s1g_op with
  | None => (u8 (-1), iface)
  | Some (bw, start_freq) =>
      (0, {| conf := set_oper bw s1g_op (conf iface); freq_khz := s32 (u32 (start_freq + 500 * channel (conf iface))) |})
  end.

(** [!strncmp(cc, s, 2)] for a string [s] of two letters *)
Definition cc_is (cc : bytes) (s : string) : bool := bool_decide (take 2 cc = lit s).

(** The chains of comparisons of one case: the S1G class of the first match. *)
Fixpoint first_cc (cc : bytes) (l : list (string * Z)) : option Z :=
  match l with
  | [] => None
  | (s, k) :: l => if cc_is cc s then Some k else first_cc cc l
  end.

Definition global_cases (glob_op : Z) : option (list (string * Z)) :=
  match glob_op with
  | 66 => Some [("EU"%string, 6); ("SG"%string, 17)]
  | 67 => Some [("SG"%string, 19)]
  | 68 => Some [("US"%string, 1); ("SG"%string, 18); ("AU"%string, 22); ("NZ"%string, 26)]
  | 69 => Some [("US"%string, 2); ("SG"%string, 20); ("AU"%string, 23); ("NZ"%string, 27)]
  | 70 => Some [("US"%string, 3); ("SG"%string, 21); ("AU"%string, 24); ("NZ"%string, 28)]
  | 71 => Some [("US"%string, 4); ("AU"%string, 25); ("NZ"%string, 29)]
  | 72 => Some [("US"%string, 5)]
  | 73 => Some [("JP"%string, 8)]
  | 74 => Some [("KR"%string, 14)]
  | 75 => Some [("KR"%string, 15)]
  | 76 => Some [("KR"%string, 16)]
  | 77 => Some [("EU"%string, 30)]
  | _ => None
  end.

Definition hostapd_s1g_get_oper_global (glob_op : Z) (cc : bytes) (iface : hostapd_iface) : Z * hostapd_iface :=
  match global_cases glob_op with
  | None => (0, iface)
  | Some l =>
      match first_cc cc l with
      | Some s1g_op => hostapd_s1g_get_oper_class_s1g s1g_op iface
      | None => (u8 (-1), iface)
      end
  end.

(** Returns [u32]. *)
Definition hostapd_s1g_get_oper_config (iface : hostapd_iface) : Z * hostapd_iface :=
  if decide (channel (conf iface) = 0) then (0, iface)
  else if decide (s1g_op_class (conf iface) <> 0) then
    let '(ret, iface) := hostapd_s1g_get_oper_class_s1g (s1g_op_class (conf iface)) iface in
    if decide (ret < 0) then (u32 (-1), iface) else (0, iface)
  else if decide (op_class (conf iface) <> 0) then
    let '(ret, iface) := hostapd_s1g_get_oper_global (op_class (conf iface)) (country (conf iface)) iface in
    if decide (ret < 0) then (u32 (-1), iface) else (0, iface)
  else (u32 (-1), iface).

(** ** The S1G Operation element *)

Lemma oper_width_field w :
  Z.land (Z.shiftl (u8 (oper_chwidth_mhz w - 1)) 1) S1G_OPER_IE_CHANWIDTH_OPER_CH_MASK = (oper_chwidth_mhz w - 1) * 2.
Proof. by destruct w. Qed.

Lemma bool_decide_if (P : Prop) `{Decision P} {A} (x y : A) : (if bool_decide P then x else y) = if decide P then x else y.
Proof. by destruct (decide P) as [H'|H']; [rewrite bool_decide_true|rewrite bool_decide_false]. Qed.

(** The width octet: primary width, operating width, location. *)
Lemma oper_width_octet (w : oper_chwidth) (p l : bool) :
  let o := u8 (Z.lor (Z.lor (if p then S1G_OPER_IE_CHANWIDTH_PRIM_CH_MASK else 0) ((oper_chwidth_mhz w - 1) * 2))
    (if l then S1G_OPER_IE_CHANWIDTH_PRIM_OFFSET else 0)) in
  is_u8 o /\ u8 (Z.land (Z.shiftr o 1) 0x0f + 1) = oper_chwidth_mhz w /\ u8 (2 - Z.land o 0x01) = if p then 1 else 2.
Proof. by destruct w, p, l. Qed.

Lemma mcs_octet m :
  let v := s1g_basic_min_max_mcs_nss_ie m in is_u16 (Z.lor (Z.land v 0xff) (Z.shiftr v 8)).
Proof.
  intros v. assert (Hv : is_u16 v) by apply u16_range.
  apply lor_range; [done| |].
  - change 0xff with (Z.ones 8). rewrite Z.land_ones by done. zlia.
  - rewrite Z.shiftr_div_pow2 by done. zlia.
Qed.

(** C28: the S1G Operation element that the access point appends to a frame of
    other elements is decoded by the SDK's parser, whatever follows it, to the
    configured operating class, operating width, operating channel and primary
    channel.  The primary width is decoded as the opposite of the configured one:
    1 MHz exactly when [s1g_prim_chwidth] is [S1G_PRIM_CHWIDTH_2]
    ([prim_width_inverted]). *)
Theorem s1g_operation_parsed l hapd post out :
  let c := iconf hapd in
  let ies := enc_ies l ++ hostapd_eid_s1g_oper hapd ++ post in
  Forall ie_wf l -> Forall (fun e => fst e <> MM_S1G_OPERATION_IE_TYPE) l ->
  is_bytes [s1g_op_class c; s1g_prim_channel c; channel c] -> is_bytes post -> zlen ies < 2 ^ 31 ->
  mm_parse_s1g_operation ies (zlen ies) out =
    Ok (0, {| operating_class := s1g_op_class c;
              operating_channel_width_mhz := oper_chwidth_mhz (s1g_oper_chwidth c);
              primary_channel_width_mhz := if decide (s1g_prim_chwidth c = S1G_PRIM_CHWIDTH_2) then 1 else 2;
              operating_channel_number := channel c;
              primary_channel_number := s1g_prim_channel c |}).
Proof.
  intros c ies Hl Hne Hb Hpost Hsz.
  destruct (oper_width_octet (s1g_oper_chwidth c) (bool_decide (s1g_prim_chwidth c = 1)) (bool_decide (s1g_prim_1mhz_chan_loc c <> 0)))
    as (H8 & Hw & Hp). rewrite !(bool_decide_if _) in H8, Hw, Hp.
  set (w := u8 _) in H8, Hw, Hp.
  assert (E : exists v, is_u16 v /\ ies = enc_ies l ++ enc_ie (MM_S1G_OPERATION_IE_TYPE, [w; s1g_op_class c; s1g_prim_channel c; channel c] ++ enc_le16 v ++ []) ++ post).
  { eexists. split; [apply mcs_octet|]. unfold ies, hostapd_eid_s1g_oper. by rewrite oper_width_field. }
  destruct E as (v & Hv & E). rewrite E in *. rewrite mm_parse_s1g_octets; try done.
  - by rewrite Hw, Hp, bool_decide_if.
  - by constructor.
  - rewrite app_nil_r. by apply enc_le16_bytes.
Qed.

Definition ex_conf (ch cls gl : Z) (cc : string) : hostapd_config :=
  {| beacon_int := 100; op_class := gl; channel := ch; country := lit cc ++ [32]; s1g_prim_chwidth := 1; s1g_op_class := cls;
     s1g_prim_channel := ch; s1g_prim_1mhz_chan_loc := 0; s1g_oper_chwidth := S1G_OPER_CHWIDTH_1; s1g_basic_mcs_nss_set := 0 |}.

Definition ex_hapd : hostapd_data :=
  {| iconf := ex_conf 44 25 0 "AU"; short_beacon_int := 1; s1g_capab := replicate 10 0; s1g_mcs := replicate 5 0 |}.

Lemma s1g_operation_parsed_witness :
  let ies := enc_ies [(0, lit "halow")] ++ hostapd_eid_s1g_oper ex_hapd ++ hostapd_eid_s1g_short_beacon_int ex_hapd in
  mm_parse_s1g_operation ies (zlen ies) (Build_mm_s1g_operation 0 0 0 0 0) =
    Ok (0, {| operating_class := 25; operating_channel_width_mhz := 1; primary_channel_width_mhz := 1;
              operating_channel_number := 44; primary_channel_number := 44 |}).
Proof.
  apply (s1g_operation_parsed [(0, lit "halow")] ex_hapd (hostapd_eid_s1g_short_beacon_int ex_hapd)); unfold ie_wf; by_decide.
Defined.

(** ** Operating classes and the regulatory databases *)

(** Both databases, channel by channel: class, bandwidth and frequency agree
    with the switch. *)
Definition class_agrees (c : Reg.mmwlan_s1g_channel) : bool :=
  match oper_class_s1g (Reg.s1g_operating_class c) with
  | Some (bw, start) => bool_decide (oper_chwidth_mhz bw = Reg.bw_mhz c /\
      (start + 500 * Reg.s1g_chan_num c) * 1000 = Reg.centre_freq_hz c /\ Reg.s1g_chan_num c <> 0 /\
      0 < start < 2 ^ 20 /\ 0 < Reg.s1g_operating_class c < 256 /\ 0 <= Reg.s1g_chan_num c < 256)
  | None => false
  end.

Lemma classes_agree :
  forallb (fun db => forallb (fun l => forallb class_agrees (Reg.listed l)) (Reg.domains db)) [RegDb.regulatory_db; RegDbDef.regulatory_db] = true.
Proof. vm_compute. reflexivity. Qed.

Lemma class_agrees_all db l c :
  db ∈ [RegDb.regulatory_db; RegDbDef.regulatory_db] -> l ∈ Reg.domains db -> c ∈ Reg.listed l -> class_agrees c = true.
Proof.
  intros Hdb Hl Hc. pose proof classes_agree as H. rewrite forallb_forall in H.
  apply list_elem_of_In, H in Hdb. rewrite forallb_forall in Hdb. apply list_elem_of_In, Hdb in Hl.
  rewrite forallb_forall in Hl. by apply list_elem_of_In, Hl in Hc.
Qed.

(** C27: an access point configured with the S1G operating class and the number
    of any channel of the SDK's regulatory databases gets exactly that channel's
    centre frequency and bandwidth. *)
Theorem regulatory_channel_configured db l c iface :
  db ∈ [RegDb.regulatory_db; RegDbDef.regulatory_db] -> l ∈ Reg.domains db -> c ∈ Reg.listed l ->
  channel (conf iface) = Reg.s1g_chan_num c -> s1g_op_class (conf iface) = Reg.s1g_operating_class c ->
  exists bw, oper_chwidth_mhz bw = Reg.bw_mhz c /\
    hostapd_s1g_get_oper_config iface =
      (0, {| conf := set_oper bw (Reg.s1g_operating_class c) (conf iface); freq_khz := Reg.centre_freq_hz c / 1000 |}).
Proof.
  intros Hdb Hl Hc Hch Hcls. pose proof (class_agrees_all _ _ _ Hdb Hl Hc) as H. unfold class_agrees in H.
  destruct (oper_class_s1g (Reg.s1g_operating_class c)) as [[bw start]|] eqn:E; [|done].
  apply bool_decide_eq_true in H as (Hw & Hf & Hn & Hs & Hk & Hr). exists bw. split; [done|].
  unfold hostapd_s1g_get_oper_config. rewrite Hch, Hcls, decide_False, decide_True by lia.
  unfold hostapd_s1g_get_oper_class_s1g. rewrite E, Hch, <- Hf, Z.div_mul by lia. cbn beta iota zeta.
  rewrite decide_False by lia. rewrite u32_id, s32_id by (unfold is_u32; lia). done.
Qed.

Lemma regulatory_channel_configured_witness :
  exists bw, oper_chwidth_mhz bw = 8 /\
    hostapd_s1g_get_oper_config {| conf := ex_conf 44 25 0 "AU"; freq_khz := 0 |} =
      (0, {| conf := set_oper bw 25 (ex_conf 44 25 0 "AU"); freq_khz := 924000000 / 1000 |}).
Proof.
  apply (regulatory_channel_configured RegDbDef.regulatory_db RegDbDef.s1g_channel_list_AU
    (Reg.ch 924000000 10000 false 71 25 44 8 30 0 0 0)); try reflexivity.
  - right. left.
  - left.
  - by_decide.
Defined.

(** The application's database and the switch of the global classes: whenever a
    case compares with the country, the class chosen is the database's. *)
Lemma global_classes_agree :
  forallb (fun l => forallb (fun c =>
      match global_cases (Reg.global_operating_class c) with
      | Some k => match first_cc (Reg.country_code l) k with Some cls => bool_decide (cls = Reg.s1g_operating_class c) | None => true end
      | None => true
      end) (Reg.listed l)) (Reg.domains RegDbDef.regulatory_db) = true.
Proof. vm_compute. reflexivity. Qed.

(** ** What fails *)

(** A class that is set is never refused: -1 becomes 255 in the functions' type,
    and the callers look for a negative value.  Nothing is configured then. *)
Lemma config_never_refused iface :
  s1g_op_class (conf iface) <> 0 \/ op_class (conf iface) <> 0 ->
  fst (hostapd_s1g_get_oper_config iface) = 0.
Proof.
  intros Ho. unfold hostapd_s1g_get_oper_config, hostapd_s1g_get_oper_global, hostapd_s1g_get_oper_class_s1g.
  repeat case_decide; repeat case_match; simplify_eq/=; try done; try lia; tauto.
Qed.

Lemma unknown_class_accepted :
  let iface := {| conf := ex_conf 44 13 0 "AU"; freq_khz := 0 |} in
  hostapd_s1g_get_oper_config iface = (0, iface).
Proof. vm_compute. reflexivity. Qed.

(** India's and Japan's channels by their global operating class. *)
Lemma global_class_not_configured :
  let iface c cc := {| conf := ex_conf 7 0 c cc; freq_khz := 0 |} in
  hostapd_s1g_get_oper_config (iface 66 "IN"%string) = (0, iface 66 "IN"%string) /\
  hostapd_s1g_get_oper_config (iface 64 "JP"%string) = (0, iface 64 "JP"%string).
Proof. vm_compute. done. Qed.

(** With the value the enumeration has for 2 MHz the element announces 1 MHz. *)
Lemma prim_width_inverted :
  s1g_prim_chwidth (iconf ex_hapd) = S1G_PRIM_CHWIDTH_2 /\
  option_map primary_channel_width_mhz (match mm_parse_s1g_operation (hostapd_eid_s1g_oper ex_hapd) 8 (Build_mm_s1g_operation 0 0 0 0 0) with Ok (_, o) => Some o | _ => None end) = Some 1.
Proof. vm_compute. done. Qed.

(** The MCS map of three and four streams is put over that of one and two. *)
Lemma basic_mcs_overlap :
  let hapd m := {| iconf := {| beacon_int := 100; op_class := 0; channel := 44; country := lit "AU "; s1g_prim_chwidth := 1; s1g_op_class := 25;
     s1g_prim_channel := 37; s1g_prim_1mhz_chan_loc := 0; s1g_oper_chwidth := S1G_OPER_CHWIDTH_8; s1g_basic_mcs_nss_set := m |};
     short_beacon_int := 1; s1g_capab := replicate 10 0; s1g_mcs := replicate 5 0 |} in
  hostapd_eid_s1g_oper (hapd 0x10) = hostapd_eid_s1g_oper (hapd 0x01).
Proof. vm_compute. reflexivity. Qed.
End S1gAp.
