(* ===== verification/OsMmosal.v ===== *)
(** The supplicant's operating system layer on the SDK: [os_mmosal.c] of
    [framework/src/hostap], and the time arithmetic of [src/utils/os.h] it feeds.

    The clock, the random number generator, the allocator and the C library's
    calendar are arguments. *)

From S2P Require Import Prelude CStr.

Module OsMmosal.

(** ** Time *)

(** [os_time_t] is a 32-bit [long]. *)
Record os_time := { sec : Z; usec : Z }.

#[global] Instance os_time_eq_dec : EqDecision os_time.
Proof. solve_decision. Defined.

(** The pauses asked of [mmosal_task_sleep], in milliseconds. *)
Definition os_sleep (sec usec : Z) : list Z :=
  (if decide (sec <> 0) then [u32 (s32 (sec * 1000))] else []) ++
  (if decide (usec <> 0) then [u32 (Z.quot usec 1000)] else []).

(** [now]: [mmosal_get_time_ms]. *)
Definition os_get_time (now : Z) : os_time := {| sec := now / 1000; usec := now mod 1000 |}.
Definition os_get_reltime (now : Z) : os_time := {| sec := now / 1000; usec := now mod 1000 |}.

Definition os_reltime_before (a b : os_time) : bool :=
  bool_decide (sec a < sec b \/ sec a = sec b /\ usec a < usec b).

Definition os_reltime_sub (a b : os_time) : os_time :=
  let s := s32 (sec a - sec b) in
  let u := s32 (usec a - usec b) in
  if decide (u < 0) then {| sec := s32 (s - 1); usec := u + 1000000 |} else {| sec := s; usec := u |}.

Record tm := { tm_year : Z; tm_mon : Z; tm_mday : Z; tm_hour : Z; tm_min : Z; tm_sec : Z }.
Record os_tm := { t_sec : Z; t_min : Z; t_hour : Z; t_day : Z; t_month : Z; t_year : Z }.

(** [None]: -1, and [*t] is left alone. *)
Definition os_mktime (mktime : tm -> Z) (year month day hour min sec : Z) : option Z :=
  if decide ((year < 1970 \/ month < 1 \/ month > 12 \/ day < 1 \/ day > 31) \/
             (hour < 0 \/ hour > 23 \/ min < 0 \/ min > 59 \/ sec < 0 \/ sec > 60)) then None
  else Some (s32 (mktime {| tm_year := year - 1900; tm_mon := month - 1; tm_mday := day; tm_hour := hour; tm_min := min; tm_sec := sec |})).

Definition os_gmtime (gmtime : Z -> option tm) (t : Z) : option os_tm :=
  match gmtime t with
  | None => None
  | Some tm2 => Some {| t_sec := tm_sec tm2; t_min := tm_min tm2; t_hour := tm_hour tm2; t_day := tm_mday tm2;
                        t_month := tm_mon tm2 + 1; t_year := tm_year tm2 + 1900 |}
  end.

(** ** Random octets *)

(** The octets of a [uint32_t] in memory. *)
Definition le32_octets (v : Z) : bytes := [v mod 256; v / 2 ^ 8 mod 256; v / 2 ^ 16 mod 256; v / 2 ^ 24].

(** [data]: the successive values of [mmhal_random_u32 (0, UINT32_MAX)];
    [buf]: the offset of the pointer, [k] values drawn so far. *)
Fixpoint get_random_loop (fuel : nat) (data : nat -> Z) (k : nat) (mem : bytes) (buf buf_end : Z) : outcome (bytes * nat) :=
  match fuel with
  | O => Fail OutOfFuel
  | S fuel =>
      if decide (buf < buf_end) then
        let remaining := buf_end - buf in
        let remaining := if decide (remaining > 4) then 4 else remaining in
        mem ← wrn mem buf (take (Z.to_nat remaining) (le32_octets (data k)));
        get_random_loop fuel data (S k) mem (buf + 4) buf_end
      else Ok (mem, k)
  end.

Definition os_get_random (data : nat -> Z) (mem : bytes) (len : Z) : outcome (bytes * nat) :=
  get_random_loop (S (Z.to_nat len)) data 0 mem 0 len.

Definition os_random (data : nat -> Z) (k : nat) : Z := data k.

(** ** Memory: [malloc n] whether there is room, the block's contents otherwise *)

Definition os_zalloc (malloc : Z -> option bytes) (size : Z) : option bytes :=
  match malloc size with Some _ => Some (replicate (Z.to_nat size) 0) | None => None end.

Definition os_memdup (malloc : Z -> option bytes) (src : bytes) (len : Z) : outcome (option bytes) :=
  match malloc len with
  | None => Ok None
  | Some r => d ← rdn src 0 len; r ← wrn r 0 d; Ok (Some r)
  end.

Definition os_strdup (malloc : Z -> option bytes) (s : bytes) : outcome (option bytes) :=
  len ← strlen s;
  match malloc (u32 (len + 1)) with
  | None => Ok None
  | Some buf => d ← rdn s 0 len; buf ← wrn buf 0 d; buf ← wr buf len 0; Ok (Some buf)
  end.

(** [memcmp]: the difference of the first octets that differ. *)
Fixpoint memcmp (n : nat) (a b : bytes) : outcome Z :=
  match n with
  | O => Ok 0
  | S n =>
      match a, b with
      | x :: a, y :: b => if decide (x = y) then memcmp n a b else Ok (x - y)
      | _, _ => Fail OutOfBounds
      end
  end.

Definition os_memcmp_const (a b : bytes) (len : Z) : outcome Z := memcmp (Z.to_nat len) a b.

(** [strcmp], on the two strings. *)
Fixpoint strcmp (s1 s2 : bytes) : Z :=
  match s1, s2 with
  | x :: s1, y :: s2 => if decide (x = y) then strcmp s1 s2 else x - y
  | x :: _, [] => x
  | [], y :: _ => - y
  | [], [] => 0
  end.

Definition os_strcasecmp (s1 s2 : bytes) : Z := strcmp s1 s2.

(** ** [os_strlcpy] *)

(** Both pointers have advanced by [i]; [n] is [(int)(siz - 1)]. *)
Fixpoint strlcpy_copy (fuel : nat) (i n : Z) (dest src : bytes) : outcome (Z * bytes) :=
  match fuel with
  | O => Fail OutOfFuel
  | S fuel =>
      if decide (i < n) then
        c ← rd src i; dest ← wr dest i c;
        if decide (c = 0) then Ok (i, dest) else strlcpy_copy fuel (i + 1) n dest src
      else Ok (i, dest)
  end.

Fixpoint strlcpy_scan (fuel : nat) (i : Z) (src : bytes) : outcome Z :=
  match fuel with
  | O => Fail OutOfFuel
  | S fuel => c ← rd src i; if decide (c <> 0) then strlcpy_scan fuel (i + 1) src else Ok (i + 1)
  end.

Definition os_strlcpy (dest src : bytes) (siz : Z) : outcome (Z * bytes) :=
  let n := s32 (u32 (siz - 1)) in
  '(i, dest) ← strlcpy_copy (S (Z.to_nat siz)) 0 n dest src;
  dest ← (if decide (siz <> 0 /\ i = n) then wr dest i 0 else Ok dest);
  e ← strlcpy_scan (S (length src)) i src;
  Ok (u32 (e - 1), dest).

(** ** Lemmas *)

Lemma rd_string s r i c : s !! i = Some c -> rd (s ++ 0 :: r) (Z.of_nat i) = Ok c.
Proof. intros H. apply rd_lookup. split; [lia|]. rewrite Nat2Z.id. by apply lookup_app_l_Some. Qed.

Lemma rd_string_end s r : rd (s ++ 0 :: r) (zlen s) = Ok 0.
Proof. apply rd_lookup. split; [lia|]. rewrite Nat2Z.id. by rewrite list_lookup_middle. Qed.

(** One octet more of the array taken from the string. *)
Lemma wr_next (s dest : bytes) i c :
  length s = i -> (i < length dest)%nat -> wr (s ++ drop i dest) (Z.of_nat i) c = Ok ((s ++ [c]) ++ drop (S i) dest).
Proof.
  intros Hs Hi. rewrite wr_Ok by (rewrite length_app, length_drop; lia). f_equal.
  rewrite Nat2Z.id, insert_app_r_alt by lia. replace (i - length s)%nat with 0%nat by lia.
  destruct (lookup_lt_is_Some_2 dest i Hi) as [x Hx]. rewrite (drop_S dest x i Hx). cbn. by rewrite <- app_assoc.
Qed.

Lemma strlcpy_copy_Ok k : forall fuel i n dest s r,
  (i <= length s)%nat -> (i + k = n)%nat -> (n < length dest)%nat -> no_nul s -> (k < fuel)%nat ->
  strlcpy_copy fuel (Z.of_nat i) (Z.of_nat n) (take i s ++ drop i dest) (s ++ 0 :: r) =
    Ok (if decide (length s < n)%nat then (zlen s, (s ++ [0]) ++ drop (S (length s)) dest)
        else (Z.of_nat n, take n s ++ drop n dest)).
Proof.
  induction k as [|k IH]; intros fuel i n dest s r Hi Hk Hn Hs Hf; destruct fuel as [|fuel]; try lia; cbn [strlcpy_copy].
  - rewrite decide_False by lia. rewrite decide_False by lia. by replace n with i by lia.
  - rewrite decide_True by lia. destruct (decide (i = length s)) as [->|Hne].
    + rewrite rd_string_end. cbn [mbind outcome_bind]. rewrite take_ge, wr_next by lia. cbn [mbind outcome_bind].
      by rewrite decide_True, decide_True by lia.
    + destruct (lookup_lt_is_Some_2 s i) as [c Hc]; [lia|]. rewrite (rd_string s r i c Hc). cbn [mbind outcome_bind].
      rewrite wr_next by (rewrite ?length_take; lia). cbn [mbind outcome_bind].
      rewrite decide_False by (by eapply Forall_lookup_1 in Hs). rewrite <- (take_S_r s i c Hc).
      replace (Z.of_nat i + 1) with (Z.of_nat (S i)) by lia. apply IH; try done; lia.
Qed.

Lemma strlcpy_scan_Ok k : forall fuel i s r,
  (i + k = length s)%nat -> no_nul s -> (k < fuel)%nat -> strlcpy_scan fuel (Z.of_nat i) (s ++ 0 :: r) = Ok (zlen s + 1).
Proof.
  induction k as [|k IH]; intros fuel i s r Hk Hs Hf; destruct fuel as [|fuel]; try lia; cbn [strlcpy_scan].
  - replace i with (length s) by lia. rewrite rd_string_end. cbn [mbind outcome_bind]. by rewrite decide_False by lia.
  - destruct (lookup_lt_is_Some_2 s i) as [c Hc]; [lia|]. rewrite (rd_string s r i c Hc). cbn [mbind outcome_bind].
    rewrite decide_True by (by eapply Forall_lookup_1 in Hs).
    replace (Z.of_nat i + 1) with (Z.of_nat (S i)) by lia. apply IH; try done; lia.
Qed.

(** [os_strlcpy] on a terminated source and an array of at least [siz]
    octets returns the length of the source, leaves as much of it as fits before a
    terminator at the start of the array and nothing else changed, and reads and
    writes only inside the two arrays; with [siz] 0 it writes nothing. *)
Theorem os_strlcpy_correct dest src siz :
  terminated src -> zlen src < 2 ^ 32 -> 0 <= siz <= zlen dest -> siz < 2 ^ 31 ->
  os_strlcpy dest src siz =
    Ok (zlen (cstr src),
        if decide (siz = 0) then dest else splice 0 (take (Z.to_nat (siz - 1)) (cstr src) ++ [0]) dest).
Proof.
  intros Ht Hsrc Hsiz H31. pose proof (cstr_len src Ht) as Hl. destruct (terminated_split src Ht) as [r Hr].
  pose proof (cstr_no_nul src) as Hs. set (s := cstr src) in *. rewrite Hr in *. rewrite length_app in Hsrc. cbn [length] in Hsrc.
  assert (Hlast : u32 (zlen s + 1 - 1) = zlen s) by zlia.
  unfold os_strlcpy. destruct (decide (siz = 0)) as [->|Hne].
  - change (s32 (u32 (0 - 1))) with (-1). cbn [strlcpy_copy Z.to_nat]. rewrite decide_False by lia. cbn [mbind outcome_bind].
    rewrite decide_False by lia. cbn [mbind outcome_bind].
    rewrite (strlcpy_scan_Ok (length s) _ 0 s r) by (rewrite ?length_app; cbn; lia || done). cbn [mbind outcome_bind]. by rewrite Hlast.
  - replace (s32 (u32 (siz - 1))) with (Z.of_nat (Z.to_nat (siz - 1))) by zlia. set (n := Z.to_nat (siz - 1)).
    rewrite (strlcpy_copy_Ok n _ 0 n dest s r) by (done || lia). cbn [mbind outcome_bind].
    destruct (decide (length s < n)%nat) as [Hlt|Hge].
    + rewrite decide_False by lia. cbn [mbind outcome_bind].
      rewrite (strlcpy_scan_Ok 0 _ (length s) s r) by (rewrite ?length_app; cbn; lia || done). cbn [mbind outcome_bind].
      rewrite Hlast, take_ge by lia. unfold splice. cbn [take app]. rewrite length_app. cbn [length].
      by replace (0 + (length s + 1))%nat with (S (length s)) by lia.
    + rewrite decide_True by lia. rewrite wr_next by (rewrite ?length_take; lia). cbn [mbind outcome_bind].
      rewrite (strlcpy_scan_Ok (length s - n) _ n s r) by (rewrite ?length_app; cbn; lia || done). cbn [mbind outcome_bind].
      rewrite Hlast. unfold splice. cbn [take app]. rewrite length_app, length_take. cbn [length].
      by replace (0 + (n `min` length s + 1))%nat with (S n) by lia.
Qed.

Lemma os_strlcpy_correct_witness :
  os_strlcpy (replicate 6 7) (lit "halow" ++ [0; 9]) 4 = Ok (5, lit "hal" ++ [0; 7; 7]).
Proof. apply (os_strlcpy_correct (replicate 6 7) (lit "halow" ++ [0; 9]) 4); by_decide. Defined.

(** *** Random octets *)

Lemma splice_app (pre d mem : bytes) : splice (length pre) d (pre ++ mem) = pre ++ d ++ drop (length d) mem.
Proof. unfold splice. rewrite take_app_length. f_equal. f_equal. by rewrite <- drop_drop, drop_app_length. Qed.

Definition octets_from (data : nat -> Z) (k n : nat) : bytes := seq k n ≫= fun i => le32_octets (data i).

Lemma octets_from_S data k n : octets_from data k (S n) = le32_octets (data k) ++ octets_from data (S k) n.
Proof. done. Qed.

Lemma length_octets_from data k n : length (octets_from data k n) = (4 * n)%nat.
Proof. revert k. induction n as [|n IH]; intros k; [done|]. rewrite octets_from_S, length_app, IH. cbn. lia. Qed.

Lemma get_random_loop_Ok n : forall fuel data k (pre mem : bytes) (len : nat),
  (len <= length mem)%nat -> (len <= 4 * n < len + 4)%nat -> (n < fuel)%nat ->
  get_random_loop fuel data k (pre ++ mem) (zlen pre) (zlen pre + Z.of_nat len) =
    Ok (pre ++ take len (octets_from data k n) ++ drop len mem, (k + n)%nat).
Proof.
  induction n as [|n IH]; intros fuel data k pre mem len Hlen Hn Hf; destruct fuel as [|fuel]; try lia; cbn [get_random_loop].
  - assert (len = 0%nat) as -> by lia.
    rewrite decide_False by lia. by rewrite Nat.add_0_r.
  - rewrite decide_True by lia. set (m := (4 `min` len)%nat).
    replace (Z.to_nat _) with m by (case_decide; lia).
    assert (Hd : length (take m (le32_octets (data k))) = m) by (rewrite length_take; cbn [length le32_octets]; lia).
    rewrite wrn_Ok by (rewrite ?length_app; lia). cbn [mbind outcome_bind]. rewrite Nat2Z.id, splice_app, Hd.
    destruct (decide (4 <= len)%nat) as [H4|H4].
    + replace m with 4%nat in * by lia. change (take 4 (le32_octets (data k))) with (le32_octets (data k)).
      rewrite app_assoc.
      replace (zlen pre + 4) with (zlen (pre ++ le32_octets (data k))) by (rewrite length_app; cbn [length le32_octets]; lia).
      replace (zlen pre + Z.of_nat len) with (zlen (pre ++ le32_octets (data k)) + Z.of_nat (len - 4)) by (rewrite length_app; cbn [length le32_octets]; lia).
      rewrite IH by (rewrite ?length_drop; lia).
      rewrite octets_from_S, <- !app_assoc, drop_drop. replace (4 + (len - 4))%nat with len by lia.
      rewrite take_app_ge by (cbn; lia). cbn [length le32_octets]. by replace (k + S n)%nat with (S k + n)%nat by lia.
    + replace m with len in * by lia. assert (n = 0%nat) as -> by lia.
      destruct fuel as [|fuel]; [lia|]. cbn [get_random_loop]. rewrite decide_False by lia.
      rewrite octets_from_S, take_app_le by (cbn; lia). by rewrite Nat.add_1_r.
Qed.

(** [os_get_random] fills exactly the [len] octets it is asked for, in order
    with the octets of successive draws of 32 bits, changes nothing after them and
    draws no more often than needed. *)
Theorem os_get_random_fills data mem len :
  0 <= len <= zlen mem ->
  let n := Z.to_nat ((len + 3) / 4) in
  os_get_random data mem len = Ok (take (Z.to_nat len) (octets_from data 0 n) ++ drop (Z.to_nat len) mem, n).
Proof.
  intros Hl n. unfold os_get_random.
  assert (Hn : len <= 4 * Z.of_nat n < len + 4).
  { unfold n. rewrite Z2Nat.id by (apply Z.div_pos; lia). zlia. }
  pose proof (get_random_loop_Ok n (S (Z.to_nat len)) data 0 [] mem (Z.to_nat len)) as E.
  cbn [app length Z.of_nat] in E. rewrite Z.add_0_l, Z2Nat.id in E by lia. apply E; lia.
Qed.

Lemma os_get_random_fills_witness :
  os_get_random (fun i => 0x04030201 + 0x10 * Z.of_nat i) (replicate 8 0) 6 = Ok ([1; 2; 3; 4; 0x11; 2; 0; 0], 2%nat).
Proof. apply (os_get_random_fills (fun i => 0x04030201 + 0x10 * Z.of_nat i) (replicate 8 0) 6). by_decide. Defined.

(** ** Time *)

(** Readings keep the order of the clock. *)
Lemma reltime_ordered a b : os_reltime_before (os_get_reltime a) (os_get_reltime b) = bool_decide (a < b).
Proof.
  unfold os_reltime_before, os_get_reltime. cbn [sec usec]. apply bool_decide_ext.
  pose proof (Z.div_mod a 1000). pose proof (Z.div_mod b 1000).
  pose proof (Z.mod_pos_bound a 1000). pose proof (Z.mod_pos_bound b 1000). lia.
Qed.

(** But the field of microseconds holds milliseconds, so that across a second one
    millisecond counts as 999 milliseconds and one microsecond. *)
Lemma millisecond_counts_a_second :
  os_reltime_sub (os_get_reltime 2000) (os_get_reltime 1999) = {| sec := 0; usec := 999001 |}.
Proof. vm_compute. reflexivity. Qed.

(** Pauses shorter than a millisecond are none. *)
Lemma short_sleep_is_none : os_sleep 0 999 = [0].
Proof. vm_compute. reflexivity. Qed.

(** *** Comparisons *)

Lemma memcmp_eq n : forall a b, (n <= length a)%nat -> (n <= length b)%nat ->
  exists z, memcmp n a b = Ok z /\ (z = 0 <-> take n a = take n b).
Proof.
  induction n as [|n IH]; intros a b Ha Hb; [by exists 0|].
  destruct a as [|x a], b as [|y b]; cbn in Ha, Hb; try lia. cbn [memcmp take].
  destruct (decide (x = y)) as [->|Hne].
  - destruct (IH a b) as (z & -> & Hz); [lia..|]. exists z. split; [done|]. rewrite Hz. split; [by intros ->|by intros [= ->]].
  - exists (x - y). split; [done|]. split; [lia|by intros [= ->]].
Qed.

(** The comparison that ignores case distinguishes letters by case. *)
Lemma strcasecmp_is_case_sensitive : os_strcasecmp (lit "WPA") (lit "wpa") <> 0.
Proof. vm_compute. done. Qed.

(** The comparison that should take constant time stops at the first difference:
    what follows is not read. *)
Lemma memcmp_const_stops_early x y a b n : x <> y -> os_memcmp_const (x :: a) (y :: b) (Z.of_nat (S n)) = Ok (x - y).
Proof. intros H. unfold os_memcmp_const. rewrite Nat2Z.id. cbn. by rewrite decide_False. Qed.

End OsMmosal.
