(* ===== verification/SdioSpi.v ===== *)
(** The SDIO over SPI host of the porting assistant:
    [examples/porting_assistant/main/src/sdio_spi.c], whole.

    The bus is an interface, the operations of [mmhal_wlan.h]; [D] is the state of
    everything on the other side.  A buffer is an array and the offset of the
    pointer into it. *)

From S2P Require Import Prelude Crc.

(** [spi_rw x]: [mmhal_wlan_spi_rw], an octet each way; [spi_read_buf n],
    [spi_write_buf l]: several octets one way; [cs true]: select asserted. *)
Class SpiBus (D : Type) := {
  spi_rw : Z -> D -> Z * D;
  spi_read_buf : nat -> D -> bytes * D;
  spi_write_buf : bytes -> D -> D;
  spi_cs : bool -> D -> D;
}.

Module SdioSpi.

(** ** Constants *)

Definition MORSE_REG_ADDRESS_BASE : Z := 0x10000.
Definition MORSE_REG_ADDRESS_WINDOW_0 : Z := MORSE_REG_ADDRESS_BASE.
Definition MORSE_REG_ADDRESS_WINDOW_1 : Z := MORSE_REG_ADDRESS_BASE + 1.
Definition MORSE_REG_ADDRESS_CONFIG : Z := MORSE_REG_ADDRESS_BASE + 2.
Definition MORSE_CONFIG_ACCESS_4BYTE : Z := 2.

Definition CMD53_MAX_BLOCKS : Z := 128.
Definition BLOCK_SIZE_FN1 : Z := 8.
Definition BLOCK_SIZE_FN1_LOG2 : Z := 3.
Definition BLOCK_SIZE_FN2 : Z := 512.
Definition BLOCK_SIZE_FN2_LOG2 : Z := 9.
Definition MAX_BLOCK_TRANSFER_SIZE_FN2 : Z := BLOCK_SIZE_FN2 * CMD53_MAX_BLOCKS.

Definition SDIO_SPI_TKN_MULTI_WRITE : Z := 0xFC.
Definition SDIO_SPI_TKN_READ_SINGLE_WRITE : Z := 0xFE.
Definition SDIO_SPI_TKN_STOP_TRANSACTION : Z := 0xFD.
Definition SDIO_SPI_TKN_DATA_RSP_ACCEPTED : Z := Z.lor 0xE1 (Z.shiftl 0x02 1).
Definition SDIO_SPI_TKN_DATA_RSP_REJ_CRC : Z := Z.lor 0xE1 (Z.shiftl 0x05 1).
Definition SDIO_SPI_TKN_DATA_RSP_REJ_WRITE : Z := Z.lor 0xE1 (Z.shiftl 0x06 1).

Definition MAX_BUS_ATTEMPTS : nat := 200.

Definition SDIO_DIR_HOST_TO_CARD : Z := Z.shiftl 1 6.
Definition SDIO_CMD52 : Z := 52.
Definition SDIO_CMD53 : Z := 53.
Definition SDIO_CMD63 : Z := 63.
Definition SDIO_READ : Z := 0.
Definition SDIO_WRITE : Z := Z.shiftl 1 31.
Definition SDIO_FUNCTION_1 : Z := Z.shiftl 1 28.
Definition SDIO_FUNCTION_2 : Z := Z.shiftl 2 28.
Definition SDIO_MODE_BYTE : Z := 0.
Definition SDIO_MODE_BLOCK : Z := Z.shiftl 1 27.
Definition SDIO_OPCODE_INC_ADDR : Z := Z.shiftl 1 26.
Definition SDIO_ADDRESS_OFFSET : Z := 9.
Definition SDIO_ADDRESS_MAX : Z := Z.shiftl 1 18 - 1.
Definition SDIO_COUNT_MAX : Z := Z.shiftl 1 10 - 1.

(** [enum sdio_spi_rc] *)
Definition RC_SUCCESS : Z := 0.
Definition RC_UNSPECIFIED_ERROR : Z := 1.
Definition RC_DEVICE_NOT_READY : Z := 2.
Definition RC_INVALID_RESPONSE : Z := 3.
Definition RC_INVALID_RESPONSE_DATA : Z := 4.
Definition RC_INVALID_CRC_RECIEVED : Z := 5.
Definition RC_RESPONSE_TIMEOUT : Z := 6.
Definition RC_INVALID_INPUT : Z := 7.

(** ** Checksums *)

Definition crc7_lookup_table : list Z := [
    0x00; 0x09; 0x12; 0x1b; 0x24; 0x2d; 0x36; 0x3f; 0x48; 0x41; 0x5a; 0x53; 0x6c; 0x65; 0x7e; 0x77;
    0x19; 0x10; 0x0b; 0x02; 0x3d; 0x34; 0x2f; 0x26; 0x51; 0x58; 0x43; 0x4a; 0x75; 0x7c; 0x67; 0x6e;
    0x32; 0x3b; 0x20; 0x29; 0x16; 0x1f; 0x04; 0x0d; 0x7a; 0x73; 0x68; 0x61; 0x5e; 0x57; 0x4c; 0x45;
    0x2b; 0x22; 0x39; 0x30; 0x0f; 0x06; 0x1d; 0x14; 0x63; 0x6a; 0x71; 0x78; 0x47; 0x4e; 0x55; 0x5c;
    0x64; 0x6d; 0x76; 0x7f; 0x40; 0x49; 0x52; 0x5b; 0x2c; 0x25; 0x3e; 0x37; 0x08; 0x01; 0x1a; 0x13;
    0x7d; 0x74; 0x6f; 0x66; 0x59; 0x50; 0x4b; 0x42; 0x35; 0x3c; 0x27; 0x2e; 0x11; 0x18; 0x03; 0x0a;
    0x56; 0x5f; 0x44; 0x4d; 0x72; 0x7b; 0x60; 0x69; 0x1e; 0x17; 0x0c; 0x05; 0x3a; 0x33; 0x28; 0x21;
    0x4f; 0x46; 0x5d; 0x54; 0x6b; 0x62; 0x79; 0x70; 0x07; 0x0e; 0x15; 0x1c; 0x23; 0x2a; 0x31; 0x38;
    0x41; 0x48; 0x53; 0x5a; 0x65; 0x6c; 0x77; 0x7e; 0x09; 0x00; 0x1b; 0x12; 0x2d; 0x24; 0x3f; 0x36;
    0x58; 0x51; 0x4a; 0x43; 0x7c; 0x75; 0x6e; 0x67; 0x10; 0x19; 0x02; 0x0b; 0x34; 0x3d; 0x26; 0x2f;
    0x73; 0x7a; 0x61; 0x68; 0x57; 0x5e; 0x45; 0x4c; 0x3b; 0x32; 0x29; 0x20; 0x1f; 0x16; 0x0d; 0x04;
    0x6a; 0x63; 0x78; 0x71; 0x4e; 0x47; 0x5c; 0x55; 0x22; 0x2b; 0x30; 0x39; 0x06; 0x0f; 0x14; 0x1d;
    0x25; 0x2c; 0x37; 0x3e; 0x01; 0x08; 0x13; 0x1a; 0x6d; 0x64; 0x7f; 0x76; 0x49; 0x40; 0x5b; 0x52;
    0x3c; 0x35; 0x2e; 0x27; 0x18; 0x11; 0x0a; 0x03; 0x74; 0x7d; 0x66; 0x6f; 0x50; 0x59; 0x42; 0x4b;
    0x17; 0x1e; 0x05; 0x0c; 0x33; 0x3a; 0x21; 0x28; 0x5f; 0x56; 0x4d; 0x44; 0x7b; 0x72; 0x69; 0x60;
    0x0e; 0x07; 0x1c; 0x15; 0x2a; 0x23; 0x38; 0x31; 0x46; 0x4f; 0x54; 0x5d; 0x62; 0x6b; 0x70; 0x79
  ].

Fixpoint morse_crc7 (crc : Z) (data : bytes) : outcome Z :=
  match data with
  | [] => Ok crc
  | d :: data => crc ← rd crc7_lookup_table (Z.lxor (Z.shiftl crc 1) d); morse_crc7 crc data
  end.

Definition crc16_lookup_table : list Z := [
    0x0000; 0x1021; 0x2042; 0x3063; 0x4084; 0x50a5; 0x60c6; 0x70e7; 0x8108; 0x9129; 0xa14a; 0xb16b; 0xc18c; 0xd1ad; 0xe1ce; 0xf1ef;
    0x1231; 0x0210; 0x3273; 0x2252; 0x52b5; 0x4294; 0x72f7; 0x62d6; 0x9339; 0x8318; 0xb37b; 0xa35a; 0xd3bd; 0xc39c; 0xf3ff; 0xe3de;
    0x2462; 0x3443; 0x0420; 0x1401; 0x64e6; 0x74c7; 0x44a4; 0x5485; 0xa56a; 0xb54b; 0x8528; 0x9509; 0xe5ee; 0xf5cf; 0xc5ac; 0xd58d;
    0x3653; 0x2672; 0x1611; 0x0630; 0x76d7; 0x66f6; 0x5695; 0x46b4; 0xb75b; 0xa77a; 0x9719; 0x8738; 0xf7df; 0xe7fe; 0xd79d; 0xc7bc;
    0x48c4; 0x58e5; 0x6886; 0x78a7; 0x0840; 0x1861; 0x2802; 0x3823; 0xc9cc; 0xd9ed; 0xe98e; 0xf9af; 0x8948; 0x9969; 0xa90a; 0xb92b;
    0x5af5; 0x4ad4; 0x7ab7; 0x6a96; 0x1a71; 0x0a50; 0x3a33; 0x2a12; 0xdbfd; 0xcbdc; 0xfbbf; 0xeb9e; 0x9b79; 0x8b58; 0xbb3b; 0xab1a;
    0x6ca6; 0x7c87; 0x4ce4; 0x5cc5; 0x2c22; 0x3c03; 0x0c60; 0x1c41; 0xedae; 0xfd8f; 0xcdec; 0xddcd; 0xad2a; 0xbd0b; 0x8d68; 0x9d49;
    0x7e97; 0x6eb6; 0x5ed5; 0x4ef4; 0x3e13; 0x2e32; 0x1e51; 0x0e70; 0xff9f; 0xefbe; 0xdfdd; 0xcffc; 0xbf1b; 0xaf3a; 0x9f59; 0x8f78;
    0x9188; 0x81a9; 0xb1ca; 0xa1eb; 0xd10c; 0xc12d; 0xf14e; 0xe16f; 0x1080; 0x00a1; 0x30c2; 0x20e3; 0x5004; 0x4025; 0x7046; 0x6067;
    0x83b9; 0x9398; 0xa3fb; 0xb3da; 0xc33d; 0xd31c; 0xe37f; 0xf35e; 0x02b1; 0x1290; 0x22f3; 0x32d2; 0x4235; 0x5214; 0x6277; 0x7256;
    0xb5ea; 0xa5cb; 0x95a8; 0x8589; 0xf56e; 0xe54f; 0xd52c; 0xc50d; 0x34e2; 0x24c3; 0x14a0; 0x0481; 0x7466; 0x6447; 0x5424; 0x4405;
    0xa7db; 0xb7fa; 0x8799; 0x97b8; 0xe75f; 0xf77e; 0xc71d; 0xd73c; 0x26d3; 0x36f2; 0x0691; 0x16b0; 0x6657; 0x7676; 0x4615; 0x5634;
    0xd94c; 0xc96d; 0xf90e; 0xe92f; 0x99c8; 0x89e9; 0xb98a; 0xa9ab; 0x5844; 0x4865; 0x7806; 0x6827; 0x18c0; 0x08e1; 0x3882; 0x28a3;
    0xcb7d; 0xdb5c; 0xeb3f; 0xfb1e; 0x8bf9; 0x9bd8; 0xabbb; 0xbb9a; 0x4a75; 0x5a54; 0x6a37; 0x7a16; 0x0af1; 0x1ad0; 0x2ab3; 0x3a92;
    0xfd2e; 0xed0f; 0xdd6c; 0xcd4d; 0xbdaa; 0xad8b; 0x9de8; 0x8dc9; 0x7c26; 0x6c07; 0x5c64; 0x4c45; 0x3ca2; 0x2c83; 0x1ce0; 0x0cc1;
    0xef1f; 0xff3e; 0xcf5d; 0xdf7c; 0xaf9b; 0xbfba; 0x8fd9; 0x9ff8; 0x6e17; 0x7e36; 0x4e55; 0x5e74; 0x2e93; 0x3eb2; 0x0ed1; 0x1ef0
  ].

Fixpoint morse_crc16 (crc : Z) (data : bytes) : outcome Z :=
  match data with
  | [] => Ok crc
  | d :: data =>
      t ← rd crc16_lookup_table (Z.lxor (Z.shiftr crc 8) d);
      morse_crc16 (u16 (Z.lxor t (Z.shiftl crc 8))) data
  end.

(** ** Octets *)

(** [PACK_LE32] *)
Definition pack_le32 (a b c d : Z) : Z :=
  Z.lor (Z.lor (Z.lor a (Z.shiftl b 8)) (Z.shiftl c 16)) (Z.shiftl d 24).
(** [UNPACK_BE32] *)
Definition unpack_be32 (v : Z) : bytes := [u8 (Z.shiftr v 24); u8 (Z.shiftr v 16); u8 (Z.shiftr v 8); u8 v].

Section Host.
  Context {D : Type} `{!SpiBus D}.

Definition morse_receive_spi (d : D) : Z * D := spi_rw 0xff d.

Fixpoint wait_ready_loop (attempt : nat) (d : D) : bool * D :=
  match attempt with
  | O => (false, d)
  | S attempt =>
      let '(result, d) := morse_receive_spi d in
      if decide (result = 0xff) then (true, d) else wait_ready_loop attempt d
  end.

Definition morse_wait_ready (d : D) : bool * D := wait_ready_loop MAX_BUS_ATTEMPTS d.

(** ** Commands *)

(** The loop over the response: status and data of [struct sdio_spi_r5], the last
    status written to [*rsp]. *)
Fixpoint response_loop (attempt : nat) (status data : Z) (d : D) : Z * Z * D :=
  match attempt with
  | O => (status, data, d)
  | S attempt =>
      let status := data in
      let '(data, d) := morse_receive_spi d in
      if decide (status <> 0xFF) then (status, data, d) else response_loop attempt status data d
  end.

Definition cmd_octets (cmd_idx arg : Z) : bytes := u8 (Z.lor cmd_idx SDIO_DIR_HOST_TO_CARD) :: unpack_be32 arg.

(** Returns the result and what [*rsp] is set to, if it is. *)
Definition sdio_spi_send_cmd (cmd_idx arg : Z) (d : D) : outcome (Z * option Z * D) :=
  let d := spi_cs true d in
  let '(ready, d) := if decide (cmd_idx <> SDIO_CMD63) then morse_wait_ready d else (true, d) in
  if negb ready then Ok (RC_DEVICE_NOT_READY, None, spi_cs false d)
  else
    let buf := cmd_octets cmd_idx arg in
    last ← (if decide (cmd_idx = SDIO_CMD52 \/ cmd_idx = SDIO_CMD53)
            then crc ← morse_crc7 0 buf; Ok (Z.lor (u8 (Z.shiftl crc 1)) 0x1)
            else Ok 0xFF);
    let d := spi_write_buf (buf ++ [last]) d in
    let '(data, d) := morse_receive_spi d in
    let '(status, data, d) := response_loop MAX_BUS_ATTEMPTS 0 data d in
    let ret := if decide (status <> 0) then RC_INVALID_RESPONSE else RC_SUCCESS in
    let ret := if decide (cmd_idx = SDIO_CMD53 /\ data <> 0) then RC_INVALID_RESPONSE_DATA else ret in
    Ok (ret, Some status, spi_cs false d).

Definition cmd53_arg (rw_flag function mode address count : Z) : Z :=
  Z.lor (Z.lor (Z.lor (Z.lor (Z.lor rw_flag function) mode) SDIO_OPCODE_INC_ADDR)
    (u32 (Z.shiftl address SDIO_ADDRESS_OFFSET))) count.

Definition morse_cmd53_send_cmd (rw_flag function mode address count : Z) (d : D) : outcome (Z * D) :=
  assert (bool_decide (address <= SDIO_ADDRESS_MAX)) ;;
  assert (bool_decide (count <= SDIO_COUNT_MAX)) ;;
  '(ret, _, d) ← sdio_spi_send_cmd SDIO_CMD53 (cmd53_arg rw_flag function mode address count) d;
  Ok (ret, d).

Definition cmd52_arg (address data function : Z) : Z :=
  Z.lor (Z.lor (Z.lor (Z.lor SDIO_WRITE function) SDIO_MODE_BYTE)
    (u32 (Z.shiftl address SDIO_ADDRESS_OFFSET))) data.

Definition morse_cmd52_write (address data function : Z) (d : D) : outcome (Z * D) :=
  assert (bool_decide (address <= SDIO_ADDRESS_MAX)) ;;
  '(ret, _, d) ← sdio_spi_send_cmd SDIO_CMD52 (cmd52_arg address data function) d;
  Ok (ret, d).

(** ** Data *)

(** The last octet received; 256 stands for none. *)
Fixpoint await_token (attempt : nat) (rcv_data : Z) (d : D) : Z * D :=
  match attempt with
  | O => (rcv_data, d)
  | S attempt =>
      let '(rcv_data, d) := morse_receive_spi d in
      if decide (rcv_data = SDIO_SPI_TKN_READ_SINGLE_WRITE) then (rcv_data, d) else await_token attempt rcv_data d
  end.

(** The loop of [morse_cmd53_get_data]; each turn takes at least one octet. *)
Fixpoint get_data_loop (fuel : nat) (byte_cnt : Z) (data : bytes) (off block_size : Z) (d : D) : outcome (Z * bytes * D) :=
  match fuel with
  | O => Fail OutOfFuel
  | S fuel =>
      if decide (byte_cnt > 0) then
        let '(rcv_data, d) := await_token MAX_BUS_ATTEMPTS 256 d in
        if decide (rcv_data <> SDIO_SPI_TKN_READ_SINGLE_WRITE) then Ok (RC_RESPONSE_TIMEOUT, data, d)
        else
          let size := Z.min byte_cnt block_size in
          let '(block, d) := spi_read_buf (Z.to_nat size) d in
          data ← wrn data off block;
          let '(hi, d) := morse_receive_spi d in
          let '(lo, d) := morse_receive_spi d in
          let rx_crc16 := Z.lor (u16 (Z.shiftl hi 8)) lo in
          crc16 ← morse_crc16 0 block;
          if decide (crc16 <> rx_crc16) then Ok (RC_INVALID_CRC_RECIEVED, data, d)
          else get_data_loop fuel (u16 (byte_cnt - size)) data (off + size) block_size d
      else Ok (RC_SUCCESS, data, d)
  end.

Definition morse_cmd53_get_data (byte_cnt : Z) (data : bytes) (off block_size : Z) (d : D) : outcome (Z * bytes * D) :=
  let byte_cnt := u16 byte_cnt in
  let d := spi_cs true d in
  '(result, data, d) ← get_data_loop (S (Z.to_nat byte_cnt)) byte_cnt data off block_size d;
  Ok (result, data, spi_cs false d).

Definition morse_test_data_rsp_token (token : Z) : Z :=
  if decide (token = SDIO_SPI_TKN_DATA_RSP_ACCEPTED) then RC_SUCCESS
  else if decide (token = SDIO_SPI_TKN_DATA_RSP_REJ_CRC) then RC_INVALID_RESPONSE
  else if decide (token = SDIO_SPI_TKN_DATA_RSP_REJ_WRITE) then RC_INVALID_RESPONSE
  else RC_INVALID_RESPONSE.

Fixpoint await_response (attempt : nat) (rcv_data : Z) (d : D) : Z * D :=
  match attempt with
  | O => (rcv_data, d)
  | S attempt =>
      let '(rcv_data, d) := morse_receive_spi d in
      if decide (rcv_data <> 0xff) then (rcv_data, d) else await_response attempt rcv_data d
  end.

Fixpoint put_data_loop (fuel : nat) (result cnt : Z) (data : bytes) (off mode size start_tkn block_size : Z) (d : D)
  : outcome (Z * D) :=
  match fuel with
  | O => Fail OutOfFuel
  | S fuel =>
      if decide (cnt > 0) then
        cnt ← (if decide (mode = SDIO_MODE_BYTE) then assert (bool_decide (cnt <= block_size)) ;; Ok 0 else Ok (cnt - 1));
        block ← rdn data off size;
        crc16 ← morse_crc16 0 block;
        let '(bus_ready, d) := morse_wait_ready d in
        if negb bus_ready then Ok (RC_UNSPECIFIED_ERROR, d)
        else
          let '(_, d) := spi_rw start_tkn d in
          let d := spi_write_buf block d in
          let '(_, d) := spi_rw (u8 (Z.shiftr crc16 8)) d in
          let '(_, d) := spi_rw (u8 crc16) d in
          let '(rcv_data, d) := await_response 4 256 d in
          let result := morse_test_data_rsp_token rcv_data in
          if decide (result <> RC_SUCCESS) then Ok (result, d)
          else put_data_loop fuel result cnt data (off + size) mode size start_tkn block_size d
      else Ok (result, d)
  end.

Definition morse_cmd53_put_data (cnt : Z) (data : bytes) (off mode block_size : Z) (d : D) : outcome (Z * D) :=
  let cnt := u16 cnt in
  let size := if decide (mode = SDIO_MODE_BLOCK) then block_size else cnt in
  let start_tkn := if decide (mode = SDIO_MODE_BLOCK /\ cnt > 1) then SDIO_SPI_TKN_MULTI_WRITE else SDIO_SPI_TKN_READ_SINGLE_WRITE in
  let d := spi_cs true d in
  '(result, d) ← put_data_loop (S (Z.to_nat cnt)) RC_UNSPECIFIED_ERROR cnt data off mode size start_tkn block_size d;
  let d := if decide (start_tkn = SDIO_SPI_TKN_MULTI_WRITE) then snd (spi_rw SDIO_SPI_TKN_STOP_TRANSACTION d) else d in
  let '(_, d) := morse_wait_ready d in
  Ok (result, spi_cs false d).

(** ** Transfers *)

Definition block_size (function : Z) : Z := if decide (function = SDIO_FUNCTION_1) then BLOCK_SIZE_FN1 else BLOCK_SIZE_FN2.
Definition block_size_log2 (function : Z) : Z := if decide (function = SDIO_FUNCTION_1) then BLOCK_SIZE_FN1_LOG2 else BLOCK_SIZE_FN2_LOG2.

(** The second half of [morse_cmd53_read]: what is left over, in byte mode. *)
Definition read_rest (result function address : Z) (data : bytes) (off len : Z) (d : D) : outcome (Z * bytes * D) :=
  if decide (len > 0) then
    '(result, d) ← morse_cmd53_send_cmd SDIO_READ function SDIO_MODE_BYTE (Z.land address 0x0000FFFF) (u16 len) d;
    if decide (result <> RC_SUCCESS) then Ok (result, data, d)
    else morse_cmd53_get_data len data off (block_size function) d
  else Ok (result, data, d).

Definition morse_cmd53_read (function address : Z) (data : bytes) (off len : Z) (d : D) : outcome (Z * bytes * D) :=
  let num_blocks := u16 (Z.shiftr len (block_size_log2 function)) in
  if decide (num_blocks > 0) then
    '(result, d) ← morse_cmd53_send_cmd SDIO_READ function SDIO_MODE_BLOCK (Z.land address 0x0000FFFF) num_blocks d;
    if decide (result <> RC_SUCCESS) then Ok (result, data, d)
    else
      let transfer_size := num_blocks * block_size function in
      '(result, data, d) ← morse_cmd53_get_data transfer_size data off (block_size function) d;
      if decide (result <> RC_SUCCESS) then Ok (result, data, d)
      else read_rest result function (u32 (address + transfer_size)) data (off + transfer_size) (u32 (len - transfer_size)) d
  else read_rest (-1) function address data off len d.

Definition write_rest (result function address : Z) (data : bytes) (off len : Z) (d : D) : outcome (Z * D) :=
  if decide (len > 0) then
    '(result, d) ← morse_cmd53_send_cmd SDIO_WRITE function SDIO_MODE_BYTE (Z.land address 0x0000FFFF) (u16 len) d;
    if decide (result <> RC_SUCCESS) then Ok (result, d)
    else morse_cmd53_put_data len data off SDIO_MODE_BYTE (block_size function) d
  else Ok (result, d).

Definition morse_cmd53_write (function address : Z) (data : bytes) (off len : Z) (d : D) : outcome (Z * D) :=
  let num_blocks := u16 (Z.shiftr len (block_size_log2 function)) in
  if decide (num_blocks > 0) then
    '(result, d) ← morse_cmd53_send_cmd SDIO_WRITE function SDIO_MODE_BLOCK (Z.land address 0x0000FFFF) num_blocks d;
    if decide (result <> RC_SUCCESS) then Ok (result, d)
    else
      '(result, d) ← morse_cmd53_put_data num_blocks data off SDIO_MODE_BLOCK (block_size function) d;
      if decide (result <> RC_SUCCESS) then Ok (result, d)
      else
        let transfer_size := num_blocks * block_size function in
        write_rest result function (u32 (address + transfer_size)) data (off + transfer_size) (u32 (len - transfer_size)) d
  else write_rest RC_UNSPECIFIED_ERROR function address data off len d.

Definition morse_address_base_set (address access function : Z) (d : D) : outcome (Z * D) :=
  let address := Z.land address 0xFFFF0000 in
  assert (bool_decide (access <= MORSE_CONFIG_ACCESS_4BYTE)) ;;
  '(result, d) ← morse_cmd52_write MORSE_REG_ADDRESS_WINDOW_0 (u8 (Z.shiftr address 16)) function d;
  if decide (result <> RC_SUCCESS) then Ok (result, d) else
  '(result, d) ← morse_cmd52_write MORSE_REG_ADDRESS_WINDOW_1 (u8 (Z.shiftr address 24)) function d;
  if decide (result <> RC_SUCCESS) then Ok (result, d) else
  morse_cmd52_write MORSE_REG_ADDRESS_CONFIG access function d.

(** [data]: whether the pointer is not [NULL]; the value read, on success. *)
Definition sdio_spi_read_le32 (address : Z) (data : bool) (d : D) : outcome (Z * option Z * D) :=
  if negb data then Ok (RC_INVALID_INPUT, None, d) else
  '(result, d) ← morse_address_base_set address MORSE_CONFIG_ACCESS_4BYTE SDIO_FUNCTION_1 d;
  if decide (result <> RC_SUCCESS) then Ok (result, None, d) else
  '(result, receive_data, d) ← morse_cmd53_read SDIO_FUNCTION_1 address (replicate 4 0) 0 4 d;
  if decide (result <> RC_SUCCESS) then Ok (result, None, d) else
  a ← rd receive_data 0; b ← rd receive_data 1; c ← rd receive_data 2; e ← rd receive_data 3;
  Ok (result, Some (pack_le32 a b c e), d).

(** The octets of one turn: not more than a window, not over its end. *)
Definition chunk (address len : Z) : Z :=
  let size := Z.min len MAX_BLOCK_TRANSFER_SIZE_FN2 in
  let next_boundary := u32 (Z.land address 0xFFFF0000 + 0x10000) in
  if decide (u32 (address + size) > next_boundary) then u32 (next_boundary - address) else size.

Fixpoint read_multi_loop (fuel : nat) (result address : Z) (data : bytes) (off len : Z) (d : D) : outcome (Z * bytes * D) :=
  match fuel with
  | O => Fail OutOfFuel
  | S fuel =>
      if decide (len > 0) then
        '(result, d) ← morse_address_base_set address MORSE_CONFIG_ACCESS_4BYTE SDIO_FUNCTION_2 d;
        if decide (result <> RC_SUCCESS) then Ok (result, data, d) else
        let size := chunk address len in
        '(result, data, d) ← morse_cmd53_read SDIO_FUNCTION_2 address data off size d;
        if decide (result <> RC_SUCCESS) then Ok (result, data, d) else
        w0 ← rdn data off 4; w1 ← rdn data (off + 4) 4;
        '(result, data, d) ←
          (if decide (w0 = w1) then morse_cmd53_read SDIO_FUNCTION_2 address data off 8 d else Ok (result, data, d));
        if decide (result <> RC_SUCCESS) then Ok (result, data, d) else
        read_multi_loop fuel result (u32 (address + size)) data (off + size) (u32 (len - size)) d
      else Ok (result, data, d)
  end.

Definition sdio_spi_read_multi_byte (address : Z) (data : bytes) (len : Z) (d : D) : outcome (Z * bytes * D) :=
  if decide (len = 0 \/ Z.land len 0x03 <> 0) then Ok (RC_INVALID_INPUT, data, d)
  else read_multi_loop (S (Z.to_nat len)) (-1) address data 0 len d.

(** The result of [morse_cmd53_write] is not looked at. *)
Fixpoint write_multi_loop (fuel : nat) (result address : Z) (data : bytes) (off len : Z) (d : D) : outcome (Z * D) :=
  match fuel with
  | O => Fail OutOfFuel
  | S fuel =>
      if decide (len > 0) then
        '(result, d) ← morse_address_base_set address MORSE_CONFIG_ACCESS_4BYTE SDIO_FUNCTION_2 d;
        if decide (result <> RC_SUCCESS) then Ok (result, d) else
        let size := chunk address len in
        '(_, d) ← morse_cmd53_write SDIO_FUNCTION_2 address data off size d;
        write_multi_loop fuel result (u32 (address + size)) data (off + size) (u32 (len - size)) d
      else Ok (result, d)
  end.

Definition sdio_spi_write_multi_byte (address : Z) (data : bytes) (len : Z) (d : D) : outcome (Z * D) :=
  if decide (len = 0 \/ Z.land len 0x03 <> 0) then Ok (RC_INVALID_INPUT, d)
  else write_multi_loop (S (Z.to_nat len)) (-1) address data 0 len d.
End Host.
End SdioSpi.
