(* ===== verification/SdioProto.v ===== *)
(** What a card on the SPI bus promises: the SDIO commands CMD52 and CMD53 in SPI
    mode as the SD specification has them (SD Physical Layer 7.3, SDIO Part E1 5),
    as the laws of the class [SdioCard], and what the host of [SdioSpi] does with
    such a card. *)

From S2P Require Import Prelude Crc SdioSpi.
Import Crc SdioSpi.

Module SdioProto.

(** ** CRC-7, bit by bit: x^7 + x^3 + 1 *)

Definition crc7_bit (crc : Z) (b : bool) : Z :=
  Z.lxor (Z.shiftl crc 1 mod 2 ^ 7) (if xorb (Z.testbit crc 6) b then 9 else 0).
Definition octet_bits (d : Z) : list bool := (fun i => Z.testbit d i) <$> [7; 6; 5; 4; 3; 2; 1; 0].
Definition crc7_octet (crc d : Z) : Z := fold_left crc7_bit (octet_bits d) crc.
Definition crc7_ref (crc : Z) (data : bytes) : Z := fold_left crc7_octet data crc.

(** ** The chip behind the card

    [mem]: its octets by 32-bit address; [base f]: the upper half of the
    addresses that function [f] works on. *)

Record chip := { mem : Z -> Z; base : Z -> Z }.

Definition upd (g : Z -> Z) (k v : Z) : Z -> Z := fun x => if decide (x = k) then v else g x.

(** The window registers of a function. *)
Definition reg_write (f a v : Z) (c : chip) : chip :=
  if decide (a = MORSE_REG_ADDRESS_WINDOW_0) then {| mem := mem c; base := upd (base c) f (base c f / 256 * 256 + v) |}
  else if decide (a = MORSE_REG_ADDRESS_WINDOW_1) then {| mem := mem c; base := upd (base c) f (v * 256 + base c f mod 256) |}
  else c.

Definition chip_read (c : chip) (a : Z) (n : nat) : bytes := (fun i => mem c (a + Z.of_nat i)) <$> seq 0 n.

Definition chip_write (c : chip) (a : Z) (data : bytes) : chip :=
  {| mem := fun x => if decide (a <= x) then default (mem c x) (data !! Z.to_nat (x - a)) else mem c x; base := base c |}.

Definition fn_block (f : Z) : Z := if decide (f = 1) then 8 else 512.

(** ** Frames *)

Definition frame (cmd arg : Z) : bytes :=
  let l := 64 + cmd :: enc_be32 arg in l ++ [crc7_ref 0 l * 2 + 1].

(** Write to a register of a function. *)
Definition arg52 (f a v : Z) : Z := 2 ^ 31 + f * 2 ^ 28 + a * 2 ^ 9 + v.
(** Transfer of [count] octets or blocks at increasing addresses. *)
Definition arg53 (write : bool) (f : Z) (block : bool) (a count : Z) : Z :=
  Z.b2z write * 2 ^ 31 + f * 2 ^ 28 + Z.b2z block * 2 ^ 27 + 2 ^ 26 + a * 2 ^ 9 + count.

(** The octets of such a transfer. *)
Definition total (f : Z) (block : bool) (count : Z) : Z := if block then count * fn_block f else count.
Definition transfer_ok (f : Z) (block : bool) (a count : Z) : Prop :=
  (f = 1 \/ f = 2) /\ 0 < count < 512 /\ (block = false -> count <= fn_block f) /\ 0 <= a /\ a + total f block count <= 2 ^ 16.

Inductive phase :=
| Idle
| Reading (rest : bytes) (bs : Z)
| Writing (addr : Z) (blocks : nat) (size tkn : Z).

Definition start_token (block : bool) (count : Z) : Z :=
  if block && bool_decide (count > 1) then SDIO_SPI_TKN_MULTI_WRITE else SDIO_SPI_TKN_READ_SINGLE_WRITE.

Section Polls.
  Context {D : Type} `{!SpiBus D}.

(** Clocking out ones, the [n] octets received next are not of the kind [P]; the
    one after them is [r], which is. *)
Inductive polls (P : Z -> Prop) : nat -> D -> Z -> D -> Prop :=
| polls_now d r d' : spi_rw 255 d = (r, d') -> P r -> polls P 0 d r d'
| polls_later n d r d1 r' d' : spi_rw 255 d = (r, d1) -> ~ P r -> polls P n d1 r' d' -> polls P (S n) d r' d'.
End Polls.

(** The laws.  Busy octets and delays are bounded by the numbers of attempts that
    the host makes. *)
Class SdioCard (D : Type) `{!SpiBus D} := {
  st : phase -> chip -> bool -> D -> Prop;
  card_select p c d : st p c false d -> st p c true (spi_cs true d);
  card_cmd52 c d f a v :
    st Idle c true d -> f = 1 \/ f = 2 -> 2 ^ 16 <= a < 2 ^ 17 -> is_u8 v ->
    exists n d1 m d2 r d3, (n < 200)%nat /\ (m < 200)%nat /\
      polls (fun x => x = 255) n d 255 d1 /\
      polls (fun x => x <> 255) m (spi_write_buf (frame 52 (arg52 f a v)) d1) 0 d2 /\
      spi_rw 255 d2 = (r, d3) /\ st Idle (reg_write f a v c) false (spi_cs false d3);
  card_cmd53 c d (write block : bool) f a count :
    st Idle c true d -> transfer_ok f block a count ->
    exists n d1 m d2 d3, (n < 200)%nat /\ (m < 200)%nat /\
      polls (fun x => x = 255) n d 255 d1 /\
      polls (fun x => x <> 255) m (spi_write_buf (frame 53 (arg53 write f block a count)) d1) 0 d2 /\
      spi_rw 255 d2 = (0, d3) /\
      st (if write
          then Writing (base c f * 2 ^ 16 + a) (if block then Z.to_nat count else 1)
                 (if block then fn_block f else count) (start_token block count)
          else Reading (chip_read c (base c f * 2 ^ 16 + a) (Z.to_nat (total f block count))) (fn_block f))
         c false (spi_cs false d3);
  (** a block read: start token, data, checksum *)
  card_block_out c d rest bs :
    st (Reading rest bs) c true d -> rest <> [] -> 0 < bs ->
    let size := Z.to_nat (Z.min (zlen rest) bs) in
    let crc := crc_ref 0 (take size rest) in
    exists n d1 d2 d3 d4, (n < 200)%nat /\ is_bytes (take size rest) /\
      polls (fun x => x = SDIO_SPI_TKN_READ_SINGLE_WRITE) n d SDIO_SPI_TKN_READ_SINGLE_WRITE d1 /\
      spi_read_buf size d1 = (take size rest, d2) /\
      spi_rw 255 d2 = (crc / 256, d3) /\ spi_rw 255 d3 = (crc mod 256, d4) /\
      st (Reading (drop size rest) bs) c true d4;
  card_read_end c d bs : st (Reading [] bs) c true d -> st Idle c false (spi_cs false d);
  (** a block written: ready, token, data, checksum, accepted *)
  card_block_in c d a blocks size tkn data :
    st (Writing a (S blocks) size tkn) c true d -> zlen data = size -> is_bytes data ->
    let crc := crc_ref 0 data in
    exists n d1 m d2, (n < 200)%nat /\ (m < 4)%nat /\
      polls (fun x => x = 255) n d 255 d1 /\
      polls (fun x => x <> 255) m
        (snd (spi_rw (crc mod 256) (snd (spi_rw (crc / 256) (spi_write_buf data (snd (spi_rw tkn d1)))))))
        SDIO_SPI_TKN_DATA_RSP_ACCEPTED d2 /\
      st (Writing (a + size) blocks size tkn) (chip_write c a data) true d2;
  card_write_end c d a size tkn :
    st (Writing a 0 size tkn) c true d ->
    let d0 := if decide (tkn = SDIO_SPI_TKN_MULTI_WRITE) then snd (spi_rw SDIO_SPI_TKN_STOP_TRANSACTION d) else d in
    exists n d1, (n < 200)%nat /\ polls (fun x => x = 255) n d0 255 d1 /\ st Idle c false (spi_cs false d1);
}.

(** ** Checksums *)

(** The register is linear in what it held and in the bits fed. *)
Lemma crc7_bit_lxor a a' b b' : crc7_bit (Z.lxor a a') (xorb b b') = Z.lxor (crc7_bit a b) (crc7_bit a' b').
Proof.
  unfold crc7_bit. rewrite Z.lxor_spec, Z.shiftl_lxor, <- !Z.land_ones by done.
  apply Z.bits_inj'. intros i Hi. rewrite !Z.lxor_spec, !Z.land_spec, !Z.lxor_spec.
  destruct (Z.testbit a 6), (Z.testbit a' 6), b, b', (Z.testbit (Z.shiftl a 1) i), (Z.testbit (Z.shiftl a' 1) i), (Z.testbit (Z.ones 7) i);
    cbn [xorb]; rewrite ?Z.bits_0; by destruct (Z.testbit 9 i).
Qed.

Lemma crc7_octet_lxor a a' d d' : crc7_octet (Z.lxor a a') (Z.lxor d d') = Z.lxor (crc7_octet a d) (crc7_octet a' d').
Proof. unfold crc7_octet, octet_bits. cbn [fmap list_fmap fold_left]. by rewrite !Z.lxor_spec, !crc7_bit_lxor. Qed.

Lemma crc7_octet_table : forall c, is_u8 c -> rd crc7_lookup_table c = Ok (crc7_octet 0 c) /\ 0 <= crc7_octet 0 c < 128.
Proof.
  intros c Hc. apply (all_below_dec 256 (fun c => rd crc7_lookup_table c = Ok (crc7_octet 0 c) /\ 0 <= crc7_octet 0 c < 128));
    [vm_compute; reflexivity|exact Hc].
Qed.

Lemma crc7_octet_shift c : 0 <= c < 128 -> crc7_octet c 0 = crc7_octet 0 (Z.shiftl c 1) /\ is_u8 (Z.shiftl c 1).
Proof.
  intros Hc. split; [|unfold is_u8; rewrite Z.shiftl_mul_pow2 by lia; lia].
  apply (all_below_dec 128 (fun c => crc7_octet c 0 = crc7_octet 0 (Z.shiftl c 1))); [vm_compute; reflexivity|exact Hc].
Qed.

Lemma crc7_step c d : 0 <= c < 128 -> is_u8 d ->
  rd crc7_lookup_table (Z.lxor (Z.shiftl c 1) d) = Ok (crc7_octet c d) /\ 0 <= crc7_octet c d < 128.
Proof.
  intros Hc Hd. destruct (crc7_octet_shift c Hc) as [Es Hs].
  replace (crc7_octet c d) with (crc7_octet 0 (Z.lxor (Z.shiftl c 1) d)).
  - apply crc7_octet_table. by apply (lxor_range 8).
  - rewrite <- (Z.lxor_0_l 0) at 1. rewrite crc7_octet_lxor, <- Es, <- crc7_octet_lxor. by rewrite Z.lxor_0_r, Z.lxor_0_l.
Qed.

Lemma crc7_is_ref data : forall c, 0 <= c < 128 -> is_bytes data ->
  morse_crc7 c data = Ok (crc7_ref c data) /\ 0 <= crc7_ref c data < 128.
Proof.
  induction data as [|d data IH]; intros c Hc Hb; [done|]. apply list.Forall_cons in Hb as [Hd Hb].
  destruct (crc7_step c d Hc Hd) as [E Hr]. cbn [morse_crc7]. rewrite E. cbn [mbind outcome_bind]. by apply IH.
Qed.

Lemma crc16_is_ref data : forall c, is_u16 c -> is_bytes data -> morse_crc16 c data = Ok (crc_ref c data).
Proof.
  intros c Hc Hb. rewrite <- (xmodem_is_ref data c) by done.
  revert c Hc. clear Hb. induction data as [|d data IH]; intros c Hc; [done|]. cbn [morse_crc16 mmcrc_16_xmodem].
  unfold mmcrc_16_xmodem_step. change crc16_lookup_table with crc16_xmodem_lookup_table.
  destruct (rd _ _) as [t|]; [|done]. cbn [mbind outcome_bind]. apply IH, u16_range.
Qed.

(** ** Frames *)

Lemma unpack_be32_enc v : is_u32 v -> unpack_be32 v = enc_be32 v.
Proof.
  intros Hv. unfold unpack_be32, enc_be32. rewrite !Z.shiftr_div_pow2 by lia. unfold u8. repeat f_equal.
  apply Z.mod_small. unfold is_u32 in Hv. change (2 ^ 8) with 256. zlia.
Qed.

Lemma cmd_octets_frame idx arg :
  idx = 52 \/ idx = 53 -> is_u32 arg ->
  exists crc, morse_crc7 0 (cmd_octets idx arg) = Ok crc /\ cmd_octets idx arg ++ [Z.lor (u8 (Z.shiftl crc 1)) 1] = frame idx arg.
Proof.
  intros Hi Ha. unfold cmd_octets. rewrite unpack_be32_enc by done.
  replace (u8 (Z.lor idx SDIO_DIR_HOST_TO_CARD)) with (64 + idx) by (by destruct Hi as [-> | ->]).
  destruct (crc7_is_ref (64 + idx :: enc_be32 arg) 0) as [E Hr]; [done| |].
  { constructor; [unfold is_u8; lia|]. by apply enc_be32_bytes. }
  eexists. split; [exact E|]. unfold frame. f_equal. f_equal.
  set (r := crc7_ref _ _) in *. rewrite u8_id by (unfold is_u8; rewrite Z.shiftl_mul_pow2 by lia; lia).
  rewrite Z.lor_comm, lor_shiftl by lia. lia.
Qed.

(** The constant fields are above bit 26, the address from bit 9. *)
Lemma arg_fields k a n : 0 <= k -> 0 <= a < 2 ^ 17 -> 0 <= n < 2 ^ 9 ->
  Z.lor (Z.lor (Z.shiftl k 26) (u32 (Z.shiftl a 9))) n = k * 2 ^ 26 + a * 2 ^ 9 + n.
Proof.
  intros Hk Ha Hn. rewrite (u32_id (Z.shiftl a 9)) by (unfold is_u32; rewrite Z.shiftl_mul_pow2 by lia; lia).
  replace (Z.shiftl k 26) with (Z.shiftl (Z.shiftl k 17) 9) by (by rewrite Z.shiftl_shiftl by lia).
  rewrite <- Z.shiftl_lor, Z.lor_comm, lor_shiftl, (Z.lor_comm (Z.shiftl k 17)), lor_shiftl by lia. lia.
Qed.

Abbreviation fn f := (Z.shiftl f 28).

Lemma flags53 (w b : bool) f : f = 1 \/ f = 2 ->
  Z.lor (Z.lor (Z.lor (if w then SDIO_WRITE else SDIO_READ) (fn f)) (if b then SDIO_MODE_BLOCK else SDIO_MODE_BYTE)) SDIO_OPCODE_INC_ADDR =
    Z.shiftl (Z.b2z w * 32 + f * 4 + Z.b2z b * 2 + 1) 26.
Proof. by destruct w, b; intros [-> | ->]. Qed.

Lemma cmd53_arg_eq (w b : bool) f a n : f = 1 \/ f = 2 -> 0 <= a < 2 ^ 17 -> 0 <= n < 2 ^ 9 ->
  cmd53_arg (if w then SDIO_WRITE else SDIO_READ) (fn f) (if b then SDIO_MODE_BLOCK else SDIO_MODE_BYTE) a n = arg53 w f b a n.
Proof.
  intros Hf Ha Hn. unfold cmd53_arg, arg53, SDIO_ADDRESS_OFFSET.
  rewrite flags53, arg_fields by (done || destruct w, b; cbn [Z.b2z]; lia). destruct w, b; cbn [Z.b2z]; lia.
Qed.

Lemma cmd52_arg_eq f a v : f = 1 \/ f = 2 -> 0 <= a < 2 ^ 17 -> is_u8 v -> cmd52_arg a v (fn f) = arg52 f a v.
Proof.
  intros Hf Ha Hv. unfold cmd52_arg, arg52, SDIO_ADDRESS_OFFSET.
  replace (Z.lor (Z.lor SDIO_WRITE (fn f)) SDIO_MODE_BYTE) with (Z.shiftl (32 + f * 4) 26) by (by destruct Hf as [-> | ->]).
  rewrite arg_fields by (unfold is_u8 in Hv; lia). lia.
Qed.

Section Host.
  Context {D : Type} `{!SpiBus D}.

(** ** The host's loops on a device that answers in time *)

Lemma wait_ready_polls n d r d1 k : polls (fun x => x = 255) n d r d1 -> (n < k)%nat -> wait_ready_loop k d = (true, d1).
Proof.
  intros H. revert k. induction H as [d r d' E Hr|n d r d1 r' d' E Hr _ IH]; intros [|k] Hk; try lia;
    cbn [wait_ready_loop]; unfold morse_receive_spi; rewrite E.
  - by rewrite decide_True.
  - rewrite decide_False by done. apply IH. lia.
Qed.

Lemma await_token_polls n d r d1 k x :
  polls (fun x => x = SDIO_SPI_TKN_READ_SINGLE_WRITE) n d r d1 -> (n < k)%nat -> await_token k x d = (SDIO_SPI_TKN_READ_SINGLE_WRITE, d1).
Proof.
  intros H. revert k x. induction H as [d r d' E Hr|n d r d1 r' d' E Hr _ IH]; intros [|k] x Hk; try lia;
    cbn [await_token]; unfold morse_receive_spi; rewrite E.
  - rewrite decide_True by done. by rewrite Hr.
  - rewrite decide_False by done. apply IH. lia.
Qed.

Lemma await_response_polls n d r d1 k x :
  polls (fun x => x <> 255) n d r d1 -> (n < k)%nat -> await_response k x d = (r, d1).
Proof.
  intros H. revert k x. induction H as [d r d' E Hr|n d r d1 r' d' E Hr _ IH]; intros [|k] x Hk; try lia;
    cbn [await_response]; unfold morse_receive_spi; rewrite E.
  - by rewrite decide_True.
  - rewrite decide_False by done. apply IH. lia.
Qed.

Lemma response_polls n d s d2 k x r d3 :
  polls (fun x => x <> 255) n d s d2 -> (n < k)%nat -> spi_rw 255 d2 = (r, d3) ->
  (let '(data, d) := morse_receive_spi d in response_loop k x data d) = (s, r, d3).
Proof.
  intros H. revert k x. induction H as [d s d2 E Hr|n d y d1 s d2 E Hr _ IH]; intros [|k] x Hk E3; try lia;
    unfold morse_receive_spi at 1; rewrite E; cbn [response_loop].
  - unfold morse_receive_spi. rewrite E3. by rewrite decide_True.
  - specialize (IH k y ltac:(lia) E3). destruct (morse_receive_spi d1) as [z d1']. by rewrite decide_False.
Qed.

Lemma send_cmd_ok idx arg d n d1 m d2 r d3 :
  idx = 52 \/ idx = 53 -> is_u32 arg -> (n < 200)%nat -> (m < 200)%nat ->
  polls (fun x => x = 255) n (spi_cs true d) 255 d1 ->
  polls (fun x => x <> 255) m (spi_write_buf (frame idx arg) d1) 0 d2 ->
  spi_rw 255 d2 = (r, d3) -> (idx = 53 -> r = 0) ->
  sdio_spi_send_cmd idx arg d = Ok (RC_SUCCESS, Some 0, spi_cs false d3).
Proof.
  intros Hi Ha Hn Hm Hw Hp E3 Hr. unfold sdio_spi_send_cmd, SDIO_CMD63, SDIO_CMD52, SDIO_CMD53.
  rewrite decide_True by lia. unfold morse_wait_ready. rewrite (wait_ready_polls _ _ _ _ MAX_BUS_ATTEMPTS Hw Hn).
  cbn [negb]. rewrite decide_True by done. destruct (cmd_octets_frame idx arg Hi Ha) as (c & Ec & Ef).
  rewrite Ec. cbn [mbind outcome_bind]. rewrite Ef.
  pose proof (response_polls _ _ _ _ MAX_BUS_ATTEMPTS 0 _ _ Hp Hm E3) as Er.
  destruct (morse_receive_spi (spi_write_buf (frame idx arg) d1)) as [x dx]. rewrite Er.
  destruct (decide (0 <> 0)) as [H0|_]; [done|]. destruct (decide (idx = 53 /\ r <> 0)) as [[H53 H0]|]; [by apply Hr in H53|done].
Qed.

End Host.

(** ** What the host does with a card *)

Section Card.
  Context {D : Type} `{!SpiBus D, !SdioCard D}.

Lemma arg52_u32 f a v : f = 1 \/ f = 2 -> 0 <= a < 2 ^ 17 -> is_u8 v -> is_u32 (arg52 f a v).
Proof. unfold arg52, is_u32, is_u8. lia. Qed.

Lemma arg53_u32 w b f a n : f = 1 \/ f = 2 -> 0 <= a < 2 ^ 17 -> 0 <= n < 2 ^ 9 -> is_u32 (arg53 w f b a n).
Proof. unfold arg53, is_u32. destruct w, b; cbn [Z.b2z]; lia. Qed.

Lemma cmd52_ok c d f a v :
  st Idle c false d -> f = 1 \/ f = 2 -> 2 ^ 16 <= a < 2 ^ 17 -> is_u8 v ->
  exists d', morse_cmd52_write a v (fn f) d = Ok (RC_SUCCESS, d') /\ st Idle (reg_write f a v c) false d'.
Proof.
  intros Hst Hf Ha Hv.
  destruct (card_cmd52 c _ f a v (card_select _ _ _ Hst) Hf Ha Hv) as (n & d1 & m & d2 & r & d3 & Hn & Hm & Hw & Hp & E3 & Hst').
  exists (spi_cs false d3). split; [|done]. unfold morse_cmd52_write. rewrite bool_decide_true by (change SDIO_ADDRESS_MAX with 262143; lia).
  cbn [assert mbind outcome_bind]. rewrite cmd52_arg_eq by (done || lia).
  rewrite (send_cmd_ok SDIO_CMD52 _ _ n d1 m d2 r d3); try done; [by left|apply arg52_u32; (done || lia)].
Qed.

Lemma high_half addr : is_u32 addr -> Z.land addr 0xFFFF0000 = addr / 2 ^ 16 * 2 ^ 16.
Proof. exact (land_high 16 16 addr ltac:(lia) ltac:(lia)). Qed.

Lemma reg_write_window f lo hi v c :
  let c' := reg_write f MORSE_REG_ADDRESS_CONFIG v (reg_write f MORSE_REG_ADDRESS_WINDOW_1 hi (reg_write f MORSE_REG_ADDRESS_WINDOW_0 lo c)) in
  mem c' = mem c /\ base c' f = hi * 256 + (base c f / 256 * 256 + lo) mod 256.
Proof.
  cbv zeta. unfold reg_write. rewrite !(decide_False (P := MORSE_REG_ADDRESS_CONFIG = _)) by done.
  rewrite (decide_False (P := MORSE_REG_ADDRESS_WINDOW_1 = MORSE_REG_ADDRESS_WINDOW_0)) by done.
  rewrite !decide_True by done. cbn [mem base]. unfold upd. by rewrite !decide_True by done.
Qed.

Lemma base_set_ok c d f addr :
  st Idle c false d -> f = 1 \/ f = 2 -> is_u32 addr ->
  exists c' d', morse_address_base_set addr MORSE_CONFIG_ACCESS_4BYTE (fn f) d = Ok (RC_SUCCESS, d') /\
    st Idle c' false d' /\ mem c' = mem c /\ base c' f = addr / 2 ^ 16.
Proof.
  intros Hst Hf Ha. unfold morse_address_base_set. rewrite bool_decide_true by done. cbn [assert mbind outcome_bind].
  set (lo := u8 (Z.shiftr (Z.land addr 0xFFFF0000) 16)). set (hi := u8 (Z.shiftr (Z.land addr 0xFFFF0000) 24)).
  assert (Hlo : lo = addr / 2 ^ 16 mod 256 /\ hi = addr / 2 ^ 24).
  { unfold lo, hi, u8. rewrite high_half, !Z.shiftr_div_pow2 by done. unfold is_u32 in Ha. zlia. }
  destruct (cmd52_ok c d f MORSE_REG_ADDRESS_WINDOW_0 lo Hst Hf) as (d1 & -> & H1); [done|apply u8_range|]. cbn [mbind outcome_bind].
  rewrite decide_False by (intros H; by apply H).
  destruct (cmd52_ok _ d1 f MORSE_REG_ADDRESS_WINDOW_1 hi H1 Hf) as (d2 & -> & H2); [done|apply u8_range|]. cbn [mbind outcome_bind].
  rewrite decide_False by (intros H; by apply H).
  destruct (cmd52_ok _ d2 f MORSE_REG_ADDRESS_CONFIG MORSE_CONFIG_ACCESS_4BYTE H2 Hf) as (d3 & -> & H3); [done|done|].
  eexists _, d3. split; [done|]. split; [exact H3|].
  edestruct (reg_write_window f lo hi) as [-> ->]. split; [done|]. destruct Hlo as [-> ->]. unfold is_u32 in Ha. zlia.
Qed.

(** *** Reading *)

Lemma get_data_loop_ok c bs fuel : forall rest off buf d,
  st (Reading rest bs) c true d -> 0 < bs -> zlen rest < 2 ^ 16 -> (length rest < fuel)%nat ->
  0 <= off -> off + zlen rest <= zlen buf ->
  exists d', get_data_loop fuel (zlen rest) buf off bs d = Ok (RC_SUCCESS, splice (Z.to_nat off) rest buf, d') /\
    st (Reading [] bs) c true d'.
Proof.
  induction fuel as [|fuel IH]; intros rest off buf d Hst Hbs H16 Hf Hoff Hbuf; [lia|]. cbn [get_data_loop].
  destruct (decide (rest = [])) as [->|Hne].
  { rewrite decide_False by (cbn; lia). exists d. by rewrite splice_nil. }
  assert (Hpos : 0 < zlen rest) by (destruct rest; [done|cbn; lia]). rewrite decide_True by lia.
  destruct (card_block_out c d rest bs Hst Hne Hbs) as (n & d1 & d2 & d3 & d4 & Hn & Hb & Hp & E1 & E2 & E3 & Hst4).
  rewrite (await_token_polls _ _ _ _ MAX_BUS_ATTEMPTS 256 Hp Hn).
  destruct (decide (SDIO_SPI_TKN_READ_SINGLE_WRITE <> SDIO_SPI_TKN_READ_SINGLE_WRITE)) as [H0|_]; [done|].
  set (size := Z.to_nat (Z.min (zlen rest) bs)) in *. set (blk := take size rest) in *.
  assert (Hlen : length blk = size) by (unfold blk; rewrite length_take; lia).
  rewrite E1, wrn_Ok by lia. cbn [mbind outcome_bind]. unfold morse_receive_spi. rewrite E2, E3.
  rewrite crc16_is_ref by done. cbn [mbind outcome_bind].
  assert (Hcrc : is_u16 (crc_ref 0 blk)) by by apply crc_ref_range.
  rewrite decide_False.
  2: { intros Hx. apply Hx. rewrite u16_id by (rewrite Z.shiftl_mul_pow2 by lia; zlia).
       rewrite Z.lor_comm, lor_shiftl by zlia. unfold is_u16 in Hcrc. zlia. }
  assert (Hdrop : u16 (zlen rest - Z.min (zlen rest) bs) = zlen (drop size rest)) by (rewrite length_drop; zlia).
  rewrite Hdrop. replace (off + Z.min (zlen rest) bs) with (off + Z.of_nat size) by lia.
  destruct (IH (drop size rest) (off + Z.of_nat size) (splice (Z.to_nat off) blk buf) d4 Hst4) as (d' & E & Hst'); try done.
  - rewrite length_drop. lia.
  - rewrite length_drop. lia.
  - lia.
  - rewrite length_drop, length_splice by lia. lia.
  - exists d'. split; [|done]. rewrite E. do 3 f_equal.
    replace (Z.to_nat (off + Z.of_nat size)) with (Z.to_nat off + length blk)%nat by lia.
    rewrite splice_app_adj by (rewrite length_drop; lia). unfold blk. by rewrite take_drop.
Qed.

Lemma get_data_ok c bs rest off buf d :
  st (Reading rest bs) c false d -> 0 < bs -> zlen rest < 2 ^ 16 -> 0 <= off -> off + zlen rest <= zlen buf ->
  exists d', morse_cmd53_get_data (zlen rest) buf off bs d = Ok (RC_SUCCESS, splice (Z.to_nat off) rest buf, d') /\ st Idle c false d'.
Proof.
  intros Hst Hbs H16 Hoff Hbuf. unfold morse_cmd53_get_data. rewrite u16_id by (unfold is_u16; lia).
  destruct (get_data_loop_ok c bs (S (Z.to_nat (zlen rest))) rest off buf _ (card_select _ _ _ Hst)) as (d' & E & Hst'); try done; try lia.
  rewrite E. cbn [mbind outcome_bind]. exists (spi_cs false d'). split; [done|]. by eapply card_read_end.
Qed.

Lemma cmd53_send_ok c d (w b : bool) f a count :
  st Idle c false d -> transfer_ok f b a count ->
  exists d', morse_cmd53_send_cmd (if w then SDIO_WRITE else SDIO_READ) (fn f) (if b then SDIO_MODE_BLOCK else SDIO_MODE_BYTE) a count d = Ok (RC_SUCCESS, d') /\
    st (if w
        then Writing (base c f * 2 ^ 16 + a) (if b then Z.to_nat count else 1)
               (if b then fn_block f else count) (start_token b count)
        else Reading (chip_read c (base c f * 2 ^ 16 + a) (Z.to_nat (total f b count))) (fn_block f))
       c false d'.
Proof.
  intros Hst Ht.
  destruct (card_cmd53 c _ w b f a count (card_select _ _ _ Hst) Ht) as (n & d1 & m & d2 & d3 & Hn & Hm & Hw & Hp & E3 & Hst').
  destruct Ht as (Hf & Hc & Hcb & Ha & Htot).
  assert (0 < total f b count) by (unfold total, fn_block; destruct b; [case_decide; lia|lia]).
  exists (spi_cs false d3). split; [|done]. unfold morse_cmd53_send_cmd.
  rewrite (bool_decide_true (a <= _)) by (change SDIO_ADDRESS_MAX with 262143; lia).
  rewrite bool_decide_true by (change SDIO_COUNT_MAX with 1023; lia).
  cbn [assert mbind outcome_bind]. rewrite cmd53_arg_eq by (done || lia).
  rewrite (send_cmd_ok SDIO_CMD53 _ _ n d1 m d2 0 d3); try done; [by right|apply arg53_u32; (done || lia)].
Qed.

Lemma length_chip_read c a n : length (chip_read c a n) = n.
Proof. unfold chip_read. by rewrite length_fmap, length_seq. Qed.

Lemma chip_read_app c a n m : chip_read c a (n + m) = chip_read c a n ++ chip_read c (a + Z.of_nat n) m.
Proof.
  unfold chip_read. rewrite seq_app, fmap_app. f_equal. replace (0 + n)%nat with (n + 0)%nat by lia. rewrite <- (fmap_add_seq n 0 m), <- list_fmap_compose.
  apply list_fmap_ext. intros i x _. cbn. f_equal. lia.
Qed.

(** The constants of a function. *)
Lemma fn_consts f : f = 1 \/ f = 2 ->
  block_size (fn f) = fn_block f /\ fn_block f = 2 ^ block_size_log2 (fn f) /\ 0 <= block_size_log2 (fn f) /\ 8 <= fn_block f <= 512.
Proof. intros [-> | ->]; vm_compute; split_and!; try done. Qed.

Lemma read_rest_ok c f a r0 buf off len d :
  st Idle c false d -> f = 1 \/ f = 2 -> is_u32 a -> 0 <= len < fn_block f -> a mod 2 ^ 16 + len <= 2 ^ 16 ->
  0 <= off -> off + len <= zlen buf ->
  exists d', read_rest r0 (fn f) a buf off len d =
      Ok (if decide (len > 0) then RC_SUCCESS else r0, splice (Z.to_nat off) (chip_read c (base c f * 2 ^ 16 + a mod 2 ^ 16) (Z.to_nat len)) buf, d') /\
    st Idle c false d'.
Proof.
  intros Hst Hf Ha Hl Hw Hoff Hbuf. destruct (fn_consts f Hf) as (Eb & _ & _ & H8). unfold read_rest. rewrite Eb.
  destruct (decide (len > 0)) as [Hp|Hz].
  - rewrite (Z.land_ones a 16 ltac:(lia) : Z.land a 0x0000FFFF = a mod 2 ^ 16). rewrite u16_id by (unfold is_u16; lia).
    destruct (cmd53_send_ok c d false false f (a mod 2 ^ 16) len Hst) as (d1 & -> & H1).
    { unfold transfer_ok, total. zlia. }
    cbn [mbind outcome_bind]. rewrite decide_False by (intros H; by apply H).
    unfold total in H1. set (l := chip_read _ _ _) in *.
    assert (Hll : zlen l = len) by (unfold l; rewrite length_chip_read; lia).
    destruct (get_data_ok c (fn_block f) l off buf d1 H1) as (d2 & E & H2); try lia.
    rewrite <- Hll. rewrite E. by exists d2.
  - exists d. replace (Z.to_nat len) with 0%nat by lia. change (chip_read _ _ 0) with (@nil Z). by rewrite splice_nil.
Qed.

(** [morse_cmd53_read] of less than a window and not over its end. *)
Lemma cmd53_read_ok c f a buf off len d :
  st Idle c false d -> f = 1 \/ f = 2 -> is_u32 a -> 0 < len < 128 * fn_block f -> a mod 2 ^ 16 + len <= 2 ^ 16 ->
  0 <= off -> off + len <= zlen buf ->
  exists d', morse_cmd53_read (fn f) a buf off len d =
      Ok (RC_SUCCESS, splice (Z.to_nat off) (chip_read c (base c f * 2 ^ 16 + a mod 2 ^ 16) (Z.to_nat len)) buf, d') /\
    st Idle c false d'.
Proof.
  intros Hst Hf Ha Hl Hw Hoff Hbuf. destruct (fn_consts f Hf) as (Eb & E2 & E0 & H8). unfold morse_cmd53_read.
  rewrite Z.shiftr_div_pow2, <- E2, Eb by done. set (bs := fn_block f) in *. set (k := len / bs).
  assert (Hk : 0 <= k < 128 /\ k * bs <= len < k * bs + bs) by (unfold k; Z.div_mod_to_equations; nia).
  rewrite u16_id by (unfold is_u16; lia). destruct (decide (k > 0)) as [Hp|Hz].
  - rewrite (Z.land_ones a 16 ltac:(lia) : Z.land a 0x0000FFFF = a mod 2 ^ 16).
    assert (Hmod : 0 <= a mod 2 ^ 16 < 2 ^ 16) by zlia.
    destruct (cmd53_send_ok c d false true f (a mod 2 ^ 16) k Hst) as (d1 & -> & H1).
    { unfold transfer_ok, total. fold bs. split_and!; try lia; done. }
    cbn [mbind outcome_bind]. rewrite decide_False by (intros H; by apply H).
    unfold total in H1. fold bs in H1. set (l := chip_read _ _ _) in *.
    assert (Hll : zlen l = k * bs) by (unfold l; rewrite length_chip_read; lia).
    destruct (get_data_ok c bs l off buf d1 H1) as (d2 & E & H2); try lia.
    rewrite <- Hll. rewrite E. cbn [mbind outcome_bind]. rewrite decide_False by (intros H; by apply H).
    assert (Hu : u32 (len - zlen l) = len - k * bs) by (rewrite Hll; apply u32_id; unfold is_u32; lia). rewrite Hu, Hll.
    destruct (decide (len = k * bs)) as [Hr|Hr].
    + exists d2. unfold read_rest. rewrite decide_False by lia. split; [|done]. do 4 f_equal. unfold l. do 2 f_equal. lia.
    + rewrite (u32_id (a + k * bs)) by (unfold is_u32 in *; zlia).
      assert (Hm : (a + k * bs) mod 2 ^ 16 = a mod 2 ^ 16 + k * bs) by zlia.
      destruct (read_rest_ok c f (a + k * bs) RC_SUCCESS (splice (Z.to_nat off) l buf) (off + k * bs) (len - k * bs) d2 H2 Hf)
        as (d3 & E3 & H3); try lia.
      * unfold is_u32 in *. zlia.
      * rewrite length_splice by lia. lia.
      * exists d3. split; [|done]. rewrite E3, decide_True, Hm by lia. do 3 f_equal.
        replace (Z.to_nat (off + k * bs)) with (Z.to_nat off + length l)%nat by lia.
        rewrite splice_app_adj by (rewrite length_chip_read; lia). f_equal.
        replace (Z.to_nat len) with (length l + Z.to_nat (len - k * bs))%nat by lia. rewrite chip_read_app. f_equal.
        { unfold l at 1. f_equal. lia. }
        f_equal. lia.
  - destruct (read_rest_ok c f a (-1) buf off len d Hst Hf Ha) as (d1 & E & H1); try lia.
    exists d1. by rewrite E, decide_True by lia.
Qed.

(** *** Writing *)

(** Chips with the same memory. *)
#[export] Instance chip_equiv : Equiv chip := fun c c' => forall x, mem c x = mem c' x.

#[export] Instance chip_equivalence : Equivalence (equiv (A := chip)).
Proof. split; [done|intros c c' H x; by rewrite H|intros c c' c'' H1 H2 x; by rewrite H1, H2]. Qed.

#[export] Instance chip_write_proper : Proper (equiv ==> eq ==> eq ==> equiv) chip_write.
Proof. intros c c' H a ? <- data ? <- x. cbn. case_decide; by rewrite H. Qed.

Lemma chip_write_app c a d1 d2 : chip_write (chip_write c a d1) (a + zlen d1) d2 ≡ chip_write c a (d1 ++ d2).
Proof.
  intros x. cbn. destruct (decide (a <= x)) as [H1|H1]; [|by rewrite decide_False by lia].
  destruct (decide (a + zlen d1 <= x)) as [H2|H2].
  - rewrite (lookup_ge_None_2 d1) by lia. rewrite lookup_app_r by lia.
    by replace (Z.to_nat (x - a) - length d1)%nat with (Z.to_nat (x - (a + zlen d1))) by lia.
  - by rewrite lookup_app_l by lia.
Qed.

Lemma chip_write_nil c a : chip_write c a [] ≡ c.
Proof. intros x. cbn. by case_decide. Qed.

(** What one block does, after the bookkeeping of the count. *)
Definition put_block (block : bytes) (crc start_tkn : Z) (d : D) : option (Z * D) :=
  let '(bus_ready, d) := morse_wait_ready d in
  if negb bus_ready then None
  else Some (await_response 4 256 (snd (spi_rw (u8 crc) (snd (spi_rw (u8 (Z.shiftr crc 8)) (spi_write_buf block (snd (spi_rw start_tkn d)))))))).

Lemma put_block_ok c a blocks size tkn block d :
  st (Writing a (S blocks) size tkn) c true d -> zlen block = size -> is_bytes block ->
  exists d', put_block block (crc_ref 0 block) tkn d = Some (SDIO_SPI_TKN_DATA_RSP_ACCEPTED, d') /\
    st (Writing (a + size) blocks size tkn) (chip_write c a block) true d'.
Proof.
  intros Hst Hs Hb. destruct (card_block_in _ _ _ _ _ _ block Hst Hs Hb) as (n & d1 & m & d2 & Hn & Hm & Hw & Hp & Hst').
  exists d2. split; [|done]. unfold put_block, morse_wait_ready. rewrite (wait_ready_polls _ _ _ _ MAX_BUS_ATTEMPTS Hw Hn). cbn [negb].
  assert (Hcrc : is_u16 (crc_ref 0 block)) by by apply crc_ref_range.
  replace (u8 (Z.shiftr (crc_ref 0 block) 8)) with (crc_ref 0 block / 256) by (rewrite Z.shiftr_div_pow2 by lia; zlia).
  f_equal. by apply (await_response_polls _ _ _ _ 4 256 Hp).
Qed.

Lemma put_data_loop_step fuel r cnt data off mode size tkn bs d :
  cnt > 0 ->
  put_data_loop (S fuel) r cnt data off mode size tkn bs d =
    (cnt ← (if decide (mode = SDIO_MODE_BYTE) then assert (bool_decide (cnt <= bs)) ;; Ok 0 else Ok (cnt - 1));
     block ← rdn data off size; crc16 ← morse_crc16 0 block;
     match put_block block crc16 tkn d with
     | None => Ok (RC_UNSPECIFIED_ERROR, snd (morse_wait_ready d))
     | Some (rcv_data, d) =>
         let result := morse_test_data_rsp_token rcv_data in
         if decide (result <> RC_SUCCESS) then Ok (result, d)
         else put_data_loop fuel result cnt data (off + size) mode size tkn bs d
     end).
Proof.
  intros Hc. cbn [put_data_loop]. rewrite decide_True by done. destruct (if decide _ then _ else _) as [cnt'|]; [|done].
  cbn [mbind outcome_bind]. destruct (rdn data off size) as [block|]; [|done]. cbn [mbind outcome_bind].
  destruct (morse_crc16 0 block) as [crc|]; [|done]. cbn [mbind outcome_bind]. unfold put_block.
  destruct (morse_wait_ready d) as [[] d1]; [|done]. cbn [negb].
  destruct (spi_rw tkn d1) as [? d2]. cbn [snd]. destruct (spi_rw _ (spi_write_buf block d2)) as [? d3]. cbn [snd].
  destruct (spi_rw _ d3) as [? d4]. cbn [snd]. by destruct (await_response 4 256 d4).
Qed.

Lemma put_data_loop_end fuel r data off mode size tkn bs d :
  (0 < fuel)%nat -> put_data_loop fuel r 0 data off mode size tkn bs d = Ok (r, d).
Proof. destruct fuel as [|fuel]; [lia|]. intros _. cbn [put_data_loop]. by rewrite decide_False by lia. Qed.

Lemma put_data_loop_ok size tkn data bs fuel : forall blocks c a off d,
  st (Writing a blocks size tkn) c true d -> 0 < size -> is_bytes data -> 0 <= off -> off + Z.of_nat blocks * size <= zlen data ->
  (blocks < fuel)%nat ->
  forall r, exists c' d', put_data_loop fuel r (Z.of_nat blocks) data off SDIO_MODE_BLOCK size tkn bs d =
      Ok (if decide (blocks = 0%nat) then r else RC_SUCCESS, d') /\
    st (Writing (a + Z.of_nat blocks * size) 0 size tkn) c' true d' /\
    c' ≡ chip_write c a (window (Z.to_nat off) (Z.to_nat (Z.of_nat blocks * size)) data) /\ base c' = base c.
Proof.
  induction fuel as [|fuel IH]; intros blocks c a off d Hst Hs Hb Hoff Hlen Hf r; [lia|]. destruct blocks as [|blocks].
  { cbn [put_data_loop]. rewrite decide_False by lia. exists c, d. rewrite decide_True by done. rewrite Z.mul_0_l, Z.add_0_r.
    split_and!; [done|done| |done]. change (Z.to_nat 0) with 0%nat. rewrite window_nil. symmetry. apply chip_write_nil. }
  rewrite put_data_loop_step by lia. rewrite (decide_False (P := SDIO_MODE_BLOCK = SDIO_MODE_BYTE)) by done. cbn [mbind outcome_bind].
  rewrite rdn_Ok by lia. cbn [mbind outcome_bind]. set (w := window _ _ _).
  assert (Hw : zlen w = size) by (unfold w; rewrite length_window by lia; lia).
  assert (Hwb : is_bytes w) by (by apply Forall_take, Forall_drop).
  rewrite crc16_is_ref by done. cbn [mbind outcome_bind].
  destruct (put_block_ok c a blocks size tkn w d Hst Hw Hwb) as (d1 & -> & H1).
  change (morse_test_data_rsp_token SDIO_SPI_TKN_DATA_RSP_ACCEPTED) with RC_SUCCESS. cbv zeta.
  destruct (decide (RC_SUCCESS <> RC_SUCCESS)) as [H0|_]; [done|].
  replace (Z.of_nat (S blocks) - 1) with (Z.of_nat blocks) by lia.
  destruct (IH blocks (chip_write c a w) (a + size) (off + size) d1 H1 Hs Hb) with (r := RC_SUCCESS) as (c' & d' & E & H2 & H3 & H4); try lia.
  exists c', d'. rewrite E. split; [by destruct (decide (blocks = 0%nat))|].
  replace (a + Z.of_nat (S blocks) * size) with (a + size + Z.of_nat blocks * size) by lia. split; [done|]. split; [|by rewrite H4].
  rewrite H3, <- Hw at 1. rewrite chip_write_app. unfold w.
  replace (Z.to_nat (Z.of_nat (S blocks) * size)) with (Z.to_nat size + Z.to_nat (Z.of_nat blocks * size))%nat by lia.
  rewrite window_app. by replace (Z.to_nat (off + size)) with (Z.to_nat off + Z.to_nat size)%nat by lia.
Qed.

(** The end of a transfer: the stop token after several blocks, and the wait. *)
Lemma put_end_ok c a size tkn d :
  st (Writing a 0 size tkn) c true d ->
  exists d1, morse_wait_ready (if decide (tkn = SDIO_SPI_TKN_MULTI_WRITE) then snd (spi_rw SDIO_SPI_TKN_STOP_TRANSACTION d) else d) = (true, d1) /\
    st Idle c false (spi_cs false d1).
Proof.
  intros Hst. destruct (card_write_end c d a size tkn Hst) as (n & d1 & Hn & Hw & H1). exists d1. split; [|done].
  by apply (wait_ready_polls _ _ _ _ MAX_BUS_ATTEMPTS Hw).
Qed.

Lemma put_blocks_ok c a count data off bs d :
  st (Writing a (Z.to_nat count) bs (start_token true count)) c false d -> 0 < count < 2 ^ 16 -> 0 < bs -> is_bytes data ->
  0 <= off -> off + count * bs <= zlen data ->
  exists c' d', morse_cmd53_put_data count data off SDIO_MODE_BLOCK bs d = Ok (RC_SUCCESS, d') /\ st Idle c' false d' /\
    c' ≡ chip_write c a (window (Z.to_nat off) (Z.to_nat (count * bs)) data) /\ base c' = base c.
Proof.
  intros Hst Hc Hbs Hb Hoff Hlen. unfold morse_cmd53_put_data. rewrite u16_id by (unfold is_u16; lia).
  rewrite (decide_True (P := SDIO_MODE_BLOCK = SDIO_MODE_BLOCK)) by done.
  replace (if decide (SDIO_MODE_BLOCK = SDIO_MODE_BLOCK /\ count > 1) then _ else _) with (start_token true count).
  2: { unfold start_token. cbn [andb]. destruct (decide (_ /\ _)) as [[_ H]|H]; [by rewrite bool_decide_true|].
       rewrite bool_decide_false; [done|]. intros H1. by apply H. }
  destruct (put_data_loop_ok bs (start_token true count) data bs (S (Z.to_nat count)) (Z.to_nat count) c a off _
    (card_select _ _ _ Hst)) with (r := RC_UNSPECIFIED_ERROR) as (c' & d' & E & H1 & H2 & H3); try done; try lia.
  replace (Z.of_nat (Z.to_nat count)) with count in * by lia. rewrite E, decide_False by lia. cbn [mbind outcome_bind].
  destruct (put_end_ok _ _ _ _ _ H1) as (d1 & -> & H4). exists c', (spi_cs false d1). by split_and!.
Qed.

Lemma put_octets_ok c a len data off bs d :
  st (Writing a 1 len (start_token false len)) c false d -> 0 < len < 2 ^ 16 -> len <= bs -> is_bytes data ->
  0 <= off -> off + len <= zlen data ->
  exists c' d', morse_cmd53_put_data len data off SDIO_MODE_BYTE bs d = Ok (RC_SUCCESS, d') /\ st Idle c' false d' /\
    c' ≡ chip_write c a (window (Z.to_nat off) (Z.to_nat len) data) /\ base c' = base c.
Proof.
  intros Hst Hl Hbs Hb Hoff Hlen. unfold morse_cmd53_put_data. rewrite u16_id by (unfold is_u16; lia).
  rewrite (decide_False (P := SDIO_MODE_BYTE = SDIO_MODE_BLOCK)) by done.
  rewrite (decide_False (P := SDIO_MODE_BYTE = SDIO_MODE_BLOCK /\ _)) by (by intros [? _]).
  rewrite put_data_loop_step by lia. rewrite (decide_True (P := SDIO_MODE_BYTE = SDIO_MODE_BYTE)) by done.
  rewrite bool_decide_true by done. cbn [assert mbind outcome_bind]. rewrite rdn_Ok by lia. cbn [mbind outcome_bind].
  set (w := window _ _ _).
  assert (Hw : zlen w = len) by (unfold w; rewrite length_window by lia; lia).
  assert (Hwb : is_bytes w) by (by apply Forall_take, Forall_drop).
  rewrite crc16_is_ref by done. cbn [mbind outcome_bind].
  destruct (put_block_ok c a 0 len (start_token false len) w _ (card_select _ _ _ Hst) Hw Hwb) as (d1 & E & H1).
  change (start_token false len) with SDIO_SPI_TKN_READ_SINGLE_WRITE in *. rewrite E. cbv zeta.
  change (morse_test_data_rsp_token SDIO_SPI_TKN_DATA_RSP_ACCEPTED) with RC_SUCCESS.
  destruct (decide (RC_SUCCESS <> RC_SUCCESS)) as [H0|_]; [done|].
  rewrite put_data_loop_end by lia. cbn [mbind outcome_bind].
  destruct (put_end_ok _ _ _ _ _ H1) as (d2 & -> & H2). exists (chip_write c a w), (spi_cs false d2). by split_and!.
Qed.

Lemma write_rest_ok c f a r0 data off len d :
  st Idle c false d -> f = 1 \/ f = 2 -> is_u32 a -> 0 <= len < fn_block f -> a mod 2 ^ 16 + len <= 2 ^ 16 -> is_bytes data ->
  0 <= off -> off + len <= zlen data ->
  exists c' d', write_rest r0 (fn f) a data off len d = Ok (if decide (len > 0) then RC_SUCCESS else r0, d') /\ st Idle c' false d' /\
    c' ≡ chip_write c (base c f * 2 ^ 16 + a mod 2 ^ 16) (window (Z.to_nat off) (Z.to_nat len) data) /\ base c' = base c.
Proof.
  intros Hst Hf Ha Hl Hw Hb Hoff Hlen. destruct (fn_consts f Hf) as (Eb & _ & _ & H8). unfold write_rest. rewrite Eb.
  destruct (decide (len > 0)) as [Hp|Hz].
  - rewrite (Z.land_ones a 16 ltac:(lia) : Z.land a 0x0000FFFF = a mod 2 ^ 16). rewrite u16_id by (unfold is_u16; lia).
    destruct (cmd53_send_ok c d true false f (a mod 2 ^ 16) len Hst) as (d1 & -> & H1).
    { unfold transfer_ok, total. zlia. }
    cbn [mbind outcome_bind]. rewrite decide_False by (intros H; by apply H). by apply put_octets_ok; try lia.
  - exists c, d. replace (Z.to_nat len) with 0%nat by lia. rewrite window_nil. split_and!; [done|done| |done]. symmetry. apply chip_write_nil.
Qed.

(** [morse_cmd53_write] of not more than a window and not over its end. *)
Lemma cmd53_write_ok c f a data off len d :
  st Idle c false d -> f = 1 \/ f = 2 -> is_u32 a -> 0 < len <= 128 * fn_block f -> a mod 2 ^ 16 + len <= 2 ^ 16 -> is_bytes data ->
  0 <= off -> off + len <= zlen data ->
  exists c' d', morse_cmd53_write (fn f) a data off len d = Ok (RC_SUCCESS, d') /\ st Idle c' false d' /\
    c' ≡ chip_write c (base c f * 2 ^ 16 + a mod 2 ^ 16) (window (Z.to_nat off) (Z.to_nat len) data) /\ base c' = base c.
Proof.
  intros Hst Hf Ha Hl Hw Hb Hoff Hlen. destruct (fn_consts f Hf) as (Eb & E2 & E0 & H8). unfold morse_cmd53_write.
  rewrite Z.shiftr_div_pow2, <- E2, Eb by done. set (bs := fn_block f) in *. set (k := len / bs).
  assert (Hk : 0 <= k <= 128 /\ k * bs <= len < k * bs + bs) by (unfold k; Z.div_mod_to_equations; nia).
  rewrite u16_id by (unfold is_u16; lia). destruct (decide (k > 0)) as [Hp|Hz].
  - rewrite (Z.land_ones a 16 ltac:(lia) : Z.land a 0x0000FFFF = a mod 2 ^ 16).
    assert (Hmod : 0 <= a mod 2 ^ 16 < 2 ^ 16) by zlia.
    destruct (cmd53_send_ok c d true true f (a mod 2 ^ 16) k Hst) as (d1 & -> & H1).
    { unfold transfer_ok, total. fold bs. split_and!; try lia; done. }
    cbn [mbind outcome_bind]. rewrite decide_False by (intros H; by apply H). fold bs in H1.
    destruct (put_blocks_ok c _ k data off bs d1 H1) as (c2 & d2 & E & H2 & H3 & H4); try done; try lia.
    rewrite E. cbn [mbind outcome_bind]. rewrite decide_False by (intros H; by apply H).
    rewrite (u32_id (len - k * bs)) by (unfold is_u32; lia).
    destruct (decide (len = k * bs)) as [Hr|Hr].
    + exists c2, d2. unfold write_rest. rewrite decide_False by lia. by rewrite Hr.
    + rewrite (u32_id (a + k * bs)) by (unfold is_u32 in *; zlia).
      assert (Hm : (a + k * bs) mod 2 ^ 16 = a mod 2 ^ 16 + k * bs) by zlia.
      destruct (write_rest_ok c2 f (a + k * bs) RC_SUCCESS data (off + k * bs) (len - k * bs) d2 H2 Hf) as (c3 & d3 & E3 & H5 & H6 & H7);
        try done; try lia.
      { unfold is_u32 in *. zlia. }
      exists c3, d3. rewrite E3, decide_True by lia. split; [done|]. split; [done|]. split; [|by rewrite H7].
      replace (Z.to_nat len) with (Z.to_nat (k * bs) + Z.to_nat (len - k * bs))%nat by lia. rewrite window_app.
      replace (Z.to_nat off + Z.to_nat (k * bs))%nat with (Z.to_nat (off + k * bs)) by lia.
      set (w1 := window _ (Z.to_nat (k * bs)) _) in *. etrans; [exact H6|]. rewrite H4, Hm, <- chip_write_app.
      replace (base c f * 2 ^ 16 + (a mod 2 ^ 16 + k * bs)) with (base c f * 2 ^ 16 + a mod 2 ^ 16 + zlen w1)
        by (unfold w1; rewrite length_window by lia; lia).
      by apply chip_write_proper.
  - destruct (write_rest_ok c f a RC_UNSPECIFIED_ERROR data off len d Hst Hf Ha) as (c1 & d1 & E & H1); try done; try lia.
    exists c1, d1. by rewrite E, decide_True by lia.
Qed.

End Card.
End SdioProto.
