(* ===== verification/SdioCard.v ===== *)
(** Transfers of any length between the host of [SdioSpi] and a card with the laws
    of [SdioProto], and a concrete card that has them. *)

From S2P Require Import Prelude Crc SdioSpi SdioProto.
Import Crc SdioSpi SdioProto.

(** ** Transfers that cross windows *)

Module SdioTransfer.

(** The octets to the end of the window of an address. *)
Definition span (addr len : Z) : Z := Z.min len (2 ^ 16 - addr mod 2 ^ 16).

Lemma chunk_span addr len : is_u32 addr -> 0 < len -> addr + len <= 0xFFFF0000 -> chunk addr len = span addr len.
Proof.
  intros Ha Hl Hw. unfold chunk, span. rewrite high_half by done. change MAX_BLOCK_TRANSFER_SIZE_FN2 with 65536.
  unfold is_u32 in Ha. rewrite (u32_id (addr + _)) by zlia. rewrite (u32_id (_ + 0x10000)) by zlia.
  case_decide; [rewrite u32_id by zlia|]; zlia.
Qed.

Lemma chip_read_ext c c' a n : c ≡ c' -> chip_read c a n = chip_read c' a n.
Proof. intros H. apply list_fmap_ext. intros i x _. apply H. Qed.

Lemma chip_read_write c a data : chip_read (chip_write c a data) a (length data) = data.
Proof.
  unfold chip_read. apply list_eq. intros i. rewrite list_lookup_fmap. destruct (decide (i < length data)%nat) as [Hi|Hi].
  - rewrite lookup_seq_lt by done. cbn [fmap option_fmap option_map]. cbn. rewrite decide_True by lia.
    replace (Z.to_nat _) with i by lia. by destruct (lookup_lt_is_Some_2 data i Hi) as [x ->].
  - rewrite lookup_ge_None_2 by (rewrite length_seq; lia). by rewrite lookup_ge_None_2 by lia.
Qed.

Lemma splice_prefix {A} off k (d l : list A) : (off + length d <= length l)%nat -> splice off (take k d) (splice off d l) = splice off d l.
Proof.
  intros H. set (j := (k `min` length d)%nat).
  replace (take k d) with (take j d) by (unfold j; destruct (decide (k <= length d)%nat); [by rewrite Nat.min_l by lia|by rewrite Nat.min_r, !take_ge by lia]).
  assert (Hj : length (take j d) = j) by (rewrite length_take; lia).
  unfold splice. rewrite Hj, take_app_length', drop_app_ge by (rewrite length_take; lia).
  rewrite length_take. replace (off + j - off `min` length l)%nat with j by lia.
  rewrite drop_app_le by lia. by rewrite (app_assoc (take j d)), take_drop.
Qed.

Section Transfer.
  Context {D : Type} `{!SpiBus D, !SdioCard D}.

(** Selecting the window of an address leaves the memory as it was. *)
Lemma window_ok c d addr f :
  st Idle c false d -> f = 1 \/ f = 2 -> is_u32 addr ->
  exists c' d', morse_address_base_set addr MORSE_CONFIG_ACCESS_4BYTE (fn f) d = Ok (RC_SUCCESS, d') /\
    st Idle c' false d' /\ c' ≡ c /\ base c' f * 2 ^ 16 + addr mod 2 ^ 16 = addr.
Proof.
  intros Hst Hf Ha. destruct (base_set_ok c d f addr Hst Hf Ha) as (c' & d' & E & H1 & H2 & H3).
  exists c', d'. split_and!; [done|done|intros x; by rewrite H2|]. rewrite H3. zlia.
Qed.

Lemma write_multi_loop_ok data fuel : forall c d r addr off len,
  st Idle c false d -> is_u32 addr -> 0 <= len -> addr + len <= 0xFFFF0000 -> is_bytes data -> 0 <= off -> off + len <= zlen data ->
  len < Z.of_nat fuel ->
  exists c' d', write_multi_loop fuel r addr data off len d = Ok (if decide (len > 0) then RC_SUCCESS else r, d') /\
    st Idle c' false d' /\ c' ≡ chip_write c addr (window (Z.to_nat off) (Z.to_nat len) data).
Proof.
  induction fuel as [|fuel IH]; intros c d r addr off len Hst Ha Hl Hw Hb Hoff Hlen Hf; [lia|]. cbn [write_multi_loop]. change SDIO_FUNCTION_2 with (fn 2).
  destruct (decide (len > 0)) as [Hp|Hz].
  2: { exists c, d. replace (Z.to_nat len) with 0%nat by lia. rewrite window_nil. split_and!; [done|done|]. symmetry. apply chip_write_nil. }
  destruct (window_ok c d addr 2 Hst) as (c1 & d1 & -> & H1 & E1 & Eb); [by right|done|]. cbn [mbind outcome_bind].
  rewrite decide_False by (intros H; by apply H). rewrite chunk_span by (done || lia).
  set (s := span addr len). assert (Hs : 0 < s <= len /\ s <= 2 ^ 16 /\ addr mod 2 ^ 16 + s <= 2 ^ 16) by (unfold s, span; zlia).
  assert (H512 : 128 * fn_block 2 = 2 ^ 16) by done.
  destruct (cmd53_write_ok c1 2 addr data off s d1 H1) as (c2 & d2 & E & H2 & E2 & _); try done; try (by right); try lia.
  rewrite E. cbn [mbind outcome_bind].
  unfold is_u32 in Ha. rewrite (u32_id (addr + s)), (u32_id (len - s)) by (unfold is_u32; lia).
  destruct (IH c2 d2 RC_SUCCESS (addr + s) (off + s) (len - s) H2) as (c3 & d3 & E3 & H3 & E4); try done; try (unfold is_u32; lia).
  exists c3, d3. split; [by rewrite E3; destruct (decide (len - s > 0))|]. split; [done|].
  replace (Z.to_nat len) with (Z.to_nat s + Z.to_nat (len - s))%nat by lia. rewrite window_app.
  replace (Z.to_nat off + Z.to_nat s)%nat with (Z.to_nat (off + s)) by lia.
  set (w1 := window _ (Z.to_nat s) _) in *. etrans; [exact E4|]. rewrite <- chip_write_app.
  replace (zlen w1) with s by (unfold w1; rewrite length_window by lia; lia).
  apply chip_write_proper; [|done|done]. etrans; [exact E2|]. rewrite Eb. by apply chip_write_proper.
Qed.

(** One turn of a read, of at least eight octets and less than a window. *)
Lemma read_multi_turn c d fuel r addr buf off len :
  st Idle c false d -> is_u32 addr -> 0 < len -> addr + len <= 0xFFFF0000 -> 0 <= off -> off + len <= zlen buf ->
  8 <= span addr len < 2 ^ 16 ->
  let s := span addr len in
  exists c' d', st Idle c' false d' /\ c' ≡ c /\
    read_multi_loop (S fuel) r addr buf off len d =
      read_multi_loop fuel RC_SUCCESS (addr + s) (splice (Z.to_nat off) (chip_read c addr (Z.to_nat s)) buf) (off + s) (len - s) d'.
Proof.
  intros Hst Ha Hl Hw Hoff Hlen Hs s. cbn [read_multi_loop]. change SDIO_FUNCTION_2 with (fn 2). rewrite decide_True by lia.
  destruct (window_ok c d addr 2 Hst) as (c1 & d1 & -> & H1 & E1 & Eb); [by right|done|]. cbn [mbind outcome_bind].
  rewrite decide_False by (intros H; by apply H). rewrite chunk_span by (done || lia). fold s in Hs |- *.
  assert (Hs' : s <= len /\ addr mod 2 ^ 16 + s <= 2 ^ 16) by (unfold s, span; zlia).
  assert (Hf : 2 = 1 \/ 2 = 2) by by right.
  assert (H512 : 128 * fn_block 2 = 2 ^ 16) by done.
  destruct (cmd53_read_ok c1 2 addr buf off s d1 H1 Hf Ha) as (d2 & E & H2); try lia. rewrite Eb in E.
  rewrite (chip_read_ext c1 c) in E by done. rewrite E. cbn [mbind outcome_bind]. rewrite decide_False by (intros H; by apply H).
  set (d8 := chip_read c addr (Z.to_nat s)) in *. assert (Hd : zlen d8 = s) by (unfold d8; rewrite length_chip_read; lia).
  set (buf1 := splice _ d8 buf). assert (Hb1 : zlen buf1 = zlen buf) by (unfold buf1; rewrite length_splice by lia; done).
  rewrite !rdn_Ok by lia. cbn [mbind outcome_bind].
  unfold is_u32 in Ha. rewrite (u32_id (addr + s)), (u32_id (len - s)) by (unfold is_u32; lia).
  case_decide.
  - destruct (cmd53_read_ok c1 2 addr buf1 off 8 d2 H2 Hf Ha) as (d3 & E8 & H3); try lia. rewrite Eb in E8.
    rewrite (chip_read_ext c1 c) in E8 by done. rewrite E8. cbn [mbind outcome_bind]. rewrite decide_False by (intros H'; by apply H').
    exists c1, d3. split_and!; [done|done|]. f_equal. unfold buf1.
    replace (chip_read c addr (Z.to_nat 8)) with (take (Z.to_nat 8) d8).
    { apply splice_prefix. lia. }
    unfold d8. replace (Z.to_nat s) with (Z.to_nat 8 + Z.to_nat (s - 8))%nat by lia. rewrite chip_read_app.
    by rewrite take_app_length' by (by rewrite length_chip_read).
  - cbn [mbind outcome_bind]. rewrite decide_False by (intros H'; by apply H'). by exists c1, d2.
Qed.

(** Lengths whose turns all have at least eight octets and less than a window. *)
Definition readable (addr len : Z) : Prop :=
  let s := span addr len in 8 <= s < 2 ^ 16 /\ (len = s \/ 8 <= len - s < 2 ^ 16).

#[export] Instance readable_dec addr len : Decision (readable addr len).
Proof. unfold readable. apply _. Defined.

Lemma read_multi_ok c d addr buf len :
  st Idle c false d -> is_u32 addr -> 0 < len -> len mod 4 = 0 -> addr + len <= 0xFFFF0000 -> len <= zlen buf -> readable addr len ->
  exists c' d', sdio_spi_read_multi_byte addr buf len d = Ok (RC_SUCCESS, splice 0 (chip_read c addr (Z.to_nat len)) buf, d') /\
    st Idle c' false d' /\ c' ≡ c.
Proof.
  intros Hst Ha Hl H4 Hw Hlen [Hs Hr]. unfold sdio_spi_read_multi_byte.
  rewrite (Z.land_ones len 2 ltac:(lia) : Z.land len 3 = len mod 2 ^ 2). change (2 ^ 2) with 4. rewrite decide_False by lia.
  destruct (Z.to_nat len) as [|[|fuel]] eqn:Ef; [lia|unfold span in Hs; lia|]. set (s := span addr len) in *.
  destruct (read_multi_turn c d (S (S fuel)) (-1) addr buf 0 len Hst) as (c1 & d1 & H1 & E1 & ->); try done; try lia. fold s.
  destruct Hr as [Hr|Hr].
  - replace (len - s) with 0 by lia. exists c1, d1. cbn [read_multi_loop]. rewrite decide_False by lia. by rewrite <- Hr, Ef.
  - rewrite Z.add_0_l. set (buf1 := splice _ _ _).
    assert (Hb1 : zlen buf1 = zlen buf) by (unfold buf1; rewrite length_splice by (rewrite length_chip_read; lia); done).
    unfold is_u32 in Ha. assert (Hsp : span (addr + s) (len - s) = len - s).
    { unfold span, s in *. unfold span in *. zlia. }
    destruct (read_multi_turn c1 d1 (S fuel) RC_SUCCESS (addr + s) buf1 s (len - s) H1) as (c2 & d2 & H2 & E2 & ->); try lia.
    { unfold is_u32. lia. }
    rewrite Hsp. replace (len - s - (len - s)) with 0 by lia. cbn [read_multi_loop]. rewrite decide_False by lia.
    exists c2, d2. split; [|split; [done|by etrans]]. do 3 f_equal. unfold buf1.
    rewrite (chip_read_ext c1 c) by done. change (Z.to_nat 0) with 0%nat.
    replace (Z.to_nat s) with (0 + length (chip_read c addr (Z.to_nat s)))%nat at 1 by (rewrite length_chip_read; lia).
    rewrite splice_app_adj by (rewrite !length_chip_read; lia). f_equal.
    rewrite <- Ef. replace (Z.to_nat len) with (Z.to_nat s + Z.to_nat (len - s))%nat by lia. rewrite chip_read_app. f_equal. f_equal. lia.
Qed.

End Transfer.
End SdioTransfer.

(** ** A card with the laws

    Octets received are collected until a frame or a block is complete; an answer is
    queued and sent in the following octets. *)

Module SpiCard.

Record card := { c_chip : chip; c_phase : phase; c_sel : bool; c_out : bytes; c_in : bytes }.

Definition set_in (l : bytes) (k : card) : card :=
  {| c_chip := c_chip k; c_phase := c_phase k; c_sel := c_sel k; c_out := c_out k; c_in := l |}.

Definition answer (c : chip) (p : phase) (out : bytes) (k : card) : card :=
  {| c_chip := c; c_phase := p; c_sel := c_sel k; c_out := out; c_in := [] |}.

Definition crc_octets (d : bytes) : bytes := [crc_ref 0 d / 256; crc_ref 0 d mod 256].

Definition run (cmd arg : Z) (k : card) : card :=
  let c := c_chip k in
  let f := arg / 2 ^ 28 mod 8 in
  let a := arg / 2 ^ 9 mod 2 ^ 17 in
  if decide (cmd = 52) then answer (reg_write f a (arg mod 2 ^ 8) c) Idle [0; 0] k
  else if decide (cmd = 53) then
    let write := arg / 2 ^ 31 mod 2 in
    let block := bool_decide (arg / 2 ^ 27 mod 2 = 1) in
    let count := arg mod 2 ^ 9 in
    let addr := base c f * 2 ^ 16 + a in
    answer c (if decide (write = 1)
              then Writing addr (if block then Z.to_nat count else 1) (if block then fn_block f else count) (start_token block count)
              else Reading (chip_read c addr (Z.to_nat (total f block count))) (fn_block f)) [0; 0] k
  else set_in [] k.

Definition feed (x : Z) (k : card) : card :=
  match c_phase k with
  | Idle =>
      if decide (c_in k = [] /\ x = 255) then k
      else match c_in k ++ [x] with
           | [h; a3; a2; a1; a0; t] =>
               if decide (t = crc7_ref 0 [h; a3; a2; a1; a0] * 2 + 1) then run (h - 64) (be32 a3 a2 a1 a0) k else set_in [] k
           | l => set_in l k
           end
  | Reading _ _ => k
  | Writing a 0 size tkn => k
  | Writing a (S blocks) size tkn =>
      if decide (c_in k = [] /\ x = 255) then k
      else
        let l := c_in k ++ [x] in
        if decide (zlen l < size + 3) then set_in l k
        else
          let data := take (Z.to_nat size) (drop 1 l) in
          if decide (l = tkn :: data ++ crc_octets data)
          then answer (chip_write (c_chip k) a data) (Writing (a + size) blocks size tkn) [SDIO_SPI_TKN_DATA_RSP_ACCEPTED] k
          else answer (c_chip k) (c_phase k) [SDIO_SPI_TKN_DATA_RSP_REJ_CRC] k
  end.

Definition card_rw (x : Z) (k : card) : Z * card :=
  if c_sel k then
    match c_out k with
    | o :: out => (o, {| c_chip := c_chip k; c_phase := c_phase k; c_sel := true; c_out := out; c_in := c_in k |})
    | [] =>
        match c_phase k with
        | Reading (o :: rest) bs =>
            let data := take (Z.to_nat (Z.min (zlen (o :: rest)) bs)) (o :: rest) in
            (SDIO_SPI_TKN_READ_SINGLE_WRITE,
             {| c_chip := c_chip k; c_phase := Reading (drop (length data) (o :: rest)) bs; c_sel := true;
                c_out := data ++ crc_octets data; c_in := [] |})
        | _ => (255, feed x k)
        end
    end
  else (255, k).

Definition finished (p : phase) : bool :=
  match p with Idle => true | Reading rest _ => bool_decide (rest = []) | Writing _ blocks _ _ => bool_decide (blocks = 0%nat) end.

Definition card_cs (sel : bool) (k : card) : card :=
  {| c_chip := c_chip k; c_phase := if negb sel && finished (c_phase k) && c_sel k then Idle else c_phase k; c_sel := sel; c_out := []; c_in := [] |}.

Fixpoint card_read (n : nat) (k : card) : bytes * card :=
  match n with
  | O => ([], k)
  | S n => let '(o, k) := card_rw 255 k in let '(l, k) := card_read n k in (o :: l, k)
  end.

Fixpoint card_write (l : bytes) (k : card) : card :=
  match l with [] => k | x :: l => card_write l (snd (card_rw x k)) end.

#[export] Instance card_bus : SpiBus card :=
  {| spi_rw := card_rw; spi_read_buf := card_read; spi_write_buf := card_write; spi_cs := card_cs |}.

(** *** The laws *)

Definition mem_ok (c : chip) : Prop := forall x, is_u8 (mem c x).

Definition phase_ok (p : phase) : Prop :=
  match p with
  | Idle => True
  | Reading rest _ => is_bytes rest
  | Writing _ _ _ tkn => tkn = SDIO_SPI_TKN_MULTI_WRITE \/ tkn = SDIO_SPI_TKN_READ_SINGLE_WRITE
  end.

Definition at_ (p : phase) (c : chip) (sel : bool) : card :=
  {| c_chip := c; c_phase := p; c_sel := sel; c_out := []; c_in := [] |}.

Definition card_st (p : phase) (c : chip) (sel : bool) (k : card) : Prop := k = at_ p c sel /\ mem_ok c /\ phase_ok p.

Lemma chip_read_bytes c a n : mem_ok c -> is_bytes (chip_read c a n).
Proof. intros H. apply Forall_fmap, Forall_true. intros i. apply H. Qed.

(** A queued answer is sent octet by octet. *)
Lemma card_read_out l out k :
  c_sel k = true -> c_out k = l ++ out ->
  card_read (length l) k = (l, {| c_chip := c_chip k; c_phase := c_phase k; c_sel := true; c_out := out; c_in := c_in k |}).
Proof.
  revert k. induction l as [|o l IH]; intros k Hs Ho; cbn [length card_read].
  { destruct k; cbn in *. by subst. }
  unfold card_rw. rewrite Hs, Ho. cbn [app]. by rewrite IH.
Qed.

Definition idle_in (l : bytes) (c : chip) : card := set_in l (at_ Idle c true).

Lemma feed_idle l x c : (l = [] -> x <> 255) -> (length l < 5)%nat -> snd (card_rw x (idle_in l c)) = idle_in (l ++ [x]) c.
Proof.
  intros Hx Hl. cbn. rewrite decide_False by (intros [? ?]; by apply Hx).
  destruct l as [|? [|? [|? [|? [|? ?]]]]]; try done. cbn in Hl. lia.
Qed.

Lemma frame_run cmd arg c : cmd = 52 \/ cmd = 53 -> is_u32 arg ->
  exists l, card_write (frame cmd arg) (at_ Idle c true) = run cmd arg (idle_in l c).
Proof.
  intros Hc Ha. unfold frame, enc_be32. set (t := crc7_ref _ _ * 2 + 1). cbn [app card_write].
  change (at_ Idle c true) with (idle_in [] c). rewrite feed_idle; [|intros _; lia|cbn; lia].
  do 4 (rewrite feed_idle; [|done|cbn; lia]). cbn [app]. eexists.
  cbn [card_rw idle_in at_ set_in c_sel c_out c_phase feed c_in snd app]. rewrite decide_False by (by intros [? _]).
  rewrite decide_True by done. rewrite be32_enc. by replace (64 + cmd - 64) with cmd by lia.
Qed.

(** The fields of an argument. *)
Lemma arg52_decode f a v : f = 1 \/ f = 2 -> 0 <= a < 2 ^ 17 -> is_u8 v ->
  arg52 f a v / 2 ^ 28 mod 8 = f /\ arg52 f a v / 2 ^ 9 mod 2 ^ 17 = a /\ arg52 f a v mod 2 ^ 8 = v.
Proof. unfold arg52. intros. zlia. Qed.

Lemma arg53_decode (w b : bool) f a n : f = 1 \/ f = 2 -> 0 <= a < 2 ^ 17 -> 0 <= n < 2 ^ 9 ->
  let g := arg53 w f b a n in
  g / 2 ^ 31 mod 2 = Z.b2z w /\ g / 2 ^ 28 mod 8 = f /\ g / 2 ^ 27 mod 2 = Z.b2z b /\ g / 2 ^ 9 mod 2 ^ 17 = a /\ g mod 2 ^ 9 = n.
Proof. unfold arg53. intros. destruct w, b; cbn [Z.b2z]; zlia. Qed.

(** After a command the answer is two octets 0. *)
Lemma answer_polls c p l k : k = answer c p [0; 0] (idle_in l c) ->
  exists d2, polls (fun x => x <> 255) 0 k 0 d2 /\ spi_rw 255 d2 = (0, at_ p c true).
Proof. intros ->. eexists. split; [by constructor|]. reflexivity. Qed.

(** A card that takes in a block: [l] of it so far. *)
Definition block_in (l : bytes) (c : chip) (a : Z) (blocks : nat) (size tkn : Z) : card :=
  set_in l (at_ (Writing a (S blocks) size tkn) c true).

Lemma feed_block l x c a blocks size tkn : (l = [] -> x <> 255) -> zlen l + 1 < size + 3 ->
  snd (card_rw x (block_in l c a blocks size tkn)) = block_in (l ++ [x]) c a blocks size tkn.
Proof.
  intros Hx Hl. cbn. rewrite decide_False by (intros [? ?]; by apply Hx). rewrite decide_True; [done|].
  rewrite length_app. cbn. lia.
Qed.

Lemma write_block d : forall l c a blocks size tkn, l <> [] -> zlen l + zlen d < size + 3 ->
  card_write d (block_in l c a blocks size tkn) = block_in (l ++ d) c a blocks size tkn.
Proof.
  induction d as [|x d IH]; intros l c a blocks size tkn Hl Hs; cbn [card_write]; [by rewrite app_nil_r|]. cbn [length] in Hs.
  rewrite feed_block by (done || lia). rewrite IH; [by rewrite <- app_assoc|by destruct l|rewrite length_app; cbn; lia].
Qed.

Lemma last_octet data c a blocks size tkn : zlen data = size ->
  snd (card_rw (crc_ref 0 data mod 256) (block_in (tkn :: data ++ [crc_ref 0 data / 256]) c a blocks size tkn)) =
    answer (chip_write c a data) (Writing (a + size) blocks size tkn) [SDIO_SPI_TKN_DATA_RSP_ACCEPTED] (block_in [] c a blocks size tkn).
Proof.
  intros Hs. cbn [card_rw block_in set_in at_ c_sel c_out c_phase feed c_in snd c_chip].
  rewrite decide_False by (by intros [? _]). cbn [app drop]. rewrite <- app_assoc. cbn [app].
  rewrite decide_False by (cbn [length]; rewrite length_app; cbn [length]; lia). rewrite drop_0, take_app_length' by lia. by rewrite decide_True.
Qed.

Lemma law_block_in c k a blocks size tkn data :
  card_st (Writing a (S blocks) size tkn) c true k -> zlen data = size -> is_bytes data ->
  let crc := crc_ref 0 data in
  exists n d1 m d2, (n < 200)%nat /\ (m < 4)%nat /\
    polls (fun x => x = 255) n k 255 d1 /\
    polls (fun x => x <> 255) m
      (snd (spi_rw (crc mod 256) (snd (spi_rw (crc / 256) (spi_write_buf data (snd (spi_rw tkn d1)))))))
      SDIO_SPI_TKN_DATA_RSP_ACCEPTED d2 /\
    card_st (Writing (a + size) blocks size tkn) (chip_write c a data) true d2.
Proof.
  intros (-> & Hm & Ht) Hs Hb crc. exists 0%nat, (block_in [] c a blocks size tkn), 0%nat, (at_ (Writing (a + size) blocks size tkn) (chip_write c a data) true).
  split; [lia|]. split; [lia|]. split; [by constructor|]. split.
  - cbn [spi_rw spi_write_buf card_bus]. rewrite feed_block by (destruct Ht as [-> | ->]; cbn; lia || done). cbn [app].
    rewrite write_block by (done || cbn; lia). rewrite feed_block by (done || cbn [app length]; rewrite ?length_app; lia).
    cbn [app]. unfold crc. rewrite last_octet by done. by constructor.
  - split; [done|]. split; [|exact Ht]. intros x. cbn. case_decide; [|apply Hm].
    destruct (data !! Z.to_nat (x - a)) as [y|] eqn:E; [|apply Hm]. by eapply Forall_lookup_1 in E.
Qed.

Lemma law_block_out c k rest bs :
  card_st (Reading rest bs) c true k -> rest <> [] -> 0 < bs ->
  let size := Z.to_nat (Z.min (zlen rest) bs) in
  let crc := crc_ref 0 (take size rest) in
  exists n d1 d2 d3 d4, (n < 200)%nat /\ is_bytes (take size rest) /\
    polls (fun x => x = SDIO_SPI_TKN_READ_SINGLE_WRITE) n k SDIO_SPI_TKN_READ_SINGLE_WRITE d1 /\
    spi_read_buf size d1 = (take size rest, d2) /\
    spi_rw 255 d2 = (crc / 256, d3) /\ spi_rw 255 d3 = (crc mod 256, d4) /\
    card_st (Reading (drop size rest) bs) c true d4.
Proof.
  intros (-> & Hm & Hb) Hne Hbs size crc. destruct rest as [|o rest]; [done|].
  assert (Hl : length (take size (o :: rest)) = size) by (rewrite length_take; unfold size; lia).
  exists 0%nat. eexists _, _, _, _. split; [lia|]. split; [by apply Forall_take|]. split.
  { apply polls_now; [|done]. cbn [spi_rw card_bus card_rw at_ c_sel c_out c_phase]. reflexivity. }
  fold size. cbn [spi_read_buf spi_rw card_bus]. rewrite Hl. split.
  { rewrite <- Hl at 1. by apply card_read_out. }
  split; [reflexivity|]. split; [reflexivity|]. split; [done|]. split; [done|]. by apply Forall_drop.
Qed.

Lemma law_cmd52 c k f a v :
  card_st Idle c true k -> f = 1 \/ f = 2 -> 2 ^ 16 <= a < 2 ^ 17 -> is_u8 v ->
  exists n d1 m d2 r d3, (n < 200)%nat /\ (m < 200)%nat /\
    polls (fun x => x = 255) n k 255 d1 /\
    polls (fun x => x <> 255) m (spi_write_buf (frame 52 (arg52 f a v)) d1) 0 d2 /\
    spi_rw 255 d2 = (r, d3) /\ card_st Idle (reg_write f a v c) false (spi_cs false d3).
Proof.
  intros (-> & Hm & _) Hf Ha Hv. destruct (frame_run 52 (arg52 f a v) c) as [l El]; [by left|by apply arg52_u32; (done || lia)|].
  destruct (arg52_decode f a v Hf ltac:(lia) Hv) as (E1 & E2 & E3).
  destruct (answer_polls (reg_write f a v c) Idle l (card_write (frame 52 (arg52 f a v)) (at_ Idle c true))) as (d2 & Hp & Er).
  { rewrite El. unfold run. rewrite decide_True by done. by rewrite E1, E2, E3. }
  exists 0%nat, (at_ Idle c true), 0%nat, d2, 0, (at_ Idle (reg_write f a v c) true).
  split; [lia|]. split; [lia|]. split; [by constructor|]. split; [exact Hp|]. split; [exact Er|]. split; [done|]. split; [|done].
  unfold reg_write. repeat case_decide; done.
Qed.

Lemma cs_deselect p c : finished p = false -> card_cs false (at_ p c true) = at_ p c false.
Proof. intros H. unfold card_cs, at_. cbn [c_phase c_chip c_sel negb andb]. by rewrite H. Qed.

Lemma law_cmd53 c k (write block : bool) f a count :
  card_st Idle c true k -> transfer_ok f block a count ->
  exists n d1 m d2 d3, (n < 200)%nat /\ (m < 200)%nat /\
    polls (fun x => x = 255) n k 255 d1 /\
    polls (fun x => x <> 255) m (spi_write_buf (frame 53 (arg53 write f block a count)) d1) 0 d2 /\
    spi_rw 255 d2 = (0, d3) /\
    card_st (if write
        then Writing (base c f * 2 ^ 16 + a) (if block then Z.to_nat count else 1)
               (if block then fn_block f else count) (start_token block count)
        else Reading (chip_read c (base c f * 2 ^ 16 + a) (Z.to_nat (total f block count))) (fn_block f))
       c false (spi_cs false d3).
Proof.
  intros (-> & Hm & _) (Hf & Hc & _ & Ha & Ht).
  assert (Hpos : 0 < total f block count) by (unfold total, fn_block; destruct block; [case_decide; lia|lia]).
  destruct (frame_run 53 (arg53 write f block a count) c) as [l El]; [by right|by apply arg53_u32; (done || lia)|].
  destruct (arg53_decode write block f a count Hf ltac:(lia) ltac:(lia)) as (E1 & E2 & E3 & E4 & E5).
  set (p := if write then _ else _).
  destruct (answer_polls c p l (card_write (frame 53 (arg53 write f block a count)) (at_ Idle c true))) as (d2 & Hp & Er).
  { rewrite El. unfold run. rewrite (decide_False (P := 53 = 52)), decide_True by done. rewrite E1, E2, E3, E4, E5.
    replace (bool_decide (Z.b2z block = 1)) with block by by destruct block. by destruct write. }
  exists 0%nat, (at_ Idle c true), 0%nat, d2, (at_ p c true).
  split; [lia|]. split; [lia|]. split; [by constructor|]. split; [exact Hp|]. split; [exact Er|].
  assert (Hfin : finished p = false /\ phase_ok p).
  { unfold p. destruct write; cbn [finished phase_ok].
    - split; [apply bool_decide_false; destruct block; lia|]. unfold start_token. destruct (_ && _); [by left|by right].
    - split; [apply bool_decide_false|by apply chip_read_bytes]. intros H%(f_equal length). rewrite length_chip_read in H. cbn in H. lia. }
  destruct Hfin as [Hfin Hok]. split; [by apply cs_deselect|done].
Qed.

#[export] Instance card_laws : SdioCard card.
Proof.
  refine {| st := card_st; card_cmd52 := law_cmd52; card_cmd53 := law_cmd53; card_block_out := law_block_out; card_block_in := law_block_in |}.
  - intros p c k (-> & Hm & Hp). split; [|done]. done.
  - intros c k bs (-> & Hm & Hp). split; [|done]. cbn. done.
  - intros c k a size tkn (-> & Hm & Hp) d0.
    assert (Hd : d0 = at_ (Writing a 0 size tkn) c true) by (unfold d0; by case_decide).
    exists 0%nat, (at_ (Writing a 0 size tkn) c true). split; [lia|]. rewrite Hd. split; [by constructor|]. by split.
Defined.
End SpiCard.

(** ** Properties *)

Module SdioLink.
Import SdioTransfer SpiCard.

Section Link.
  Context {D : Type} `{!SpiBus D, !SdioCard D}.

Lemma write_multi_ok c d addr data :
  st Idle c false d -> is_u32 addr -> is_bytes data -> 0 < zlen data -> zlen data mod 4 = 0 -> addr + zlen data <= 0xFFFF0000 ->
  exists c' d', sdio_spi_write_multi_byte addr data (zlen data) d = Ok (RC_SUCCESS, d') /\ st Idle c' false d' /\ c' ≡ chip_write c addr data.
Proof.
  intros Hst Ha Hb Hl H4 Hw. unfold sdio_spi_write_multi_byte.
  rewrite (Z.land_ones (zlen data) 2 ltac:(lia) : Z.land (zlen data) 3 = zlen data mod 2 ^ 2). change (2 ^ 2) with 4. rewrite decide_False by lia.
  destruct (write_multi_loop_ok data (S (Z.to_nat (zlen data))) c d (-1) addr 0 (zlen data) Hst Ha) as (c1 & d1 & E & H1 & E1); try done; try lia.
  exists c1, d1. rewrite E, decide_True by lia. split_and!; [done|done|]. rewrite E1. unfold window.
  change (Z.to_nat 0) with 0%nat. rewrite drop_0, Nat2Z.id. by rewrite firstn_all.
Qed.

Lemma read_le32_ok c d addr :
  st Idle c false d -> is_u32 addr -> addr mod 2 ^ 16 + 4 <= 2 ^ 16 ->
  exists c' d', sdio_spi_read_le32 addr true d =
      Ok (RC_SUCCESS, Some (pack_le32 (mem c addr) (mem c (addr + 1)) (mem c (addr + 2)) (mem c (addr + 3))), d') /\
    st Idle c' false d' /\ c' ≡ c.
Proof.
  intros Hst Ha Hw. unfold sdio_spi_read_le32. cbn [negb]. change SDIO_FUNCTION_1 with (fn 1).
  destruct (window_ok c d addr 1 Hst) as (c1 & d1 & -> & H1 & E1 & Eb); [by left|done|]. cbn [mbind outcome_bind].
  rewrite decide_False by (intros H; by apply H).
  assert (H8 : 128 * fn_block 1 = 1024) by done.
  destruct (cmd53_read_ok c1 1 addr (replicate 4 0) 0 4 d1 H1) as (d2 & E & H2); try done; try (by left); try (cbn; lia).
  rewrite Eb in E. rewrite (chip_read_ext c1 c) in E by done. rewrite E. cbn [mbind outcome_bind].
  rewrite decide_False by (intros H; by apply H). exists c1, d2. split; [|done]. 
  change (splice _ _ _) with [mem c (addr + 0); mem c (addr + 1); mem c (addr + 2); mem c (addr + 3)]. by rewrite Z.add_0_r.
Qed.
End Link.

(** C26: [sdio_spi_write_multi_byte] on any conforming card, for every length that is
    a positive multiple of four (it refuses the others), wherever the data start and
    however many windows they cross, as long as they end at or below 0xFFFF0000
    ([last_window_overrun] is beyond): it returns success and the chip's memory is
    what it was with the data at the address. *)
Theorem write_updates_chip {D} `{!SpiBus D, !SdioCard D} c d addr data :
  st Idle c false d -> is_u32 addr -> is_bytes data -> 0 < zlen data -> zlen data mod 4 = 0 -> addr + zlen data <= 0xFFFF0000 ->
  exists c' d', sdio_spi_write_multi_byte addr data (zlen data) d = Ok (RC_SUCCESS, d') /\ st Idle c' false d' /\
    forall x, mem c' x = mem (chip_write c addr data) x.
Proof. exact (write_multi_ok c d addr data). Qed.

(** C25: what [sdio_spi_write_multi_byte] wrote, [sdio_spi_read_multi_byte] reads
    back into the first octets of the buffer, on any conforming card, for data of a
    positive length that is a multiple of four, ending at or below 0xFFFF0000, whose
    parts in one window have at least eight octets and less than a whole window
    ([four_octets_read_outside], [full_window_not_read]). *)
Theorem write_then_read {D} `{!SpiBus D, !SdioCard D} c d addr data buf :
  st Idle c false d -> is_u32 addr -> is_bytes data -> 0 < zlen data -> zlen data mod 4 = 0 -> addr + zlen data <= 0xFFFF0000 ->
  readable addr (zlen data) -> zlen data <= zlen buf ->
  exists d1 d2 c2, sdio_spi_write_multi_byte addr data (zlen data) d = Ok (RC_SUCCESS, d1) /\
    sdio_spi_read_multi_byte addr buf (zlen data) d1 = Ok (RC_SUCCESS, splice 0 data buf, d2) /\ st Idle c2 false d2.
Proof.
  intros Hst Ha Hb Hl H4 Hw Hr Hbuf. destruct (write_multi_ok c d addr data) as (c1 & d1 & E1 & H1 & Ec); try done.
  destruct (read_multi_ok c1 d1 addr buf (zlen data)) as (c2 & d2 & E2 & H2 & _); try done.
  exists d1, d2, c2. split_and!; [done| |done]. rewrite E2. by rewrite (chip_read_ext c1 _ _ _ Ec), Nat2Z.id, chip_read_write.
Qed.

(** *** Examples and what fails *)

Definition lit_data (n : nat) : bytes := Z.of_nat <$> seq 1 n.
Definition blank : chip := {| mem := fun _ => 0; base := fun _ => 0 |}.
Definition new_card : card := at_ Idle blank false.

Lemma new_card_st : card_st Idle blank false new_card.
Proof. split; [done|]. split; [|done]. intros x. by compute. Qed.

Lemma write_updates_chip_witness :
  exists c' d', sdio_spi_write_multi_byte 0xFFFC (lit_data 12) 12 new_card = Ok (RC_SUCCESS, d') /\ st Idle c' false d' /\
    forall x, mem c' x = mem (chip_write blank 0xFFFC (lit_data 12)) x.
Proof. apply (write_updates_chip (D := card) blank new_card 0xFFFC (lit_data 12)); [exact new_card_st|by_decide..]. Defined.

Lemma write_then_read_witness :
  exists d1 d2 c2, sdio_spi_write_multi_byte 0xFFF4 (lit_data 24) 24 new_card = Ok (RC_SUCCESS, d1) /\
    sdio_spi_read_multi_byte 0xFFF4 (replicate 30 9) 24 d1 = Ok (RC_SUCCESS, splice 0 (lit_data 24) (replicate 30 9), d2) /\ st Idle c2 false d2.
Proof. apply (write_then_read (D := card) blank new_card 0xFFF4 (lit_data 24) (replicate 30 9)); [exact new_card_st|by_decide..]. Defined.

(** What was written is what a read of 32 bits gives. *)
Lemma le32_example :
  match sdio_spi_write_multi_byte 0x20100 [0x78; 0x56; 0x34; 0x12] 4 new_card with
  | Ok (_, d) => match sdio_spi_read_le32 0x20100 true d with Ok (r, v, _) => Some (r, v) | _ => None end
  | _ => None
  end = Some (RC_SUCCESS, Some 0x12345678).
Proof. vm_compute. reflexivity. Qed.

(** A read of a whole window (128 blocks of 512 octets) asks for the data and then
    takes none of them: the count of octets does not fit 16 bits. *)
Lemma full_window_not_read {D} `{!SpiBus D} buf off bs d :
  morse_cmd53_get_data (128 * 512) buf off bs d = Ok (RC_SUCCESS, buf, spi_cs false (spi_cs true d)).
Proof. done. Qed.

(** A read of four octets looks at the eight octets from the start of the buffer. *)
Lemma four_octets_read_outside :
  sdio_spi_read_multi_byte 0x100 (replicate 4 9) 4 new_card = Fail OutOfBounds.
Proof. vm_compute. reflexivity. Qed.

(** In the last window the boundary wraps to 0 and more octets are sent than there are. *)
Lemma last_window_overrun : chunk 0xFFFF0000 8 = 65536 /\ sdio_spi_write_multi_byte 0xFFFF0000 (lit_data 8) 8 new_card = Fail OutOfBounds.
Proof. split; vm_compute; reflexivity. Qed.

(** A bus that plays back what it was given. *)
Definition script_rw (x : Z) (l : bytes) : Z * bytes := match l with [] => (255, []) | y :: l => (y, l) end.
Definition script_bus : SpiBus bytes :=
  {| spi_rw := script_rw; spi_read_buf := fun n l => (take n l, drop n l); spi_write_buf := fun w l => drop (length w) l; spi_cs := fun _ l => l |}.

(** Four commands accepted, then the data refused for their checksum. *)
Definition refusal : bytes :=
  let cmd := [255] ++ replicate 6 255 ++ [0; 0] in
  cmd ++ cmd ++ cmd ++ cmd ++ [255] ++ replicate 7 255 ++ [SDIO_SPI_TKN_DATA_RSP_REJ_CRC].

Lemma write_error_lost :
  @sdio_spi_write_multi_byte _ script_bus 0x100 (lit_data 4) 4 refusal = Ok (RC_SUCCESS, []) /\
  @morse_cmd53_write _ script_bus SDIO_FUNCTION_2 0x100 (lit_data 4) 0 4 (drop 27 refusal) = Ok (RC_INVALID_RESPONSE, []).
Proof. vm_compute. done. Qed.
End SdioLink.
