(* ===== verification/S1gTables.v ===== *)
(** The S1G channel tables of the supplicant: [src/utils/morse.c] under
    [framework/src/hostap], lines 33 to 724, entry by entry.

    [struct ah_class] is declared in a header that is not in the repository; its
    members are those the tables set.  [cc_list] is an array of
    [COUNTRY_CODE_MAX] country codes of two characters, as its use requires;
    the entries a table does not set are zero. *)

From S2P Require Import Prelude CStr.

Module S1gTables.

(** ** Types *)

Record s1g_ht_chan_pair := pair_ { s1g_channel : Z; ht_channel : Z; bw : Z }.

(** A country code: its two characters. *)
Definition country : Type := Z * Z.
Definition cc (s : string) : country :=
  match octets_of s with a :: b :: _ => (a, b) | [a] => (a, 0) | [] => (0, 0) end.

Definition COUNTRY_CODE_MAX : nat := 2.

Record ah_class := {
  s1g_freq_start : Z;
  s1g_op_class : Z;
  s1g_op_class_idx : Z;
  global_op_class : Z;
  s1g_width : Z;
  cc_list : list country;
  chans : Z;
}.

#[global] Instance ah_class_eq_dec : EqDecision ah_class.
Proof. solve_decision. Defined.

Definition S1G_CHAN_ENABLED_FLAG (ch : Z) : Z := Z.shiftl 1 ch.
Definition flags (l : list Z) : Z := foldr (fun c x => Z.lor (S1G_CHAN_ENABLED_FLAG c) x) 0 l.
Definition codes (l : list string) : list country := take COUNTRY_CODE_MAX ((cc <$> l) ++ replicate COUNTRY_CODE_MAX (0, 0)).

(** ** Offsets and overlaps *)

Definition vht80_chans : list Z := [42; 58; 106; 122; 155; 171].
Definition vht160_chans : list Z := [50; 114; 163].
Definition ht_40_pri_1mhz_offset : list Z := [(-2); 2].
Definition vht_80_pri_1mhz_offset : list Z := [(-6); (-2); 2; 6].
Definition vht_160_pri_1mhz_offset : list Z := [(-14); (-10); (-6); (-2); 2; 6; 10; 14].
Definition s1g_pri_1mhz_offset_default : list Z := [(-1); 1].
Definition s1g_pri_1mhz_offset_jp : list Z := [(-13); (-11)].
Definition s1g_overlap_chan_jp : list Z := [4; 8; 38].

(** ** Channel maps *)

Definition s1g_ht_chan_pairs_default : list s1g_ht_chan_pair :=
  [pair_ (-1) (-1) (-1); pair_ 1 132 1; pair_ 2 134 2; pair_ 3 136 1;
   pair_ 4 (-1) (-1); pair_ 5 36 1; pair_ 6 38 2; pair_ 7 40 1;
   pair_ 8 42 4; pair_ 9 44 1; pair_ 10 46 2; pair_ 11 48 1;
   pair_ 12 50 8; pair_ 13 52 1; pair_ 14 54 2; pair_ 15 56 1;
   pair_ 16 58 4; pair_ 17 60 1; pair_ 18 62 2; pair_ 19 64 1;
   pair_ 20 (-1) 16; pair_ 21 100 1; pair_ 22 102 2; pair_ 23 104 1;
   pair_ 24 106 4; pair_ 25 108 1; pair_ 26 110 2; pair_ 27 112 1;
   pair_ 28 114 8; pair_ 29 116 1; pair_ 30 118 2; pair_ 31 120 1;
   pair_ 32 122 4; pair_ 33 124 1; pair_ 34 126 2; pair_ 35 128 1;
   pair_ 36 (-1) (-1); pair_ 37 149 1; pair_ 38 151 2; pair_ 39 153 1;
   pair_ 40 155 4; pair_ 41 157 1; pair_ 42 159 2; pair_ 43 161 1;
   pair_ 44 163 8; pair_ 45 165 1; pair_ 46 167 2; pair_ 47 169 1;
   pair_ 48 171 4; pair_ 49 173 1; pair_ 50 175 2; pair_ 51 177 1].

Definition s1g_ht_chan_pairs_jp : list s1g_ht_chan_pair :=
  [pair_ (-1) (-1) (-1); pair_ 1 (-1) (-1); pair_ 2 38 2; pair_ 3 (-1) (-1);
   pair_ 4 54 2; pair_ 5 (-1) (-1); pair_ 6 46 2; pair_ 7 (-1) (-1);
   pair_ 8 62 2; pair_ 9 108 1; pair_ 10 (-1) (-1); pair_ 11 (-1) (-1);
   pair_ 12 (-1) (-1); pair_ 13 36 1; pair_ 14 (-1) (-1); pair_ 15 40 1;
   pair_ 16 (-1) (-1); pair_ 17 44 1; pair_ 18 (-1) (-1); pair_ 19 48 1;
   pair_ 20 (-1) (-1); pair_ 21 64 1; pair_ 22 (-1) (-1); pair_ 23 (-1) (-1);
   pair_ 24 (-1) (-1); pair_ 25 (-1) (-1); pair_ 26 (-1) (-1); pair_ 27 (-1) (-1);
   pair_ 28 (-1) (-1); pair_ 29 (-1) (-1); pair_ 30 (-1) (-1); pair_ 31 (-1) (-1);
   pair_ 32 (-1) (-1); pair_ 33 (-1) (-1); pair_ 34 (-1) (-1); pair_ 35 (-1) (-1);
   pair_ 36 42 4; pair_ 37 (-1) (-1); pair_ 38 58 4; pair_ 39 (-1) (-1);
   pair_ 40 (-1) (-1); pair_ 41 (-1) (-1); pair_ 42 (-1) (-1); pair_ 43 (-1) (-1);
   pair_ 44 (-1) (-1); pair_ 45 (-1) (-1); pair_ 46 (-1) (-1); pair_ 47 (-1) (-1);
   pair_ 48 (-1) (-1); pair_ 49 (-1) (-1); pair_ 50 (-1) (-1); pair_ 51 (-1) (-1)].

(** ** Countries *)

(** [enum morse_dot11ah_region]; [ah_country] is indexed by it. *)
Inductive morse_dot11ah_region :=
| MORSE_AU | MORSE_CA | MORSE_EU | MORSE_GB | MORSE_IN | MORSE_JP | MORSE_KR | MORSE_NZ | MORSE_SG | MORSE_US.

Definition ah_country : list (morse_dot11ah_region * country) :=
  [(MORSE_AU, cc "AU"); (MORSE_CA, cc "CA"); (MORSE_EU, cc "EU"); (MORSE_GB, cc "GB"); (MORSE_IN, cc "IN"); (MORSE_JP, cc "JP"); (MORSE_KR, cc "KR"); (MORSE_NZ, cc "NZ"); (MORSE_SG, cc "SG"); (MORSE_US, cc "US")].

(** ** Operating classes *)

Definition us1 : ah_class := {|
  s1g_freq_start := 902000; s1g_op_class := 1; s1g_op_class_idx := 1;
  global_op_class := 68; s1g_width := 1; cc_list := codes ["US"; "CA"];
  chans := flags [1; 3; 5; 7; 9; 11; 13; 15; 17; 19; 21; 23; 25; 27; 29; 31; 33; 35; 37; 39; 41; 43; 45;
    47; 49; 51] |}.

Definition us2 : ah_class := {|
  s1g_freq_start := 902000; s1g_op_class := 2; s1g_op_class_idx := 2;
  global_op_class := 69; s1g_width := 2; cc_list := codes ["US"; "CA"];
  chans := flags [2; 6; 10; 14; 18; 22; 26; 30; 34; 38; 42; 46; 50] |}.

Definition us3 : ah_class := {|
  s1g_freq_start := 902000; s1g_op_class := 3; s1g_op_class_idx := 3;
  global_op_class := 70; s1g_width := 4; cc_list := codes ["US"; "CA"];
  chans := flags [8; 16; 24; 32; 40; 48] |}.

Definition us4 : ah_class := {|
  s1g_freq_start := 902000; s1g_op_class := 4; s1g_op_class_idx := 4;
  global_op_class := 71; s1g_width := 8; cc_list := codes ["US"; "CA"];
  chans := flags [12; 28; 44] |}.

Definition eu6 : ah_class := {|
  s1g_freq_start := 863000; s1g_op_class := 6; s1g_op_class_idx := 6;
  global_op_class := 66; s1g_width := 1; cc_list := codes ["EU"; "GB"];
  chans := flags [1; 3; 5; 7; 9] |}.

Definition eu7 : ah_class := {|
  s1g_freq_start := 863000; s1g_op_class := 7; s1g_op_class_idx := 7;
  global_op_class := 67; s1g_width := 2; cc_list := codes ["EU"; "GB"];
  chans := flags [2; 6] |}.

Definition jp8 : ah_class := {|
  s1g_freq_start := 916500; s1g_op_class := 8; s1g_op_class_idx := 8;
  global_op_class := 73; s1g_width := 1; cc_list := codes ["JP"];
  chans := flags [9; 13; 15; 17; 19; 21] |}.

Definition jp9 : ah_class := {|
  s1g_freq_start := 922500; s1g_op_class := 9; s1g_op_class_idx := 9;
  global_op_class := 64; s1g_width := 2; cc_list := codes ["JP"];
  chans := flags [2; 6] |}.

Definition jp10 : ah_class := {|
  s1g_freq_start := 922500; s1g_op_class := 10; s1g_op_class_idx := 10;
  global_op_class := 64; s1g_width := 2; cc_list := codes ["JP"];
  chans := flags [4; 8] |}.

Definition jp11 : ah_class := {|
  s1g_freq_start := 906500; s1g_op_class := 11; s1g_op_class_idx := 11;
  global_op_class := 65; s1g_width := 4; cc_list := codes ["JP"];
  chans := flags [36] |}.

Definition jp12 : ah_class := {|
  s1g_freq_start := 906500; s1g_op_class := 12; s1g_op_class_idx := 12;
  global_op_class := 65; s1g_width := 4; cc_list := codes ["JP"];
  chans := flags [38] |}.

Definition kr14 : ah_class := {|
  s1g_freq_start := 917500; s1g_op_class := 14; s1g_op_class_idx := 14;
  global_op_class := 74; s1g_width := 1; cc_list := codes ["KR"];
  chans := flags [1; 3; 5; 7; 9; 11] |}.

Definition kr15 : ah_class := {|
  s1g_freq_start := 917500; s1g_op_class := 15; s1g_op_class_idx := 15;
  global_op_class := 75; s1g_width := 2; cc_list := codes ["KR"];
  chans := flags [2; 6; 10] |}.

Definition kr16 : ah_class := {|
  s1g_freq_start := 917500; s1g_op_class := 16; s1g_op_class_idx := 16;
  global_op_class := 76; s1g_width := 4; cc_list := codes ["KR"];
  chans := flags [8] |}.

Definition sg17 : ah_class := {|
  s1g_freq_start := 863000; s1g_op_class := 17; s1g_op_class_idx := 17;
  global_op_class := 66; s1g_width := 1; cc_list := codes ["SG"];
  chans := flags [7; 9; 11] |}.

Definition sg18 : ah_class := {|
  s1g_freq_start := 902000; s1g_op_class := 18; s1g_op_class_idx := 18;
  global_op_class := 68; s1g_width := 1; cc_list := codes ["SG"];
  chans := flags [37; 39; 41; 43; 45] |}.

Definition sg19 : ah_class := {|
  s1g_freq_start := 863000; s1g_op_class := 19; s1g_op_class_idx := 19;
  global_op_class := 67; s1g_width := 2; cc_list := codes ["SG"];
  chans := flags [10] |}.

Definition sg20 : ah_class := {|
  s1g_freq_start := 902000; s1g_op_class := 20; s1g_op_class_idx := 20;
  global_op_class := 69; s1g_width := 2; cc_list := codes ["SG"];
  chans := flags [38; 42] |}.

Definition sg21 : ah_class := {|
  s1g_freq_start := 902000; s1g_op_class := 21; s1g_op_class_idx := 21;
  global_op_class := 70; s1g_width := 4; cc_list := codes ["SG"];
  chans := flags [40] |}.

Definition au22 : ah_class := {|
  s1g_freq_start := 902000; s1g_op_class := 22; s1g_op_class_idx := 22;
  global_op_class := 68; s1g_width := 1; cc_list := codes ["AU"];
  chans := flags [27; 29; 31; 33; 35; 37; 39; 41; 43; 45; 47; 49; 51] |}.

Definition au23 : ah_class := {|
  s1g_freq_start := 902000; s1g_op_class := 23; s1g_op_class_idx := 23;
  global_op_class := 69; s1g_width := 2; cc_list := codes ["AU"];
  chans := flags [30; 34; 38; 42; 46; 50] |}.

Definition au24 : ah_class := {|
  s1g_freq_start := 902000; s1g_op_class := 24; s1g_op_class_idx := 24;
  global_op_class := 70; s1g_width := 4; cc_list := codes ["AU"];
  chans := flags [32; 40; 48] |}.

Definition au25 : ah_class := {|
  s1g_freq_start := 902000; s1g_op_class := 25; s1g_op_class_idx := 25;
  global_op_class := 71; s1g_width := 8; cc_list := codes ["AU"];
  chans := flags [44] |}.

Definition nz26 : ah_class := {|
  s1g_freq_start := 902000; s1g_op_class := 26; s1g_op_class_idx := 26;
  global_op_class := 68; s1g_width := 1; cc_list := codes ["NZ"];
  chans := flags [27; 29; 31; 33; 35; 37; 39; 41; 43; 45; 47; 49; 51] |}.

Definition nz27 : ah_class := {|
  s1g_freq_start := 902000; s1g_op_class := 27; s1g_op_class_idx := 27;
  global_op_class := 69; s1g_width := 2; cc_list := codes ["NZ"];
  chans := flags [30; 34; 38; 42; 46; 50] |}.

Definition nz28 : ah_class := {|
  s1g_freq_start := 902000; s1g_op_class := 28; s1g_op_class_idx := 28;
  global_op_class := 70; s1g_width := 4; cc_list := codes ["NZ"];
  chans := flags [32; 40; 48] |}.

Definition nz29 : ah_class := {|
  s1g_freq_start := 902000; s1g_op_class := 29; s1g_op_class_idx := 29;
  global_op_class := 71; s1g_width := 8; cc_list := codes ["NZ"];
  chans := flags [44] |}.

Definition eu30 : ah_class := {|
  s1g_freq_start := 901400; s1g_op_class := 30; s1g_op_class_idx := 30;
  global_op_class := 77; s1g_width := 1; cc_list := codes ["ZZ"];
  chans := flags [31; 33; 35] |}.

Definition in31 : ah_class := {|
  s1g_freq_start := 863000; s1g_op_class := 6; s1g_op_class_idx := 31;
  global_op_class := 66; s1g_width := 1; cc_list := codes ["IN"];
  chans := flags [5; 7; 9] |}.

Definition s1g_op_classes : list (option ah_class) :=
  [None; Some us1; Some us2; Some us3; Some us4; None; Some eu6; Some eu7;
   Some jp8; Some jp9; Some jp10; Some jp11; Some jp12; None; Some kr14; Some kr15;
   Some kr16; Some sg17; Some sg18; Some sg19; Some sg20; Some sg21; Some au22; Some au23;
   Some au24; Some au25; Some nz26; Some nz27; Some nz28; Some nz29; Some eu30; Some in31].

Definition S1G_OP_CLASSES_LEN : Z := zlen s1g_op_classes.

End S1gTables.
