(* ===== verification/S1gChan.v ===== *)
(** S1G channels, operating classes and frequencies in the supplicant: the
    conversions of [src/utils/morse.c] under [framework/src/hostap] that need no
    configuration structure, and [ieee80211_channel_to_frequency] of
    [src/utils/common.c].

    The static pointer to the channel map is an argument of what reads it; it is
    never NULL, since both tables [morse_set_s1g_ht_chan_pairs] chooses from
    exist.  A country code is given by its two characters, [None] for NULL.  A
    loop that returns the first entry with a property is [List.find]; printing is
    left out. *)

From S2P Require Import Prelude CStr RegDb RegDbDef S1gTables.

Module S1gChan.
Import S1gTables.

(** ** Constants *)

Definition MORSE_S1G_RETURN_ERROR : Z := -1.
Definition MORSE_INVALID_CHANNEL : Z := -2.
Definition MORSE_SUCCESS : Z := 0.
Definition ENOENT : Z := 2.
Definition EINVAL : Z := 22.
Definition START_FREQ_5GHZ : Z := 5000.
Definition END_FREQ_5GHZ : Z := 5900.
Definition S1G_CHAN_SEP_KHZ : Z := 500.
Definition S1G_CHAN_COUNT : Z := 52.
Definition S1G_CHAN_MIN : Z := 1.
Definition S1G_CHAN_MAX : Z := S1G_CHAN_COUNT - 1.
Definition MORSE_JP_HT20_NON_OVERLAP_CHAN_OFFSET : Z := 12.
Definition MORSE_JP_HT20_NON_OVERLAP_CHAN_START : Z := 50.
Definition MORSE_JP_HT20_NON_OVERLAP_CHAN_END : Z := 60.
Definition MORSE_JP_S1G_NON_OVERLAP_CHAN : Z := 21.
Definition MIN_S1G_FREQ_KHZ : Z := 750000.
Definition MAX_S1G_FREQ_KHZ : Z := 950000.
Definition HT_INFO_HT_PARAM_SECONDARY_CHNL_ABOVE : Z := 1.
Definition HT_INFO_HT_PARAM_SECONDARY_CHNL_BELOW : Z := 3.

(** The channel numbers from [S1G_CHAN_MIN] below [S1G_CHAN_COUNT], in order. *)
Definition s1g_channels : list Z := seqZ S1G_CHAN_MIN (S1G_CHAN_COUNT - S1G_CHAN_MIN).

(** ** Band frequencies *)

Inductive nl80211_band := NL80211_BAND_2GHZ | NL80211_BAND_5GHZ | NL80211_BAND_60GHZ | NL80211_BAND_6GHZ | NL80211_BAND_S1GHZ | NL80211_BAND_LC.

Definition ieee80211_channel_to_frequency (chan : Z) (band : nl80211_band) : Z :=
  if decide (chan <= 0) then 0
  else
    match band with
    | NL80211_BAND_2GHZ => if decide (chan = 14) then 2484 else if decide (chan < 14) then 2407 + chan * 5 else 0
    | NL80211_BAND_5GHZ => if decide (chan >= 182 /\ chan <= 196) then 4000 + chan * 5 else 5000 + chan * 5
    | NL80211_BAND_6GHZ => if decide (chan = 2) then 5935 else if decide (chan <= 253) then 5950 + chan * 5 else 0
    | NL80211_BAND_60GHZ => if decide (chan < 7) then 56160 + chan * 2160 else 0
    | NL80211_BAND_S1GHZ | NL80211_BAND_LC => 0
    end.

(** ** The channel map *)

(** [strncmp(a, b, COUNTRY_CODE_LEN) == 0] for a code [b] without NUL. *)
Definition same_cc (a b : country) : bool := bool_decide (a.1 = b.1 /\ a.2 = b.2).
Definition is_jp (c : country) : bool := same_cc c (cc "JP").

Definition morse_set_s1g_ht_chan_pairs (c : option country) : list s1g_ht_chan_pair :=
  match c with
  | Some c => if is_jp c then s1g_ht_chan_pairs_jp else s1g_ht_chan_pairs_default
  | None => s1g_ht_chan_pairs_default
  end.

(** [s1g_ht_chan_pairs[c]]; every index is between 0 and 51. *)
Definition entry (pairs : list s1g_ht_chan_pair) (c : Z) : s1g_ht_chan_pair := nth (Z.to_nat c) pairs (pair_ (-1) (-1) (-1)).

Section Map.
Context (s1g_ht_chan_pairs : list s1g_ht_chan_pair).

Definition morse_s1g_verify_ht_chan_pairs : Z :=
  if forallb (fun c => bool_decide (s1g_channel (entry s1g_ht_chan_pairs c) = c)) s1g_channels then 0 else -1.

Definition morse_ht_chan_to_s1g_chan (ht_chan : Z) : Z :=
  if decide (ht_chan < 0) then MORSE_S1G_RETURN_ERROR
  else
    match List.find (fun i => bool_decide (ht_channel (entry s1g_ht_chan_pairs i) = ht_chan)) s1g_channels with
    | Some i => s1g_channel (entry s1g_ht_chan_pairs i)
    | None => MORSE_S1G_RETURN_ERROR
    end.

Definition HT_FREQ_TO_HT_CHAN (ht_freq : Z) : Z := Z.quot (ht_freq - START_FREQ_5GHZ) 5.

Definition morse_ht_freq_to_s1g_chan (ht_freq : Z) : Z :=
  if decide (ht_freq < START_FREQ_5GHZ \/ ht_freq > END_FREQ_5GHZ) then MORSE_S1G_RETURN_ERROR
  else morse_ht_chan_to_s1g_chan (HT_FREQ_TO_HT_CHAN ht_freq).

Definition morse_s1g_chan_to_ht_chan (s1g_chan : Z) : Z :=
  if decide (s1g_chan < S1G_CHAN_MIN \/ s1g_chan > S1G_CHAN_MAX) then MORSE_S1G_RETURN_ERROR
  else ht_channel (entry s1g_ht_chan_pairs s1g_chan).

Definition morse_s1g_chan_to_bw (s1g_chan : Z) : Z :=
  if decide (s1g_chan < S1G_CHAN_MIN \/ s1g_chan > S1G_CHAN_MAX) then MORSE_S1G_RETURN_ERROR
  else bw (entry s1g_ht_chan_pairs s1g_chan).
End Map.

Fixpoint overlap_loop (l : list Z) (chan primary_chan : Z) : Z :=
  match l with
  | [] => 0
  | x :: l =>
      if decide (chan = x /\ primary_chan <> MORSE_JP_S1G_NON_OVERLAP_CHAN)
      then MORSE_JP_HT20_NON_OVERLAP_CHAN_OFFSET else overlap_loop l chan primary_chan
  end.

Definition morse_ht_chan_offset_jp (chan primary_chan ht : Z) : Z :=
  if decide (ht <> 0) then
    if decide (chan > MORSE_JP_HT20_NON_OVERLAP_CHAN_START /\ chan <= MORSE_JP_HT20_NON_OVERLAP_CHAN_END)
    then MORSE_JP_HT20_NON_OVERLAP_CHAN_OFFSET else 0
  else if decide (chan < S1G_CHAN_MIN \/ chan > S1G_CHAN_MAX) then MORSE_INVALID_CHANNEL
  else overlap_loop s1g_overlap_chan_jp chan primary_chan.

Definition morse_s1g_chan_to_ht20_prim_chan (pairs : list s1g_ht_chan_pair) (s1g_op_channel s1g_prim_1MHz_channel : Z) (c : country) : Z :=
  if is_jp c
  then morse_s1g_chan_to_ht_chan pairs s1g_prim_1MHz_channel + morse_ht_chan_offset_jp s1g_op_channel s1g_prim_1MHz_channel 0
  else morse_s1g_chan_to_ht_chan pairs s1g_prim_1MHz_channel.

Definition morse_cc_get_sec_channel_offset (sec_chan_offset : Z) (c : country) : Z :=
  let offsets := if is_jp c then s1g_pri_1mhz_offset_jp else s1g_pri_1mhz_offset_default in
  if decide (sec_chan_offset = HT_INFO_HT_PARAM_SECONDARY_CHNL_BELOW) then nth 0 offsets 0
  else if decide (sec_chan_offset = HT_INFO_HT_PARAM_SECONDARY_CHNL_ABOVE) then nth 1 offsets 0
  else 0.

(** ** Operating classes *)

Inductive s1g_op_class_type := OP_CLASS_INVALID | OP_CLASS_S1G_LOCAL | OP_CLASS_S1G_GLOBAL.

#[global] Instance s1g_op_class_type_eq_dec : EqDecision s1g_op_class_type.
Proof. solve_decision. Defined.

(** The classification, and what is stored through [class]. *)
Definition morse_s1g_op_class_valid (op_class : Z) : s1g_op_class_type * option ah_class :=
  if decide (op_class >= 64 /\ op_class <= 77) then (OP_CLASS_S1G_GLOBAL, None)
  else if decide (op_class < S1G_OP_CLASSES_LEN) then
    match s1g_op_classes !! Z.to_nat op_class with
    | Some (Some class) => (OP_CLASS_S1G_LOCAL, Some class)
    | _ => (OP_CLASS_INVALID, None)
    end
  else (OP_CLASS_INVALID, None).

Definition morse_s1g_op_class_has_cc (class : ah_class) (c : country) : bool := existsb (same_cc c) (cc_list class).

(** The classes the loops visit: NULL entries are passed over. *)
Definition classes : list ah_class := omap id s1g_op_classes.

Definition morse_s1g_op_class_global_search (op_class : Z) (c : option country) : option ah_class :=
  List.find (fun class => bool_decide (global_op_class class = op_class) &&
    match c with Some c => morse_s1g_op_class_has_cc class c | None => true end) classes.

Definition morse_s1g_op_class_global_search_cc (op_class : Z) (c : option country) : option ah_class :=
  match c with None => None | Some _ => morse_s1g_op_class_global_search op_class c end.

Definition enabled (class : ah_class) (chan : Z) : bool := bool_decide (Z.land (chans class) (S1G_CHAN_ENABLED_FLAG chan) <> 0).

(** The flag is formed before the channel is checked: a shift by a negative
    number or by 64 and more is undefined, a fault here. *)
Fixpoint validate_chan_loop (l : list ah_class) (op_class : Z) (c : country) (s1g_chan : Z) : outcome (option ah_class) :=
  match l with
  | [] => Ok None
  | class :: l =>
      if bool_decide (global_op_class class = op_class) && morse_s1g_op_class_has_cc class c then
        if decide (0 <= s1g_chan < 64) then
          if enabled class s1g_chan then Ok (Some class) else validate_chan_loop l op_class c s1g_chan
        else Fail OutOfBounds
      else validate_chan_loop l op_class c s1g_chan
  end.

Definition morse_s1g_op_class_global_search_validate_chan (op_class : Z) (c : option country) (s1g_chan : Z) : outcome (option ah_class) :=
  match c with None => Ok None | Some c => validate_chan_loop classes op_class c s1g_chan end.

Definition morse_s1g_op_class_channel_valid (class : option ah_class) (s1g_chan : Z) : Z :=
  match class with
  | None => MORSE_INVALID_CHANNEL
  | Some class =>
      if decide (s1g_chan < S1G_CHAN_MIN \/ s1g_chan > S1G_CHAN_MAX) then MORSE_INVALID_CHANNEL
      else if enabled class s1g_chan then s1g_chan else MORSE_INVALID_CHANNEL
  end.

(** The result and the two characters written through [cc]. *)
Definition morse_s1g_op_class_to_country (op_class : Z) (has_cc : bool) : Z * option country :=
  if has_cc then
    match morse_s1g_op_class_valid op_class with
    | (OP_CLASS_S1G_LOCAL, Some class) => (MORSE_SUCCESS, head (cc_list class))
    | _ => (MORSE_S1G_RETURN_ERROR, None)
    end
  else (MORSE_S1G_RETURN_ERROR, None).

Definition morse_s1g_country_to_global_op_class (c : option country) : Z :=
  match c with
  | None => MORSE_S1G_RETURN_ERROR
  | Some c =>
      match List.find (fun class => morse_s1g_op_class_has_cc class c) classes with
      | Some class => global_op_class class
      | None => MORSE_S1G_RETURN_ERROR
      end
  end.

Definition morse_s1g_op_class_to_ch_width (op_class : Z) : Z :=
  match morse_s1g_op_class_valid op_class with
  | (OP_CLASS_S1G_LOCAL, Some class) => s1g_width class
  | (OP_CLASS_S1G_GLOBAL, _) =>
      match morse_s1g_op_class_global_search op_class None with Some class => s1g_width class | None => MORSE_S1G_RETURN_ERROR end
  | _ => MORSE_S1G_RETURN_ERROR
  end.

Definition morse_s1g_op_class_first_chan (op_class : Z) : Z :=
  match morse_s1g_op_class_valid op_class with
  | (OP_CLASS_S1G_LOCAL, Some class) => match List.find (enabled class) s1g_channels with Some i => i | None => MORSE_S1G_RETURN_ERROR end
  | _ => MORSE_S1G_RETURN_ERROR
  end.

(** [s1g_bw] has already been brought to eight bits. *)
Definition morse_s1g_ch_to_op_class (s1g_bw : Z) (c : option country) (s1g_chan : Z) : option ah_class :=
  List.find (fun class => bool_decide (s1g_width class = s1g_bw) &&
    match c with
    | None => true
    | Some c => morse_s1g_op_class_has_cc class c && bool_decide (morse_s1g_op_class_channel_valid (Some class) s1g_chan = s1g_chan)
    end) classes.

(** ** Frequencies *)

Definition morse_s1g_op_class_chan_to_freq (op_class s1g_chan : Z) : Z :=
  match morse_s1g_op_class_valid op_class with
  | (OP_CLASS_S1G_LOCAL, Some class) =>
      if decide (morse_s1g_op_class_channel_valid (Some class) s1g_chan = MORSE_INVALID_CHANNEL) then MORSE_S1G_RETURN_ERROR
      else s1g_freq_start class + s1g_chan * S1G_CHAN_SEP_KHZ
  | _ => MORSE_S1G_RETURN_ERROR
  end.

Definition morse_s1g_freq_to_s1g_channel (s1g_frequency s1g_start_frequency : Z) (class : ah_class) : Z :=
  morse_s1g_op_class_channel_valid (Some class) (Z.quot (s1g_frequency - s1g_start_frequency) S1G_CHAN_SEP_KHZ).

Section Frequencies.
Context (s1g_ht_chan_pairs : list s1g_ht_chan_pair).

Definition morse_s1g_op_class_ht_chan_to_s1g_freq (op_class ht_chan : Z) : Z :=
  let s1g_chan := morse_ht_chan_to_s1g_chan s1g_ht_chan_pairs ht_chan in
  if decide (s1g_chan = MORSE_S1G_RETURN_ERROR) then MORSE_S1G_RETURN_ERROR
  else morse_s1g_op_class_chan_to_freq op_class s1g_chan.

Definition chan_of_ht_freq (ht_freq : Z) : option Z :=
  List.find (fun c => bool_decide
    (ieee80211_channel_to_frequency (ht_channel (entry s1g_ht_chan_pairs c)) NL80211_BAND_5GHZ = ht_freq)) s1g_channels.

Definition morse_s1g_op_class_ht_freq_to_s1g_freq (op_class ht_freq : Z) : Z :=
  if decide (ht_freq < 0) then MORSE_S1G_RETURN_ERROR
  else
    match chan_of_ht_freq ht_freq with
    | Some c => morse_s1g_op_class_chan_to_freq op_class c
    | None => MORSE_S1G_RETURN_ERROR
    end.

Definition morse_cc_ht_freq_to_s1g_freq (c : country) (ht_freq : Z) : Z :=
  match chan_of_ht_freq ht_freq with
  | None => MORSE_S1G_RETURN_ERROR
  | Some s1g_chan =>
      match List.find (fun class => enabled class s1g_chan &&
              bool_decide (s1g_width class = morse_s1g_chan_to_bw s1g_ht_chan_pairs s1g_chan) &&
              morse_s1g_op_class_has_cc class c) classes with
      | Some class =>
          let op_class := u8 (s1g_op_class class) in
          if decide (op_class = 0) then MORSE_S1G_RETURN_ERROR else morse_s1g_op_class_chan_to_freq op_class s1g_chan
      | None => MORSE_S1G_RETURN_ERROR
      end
  end.

Definition morse_s1g_freq_to_ht_freq (s1g_frequency : Z) (class : ah_class) : Z :=
  let s1g_channel := morse_s1g_freq_to_s1g_channel s1g_frequency (s1g_freq_start class) class in
  if decide (s1g_channel < 0) then MORSE_INVALID_CHANNEL
  else
    let ht_channel := morse_s1g_chan_to_ht_chan s1g_ht_chan_pairs s1g_channel in
    if decide (ht_channel < 0) then MORSE_INVALID_CHANNEL
    else ieee80211_channel_to_frequency ht_channel NL80211_BAND_5GHZ.

Fixpoint freq_and_cc_loop (l : list ah_class) (s1g_frequency : Z) (c : country) : Z :=
  match l with
  | [] => MORSE_S1G_RETURN_ERROR
  | class :: l =>
      if morse_s1g_op_class_has_cc class c then
        let ht_freq := morse_s1g_freq_to_ht_freq s1g_frequency class in
        if decide (ht_freq > 0) then ht_freq else freq_and_cc_loop l s1g_frequency c
      else freq_and_cc_loop l s1g_frequency c
  end.

Definition morse_s1g_freq_and_cc_to_ht_freq (s1g_frequency : Z) (c : country) : Z := freq_and_cc_loop classes s1g_frequency c.

Definition morse_convert_s1g_freq_to_ht_freq (freq : Z) (c : country) : Z :=
  if decide (freq < MIN_S1G_FREQ_KHZ \/ freq > MAX_S1G_FREQ_KHZ) then freq
  else if decide (c.1 = 0) then freq
  else
    let ht_freq := morse_s1g_freq_and_cc_to_ht_freq freq c in
    if decide (ht_freq <= 0) then freq else ht_freq.
End Frequencies.

(** The region of a country; the entries of [ah_country] are distinct, so that
    going on after a match changes nothing. *)
Definition region_of (c : country) : option morse_dot11ah_region :=
  match List.find (fun r => same_cc r.2 c) ah_country with Some r => Some r.1 | None => None end.

Definition morse_s1g_get_start_freq_for_country (c : country) (freq bw : Z) : Z :=
  match region_of c with
  | None => 0
  | Some region =>
      match region with
      | MORSE_AU | MORSE_CA | MORSE_NZ | MORSE_US => 902000
      | MORSE_EU | MORSE_GB => if decide (freq > 901400) then 901400 else 863000
      | MORSE_IN => 863000
      | MORSE_JP =>
          if decide (Z.rem freq 1000 = 500) then if decide (bw < 4) then 922500 else 906500 else 916500
      | MORSE_KR => 917500
      | MORSE_SG => if decide (freq > 902000) then 902000 else 863000
      end
  end.

Definition morse_s1g_get_first_center_freq_for_country (c : country) : Z :=
  match region_of c with
  | None => 902500
  | Some region =>
      match region with
      | MORSE_AU | MORSE_NZ => 915500
      | MORSE_CA | MORSE_US => 902500
      | MORSE_EU | MORSE_GB => 863500
      | MORSE_IN => 865500
      | MORSE_JP => 923000
      | MORSE_KR => 918000
      | MORSE_SG => 866500
      end
  end.

(** ** Primary channels *)

Definition morse_calculate_primary_s1g_channel_jp (op_bw_mhz pr_bw_mhz s1g_op_chan pr_1mhz_chan_idx : Z) : Z :=
  match op_bw_mhz with
  | 1 => s1g_op_chan
  | 2 =>
      if decide (pr_bw_mhz = 1) then s1g_op_chan + (if decide (pr_1mhz_chan_idx <> 0) then 13 else 11)
      else s1g_op_chan
  | 4 =>
      let offset :=
        if decide (pr_bw_mhz = 1) then
          match pr_1mhz_chan_idx with 0 => 23 | 1 => 21 | 2 => 19 | 3 => 17 | _ => -1 end
        else
          match pr_1mhz_chan_idx with 0 | 1 => 34 | 2 | 3 => 30 | _ => -1 end in
      if decide (offset > 0) then s1g_op_chan - offset else - EINVAL
  | _ => - ENOENT
  end.

Definition morse_calculate_primary_s1g_channel (op_bw_mhz pr_bw_mhz s1g_op_chan pr_1mhz_chan_idx : Z) : Z :=
  let chan_loc := Z.rem pr_1mhz_chan_idx 2 in
  match op_bw_mhz with
  | 1 => s1g_op_chan
  | 2 => if decide (pr_bw_mhz = 1) then s1g_op_chan + (if decide (chan_loc = 0) then -1 else 1) else s1g_op_chan
  | 4 =>
      if decide (pr_bw_mhz = 1) then 2 * pr_1mhz_chan_idx - 3 + s1g_op_chan
      else Z.quot pr_1mhz_chan_idx 2 * 4 - 2 + s1g_op_chan
  | 8 =>
      if decide (pr_bw_mhz = 1) then 2 * pr_1mhz_chan_idx - 7 + s1g_op_chan
      else Z.quot pr_1mhz_chan_idx 2 * 4 - 6 + s1g_op_chan
  | _ => MORSE_S1G_RETURN_ERROR
  end.

Definition morse_cc_get_primary_s1g_channel (op_bw_mhz pr_bw_mhz s1g_op_chan pr_1mhz_chan_idx : Z) (c : country) : Z :=
  if is_jp c then morse_calculate_primary_s1g_channel_jp op_bw_mhz pr_bw_mhz s1g_op_chan pr_1mhz_chan_idx
  else morse_calculate_primary_s1g_channel op_bw_mhz pr_bw_mhz s1g_op_chan pr_1mhz_chan_idx.

(** ** Verification of a configured class, country and channel *)

Definition morse_check_valid_s1g_prim_1Mhz_chan_index (s1g_bw s1g_1mhz_prim_index : Z) : bool :=
  bool_decide (s1g_1mhz_prim_index <= s1g_bw - 1).

(** Whether a country was given that the class does not have. *)
Definition cc_mismatch (class : ah_class) (c : option country) : bool :=
  match c with Some c => negb (morse_s1g_op_class_has_cc class c) && bool_decide (c.1 <> 0) | None => false end.

Definition morse_s1g_verify_op_class_country (op_class : Z) (c : option country) (s1g_1mhz_prim_index : Z) : Z :=
  match morse_s1g_op_class_valid op_class with
  | (OP_CLASS_S1G_GLOBAL, _) =>
      match morse_s1g_op_class_global_search_cc op_class c with
      | Some class =>
          if morse_check_valid_s1g_prim_1Mhz_chan_index (u8 (s1g_width class)) s1g_1mhz_prim_index
          then s1g_op_class_idx class else MORSE_S1G_RETURN_ERROR
      | None => MORSE_S1G_RETURN_ERROR
      end
  | (OP_CLASS_S1G_LOCAL, Some class) =>
      if cc_mismatch class c then MORSE_S1G_RETURN_ERROR
      else if morse_check_valid_s1g_prim_1Mhz_chan_index (u8 (s1g_width class)) s1g_1mhz_prim_index
      then s1g_op_class_idx class else MORSE_S1G_RETURN_ERROR
  | _ => MORSE_S1G_RETURN_ERROR
  end.

Definition channel_and_index_ok (class : ah_class) (s1g_chan s1g_1mhz_prim_index : Z) : bool :=
  bool_decide (morse_s1g_op_class_channel_valid (Some class) s1g_chan <> MORSE_INVALID_CHANNEL) &&
  morse_check_valid_s1g_prim_1Mhz_chan_index (u8 (s1g_width class)) s1g_1mhz_prim_index.

Definition morse_s1g_verify_op_class_country_channel (op_class : Z) (c : option country) (s1g_chan s1g_1mhz_prim_index : Z) : outcome Z :=
  match morse_s1g_op_class_valid op_class with
  | (OP_CLASS_S1G_GLOBAL, _) =>
      class ← morse_s1g_op_class_global_search_validate_chan op_class c s1g_chan;
      Ok (match class with
          | Some class => if channel_and_index_ok class s1g_chan s1g_1mhz_prim_index then s1g_op_class_idx class else MORSE_S1G_RETURN_ERROR
          | None => MORSE_S1G_RETURN_ERROR
          end)
  | (OP_CLASS_S1G_LOCAL, Some class) =>
      if cc_mismatch class c then Ok MORSE_S1G_RETURN_ERROR
      else Ok (if channel_and_index_ok class s1g_chan s1g_1mhz_prim_index then s1g_op_class_idx class else MORSE_S1G_RETURN_ERROR)
  | _ => Ok MORSE_S1G_RETURN_ERROR
  end.

(** ** Sleep *)

Inductive wnm_oper :=
| WNM_SLEEP_ENTER_CONFIRM | WNM_SLEEP_ENTER_FAIL | WNM_SLEEP_EXIT_CONFIRM | WNM_SLEEP_EXIT_FAIL
| WNM_SLEEP_TFS_REQ_IE_ADD | WNM_SLEEP_TFS_REQ_IE_NONE | WNM_SLEEP_TFS_REQ_IE_SET
| WNM_SLEEP_TFS_RESP_IE_ADD | WNM_SLEEP_TFS_RESP_IE_NONE | WNM_SLEEP_TFS_RESP_IE_SET | WNM_SLEEP_TFS_IE_DEL.

(** [long_sleep] is the answer of [morse_set_long_sleep_enabled], which runs a
    command. *)
Definition morse_wnm_oper (long_sleep : bool -> Z) (oper : wnm_oper) : Z :=
  match oper with
  | WNM_SLEEP_ENTER_CONFIRM => long_sleep true
  | WNM_SLEEP_EXIT_CONFIRM => long_sleep false
  | WNM_SLEEP_ENTER_FAIL => 0
  | WNM_SLEEP_EXIT_FAIL => long_sleep false
  | _ => -1
  end.

(** ** Facts by evaluation over the tables *)

(** The map of a country. *)
Abbreviation map_of c := (morse_set_s1g_ht_chan_pairs (Some c)).

Definition countries : list country := ah_country.*2.
Definition classes_of (c : country) : list ah_class := List.filter (fun k => morse_s1g_op_class_has_cc k c) classes.

(** The HT frequency that stands for a channel. *)
Definition ht_freq (c : country) (ch : Z) : Z := ieee80211_channel_to_frequency (morse_s1g_chan_to_ht_chan (map_of c) ch) NL80211_BAND_5GHZ.

Definition freq (k : ah_class) (ch : Z) : Z := s1g_freq_start k + 500 * ch.

(** A property of every country, class of it and channel enabled in the class. *)
Definition everywhere (P : country -> ah_class -> Z -> bool) : bool :=
  forallb (fun c => forallb (fun k => forallb (fun ch => implb (enabled k ch) (P c k ch)) s1g_channels) (classes_of c)) countries.

Lemma elem_channels ch : ch ∈ s1g_channels <-> 1 <= ch <= 51.
Proof. unfold s1g_channels. rewrite elem_of_seqZ. unfold S1G_CHAN_MIN, S1G_CHAN_COUNT. lia. Qed.

Lemma elem_classes_of c k : k ∈ classes_of c <-> k ∈ classes /\ morse_s1g_op_class_has_cc k c = true.
Proof. unfold classes_of. rewrite !list_elem_of_In, List.filter_In. done. Qed.

Lemma forallb_elem {A} (P : A -> bool) l x : forallb P l = true -> x ∈ l -> P x = true.
Proof. rewrite forallb_forall. intros H Hx. apply H. by apply list_elem_of_In. Qed.

Lemma everywhere_at P c k ch :
  everywhere P = true -> c ∈ countries -> k ∈ classes_of c -> 1 <= ch <= 51 -> enabled k ch = true -> P c k ch = true.
Proof.
  intros H Hc Hk Hch He. unfold everywhere in H. apply (forallb_elem _ _ c) in H; [|done]. apply (forallb_elem _ _ k) in H; [|done].
  apply (forallb_elem _ _ ch) in H; [|by apply elem_channels]. cbn beta in H. by rewrite He in H.
Qed.

(** ** The channel maps *)

Definition pairs_ok (m : list s1g_ht_chan_pair) : bool :=
  forallb (fun c => bool_decide (s1g_channel (entry m c) = c) &&
    implb (bool_decide (0 <= ht_channel (entry m c))) (bool_decide (morse_ht_chan_to_s1g_chan m (ht_channel (entry m c)) = c))) s1g_channels.

Lemma maps_ok : forallb pairs_ok [s1g_ht_chan_pairs_default; s1g_ht_chan_pairs_jp] = true.
Proof. vm_compute. reflexivity. Qed.

Lemma map_of_ok c : pairs_ok (map_of c) = true.
Proof. apply (forallb_elem _ _ _ maps_ok). unfold morse_set_s1g_ht_chan_pairs. destruct (is_jp c); [right; left|left]. Qed.

Lemma entry_ok c ch : 1 <= ch <= 51 ->
  s1g_channel (entry (map_of c) ch) = ch /\
  (0 <= ht_channel (entry (map_of c) ch) -> morse_ht_chan_to_s1g_chan (map_of c) (ht_channel (entry (map_of c) ch)) = ch).
Proof.
  intros Hch. pose proof (forallb_elem _ _ ch (map_of_ok c)) as H. cbn beta in H.
  specialize (H (proj2 (elem_channels ch) Hch)). apply andb_prop in H as [H1 H2]. apply bool_decide_eq_true in H1. split; [done|].
  intros Hh. rewrite bool_decide_eq_true_2 in H2 by done. by apply bool_decide_eq_true in H2.
Qed.

Lemma chan_to_ht_in m ch : 1 <= ch <= 51 -> morse_s1g_chan_to_ht_chan m ch = ht_channel (entry m ch).
Proof. intros H. unfold morse_s1g_chan_to_ht_chan, S1G_CHAN_MIN, S1G_CHAN_MAX, S1G_CHAN_COUNT. rewrite decide_False by lia. done. Qed.

(** The two channel maps are one-to-one: for every country, 5 GHz channel and
    S1G channel, the HT channel is converted to the S1G channel exactly when the
    S1G channel is converted to the HT channel; every other HT channel and every
    other S1G channel is an error. *)
Theorem channel_maps_inverse c ht ch :
  0 <= ht -> 1 <= ch ->
  (morse_ht_chan_to_s1g_chan (map_of c) ht = ch <-> morse_s1g_chan_to_ht_chan (map_of c) ch = ht).
Proof.
  intros Hht Hch. split; intros H.
  - unfold morse_ht_chan_to_s1g_chan in H. rewrite decide_False in H by lia.
    destruct (List.find _ _) as [i|] eqn:E; [|unfold MORSE_S1G_RETURN_ERROR in H; lia].
    apply List.find_some in E as [Hi E]. apply bool_decide_eq_true in E. apply list_elem_of_In, elem_channels in Hi.
    destruct (entry_ok c i Hi) as [H1 _]. rewrite H1 in H. subst i. by rewrite chan_to_ht_in.
  - destruct (decide (ch <= 51)) as [H51|H51].
    + rewrite chan_to_ht_in in H by lia. subst ht. apply (entry_ok c ch); lia.
    + unfold morse_s1g_chan_to_ht_chan, S1G_CHAN_MIN, S1G_CHAN_MAX, S1G_CHAN_COUNT in H. rewrite decide_True in H by lia.
      unfold MORSE_S1G_RETURN_ERROR in H. lia.
Qed.

Lemma channel_maps_inverse_witness :
  morse_ht_chan_to_s1g_chan (map_of (cc "JP")) 54 = 4 <-> morse_s1g_chan_to_ht_chan (map_of (cc "JP")) 4 = 54.
Proof. apply channel_maps_inverse; lia. Defined.

(** ** Frequencies there and back *)

Definition freqs_agree (c : country) (k : ah_class) (ch : Z) : bool :=
  bool_decide (0 < ht_freq c ch /\ morse_s1g_op_class_chan_to_freq (s1g_op_class_idx k) ch = freq k ch /\
    morse_cc_ht_freq_to_s1g_freq (map_of c) c (ht_freq c ch) = freq k ch /\
    morse_s1g_op_class_ht_freq_to_s1g_freq (map_of c) (s1g_op_class_idx k) (ht_freq c ch) = freq k ch /\
    morse_s1g_get_start_freq_for_country c (freq k ch) (s1g_width k) = s1g_freq_start k /\
    morse_s1g_chan_to_bw (map_of c) ch = s1g_width k) &&
  (is_jp c && bool_decide (4 <= s1g_width k) || bool_decide (morse_convert_s1g_freq_to_ht_freq (map_of c) (freq k ch) c = ht_freq c ch)).

Lemma freqs_agree_everywhere : everywhere freqs_agree = true.
Proof. vm_compute. reflexivity. Qed.

(** C30: for every country, class of that country and channel of the class: the
    class and channel give the channel's frequency, the HT frequency that stands for
    it gives that frequency back (by country and by class), the start frequency of
    the country is the class's, the map's bandwidth is its width, and, but for the
    4 MHz channels of Japan, the frequency is converted to the HT frequency. *)
Theorem frequencies_inverse c k ch :
  c ∈ countries -> k ∈ classes -> morse_s1g_op_class_has_cc k c = true -> 1 <= ch <= 51 -> enabled k ch = true ->
  morse_s1g_op_class_chan_to_freq (s1g_op_class_idx k) ch = freq k ch /\
  morse_cc_ht_freq_to_s1g_freq (map_of c) c (ht_freq c ch) = freq k ch /\
  morse_s1g_op_class_ht_freq_to_s1g_freq (map_of c) (s1g_op_class_idx k) (ht_freq c ch) = freq k ch /\
  morse_s1g_get_start_freq_for_country c (freq k ch) (s1g_width k) = s1g_freq_start k /\
  morse_s1g_chan_to_bw (map_of c) ch = s1g_width k /\
  (c <> cc "JP" \/ s1g_width k < 4 -> morse_convert_s1g_freq_to_ht_freq (map_of c) (freq k ch) c = ht_freq c ch).
Proof.
  intros Hc Hk Hcc Hch He.
  pose proof (everywhere_at _ c k ch freqs_agree_everywhere Hc (proj2 (elem_classes_of c k) (conj Hk Hcc)) Hch He) as H.
  apply andb_prop in H as [H1 H2]. apply bool_decide_eq_true in H1 as (_ & H1 & H3 & H4 & H5 & H6). repeat (split; [done|]).
  intros Hj. apply orb_prop in H2 as [H2|H2]; [|by apply bool_decide_eq_true in H2].
  apply andb_prop in H2 as [H2 H7]. apply bool_decide_eq_true in H2 as [Ha Hb]. apply bool_decide_eq_true in H7.
  destruct Hj as [Hj|Hj]; [|lia]. destruct c as [x y]. cbn in Ha, Hb. subst x y. by destruct Hj.
Qed.

Lemma frequencies_inverse_witness :
  morse_s1g_op_class_chan_to_freq (s1g_op_class_idx au25) 44 = freq au25 44 /\
  morse_cc_ht_freq_to_s1g_freq (map_of (cc "AU")) (cc "AU") (ht_freq (cc "AU") 44) = freq au25 44 /\
  morse_s1g_op_class_ht_freq_to_s1g_freq (map_of (cc "AU")) (s1g_op_class_idx au25) (ht_freq (cc "AU") 44) = freq au25 44 /\
  morse_s1g_get_start_freq_for_country (cc "AU") (freq au25 44) (s1g_width au25) = s1g_freq_start au25 /\
  morse_s1g_chan_to_bw (map_of (cc "AU")) 44 = s1g_width au25 /\
  (cc "AU" <> cc "JP" \/ s1g_width au25 < 4 -> morse_convert_s1g_freq_to_ht_freq (map_of (cc "AU")) (freq au25 44) (cc "AU") = ht_freq (cc "AU") 44).
Proof. apply frequencies_inverse; [by_decide|by_decide|reflexivity|lia|reflexivity]. Defined.

(** Japan's 4 MHz channels 36 and 38 have the frequencies of its 2 MHz channels 4
    and 6; only the bandwidth tells them apart, and this conversion does not have it. *)
Lemma jp_4mhz_is_ambiguous :
  freq jp11 36 = freq jp10 4 /\ freq jp12 38 = freq jp9 6 /\
  morse_convert_s1g_freq_to_ht_freq (map_of (cc "JP")) (freq jp11 36) (cc "JP") = ht_freq (cc "JP") 4 /\
  ht_freq (cc "JP") 36 <> ht_freq (cc "JP") 4.
Proof. by_decide. Qed.

(** ** Verification *)

Lemma class_facts k : k ∈ classes ->
  morse_s1g_op_class_valid (s1g_op_class_idx k) = (OP_CLASS_S1G_LOCAL, Some k) /\ u8 (s1g_width k) = s1g_width k /\
  0 < s1g_op_class_idx k < 32 /\ 64 <= global_op_class k <= 77 /\ 0 < s1g_width k.
Proof.
  assert (H : forallb (fun k => bool_decide (morse_s1g_op_class_valid (s1g_op_class_idx k) = (OP_CLASS_S1G_LOCAL, Some k) /\
    u8 (s1g_width k) = s1g_width k /\ 0 < s1g_op_class_idx k < 32 /\ 64 <= global_op_class k <= 77 /\ 0 < s1g_width k)) classes = true) by (vm_compute; reflexivity).
  intros Hk. apply (forallb_elem _ _ k H) in Hk. by apply bool_decide_eq_true in Hk.
Qed.

Lemma valid_cases x :
  match morse_s1g_op_class_valid x with
  | (OP_CLASS_S1G_GLOBAL, _) => 64 <= x <= 77
  | (OP_CLASS_S1G_LOCAL, Some k) => k ∈ classes /\ (0 <= x -> s1g_op_class_idx k = x)
  | (OP_CLASS_S1G_LOCAL, None) => False
  | (OP_CLASS_INVALID, o) => o = None
  end.
Proof.
  assert (H : forallb (fun x => match s1g_op_classes !! Z.to_nat x with Some (Some k) => bool_decide (s1g_op_class_idx k = x) | _ => true end) (seqZ 0 32) = true)
    by (vm_compute; reflexivity).
  unfold morse_s1g_op_class_valid. case_decide; [lia|]. case_decide as Hx; [|done].
  destruct (s1g_op_classes !! Z.to_nat x) as [[k|]|] eqn:E; [|done|done]. split.
  - unfold classes. apply list_elem_of_omap. exists (Some k). split; [by eapply list_elem_of_lookup_2|done].
  - intros Hx0. apply (forallb_elem _ _ x) in H; [|apply elem_of_seqZ; change S1G_OP_CLASSES_LEN with 32 in Hx; lia].
    cbn beta in H. rewrite E in H. by apply bool_decide_eq_true in H.
Qed.

Lemma validate_chan_loop_find l op_class c ch : 0 <= ch < 64 ->
  validate_chan_loop l op_class c ch =
  Ok (List.find (fun k => bool_decide (global_op_class k = op_class) && morse_s1g_op_class_has_cc k c && enabled k ch) l).
Proof.
  intros Hch. induction l as [|k l IH]; [done|]. cbn [validate_chan_loop List.find]. rewrite IH.
  destruct (_ && _); [|done]. rewrite decide_True by done. by destruct (enabled k ch).
Qed.

Lemma validate_chan_loop_Some l op_class c ch k :
  validate_chan_loop l op_class c ch = Ok (Some k) ->
  k ∈ l /\ global_op_class k = op_class /\ morse_s1g_op_class_has_cc k c = true /\ enabled k ch = true.
Proof.
  induction l as [|k' l IH]; [done|]. cbn [validate_chan_loop]. destruct (_ && _) eqn:E.
  - apply andb_prop in E as [E1 E2]. apply bool_decide_eq_true in E1. case_decide; [|done]. destruct (enabled k' ch) eqn:E3.
    + intros [= ->]. split; [left|done].
    + intros H1. destruct (IH H1) as [? ?]. split; [by right|done].
  - intros H1. destruct (IH H1) as [? ?]. split; [by right|done].
Qed.

(** A country, a global class and a channel have at most one class. *)
Lemma global_class_unique c k k' ch :
  c.1 <> 0 -> k ∈ classes -> k' ∈ classes -> global_op_class k = global_op_class k' ->
  morse_s1g_op_class_has_cc k c = true -> morse_s1g_op_class_has_cc k' c = true ->
  1 <= ch <= 51 -> enabled k ch = true -> enabled k' ch = true -> k = k'.
Proof.
  assert (H : forallb (fun k => forallb (fun k' => implb (bool_decide (global_op_class k = global_op_class k') &&
    existsb (fun c => bool_decide (c.1 <> 0) && morse_s1g_op_class_has_cc k' c) (cc_list k) &&
    existsb (fun ch => enabled k ch && enabled k' ch) s1g_channels) (bool_decide (k = k'))) classes) classes = true) by (vm_compute; reflexivity).
  intros Hc Hk Hk' Hg H1 H2 Hch He He'. apply (forallb_elem _ _ k) in H; [|done]. apply (forallb_elem _ _ k') in H; [|done].
  cbn beta in H. rewrite bool_decide_eq_true_2 in H by done.
  unfold morse_s1g_op_class_has_cc in H1. apply existsb_exists in H1 as (c' & Hin & Hs). unfold same_cc in Hs.
  apply bool_decide_eq_true in Hs as [Ha Hb]. assert (c' = c) as -> by (destruct c, c'; cbn in *; congruence).
  replace (existsb _ (cc_list k)) with true in H; [replace (existsb _ s1g_channels) with true in H|].
  - by apply bool_decide_eq_true in H.
  - symmetry. apply existsb_exists. exists ch. split; [by apply list_elem_of_In, elem_channels|by rewrite He, He'].
  - symmetry. apply existsb_exists. exists c. split; [done|]. by rewrite bool_decide_eq_true_2.
Qed.

(** What a configuration must satisfy: the class is the local or the global
    number of a class of the country, which has the channel, and the index of the
    1 MHz primary channel is within the width. *)
Definition config_ok (op_class : Z) (c : country) (ch idx : Z) (k : ah_class) : Prop :=
  k ∈ classes /\ (op_class = s1g_op_class_idx k \/ op_class = global_op_class k) /\ morse_s1g_op_class_has_cc k c = true /\
  1 <= ch <= 51 /\ enabled k ch = true /\ idx < s1g_width k.

Lemma channel_valid_enabled k ch : 1 <= ch <= 51 -> enabled k ch = true -> morse_s1g_op_class_channel_valid (Some k) ch = ch.
Proof.
  intros Hch He. unfold morse_s1g_op_class_channel_valid, S1G_CHAN_MIN, S1G_CHAN_MAX, S1G_CHAN_COUNT.
  rewrite decide_False by lia. by rewrite He.
Qed.

Lemma channel_and_index_ok_iff k ch idx : k ∈ classes ->
  channel_and_index_ok k ch idx = true <-> 1 <= ch <= 51 /\ enabled k ch = true /\ idx < s1g_width k.
Proof.
  intros Hk. destruct (class_facts k Hk) as (_ & Hu & _). unfold channel_and_index_ok, morse_check_valid_s1g_prim_1Mhz_chan_index.
  rewrite Hu, andb_true_iff, !bool_decide_eq_true. unfold morse_s1g_op_class_channel_valid, S1G_CHAN_MIN, S1G_CHAN_MAX, S1G_CHAN_COUNT, MORSE_INVALID_CHANNEL.
  case_decide as Hd; [split; [by intros []|intros [??]; lia]|]. destruct (enabled k ch); [|split; [by intros []|by intros (_ & ? & _)]].
  split; [intros []; split; [lia|split; [done|lia]]|intros (? & _ & ?); split; lia].
Qed.

Lemma global_search_loop op_class c ch :
  morse_s1g_op_class_global_search_validate_chan op_class (Some c) ch = validate_chan_loop classes op_class c ch.
Proof. reflexivity. Qed.

Lemma class_chan_freq k ch : k ∈ classes -> 1 <= ch <= 51 -> enabled k ch = true ->
  morse_s1g_op_class_chan_to_freq (s1g_op_class_idx k) ch = freq k ch.
Proof.
  intros Hk Hch He. unfold morse_s1g_op_class_chan_to_freq. destruct (class_facts k Hk) as (-> & _).
  rewrite channel_valid_enabled, decide_False by (done || unfold MORSE_INVALID_CHANNEL; lia). unfold freq, S1G_CHAN_SEP_KHZ. lia.
Qed.

Lemma verify_accepts op_class c ch idx k :
  c.1 <> 0 -> config_ok op_class c ch idx k ->
  morse_s1g_verify_op_class_country_channel op_class (Some c) ch idx = Ok (s1g_op_class_idx k).
Proof.
  intros Hc (Hk & Hcl & Hcc & Hch & He & Hi). pose proof (class_facts k Hk) as (Hval & _ & Hidx & Hglob & _).
  pose proof (proj2 (channel_and_index_ok_iff k ch idx Hk) (conj Hch (conj He Hi))) as Hok.
  unfold morse_s1g_verify_op_class_country_channel. destruct Hcl as [->| ->].
  - rewrite Hval. unfold cc_mismatch. rewrite Hcc. cbn [negb andb]. by rewrite Hok.
  - assert (morse_s1g_op_class_valid (global_op_class k) = (OP_CLASS_S1G_GLOBAL, None)) as -> by (unfold morse_s1g_op_class_valid; by rewrite decide_True by lia).
    rewrite global_search_loop, validate_chan_loop_find by lia. cbn [mbind outcome_bind].
    destruct (List.find _ classes) as [k'|] eqn:E.
    + apply List.find_some in E as [Hk' E]. apply list_elem_of_In in Hk'. apply andb_prop in E as [[E1 E2]%andb_prop E3].
      apply bool_decide_eq_true in E1. assert (k' = k) as -> by (by eapply (global_class_unique c k' k ch)). by rewrite Hok.
    + eapply List.find_none in E; [|by apply list_elem_of_In]. cbn beta in E. by rewrite bool_decide_eq_true_2, Hcc, He in E.
Qed.

Lemma verify_accepted op_class c ch idx r :
  0 <= op_class -> c.1 <> 0 -> r <> MORSE_S1G_RETURN_ERROR ->
  morse_s1g_verify_op_class_country_channel op_class (Some c) ch idx = Ok r ->
  exists k, config_ok op_class c ch idx k /\ r = s1g_op_class_idx k.
Proof.
  intros Hop Hc Hr. unfold morse_s1g_verify_op_class_country_channel. pose proof (valid_cases op_class) as Hv.
  destruct (morse_s1g_op_class_valid op_class) as [[] o].
  - intros [= <-]. by destruct Hr.
  - destruct o as [k|]; [|by destruct Hv]. destruct Hv as [Hk Hidx]. destruct (cc_mismatch k (Some c)) eqn:Em; [intros [= <-]; by destruct Hr|].
    destruct (channel_and_index_ok k ch idx) eqn:E; [|intros [= <-]; by destruct Hr]. intros [= <-].
    apply (channel_and_index_ok_iff _ _ _ Hk) in E as (E1 & E2 & E3). exists k. split; [|done].
    assert (morse_s1g_op_class_has_cc k c = true) by (unfold cc_mismatch in Em; rewrite bool_decide_eq_true_2 in Em by exact Hc; by destruct (morse_s1g_op_class_has_cc k c)).
    unfold config_ok. split; [exact Hk|]. split; [left; symmetry; by apply Hidx|]. split; [assumption|]. split; [exact E1|]. by split.
  - rewrite global_search_loop. intros (o' & Ho & H1)%bind_Ok. destruct o' as [k|]; [|injection H1 as <-; by destruct Hr].
    destruct (channel_and_index_ok k ch idx) eqn:E; [|injection H1 as <-; by destruct Hr]. injection H1 as <-.
    apply validate_chan_loop_Some in Ho as (Hk & Hg & Hcc & He). apply (channel_and_index_ok_iff _ _ _ Hk) in E as (E1 & E2 & E3).
    exists k. split; [|done]. unfold config_ok. split; [exact Hk|]. split; [by right|]. split; [exact Hcc|]. split; [exact E1|]. by split.
Qed.

(** C31: [morse_s1g_verify_op_class_country_channel] accepts exactly the
    configurations of a country that are as they must be, and returns the index
    of their class; that class then gives the channel's frequency. *)
Theorem verify_class_channel_correct op_class c ch idx r :
  0 <= op_class < 256 -> c.1 <> 0 -> r <> MORSE_S1G_RETURN_ERROR ->
  (morse_s1g_verify_op_class_country_channel op_class (Some c) ch idx = Ok r <->
   exists k, config_ok op_class c ch idx k /\ r = s1g_op_class_idx k /\ morse_s1g_op_class_chan_to_freq r ch = freq k ch).
Proof.
  intros Hop Hc Hr. split.
  - intros H. destruct (verify_accepted op_class c ch idx r ltac:(lia) Hc Hr H) as (k & Hk & ->).
    exists k. split; [exact Hk|]. split; [reflexivity|]. destruct Hk as (Hk & _ & _ & Hch & He & _). exact (class_chan_freq k ch Hk Hch He).
  - intros (k & Hk & -> & _). exact (verify_accepts op_class c ch idx k Hc Hk).
Qed.

Lemma verify_class_channel_correct_witness :
  (morse_s1g_verify_op_class_country_channel 71 (Some (cc "US")) 28 7 = Ok 4 <->
   exists k, config_ok 71 (cc "US") 28 7 k /\ 4 = s1g_op_class_idx k /\ morse_s1g_op_class_chan_to_freq 4 28 = freq k 28).
Proof. apply verify_class_channel_correct; [lia|done|done]. Defined.

(** The channel flag is formed before the range of the channel is known. *)
Lemma large_channel_shift_undefined :
  morse_s1g_verify_op_class_country_channel 71 (Some (cc "US")) 64 0 = Fail OutOfBounds /\
  morse_s1g_verify_op_class_country_channel 4 (Some (cc "US")) 64 0 = Ok MORSE_S1G_RETURN_ERROR.
Proof. vm_compute. by split. Qed.

(** ** Primary channels *)

(** Some class of the country with the width has the channel, at the frequency. *)
Definition legal (c : country) (width ch f : Z) : bool :=
  existsb (fun k => bool_decide (s1g_width k = width /\ freq k ch = f) && enabled k ch) (classes_of c).

(** The centre of the 1 MHz slot [i] of a channel [w] MHz wide around [f], and
    of the 2 MHz slot it belongs to. *)
Definition slot1 (f w i : Z) : Z := f + 500 * (2 * i - (w - 1)).
Definition slot2 (f w i : Z) : Z := f + 500 * (4 * (i / 2) - (w - 2)).

Definition primaries_ok (c : country) (k : ah_class) (ch : Z) : bool :=
  let w := s1g_width k in let f := freq k ch in
  forallb (fun i =>
    legal c 1 (morse_cc_get_primary_s1g_channel w 1 ch i c) (slot1 f w i) &&
    (bool_decide (w < 2) || legal c 2 (morse_cc_get_primary_s1g_channel w 2 ch i c) (slot2 f w i)) &&
    bool_decide (morse_s1g_chan_to_ht20_prim_chan (map_of c) ch (morse_cc_get_primary_s1g_channel w 1 ch i c) c =
                 morse_s1g_chan_to_ht_chan (map_of c) ch + 2 * (2 * i - (w - 1))))
    (seqZ 0 w).

Lemma primaries_ok_everywhere : everywhere primaries_ok = true.
Proof. vm_compute. reflexivity. Qed.

Lemma legal_iff c width ch f :
  legal c width ch f = true <-> exists k, k ∈ classes /\ morse_s1g_op_class_has_cc k c = true /\ s1g_width k = width /\ freq k ch = f /\ enabled k ch = true.
Proof.
  unfold legal. rewrite existsb_exists. split.
  - intros (k & Hk & H). apply andb_prop in H as [H He]. apply bool_decide_eq_true in H as [Hw Hf].
    apply list_elem_of_In, elem_classes_of in Hk as [Hk Hcc]. by exists k.
  - intros (k & Hk & Hcc & Hw & Hf & He). exists k. split; [by apply list_elem_of_In, elem_classes_of|].
    by rewrite bool_decide_eq_true_2.
Qed.

(** For every country, class of it, channel of the class and index within the
    width: the 1 MHz primary channel computed is a channel that a 1 MHz class of
    the country has, in the slot of that index; for 2 MHz and more the 2 MHz
    primary channel is one that a 2 MHz class has, in the slot that contains it;
    and the primary HT channel lies in the same place in the HT channel. *)
Theorem primary_channels_legal c k ch i :
  c ∈ countries -> k ∈ classes -> morse_s1g_op_class_has_cc k c = true -> 1 <= ch <= 51 -> enabled k ch = true -> 0 <= i < s1g_width k ->
  let w := s1g_width k in
  let p1 := morse_cc_get_primary_s1g_channel w 1 ch i c in
  let p2 := morse_cc_get_primary_s1g_channel w 2 ch i c in
  (exists k1, k1 ∈ classes /\ morse_s1g_op_class_has_cc k1 c = true /\ s1g_width k1 = 1 /\ freq k1 p1 = slot1 (freq k ch) w i /\ enabled k1 p1 = true) /\
  (2 <= w -> exists k2, k2 ∈ classes /\ morse_s1g_op_class_has_cc k2 c = true /\ s1g_width k2 = 2 /\ freq k2 p2 = slot2 (freq k ch) w i /\ enabled k2 p2 = true) /\
  morse_s1g_chan_to_ht20_prim_chan (map_of c) ch p1 c = morse_s1g_chan_to_ht_chan (map_of c) ch + 2 * (2 * i - (w - 1)).
Proof.
  intros Hc Hk Hcc Hch He Hi w p1 p2.
  pose proof (everywhere_at _ c k ch primaries_ok_everywhere Hc (proj2 (elem_classes_of c k) (conj Hk Hcc)) Hch He) as H.
  unfold primaries_ok in H. apply (forallb_elem _ _ i) in H; [|apply elem_of_seqZ; lia]. cbn beta zeta in H.
  apply andb_prop in H as [[H1 H2]%andb_prop H3]. apply bool_decide_eq_true in H3. apply legal_iff in H1. split; [exact H1|].
  split; [|exact H3]. intros Hw. apply orb_prop in H2 as [H2|H2]; [apply bool_decide_eq_true in H2; unfold w in Hw; lia|by apply legal_iff].
Qed.

Lemma primary_channels_legal_witness :
  (exists k1, k1 ∈ classes /\ morse_s1g_op_class_has_cc k1 (cc "JP") = true /\ s1g_width k1 = 1 /\
     freq k1 (morse_cc_get_primary_s1g_channel 4 1 38 2 (cc "JP")) = slot1 (freq jp12 38) 4 2 /\
     enabled k1 (morse_cc_get_primary_s1g_channel 4 1 38 2 (cc "JP")) = true) /\
  (2 <= 4 -> exists k2, k2 ∈ classes /\ morse_s1g_op_class_has_cc k2 (cc "JP") = true /\ s1g_width k2 = 2 /\
     freq k2 (morse_cc_get_primary_s1g_channel 4 2 38 2 (cc "JP")) = slot2 (freq jp12 38) 4 2 /\
     enabled k2 (morse_cc_get_primary_s1g_channel 4 2 38 2 (cc "JP")) = true) /\
  morse_s1g_chan_to_ht20_prim_chan (map_of (cc "JP")) 38 (morse_cc_get_primary_s1g_channel 4 1 38 2 (cc "JP")) (cc "JP") =
    morse_s1g_chan_to_ht_chan (map_of (cc "JP")) 38 + 2 * (2 * 2 - (4 - 1)).
Proof. apply (primary_channels_legal (cc "JP") jp12 38 2); [by_decide|by_decide|reflexivity|lia|reflexivity|cbn; lia]. Defined.

(** ** The SDK's regulatory databases *)

Definition entry_agrees (c : Reg.mmwlan_s1g_channel) : bool :=
  bool_decide (morse_s1g_op_class_chan_to_freq (Reg.s1g_operating_class c) (Reg.s1g_chan_num c) * 1000 = Reg.centre_freq_hz c /\
    morse_s1g_op_class_to_ch_width (Reg.s1g_operating_class c) = Reg.bw_mhz c).

(** Every channel of the application's database is a channel of its class in
    these tables too, at the same frequency and bandwidth, but for six of Korea. *)
Lemma regdb_agrees :
  forallb (fun l => forallb (fun c => entry_agrees c ||
    bool_decide (take 2 (Reg.country_code l) = lit "KR" /\ Reg.s1g_chan_num c ∈ [18; 19; 20; 22; 23; 24])) (Reg.listed l))
    (Reg.domains RegDbDef.regulatory_db) = true.
Proof. vm_compute. reflexivity. Qed.
End S1gChan.
