(* ===== verification/S1gCsa.v ===== *)
(** S1G channels in a configuration: the functions of [src/utils/morse.c] under
    [framework/src/hostap] on [struct hostapd_config], the validation of a channel
    switch, and the list of supported operating classes.

    [struct hostapd_config] holds the members these functions use; the headers of
    the repository do not declare all of them ([s1g_prim_1mhz_chan_index] is
    [s1g_prim_1mhz_chan_loc] there).  An index into an offset table is checked. *)

From S2P Require Import Prelude CStr S1gTables S1gChan.

Module S1gCsa.
Import S1gTables S1gChan.

(** ** Configuration *)

Definition CHANWIDTH_USE_HT : Z := 0.
Definition CHANWIDTH_80MHZ : Z := 1.
Definition CHANWIDTH_160MHZ : Z := 2.
Definition S1G_PRIM_CHWIDTH_1 : Z := 0.
Definition S1G_PRIM_CHWIDTH_2 : Z := 1.
Definition HT_CAP_INFO_SUPP_CHANNEL_WIDTH_SET : Z := 2.
Definition VHT_CAP_SHORT_GI_80 : Z := 32.
Definition VHT_CAP_SHORT_GI_160 : Z := 64.
Definition S1G_CAP0_SGI_4MHZ : Z := 8.
Definition S1G_CAP0_SGI_8MHZ : Z := 16.

Record hostapd_config := {
  channel : Z;
  op_country : country;
  ieee80211n : Z;
  ieee80211ac : Z;
  secondary_channel : Z;
  vht_oper_chwidth : Z;
  vht_oper_centr_freq_seg0_idx : Z;
  ht_capab : Z;
  vht_capab : Z;
  s1g_capab : Z;
  s1g_op_class : Z;
  s1g_prim_chwidth : Z;
  s1g_prim_1mhz_chan_index : Z;
}.

(** ** Centre channels *)

Definition IN_LOWER_HT40_RANGE (ht_chan : Z) : bool := bool_decide (ht_chan >= 38 /\ ht_chan <= 62).
Definition IN_MIDDLE_HT40_RANGE (ht_chan : Z) : bool := bool_decide (ht_chan >= 102 /\ ht_chan <= 134).
Definition IN_HIGHER_HT40_RANGE (ht_chan : Z) : bool := bool_decide (ht_chan >= 151 /\ ht_chan <= 175).

Definition morse_ht_chan_ht40 (ht_chan : Z) : Z :=
  if bool_decide (Z.rem (ht_chan + 2) 8 = 0) && (IN_LOWER_HT40_RANGE ht_chan || IN_MIDDLE_HT40_RANGE ht_chan) then ht_chan
  else if bool_decide (Z.rem (ht_chan + 1) 8 = 0) && IN_HIGHER_HT40_RANGE ht_chan then ht_chan
  else MORSE_SUCCESS.

Definition in_table (l : list Z) (ht_chan : Z) : Z := if bool_decide (ht_chan ∈ l) then ht_chan else MORSE_SUCCESS.
Definition morse_ht_chan_vht80 (ht_chan : Z) : Z := in_table vht80_chans ht_chan.
Definition morse_ht_chan_vht160 (ht_chan : Z) : Z := in_table vht160_chans ht_chan.

(** The end of both functions below, when neither VHT width applies. *)
Definition ht40_center (conf : hostapd_config) (ht_chan : Z) : outcome Z :=
  if decide (secondary_channel conf <> 0) then
    o ← rd ht_40_pri_1mhz_offset (s1g_prim_1mhz_chan_index conf);
    if decide (morse_ht_chan_ht40 (ht_chan - o) <> 0) then Ok (ht_chan - o) else Ok ht_chan
  else Ok ht_chan.

Definition ht40_primary (conf : hostapd_config) (ht_chan : Z) : outcome Z :=
  if decide (secondary_channel conf <> 0) then
    if decide (morse_ht_chan_ht40 ht_chan <> 0) then
      o ← rd ht_40_pri_1mhz_offset (s1g_prim_1mhz_chan_index conf); Ok (ht_chan + o)
    else Ok ht_chan
  else Ok ht_chan.

Definition vht_center (known : Z -> Z) (offsets : list Z) (conf : hostapd_config) (ht_chan : Z) : outcome Z :=
  if decide (known ht_chan <> 0) then Ok ht_chan
  else
    o ← rd offsets (s1g_prim_1mhz_chan_index conf);
    if decide (known (ht_chan - o) <> 0) then Ok (ht_chan - o) else Ok MORSE_S1G_RETURN_ERROR.

Definition morse_ht_chan_to_ht_chan_center (conf : hostapd_config) (ht_chan : Z) : outcome Z :=
  if decide (ieee80211ac conf <> 0) then
    if decide (vht_oper_chwidth conf = CHANWIDTH_80MHZ) then vht_center morse_ht_chan_vht80 vht_80_pri_1mhz_offset conf ht_chan
    else if decide (vht_oper_chwidth conf = CHANWIDTH_160MHZ) then vht_center morse_ht_chan_vht160 vht_160_pri_1mhz_offset conf ht_chan
    else ht40_center conf ht_chan
  else ht40_center conf ht_chan.

Definition vht_primary (known : Z -> Z) (offsets : list Z) (conf : hostapd_config) (ht_chan : Z) : outcome Z :=
  if decide (known ht_chan <> 0) then o ← rd offsets (s1g_prim_1mhz_chan_index conf); Ok (ht_chan + o)
  else ht40_primary conf ht_chan.

Definition morse_ht_center_chan_to_ht_chan (conf : hostapd_config) (ht_chan : Z) : outcome Z :=
  if decide (ieee80211ac conf <> 0) then
    if decide (vht_oper_chwidth conf = CHANWIDTH_80MHZ) then vht_primary morse_ht_chan_vht80 vht_80_pri_1mhz_offset conf ht_chan
    else if decide (vht_oper_chwidth conf = CHANWIDTH_160MHZ) then vht_primary morse_ht_chan_vht160 vht_160_pri_1mhz_offset conf ht_chan
    else ht40_primary conf ht_chan
  else ht40_primary conf ht_chan.

Definition morse_s1g_get_primary_channel (pairs : list s1g_ht_chan_pair) (conf : hostapd_config) (bw : Z) : outcome Z :=
  ht_center_chan ← morse_ht_chan_to_ht_chan_center conf (channel conf);
  let s1g_op_chan := morse_ht_chan_to_s1g_chan pairs ht_center_chan in
  let op_bw := morse_s1g_chan_to_bw pairs s1g_op_chan in
  if decide (bw < 1 \/ bw > 2) then Ok MORSE_INVALID_CHANNEL
  else if decide (s1g_prim_1mhz_chan_index conf >= op_bw) then Ok MORSE_INVALID_CHANNEL
  else Ok (morse_cc_get_primary_s1g_channel op_bw bw s1g_op_chan (s1g_prim_1mhz_chan_index conf) (op_country conf)).

(** ** Configuration of a channel *)

(** The assignments before the switch on the width. *)
Definition with_class (op_class idx : Z) (c : hostapd_config) : hostapd_config := {|
  channel := channel c; op_country := op_country c; ieee80211n := 1; ieee80211ac := 1; secondary_channel := secondary_channel c;
  vht_oper_chwidth := vht_oper_chwidth c; vht_oper_centr_freq_seg0_idx := vht_oper_centr_freq_seg0_idx c;
  ht_capab := ht_capab c; vht_capab := vht_capab c; s1g_capab := s1g_capab c;
  s1g_op_class := op_class; s1g_prim_chwidth := s1g_prim_chwidth c; s1g_prim_1mhz_chan_index := idx |}.

Definition set_secondary (v : Z) (c : hostapd_config) : hostapd_config := {|
  channel := channel c; op_country := op_country c; ieee80211n := ieee80211n c; ieee80211ac := ieee80211ac c; secondary_channel := v;
  vht_oper_chwidth := vht_oper_chwidth c; vht_oper_centr_freq_seg0_idx := vht_oper_centr_freq_seg0_idx c;
  ht_capab := ht_capab c; vht_capab := vht_capab c; s1g_capab := s1g_capab c;
  s1g_op_class := s1g_op_class c; s1g_prim_chwidth := s1g_prim_chwidth c; s1g_prim_1mhz_chan_index := s1g_prim_1mhz_chan_index c |}.

(** The assignments of a case of the switch. *)
Definition with_width (prim ht vht seg0 vht_cap : Z) (c : hostapd_config) : hostapd_config := {|
  channel := channel c; op_country := op_country c; ieee80211n := ieee80211n c; ieee80211ac := ieee80211ac c; secondary_channel := secondary_channel c;
  vht_oper_chwidth := vht; vht_oper_centr_freq_seg0_idx := seg0; ht_capab := ht; vht_capab := vht_cap; s1g_capab := s1g_capab c;
  s1g_op_class := s1g_op_class c; s1g_prim_chwidth := prim; s1g_prim_1mhz_chan_index := s1g_prim_1mhz_chan_index c |}.

(** The configuration, [*oper_chwidth] and the result. *)
Definition morse_validate_ht_channel_with_idx (op_class ht_center_channel idx : Z) (conf : hostapd_config) : outcome (hostapd_config * Z * Z) :=
  let conf := with_class op_class idx conf in
  let oper_chwidth := morse_s1g_op_class_to_ch_width op_class in
  if decide (oper_chwidth < 0) then Ok (conf, oper_chwidth, MORSE_S1G_RETURN_ERROR)
  else
    let conf := if decide (oper_chwidth <> 1) then set_secondary (if decide (Z.rem idx 2 <> 0) then -1 else 1) conf else conf in
    let seg0 := vht_oper_centr_freq_seg0_idx conf in
    let wide := Z.lor (ht_capab conf) HT_CAP_INFO_SUPP_CHANNEL_WIDTH_SET in
    let sgi mask bits := if decide (Z.land (s1g_capab conf) mask <> 0) then Z.lor (vht_capab conf) bits else vht_capab conf in
    match oper_chwidth with
    | 1 | 2 | 4 | 8 =>
        let conf :=
          match oper_chwidth with
          | 1 => with_width S1G_PRIM_CHWIDTH_1 (ht_capab conf) 0 seg0 (vht_capab conf) conf
          | 2 => with_width S1G_PRIM_CHWIDTH_1 wide 0 seg0 (vht_capab conf) conf
          | 4 => with_width S1G_PRIM_CHWIDTH_2 wide 1 (u8 ht_center_channel) (sgi S1G_CAP0_SGI_4MHZ VHT_CAP_SHORT_GI_80) conf
          | _ => with_width S1G_PRIM_CHWIDTH_2 wide 2 (u8 ht_center_channel)
                   (sgi S1G_CAP0_SGI_8MHZ (Z.lor VHT_CAP_SHORT_GI_80 VHT_CAP_SHORT_GI_160)) conf
          end in
        ht ← morse_ht_center_chan_to_ht_chan conf ht_center_channel; Ok (conf, oper_chwidth, ht)
    | _ => Ok (conf, oper_chwidth, MORSE_S1G_RETURN_ERROR)
    end.

(** ** Channel switch *)

Record hostapd_freq_params := {
  fq : Z;
  center_freq1 : Z;
  bandwidth : Z;
  prim_bandwidth : Z;
  sec_channel_offset : Z;
  ht_enabled : Z;
  vht_enabled : Z;
}.

Record hostapd_s1g_freq_params := {
  s1g_prim_channel_index_1MHz : Z;
  s1g_global_op_class : Z;
  s1g_prim_bw : Z;
  s1g_oper_bw : Z;
  s1g_oper_freq : Z;
  s1g_prim_ch_global_op_class : Z;
}.

Record csa_settings := { cs_count : Z; freq_params : hostapd_freq_params; s1g_freq_params : hostapd_s1g_freq_params }.

#[global] Instance hostapd_freq_params_eq_dec : EqDecision hostapd_freq_params.
Proof. solve_decision. Defined.
#[global] Instance hostapd_s1g_freq_params_eq_dec : EqDecision hostapd_s1g_freq_params.
Proof. solve_decision. Defined.
#[global] Instance csa_settings_eq_dec : EqDecision csa_settings.
Proof. solve_decision. Defined.

Definition IEEE80211_CHAN_1MHZ : Z := 1.
Definition IEEE80211_CHAN_2MHZ : Z := 2.

Section Csa.
Context (s1g_ht_chan_pairs : list s1g_ht_chan_pair).

Definition morse_s1g_csa_validate_primary_chan (conf : hostapd_config) (csa_ht20_frequency : Z) : outcome Z :=
  ht_center_chan ← morse_ht_chan_to_ht_chan_center conf (channel conf);
  let current_s1g_chan_center := morse_ht_chan_to_s1g_chan s1g_ht_chan_pairs ht_center_chan in
  let oper_chwidth := morse_s1g_op_class_to_ch_width (s1g_op_class conf) in
  if decide (oper_chwidth < 0) then Ok MORSE_S1G_RETURN_ERROR
  else if decide (s1g_prim_chwidth conf <> S1G_PRIM_CHWIDTH_1 /\ s1g_prim_chwidth conf <> S1G_PRIM_CHWIDTH_2) then Ok MORSE_S1G_RETURN_ERROR
  else
    let prim_chwidth := if decide (s1g_prim_chwidth conf = S1G_PRIM_CHWIDTH_1) then 1 else 2 in
    if decide (prim_chwidth > oper_chwidth) then Ok MORSE_S1G_RETURN_ERROR
    else
      let current_s1g_prim_chan := morse_cc_get_primary_s1g_channel oper_chwidth IEEE80211_CHAN_1MHZ current_s1g_chan_center
                                     (s1g_prim_1mhz_chan_index conf) (op_country conf) in
      let ht20_mapped_channel := morse_s1g_chan_to_ht20_prim_chan s1g_ht_chan_pairs current_s1g_chan_center current_s1g_prim_chan (op_country conf) in
      if decide (csa_ht20_frequency = ieee80211_channel_to_frequency ht20_mapped_channel NL80211_BAND_5GHZ)
      then Ok MORSE_S1G_RETURN_ERROR else Ok MORSE_SUCCESS.

(** The index of the 1 MHz primary channel, from the frequencies. *)
Definition csa_prim_index (s1g_bandwidth prim_freq center_freq : Z) : Z :=
  if decide (prim_freq > center_freq) then Z.quot ((s1g_bandwidth - 1) + Z.quot (prim_freq - center_freq) S1G_CHAN_SEP_KHZ) 2
  else if decide (prim_freq < center_freq) then Z.quot ((s1g_bandwidth - 1) - Z.quot (center_freq - prim_freq) S1G_CHAN_SEP_KHZ) 2
  else if decide (s1g_bandwidth = 1 \/ s1g_bandwidth = 2) then 0 else -1.

(** What [morse_s1g_validate_csa_params] computes from the five parameters, [None]
    for the errors before it assigns to them: secondary offset, bandwidth, centre
    and primary frequencies, index and the two classes. *)
Definition csa_convert (c : country) (s1g_bandwidth prim_bw prim_freq center_freq sec : Z) : option (Z * Z * Z * Z * Z * ah_class * ah_class) :=
  let s1g_op_channel := Z.quot (center_freq - morse_s1g_get_start_freq_for_country c center_freq s1g_bandwidth) S1G_CHAN_SEP_KHZ in
  let s1g_prim_channel := Z.quot (prim_freq - morse_s1g_get_start_freq_for_country c prim_freq prim_bw) S1G_CHAN_SEP_KHZ in
  match morse_s1g_ch_to_op_class (u8 s1g_bandwidth) (Some c) s1g_op_channel, morse_s1g_ch_to_op_class (u8 prim_bw) (Some c) s1g_prim_channel with
  | Some class, Some prim_class =>
      let idx := csa_prim_index s1g_bandwidth prim_freq center_freq in
      if decide (idx < 0 \/ idx > s1g_bandwidth - 1) then None
      else if decide (s1g_bandwidth <> IEEE80211_CHAN_1MHZ /\ sec <> -1 /\ sec <> 1) then None
      else
        let sec := if decide (s1g_bandwidth = IEEE80211_CHAN_1MHZ) then 0 else sec in
        let idx := if decide (sec = -1 /\ prim_bw = IEEE80211_CHAN_2MHZ) then idx + 1 else idx in
        let bw := match s1g_bandwidth with 8 => 160 | 4 => 80 | 2 => 40 | _ => 20 end in
        let s1g_prim_1MHz_channel := morse_cc_get_primary_s1g_channel s1g_bandwidth IEEE80211_CHAN_1MHZ s1g_op_channel idx c in
        let ht20_mapped_channel := morse_s1g_chan_to_ht20_prim_chan s1g_ht_chan_pairs s1g_op_channel s1g_prim_1MHz_channel c in
        Some (sec, bw, morse_s1g_freq_to_ht_freq s1g_ht_chan_pairs center_freq class,
              ieee80211_channel_to_frequency ht20_mapped_channel NL80211_BAND_5GHZ, idx, class, prim_class)
  | _, _ => None
  end.

Definition morse_s1g_validate_csa_params (conf : hostapd_config) (settings : csa_settings) : outcome (Z * csa_settings) :=
  if decide (cs_count settings < 2) then Ok (MORSE_S1G_RETURN_ERROR, settings)
  else
    let fp := freq_params settings in
    let count := if decide (cs_count settings < 255) then cs_count settings + 1 else cs_count settings in
    match csa_convert (op_country conf) (bandwidth fp) (prim_bandwidth fp) (fq fp) (center_freq1 fp) (sec_channel_offset fp) with
    | None => Ok (MORSE_S1G_RETURN_ERROR, {| cs_count := count; freq_params := fp; s1g_freq_params := s1g_freq_params settings |})
    | Some (sec, bw, center, prim, idx, class, prim_class) =>
        let fp' := {| fq := prim; center_freq1 := center; bandwidth := bw; prim_bandwidth := prim_bandwidth fp;
                      sec_channel_offset := sec; ht_enabled := 1; vht_enabled := 1 |} in
        e ← morse_s1g_csa_validate_primary_chan conf prim;
        if decide (e <> 0) then Ok (MORSE_S1G_RETURN_ERROR, {| cs_count := count; freq_params := fp'; s1g_freq_params := s1g_freq_params settings |})
        else Ok (MORSE_SUCCESS, {| cs_count := count; freq_params := fp';
                   s1g_freq_params := {|
                     s1g_prim_channel_index_1MHz := idx; s1g_global_op_class := S1gTables.s1g_op_class class;
                     s1g_prim_bw := prim_bandwidth fp; s1g_oper_bw := bandwidth fp; s1g_oper_freq := center_freq1 fp;
                     s1g_prim_ch_global_op_class := global_op_class prim_class |} |})
    end.
End Csa.

(** ** A configured channel *)

(** Channel [ch] of class [k] of country [c], with primary index [i]. *)
Definition is_channel (c : country) (k : ah_class) (ch i : Z) : Prop :=
  c ∈ countries /\ k ∈ classes /\ morse_s1g_op_class_has_cc k c = true /\ 1 <= ch <= 51 /\ enabled k ch = true /\ 0 <= i < s1g_width k.

Definition sec_of (w i : Z) : Z := if decide (w = 1) then 0 else if decide (Z.rem i 2 <> 0) then -1 else 1.
Definition vht_of (w : Z) : Z := match w with 4 => CHANWIDTH_80MHZ | 8 => CHANWIDTH_160MHZ | _ => CHANWIDTH_USE_HT end.

(** The HT channels that stand for the channel and for its 1 MHz primary channel. *)
Definition ht_center (c : country) (ch : Z) : Z := morse_s1g_chan_to_ht_chan (map_of c) ch.
Definition ht_primary (c : country) (k : ah_class) (ch i : Z) : Z := ht_center c ch + 2 * (2 * i - (s1g_width k - 1)).
Definition ht_primary_freq (c : country) (k : ah_class) (ch i : Z) : Z := ieee80211_channel_to_frequency (ht_primary c k ch i) NL80211_BAND_5GHZ.

(** A configuration set up for it; the HT channel is the primary one. *)
Definition configured (c : country) (k : ah_class) (ch i : Z) (conf : hostapd_config) : Prop :=
  op_country conf = c /\ channel conf = ht_primary c k ch i /\ ieee80211ac conf = 1 /\ vht_oper_chwidth conf = vht_of (s1g_width k) /\
  secondary_channel conf = sec_of (s1g_width k) i /\ s1g_prim_1mhz_chan_index conf = i /\ s1g_op_class conf = s1g_op_class_idx k /\
  (s1g_prim_chwidth conf = S1G_PRIM_CHWIDTH_1 \/ s1g_prim_chwidth conf = S1G_PRIM_CHWIDTH_2 /\ 2 <= s1g_width k).

Definition set_channel (v : Z) (c : hostapd_config) : hostapd_config := {|
  channel := v; op_country := op_country c; ieee80211n := ieee80211n c; ieee80211ac := ieee80211ac c; secondary_channel := secondary_channel c;
  vht_oper_chwidth := vht_oper_chwidth c; vht_oper_centr_freq_seg0_idx := vht_oper_centr_freq_seg0_idx c;
  ht_capab := ht_capab c; vht_capab := vht_capab c; s1g_capab := s1g_capab c;
  s1g_op_class := s1g_op_class c; s1g_prim_chwidth := s1g_prim_chwidth c; s1g_prim_1mhz_chan_index := s1g_prim_1mhz_chan_index c |}.

(** The members the conversions look at, to evaluate them on. *)
Definition bare (c : country) (ac vht sec idx ch : Z) : hostapd_config := {|
  channel := ch; op_country := c; ieee80211n := 0; ieee80211ac := ac; secondary_channel := sec; vht_oper_chwidth := vht;
  vht_oper_centr_freq_seg0_idx := 0; ht_capab := 0; vht_capab := 0; s1g_capab := 0; s1g_op_class := 0; s1g_prim_chwidth := 0;
  s1g_prim_1mhz_chan_index := idx |}.
Definition view (conf : hostapd_config) : hostapd_config :=
  bare (op_country conf) (ieee80211ac conf) (vht_oper_chwidth conf) (secondary_channel conf) (s1g_prim_1mhz_chan_index conf) (channel conf).

Lemma to_center_view conf ht : morse_ht_chan_to_ht_chan_center conf ht = morse_ht_chan_to_ht_chan_center (view conf) ht.
Proof. reflexivity. Qed.
Lemma to_ht_view conf ch ht : morse_ht_center_chan_to_ht_chan conf ht = morse_ht_center_chan_to_ht_chan (view (set_channel ch conf)) ht.
Proof. reflexivity. Qed.
Lemma get_primary_view pairs conf bw : morse_s1g_get_primary_channel pairs conf bw = morse_s1g_get_primary_channel pairs (view conf) bw.
Proof. reflexivity. Qed.

Definition channel_ok (c : country) (k : ah_class) (ch : Z) : bool :=
  let w := s1g_width k in
  forallb (fun i =>
    let ht := ht_primary c k ch i in let conf := bare c 1 (vht_of w) (sec_of w i) i ht in
    bool_decide (morse_ht_chan_to_ht_chan_center conf ht = Ok (ht_center c ch) /\ morse_ht_center_chan_to_ht_chan conf (ht_center c ch) = Ok ht /\
      morse_ht_chan_to_s1g_chan (map_of c) (ht_center c ch) = ch /\
      morse_s1g_get_primary_channel (map_of c) conf 1 = Ok (morse_cc_get_primary_s1g_channel w 1 ch i c) /\
      morse_s1g_get_primary_channel (map_of c) conf 2 = Ok (morse_cc_get_primary_s1g_channel w 2 ch i c))) (seqZ 0 w).

Lemma channel_ok_everywhere : everywhere channel_ok = true.
Proof. vm_compute. reflexivity. Qed.

Lemma everywhere_index (P : country -> ah_class -> Z -> Z -> bool) c k ch i :
  everywhere (fun c k ch => forallb (P c k ch) (seqZ 0 (s1g_width k))) = true -> is_channel c k ch i -> P c k ch i = true.
Proof.
  intros H (Hc & Hk & Hcc & Hch & He & Hi). apply (everywhere_at _ c k ch) in H; [|done|by apply elem_classes_of|done|done].
  cbn beta in H. apply (forallb_elem _ _ i) in H; [done|]. apply elem_of_seqZ. lia.
Qed.

Lemma channel_facts c k ch i : is_channel c k ch i ->
  let w := s1g_width k in let ht := ht_primary c k ch i in let conf := bare c 1 (vht_of w) (sec_of w i) i ht in
  morse_ht_chan_to_ht_chan_center conf ht = Ok (ht_center c ch) /\ morse_ht_center_chan_to_ht_chan conf (ht_center c ch) = Ok ht /\
  morse_ht_chan_to_s1g_chan (map_of c) (ht_center c ch) = ch /\
  morse_s1g_get_primary_channel (map_of c) conf 1 = Ok (morse_cc_get_primary_s1g_channel w 1 ch i c) /\
  morse_s1g_get_primary_channel (map_of c) conf 2 = Ok (morse_cc_get_primary_s1g_channel w 2 ch i c).
Proof. intros H. pose proof (everywhere_index _ c k ch i channel_ok_everywhere H) as H1. by apply bool_decide_eq_true in H1. Qed.

Lemma configured_view c k ch i conf : configured c k ch i conf ->
  view conf = bare c 1 (vht_of (s1g_width k)) (sec_of (s1g_width k) i) i (ht_primary c k ch i).
Proof. intros (H1 & H2 & H3 & H4 & H5 & H6 & _). unfold view. by rewrite H1, H2, H3, H4, H5, H6. Qed.

Lemma class_width k : k ∈ classes ->
  morse_s1g_op_class_to_ch_width (s1g_op_class_idx k) = s1g_width k /\ s1g_width k ∈ [1; 2; 4; 8].
Proof.
  assert (H : forallb (fun k => bool_decide (morse_s1g_op_class_to_ch_width (s1g_op_class_idx k) = s1g_width k /\ s1g_width k ∈ [1; 2; 4; 8])) classes = true)
    by (vm_compute; reflexivity).
  intros Hk. apply (forallb_elem _ _ k H) in Hk. by apply bool_decide_eq_true in Hk.
Qed.

(** What [morse_validate_ht_channel_with_idx] makes of a configuration. *)
Lemma validate_configures c k ch i conf :
  is_channel c k ch i -> op_country conf = c -> (s1g_width k = 1 -> secondary_channel conf = 0) ->
  exists conf', morse_validate_ht_channel_with_idx (s1g_op_class_idx k) (ht_center c ch) i conf = Ok (conf', s1g_width k, ht_primary c k ch i) /\
    configured c k ch i (set_channel (ht_primary c k ch i) conf').
Proof.
  intros Hch Hcc Hsec. pose proof (channel_facts _ _ _ _ Hch) as (_ & Ht & _). destruct Hch as (_ & Hk & _ & _ & _ & Hi).
  destruct (class_width k Hk) as [Hw Hin]. unfold morse_validate_ht_channel_with_idx. rewrite Hw. rewrite decide_False by lia.
  set (C := with_class (s1g_op_class_idx k) i conf).
  set (S := if decide (s1g_width k <> 1) then set_secondary (if decide (Z.rem i 2 <> 0) then -1 else 1) C else C). cbv zeta.
  assert (HS : secondary_channel S = sec_of (s1g_width k) i).
  { unfold S, sec_of. destruct (decide (s1g_width k = 1)) as [Hw1|Hw1]; [rewrite decide_False by (intros Hn; by apply Hn); by apply Hsec|by rewrite decide_True]. }
  assert (HO : op_country S = c /\ ieee80211ac S = 1 /\ s1g_prim_1mhz_chan_index S = i /\ s1g_op_class S = s1g_op_class_idx k) by (unfold S; case_decide; done).
  clearbody S. clear C. destruct HO as (HO1 & HO2 & HO3 & HO4).
  assert (Hgen : forall prim ht vht seg0 vc, vht = vht_of (s1g_width k) ->
    (prim = S1G_PRIM_CHWIDTH_1 \/ prim = S1G_PRIM_CHWIDTH_2 /\ 2 <= s1g_width k) ->
    let S' := with_width prim ht vht seg0 vc S in
    exists conf', (h ← morse_ht_center_chan_to_ht_chan S' (ht_center c ch); Ok (S', s1g_width k, h)) = Ok (conf', s1g_width k, ht_primary c k ch i) /\
      configured c k ch i (set_channel (ht_primary c k ch i) conf')).
  { intros prim ht vht seg0 vc -> Hp S'. exists S'.
    assert (Hcfg : configured c k ch i (set_channel (ht_primary c k ch i) S')) by (unfold configured; cbn; auto 10).
    split; [|exact Hcfg]. rewrite (to_ht_view S' (ht_primary c k ch i)), (configured_view c k ch i _ Hcfg), Ht. reflexivity. }
  rewrite !elem_of_cons in Hin. destruct Hin as [E|[E|[E|[E|Hin]]]]; [..|by apply elem_of_nil in Hin]; rewrite E in Hgen |- *;
    apply Hgen; try reflexivity; [by left|by left|right; split; [done|lia]|right; split; [done|lia]].
Qed.

(** Setting up any channel of any country gives the HT channel of its 1 MHz
    primary channel, and a configuration from which, with that HT channel in it,
    the centre channel, the 1 MHz and the 2 MHz primary channel are found again. *)
Theorem configure_channel_correct c k ch i conf :
  is_channel c k ch i -> op_country conf = c -> (s1g_width k = 1 -> secondary_channel conf = 0) ->
  exists conf', morse_validate_ht_channel_with_idx (s1g_op_class_idx k) (ht_center c ch) i conf = Ok (conf', s1g_width k, ht_primary c k ch i) /\
    let conf' := set_channel (ht_primary c k ch i) conf' in
    morse_ht_chan_to_ht_chan_center conf' (channel conf') = Ok (ht_center c ch) /\
    morse_s1g_get_primary_channel (map_of c) conf' 1 = Ok (morse_cc_get_primary_s1g_channel (s1g_width k) 1 ch i c) /\
    morse_s1g_get_primary_channel (map_of c) conf' 2 = Ok (morse_cc_get_primary_s1g_channel (s1g_width k) 2 ch i c).
Proof.
  intros Hch Hcc Hsec. destruct (validate_configures _ _ _ _ _ Hch Hcc Hsec) as (conf' & Hv & Hcfg).
  exists conf'. split; [exact Hv|]. cbv zeta. pose proof (configured_view _ _ _ _ _ Hcfg) as Hview.
  pose proof (channel_facts _ _ _ _ Hch) as (H1 & _ & _ & H3 & H4).
  rewrite (to_center_view (set_channel _ _)), (get_primary_view _ _ 1), (get_primary_view _ _ 2), Hview. split; [exact H1|]. by split.
Qed.

Definition ex_conf : hostapd_config := bare (cc "AU") 0 0 0 0 0.
Lemma ex_channel : is_channel (cc "AU") au25 44 5.
Proof. split; [by_decide|]. split; [by_decide|]. split; [reflexivity|]. split; [lia|]. split; [reflexivity|cbn; lia]. Qed.

Lemma configure_channel_correct_witness :
  exists conf', morse_validate_ht_channel_with_idx (s1g_op_class_idx au25) (ht_center (cc "AU") 44) 5 ex_conf =
      Ok (conf', s1g_width au25, ht_primary (cc "AU") au25 44 5) /\
    let conf' := set_channel (ht_primary (cc "AU") au25 44 5) conf' in
    morse_ht_chan_to_ht_chan_center conf' (channel conf') = Ok (ht_center (cc "AU") 44) /\
    morse_s1g_get_primary_channel (map_of (cc "AU")) conf' 1 = Ok (morse_cc_get_primary_s1g_channel (s1g_width au25) 1 44 5 (cc "AU")) /\
    morse_s1g_get_primary_channel (map_of (cc "AU")) conf' 2 = Ok (morse_cc_get_primary_s1g_channel (s1g_width au25) 2 44 5 (cc "AU")).
Proof. apply configure_channel_correct; [exact ex_channel|reflexivity|done]. Defined.

(** A secondary channel left over from a wider channel: a 1 MHz channel whose
    neighbour is the centre of a 2 MHz one is taken for that 2 MHz channel. *)
Lemma stale_secondary_channel :
  exists conf, morse_validate_ht_channel_with_idx 1 (ht_center (cc "US") 5) 0 (set_secondary 1 (bare (cc "US") 0 0 0 0 0)) = Ok (conf, 1, 36) /\
    morse_ht_chan_to_ht_chan_center conf 36 = Ok (ht_center (cc "US") 6).
Proof. eexists. split; [vm_compute; reflexivity|vm_compute; reflexivity]. Qed.

(** ** Channel switches *)

Lemma current_primary c k ch i conf f :
  is_channel c k ch i -> configured c k ch i conf ->
  morse_s1g_csa_validate_primary_chan (map_of c) conf f =
  Ok (if decide (f = ht_primary_freq c k ch i) then MORSE_S1G_RETURN_ERROR else MORSE_SUCCESS).
Proof.
  intros Hch Hcfg. pose proof (channel_facts _ _ _ _ Hch) as (H1 & _ & H2 & _). pose proof Hch as (Hc & Hk & Hcc & Hr & He & Hi).
  destruct (class_width k Hk) as [Hw Hin]. unfold morse_s1g_csa_validate_primary_chan.
  rewrite to_center_view, (configured_view _ _ _ _ _ Hcfg). destruct Hcfg as (E1 & E2 & _ & _ & _ & E3 & E4 & E5). rewrite E2, H1.
  cbn [mbind outcome_bind]. rewrite E4, Hw, H2, E1, E3.
  pose proof (everywhere_index _ c k ch i primaries_ok_everywhere Hch) as Hp. cbn beta zeta in Hp.
  apply andb_prop in Hp as [_ Hp]. apply bool_decide_eq_true in Hp.
  change IEEE80211_CHAN_1MHZ with 1. rewrite Hp.
  rewrite decide_False by lia. rewrite decide_False by (destruct E5 as [-> | [-> _]]; unfold S1G_PRIM_CHWIDTH_1, S1G_PRIM_CHWIDTH_2; lia).
  assert ((if decide (s1g_prim_chwidth conf = S1G_PRIM_CHWIDTH_1) then 1 else 2) <= s1g_width k) as Hle.
  { destruct E5 as [-> | [-> Hw2]]; unfold S1G_PRIM_CHWIDTH_1, S1G_PRIM_CHWIDTH_2; case_decide; lia. }
  rewrite (decide_False (P := _ > s1g_width k)) by lia. unfold ht_primary_freq, ht_primary, ht_center. by destruct (decide (f = _)).
Qed.

(** The frequency of the primary channel of [pb] MHz, as a request names it. *)
Definition requested (c : country) (k : ah_class) (ch i pb : Z) : Z :=
  if decide (pb = 1) then slot1 (freq k ch) (s1g_width k) i else slot2 (freq k ch) (s1g_width k) i.

Definition convert_ok (pb : Z) (c : country) (k : ah_class) (ch : Z) : bool :=
  let w := s1g_width k in
  forallb (fun i => bool_decide (w < pb) ||
    match csa_convert (map_of c) c w pb (requested c k ch i pb) (freq k ch) (sec_of w i) with
    | Some (sec, bw, center, prim, idx, class, prim_class) =>
        bool_decide (sec = sec_of w i /\ bw = 20 * w /\ center = ht_freq c ch /\ prim = ht_primary_freq c k ch i /\ idx = i /\ class = k /\
          prim_class ∈ classes_of c /\ s1g_width prim_class = pb) && enabled prim_class (morse_cc_get_primary_s1g_channel w pb ch i c)
    | None => false
    end) (seqZ 0 w).

Lemma convert_ok_everywhere : forallb (fun pb => everywhere (convert_ok pb)) [1; 2] = true.
Proof. vm_compute. reflexivity. Qed.

Lemma csa_convert_channel c k ch i pb :
  is_channel c k ch i -> pb ∈ [1; 2] -> pb <= s1g_width k ->
  exists pk, csa_convert (map_of c) c (s1g_width k) pb (requested c k ch i pb) (freq k ch) (sec_of (s1g_width k) i) =
      Some (sec_of (s1g_width k) i, 20 * s1g_width k, ht_freq c ch, ht_primary_freq c k ch i, i, k, pk) /\
    pk ∈ classes_of c /\ s1g_width pk = pb /\ enabled pk (morse_cc_get_primary_s1g_channel (s1g_width k) pb ch i c) = true.
Proof.
  intros Hch Hpb Hle. pose proof (forallb_elem _ _ pb convert_ok_everywhere Hpb) as H.
  apply (everywhere_index _ c k ch i) in H; [|done]. cbn beta in H. rewrite bool_decide_eq_false_2 in H by lia.
  destruct (csa_convert _ _ _ _ _ _ _) as [[[[[[[sec bw] center] prim] idx] class] pk]|]; [|done].
  apply andb_prop in H as [H He]. apply bool_decide_eq_true in H as (-> & -> & -> & -> & -> & -> & Hpk & Hw). by exists pk.
Qed.

(** The centre of the 1 MHz primary channel. *)
Definition primary_freq (k : ah_class) (ch i : Z) : Z := slot1 (freq k ch) (s1g_width k) i.

(** Japan's second set of classes, between the channels of the first. *)
Definition jp_second (k : ah_class) : bool := bool_decide (s1g_op_class_idx k = 10 \/ s1g_op_class_idx k = 12).

(** Two HT channels stand for one 1 MHz primary channel: one in a channel of the
    first set of Japan's classes, one in a channel of the second. *)
Definition stands_twice (k k0 : ah_class) (f : Z) : Prop := jp_second k <> jp_second k0 /\ 924000 <= f <= 926000.

(** All channels of a country with all their primary indices. *)
Definition entries (c : country) : list (ah_class * Z * Z) :=
  flat_map (fun k => flat_map (fun ch => if enabled k ch then map (fun i => (k, ch, i)) (seqZ 0 (s1g_width k)) else []) s1g_channels) (classes_of c).

Lemma elem_entries c k ch i : is_channel c k ch i -> (k, ch, i) ∈ entries c.
Proof.
  intros (_ & Hk & Hcc & Hch & He & Hi). unfold entries. apply list_elem_of_In, in_flat_map. exists k.
  split; [by apply list_elem_of_In, elem_classes_of|]. apply in_flat_map. exists ch. split; [by apply list_elem_of_In, elem_channels|].
  rewrite He. apply in_map, list_elem_of_In, elem_of_seqZ. lia.
Qed.

Definition same_ok (c : country) (p q : ah_class * Z * Z) : bool :=
  let '(k, ch, i) := p in let '(k0, ch0, i0) := q in
  eqb (bool_decide (ht_primary_freq c k ch i = ht_primary_freq c k0 ch0 i0))
      (bool_decide (primary_freq k ch i = primary_freq k0 ch0 i0) &&
       negb (bool_decide (jp_second k <> jp_second k0 /\ 924000 <= primary_freq k ch i <= 926000))).

Lemma same_ok_everywhere : forallb (fun c => let l := entries c in forallb (fun p => forallb (same_ok c p) l) l) countries = true.
Proof. vm_compute. reflexivity. Qed.

(** The HT frequencies the code compares are the same exactly when the 1 MHz primary
    channels are, with the exception of Japan. *)
Lemma same_primary c k ch i k0 ch0 i0 :
  is_channel c k ch i -> is_channel c k0 ch0 i0 ->
  ht_primary_freq c k ch i <> ht_primary_freq c k0 ch0 i0 <->
  primary_freq k ch i <> primary_freq k0 ch0 i0 \/ stands_twice k k0 (primary_freq k ch i).
Proof.
  intros H H0. pose proof (forallb_elem _ _ c same_ok_everywhere (proj1 H)) as E. cbn zeta beta in E.
  apply (forallb_elem _ _ (k, ch, i)) in E; [|by apply elem_entries]. apply (forallb_elem _ _ (k0, ch0, i0)) in E; [|by apply elem_entries].
  cbn beta iota in E. unfold same_ok, stands_twice in *. apply eqb_prop in E. revert E.
  repeat case_bool_decide; cbn; intros; intuition congruence.
Qed.

(** C29: an access point set up for any channel of a country that is asked to switch
    to any channel of the country, with any 1 or 2 MHz primary channel in it,
    refuses exactly when the centre of the 1 MHz primary channel stays the same,
    with one exception: in Japan, between a channel of the classes 8, 9 and 11 and
    one of the classes 10 and 12, it accepts the same primary channel at 924, 925
    or 926 MHz, because it compares the HT channels that stand for them
    ([jp_same_primary_accepted]).  When it accepts, it switches to the HT channels
    that stand for the requested ones, and announces the class of the channel and
    that of the primary channel. *)
Theorem channel_switch_correct c k0 ch0 i0 conf k ch i pb s :
  is_channel c k0 ch0 i0 -> configured c k0 ch0 i0 conf ->
  is_channel c k ch i -> pb ∈ [1; 2] -> pb <= s1g_width k -> 2 <= cs_count s ->
  let fp := freq_params s in
  bandwidth fp = s1g_width k -> prim_bandwidth fp = pb -> center_freq1 fp = freq k ch -> fq fp = requested c k ch i pb ->
  sec_channel_offset fp = sec_of (s1g_width k) i ->
  exists e s', morse_s1g_validate_csa_params (map_of c) conf s = Ok (e, s') /\
    (e = MORSE_SUCCESS <-> primary_freq k ch i <> primary_freq k0 ch0 i0 \/ stands_twice k k0 (primary_freq k ch i)) /\
    (e = MORSE_SUCCESS -> exists pk, pk ∈ classes_of c /\ s1g_width pk = pb /\
       enabled pk (morse_cc_get_primary_s1g_channel (s1g_width k) pb ch i c) = true /\
       s' = {| cs_count := if decide (cs_count s < 255) then cs_count s + 1 else cs_count s;
               freq_params := {| fq := ht_primary_freq c k ch i; center_freq1 := ht_freq c ch; bandwidth := 20 * s1g_width k;
                 prim_bandwidth := pb; sec_channel_offset := sec_of (s1g_width k) i; ht_enabled := 1; vht_enabled := 1 |};
               s1g_freq_params := {| s1g_prim_channel_index_1MHz := i; s1g_global_op_class := S1gTables.s1g_op_class k; s1g_prim_bw := pb;
                 s1g_oper_bw := s1g_width k; s1g_oper_freq := freq k ch; s1g_prim_ch_global_op_class := global_op_class pk |} |}).
Proof.
  intros Hch0 Hcfg Hch Hpb Hle Hcs fp Hbw Hpw Hcf Hfq Hsec. unfold morse_s1g_validate_csa_params. rewrite decide_False by lia.
  pose proof Hcfg as (Hcc & _). fold fp. rewrite Hcc, Hbw, Hpw, Hcf, Hfq, Hsec.
  destruct (csa_convert_channel c k ch i pb Hch Hpb Hle) as (pk & -> & Hpk & Hpkw & Hpke). cbv zeta.
  rewrite (current_primary c k0 ch0 i0 conf _ Hch0 Hcfg). cbn [mbind outcome_bind].
  pose proof (same_primary c k ch i k0 ch0 i0 Hch Hch0) as Hsp.
  destruct (decide (ht_primary_freq c k ch i = ht_primary_freq c k0 ch0 i0)) as [Hsame|Hsame].
  - rewrite (decide_True (P := MORSE_S1G_RETURN_ERROR <> 0)) by (intros Hn; discriminate Hn). eexists _, _. split; [reflexivity|]. split; [rewrite <- Hsp|intros Hn; discriminate Hn].
    split; [intros Hn; discriminate Hn|]. intros Hd. by destruct Hd.
  - rewrite (decide_False (P := MORSE_SUCCESS <> 0)) by (intros Hn; by apply Hn). eexists _, _. split; [reflexivity|]. split; [rewrite <- Hsp; by split|]. intros _. exists pk. by repeat split.
Qed.

Definition ex_settings : csa_settings := {|
  cs_count := 5; freq_params := {| fq := 921500; center_freq1 := 922000; bandwidth := 4; prim_bandwidth := 1; sec_channel_offset := -1; ht_enabled := 0; vht_enabled := 0 |};
  s1g_freq_params := {| s1g_prim_channel_index_1MHz := 0; s1g_global_op_class := 0; s1g_prim_bw := 0; s1g_oper_bw := 0; s1g_oper_freq := 0;
    s1g_prim_ch_global_op_class := 0 |} |}.
Definition ex_configured : hostapd_config := {|
  channel := 165; op_country := cc "AU"; ieee80211n := 1; ieee80211ac := 1; secondary_channel := 1; vht_oper_chwidth := 2; vht_oper_centr_freq_seg0_idx := 163;
  ht_capab := 2; vht_capab := 0; s1g_capab := 0; s1g_op_class := 25; s1g_prim_chwidth := 1; s1g_prim_1mhz_chan_index := 4 |}.
Lemma ex_configured_ok : configured (cc "AU") au25 44 4 ex_configured.
Proof. unfold configured. repeat (split; [vm_compute; reflexivity|]). right. split; [reflexivity|cbn; lia]. Qed.

Lemma channel_switch_correct_witness :
  exists e s', morse_s1g_validate_csa_params (map_of (cc "AU")) ex_configured ex_settings = Ok (e, s') /\
    (e = MORSE_SUCCESS <-> primary_freq au24 40 1 <> primary_freq au25 44 4 \/ stands_twice au24 au25 (primary_freq au24 40 1)) /\
    (e = MORSE_SUCCESS -> exists pk, pk ∈ classes_of (cc "AU") /\ s1g_width pk = 1 /\
       enabled pk (morse_cc_get_primary_s1g_channel (s1g_width au24) 1 40 1 (cc "AU")) = true /\
       s' = {| cs_count := if decide (cs_count ex_settings < 255) then cs_count ex_settings + 1 else cs_count ex_settings;
               freq_params := {| fq := ht_primary_freq (cc "AU") au24 40 1; center_freq1 := ht_freq (cc "AU") 40; bandwidth := 20 * s1g_width au24;
                 prim_bandwidth := 1; sec_channel_offset := sec_of (s1g_width au24) 1; ht_enabled := 1; vht_enabled := 1 |};
               s1g_freq_params := {| s1g_prim_channel_index_1MHz := 1; s1g_global_op_class := S1gTables.s1g_op_class au24; s1g_prim_bw := 1;
                 s1g_oper_bw := s1g_width au24; s1g_oper_freq := freq au24 40; s1g_prim_ch_global_op_class := global_op_class pk |} |}).
Proof.
  apply (channel_switch_correct (cc "AU") au25 44 4 ex_configured au24 40 1 1 ex_settings).
  - split; [by_decide|]. split; [by_decide|]. split; [reflexivity|]. split; [lia|]. split; [reflexivity|cbn; lia].
  - exact ex_configured_ok.
  - split; [by_decide|]. split; [by_decide|]. split; [reflexivity|]. split; [lia|]. split; [reflexivity|cbn; lia].
  - by left.
  - cbn. lia.
  - cbn. lia.
  - reflexivity.
  - reflexivity.
  - reflexivity.
  - reflexivity.
  - reflexivity.
Defined.

(** In Japan both of two channels have the S1G channel 15, at 924.0 MHz, as their
    primary channel, and the switch between them is accepted. *)
Definition ex_japan : hostapd_config := {|
  channel := ht_primary (cc "JP") jp9 2 1; op_country := cc "JP"; ieee80211n := 1; ieee80211ac := 1; secondary_channel := -1; vht_oper_chwidth := 0;
  vht_oper_centr_freq_seg0_idx := 0; ht_capab := 2; vht_capab := 0; s1g_capab := 0; s1g_op_class := 9; s1g_prim_chwidth := 0; s1g_prim_1mhz_chan_index := 1 |}.
Definition ex_japan_settings : csa_settings := {|
  cs_count := 5; freq_params := {| fq := 924000; center_freq1 := freq jp10 4; bandwidth := 2; prim_bandwidth := 1; sec_channel_offset := 1; ht_enabled := 0; vht_enabled := 0 |};
  s1g_freq_params := s1g_freq_params ex_settings |}.

Lemma jp_same_primary_accepted :
  configured (cc "JP") jp9 2 1 ex_japan /\
  primary_freq jp9 2 1 = 924000 /\ primary_freq jp10 4 0 = 924000 /\
  morse_cc_get_primary_s1g_channel 2 1 2 1 (cc "JP") = 15 /\ morse_cc_get_primary_s1g_channel 2 1 4 0 (cc "JP") = 15 /\
  match morse_s1g_validate_csa_params (map_of (cc "JP")) ex_japan ex_japan_settings with Ok (e, _) => e = MORSE_SUCCESS | _ => False end.
Proof.
  split; [|vm_compute; by split_and!].
  unfold configured. repeat (split; [vm_compute; reflexivity|]). by left.
Qed.
End S1gCsa.
