(* ===== verification/S1gOpClasses.v ===== *)
(** The Supported Operating Classes element: [morse_insert_supported_op_class] and
    [morse_remove_duplicates_and_sort_buf] of [src/utils/morse.c],
    [wpas_supp_s1g_op_class_ie] of [wpa_supplicant/op_classes.c], the growing
    buffer they use ([src/utils/wpabuf.h]), and the frequencies of a beacon request,
    [wpa_supplicant/rrm.c]; all under [framework/src/hostap].

    An information element is its octets, identifier and length included. *)

From stdpp Require Import sorting.
From S2P Require Import Prelude CStr S1gTables S1gChan.

Module S1gOpClasses.
Import S1gTables S1gChan.

(** ** wpabuf *)

Record wpabuf := mk_buf { size : Z; used : Z; data : bytes }.

Definition wpabuf_alloc (len : Z) : wpabuf := mk_buf len 0 (replicate (Z.to_nat len) 0).

(** [wpabuf_put(buf, 1)]: the position; [wpabuf_overflow] aborts. *)
Definition wpabuf_put1 (b : wpabuf) : outcome (wpabuf * Z) :=
  if decide (used b + 1 > size b) then Fail AssertFailed else Ok (mk_buf (size b) (used b + 1) (data b), used b).

Definition wpabuf_put_u8 (b : wpabuf) (v : Z) : outcome wpabuf :=
  '(b, pos) ← wpabuf_put1 b; d ← wr (data b) pos v; Ok (mk_buf (size b) (used b) d).

(** ** Duplicates and order *)

(** [for (k = j; k < ie_len; k++) ie_buf[k] = ie_buf[k + 1]]; [n] turns. *)
Fixpoint shift_loop (n : nat) (b : bytes) (k : Z) : outcome bytes :=
  match n with
  | O => Ok b
  | S n => v ← rd b (k + 1); b ← wr b k v; shift_loop n b (k + 1)
  end.

(** The loop over [j]; each turn brings [j] and [ie_len] one closer. *)
Fixpoint dup_inner (fuel : nat) (b : bytes) (i j ie_len : Z) : outcome (bytes * Z) :=
  match fuel with
  | O => Fail OutOfFuel
  | S fuel =>
      if decide (j < ie_len) then
        x ← rd b i; y ← rd b j;
        if decide (x = y) then
          b ← shift_loop (Z.to_nat (ie_len - j)) b j;
          dup_inner fuel b i j (ie_len - 1)
        else dup_inner fuel b i (j + 1) ie_len
      else Ok (b, ie_len)
  end.

Fixpoint dup_outer (fuel : nat) (b : bytes) (i ie_len : Z) : outcome (bytes * Z) :=
  match fuel with
  | O => Fail OutOfFuel
  | S fuel =>
      if decide (i < ie_len) then
        '(b, ie_len) ← dup_inner (Z.to_nat (ie_len - i)) b i (i + 1) ie_len;
        dup_outer fuel b (i + 1) ie_len
      else Ok (b, ie_len)
  end.

Fixpoint sort_inner (n : nat) (b : bytes) (i j : Z) : outcome bytes :=
  match n with
  | O => Ok b
  | S n =>
      x ← rd b i; y ← rd b j;
      b ← (if decide (x > y) then b ← wr b i y; wr b j x else Ok b);
      sort_inner n b i (j + 1)
  end.

Fixpoint sort_outer (n : nat) (b : bytes) (i len : Z) : outcome bytes :=
  match n with
  | O => Ok b
  | S n => b ← sort_inner (Z.to_nat (len - (i + 1))) b i (i + 1); sort_outer n b (i + 1) len
  end.

Definition morse_remove_duplicates_and_sort_buf (buf : wpabuf) (buf_offset : Z) : outcome wpabuf :=
  '(d, n) ← dup_outer (S (Z.to_nat (used buf - buf_offset))) (data buf) buf_offset (used buf);
  d ← sort_outer (Z.to_nat (n - buf_offset)) d buf_offset n;
  Ok (mk_buf (size buf) n d).

(** ** The classes of a country *)

Fixpoint insert_loop (l : list Z) (c : country) (b : wpabuf) : outcome wpabuf :=
  match l with
  | [] => Ok b
  | i :: l =>
      b ← (match morse_s1g_op_class_valid (u8 i) with
           | (OP_CLASS_S1G_LOCAL, Some class) => if morse_s1g_op_class_has_cc class c then wpabuf_put_u8 b (global_op_class class) else Ok b
           | _ => Ok b
           end);
      insert_loop l c b
  end.

Definition morse_insert_supported_op_class (b : wpabuf) (c : country) (s1g_ch_width s1g_op_chan : Z) : outcome (wpabuf * Z) :=
  match morse_s1g_ch_to_op_class (u8 s1g_ch_width) (Some c) s1g_op_chan with
  | None => Ok (b, MORSE_S1G_RETURN_ERROR)
  | Some current_class =>
      b ← wpabuf_put_u8 b (global_op_class current_class);
      b ← insert_loop (seqZ 0 S1G_OP_CLASSES_LEN) c b;
      Ok (b, MORSE_SUCCESS)
  end.

(** ** The element *)

Definition WLAN_EID_SUPPORTED_OPERATING_CLASSES : Z := 59.
Definition S1G_OP_CLASS_IE_LEN : Z := 3.
Definition HT_INFO_HT_PARAM_SECONDARY_CHNL_OFF_MASK : Z := 3.
Definition HT_INFO_HT_PARAM_STA_CHNL_WIDTH : Z := 4.
Definition S1G_OPERATION_OPERATING_CHANNEL_WIDTH_MASK : Z := 30.
Definition S1G_OPERATION_OPERATING_CHANNEL_WIDTH_SHIFT : Z := 1.

(** What the function has found out before it inserts classes. *)
Record found := { ht_param : Z; sec_chan : Z; op_chan : Z }.

Section Ie.
Context (s1g_ht_chan_pairs : list s1g_ht_chan_pair).

Definition read_ht (c : country) (ht_ie : option bytes) : outcome found :=
  let none := {| ht_param := 0; sec_chan := 0; op_chan := -1 |} in
  match ht_ie with
  | None => Ok none
  | Some ie =>
      l ← rd ie 1;
      if decide (l >= 2) then
        primary ← rd ie 2; param ← rd ie 3;
        let sec := morse_cc_get_sec_channel_offset (Z.land param HT_INFO_HT_PARAM_SECONDARY_CHNL_OFF_MASK) c in
        let ht_chan := if is_jp c then u8 (primary - morse_ht_chan_offset_jp primary MORSE_INVALID_CHANNEL 1) else primary in
        Ok {| ht_param := param; sec_chan := sec; op_chan := morse_ht_chan_to_s1g_chan s1g_ht_chan_pairs ht_chan |}
      else Ok none
  end.

(** The three insertions; [None] where the function gives up. *)
Definition insert_s1g (b : wpabuf) (c : country) (s1g_op_ie : bytes) : outcome (option wpabuf) :=
  l ← rd s1g_op_ie 1;
  if decide (l >= 4) then
    ch_width ← rd s1g_op_ie 2; oper_ch ← rd s1g_op_ie 5;
    let width := u8 (Z.shiftr (Z.land ch_width S1G_OPERATION_OPERATING_CHANNEL_WIDTH_MASK) S1G_OPERATION_OPERATING_CHANNEL_WIDTH_SHIFT + 1) in
    '(b, r) ← morse_insert_supported_op_class b c width oper_ch;
    Ok (if decide (r = MORSE_S1G_RETURN_ERROR) then None else Some b)
  else Ok (Some b).

(** Whether the HT element decides, too. *)
Definition insert_vht (b : wpabuf) (c : country) (vht_ie : bytes) : outcome (option (wpabuf * bool)) :=
  l ← rd vht_ie 1;
  if decide (l >= 1) then
    chwidth ← rd vht_ie 2;
    if decide (chwidth = 1 \/ chwidth = 2) then
      seg0 ← rd vht_ie 3;
      let chan := morse_ht_chan_to_s1g_chan s1g_ht_chan_pairs seg0 in
      if decide (chan < 0) then Ok None
      else
        '(b, r) ← morse_insert_supported_op_class b c (if decide (chwidth = 1) then 4 else 8) chan;
        Ok (if decide (r < 0) then None else Some (b, false))
    else Ok (Some (b, bool_decide (chwidth = 0)))
  else Ok (Some (b, false)).

Definition insert_ht (b : wpabuf) (c : country) (f : found) : outcome (option wpabuf) :=
  let wide := bool_decide (Z.land (ht_param f) HT_INFO_HT_PARAM_STA_CHNL_WIDTH <> 0 /\ sec_chan f <> 0) in
  '(b, r) ← morse_insert_supported_op_class b c (if wide then 2 else 1) (if wide then op_chan f + sec_chan f else op_chan f);
  Ok (if decide (r = MORSE_S1G_RETURN_ERROR) then None else Some b).

(** [None] for a result of 0, otherwise the octets copied to [pos]. *)
Definition wpas_supp_s1g_op_class_ie (alloc_ok : bool) (country_ie ht_ie s1g_op_ie vht_ie : option bytes) (len : Z) : outcome (option bytes) :=
  if negb alloc_ok then Ok None
  else
    match country_ie with
    | None => Ok None
    | Some cie =>
        c0 ← rd cie 2; c1 ← rd cie 3;
        let c := (c0, c1) in
        f ← read_ht c ht_ie;
        b ← wpabuf_put_u8 (wpabuf_alloc (S1G_OP_CLASSES_LEN + S1G_OP_CLASS_IE_LEN)) WLAN_EID_SUPPORTED_OPERATING_CLASSES;
        '(b, ie_len) ← wpabuf_put1 b;
        r ← (match s1g_op_ie with Some ie => insert_s1g b c ie | None => Ok (Some b) end);
        match r with
        | None => Ok None
        | Some b =>
            r ← (match s1g_op_ie, vht_ie with
                 | None, Some ie => insert_vht b c ie
                 | _, _ => Ok (Some (b, false))
                 end);
            match r with
            | None => Ok None
            | Some (b, vht_use_ht) =>
                r ← (match s1g_op_ie, ht_ie with
                     | None, Some _ =>
                         if decide ((vht_ie = None \/ vht_use_ht = true) /\ op_chan f > 0) then insert_ht b c f else Ok (Some b)
                     | _, _ => Ok (Some b)
                     end);
                match r with
                | None => Ok None
                | Some b =>
                    b ← morse_remove_duplicates_and_sort_buf b S1G_OP_CLASS_IE_LEN;
                    d ← wr (data b) ie_len (u8 (used b - 2));
                    if decide (u8 (used b - 2) < 2) then Ok None
                    else if decide (used b > len) then Ok None
                    else Ok (Some (take (Z.to_nat (used b)) d))
                end
            end
        end
    end.
End Ie.

(** ** Frequencies of a beacon request *)

Definition NUMBER_OF_BITS_chans : Z := 64.

Definition get_num_of_channels (class : ah_class) : Z := zlen (List.filter (enabled class) (seqZ 0 NUMBER_OF_BITS_chans)).

(** The loop over the bits: the frequencies written and their number. *)
Fixpoint ht_frequency_loop (pairs : list s1g_ht_chan_pair) (l : list Z) (class : ah_class) (num_channels freq_added : Z) : list Z :=
  match l with
  | [] => []
  | ch :: l =>
      let here := if enabled class ch then [ieee80211_channel_to_frequency (morse_s1g_chan_to_ht_chan pairs ch) NL80211_BAND_5GHZ] else [] in
      let freq_added := freq_added + zlen here in
      here ++ if decide (num_channels = freq_added) then [] else ht_frequency_loop pairs l class num_channels freq_added
  end.

(** The array with its terminator, [None] for NULL; no frequency is negative, so
    that the loop's own error does not occur. *)
Definition get_s1g_to_ht_frequency_list (pairs : list s1g_ht_chan_pair) (alloc_ok : bool) (class : ah_class) : option (list Z) :=
  if alloc_ok then
    let l := ht_frequency_loop pairs (seqZ 0 NUMBER_OF_BITS_chans) class (get_num_of_channels class) 0 in
    if decide (l = []) then None else Some (l ++ [0])
  else None.

Definition add_single_s1g_to_ht_freq (pairs : list s1g_ht_chan_pair) (alloc_ok : bool) (chan bss_freq : Z) : option (list Z) :=
  let bw := morse_s1g_chan_to_bw pairs chan in
  if alloc_ok then
    let freq := ieee80211_channel_to_frequency (morse_s1g_chan_to_ht_chan pairs chan) NL80211_BAND_5GHZ in
    if decide (freq = 0) then None
    else
      match bw with
      | 1 => Some [freq; 0]
      | 2 | 4 | 8 =>
          let offset_from_center_freq := freq - bss_freq in
          if decide (offset_from_center_freq >= (bw - 1) * -10 /\ offset_from_center_freq <= (bw - 1) * 10) then Some [bss_freq; 0] else None
      | _ => None
      end
  else None.

(** The part of [wpas_beacon_request_freqs] for S1G classes; [None] when the class
    is not one.  [class] is not initialised: a global class leaves it so, and using
    it then is a fault. *)
Definition beacon_request_s1g (pairs : list s1g_ht_chan_pair) (alloc_ok : bool) (op_class chan bss_freq : Z) : outcome (option (option (list Z))) :=
  match morse_s1g_op_class_valid op_class with
  | (OP_CLASS_INVALID, _) => Ok None
  | (_, class) =>
      if decide (chan = 0) then
        match class with
        | Some class => Ok (Some (get_s1g_to_ht_frequency_list pairs alloc_ok class))
        | None => Fail OutOfBounds
        end
      else if decide (chan = 255) then Ok (Some None)
      else Ok (Some (add_single_s1g_to_ht_freq pairs alloc_ok chan bss_freq))
  end.

(** ** Lemmas: the loops on a buffer in parts *)

Lemma rd_mid A x R i : i = zlen A -> rd (A ++ x :: R) i = Ok x.
Proof. intros ->. apply rd_lookup. split; [lia|]. by rewrite Nat2Z.id, list_lookup_middle. Qed.

Lemma wr_mid A x R i v : i = zlen A -> wr (A ++ x :: R) i v = Ok (A ++ v :: R).
Proof.
  intros ->. rewrite wr_Ok by (rewrite length_app; cbn [length]; lia).
  rewrite Nat2Z.id, insert_app_r_alt, Nat.sub_diag by done. done.
Qed.

Lemma zlen_snoc {A} (l : list A) x : zlen (l ++ [x]) = zlen l + 1.
Proof. rewrite length_app. cbn [length]. lia. Qed.
Lemma zlen_cons {A} x (l : list A) : zlen (x :: l) = zlen l + 1.
Proof. cbn [length]. lia. Qed.
Lemma zlen_app {A} (l l' : list A) : zlen (l ++ l') = zlen l + zlen l'.
Proof. rewrite length_app. lia. Qed.

Lemma shift_loop_Ok L : forall A x R k, k = zlen A ->
  exists y, shift_loop (length L) (A ++ x :: L ++ R) k = Ok (A ++ L ++ y :: R).
Proof.
  induction L as [|z L IH]; intros A x R k ->; cbn [length shift_loop app]; [by exists x|].
  replace (A ++ x :: z :: L ++ R) with ((A ++ [x]) ++ z :: L ++ R) by (by rewrite <- app_assoc).
  rewrite rd_mid by (by rewrite zlen_snoc). cbn [mbind outcome_bind]. rewrite <- app_assoc. cbn [app]. rewrite wr_mid by done.
  cbn [mbind outcome_bind]. destruct (IH (A ++ [z]) z R (zlen A + 1)) as [y Hy]; [by rewrite zlen_snoc|].
  exists y. rewrite <- !app_assoc in Hy. exact Hy.
Qed.

Definition others (x : Z) (C : list Z) : list Z := List.filter (fun y => negb (Z.eqb x y)) C.

Lemma dup_inner_Ok fuel : forall A x B C R,
  R <> [] -> (length C < fuel)%nat ->
  exists R', R' <> [] /\ length (others x C ++ R') = length (C ++ R) /\
    dup_inner fuel (A ++ x :: B ++ C ++ R) (zlen A) (zlen A + 1 + zlen B) (zlen A + 1 + zlen B + zlen C) =
    Ok (A ++ x :: B ++ others x C ++ R', zlen A + 1 + zlen B + zlen (others x C)).
Proof.
  induction fuel as [|fuel IH]; intros A x B C R HR Hf; [lia|]. cbn [dup_inner]. destruct C as [|y C].
  - rewrite decide_False by (cbn [length]; lia). exists R. split; [exact HR|]. split; reflexivity.
  - rewrite decide_True by (rewrite zlen_cons; lia). cbn [app]. rewrite (rd_mid A x _ (zlen A) eq_refl). cbn [mbind outcome_bind].
    assert (Hj : forall y' T, rd (A ++ x :: B ++ y' :: T) (zlen A + 1 + zlen B) = Ok y').
    { intros y' T. replace (A ++ x :: B ++ y' :: T) with ((A ++ x :: B) ++ y' :: T) by (by rewrite <- app_assoc).
      apply rd_mid. rewrite zlen_app, zlen_cons. lia. }
    rewrite Hj. cbn [mbind outcome_bind]. unfold others. cbn [List.filter]. fold (others x C). case_decide as Hxy.
    + subst y. rewrite Z.eqb_refl. cbn [negb]. destruct R as [|s R]; [done|].
      destruct (shift_loop_Ok (C ++ [s]) (A ++ x :: B) x R (zlen A + 1 + zlen B)) as [s' Hs]; [rewrite zlen_app, zlen_cons; lia|].
      rewrite length_app in Hs. cbn [length] in Hs. rewrite <- !app_assoc in Hs. cbn [app] in Hs.
      replace (Z.to_nat (zlen A + 1 + zlen B + zlen (x :: C) - (zlen A + 1 + zlen B))) with (length C + 1)%nat by (rewrite zlen_cons; lia).
      rewrite Hs. cbn [mbind outcome_bind]. destruct (IH A x B C (s :: s' :: R)) as (R' & HR' & Hl & E); [done|cbn in Hf; lia|].
      exists R'. split; [exact HR'|]. split; [rewrite Hl; cbn; rewrite !length_app; cbn; lia|].
      replace (zlen A + 1 + zlen B + zlen (x :: C) - 1) with (zlen A + 1 + zlen B + zlen C) by (rewrite zlen_cons; lia). exact E.
    + rewrite (proj2 (Z.eqb_neq x y)) by done. cbn [negb].
      destruct (IH A x (B ++ [y]) C R) as (R' & HR' & Hl & E); [exact HR|cbn in Hf; lia|].
      exists R'. split; [exact HR'|]. split; [cbn; by rewrite Hl|].
      rewrite zlen_snoc in E. rewrite <- !app_assoc in E. cbn [app] in E. rewrite !zlen_cons.
      replace (zlen A + 1 + zlen B + 1) with (zlen A + 1 + (zlen B + 1)) by lia.
      replace (zlen A + 1 + zlen B + (zlen C + 1)) with (zlen A + 1 + (zlen B + 1) + zlen C) by lia. rewrite E.
      f_equal. f_equal. lia.
Qed.

Lemma elem_others x y C : y ∈ others x C <-> y ∈ C /\ x <> y.
Proof.
  unfold others. rewrite !list_elem_of_In, List.filter_In. destruct (Z.eqb_spec x y); cbn; naive_solver.
Qed.

Lemma length_others x C : (length (others x C) <= length C)%nat.
Proof. apply List.filter_length_le. Qed.

Lemma dup_outer_Ok fuel : forall A C R,
  R <> [] -> (length C < fuel)%nat ->
  exists L R', NoDup L /\ (forall v, v ∈ L <-> v ∈ C) /\ R' <> [] /\ length (L ++ R') = length (C ++ R) /\
    dup_outer fuel (A ++ C ++ R) (zlen A) (zlen A + zlen C) = Ok (A ++ L ++ R', zlen A + zlen L).
Proof.
  induction fuel as [|fuel IH]; intros A C R HR Hf; [lia|]. cbn [dup_outer]. destruct C as [|x C].
  - rewrite decide_False by (cbn [length]; lia). exists [], R. split; [constructor|]. split; [done|]. by split.
  - rewrite decide_True by (rewrite zlen_cons; lia).
    destruct (dup_inner_Ok (Z.to_nat (zlen A + zlen (x :: C) - zlen A)) A x [] C R) as (R1 & HR1 & Hl1 & E1);
      [exact HR|rewrite zlen_cons; lia|].
    change (zlen (@nil Z)) with 0 in E1. rewrite Z.add_0_r in E1. cbn [app] in E1 |- *.
    replace (zlen A + 1 + zlen C) with (zlen A + zlen (x :: C)) in E1 by (rewrite zlen_cons; lia). rewrite E1. cbn [mbind outcome_bind].
    destruct (IH (A ++ [x]) (others x C) R1) as (L & R2 & Hnd & Hin & HR2 & Hl2 & E2); [exact HR1|pose proof (length_others x C); cbn in Hf; lia|].
    exists (x :: L), R2. rewrite zlen_snoc in E2. rewrite <- !app_assoc in E2. cbn [app] in E2.
    split; [constructor; [rewrite Hin, elem_others; naive_solver|exact Hnd]|].
    split; [intros v; rewrite !elem_of_cons, Hin, elem_others; destruct (decide (v = x)); naive_solver|].
    split; [exact HR2|]. split; [cbn; rewrite Hl2, Hl1; done|]. rewrite E2, zlen_cons. f_equal. f_equal. lia.
Qed.

Lemma sort_inner_Ok C : forall A x B R j,
  j = zlen A + 1 + zlen B -> Forall (Z.le x) B ->
  exists x' D, x' :: D ≡ₚ x :: B ++ C /\ Forall (Z.le x') D /\
    sort_inner (length C) (A ++ x :: B ++ C ++ R) (zlen A) j = Ok (A ++ x' :: D ++ R).
Proof.
  induction C as [|y C IH]; intros A x B R j Hj HB; cbn [length sort_inner app].
  - exists x, B. split; [by rewrite app_nil_r|]. by split.
  - rewrite (rd_mid A x _ (zlen A) eq_refl). cbn [mbind outcome_bind].
    assert (Hsplit : forall x' y' T, A ++ x' :: B ++ y' :: T = (A ++ x' :: B) ++ y' :: T) by (intros; by rewrite <- app_assoc).
    assert (Hz : forall x', j = zlen (A ++ x' :: B)) by (intros; rewrite zlen_app, zlen_cons; lia).
    rewrite (Hsplit x y), (rd_mid (A ++ x :: B) y _ j (Hz x)), <- (Hsplit x y). cbn [mbind outcome_bind]. case_decide as Hxy.
    + rewrite (wr_mid A x _ (zlen A) y eq_refl). cbn [mbind outcome_bind].
      rewrite (Hsplit y y), (wr_mid (A ++ y :: B) y _ j x (Hz y)), <- (Hsplit y x). cbn [mbind outcome_bind].
      destruct (IH A y (B ++ [x]) R (j + 1)) as (x' & D & Hp & Hle & E).
      { rewrite zlen_snoc. lia. }
      { apply Forall_app. split; [|by repeat constructor; lia]. eapply list.Forall_impl; [exact HB|]. cbn. intros. lia. }
      exists x', D. split; [|split; [exact Hle|]].
      * rewrite Hp. rewrite <- app_assoc. cbn [app]. rewrite <- !Permutation_middle. apply Permutation_swap.
      * rewrite <- app_assoc in E. exact E.
    + destruct (IH A x (B ++ [y]) R (j + 1)) as (x' & D & Hp & Hle & E).
      { rewrite zlen_snoc. lia. }
      { apply Forall_app. split; [done|]. constructor; [lia|constructor]. }
      exists x', D. split; [|split; [exact Hle|]].
      * rewrite Hp. by rewrite <- app_assoc.
      * rewrite <- app_assoc in E. exact E.
Qed.

Lemma sort_outer_Ok n : forall A C R len, length C = n -> len = zlen A + zlen C ->
  exists L, L ≡ₚ C /\ StronglySorted Z.le L /\ sort_outer n (A ++ C ++ R) (zlen A) len = Ok (A ++ L ++ R).
Proof.
  induction n as [|n IH]; intros A C R len Hn Hlen; cbn [sort_outer].
  - destruct C; [|done]. exists []. split; [done|]. split; [constructor|done].
  - destruct C as [|x C]; [done|]. cbn [app]. rewrite zlen_cons in Hlen. cbn [length] in Hn. injection Hn as Hn.
    replace (Z.to_nat (len - (zlen A + 1))) with (length C) by lia.
    destruct (sort_inner_Ok C A x [] R (zlen A + 1)) as (x' & D & Hp & Hle & E); [cbn [length]; lia|constructor|].
    cbn [app] in E. rewrite E. cbn [mbind outcome_bind]. cbn [app] in Hp.
    destruct (IH (A ++ [x']) D R len) as (L & HpL & HsL & EL).
    { apply Permutation_length in Hp. cbn in Hp. lia. }
    { apply Permutation_length in Hp. cbn in Hp. rewrite zlen_snoc. lia. }
    exists (x' :: L). split; [rewrite <- Hp; by rewrite HpL|]. split.
    + constructor; [exact HsL|]. rewrite HpL. exact Hle.
    + rewrite zlen_snoc in EL. rewrite <- !app_assoc in EL. exact EL.
Qed.

Lemma sorted_strict L : NoDup L -> StronglySorted Z.le L -> StronglySorted Z.lt L.
Proof.
  induction L as [|x L IH]; intros Hnd Hs; [constructor|]. inversion Hnd as [|? ? Hx Hnd']; subst. inversion Hs as [|? ? Hs' Hle]; subst.
  constructor; [by apply IH|]. apply list.Forall_forall. intros y Hy. rewrite list.Forall_forall in Hle. specialize (Hle y Hy).
  destruct (decide (x = y)) as [->|]; [done|lia].
Qed.

Lemma strict_NoDup L : StronglySorted Z.lt L -> NoDup L.
Proof.
  induction 1 as [|x l _ IH Hle]; constructor; [|exact IH]. intros Hx. rewrite list.Forall_forall in Hle.
  specialize (Hle x Hx). lia.
Qed.

(** On every buffer with an octet to spare,
    [morse_remove_duplicates_and_sort_buf] leaves what is before the offset, and
    after it the octets that were there, each once and in ascending order. *)
Theorem remove_duplicates_and_sort_correct A C R b :
  R <> [] -> data b = A ++ C ++ R -> used b = zlen (A ++ C) ->
  exists L R', morse_remove_duplicates_and_sort_buf b (zlen A) = Ok (mk_buf (size b) (zlen (A ++ L)) (A ++ L ++ R')) /\
    StronglySorted Z.lt L /\ (forall v, v ∈ L <-> v ∈ C) /\ length (A ++ L ++ R') = length (data b).
Proof.
  intros HR Hd Hu. unfold morse_remove_duplicates_and_sort_buf. rewrite Hd, Hu, zlen_app.
  destruct (dup_outer_Ok (S (Z.to_nat (zlen A + zlen C - zlen A))) A C R) as (L & R' & Hnd & Hin & _ & Hl & E); [exact HR|lia|].
  rewrite E. cbn [mbind outcome_bind].
  destruct (sort_outer_Ok (Z.to_nat (zlen A + zlen L - zlen A)) A L R' (zlen A + zlen L)) as (L' & Hp & Hs & E'); [lia|done|].
  rewrite E'. cbn [mbind outcome_bind]. exists L', R'.
  assert (Hlen : length L' = length L) by (by apply Permutation_length).
  split; [rewrite zlen_app, Hlen; done|]. split; [apply sorted_strict; [by rewrite Hp|done]|].
  split; [intros v; by rewrite Hp, Hin|]. rewrite !length_app in *. lia.
Qed.

Lemma remove_duplicates_and_sort_correct_witness :
  exists L R', morse_remove_duplicates_and_sort_buf (mk_buf 8 6 [59; 0; 73; 64; 65; 64; 0; 0]) (zlen [59; 0]) =
      Ok (mk_buf 8 (zlen ([59; 0] ++ L)) ([59; 0] ++ L ++ R')) /\
    StronglySorted Z.lt L /\ (forall v, v ∈ L <-> v ∈ [73; 64; 65; 64]) /\ length ([59; 0] ++ L ++ R') = length [59; 0; 73; 64; 65; 64; 0; 0].
Proof. apply (remove_duplicates_and_sort_correct [59; 0] [73; 64; 65; 64] [0; 0]); [done|reflexivity|reflexivity]. Defined.

(** In a full buffer the octet after the last one is read. *)
Lemma full_buffer_read_beyond : morse_remove_duplicates_and_sort_buf (mk_buf 4 4 [59; 0; 64; 64]) 2 = Fail OutOfBounds.
Proof. vm_compute. reflexivity. Qed.

(** ** Inserting the classes *)

(** A buffer with [P] in it and [R] behind. *)
Definition holds (P R : bytes) (b : wpabuf) : Prop := data b = P ++ R /\ used b = zlen P /\ size b = zlen (P ++ R).

Lemma put_u8_holds P y R b v : holds P (y :: R) b -> exists b', wpabuf_put_u8 b v = Ok b' /\ holds (P ++ [v]) R b'.
Proof.
  intros (Hd & Hu & Hs). unfold wpabuf_put_u8, wpabuf_put1. rewrite decide_False by (rewrite Hu, Hs, zlen_app, zlen_cons; lia).
  cbn [mbind outcome_bind data size used]. rewrite Hd, Hu, (wr_mid P y R (zlen P) v eq_refl). cbn [mbind outcome_bind].
  eexists. split; [reflexivity|]. unfold holds. cbn [data used size]. rewrite <- app_assoc. cbn [app].
  rewrite zlen_snoc, Hs, !zlen_app, !zlen_cons. done.
Qed.

Definition class_at (c : country) (i : Z) : list Z :=
  match morse_s1g_op_class_valid (u8 i) with
  | (OP_CLASS_S1G_LOCAL, Some class) => if morse_s1g_op_class_has_cc class c then [global_op_class class] else []
  | _ => []
  end.

Lemma insert_loop_holds l c : forall P R b, holds P R b -> (length l <= length R)%nat ->
  exists b' R', insert_loop l c b = Ok b' /\ holds (P ++ (l ≫= class_at c)) R' b' /\
    length ((l ≫= class_at c) ++ R') = length R.
Proof.
  induction l as [|i l IH]; intros P R b Hb Hl; cbn [insert_loop mbind list_bind].
  - exists b, R. rewrite app_nil_r. done.
  - change (mbind (class_at c) (i :: l)) with (class_at c i ++ (l ≫= class_at c)).
    assert (exists b' R', (match morse_s1g_op_class_valid (u8 i) with
           | (OP_CLASS_S1G_LOCAL, Some class) => if morse_s1g_op_class_has_cc class c then wpabuf_put_u8 b (global_op_class class) else Ok b
           | _ => Ok b end) = Ok b' /\ holds (P ++ class_at c i) R' b' /\ length (class_at c i ++ R') = length R) as (b' & R' & E & Hb' & Hl').
    { unfold class_at. destruct (morse_s1g_op_class_valid (u8 i)) as [[] [k|]]; try (exists b, R; rewrite app_nil_r; done).
      destruct (morse_s1g_op_class_has_cc k c); [|exists b, R; rewrite app_nil_r; done].
      destruct R as [|y R]; [cbn in Hl; lia|]. destruct (put_u8_holds P y R b (global_op_class k) Hb) as (b' & E & Hb'). by exists b', R. }
    rewrite E. cbn [mbind outcome_bind].
    assert (Hle : (length (class_at c i) <= 1)%nat) by (unfold class_at; destruct (morse_s1g_op_class_valid (u8 i)) as [[] [k|]]; try (cbn; lia); destruct (morse_s1g_op_class_has_cc k c); cbn; lia).
    destruct (IH (P ++ class_at c i) R' b' Hb') as (b2 & R2 & E2 & Hb2 & Hl2); [rewrite length_app in Hl'; cbn in Hl; lia|].
    exists b2, R2. split; [exact E2|]. split; [by rewrite app_assoc|]. rewrite <- app_assoc, length_app, Hl2, <- length_app. exact Hl'.
Qed.

Lemma class_at_in c v : v ∈ (seqZ 0 S1G_OP_CLASSES_LEN ≫= class_at c) <-> exists k, k ∈ classes_of c /\ v = global_op_class k.
Proof.
  rewrite list_elem_of_bind. split.
  - intros (i & Hv & Hi). unfold class_at in Hv. pose proof (valid_cases (u8 i)) as Hvc.
    destruct (morse_s1g_op_class_valid (u8 i)) as [[] [k|]]; try by apply elem_of_nil in Hv.
    destruct (morse_s1g_op_class_has_cc k c) eqn:Hcc; [|by apply elem_of_nil in Hv]. apply list_elem_of_singleton in Hv as ->.
    exists k. split; [|done]. apply elem_classes_of. by destruct Hvc.
  - intros (k & Hk & ->). apply elem_classes_of in Hk as [Hk Hcc]. pose proof (class_facts k Hk) as (Hval & _ & Hidx & _).
    exists (s1g_op_class_idx k). split; [|apply elem_of_seqZ; change S1G_OP_CLASSES_LEN with 32; lia].
    unfold class_at. rewrite u8_id by (unfold is_u8; lia). rewrite Hval, Hcc. by left.
Qed.

(** ** The element *)

Lemma insert_supported_holds P R b c w ch k :
  holds P R b -> (33 <= length R)%nat -> morse_s1g_ch_to_op_class (u8 w) (Some c) ch = Some k ->
  exists b' R', morse_insert_supported_op_class b c w ch = Ok (b', MORSE_SUCCESS) /\
    holds (P ++ global_op_class k :: (seqZ 0 S1G_OP_CLASSES_LEN ≫= class_at c)) R' b' /\
    S (length ((seqZ 0 S1G_OP_CLASSES_LEN ≫= class_at c) ++ R')) = length R.
Proof.
  intros Hb HR Hk. unfold morse_insert_supported_op_class. rewrite Hk. destruct R as [|y R]; [cbn in HR; lia|].
  destruct (put_u8_holds P y R b (global_op_class k) Hb) as (b1 & E1 & H1). rewrite E1. cbn [mbind outcome_bind].
  destruct (insert_loop_holds (seqZ 0 S1G_OP_CLASSES_LEN) c _ _ _ H1) as (b2 & R2 & E2 & H2 & Hl); [change (length (seqZ 0 S1G_OP_CLASSES_LEN)) with 32%nat; cbn in HR; lia|].
  exists b2, R2. rewrite E2. split; [reflexivity|]. rewrite <- app_assoc in H2. split; [exact H2|cbn; by rewrite Hl].
Qed.

(** What the channel width octet of an S1G Operation element says. *)
Definition width_of (ch_width : Z) : Z :=
  u8 (Z.shiftr (Z.land ch_width S1G_OPERATION_OPERATING_CHANNEL_WIDTH_MASK) S1G_OPERATION_OPERATING_CHANNEL_WIDTH_SHIFT + 1).

Lemma class_count c : (length (seqZ 0 S1G_OP_CLASSES_LEN ≫= class_at c) <= 31)%nat.
Proof.
  assert (H : forall l, (length (l ≫= class_at c) <= length l)%nat).
  { induction l as [|i l IH]; [done|]. change (mbind (class_at c) (i :: l)) with (class_at c i ++ (l ≫= class_at c)).
    rewrite length_app. cbn [length].
    assert ((length (class_at c i) <= 1)%nat) by (unfold class_at; destruct (morse_s1g_op_class_valid (u8 i)) as [[] [k|]]; try (cbn; lia); destruct (morse_s1g_op_class_has_cc k c); cbn; lia).
    lia. }
  exact (H (seqZ 1 31)).
Qed.

Lemma read_ht_Ok pairs c ht_ie : match ht_ie with Some ie => 4 <= zlen ie | None => True end -> exists f, read_ht pairs c ht_ie = Ok f.
Proof.
  intros H. unfold read_ht. destruct ht_ie as [ie|]; [|by eexists].
  destruct (rd_Ok ie 1) as (l & -> & _); [lia|]. cbn [mbind outcome_bind]. case_decide; [|by eexists].
  destruct (rd_Ok ie 2) as (p & -> & _); [lia|]. destruct (rd_Ok ie 3) as (q & -> & _); [lia|]. by eexists.
Qed.

(** C32: for every BSS with a Country element and an S1G Operation element whose
    width and channel belong to a class of the country, whatever its HT and VHT
    elements, the Supported Operating Classes element lists the current class
    first and then the global classes of the country, each once and ascending; it
    fits the buffer, and is left out only if it is longer than the room given. *)
Theorem supported_classes_element pairs c0 c1 cie ht_ie e l w cls prim ch rest vht_ie len k :
  let c := (c0, c1) in
  match ht_ie with Some ie => 4 <= zlen ie | None => True end ->
  4 <= l -> morse_s1g_ch_to_op_class (u8 (width_of w)) (Some c) ch = Some k ->
  exists L, StronglySorted Z.lt L /\ (forall v, v ∈ L <-> exists k', k' ∈ classes_of c /\ v = global_op_class k') /\
    wpas_supp_s1g_op_class_ie pairs true (Some (7 :: 3 :: c0 :: c1 :: cie)) ht_ie (Some (e :: l :: w :: cls :: prim :: ch :: rest)) vht_ie len =
    Ok (if decide (zlen L + 3 <= len) then Some (WLAN_EID_SUPPORTED_OPERATING_CLASSES :: zlen L + 1 :: global_op_class k :: L) else None).
Proof.
  intros c Hht Hl Hk. destruct (read_ht_Ok pairs c ht_ie Hht) as (f & Hf).
  assert (H0 : holds [] (replicate 35 0) (wpabuf_alloc (S1G_OP_CLASSES_LEN + S1G_OP_CLASS_IE_LEN))) by (by split).
  destruct (put_u8_holds [] 0 (replicate 34 0) _ WLAN_EID_SUPPORTED_OPERATING_CLASSES H0) as (b1 & E1 & H1). cbn [app] in H1.
  assert (H2 : exists b2, wpabuf_put1 b1 = Ok (b2, 1) /\ holds [WLAN_EID_SUPPORTED_OPERATING_CLASSES; 0] (replicate 33 0) b2).
  { destruct H1 as (Hd & Hu & Hs). unfold wpabuf_put1. rewrite Hu, Hs. eexists. split; [reflexivity|]. by split. }
  destruct H2 as (b2 & E2 & H2).
  destruct (insert_supported_holds _ _ b2 c (width_of w) ch k H2) as (b3 & R3 & E3 & H3 & Hl3); [rewrite length_replicate; lia|exact Hk|].
  set (X := seqZ 0 S1G_OP_CLASSES_LEN ≫= class_at c) in *. destruct H3 as (Hd3 & Hu3 & Hs3).
  destruct (remove_duplicates_and_sort_correct [WLAN_EID_SUPPORTED_OPERATING_CLASSES; 0; global_op_class k] X R3 b3) as (L & R4 & E4 & Hs & Hin & _).
  { pose proof (class_count c) as Hcc. fold X in Hcc. rewrite length_app, length_replicate in Hl3. destruct R3; [cbn in Hl3; lia|done]. }
  { exact Hd3. }
  { exact Hu3. }
  exists L. split; [exact Hs|]. split; [intros v; rewrite Hin; apply class_at_in|].
  assert (Hlen : zlen L <= 32).
  { assert (Hsub : L ⊆+ X) by (apply NoDup_submseteq; [by apply strict_NoDup|intros v Hv; by apply Hin]).
    apply submseteq_length in Hsub. pose proof (class_count c) as Hcc. fold X in Hcc. lia. }
  unfold wpas_supp_s1g_op_class_ie. cbn [negb]. change (rd (7 :: 3 :: c0 :: c1 :: cie) 2) with (Ok c0). change (rd (7 :: 3 :: c0 :: c1 :: cie) 3) with (Ok c1).
  cbn [mbind outcome_bind]. fold c. rewrite Hf. cbn [mbind outcome_bind]. rewrite E1. cbn [mbind outcome_bind]. rewrite E2. cbn [mbind outcome_bind].
  unfold insert_s1g. change (rd (e :: l :: w :: cls :: prim :: ch :: rest) 1) with (Ok l). cbn [mbind outcome_bind]. rewrite (decide_True (P := l >= 4)) by lia.
  change (rd (e :: l :: w :: cls :: prim :: ch :: rest) 2) with (Ok w). change (rd (e :: l :: w :: cls :: prim :: ch :: rest) 5) with (Ok ch).
  cbn [mbind outcome_bind]. fold (width_of w). rewrite E3. cbn [mbind outcome_bind].
  rewrite (decide_False (P := MORSE_SUCCESS = MORSE_S1G_RETURN_ERROR)) by (intros Hn; discriminate Hn). cbn [mbind outcome_bind].
  change S1G_OP_CLASS_IE_LEN with (zlen [WLAN_EID_SUPPORTED_OPERATING_CLASSES; 0; global_op_class k]). rewrite E4. cbn [mbind outcome_bind data used].
  assert (Hu4 : zlen ([WLAN_EID_SUPPORTED_OPERATING_CLASSES; 0; global_op_class k] ++ L) = zlen L + 3) by (rewrite zlen_app; cbn [length]; lia).
  rewrite Hu4. replace (zlen L + 3 - 2) with (zlen L + 1) by lia. rewrite u8_id by (unfold is_u8; lia).
  change ([WLAN_EID_SUPPORTED_OPERATING_CLASSES; 0; global_op_class k] ++ L ++ R4) with ([WLAN_EID_SUPPORTED_OPERATING_CLASSES] ++ 0 :: (global_op_class k :: L ++ R4)).
  rewrite (wr_mid [WLAN_EID_SUPPORTED_OPERATING_CLASSES] 0 _ 1 (zlen L + 1) eq_refl). cbn [mbind outcome_bind app].
  assert (Hne : 1 <= zlen L).
  { assert (Hg : global_op_class k ∈ L).
    { apply Hin, class_at_in. exists k. split; [|done]. unfold morse_s1g_ch_to_op_class in Hk. apply List.find_some in Hk as [Hk1 Hk2].
      apply andb_prop in Hk2 as [_ Hk2]. apply andb_prop in Hk2 as [Hk2 _]. apply elem_classes_of. split; [by apply list_elem_of_In|done]. }
    destruct L; [by apply elem_of_nil in Hg|cbn [length]; lia]. }
  rewrite decide_False by lia. destruct (decide (zlen L + 3 > len)) as [Hgt|Hgt].
  - by rewrite decide_False by lia.
  - rewrite decide_True by lia. f_equal. f_equal. replace (Z.to_nat (zlen L + 3)) with (3 + length L)%nat by lia. cbn. by rewrite take_app_length.
Qed.

Lemma supported_classes_element_witness :
  exists L, StronglySorted Z.lt L /\ (forall v, v ∈ L <-> exists k', k' ∈ classes_of (74, 80) /\ v = global_op_class k') /\
    wpas_supp_s1g_op_class_ie s1g_ht_chan_pairs_jp true (Some (7 :: 3 :: 74 :: 80 :: [32; 9; 13; 30])) None (Some (232 :: 6 :: 6 :: 11 :: 15 :: 36 :: [204; 0])) None 16 =
    Ok (if decide (zlen L + 3 <= 16) then Some (WLAN_EID_SUPPORTED_OPERATING_CLASSES :: zlen L + 1 :: global_op_class jp11 :: L) else None).
Proof. apply (supported_classes_element s1g_ht_chan_pairs_jp 74 80 _ None 232 6 6 11 15 36 _ None 16 jp11); [exact I|lia|reflexivity]. Defined.

(** The classes of Japan's comment: 65 now, and 64, 65 and 73 in all. *)
Example japan_element :
  wpas_supp_s1g_op_class_ie s1g_ht_chan_pairs_jp true (Some [7; 6; 74; 80; 32; 9; 13; 30]) None (Some [232; 6; 6; 11; 15; 36; 204; 0]) None 16 =
  Ok (Some [59; 4; 65; 64; 65; 73]).
Proof. vm_compute. reflexivity. Qed.

(** A VHT Operation element of one octet passes the test of its length. *)
Lemma short_vht_element_read_beyond :
  wpas_supp_s1g_op_class_ie s1g_ht_chan_pairs_default true (Some [7; 6; 85; 83; 32; 1; 51; 36]) None None (Some [192; 1; 1]) 16 = Fail OutOfBounds.
Proof. vm_compute. reflexivity. Qed.

(** ** The frequencies of a beacon request *)

(** A class of the country the map is chosen for: the HT frequencies of all its
    channels, none of them the terminator. *)
Lemma class_frequencies c k :
  c ∈ countries -> k ∈ classes_of c ->
  get_s1g_to_ht_frequency_list (map_of c) true k = Some ((ht_freq c <$> List.filter (enabled k) s1g_channels) ++ [0]) /\
  Forall (fun f => f > 0) (ht_freq c <$> List.filter (enabled k) s1g_channels).
Proof.
  assert (H : forallb (fun c => forallb (fun k => bool_decide (
    get_s1g_to_ht_frequency_list (map_of c) true k = Some ((ht_freq c <$> List.filter (enabled k) s1g_channels) ++ [0]) /\
    Forall (fun f => f > 0) (ht_freq c <$> List.filter (enabled k) s1g_channels))) (classes_of c)) countries = true) by (vm_compute; reflexivity).
  intros Hc Hk. apply (forallb_elem _ _ c H) in Hc. apply (forallb_elem _ _ k Hc) in Hk. by apply bool_decide_eq_true in Hk.
Qed.

(** A request that names a global class reads a pointer that was never set. *)
Lemma global_class_request_uninitialised pairs alloc_ok bss_freq : beacon_request_s1g pairs alloc_ok 71 0 bss_freq = Fail OutOfBounds.
Proof. reflexivity. Qed.
End S1gOpClasses.
